(* ===== verification/_CoqProject ===== *)
-Q . S2P
Prelude.v
Floats.v
GoStrings.v
Util.v
Transformation.v
Kube.v
Api.v
Providers.v
MonitoringProviders.v
MirrorMakerProvider.v
KafkaProvider.v
External.v
Cluster.v
Reconciler.v
KmmConfig.v
KmmDr.v
KafkaClient.v
MirrorMakerConfig.v
Auditor.v
KafkaUsers.v
AkhqCompressor.v
AkhqConfigs.v
AkhqProvider.v
Pool.v
Shutdown.v
Conditions.v
KafkaBrokers.v
KafkaMigration.v
KafkaProgress.v
Shell.v
KafkaRollout.v
KafkaApplied.v
KafkaOrder.v
KafkaController.v
KafkaCycle.v
KafkaExamples.v
KafkaServices.v
ServiceReconcilers.v
BackupDaemon.v
ServiceComponents.v
Exporter.v
Credentials.v
