(* ===== verification/Prelude.v ===== *)
(** * Verification of the Qubership Kafka operator

    The main program, under src/operator, is a Kubernetes operator in Go.  A pool of workers runs one
    manager per controller and API group; a controller is called with the name of a custom
    resource, reads it from the API server, brings Kubernetes objects and the Kafka cluster to what
    the resource asks for, and writes the outcome into the status of the resource.  The controllers
    share helpers (util), operations on Kubernetes objects (controllers/reconciler.go) and a client
    of Kafka (controllers/kafka_client.go).

    ** How the code is modelled

    A Go function that can fail or panic is a function into [outcome]; code with effects is in the
    state monad [M], whose state is kept when an error is returned and when a panic unwinds.  The
    names are those of the code.  Logging is left out.  A pointer or a slice that can be nil is an
    [option] where nil is told apart; a Go map is a [gmap], and code that depends on the order of
    ranging over a map takes that order as an argument.  Integers are [Z], with the wrap-around of
    their width written out where it can matter ([int32_wrap], [int64_wrap]).

    The API server, the brokers behind sarama, the clock and the random source are not part of the
    program.  External.v lists the requests the code makes of them; an environment ([Env]) answers
    each request from a world it may change as it likes.  The state of a run is the world, the
    history of requests with their answers, and the in-memory state of the component.  Theorems
    quantify over every environment and speak of the history, so they hold whatever other clients
    do meanwhile; Cluster.v is a concrete environment on which the witnesses run.

    Library code that the program calls is a class with its documented laws: [Retry] (client-go's
    retry.RetryOnConflict), [Polling] (apimachinery's wait.PollImmediate: a condition is tried until
    it holds, fails, or the turns the clock grants are used up), [Library] (controller-runtime's
    owner references), [Quantities] (resource.ParseQuantity), [Sorter] (sort.Slice), [Shell] (the
    shell in the pods), [Finalizing], [Urls], [Yaml], [Marshaler], [Unmarshaler], [Digest],
    [AclNames].  Components of the program that meet in an interface meet in a class as well:
    [Components] is what the KafkaService controller calls, [LawfulComponents] what it relies on,
    and ServiceComponents.v is the instance.

    ** Files

    - Prelude.v: outcomes, the monads, loops, machine integers, triples, lists.
    - GoStrings.v: the functions of package strings the code uses, with their laws.
    - Floats.v: float64.
    - Util.v: util/util.go, util/numbers.go, util/hash.go.
    - Transformation.v: controllers/kmmconfig/transformation_configurator.go, the edit of the
      transformation properties of mirror maker.
    - Kube.v, Api.v: the Kubernetes objects and the custom resources of api/v1 and api/v7, as
      records.
    - Providers.v: controllers/provider, what the providers share (labels, volumes, environment
      variables, probes) and the providers of the backup daemon.
    - MonitoringProviders.v: monitoring_provider.go and mirror_maker_monitoring_provider.go.
    - MirrorMakerProvider.v: mirror_maker_provider.go, with the text of its configuration.
    - AkhqProvider.v: akhq_provider.go.
    - KafkaProvider.v: kafka_provider.go, the objects of the brokers.
    - External.v: requests, environments, histories and the rules to reason about them.
    - Cluster.v: an API server and a Kafka cluster in memory.
    - Reconciler.v: controllers/reconciler.go.
    - KmmConfig.v: controllers/kmmconfig/kmmconfig_controller.go.
    - KmmDr.v: controllers/handlers, the reading of the mirror maker configuration.
    - KafkaClient.v: controllers/kafka_client.go, with the reassignment of partitions.
    - MirrorMakerConfig.v: the configuration MirrorMakerProvider.v writes, read by KmmDr.v.
    - Auditor.v: controllers/kafkaservice/kafka_replication_auditor.go.
    - KafkaUsers.v: controllers/kafkauser.
    - AkhqConfigs.v: controllers/akhqconfig and controllers/akhqprotobuf; AkhqCompressor.v: the
      compressor of descriptors, over the files of a directory.
    - Pool.v: workers, workers/jobs and cfg, one goroutine over its turns, and the schemes of the
      API groups (groupversion_info.go of api/v1 and api/v7).
    - Shutdown.v: main.go and the goroutines of workers/pool.go side by side, as a transition
      system.
    - Conditions.v: condition.go and status_update.go of controllers/kafka and
      controllers/kafkaservice, over a class of resources with conditions.
    - KafkaBrokers.v: controllers/kafka/kafka_reconciler.go, the rollout, the volumes and the
      migration of the brokers; KafkaMigration.v, KafkaProgress.v (the steps it records),
      KafkaRollout.v, KafkaApplied.v and KafkaOrder.v (the order of a rolling update): its
      properties.
    - Shell.v: what sh makes of the text of a command, as a class with the laws of POSIX, and an
      instance.
    - KafkaController.v: controllers/kafka/kafka_controller.go; KafkaCycle.v: a reconciliation
      cycle from end to end, the controller over the reconciler.
    - KafkaExamples.v: runs of the code of the brokers on a cluster in memory.
    - KafkaServices.v: kafkaservice_controller.go, the switch-over and the reconciliation of the
      components behind the interface [Components].
    - ServiceReconcilers.v: the reconcilers of controllers/kafkaservice for monitoring, AKHQ,
      mirror maker and its monitoring, and integration tests.
    - BackupDaemon.v: backup_daemon_reconciler.go, with the client of the backup daemon.
    - ServiceComponents.v: the reconcilers as the instance of [Components], with its laws.
    - Exporter.v: src/monitoring/main.go, a program of its own that prints metrics of a cluster.
    - Credentials.v: controllers/scram_client.go and util/password.go, adapters of libraries.

    ** What the theorems show

    - Histories and confinement: what a reconciliation reads and writes on each of its branches,
      errors included (KmmConfig, KafkaUsers, Reconciler, Conditions); a KafkaUser only ever
      affects the Kafka user, the ACLs and the secret that belong to it, and of objects the one it
      has read; its finalizer goes last; it is remembered as processed only when the calls that
      write its credentials and ACLs succeeded.
    - The switch-over of disaster recovery (KafkaServices, Conditions, Auditor): a side is reported
      active only after a full replication was seen or was not needed (with the audit's clients of
      the two sides, and up to errors of its counting, which the code drops), the mode asked for is
      reached or the status says failed, a resource is remembered as reconciled only when every
      component was, and the status never leaves its type.
    - Brokers (KafkaProvider, KafkaMigration, KafkaProgress, KafkaRollout, KafkaApplied, KafkaOrder,
      KafkaController, KafkaCycle): the migration to KRaft disconnects nothing from ZooKeeper without
      evidence that the metadata is migrated, and resumes where the status says; a run of it
      records each step after the one it reads once and in order; a rolling update writes the later
      brokers only after it wrote a broker and then saw it ready; the restarts for a resize of a
      volume end; credentials survive the shell they are written through; claims and mounts,
      selectors and labels agree exactly when stated; the reconciler of the brokers remembers
      nothing of a run of its own that failed, and a cycle that returns nil after a change has had
      the objects of every broker accepted, has seen the pods ready or recorded that they are not,
      and has concluded the status.
    - Backups (BackupDaemon): a side becomes standby only after its backup ended, activation
      restores the latest full backup, and what counts as an ended or a failed job.
    - Refinement: the create-or-update operations are one specification, [upsert]; the reconcilers
      of the components fulfil the contract the controller relies on.
    - Builders of objects (Providers and after): the environment of a container is that of the
      specification with the operator's variables on top; the configuration of mirror maker that is
      written for a regular resource is read back by the handler of disaster recovery.
    - Edits of shared text and lists: the mirror maker configuration is read back with exactly the
      requested changes, the transformation properties are edited idempotently, the AKHQ mappings
      of other resources are left alone and deletion undoes an update.
    - The exporter (Exporter): which lines it prints, from which answers of the cluster.
    - Numeric code: a reassignment of partitions is valid and conserves replicas over IEEE floats;
      waits are bounded; message counts and backoffs stay within their bounds and widths.
    - Concurrency: the handshake of the replication auditor with its goroutines as a transition
      system, with its deadlock; the process with the goroutines of its jobs as another (Shutdown):
      the turns read off their history are a run of Pool.v, main returns only after all of them,
      for one of three reasons, the process crashes only when the code of a job panics, and a
      shutdown ends within a bounded number of steps.
    - Deviations: where the code does not do what it means to, a theorem states what it does (the
      findings of the manifest name them).

    ** Fuel and bounds

    The loops of [wait_brokers] and [wait_reassignment] get as many turns as the timeout has
    intervals, those of [update_loop] and [delete_loop] as many as there are mappings, and the
    theorems about them show that this is enough.  [describe_topics] has no bound in the code: its
    theorem is about every number of turns.  [resize_loop] is bounded by the end of a context only:
    its fuel is [turns], and the theorem says how much time the turns take, so that six are enough
    for the ten minutes of the context.  [waitUntilActiveMessagesFlushOut] and [launchJob] take
    the turns the environment grants, and so does every use of [Polling]: the theorems about them
    are for every number of turns, no turn at all included.

    ** Not modelled

    The parsing of the flags and the set up of the logger, the registration of controllers with
    their managers (the functions SetupWithManager, event filters apart), the generated deep copies
    (records are copied by value) and the stub of the API server the tests use.  Case and white
    space beyond ASCII (GoStrings.v), the errors of closing files, which the code ignores
    (AkhqCompressor.v), and the panics of library code, except where a job runs it (Shutdown.v). *)

From stdpp Require Export base list gmap strings pretty sets sorting.
From Stdlib Require Export ZArith Lia Ascii.

(** Strings are written between quotes without a scope key, as in the code. *)
Global Open Scope Z_scope.

(** ** Outcomes of Go functions

    A Go function returns a value, returns a non-nil [error], or panics (an index out of
    range, a nil dereference, a failed type assertion). *)

(** What the code asks of an error: [errors.IsNotFound], [retry]'s conflict test, the
    deadline of a wait, and its text. *)
Inductive reason := ReasonNotFound | ReasonConflict | ReasonDeadline | ReasonOther.

Record gerror := mkErr { err_reason : reason; err_msg : string }.

Global Instance reason_eq_dec : EqDecision reason.
Proof. solve_decision. Defined.

Global Instance gerror_eq_dec : EqDecision gerror.
Proof. solve_decision. Defined.

Definition errorf (msg : string) : gerror := mkErr ReasonOther msg.

Definition IsNotFound (e : gerror) : bool := bool_decide (err_reason e = ReasonNotFound).

Definition IsConflict (e : gerror) : bool := bool_decide (err_reason e = ReasonConflict).

Inductive outcome (A : Type) := Ret (a : A) | Error (e : gerror) | Panic.

Arguments Ret {A} a.
Arguments Error {A} e.
Arguments Panic {A}.

Definition is_ret {A} (o : outcome A) : Prop := ∃ a, o = Ret a.

Global Instance outcome_eq_dec `{EqDecision A} : EqDecision (outcome A).
Proof. solve_decision. Defined.

(** Pure fallible code: [outcome] as a monad. *)
Global Instance outcome_ret : MRet outcome := λ A a, Ret a.

Global Instance outcome_bind : MBind outcome := λ A B f o,
  match o with
  | Ret a => f a
  | Error e => Error e
  | Panic => Panic
  end.

(** [*p]: a nil pointer panics. *)
Definition deref {A} (p : option A) : outcome A :=
  match p with Some a => Ret a | None => Panic end.

(** Stateful fallible code: explicit state passing, the state being kept on an error and
    on a panic (the effects made before them stay). *)
Definition M (S A : Type) : Type := S → outcome A * S.

Global Instance M_ret {S} : MRet (M S) := λ A a s, (Ret a, s).

Global Instance M_bind {S} : MBind (M S) := λ A B f m s,
  match m s with
  | (Ret a, s') => f a s'
  | (Error e, s') => (Error e, s')
  | (Panic, s') => (Panic, s')
  end.

Definition throw {S A} (e : gerror) : M S A := λ s, (Error e, s).

Definition panic {S A} : M S A := λ s, (Panic, s).

Definition lift {S A} (o : outcome A) : M S A := λ s, (o, s).

Definition get_st {S} : M S S := λ s, (Ret s, s).

Definition put_st {S} (s : S) : M S unit := λ _, (Ret tt, s).

Definition modify {S} (f : S → S) : M S unit := λ s, (Ret tt, f s).

Definition gets {S A} (f : S → A) : M S A := λ s, (Ret (f s), s).

(** [x, err := m()]: the error becomes a value, a panic still unwinds. *)
Definition try {S A} (m : M S A) : M S (A + gerror) := λ s,
  match m s with
  | (Ret a, s') => (Ret (inl a), s')
  | (Error e, s') => (Ret (inr e), s')
  | (Panic, s') => (Panic, s')
  end.

(** [for _, x := range l { if err := f(x); err != nil { return err } }] *)
Fixpoint for_each {S A} (f : A → M S unit) (l : list A) : M S unit :=
  match l with
  | [] => mret tt
  | x :: l => f x;; for_each f l
  end.

(** [for i := a; i <= b; i++]: the integers the loop visits. *)
Definition range_incl (a b : Z) : list Z := (λ k : nat, a + Z.of_nat k) <$> seq 0 (Z.to_nat (b - a + 1)).

(** [a[i]]: an index out of range panics. *)
Definition index {A} (l : list A) (i : Z) : outcome A :=
  if decide (0 ≤ i) then
    match l !! Z.to_nat i with Some x => Ret x | None => Panic end
  else Panic.

(** [m[k]] on a map returns the zero value of a missing key. *)
Definition map_get {V} (zero : V) (m : gmap string V) (k : string) : V := default zero (m !! k).

Abbreviation strmap := (gmap string string).

Definition sget (m : strmap) (k : string) : string := map_get "" m k.

Lemma sget_insert (m : strmap) key key' v : sget (<[key := v]> m) key' = if decide (key' = key) then v else sget m key'.
Proof. unfold sget, map_get. case_decide as E; [subst; by rewrite lookup_insert_eq|by rewrite lookup_insert_ne]. Qed.

(** ** Machine integers *)

Definition int32_wrap (z : Z) : Z := (z + 2 ^ 31) mod 2 ^ 32 - 2 ^ 31.
Definition int64_wrap (z : Z) : Z := (z + 2 ^ 63) mod 2 ^ 64 - 2 ^ 63.

Definition in_int32 (z : Z) : Prop := - 2 ^ 31 ≤ z < 2 ^ 31.
Definition in_int64 (z : Z) : Prop := - 2 ^ 63 ≤ z < 2 ^ 63.

Lemma int64_wrap_id z : in_int64 z → int64_wrap z = z.
Proof. unfold in_int64, int64_wrap. intros. rewrite Z.mod_small; lia. Qed.

Lemma int32_wrap_id z : in_int32 z → int32_wrap z = z.
Proof. unfold in_int32, int32_wrap. intros. rewrite Z.mod_small; lia. Qed.

(** ** Automation *)

Create HintDb operator.

(** Unfold the monad one step at a time, case on what a call returned. *)
Ltac go_step :=
  match goal with
  | H : context [match ?x with _ => _ end] |- _ => destruct x eqn:?; simplify_eq/=
  | |- context [match ?x with _ => _ end] => destruct x eqn:?; simplify_eq/=
  end.

Ltac unfold_M :=
  unfold mbind, M_bind, mret, M_ret, outcome_bind, outcome_ret, try, throw, lift, gets,
    get_st, put_st, modify, panic in *.

Ltac go_cases := unfold_M; repeat go_step; try done.

(** ** Monad laws and loops *)

Section monad.
Context {S : Type}.

Lemma bind_ret_l {A B} (a : A) (f : A → M S B) s : (mret a ≫= f) s = f a s.
Proof. done. Qed.

Lemma bind_Ret {A B} (m : M S A) (f : A → M S B) s a s' :
  m s = (Ret a, s') → (m ≫= f) s = f a s'.
Proof. intros H. unfold mbind, M_bind. by rewrite H. Qed.

Lemma bind_Error {A B} (m : M S A) (f : A → M S B) s e s' :
  m s = (Error e, s') → (m ≫= f) s = (Error e, s').
Proof. intros H. unfold mbind, M_bind. by rewrite H. Qed.

Lemma bind_inv {A B} (m : M S A) (f : A → M S B) s b s' :
  (m ≫= f) s = (Ret b, s') → ∃ a s1, m s = (Ret a, s1) ∧ f a s1 = (Ret b, s').
Proof. unfold mbind, M_bind. destruct (m s) as [[a|e|] s1]; naive_solver. Qed.

(** A loop that returns nil ran its body on every element, each time to nil. *)
Lemma for_each_app {A} (f : A → M S unit) l1 l2 s :
  for_each f (l1 ++ l2) s = (for_each f l1;; for_each f l2) s.
Proof.
  revert s. induction l1 as [|x l1 IH]; intros s; [done|].
  cbn. unfold mbind, M_bind. destruct (f x s) as [[[]|e|] s1]; [|done..].
  specialize (IH s1). unfold mbind, M_bind in IH. done.
Qed.

(** A loop keeps an invariant that its body keeps, whatever the body returns. *)
Lemma for_each_inv {A} (P : S → Prop) (f : A → M S unit) l s o s' :
  (∀ x s o s', x ∈ l → P s → f x s = (o, s') → P s') →
  P s → for_each f l s = (o, s') → P s'.
Proof.
  revert s. induction l as [|x l IH]; intros s Hf Hs; [by intros [= <- <-]|].
  cbn. unfold mbind, M_bind. destruct (f x s) as [[[]|e|] s1] eqn:E.
  - intros. eapply (IH s1); eauto. { intros. eapply Hf; eauto. set_solver. }
    eapply Hf; eauto. set_solver.
  - intros [= <- <-]. eapply Hf; eauto. set_solver.
  - intros [= <- <-]. eapply Hf; eauto. set_solver.
Qed.

End monad.

(** ** Triples

    [{{ P }} m {{ Q | E }}]: from a state in [P] the code returns a value and a state in [Q], or
    returns an error or panics in a state in [E]. *)
Definition triple {S A} (P : S → Prop) (m : M S A) (Q : A → S → Prop) (E : S → Prop) : Prop :=
  ∀ s, P s → match m s with
             | (Ret a, s') => Q a s'
             | (_, s') => E s'
             end.

Section triples.
Context {S : Type}.
Implicit Types P E : S → Prop.

Lemma triple_ret {A} P E (a : A) Q : (∀ s, P s → Q a s) → triple P (mret a) Q E.
Proof. intros H s Hs. by apply H. Qed.

Lemma triple_throw {A} P E (Q : A → S → Prop) e : (∀ s, P s → E s) → triple P (throw e) Q E.
Proof. intros H s Hs. by apply H. Qed.

Lemma triple_panic {A} P E (Q : A → S → Prop) : (∀ s, P s → E s) → triple P panic Q E.
Proof. intros H s Hs. by apply H. Qed.

Lemma triple_lift {A} P E (Q : A → S → Prop) o :
  (∀ s, P s → E s) → (∀ a s, o = Ret a → P s → Q a s) → triple P (lift o) Q E.
Proof. intros He Hq s Hs. unfold lift. destruct o; eauto. Qed.

Lemma triple_gets {A} P E (f : S → A) Q : (∀ s, P s → Q (f s) s) → triple P (gets f) Q E.
Proof. intros H s Hs. by apply H. Qed.

Lemma triple_modify P E f Q : (∀ s, P s → Q tt (f s)) → triple P (modify f) Q E.
Proof. intros H s Hs. by apply H. Qed.

Lemma triple_bind {A B} P E (m : M S A) (f : A → M S B) R Q :
  triple P m R E → (∀ a, triple (R a) (f a) Q E) → triple P (m ≫= f) Q E.
Proof.
  intros Hm Hf s Hs. unfold mbind, M_bind. specialize (Hm s Hs).
  destruct (m s) as [[a|e|] s1]; [by apply Hf|done..].
Qed.

Lemma triple_try {A} P E (m : M S A) Q :
  triple P m (λ a, Q (inl a)) (λ s, E s ∧ ∀ e, Q (inr e) s) → triple P (try m) Q E.
Proof.
  intros Hm s Hs. specialize (Hm s Hs). unfold try.
  destruct (m s) as [[a|e|] s1]; naive_solver.
Qed.

Lemma triple_conseq {A} P P' E E' (m : M S A) Q Q' :
  triple P' m Q' E' → (∀ s, P s → P' s) → (∀ a s, Q' a s → Q a s) → (∀ s, E' s → E s) →
  triple P m Q E.
Proof.
  intros Hm HP HQ HE s Hs. specialize (Hm s (HP _ Hs)).
  destruct (m s) as [[a|e|] s1]; eauto.
Qed.

Lemma triple_for_each {A} P E (f : A → M S unit) l :
  (∀ x, x ∈ l → triple P (f x) (λ _, P) E) → triple P (for_each f l) (λ _, P) E.
Proof.
  induction l as [|x l IH]; intros H; cbn; [by apply triple_ret|].
  eapply triple_bind; [apply H; set_solver|]. intros []. apply IH. set_solver.
Qed.

End triples.

(** ** Lists *)

Lemma range_incl_spec a b i : i ∈ range_incl a b ↔ a ≤ i ≤ b.
Proof.
  unfold range_incl. rewrite list_elem_of_fmap. setoid_rewrite elem_of_seq. split.
  - intros (k & -> & ?). lia.
  - intros. exists (Z.to_nat (i - a)). lia.
Qed.

Lemma range_incl_NoDup a b : NoDup (range_incl a b).
Proof. unfold range_incl. apply NoDup_fmap_2; [intros ???; lia | apply NoDup_seq]. Qed.

Lemma index_Ret {A} (l : list A) i x : index l i = Ret x ↔ 0 ≤ i ∧ l !! Z.to_nat i = Some x.
Proof. unfold index. case_decide; [|naive_solver lia]. destruct (l !! _); naive_solver. Qed.

Lemma index_Panic {A} (l : list A) i : index l i = Panic ↔ i < 0 ∨ Z.of_nat (length l) ≤ i.
Proof.
  unfold index. case_decide as Hi; [|naive_solver lia].
  destruct (l !! Z.to_nat i) eqn:E.
  - apply lookup_lt_Some in E. split; [done | lia].
  - apply lookup_ge_None in E. split; [right; lia | done].
Qed.

Lemma filter_all {A} (P : A → Prop) `{!∀ x, Decision (P x)} l : Forall P l → filter P l = l.
Proof. induction 1; [done|]. rewrite filter_cons, decide_True by done. by f_equal. Qed.

Lemma filter_none {A} (P : A → Prop) `{!∀ x, Decision (P x)} l :
  Forall (λ x, ¬ P x) l → filter P l = [].
Proof. induction 1; [done|]. by rewrite filter_cons, decide_False by done. Qed.

Lemma Forall_filter {A} (P Q : A → Prop) `{!∀ x, Decision (Q x)} l : Forall P l → Forall P (filter Q l).
Proof. induction 1 as [|x l Hx HF IH]; [constructor|]. rewrite filter_cons. case_decide; [by constructor|done]. Qed.

(** Sums of integers over a list. *)
Fixpoint zsum {A} (f : A → Z) (l : list A) : Z :=
  match l with
  | [] => 0
  | x :: l => f x + zsum f l
  end.

Lemma zsum_app {A} (f : A → Z) l1 l2 : zsum f (l1 ++ l2) = zsum f l1 + zsum f l2.
Proof. induction l1; cbn; lia. Qed.

Lemma zsum_perm {A} (f : A → Z) l1 l2 : l1 ≡ₚ l2 → zsum f l1 = zsum f l2.
Proof. induction 1; cbn; lia. Qed.

Lemma zsum_ext {A} (f g : A → Z) l : (∀ x, x ∈ l → f x = g x) → zsum f l = zsum g l.
Proof.
  induction l as [|x l IH]; intros H; cbn; [done|].
  rewrite IH by set_solver. rewrite H by set_solver. done.
Qed.

#[export] Hint Resolve range_incl_NoDup : operator.
