(* ===== verification/Floats.v ===== *)
(** * Floats

    Go's float64 as IEEE binary64 numbers (Stdlib's SpecFloat): the operations the program uses. *)

From S2P Require Import Prelude.
From Stdlib Require Export Floats.SpecFloat.

Abbreviation float64 := spec_float.

Definition f64_add : float64 → float64 → float64 := SFadd 53 1024.
Definition f64_sub : float64 → float64 → float64 := SFsub 53 1024.
Definition f64_mul : float64 → float64 → float64 := SFmul 53 1024.
Definition f64_div : float64 → float64 → float64 := SFdiv 53 1024.

(** [float64(n)] of an integer. *)
Definition f64_of_Z (n : Z) : float64 := binary_normalize 53 1024 n 0 false.

(** [math.Round]: to the nearest integer, halves away from zero. *)
Definition f64_Round (x : float64) : float64 :=
  match x with
  | S754_finite s m e =>
      if decide (0 ≤ e) then x
      else
        let d := 2 ^ (- e) in
        let q := Z.pos m / d in
        let q := if decide (d ≤ 2 * (Z.pos m mod d)) then q + 1 else q in
        if decide (q = 0) then S754_zero s else f64_of_Z (if s then - q else q)
  | _ => x
  end.

(** [int32(x)] of a finite number: truncation. *)
Definition f64_to_int (x : float64) : Z :=
  match x with
  | S754_finite s m e =>
      let a := if decide (0 ≤ e) then Z.pos m * 2 ^ e else Z.pos m / 2 ^ (- e) in
      if s then - a else a
  | _ => 0
  end.

Definition f64_is_zero (x : float64) : bool := SFeqb x (S754_zero false).
