(* ===== verification/GoStrings.v ===== *)
(** * The parts of Go's [strings], [sort] and [strconv] packages the operator calls

    Strings are byte strings.  [Split] is given for one-byte separators, the only ones the
    operator uses.  [TrimSpace], [ToLower], [ToUpper] and [EqualFold] act on ASCII bytes and leave the bytes of
    multi-byte runes alone, where Go's functions also know the white space and the letters of the
    rest of Unicode: what is proved with them is about texts of which only the ASCII part has
    case or is trimmed.  [sort.Strings] orders by bytes; its result does not depend on the
    sorting algorithm ([sort_Strings_perm]). *)

From S2P Require Import Prelude.

(** ** Definitions *)

(** [strings.HasPrefix(s, prefix)] *)
Definition HasPrefix (s prefix : string) : bool := String.prefix prefix s.

Fixpoint has_char (c : ascii) (s : string) : bool :=
  match s with
  | EmptyString => false
  | String a s => bool_decide (a = c) || has_char c s
  end.

(** [strings.Contains(s, sub)] *)
Fixpoint Contains_str (s sub : string) : bool :=
  HasPrefix s sub ||
  match s with
  | EmptyString => false
  | String _ s => Contains_str s sub
  end.

(** [strings.Split(s, sep)] for a one-byte separator. *)
Fixpoint Split (s : string) (sep : ascii) : list string :=
  match s with
  | EmptyString => [""]
  | String a s =>
      if bool_decide (a = sep) then "" :: Split s sep
      else match Split s sep with
           | [] => [String a ""]
           | w :: ws => String a w :: ws
           end
  end.

(** [strings.SplitN(s, sep, 2)]: what stands before and, if there is one, after the first
    separator. *)
Fixpoint SplitN2 (s : string) (sep : ascii) : string * option string :=
  match s with
  | EmptyString => ("", None)
  | String a s =>
      if bool_decide (a = sep) then ("", Some s)
      else let '(b, r) := SplitN2 s sep in (String a b, r)
  end.

(** [strings.Join(l, sep)] *)
Definition Join (l : list string) (sep : string) : string := String.concat sep l.

Fixpoint trim_left (p : ascii → bool) (s : string) : string :=
  match s with
  | EmptyString => ""
  | String a s' => if p a then trim_left p s' else s
  end.

Fixpoint trim_right (p : ascii → bool) (s : string) : string :=
  match s with
  | EmptyString => ""
  | String a s =>
      let t := trim_right p s in
      if bool_decide (t = "") && p a then "" else String a t
  end.

Definition trim (p : ascii → bool) (s : string) : string := trim_right p (trim_left p s).

Definition is_blank (a : ascii) : bool := bool_decide (a = " "%char).

(** [strings.Trim(s, " ")] *)
Definition Trim (s : string) : string := trim is_blank s.

(** [strings.TrimSpace(s)] *)
Definition TrimSpace (s : string) : string := trim Ascii.is_space s.

(** [s[n:]] for [n] at most [len(s)]. *)
Fixpoint sdrop (n : nat) (s : string) : string :=
  match n, s with
  | O, _ => s
  | S n, EmptyString => ""
  | S n, String _ s => sdrop n s
  end.

(** [s[:n]] for [n] at most [len(s)]. *)
Fixpoint stake (n : nat) (s : string) : string :=
  match n, s with
  | O, _ => ""
  | S n, EmptyString => ""
  | S n, String a s => String a (stake n s)
  end.

(** [strings.ReplaceAll(s, old, new)] for a non-empty [old]; [skip] counts the bytes of a
    match still to be left out. *)
Fixpoint replace_go (old new : string) (skip : nat) (s : string) : string :=
  match s with
  | EmptyString => ""
  | String a s' =>
      match skip with
      | S k => replace_go old new k s'
      | O =>
          if HasPrefix s old then new +:+ replace_go old new (String.length old - 1) s'
          else String a (replace_go old new 0 s')
      end
  end.

Definition ReplaceAll (s old new : string) : string := replace_go old new 0 s.

Definition lower (a : ascii) : ascii :=
  let n := nat_of_ascii a in
  if (65 <=? n)%nat && (n <=? 90)%nat then ascii_of_nat (n + 32) else a.

(** [strings.ToLower(s)] *)
Fixpoint ToLower (s : string) : string :=
  match s with
  | EmptyString => ""
  | String a s => String (lower a) (ToLower s)
  end.

Definition upper (a : ascii) : ascii :=
  let n := nat_of_ascii a in
  if (97 <=? n)%nat && (n <=? 122)%nat then ascii_of_nat (n - 32) else a.

(** [strings.ToUpper(s)] *)
Fixpoint ToUpper (s : string) : string :=
  match s with
  | EmptyString => ""
  | String a s => String (upper a) (ToUpper s)
  end.

(** [strings.EqualFold(a, b)] *)
Definition EqualFold (a b : string) : bool := bool_decide (ToLower a = ToLower b).

(** [strings.LastIndex(s, sep)] for a one-byte separator. *)
Fixpoint LastIndex (s : string) (sep : ascii) : option nat :=
  match s with
  | EmptyString => None
  | String a s =>
      match LastIndex s sep with
      | Some i => Some (S i)
      | None => if bool_decide (a = sep) then Some O else None
      end
  end.

(** [sort.Strings(l)] *)
Definition sort_Strings (l : list string) : list string := merge_sort String.le l.

(** [fmt.Sprintf("%d", n)] *)
Definition itoa (n : Z) : string := pretty n.

Definition newline : ascii := "010"%char.

Definition nl : string := String newline "".

(** ** Append *)

Lemma app_cons a s t : String a s +:+ t = String a (s +:+ t).
Proof. done. Qed.

Lemma app_empty_l s : "" +:+ s = s.
Proof. done. Qed.

Lemma app_empty_r s : s +:+ "" = s.
Proof. induction s; [done|]. by rewrite app_cons, IHs. Qed.

Lemma app_assoc_s s t u : (s +:+ t) +:+ u = s +:+ t +:+ u.
Proof. induction s; [done|]. by rewrite !app_cons, IHs. Qed.

Lemma app_inj_l s t u : s +:+ t = s +:+ u → t = u.
Proof. intros H. by apply String.app_inj in H. Qed.

Lemma length_app_s s t : String.length (s +:+ t) = (String.length s + String.length t)%nat.
Proof. induction s; [done|]. rewrite app_cons. cbn. by rewrite IHs. Qed.

Lemma app_inj_len s1 s2 t1 t2 :
  String.length s1 = String.length s2 → s1 +:+ t1 = s2 +:+ t2 → s1 = s2 ∧ t1 = t2.
Proof.
  revert s2. induction s1 as [|a s1 IH]; intros [|b s2] Hl H; cbn in Hl; try done.
  rewrite !app_cons in H. injection H as -> H. apply IH in H as [-> ->]; auto.
Qed.

(** ** Prefixes *)

Lemma HasPrefix_spec s p : HasPrefix s p = true ↔ ∃ t, s = p +:+ t.
Proof.
  unfold HasPrefix. revert s. induction p as [|a p IH]; intros s.
  - split; [|by destruct s]. intros _. by exists s.
  - destruct s as [|b s]; cbn.
    { split; [done|]. intros [t Ht]. by rewrite app_cons in Ht. }
    destruct (ascii_dec a b) as [->|Hne].
    + rewrite IH. split; intros [t Ht]; exists t; [by subst|].
      rewrite app_cons in Ht. congruence.
    + split; [done|]. intros [t Ht]. rewrite app_cons in Ht. congruence.
Qed.

Lemma HasPrefix_cons a s b t : HasPrefix (String a s) (String b t) = bool_decide (a = b) && HasPrefix s t.
Proof.
  unfold HasPrefix. cbn [String.prefix]. destruct (ascii_dec b a) as [->|Hn].
  - by rewrite bool_decide_eq_true_2.
  - by rewrite bool_decide_eq_false_2.
Qed.

Lemma HasPrefix_empty s : HasPrefix s "" = true.
Proof. by destruct s. Qed.

Lemma HasPrefix_app s t : HasPrefix (s +:+ t) s = true.
Proof. apply HasPrefix_spec. eauto. Qed.

Lemma HasPrefix_refl s : HasPrefix s s = true.
Proof. apply HasPrefix_spec. exists "". by rewrite app_empty_r. Qed.

Lemma HasPrefix_trans s t u : HasPrefix s t = true → HasPrefix t u = true → HasPrefix s u = true.
Proof.
  rewrite !HasPrefix_spec. intros [x ->] [y ->]. rewrite app_assoc_s. eauto.
Qed.

Lemma HasPrefix_app_iff p s t : HasPrefix (p +:+ s) (p +:+ t) = HasPrefix s t.
Proof.
  apply eq_bool_prop_intro. rewrite !Is_true_true, !HasPrefix_spec. split; intros [x Hx].
  - rewrite app_assoc_s in Hx. apply app_inj_l in Hx. eauto.
  - subst. exists x. by rewrite app_assoc_s.
Qed.

Lemma sdrop_app p s : sdrop (String.length p) (p +:+ s) = s.
Proof. induction p; [done|]. rewrite app_cons. cbn. done. Qed.

(** ** Characters of a string *)

Lemma has_char_app c s t : has_char c (s +:+ t) = has_char c s || has_char c t.
Proof. induction s; [done|]. rewrite app_cons. cbn. by rewrite IHs, orb_assoc. Qed.

(** ** Split and Join *)

Lemma Split_not_nil s c : Split s c ≠ [].
Proof. destruct s; cbn; [done|]. case_bool_decide; [done|]. by destruct (Split s c). Qed.

Lemma Split_cons s c : ∃ w ws, Split s c = w :: ws.
Proof. pose proof (Split_not_nil s c). destruct (Split s c); naive_solver. Qed.

Lemma Split_pieces s c : Forall (λ w, has_char c w = false) (Split s c).
Proof.
  induction s as [|a s IH]; cbn; [by repeat constructor|].
  case_bool_decide; [by constructor|].
  destruct (Split_cons s c) as (w & ws & E). rewrite E in *. inversion IH; subst.
  constructor; [|done]. cbn. by rewrite bool_decide_false.
Qed.

Lemma Join_cons w w' ws sep : Join (w :: w' :: ws) sep = w +:+ sep +:+ Join (w' :: ws) sep.
Proof. done. Qed.

Lemma Join_single w sep : Join [w] sep = w.
Proof. done. Qed.

Lemma Join_head_cons a w ws sep : Join (String a w :: ws) sep = String a (Join (w :: ws) sep).
Proof. destruct ws; [done|]. by rewrite !Join_cons, app_cons. Qed.

Lemma Join_Split s c : Join (Split s c) (String c "") = s.
Proof.
  induction s as [|a s IH]; [done|]. cbn [Split].
  destruct (Split_cons s c) as (w & ws & E). rewrite E in *.
  case_bool_decide as Ha; [subst a|].
  - by rewrite Join_cons, app_empty_l, app_cons, app_empty_l, IH.
  - by rewrite Join_head_cons, IH.
Qed.

Lemma Split_no_char s c : has_char c s = false → Split s c = [s].
Proof.
  induction s as [|a s IH]; [done|]. cbn. rewrite orb_false_iff.
  intros [H%bool_decide_eq_false_1 Hs]. rewrite bool_decide_false by done. by rewrite IH.
Qed.

Lemma Split_app s t c : has_char c s = false → Split (s +:+ String c t) c = s :: Split t c.
Proof.
  induction s as [|a s IH]; cbn.
  - intros _. rewrite app_empty_l. cbn. by rewrite bool_decide_true.
  - rewrite orb_false_iff. intros [H%bool_decide_eq_false_1 Hs].
    rewrite app_cons. cbn. rewrite bool_decide_false by done. by rewrite IH.
Qed.

Lemma Split_Join l c :
  l ≠ [] → Forall (λ w, has_char c w = false) l → Split (Join l (String c "")) c = l.
Proof.
  intros Hne HF. induction HF as [|w l Hw HF IH]; [done|].
  destruct l as [|w' ws]; [by apply Split_no_char|].
  rewrite Join_cons, app_cons, app_empty_l, Split_app by done. by rewrite IH.
Qed.

Lemma SplitN2_has s c b r : SplitN2 s c = (b, Some r) → s = b +:+ String c r ∧ has_char c b = false.
Proof.
  revert b r. induction s as [|a s IH]; intros b r; cbn; [done|].
  case_bool_decide; subst; [by intros [= <- <-]|].
  destruct (SplitN2 s c) as [b' r'] eqn:E. intros [= <- ->].
  destruct (IH b' r) as [-> Hb]; [done|]. rewrite app_cons. cbn.
  by rewrite bool_decide_false.
Qed.

Lemma SplitN2_none s c b : SplitN2 s c = (b, None) ↔ b = s ∧ has_char c s = false.
Proof.
  revert b. induction s as [|a s IH]; intros b; cbn; [naive_solver|].
  case_bool_decide as Ha; cbn; [naive_solver|].
  destruct (SplitN2 s c) as [b' [r'|]] eqn:E; cbn.
  - split; [done|]. intros [-> H]. destruct (IH s) as [_ IH2]. specialize (IH2 (conj eq_refl H)).
    congruence.
  - destruct (IH b') as [[-> H] _]; [done|]. rewrite H. naive_solver.
Qed.

(** ** Trimming *)

Lemma trim_left_id p a s : p a = false → trim_left p (String a s) = String a s.
Proof. cbn. by intros ->. Qed.

Lemma trim_left_idem p s : trim_left p (trim_left p s) = trim_left p s.
Proof. induction s as [|a s IH]; [done|]. cbn. destruct (p a) eqn:E; [done|]. cbn. by rewrite E. Qed.

Lemma trim_right_idem p s : trim_right p (trim_right p s) = trim_right p s.
Proof.
  induction s as [|a s IH]; [done|]. cbn.
  destruct (bool_decide (trim_right p s = "") && p a) eqn:E; [done|]. cbn. by rewrite IH, E.
Qed.

Lemma trim_right_head p a s :
  p a = false → ∃ t, trim_right p (String a s) = String a t ∧ t = trim_right p s.
Proof. intros H. cbn. rewrite H, andb_false_r. eauto. Qed.

Lemma trim_left_cases p s : trim_left p s = "" ∨ ∃ a t, trim_left p s = String a t ∧ p a = false.
Proof.
  induction s as [|a s IH]; [by left|]. cbn. destruct (p a) eqn:E; [done|]. right. eauto.
Qed.

Lemma trim_idem p s : trim p (trim p s) = trim p s.
Proof.
  unfold trim. destruct (trim_left_cases p s) as [E|(a & t & E & Ha)]; rewrite E; [done|].
  destruct (trim_right_head p a t Ha) as (u & -> & ->).
  rewrite (trim_left_id _ _ _ Ha).
  destruct (trim_right_head p a (trim_right p t) Ha) as (v & -> & ->). by rewrite trim_right_idem.
Qed.

Lemma has_char_trim_left c p s : has_char c s = false → has_char c (trim_left p s) = false.
Proof.
  induction s as [|a s IH]; [done|]. cbn. rewrite orb_false_iff. intros [Ha Hs].
  destruct (p a); [auto|]. cbn. by rewrite Ha, Hs.
Qed.

Lemma has_char_trim_right c p s : has_char c s = false → has_char c (trim_right p s) = false.
Proof.
  induction s as [|a s IH]; [done|]. cbn. rewrite orb_false_iff. intros [Ha Hs].
  destruct (_ && p a); [done|]. cbn. rewrite Ha. auto.
Qed.

Lemma has_char_trim c p s : has_char c s = false → has_char c (trim p s) = false.
Proof. intros. by apply has_char_trim_right, has_char_trim_left. Qed.

(** A string that begins with a byte outside the cutset keeps its prefix up to that byte. *)
Lemma trim_prefix p a s t :
  p a = false → HasPrefix (trim p (String a s +:+ t)) (String a "") = true.
Proof.
  intros Ha. unfold trim. rewrite app_cons, trim_left_id by done.
  destruct (trim_right_head p a (s +:+ t) Ha) as (u & -> & _). apply HasPrefix_spec. by exists u.
Qed.

(** ** Sorting *)

Lemma sort_Strings_permutation l : sort_Strings l ≡ₚ l.
Proof. apply merge_sort_Permutation. Qed.

Lemma sort_Strings_sorted l : StronglySorted String.le (sort_Strings l).
Proof. apply (StronglySorted_merge_sort _). Qed.

Lemma sort_Strings_perm l1 l2 : l1 ≡ₚ l2 → sort_Strings l1 = sort_Strings l2.
Proof.
  intros H. apply (StronglySorted_unique String.le); auto using sort_Strings_sorted.
  by rewrite !sort_Strings_permutation.
Qed.

(** ** Letter case *)

Lemma lower_idem a : lower (lower a) = lower a.
Proof. by destruct a as [[][][][][][][][]]. Qed.

Lemma ToLower_idem s : ToLower (ToLower s) = ToLower s.
Proof. induction s; cbn; by rewrite ?lower_idem, ?IHs. Qed.

#[export] Hint Resolve HasPrefix_app HasPrefix_refl Split_pieces : operator.
Create Rewrite HintDb gostr.
#[export] Hint Rewrite app_assoc_s app_cons app_empty_l app_empty_r : gostr.

Lemma trim_right_app p s t :
  trim_right p (s +:+ t) = if decide (trim_right p t = "") then trim_right p s else s +:+ trim_right p t.
Proof.
  induction s as [|a s IH]; [rewrite app_empty_l; case_decide; auto|].
  rewrite app_cons. cbn. rewrite IH. case_decide as Ht; [done|].
  rewrite app_cons. rewrite bool_decide_false; [done|]. intros E.
  destruct s; rewrite ?app_empty_l in E; done.
Qed.

(** A prefix without blanks at its ends survives trimming. *)
Lemma trim_keeps_prefix p a s t :
  p a = false → trim_right p (String a s) = String a s →
  HasPrefix (trim p (String a s +:+ t)) (String a s) = true.
Proof.
  intros Ha Hs. unfold trim. rewrite app_cons, (trim_left_id _ _ _ Ha), <- app_cons, trim_right_app.
  case_decide; [rewrite Hs; apply HasPrefix_refl | apply HasPrefix_app].
Qed.

(** ** Numerals *)

Definition is_digit (a : ascii) : bool := let n := nat_of_ascii a in (48 <=? n)%nat && (n <=? 57)%nat.

Lemma pretty_N_char_digit x : (x < 10)%N → is_digit (pretty_N_char x) = true.
Proof. destruct x as [|p]; [done|]. intros Hx. do 4 (destruct p as [p|p|]; try done; try lia). Qed.

Lemma pretty_N_go_has_char c x s : is_digit c = false → has_char c s = false → has_char c (pretty_N_go x s) = false.
Proof.
  intros Hc. revert s. induction (N.lt_wf_0 x) as [x _ IH]; intros s Hs. destruct (decide (0 < x)%N) as [Hx|Hx].
  - rewrite pretty_N_go_step by done. apply IH; [by apply N.div_lt|].
    cbn. rewrite Hs, orb_false_r. apply bool_decide_eq_false_2. intros E.
    rewrite <- E, pretty_N_char_digit in Hc; [done|]. by apply N.mod_lt.
  - assert (x = 0%N) as -> by lia. by rewrite pretty_N_go_0.
Qed.

(** A numeral holds digits and, when negative, a dash. *)
Lemma itoa_has_char c n : is_digit c = false → c ≠ "-"%char ∨ 0 ≤ n → has_char c (itoa n) = false.
Proof.
  intros Hc Hn. assert (H0 : has_char c "0" = false).
  { cbn. rewrite orb_false_r. apply bool_decide_eq_false_2. by intros <-. }
  unfold itoa, pretty, pretty_Z. destruct n as [|p|p]; [done|by apply (pretty_N_go_has_char c (N.pos p))|].
  destruct Hn as [Hn|Hn]; [|lia]. rewrite has_char_app. cbn. rewrite bool_decide_eq_false_2 by congruence. cbn [orb].
  by apply (pretty_N_go_has_char c (N.pos p)).
Qed.
