(* ===== verification/Util.v ===== *)
(** * Package util: comparisons, merges and the property-file reader

    Source: operator/util/util.go, operator/util/numbers.go.

    A Go map is a [gmap]; a loop over a map visits its entries in an unspecified order, so the
    loops here take the entries from [map_to_list] and the theorems about them do not depend on
    that order.  A slice that can be nil is an [option (list _)], [None] being nil. *)

From S2P Require Import Prelude GoStrings.

(** ** Definitions *)

Definition Min (a b : Z) : Z := if decide (a < b) then a else b.

Definition DefaultIfEmpty (value defaultValue : string) : string :=
  if decide (value = "") then defaultValue else value.

Definition DefaultIfEmptyInt32 (value : option Z) (defaultValue : Z) : Z :=
  match value with
  | None => defaultValue
  | Some v => v
  end.

Fixpoint Contains (value : string) (list : list string) : bool :=
  match list with
  | [] => false
  | element :: list => if decide (value = element) then true else Contains value list
  end.

Abbreviation slice := (option (list string)).

Definition elems (s : slice) : list string := default [] s.

Definition EqualSlices (actualSlice expectedSlice : slice) : bool :=
  match actualSlice with
  | None => false
  | Some actual =>
      if decide (length actual ≠ length (elems expectedSlice)) then false
      else forallb (λ element, Contains element (elems expectedSlice)) actual
  end.

Definition EqualSlicesNil (actualSlice expectedSlice : slice) : bool :=
  match expectedSlice, actualSlice with
  | None, None => true
  | _, _ => EqualSlices actualSlice expectedSlice
  end.

(** The shape the map comparisons share: equal sizes, then every key of the first map is a key
    of the second with an accepted value. *)
Definition equal_maps {V} (eqv : V → V → bool) (actualMap expectedMap : gmap string V) : bool :=
  if decide (size actualMap ≠ size expectedMap) then false
  else forallb (λ '(key, v), match expectedMap !! key with
                             | None => false
                             | Some w => eqv v w
                             end) (map_to_list actualMap).

Definition EqualPlainMaps (actualMap expectedMap : strmap) : bool :=
  equal_maps (λ v w, bool_decide (v = w)) actualMap expectedMap.

Definition EqualIntMaps (actualMap expectedMap : gmap string Z) : bool :=
  equal_maps (λ v w, bool_decide (v = w)) actualMap expectedMap.

Definition EqualComplexMaps (actualMap expectedMap : gmap string slice) : bool :=
  equal_maps EqualSlices actualMap expectedMap.

Definition AreMapsEqual (first second : strmap) : bool :=
  equal_maps (λ v w, bool_decide (v = w)) first second.

(** [for key, value := range m { res[key] = value }] over the entries in a given order. *)
Definition copy_entries {V} (entries : list (string * V)) (res : gmap string V) : gmap string V :=
  foldl (λ res '(key, value), <[key := value]> res) res entries.

Definition JoinMaps (sideMap mainMap : strmap) : strmap :=
  copy_entries (map_to_list mainMap) (copy_entries (map_to_list sideMap) ∅).

Definition nameSeparator : string := "-".

Definition JoinNames (names : list string) : string :=
  Join (filter (λ name, name ≠ "") names) nameSeparator.

(** [operatorName[:len(operatorName)-17]]: a negative bound panics. *)
Definition operator_base (operatorName : string) : outcome string :=
  if decide (String.length operatorName < 17)%nat then Panic
  else Ret (stake (String.length operatorName - 17) operatorName).

Definition GetKmmSecretName (operatorName : string) : outcome string :=
  base ← operator_base operatorName; Ret (base +:+ "-mirror-maker-secret").

Definition GetKmmConfigMapName (operatorName : string) : outcome string :=
  base ← operator_base operatorName; Ret (base +:+ "-mirror-maker-configuration").

(** A property's value in [map[string]interface{}]: a string, or a []string. *)
Inductive propval := PStr (s : string) | PList (l : list string).

Global Instance propval_eq_dec : EqDecision propval.
Proof. solve_decision. Defined.

Definition getTrimmedPropertyValue (property : string) : propval :=
  let values := Split property "," in
  if decide (length values = 1%nat) then PStr (Trim property) else PList (Trim <$> values).

(** The body of the row loop of [GetProperties]: [pair[1]] panics on a row without an equals
    sign. *)
Definition add_row (properties : gmap string propval) (row : string) : outcome (gmap string propval) :=
  if decide (row ≠ "" ∧ HasPrefix row "#" = false) then
    let pair := Split row "=" in
    p1 ← index pair 1;
    p0 ← index pair 0;
    Ret (<[Trim p0 := getTrimmedPropertyValue p1]> properties)
  else Ret properties.

Fixpoint add_rows (rows : list string) (properties : gmap string propval) :
    outcome (gmap string propval) :=
  match rows with
  | [] => Ret properties
  | row :: rows => properties ← add_row properties row; add_rows rows properties
  end.

Definition GetProperties (configMapContent : string) : outcome (gmap string propval) :=
  add_rows (Split configMapContent newline) ∅.

(** *** Hashes

    encoding/json's text of a value, or its error, and crypto/sha256 in hexadecimal. *)
Class Marshaler (A : Type) := { Marshal : A → string + gerror }.

Class Digest := { sha256_hex : string → string }.

Definition Hash `{Digest} `{Marshaler A} (o : A) : outcome string :=
  match Marshal o with
  | inr err => Error err
  | inl cr => Ret (sha256_hex cr)
  end.

Definition StringHash `{Digest} (s : string) : string := sha256_hex s.

(** ** Contains and the slice comparison *)

Lemma Contains_spec value l : Contains value l = true ↔ value ∈ l.
Proof.
  induction l as [|e l IH]; cbn; [set_solver|]. case_decide; [set_solver|].
  rewrite IH. set_solver.
Qed.

Lemma Contains_false value l : Contains value l = false ↔ value ∉ l.
Proof. rewrite <- Contains_spec. destruct (Contains value l); naive_solver. Qed.

(** ** Map comparison and merge *)

Lemma equal_maps_spec {V} (eqv : V → V → bool) (m1 m2 : gmap string V) :
  equal_maps eqv m1 m2 = true ↔
  size m1 = size m2 ∧ ∀ k v, m1 !! k = Some v → ∃ w, m2 !! k = Some w ∧ eqv v w = true.
Proof.
  unfold equal_maps. case_decide as Hs; [naive_solver|].
  rewrite forallb_forall. setoid_rewrite <- list_elem_of_In.
  split.
  - intros H. split; [lia|]. intros k v Hk. apply elem_of_map_to_list, H in Hk.
    destruct (m2 !! k); naive_solver.
  - intros [_ H] [k v] Hk%elem_of_map_to_list. by destruct (H k v Hk) as (w & -> & ?).
Qed.

(** Equal sizes make the inclusion an equality. *)
Lemma equal_maps_decides `{EqDecision V} (m1 m2 : gmap string V) :
  equal_maps (λ v w, bool_decide (v = w)) m1 m2 = true ↔ m1 = m2.
Proof.
  rewrite equal_maps_spec. split; [|by intros ->; split; [|intros k v ->; eexists; split; [|apply bool_decide_true]]].
  intros [Hs H]. assert (Hsub : m1 ⊆ m2).
  { apply map_subseteq_spec. intros k v Hk.
    destruct (H k v Hk) as (w & Hw & ->%bool_decide_eq_true_1). done. }
  destruct (decide (m1 = m2)) as [|Hne]; [done|].
  assert (m1 ⊂ m2) as HS; [|apply map_subset_size in HS; lia].
  apply map_subset_alt. split; [done|].
  destruct (decide (Exists (λ kv, m1 !! kv.1 = None) (map_to_list m2))) as [HE|HE].
  - apply Exists_exists in HE as ([k v] & Hk%elem_of_map_to_list & ?). exists k. split; [done|eauto].
  - exfalso. apply Hne, map_eq. intros k. destruct (m1 !! k) eqn:E1.
    { symmetry. by eapply lookup_weaken. }
    destruct (m2 !! k) eqn:E2; [|done]. exfalso. apply HE, Exists_exists.
    exists (k, v). split; [by apply elem_of_map_to_list|done].
Qed.

Lemma copy_entries_lookup {V} (entries : list (string * V)) (res : gmap string V) k :
  NoDup entries.*1 →
  copy_entries entries res !! k =
    match list_to_map (M := gmap string V) entries !! k with Some v => Some v | None => res !! k end.
Proof.
  revert res. induction entries as [|[k' v'] entries IH]; intros res Hnd; [done|].
  inversion Hnd as [|?? Hn Hnd']; subst.
  change (copy_entries ((k', v') :: entries) res) with (copy_entries entries (<[k' := v']> res)).
  rewrite IH, list_to_map_cons by done. cbn in Hn. destruct (decide (k = k')) as [->|Hne].
  - rewrite lookup_insert_eq. rewrite (not_elem_of_list_to_map_1 entries k') by done.
    by rewrite lookup_insert_eq.
  - by rewrite !lookup_insert_ne by done.
Qed.

(** Whatever order the two loops visit the entries in. *)
Lemma copy_entries_map {V} (m res : gmap string V) entries :
  entries ≡ₚ map_to_list m → copy_entries entries res = m ∪ res.
Proof.
  intros Hp. apply map_eq. intros k. rewrite copy_entries_lookup.
  - rewrite (list_to_map_proper entries (map_to_list m)), list_to_map_to_list by
      (done || (rewrite Hp; apply NoDup_fst_map_to_list)).
    rewrite lookup_union. destruct (m !! k), (res !! k); done.
  - rewrite Hp. apply NoDup_fst_map_to_list.
Qed.

Lemma JoinMaps_union sideMap mainMap : JoinMaps sideMap mainMap = mainMap ∪ sideMap.
Proof. unfold JoinMaps. rewrite (copy_entries_map sideMap ∅ (map_to_list sideMap)),
    (copy_entries_map mainMap _ (map_to_list mainMap)) by done. by rewrite (right_id_L ∅ (∪)). Qed.

Lemma JoinMaps_lookup sideMap mainMap k :
  JoinMaps sideMap mainMap !! k = match mainMap !! k with Some v => Some v | None => sideMap !! k end.
Proof. rewrite JoinMaps_union, lookup_union. by destruct (mainMap !! k), (sideMap !! k). Qed.

(** [EqualPlainMaps], the test the KafkaService watch uses on annotations, accepts exactly
    the pairs of equal maps: comparing the sizes and then looking the keys of one map up in
    the other is enough. *)
Theorem EqualPlainMaps_decides_equality m1 m2 : EqualPlainMaps m1 m2 = true ↔ m1 = m2.
Proof. apply equal_maps_decides. Qed.

Lemma AreMapsEqual_spec m1 m2 : AreMapsEqual m1 m2 = true ↔ m1 = m2.
Proof. apply equal_maps_decides. Qed.

Lemma EqualSlices_spec a e :
  EqualSlices a e = true ↔ ∃ l, a = Some l ∧ length l = length (elems e) ∧ l ⊆ elems e.
Proof.
  unfold EqualSlices. destruct a as [l|]; [|naive_solver]. case_decide as Hl; [naive_solver|].
  rewrite forallb_forall. setoid_rewrite <- list_elem_of_In. setoid_rewrite Contains_spec.
  split; [|naive_solver]. intros H. exists l. split; [done|]. split; [lia|done].
Qed.

(** [EqualSlices] compares slices up to order when the first one has no repeated element;
    with a repeated element it also accepts slices with different contents (the second part
    gives the smallest such pair), so it is not a comparison of slices in general. *)
Theorem EqualSlices_up_to_order :
  (∀ l e, NoDup l → EqualSlices (Some l) (Some e) = true ↔ l ≡ₚ e) ∧
  EqualSlices (Some ["a"; "a"]) (Some ["a"; "b"]) = true.
Proof.
  split; [|done]. intros l e Hnd. rewrite EqualSlices_spec. cbn. split.
  - intros (l' & [= <-] & Hlen & Hsub). apply submseteq_length_Permutation; [|lia].
    by apply NoDup_submseteq.
  - intros Hp. exists l. split; [done|]. split; [by rewrite Hp|]. intros x. by rewrite Hp.
Qed.

(** ** The property reader *)

(** A row that the reader looks at. *)
Definition active_row (row : string) : Prop := row ≠ "" ∧ HasPrefix row "#" = false.

(** What one row contributes, when it has an equals sign. *)
Definition row_entry (row : string) : string * propval :=
  match Split row "=" with
  | p0 :: p1 :: _ => (Trim p0, getTrimmedPropertyValue p1)
  | _ => ("", PStr "")
  end.

Definition add_entry (properties : gmap string propval) (row : string) : gmap string propval :=
  if decide (row ≠ "" ∧ HasPrefix row "#" = false) then <[(row_entry row).1 := (row_entry row).2]> properties
  else properties.

Lemma Split_index_1 row : index (Split row "=") 1 = Panic ↔ has_char "=" row = false.
Proof.
  rewrite index_Panic. split.
  - intros H. destruct (Split_cons row "=") as (w & ws & E). rewrite E in H. cbn in H.
    destruct ws; [|cbn in H; lia]. pose proof (Split_pieces row "=") as HF. rewrite E in HF.
    inversion HF; subst. rewrite <- (Join_Split row "="), E. done.
  - intros H. rewrite Split_no_char by done. cbn. lia.
Qed.

Lemma add_row_eq properties row :
  add_row properties row =
    if decide (active_row row ∧ has_char "=" row = false) then Panic
    else Ret (add_entry properties row).
Proof.
  unfold add_row, add_entry, active_row, row_entry. case_decide as H; case_decide as H'; try naive_solver.
  - destruct H' as [_ H']. apply Split_index_1 in H'. unfold mbind, outcome_bind. by rewrite H'.
  - destruct (Split_cons row "=") as (w & ws & E). rewrite E. destruct ws as [|w1 ws]; [|done].
    exfalso. apply H'. split; [done|]. apply Split_index_1. by rewrite E.
Qed.

Lemma add_rows_eq rows properties :
  add_rows rows properties =
    if decide (Exists (λ row, active_row row ∧ has_char "=" row = false) rows) then Panic
    else Ret (foldl add_entry properties rows).
Proof.
  revert properties. induction rows as [|row rows IH]; intros properties; [done|].
  cbn [add_rows]. rewrite add_row_eq.
  destruct (decide (active_row row ∧ has_char "=" row = false)) as [H|H].
  - rewrite decide_True; [done|]. by apply Exists_cons_hd.
  - cbn. rewrite IH. apply decide_ext. rewrite Exists_cons. naive_solver.
Qed.

(** [GetProperties] on every input: it panics exactly when the content has a row that is
    not empty, is not a comment and has no equals sign; otherwise it returns the map in which
    each such row, in order, has written the value after its first equals sign (cut at a second
    one) under the trimmed text before it, so that the last row of a key wins. *)
Theorem GetProperties_total content :
  GetProperties content =
    if decide (Exists (λ row, active_row row ∧ has_char "=" row = false) (Split content newline))
    then Panic
    else Ret (foldl add_entry ∅ (Split content newline)).
Proof. apply add_rows_eq. Qed.

Lemma add_entries_not_in rows properties k :
  (∀ row, row ∈ rows → active_row row → (row_entry row).1 ≠ k) →
  foldl add_entry properties rows !! k = properties !! k.
Proof.
  revert properties. induction rows as [|row rows IH]; intros properties H; [done|].
  cbn. rewrite IH by set_solver. unfold add_entry. case_decide; [|done].
  rewrite lookup_insert_ne; [done|]. apply H; [set_solver|done].
Qed.

(** The names derived from the operator's name are computed or the slice expression panics. *)
Lemma GetKmmConfigMapName_no_error operatorName e : GetKmmConfigMapName operatorName ≠ Error e.
Proof. unfold GetKmmConfigMapName, operator_base. by case_decide. Qed.

Lemma GetKmmSecretName_no_error operatorName e : GetKmmSecretName operatorName ≠ Error e.
Proof. unfold GetKmmSecretName, operator_base. by case_decide. Qed.
