(* ===== verification/Transformation.v ===== *)
(** * Mirror Maker transformations: the per-resource rewriting of the replication config

    Source: operator/controllers/kmmconfig/transformation_configurator.go and
    operator/api/kmm/transformation_types.go.

    Several KmmConfig resources share one list of configuration lines; each owns the transforms
    and predicates whose names carry its prefix.  [UpdateTransformationProperties] replaces the
    lines of one owner and keeps the names of the others. *)

From S2P Require Import Prelude GoStrings.

(** ** Data *)

Record Transform := mkTransform {
  transform_Name : string;
  transform_Type : string;
  transform_Predicate : string;
  transform_Negate : option bool;
  transform_Params : strmap;
}.

Global Instance Transform_eq_dec : EqDecision Transform.
Proof. solve_decision. Defined.

Record Predicate := mkPredicate {
  predicate_Name : string;
  predicate_Type : string;
  predicate_Params : strmap;
}.

Global Instance Predicate_eq_dec : EqDecision Predicate.
Proof. solve_decision. Defined.

Record Transformation := mkTransformation {
  Transforms : list Transform;
  Predicates : list Predicate;
}.

Global Instance Transformation_eq_dec : EqDecision Transformation.
Proof. solve_decision. Defined.

Record transformationDefinition := mkDefinition {
  replicationFlow : string;
  transformationConfig : list string;
  transformNames : list string;
  predicateNames : list string;
}.

Record TransformationConfigurator := mkConfigurator {
  transformation : option Transformation;
  transformationNamePrefix : string;
}.

Definition ReplicationPolicyClassConfig : string := "replication.policy.class".

Definition IdentityReplicationPolicy : string :=
  "io.strimzi.kafka.connect.mirror.IdentityReplicationPolicy".

(** ** Operations *)

Definition NewReplicationFlow (sourceClusterName targetClusterName : string) : string :=
  sourceClusterName +:+ "->" +:+ targetClusterName.

Definition NewTransformationConfigurator (t : option Transformation) (prefix : string) :
    TransformationConfigurator :=
  mkConfigurator t prefix.

Definition transformationName (tc : TransformationConfigurator) (name : string) : string :=
  transformationNamePrefix tc +:+ name.

(** The keys are sorted, so the order in which the map is visited does not matter. *)
Definition addParams (config : list string) (params : strmap) (paramPrefix replicationPrefix : string) :
    list string :=
  config ++
  ((λ key, paramPrefix +:+ "." +:+ key +:+ " = " +:+
           ReplaceAll (sget params key) "${replication_prefix}" replicationPrefix)
     <$> sort_Strings (map_to_list params).*1).

Definition show_bool (b : bool) : string := if b then "true" else "false".

(** The body of the loop over the transforms. *)
Definition transform_lines (tc : TransformationConfigurator) (flow replicationPrefix : string)
    (config : list string) (transform : Transform) : list string :=
  let transformPrefix := flow +:+ ".transforms." +:+ transformationName tc (transform_Name transform) in
  let config := config ++ [transformPrefix +:+ ".type = " +:+ transform_Type transform] in
  let config :=
    if decide (transform_Predicate transform ≠ "") then
      config ++ [transformPrefix +:+ ".predicate = " +:+ transformationName tc (transform_Predicate transform)]
    else config in
  let config :=
    match transform_Negate transform with
    | Some negate => config ++ [transformPrefix +:+ ".negate = " +:+ show_bool negate]
    | None => config
    end in
  addParams config (transform_Params transform) transformPrefix replicationPrefix.

(** The body of the loop over the predicates. *)
Definition predicate_lines (tc : TransformationConfigurator) (flow replicationPrefix : string)
    (config : list string) (predicate : Predicate) : list string :=
  let predicatePrefix := flow +:+ ".predicates." +:+ transformationName tc (predicate_Name predicate) in
  let config := config ++ [predicatePrefix +:+ ".type = " +:+ predicate_Type predicate] in
  addParams config (predicate_Params predicate) predicatePrefix replicationPrefix.

Definition getTransformationDefinition (tc : TransformationConfigurator)
    (sourceClusterName targetClusterName : string) (identityReplicationEnabled : bool) :
    option transformationDefinition :=
  match transformation tc with
  | None => None
  | Some t =>
      if decide (Transforms t = []) then None
      else
        let flow := NewReplicationFlow sourceClusterName targetClusterName in
        let replicationPrefix := if identityReplicationEnabled then "" else sourceClusterName +:+ "." in
        let config := foldl (transform_lines tc flow replicationPrefix) [] (Transforms t) in
        let config := foldl (predicate_lines tc flow replicationPrefix) config (Predicates t) in
        Some (mkDefinition flow config
                ((λ x, transformationName tc (transform_Name x)) <$> Transforms t)
                ((λ x, transformationName tc (predicate_Name x)) <$> Predicates t))
  end.

(** A list property is written when it has a name: [flow.transforms = a,b]. *)
Definition names_line (prefix : string) (names : list string) : list string :=
  if decide (names = []) then [] else [prefix +:+ Join (sort_Strings names) ","].

Definition transformsPropertyPrefix (flow : string) : string := flow +:+ ".transforms = ".

Definition predicatesPropertyPrefix (flow : string) : string := flow +:+ ".predicates = ".

Definition enrichWithTransformationProperties (replicationConfig : list string)
    (td : transformationDefinition) (extraTransformNames extraPredicateNames : list string) : list string :=
  if decide (transformationConfig td = []) then replicationConfig
  else
    replicationConfig ++ transformationConfig td
      ++ names_line (transformsPropertyPrefix (replicationFlow td)) (transformNames td ++ extraTransformNames)
      ++ names_line (predicatesPropertyPrefix (replicationFlow td)) (predicateNames td ++ extraPredicateNames).

Definition AddTransformationProperties (tc : TransformationConfigurator) (replicationConfig : list string)
    (sourceClusterName targetClusterName : string) (identityReplicationEnabled : bool) : list string :=
  match getTransformationDefinition tc sourceClusterName targetClusterName identityReplicationEnabled with
  | Some td => enrichWithTransformationProperties replicationConfig td [] []
  | None => replicationConfig
  end.

Definition getFilteredNames (tc : TransformationConfigurator) (line propertyPrefix : string) : list string :=
  filter (λ name, HasPrefix name (transformationNamePrefix tc) = false)
    (TrimSpace <$> Split (sdrop (String.length propertyPrefix) line) ",").

(** The variables of the loop over the configuration lines. *)
Record loop_vars := mkVars {
  before : list string;
  after : list string;
  extraTransformNames : list string;
  extraPredicateNames : list string;
  enabledPropertyPosition : option nat;
}.

Definition enabledProperty (flow : string) : string := flow +:+ ".enabled = true".

(** The end of the loop body: the line goes after or before the inserted block. *)
Definition keep_line (i : nat) (line : string) (v : loop_vars) : loop_vars :=
  if match enabledPropertyPosition v with Some p => (p <? i)%nat | None => false end then
    mkVars (before v) (after v ++ [line]) (extraTransformNames v) (extraPredicateNames v)
      (enabledPropertyPosition v)
  else
    mkVars (before v ++ [line]) (after v) (extraTransformNames v) (extraPredicateNames v)
      (enabledPropertyPosition v).

Definition update_line (tc : TransformationConfigurator) (flow : string) (i : nat) (line : string)
    (v : loop_vars) : loop_vars :=
  let transformPrefix := flow +:+ ".transforms." +:+ transformationNamePrefix tc in
  let predicatePrefix := flow +:+ ".predicates." +:+ transformationNamePrefix tc in
  if HasPrefix line flow then
    if decide (line = enabledProperty flow) then
      keep_line i line (mkVars (before v) (after v) (extraTransformNames v) (extraPredicateNames v) (Some i))
    else if HasPrefix line (transformsPropertyPrefix flow) then
      mkVars (before v) (after v)
        (extraTransformNames v ++ getFilteredNames tc line (transformsPropertyPrefix flow))
        (extraPredicateNames v) (enabledPropertyPosition v)
    else if HasPrefix line (predicatesPropertyPrefix flow) then
      mkVars (before v) (after v) (extraTransformNames v)
        (extraPredicateNames v ++ getFilteredNames tc line (predicatesPropertyPrefix flow))
        (enabledPropertyPosition v)
    else if HasPrefix line transformPrefix || HasPrefix line predicatePrefix then v
    else keep_line i line v
  else keep_line i line v.

Fixpoint update_lines (tc : TransformationConfigurator) (flow : string) (i : nat) (lines : list string)
    (v : loop_vars) : loop_vars :=
  match lines with
  | [] => v
  | line :: lines => update_lines tc flow (S i) lines (update_line tc flow i line v)
  end.

Definition UpdateTransformationProperties (tc : TransformationConfigurator) (replicationConfig : list string)
    (sourceClusterName targetClusterName : string) (identityReplicationEnabled : bool) : list string :=
  match getTransformationDefinition tc sourceClusterName targetClusterName identityReplicationEnabled with
  | None => replicationConfig
  | Some td =>
      let v := update_lines tc (replicationFlow td) 0 replicationConfig (mkVars [] [] [] [] None) in
      let result := before v in
      let result :=
        match enabledPropertyPosition v with
        | Some _ => enrichWithTransformationProperties result td (extraTransformNames v) (extraPredicateNames v)
        | None => result
        end in
      result ++ after v
  end.

(** ** The loop as one classification of the lines *)

Inductive line_kind := KEnabled | KTransforms | KPredicates | KOwn | KOther.

Global Instance line_kind_eq_dec : EqDecision line_kind.
Proof. solve_decision. Defined.

Section flow.
Context (tc : TransformationConfigurator) (flow : string).

Definition kind_of (line : string) : line_kind :=
  if HasPrefix line flow then
    if decide (line = enabledProperty flow) then KEnabled
    else if HasPrefix line (transformsPropertyPrefix flow) then KTransforms
    else if HasPrefix line (predicatesPropertyPrefix flow) then KPredicates
    else if HasPrefix line (flow +:+ ".transforms." +:+ transformationNamePrefix tc)
            || HasPrefix line (flow +:+ ".predicates." +:+ transformationNamePrefix tc) then KOwn
    else KOther
  else KOther.

(** The lines before the inserted block, [seen] telling whether an enabled line has passed. *)
Fixpoint befores (seen : bool) (lines : list string) : list string :=
  match lines with
  | [] => []
  | line :: lines =>
      match kind_of line with
      | KEnabled => line :: befores true lines
      | KOther => if seen then befores seen lines else line :: befores seen lines
      | _ => befores seen lines
      end
  end.

Fixpoint afters (seen : bool) (lines : list string) : list string :=
  match lines with
  | [] => []
  | line :: lines =>
      match kind_of line with
      | KEnabled => afters true lines
      | KOther => if seen then line :: afters seen lines else afters seen lines
      | _ => afters seen lines
      end
  end.

Definition has_enabled (lines : list string) : bool :=
  existsb (λ line, bool_decide (kind_of line = KEnabled)) lines.

(** The names of other owners found in the list properties of one kind. *)
Definition foreign_names (k : line_kind) (prefix : string) (lines : list string) : list string :=
  lines ≫= λ line, if decide (kind_of line = k) then getFilteredNames tc line prefix else [].

Definition is_seen (v : loop_vars) : bool :=
  match enabledPropertyPosition v with Some _ => true | None => false end.

Lemma update_line_kind i line v :
  update_line tc flow i line v =
    match kind_of line with
    | KEnabled =>
        mkVars (before v ++ [line]) (after v) (extraTransformNames v) (extraPredicateNames v) (Some i)
    | KTransforms =>
        mkVars (before v) (after v)
          (extraTransformNames v ++ getFilteredNames tc line (transformsPropertyPrefix flow))
          (extraPredicateNames v) (enabledPropertyPosition v)
    | KPredicates =>
        mkVars (before v) (after v) (extraTransformNames v)
          (extraPredicateNames v ++ getFilteredNames tc line (predicatesPropertyPrefix flow))
          (enabledPropertyPosition v)
    | KOwn => v
    | KOther => keep_line i line v
    end.
Proof.
  unfold update_line, kind_of. destruct (HasPrefix line flow); [|done].
  case_decide; [|by repeat destruct (HasPrefix line _)].
  unfold keep_line. cbn [enabledPropertyPosition]. by rewrite Nat.ltb_irrefl.
Qed.

Lemma keep_line_seen i line v :
  (∀ p, enabledPropertyPosition v = Some p → (p < i)%nat) →
  keep_line i line v =
    mkVars (if is_seen v then before v else before v ++ [line])
      (if is_seen v then after v ++ [line] else after v)
      (extraTransformNames v) (extraPredicateNames v) (enabledPropertyPosition v).
Proof.
  intros Hp. unfold keep_line, is_seen. destruct (enabledPropertyPosition v) as [p|]; [|done].
  specialize (Hp p eq_refl). by rewrite (proj2 (Nat.ltb_lt p i) Hp).
Qed.

Lemma foreign_names_cons k prefix line lines :
  foreign_names k prefix (line :: lines) =
    (if decide (kind_of line = k) then getFilteredNames tc line prefix else [])
      ++ foreign_names k prefix lines.
Proof. done. Qed.

Lemma foreign_names_app k prefix l1 l2 :
  foreign_names k prefix (l1 ++ l2) = foreign_names k prefix l1 ++ foreign_names k prefix l2.
Proof. apply bind_app. Qed.

Lemma update_lines_spec i lines v :
  (∀ p, enabledPropertyPosition v = Some p → (p < i)%nat) →
  let v' := update_lines tc flow i lines v in
  before v' = before v ++ befores (is_seen v) lines ∧
  after v' = after v ++ afters (is_seen v) lines ∧
  extraTransformNames v' =
    extraTransformNames v ++ foreign_names KTransforms (transformsPropertyPrefix flow) lines ∧
  extraPredicateNames v' =
    extraPredicateNames v ++ foreign_names KPredicates (predicatesPropertyPrefix flow) lines ∧
  is_seen v' = is_seen v || has_enabled lines.
Proof.
  revert i v. induction lines as [|line lines IH]; intros i v Hp; cbv zeta.
  { cbn. by rewrite !app_nil_r, orb_false_r. }
  cbn [update_lines befores afters].
  change (has_enabled (line :: lines)) with (bool_decide (kind_of line = KEnabled) || has_enabled lines).
  rewrite !foreign_names_cons, update_line_kind, keep_line_seen by done.
  assert (Hnew : ∀ p, Some i = Some p → (p < S i)%nat) by naive_solver lia.
  assert (Hold : ∀ p, enabledPropertyPosition v = Some p → (p < S i)%nat)
    by (intros p Hv; apply Hp in Hv; lia).
  destruct (kind_of line); cbn [decide];
    (edestruct (IH (S i)) as (-> & -> & -> & -> & ->); [|clear IH]); try done;
    unfold is_seen; cbn; destruct (enabledPropertyPosition v) as [p|];
    cbn; rewrite <- ?app_assoc; done.
Qed.

(** *** How the classification behaves on concatenations and on its own output *)

Lemma has_enabled_app l1 l2 : has_enabled (l1 ++ l2) = has_enabled l1 || has_enabled l2.
Proof. apply existsb_app. Qed.

Lemma befores_app seen l1 l2 :
  befores seen (l1 ++ l2) = befores seen l1 ++ befores (seen || has_enabled l1) l2.
Proof.
  revert seen. induction l1 as [|x l1 IH]; intros seen; cbn; [by rewrite orb_false_r|].
  destruct (kind_of x), seen; cbn; rewrite ?IH; done.
Qed.

Lemma afters_app seen l1 l2 :
  afters seen (l1 ++ l2) = afters seen l1 ++ afters (seen || has_enabled l1) l2.
Proof.
  revert seen. induction l1 as [|x l1 IH]; intros seen; cbn; [by rewrite orb_false_r|].
  destruct (kind_of x), seen; cbn; rewrite ?IH; done.
Qed.

Lemma befores_fixed seen l :
  befores seen (befores seen l) = befores seen l ∧ afters seen (befores seen l) = [] ∧
  has_enabled (befores seen l) = has_enabled l.
Proof.
  revert seen. induction l as [|x l IH]; intros seen; [done|].
  pose proof (IH true) as (A1 & A2 & A3). pose proof (IH seen) as (B1 & B2 & B3).
  destruct (kind_of x) eqn:E, seen; cbn; rewrite ?E; cbn; rewrite ?E; cbn;
    rewrite ?A1, ?A2, ?A3, ?B1, ?B2, ?B3; done.
Qed.

Lemma afters_fixed seen l :
  befores true (afters seen l) = [] ∧ afters true (afters seen l) = afters seen l ∧
  has_enabled (afters seen l) = false.
Proof.
  revert seen. induction l as [|x l IH]; intros seen; [done|].
  pose proof (IH true) as (A1 & A2 & A3). pose proof (IH seen) as (B1 & B2 & B3).
  destruct (kind_of x) eqn:E, seen; cbn; rewrite ?E; cbn; rewrite ?E; cbn;
    rewrite ?A1, ?A2, ?A3, ?B1, ?B2, ?B3; done.
Qed.

Lemma afters_no_enabled l : has_enabled l = false → afters false l = [].
Proof.
  induction l as [|x l IH]; [done|]. unfold has_enabled in *. cbn.
  rewrite orb_false_iff. intros [Hx Hl]. destruct (kind_of x); auto. done.
Qed.

(** The kept lines hold no list property. *)
Lemma foreign_names_kept k prefix seen l :
  k = KTransforms ∨ k = KPredicates →
  foreign_names k prefix (befores seen l) = [] ∧ foreign_names k prefix (afters seen l) = [].
Proof.
  intros Hk. revert seen. induction l as [|x l IH]; intros seen; [done|]. cbn [befores afters].
  pose proof (IH true) as [A1 A2]. pose proof (IH seen) as [B1 B2].
  destruct (kind_of x) eqn:E, seen; rewrite ?foreign_names_cons, ?E;
    rewrite ?decide_False by (destruct Hk; congruence); done.
Qed.

(** A block of lines that all belong to the owner or are list properties. *)
Definition block_line (x : string) : Prop :=
  kind_of x = KTransforms ∨ kind_of x = KPredicates ∨ kind_of x = KOwn.

Lemma block_skipped seen l :
  Forall block_line l → befores seen l = [] ∧ afters seen l = [] ∧ has_enabled l = false.
Proof.
  induction 1 as [|x l Hx _ (IH1 & IH2 & IH3)]; [done|]. cbn.
  destruct Hx as [E|[E|E]]; rewrite E; done.
Qed.

(** *** The lines the owner writes *)

Lemma kind_enabled : kind_of (enabledProperty flow) = KEnabled.
Proof. unfold kind_of, enabledProperty. rewrite HasPrefix_app. by rewrite decide_True. Qed.

Lemma kind_transforms s : kind_of (transformsPropertyPrefix flow +:+ s) = KTransforms.
Proof.
  unfold kind_of, transformsPropertyPrefix, enabledProperty. rewrite app_assoc_s, HasPrefix_app.
  rewrite decide_False by (intros E%app_inj_l; done). by rewrite HasPrefix_app_iff, HasPrefix_app.
Qed.

Lemma kind_predicates s : kind_of (predicatesPropertyPrefix flow +:+ s) = KPredicates.
Proof.
  unfold kind_of, predicatesPropertyPrefix, transformsPropertyPrefix, enabledProperty.
  rewrite app_assoc_s, HasPrefix_app.
  rewrite decide_False by (intros E%app_inj_l; done).
  rewrite !HasPrefix_app_iff, HasPrefix_app. done.
Qed.

Lemma kind_own_transform s :
  kind_of (flow +:+ ".transforms." +:+ transformationNamePrefix tc +:+ s) = KOwn.
Proof.
  unfold kind_of, predicatesPropertyPrefix, transformsPropertyPrefix, enabledProperty.
  rewrite HasPrefix_app. rewrite decide_False by (intros E%app_inj_l; done).
  rewrite !HasPrefix_app_iff, HasPrefix_app. done.
Qed.

Lemma kind_own_predicate s :
  kind_of (flow +:+ ".predicates." +:+ transformationNamePrefix tc +:+ s) = KOwn.
Proof.
  unfold kind_of, predicatesPropertyPrefix, transformsPropertyPrefix, enabledProperty.
  rewrite HasPrefix_app. rewrite decide_False by (intros E%app_inj_l; done).
  rewrite !HasPrefix_app_iff, HasPrefix_app, orb_true_r. done.
Qed.
End flow.

(** ** What one update writes *)

(** A prefix that trimming and splitting at commas leave whole: the controller builds it as
    [<name>_<namespace>_] from a resource's name and namespace. *)
Definition valid_prefix (prefix : string) : Prop :=
  has_char "," prefix = false ∧ trim_right Ascii.is_space prefix = prefix ∧
  ∃ a s, prefix = String a s ∧ Ascii.is_space a = false.

Global Instance valid_prefix_dec prefix : Decision (valid_prefix prefix).
Proof.
  destruct prefix as [|a s].
  - right. by intros (_ & _ & a & s & ? & _).
  - destruct (decide (has_char "," (String a s) = false ∧
      trim_right Ascii.is_space (String a s) = String a s ∧ Ascii.is_space a = false)) as [(?&?&?)|H].
    + left. split_and!; eauto.
    + right. intros (? & ? & ? & ? & [= <- <-] & ?). by apply H.
Defined.

(** No name of the resource holds a comma, the separator of the list properties. *)
Definition well_named (tc : TransformationConfigurator) : Prop :=
  valid_prefix (transformationNamePrefix tc) ∧
  ∀ t, transformation tc = Some t →
    Forall (λ x, has_char "," (transform_Name x) = false) (Transforms t) ∧
    Forall (λ x, has_char "," (predicate_Name x) = false) (Predicates t).

Section update.
Context (tc : TransformationConfigurator) (src dst : string) (identity : bool).

Lemma addParams_own flow config params paramPrefix replicationPrefix :
  (∀ s, kind_of tc flow (paramPrefix +:+ s) = KOwn) →
  Forall (λ x, kind_of tc flow x = KOwn) config →
  Forall (λ x, kind_of tc flow x = KOwn) (addParams config params paramPrefix replicationPrefix).
Proof.
  intros Hp Hc. unfold addParams. apply Forall_app_2; [done|].
  apply Forall_fmap, Forall_true. intros. apply Hp.
Qed.

Lemma transform_lines_own flow rp config x :
  Forall (λ x, kind_of tc flow x = KOwn) config →
  Forall (λ x, kind_of tc flow x = KOwn) (transform_lines tc flow rp config x).
Proof.
  intros Hc.
  assert (Hp : ∀ s, kind_of tc flow
    ((flow +:+ ".transforms." +:+ transformationName tc (transform_Name x)) +:+ s) = KOwn).
  { intros s. unfold transformationName. rewrite !app_assoc_s. apply kind_own_transform. }
  unfold transform_lines. apply addParams_own; [done|].
  destruct (transform_Negate x); case_decide; repeat apply Forall_app_2; auto using Forall_singleton;
    repeat constructor; apply Hp.
Qed.

Lemma predicate_lines_own flow rp config x :
  Forall (λ x, kind_of tc flow x = KOwn) config →
  Forall (λ x, kind_of tc flow x = KOwn) (predicate_lines tc flow rp config x).
Proof.
  intros Hc.
  assert (Hp : ∀ s, kind_of tc flow
    ((flow +:+ ".predicates." +:+ transformationName tc (predicate_Name x)) +:+ s) = KOwn).
  { intros s. unfold transformationName. rewrite !app_assoc_s. apply kind_own_predicate. }
  unfold predicate_lines. apply addParams_own; [done|].
  apply Forall_app_2; [done|]. repeat constructor; apply Hp.
Qed.

Lemma foldl_Forall {A} (P : string → Prop) (f : list string → A → list string) l config :
  (∀ c x, Forall P c → Forall P (f c x)) → Forall P config → Forall P (foldl f config l).
Proof. intros Hf. revert config. induction l; cbn; auto. Qed.

Lemma transform_lines_not_nil flow rp config x : transform_lines tc flow rp config x ≠ [].
Proof.
  unfold transform_lines, addParams. intros [E _]%app_nil.
  destruct (transform_Negate x); case_decide; by destruct config.
Qed.

Lemma predicate_lines_not_nil flow rp config x : predicate_lines tc flow rp config x ≠ [].
Proof. unfold predicate_lines, addParams. intros [E _]%app_nil. by destruct config. Qed.

Lemma foldl_not_nil {A} (f : list string → A → list string) l config :
  (∀ c x, f c x ≠ []) → l ≠ [] ∨ config ≠ [] → foldl f config l ≠ [].
Proof. intros Hf. revert config. induction l; cbn; naive_solver. Qed.

(** The definition of a resource with a transform: its lines are the owner's, and there is one. *)
Lemma getTransformationDefinition_spec td :
  getTransformationDefinition tc src dst identity = Some td →
  replicationFlow td = NewReplicationFlow src dst ∧
  transformationConfig td ≠ [] ∧
  Forall (λ x, kind_of tc (replicationFlow td) x = KOwn) (transformationConfig td) ∧
  ∃ t, transformation tc = Some t ∧
    transformNames td = (λ x, transformationName tc (transform_Name x)) <$> Transforms t ∧
    predicateNames td = (λ x, transformationName tc (predicate_Name x)) <$> Predicates t.
Proof.
  unfold getTransformationDefinition. destruct (transformation tc) as [t|]; [|done].
  case_decide as Ht; [done|]. intros [= <-]. cbn. split; [done|]. split_and!; [..|eauto].
  - apply foldl_not_nil; [apply predicate_lines_not_nil|]. right.
    apply foldl_not_nil; [apply transform_lines_not_nil|by left].
  - apply foldl_Forall; [apply predicate_lines_own|].
    apply foldl_Forall; [apply transform_lines_own|done].
Qed.

Context (td : transformationDefinition).
Hypothesis Htd : getTransformationDefinition tc src dst identity = Some td.

Abbreviation flow := (replicationFlow td).
Abbreviation ttn := (transformsPropertyPrefix (replicationFlow td)).
Abbreviation ptn := (predicatesPropertyPrefix (replicationFlow td)).

(** The block inserted after the enabled line. *)
Definition block (tnames pnames : list string) : list string :=
  transformationConfig td ++ names_line ttn (transformNames td ++ tnames)
    ++ names_line ptn (predicateNames td ++ pnames).

Lemma update_unfold config :
  UpdateTransformationProperties tc config src dst identity =
    befores tc flow false config
      ++ (if has_enabled tc flow config
          then block (foreign_names tc flow KTransforms ttn config)
                 (foreign_names tc flow KPredicates ptn config)
          else [])
      ++ afters tc flow false config.
Proof.
  unfold UpdateTransformationProperties. rewrite Htd.
  destruct (update_lines_spec tc flow 0 config (mkVars [] [] [] [] None)) as (E1 & E2 & E3 & E4 & E5);
    [done|]. cbn in E1, E2, E3, E4, E5. rewrite E1, E2, E3, E4.
  unfold is_seen in E5. unfold enrichWithTransformationProperties.
  apply getTransformationDefinition_spec in Htd as (_ & Hne & _).
  destruct (enabledPropertyPosition _), (has_enabled tc flow config); try done.
  rewrite decide_False by done. unfold block. by rewrite <- !app_assoc.
Qed.

Lemma names_line_block_line k prefix names :
  (∀ s, kind_of tc flow (prefix +:+ s) = k) → k = KTransforms ∨ k = KPredicates →
  Forall (block_line tc flow) (names_line prefix names).
Proof.
  intros Hk Hk'. unfold names_line. case_decide; [done|]. apply Forall_singleton.
  unfold block_line. rewrite Hk. destruct Hk'; auto.
Qed.

Lemma block_lines tnames pnames : Forall (block_line tc flow) (block tnames pnames).
Proof.
  unfold block. repeat apply Forall_app_2.
  - apply getTransformationDefinition_spec in Htd as (_ & _ & H & _).
    eapply Forall_impl; [done|]. cbn. unfold block_line. auto.
  - eapply names_line_block_line; [apply kind_transforms|auto].
  - eapply names_line_block_line; [apply kind_predicates|auto].
Qed.

(** *** Names survive the trip through a list property *)

Lemma foreign_names_none k prefix l :
  Forall (λ x, kind_of tc flow x ≠ k) l → foreign_names tc flow k prefix l = [].
Proof.
  induction 1 as [|x l Hx _ IH]; [done|]. rewrite foreign_names_cons, IH.
  by rewrite decide_False.
Qed.

Lemma foreign_names_clean k prefix l x :
  x ∈ foreign_names tc flow k prefix l →
  TrimSpace x = x ∧ has_char "," x = false ∧ HasPrefix x (transformationNamePrefix tc) = false.
Proof.
  intros (line & Hx & _)%list_elem_of_bind. case_decide; [|set_solver].
  apply list_elem_of_filter in Hx as (Hp & (y & -> & Hy)%list_elem_of_fmap).
  split; [apply trim_idem|]. split; [|done]. apply has_char_trim.
  pose proof (Split_pieces (sdrop (String.length prefix) line) ",") as HF.
  rewrite Forall_forall in HF. auto.
Qed.

(** Reading a list property back gives the foreign names it was written with. *)
Lemma names_line_read k prefix own names :
  (∀ s, kind_of tc flow (prefix +:+ s) = k) →
  Forall (λ x, has_char "," x = false ∧
               HasPrefix (TrimSpace x) (transformationNamePrefix tc) = true) own →
  Forall (λ x, TrimSpace x = x ∧ has_char "," x = false ∧
               HasPrefix x (transformationNamePrefix tc) = false) names →
  foreign_names tc flow k prefix (names_line prefix (own ++ names)) ≡ₚ names.
Proof.
  intros Hk Hown Hnames. unfold names_line. case_decide as Hnil.
  { apply app_nil in Hnil as [_ ->]. done. }
  rewrite foreign_names_cons, decide_True by apply Hk. cbn. rewrite app_nil_r.
  unfold getFilteredNames. rewrite sdrop_app, Split_Join.
  - rewrite sort_Strings_permutation, fmap_app, filter_app.
    rewrite (filter_none _ (TrimSpace <$> own)); cbn.
    + rewrite filter_all.
      * rewrite <- (list_fmap_id names) at 2. apply Permutation_refl', list_fmap_ext.
        intros i x Hx%list_elem_of_lookup_2. rewrite Forall_forall in Hnames. by apply Hnames.
      * apply Forall_fmap. eapply Forall_impl; [exact Hnames|]. cbn. by intros x (-> & _ & ->).
    + apply Forall_fmap. eapply Forall_impl; [exact Hown|]. cbn. by intros x [_ ->].
  - intros E. apply Hnil, Permutation_nil_r. by rewrite <- E, sort_Strings_permutation.
  - rewrite sort_Strings_permutation. apply Forall_app_2.
    + eapply Forall_impl; [exact Hown|]. naive_solver.
    + eapply Forall_impl; [exact Hnames|]. naive_solver.
Qed.

Lemma own_name_kept x :
  valid_prefix (transformationNamePrefix tc) → has_char "," x = false →
  has_char "," (transformationName tc x) = false ∧
  HasPrefix (TrimSpace (transformationName tc x)) (transformationNamePrefix tc) = true.
Proof.
  intros (Hc & Ht & a & s & Ha & Hs) Hx. unfold transformationName. split.
  - by rewrite has_char_app, Hc, Hx.
  - rewrite Ha in *. by apply trim_keeps_prefix.
Qed.

Lemma own_names_kept :
  well_named tc →
  Forall (λ x, has_char "," x = false ∧ HasPrefix (TrimSpace x) (transformationNamePrefix tc) = true)
    (transformNames td) ∧
  Forall (λ x, has_char "," x = false ∧ HasPrefix (TrimSpace x) (transformationNamePrefix tc) = true)
    (predicateNames td).
Proof.
  intros [Hv Hn]. apply getTransformationDefinition_spec in Htd as (_ & _ & _ & t & Ht & -> & ->).
  destruct (Hn t Ht) as [H1 H2]. split; apply Forall_fmap; (eapply Forall_impl; [eassumption|]);
    cbn; intros; by apply own_name_kept.
Qed.

(** The foreign names of a block are those it was built from. *)
Lemma block_foreign config :
  well_named tc →
  let T := foreign_names tc flow KTransforms ttn config in
  let P := foreign_names tc flow KPredicates ptn config in
  foreign_names tc flow KTransforms ttn (block T P) ≡ₚ T ∧
  foreign_names tc flow KPredicates ptn (block T P) ≡ₚ P.
Proof.
  intros Hw T P. destruct (own_names_kept Hw) as [HT HP].
  assert (HTc : Forall (λ x, TrimSpace x = x ∧ has_char "," x = false ∧
    HasPrefix x (transformationNamePrefix tc) = false) T)
    by (apply Forall_forall; intros; by eapply foreign_names_clean).
  assert (HPc : Forall (λ x, TrimSpace x = x ∧ has_char "," x = false ∧
    HasPrefix x (transformationNamePrefix tc) = false) P)
    by (apply Forall_forall; intros; by eapply foreign_names_clean).
  pose proof (getTransformationDefinition_spec td Htd) as (_ & _ & Hown & _).
  assert (Hcfg : ∀ k prefix, k ≠ KOwn → foreign_names tc flow k prefix (transformationConfig td) = []).
  { intros k prefix Hk. apply foreign_names_none. eapply Forall_impl; [exact Hown|]. cbn. congruence. }
  assert (Hother : ∀ k k' prefix prefix' names, k ≠ k' → (∀ s, kind_of tc flow (prefix' +:+ s) = k') →
    foreign_names tc flow k prefix (names_line prefix' names) = []).
  { intros k k' prefix prefix' names Hne Hk. apply foreign_names_none. unfold names_line.
    case_decide; [done|]. apply Forall_singleton. by rewrite Hk. }
  unfold block. rewrite !foreign_names_app, !Hcfg by done. cbn. split.
  - rewrite (Hother KTransforms KPredicates ttn ptn) by (done || apply kind_predicates).
    rewrite app_nil_r. apply names_line_read; auto using kind_transforms.
  - rewrite (Hother KPredicates KTransforms ptn ttn) by (done || apply kind_transforms). cbn.
    apply names_line_read; auto using kind_predicates.
Qed.

Lemma names_line_perm prefix n1 n2 : n1 ≡ₚ n2 → names_line prefix n1 = names_line prefix n2.
Proof.
  intros Hp. unfold names_line. rewrite (sort_Strings_perm _ _ Hp).
  destruct (decide (n1 = [])) as [->|H1], (decide (n2 = [])) as [->|H2]; try done.
  - by apply Permutation_nil_l in Hp.
  - by apply Permutation_nil_r in Hp.
Qed.

Lemma block_perm t1 t2 p1 p2 : t1 ≡ₚ t2 → p1 ≡ₚ p2 → block t1 p1 = block t2 p2.
Proof.
  intros Ht Hp. unfold block.
  by rewrite (names_line_perm ttn _ _ (Permutation_app_head (transformNames td) Ht)),
    (names_line_perm ptn _ _ (Permutation_app_head (predicateNames td) Hp)).
Qed.

Lemma update_idempotent_td config :
  well_named tc →
  UpdateTransformationProperties tc (UpdateTransformationProperties tc config src dst identity) src dst identity
  = UpdateTransformationProperties tc config src dst identity.
Proof.
  intros Hw. rewrite !update_unfold.
  set (T := foreign_names tc flow KTransforms ttn config).
  set (P := foreign_names tc flow KPredicates ptn config).
  destruct (befores_fixed tc flow false config) as (HB1 & HB2 & HB3).
  destruct (foreign_names_kept tc flow KTransforms ttn false config) as [HT1 HT2]; [auto|].
  destruct (foreign_names_kept tc flow KPredicates ptn false config) as [HP1 HP2]; [auto|].
  destruct (has_enabled tc flow config) eqn:HE.
  - destruct (block_skipped tc flow true (block T P) (block_lines T P)) as (K1 & K2 & K3).
    destruct (afters_fixed tc flow false config) as (HA1 & HA2 & HA3).
    destruct (block_foreign config Hw) as [HfT HfP].
    rewrite !has_enabled_app, !befores_app, !afters_app, !foreign_names_app, HB1, HB2, HB3, K3, HT1, HT2, HP1, HP2.
    cbn. rewrite K1, K2, HA1, HA2, !app_nil_r. cbn.
    by rewrite (block_perm _ T _ P) by done.
  - rewrite (afters_no_enabled tc flow config) by done. cbn. rewrite !app_nil_r.
    by rewrite HB1, HB2, HB3, app_nil_r.
Qed.

Lemma update_foreign_td config :
  well_named tc →
  let config' := UpdateTransformationProperties tc config src dst identity in
  has_enabled tc flow config = true →
  foreign_names tc flow KTransforms ttn config' ≡ₚ foreign_names tc flow KTransforms ttn config ∧
  foreign_names tc flow KPredicates ptn config' ≡ₚ foreign_names tc flow KPredicates ptn config.
Proof.
  intros Hw config' HE. unfold config'. rewrite update_unfold, HE, !foreign_names_app.
  destruct (foreign_names_kept tc flow KTransforms ttn false config) as [-> ->]; [auto|].
  destruct (foreign_names_kept tc flow KPredicates ptn false config) as [-> ->]; [auto|].
  cbn. rewrite !app_nil_r. by apply block_foreign.
Qed.

Lemma update_drops_td config :
  has_enabled tc flow config = false →
  let config' := UpdateTransformationProperties tc config src dst identity in
  foreign_names tc flow KTransforms ttn config' = [] ∧
  foreign_names tc flow KPredicates ptn config' = [].
Proof.
  intros HE config'. unfold config'. rewrite update_unfold, HE, !foreign_names_app.
  destruct (foreign_names_kept tc flow KTransforms ttn false config) as [-> ->]; [auto|].
  by destruct (foreign_names_kept tc flow KPredicates ptn false config) as [-> ->]; [auto|].
Qed.
End update.

(** The lines that are neither the owner's nor list properties: enabled and other lines. *)
Definition foreign_line (tc : TransformationConfigurator) (flow line : string) : Prop :=
  kind_of tc flow line = KEnabled ∨ kind_of tc flow line = KOther.

Global Instance foreign_line_dec tc flow line : Decision (foreign_line tc flow line) := _.

Lemma split_foreign tc flow seen l :
  befores tc flow seen l ++ afters tc flow seen l ≡ₚ filter (foreign_line tc flow) l.
Proof.
  revert seen. induction l as [|x l IH]; intros seen; [done|]. cbn [befores afters].
  rewrite filter_cons. case_decide as H; unfold foreign_line in H; destruct (kind_of tc flow x), seen;
    try naive_solver; rewrite <- ?(IH true), <- ?(IH false); cbn; rewrite ?Permutation_middle; done.
Qed.

(** ** Properties *)

(** C33. [UpdateTransformationProperties], the edit of the transforms of one flow, is idempotent: a
    second call with the same arguments gives the lines of the first, so that the block of the
    resource's transforms and the shared list properties neither grow nor drift.  The names of
    the resource are required to be free of commas, the separator of the list properties.  The
    edit of the topics and of the flow itself, which is other code, is not spoken of. *)
Theorem UpdateTransformationProperties_idempotent tc config src dst identity :
  well_named tc →
  UpdateTransformationProperties tc (UpdateTransformationProperties tc config src dst identity) src dst identity
  = UpdateTransformationProperties tc config src dst identity.
Proof.
  intros Hw. destruct (getTransformationDefinition tc src dst identity) as [td|] eqn:Htd.
  - by eapply update_idempotent_td.
  - unfold UpdateTransformationProperties. by rewrite !Htd.
Qed.

(** The update of one resource keeps what belongs to the others: the configuration lines
    that are not its own and not list properties are the same lines, and the transforms and
    predicates of other resources stay listed for the flow, as long as the configuration has
    the flow's enabled line in the form the operator writes. *)
Theorem UpdateTransformationProperties_keeps_others tc config src dst identity :
  well_named tc →
  enabledProperty (NewReplicationFlow src dst) ∈ config →
  let flow := NewReplicationFlow src dst in
  let config' := UpdateTransformationProperties tc config src dst identity in
  filter (foreign_line tc flow) config' ≡ₚ filter (foreign_line tc flow) config ∧
  foreign_names tc flow KTransforms (transformsPropertyPrefix flow) config'
    ≡ₚ foreign_names tc flow KTransforms (transformsPropertyPrefix flow) config ∧
  foreign_names tc flow KPredicates (predicatesPropertyPrefix flow) config'
    ≡ₚ foreign_names tc flow KPredicates (predicatesPropertyPrefix flow) config.
Proof.
  intros Hw Hin flow config'. destruct (getTransformationDefinition tc src dst identity) as [td|] eqn:Htd.
  - pose proof (getTransformationDefinition_spec tc src dst identity td Htd) as (Hflow & _).
    assert (HE : has_enabled tc flow config = true).
    { unfold has_enabled. apply existsb_exists. eexists. split; [by apply list_elem_of_In|].
      apply bool_decide_true, kind_enabled. }
    split; [|unfold config', flow in *; rewrite <- Hflow in HE |- *; by apply update_foreign_td].
    unfold config'. rewrite (update_unfold tc src dst identity td Htd), Hflow. fold flow. rewrite HE.
    rewrite <- (split_foreign tc flow false config), !filter_app.
    pose proof (block_lines tc src dst identity td Htd) as Hb. rewrite Hflow in Hb. fold flow in Hb.
    rewrite (filter_none _ (block td _ _)); cbn.
    + rewrite !filter_all; [done|..].
      all: apply Forall_forall; intros x Hx;
        assert (Hf : x ∈ filter (foreign_line tc flow) config)
          by (rewrite <- (split_foreign tc flow false config); set_solver);
        by apply list_elem_of_filter in Hf as [? _].
    + eapply Forall_impl; [apply Hb|]. intros x Hx Hf. cbn in Hx.
      destruct Hx as [E|[E|E]], Hf as [E'|E']; congruence.
  - unfold config', UpdateTransformationProperties. by rewrite Htd.
Qed.

(** When the flow's enabled property is in the configuration but not written exactly as
    [<flow>.enabled = true] (without the blanks, for instance, a form the property reader accepts),
    the update of one resource removes the list properties of the flow: no transform and no
    predicate of any other resource stays listed, and the resource's own block is not added. *)
Theorem UpdateTransformationProperties_drops_others tc config src dst identity td :
  getTransformationDefinition tc src dst identity = Some td →
  enabledProperty (NewReplicationFlow src dst) ∉ config →
  let flow := NewReplicationFlow src dst in
  let config' := UpdateTransformationProperties tc config src dst identity in
  config' = filter (foreign_line tc flow) config ∧
  foreign_names tc flow KTransforms (transformsPropertyPrefix flow) config' = [] ∧
  foreign_names tc flow KPredicates (predicatesPropertyPrefix flow) config' = [].
Proof.
  intros Htd Hin flow config'.
  pose proof (getTransformationDefinition_spec tc src dst identity td Htd) as (Hflow & _).
  assert (HE : has_enabled tc flow config = false).
  { apply not_true_iff_false. intros (x & Hx & Hk%bool_decide_eq_true_1)%existsb_exists.
    apply Hin. unfold kind_of in Hk. destruct (HasPrefix x flow); [|done]. case_decide as E.
    - fold flow. rewrite <- E. by apply list_elem_of_In.
    - by repeat destruct (HasPrefix x _). }
  split; [|unfold config', flow in *; rewrite <- Hflow in HE |- *; by eapply update_drops_td].
  unfold config'. rewrite (update_unfold tc src dst identity td Htd), Hflow. fold flow.
  rewrite HE, afters_no_enabled by done. cbn. rewrite app_nil_r. clear -HE.
  induction config as [|x l IH]; [done|]. cbn [befores]. rewrite filter_cons.
  unfold has_enabled in *. cbn in HE. apply orb_false_iff in HE as [Hx Hl].
  specialize (IH Hl). apply bool_decide_eq_false_1 in Hx.
  case_decide as H; unfold foreign_line in H; destruct (kind_of tc flow x); try naive_solver;
    by rewrite ?IH.
Qed.

(** *** Witnesses *)

Definition example_tc : TransformationConfigurator :=
  mkConfigurator
    (Some (mkTransformation
       [mkTransform "route" "org.RegexRouter" "isTopic" (Some true) {["regex" := "${replication_prefix}(.*)"]}]
       [mkPredicate "isTopic" "org.TopicNameMatches" ∅]))
    "cr_ns_".

Definition example_config : list string :=
  ["clusters = a,b"; "a->b.enabled = true"; "a->b.transforms = other_ns_x"; "a->b.topics = t"].

Lemma example_well_named : well_named example_tc.
Proof.
  split; [by apply (bool_decide_unpack (valid_prefix "cr_ns_")); vm_compute|].
  intros t [= <-]. split; repeat constructor.
Qed.

Lemma UpdateTransformationProperties_idempotent_witness :
  UpdateTransformationProperties example_tc
    (UpdateTransformationProperties example_tc example_config "a" "b" false) "a" "b" false
  = UpdateTransformationProperties example_tc example_config "a" "b" false
  ∧ UpdateTransformationProperties example_tc example_config "a" "b" false =
    ["clusters = a,b"; "a->b.enabled = true";
     "a->b.transforms.cr_ns_route.type = org.RegexRouter";
     "a->b.transforms.cr_ns_route.predicate = cr_ns_isTopic";
     "a->b.transforms.cr_ns_route.negate = true";
     "a->b.transforms.cr_ns_route.regex = a.(.*)";
     "a->b.predicates.cr_ns_isTopic.type = org.TopicNameMatches";
     "a->b.transforms = cr_ns_route,other_ns_x"; "a->b.predicates = cr_ns_isTopic"; "a->b.topics = t"].
Proof.
  split; [|vm_compute; reflexivity].
  exact (UpdateTransformationProperties_idempotent example_tc example_config "a" "b" false example_well_named).
Defined.

Lemma UpdateTransformationProperties_keeps_others_witness :
  foreign_names example_tc "a->b" KTransforms "a->b.transforms = "
    (UpdateTransformationProperties example_tc example_config "a" "b" false) ≡ₚ ["other_ns_x"].
Proof.
  refine (proj1 (proj2 (UpdateTransformationProperties_keeps_others example_tc example_config "a" "b" false
    example_well_named _))).
  apply list_elem_of_In. right. left. reflexivity.
Defined.

Lemma UpdateTransformationProperties_drops_others_witness :
  UpdateTransformationProperties example_tc
    ["a->b.enabled=true"; "a->b.transforms = other_ns_x"] "a" "b" false = ["a->b.enabled=true"].
Proof.
  refine (proj1 (UpdateTransformationProperties_drops_others example_tc
    ["a->b.enabled=true"; "a->b.transforms = other_ns_x"] "a" "b" false _ eq_refl _)).
  vm_compute. intros H. apply list_elem_of_In in H. destruct H as [H|[H|[]]]; discriminate H.
Defined.
