(* ===== verification/Kube.v ===== *)
(** * Kubernetes objects

    The objects of k8s.io/api that the operator reads, builds and writes, as records of the fields
    it uses.  [set_f] replaces the field [f] of a record, the assignment [r.f = v] of the code.  A
    pointer is an [option], [None] being nil.  The storage a claim requests is an integer; other
    quantities, which the operator only passes on, are their text.
    The API server leaves out empty maps, so the empty map of an object read from it is nil. *)

From S2P Require Import Prelude.

(** A value the operator passes on as it is. *)
Record Raw := mkRaw { raw_text : string }.

Global Instance Raw_eq_dec : EqDecision Raw.
Proof. solve_decision. Defined.

(** ** Metadata and data *)

(** metav1.OwnerReference *)
Record OwnerReference := mkOwner {
  owner_APIVersion : string;
  owner_Kind : string;
  owner_Name : string;
  owner_Controller : bool;
}.

Global Instance OwnerReference_eq_dec : EqDecision OwnerReference.
Proof. solve_decision. Defined.

(** metav1.ObjectMeta; [DeletionTimestamp] tells whether the time stamp is set. *)
Record ObjectMeta := mkMeta {
  Name : string;
  Namespace : string;
  Labels : strmap;
  Annotations : strmap;
  ResourceVersion : string;
  Generation : Z;
  Finalizers : list string;
  DeletionTimestamp : bool;
  OwnerReferences : list OwnerReference;
}.

Global Instance ObjectMeta_eq_dec : EqDecision ObjectMeta.
Proof. solve_decision. Defined.

Definition set_Labels (v : strmap) (r : ObjectMeta) : ObjectMeta :=
  mkMeta (Name r) (Namespace r) v (Annotations r) (ResourceVersion r) (Generation r) (Finalizers r) (DeletionTimestamp r) (OwnerReferences r).

Definition set_Annotations (v : strmap) (r : ObjectMeta) : ObjectMeta :=
  mkMeta (Name r) (Namespace r) (Labels r) v (ResourceVersion r) (Generation r) (Finalizers r) (DeletionTimestamp r) (OwnerReferences r).

Definition set_ResourceVersion (v : string) (r : ObjectMeta) : ObjectMeta :=
  mkMeta (Name r) (Namespace r) (Labels r) (Annotations r) v (Generation r) (Finalizers r) (DeletionTimestamp r) (OwnerReferences r).

Definition set_Finalizers (v : list string) (r : ObjectMeta) : ObjectMeta :=
  mkMeta (Name r) (Namespace r) (Labels r) (Annotations r) (ResourceVersion r) (Generation r) v (DeletionTimestamp r) (OwnerReferences r).

Definition set_OwnerReferences (v : list OwnerReference) (r : ObjectMeta) : ObjectMeta :=
  mkMeta (Name r) (Namespace r) (Labels r) (Annotations r) (ResourceVersion r) (Generation r) (Finalizers r) (DeletionTimestamp r) v.

(** corev1.Secret; the bytes of a data value are a string. *)
Record Secret := mkSecret {
  secret_meta : ObjectMeta;
  secret_Data : strmap;
  secret_StringData : strmap;
}.

Global Instance Secret_eq_dec : EqDecision Secret.
Proof. solve_decision. Defined.

Definition set_secret_meta (v : ObjectMeta) (r : Secret) : Secret :=
  mkSecret v (secret_Data r) (secret_StringData r).

Definition set_secret_Data (v : strmap) (r : Secret) : Secret :=
  mkSecret (secret_meta r) v (secret_StringData r).

Definition set_secret_StringData (v : strmap) (r : Secret) : Secret :=
  mkSecret (secret_meta r) (secret_Data r) v.

(** corev1.ConfigMap *)
Record ConfigMap := mkConfigMap {
  cm_meta : ObjectMeta;
  cm_Data : strmap;
  cm_BinaryData : strmap;
}.

Global Instance ConfigMap_eq_dec : EqDecision ConfigMap.
Proof. solve_decision. Defined.

Definition set_cm_meta (v : ObjectMeta) (r : ConfigMap) : ConfigMap :=
  mkConfigMap v (cm_Data r) (cm_BinaryData r).

Definition set_cm_Data (v : strmap) (r : ConfigMap) : ConfigMap :=
  mkConfigMap (cm_meta r) v (cm_BinaryData r).

Definition set_cm_BinaryData (v : strmap) (r : ConfigMap) : ConfigMap :=
  mkConfigMap (cm_meta r) (cm_Data r) v.

(** ** Pod templates *)

(** Where the value of a variable comes from: a field of the pod, a key of a config map. *)
Inductive EnvVarSource := FieldRef (fieldPath : string) | ConfigMapKeyRef (name key : string).

Global Instance EnvVarSource_eq_dec : EqDecision EnvVarSource.
Proof. solve_decision. Defined.

(** corev1.EnvVar *)
Record EnvVar := mkEnvVar {
  env_Name : string;
  env_Value : string;
  env_ValueFrom : option EnvVarSource;
}.

Global Instance EnvVar_eq_dec : EqDecision EnvVar.
Proof. solve_decision. Defined.

(** A variable with a literal value. *)
Definition mkEnv (name value : string) : EnvVar := mkEnvVar name value None.

Inductive Protocol := ProtocolTCP | ProtocolUDP.

Global Instance Protocol_eq_dec : EqDecision Protocol.
Proof. solve_decision. Defined.

(** corev1.ContainerPort *)
Record ContainerPort := mkContainerPort {
  cp_Name : string;
  cp_ContainerPort : Z;
  cp_Protocol : Protocol;
}.

Global Instance ContainerPort_eq_dec : EqDecision ContainerPort.
Proof. solve_decision. Defined.

(** corev1.KeyToPath *)
Record KeyToPath := mkKeyToPath {
  ktp_Key : string;
  ktp_Path : string;
}.

Global Instance KeyToPath_eq_dec : EqDecision KeyToPath.
Proof. solve_decision. Defined.

(** corev1.VolumeProjection: a nil list of items selects every key. *)
Inductive VolumeProjection :=
  | SecretProjection (name : string) (items : list KeyToPath)
  | ConfigMapProjection (name : string).

Global Instance VolumeProjection_eq_dec : EqDecision VolumeProjection.
Proof. solve_decision. Defined.

(** corev1.VolumeSource *)
Inductive VolumeSource :=
  | ConfigMapVolume (name : string) (items : list KeyToPath)
  | SecretVolume (secretName : string) (defaultMode : option Z) (items : list KeyToPath)
  | ProjectedVolume (defaultMode : option Z) (sources : list VolumeProjection)
  | EmptyDirVolume (sizeLimit : option string)
  | PersistentVolumeClaimVolume (claimName : string).

Global Instance VolumeSource_eq_dec : EqDecision VolumeSource.
Proof. solve_decision. Defined.

(** corev1.Volume *)
Record Volume := mkVolume {
  volume_Name : string;
  volume_Source : VolumeSource;
}.

Global Instance Volume_eq_dec : EqDecision Volume.
Proof. solve_decision. Defined.

(** corev1.VolumeMount *)
Record VolumeMount := mkVolumeMount {
  vm_Name : string;
  vm_MountPath : string;
  vm_ReadOnly : bool;
}.

Global Instance VolumeMount_eq_dec : EqDecision VolumeMount.
Proof. solve_decision. Defined.

(** corev1.ProbeHandler *)
Inductive ProbeHandler :=
  | TCPSocket (port : Z)
  | HTTPGet (path : string) (port : Z) (scheme : string)
  | Exec (command : list string).

Global Instance ProbeHandler_eq_dec : EqDecision ProbeHandler.
Proof. solve_decision. Defined.

(** corev1.Probe *)
Record Probe := mkProbe {
  probe_Handler : ProbeHandler;
  probe_InitialDelaySeconds : Z;
  probe_TimeoutSeconds : Z;
  probe_PeriodSeconds : Z;
  probe_SuccessThreshold : Z;
  probe_FailureThreshold : Z;
}.

Global Instance Probe_eq_dec : EqDecision Probe.
Proof. solve_decision. Defined.

(** corev1.SecurityContext *)
Record SecurityContext := mkSecurityContext {
  AllowPrivilegeEscalation : option bool;
  ReadOnlyRootFilesystem : option bool;
  Capabilities_Drop : list string;
}.

Global Instance SecurityContext_eq_dec : EqDecision SecurityContext.
Proof. solve_decision. Defined.

(** corev1.ResourceRequirements *)
Record ResourceRequirements := mkResources {
  res_Requests : strmap;
  res_Limits : strmap;
}.

Global Instance ResourceRequirements_eq_dec : EqDecision ResourceRequirements.
Proof. solve_decision. Defined.

(** corev1.NodeSelectorRequirement *)
Record NodeSelectorRequirement := mkNodeSelectorRequirement {
  nsr_Key : string;
  nsr_Operator : string;
  nsr_Values : list string;
}.

Global Instance NodeSelectorRequirement_eq_dec : EqDecision NodeSelectorRequirement.
Proof. solve_decision. Defined.

(** corev1.NodeAffinity: the terms of the required node selector, the preferences. *)
Record NodeAffinity := mkNodeAffinity {
  na_Required : option (list (list NodeSelectorRequirement));
  na_Preferred : Raw;
}.

Global Instance NodeAffinity_eq_dec : EqDecision NodeAffinity.
Proof. solve_decision. Defined.

(** corev1.Affinity: the affinity to nodes, and the rest. *)
Record Affinity := mkAffinity {
  aff_NodeAffinity : option NodeAffinity;
  aff_Rest : Raw;
}.

Global Instance Affinity_eq_dec : EqDecision Affinity.
Proof. solve_decision. Defined.

Definition set_aff_NodeAffinity (v : option NodeAffinity) (r : Affinity) : Affinity :=
  mkAffinity v (aff_Rest r).

(** corev1.Container *)
Record Container := mkContainer {
  container_Name : string;
  container_Image : string;
  container_Command : list string;
  container_Args : list string;
  container_Ports : list ContainerPort;
  container_Env : list EnvVar;
  container_Resources : ResourceRequirements;
  container_VolumeMounts : list VolumeMount;
  container_LivenessProbe : option Probe;
  container_ReadinessProbe : option Probe;
  container_ImagePullPolicy : string;
  container_SecurityContext : option SecurityContext;
}.

Global Instance Container_eq_dec : EqDecision Container.
Proof. solve_decision. Defined.

(** corev1.PodSpec *)
Record PodSpec := mkPodSpec {
  ps_Volumes : list Volume;
  ps_InitContainers : list Container;
  ps_Containers : list Container;
  ps_SecurityContext : option Raw;
  ps_ServiceAccountName : string;
  ps_TerminationGracePeriodSeconds : option Z;
  ps_Hostname : string;
  ps_Subdomain : string;
  ps_Affinity : option Affinity;
  ps_Tolerations : list Raw;
  ps_PriorityClassName : string;
}.

Global Instance PodSpec_eq_dec : EqDecision PodSpec.
Proof. solve_decision. Defined.

(** corev1.PodTemplateSpec *)
Record PodTemplateSpec := mkTemplate {
  tmpl_Labels : strmap;
  tmpl_Annotations : strmap;
  tmpl_Spec : PodSpec;
}.

Global Instance PodTemplateSpec_eq_dec : EqDecision PodTemplateSpec.
Proof. solve_decision. Defined.

Definition set_tmpl_Annotations (v : strmap) (r : PodTemplateSpec) : PodTemplateSpec :=
  mkTemplate (tmpl_Labels r) v (tmpl_Spec r).

(** ** Workloads, services, storage *)

(** appsv1.Deployment, with the counters of its status. *)
Record Deployment := mkDeployment {
  dep_meta : ObjectMeta;
  dep_Strategy : string;
  dep_Replicas : option Z;
  dep_ProgressDeadlineSeconds : option Z;
  dep_Selector : strmap;
  dep_Template : PodTemplateSpec;
  dep_ReadyReplicas : Z;
  dep_UpdatedReplicas : Z;
}.

Global Instance Deployment_eq_dec : EqDecision Deployment.
Proof. solve_decision. Defined.

Definition set_dep_meta (v : ObjectMeta) (r : Deployment) : Deployment :=
  mkDeployment v (dep_Strategy r) (dep_Replicas r) (dep_ProgressDeadlineSeconds r) (dep_Selector r) (dep_Template r) (dep_ReadyReplicas r) (dep_UpdatedReplicas r).

Definition set_dep_Replicas (v : option Z) (r : Deployment) : Deployment :=
  mkDeployment (dep_meta r) (dep_Strategy r) v (dep_ProgressDeadlineSeconds r) (dep_Selector r) (dep_Template r) (dep_ReadyReplicas r) (dep_UpdatedReplicas r).

Definition set_dep_Template (v : PodTemplateSpec) (r : Deployment) : Deployment :=
  mkDeployment (dep_meta r) (dep_Strategy r) (dep_Replicas r) (dep_ProgressDeadlineSeconds r) (dep_Selector r) v (dep_ReadyReplicas r) (dep_UpdatedReplicas r).

Definition dep_Containers (d : Deployment) : list Container := ps_Containers (tmpl_Spec (dep_Template d)).

(** corev1.ServicePort *)
Record ServicePort := mkPort {
  port_Name : string;
  port_Port : Z;
  port_Protocol : Protocol;
}.

Global Instance ServicePort_eq_dec : EqDecision ServicePort.
Proof. solve_decision. Defined.

(** corev1.Service *)
Record Service := mkService {
  svc_meta : ObjectMeta;
  svc_Type : string;
  svc_ClusterIP : string;
  svc_PublishNotReadyAddresses : bool;
  svc_Ports : list ServicePort;
  svc_Selector : strmap;
}.

Global Instance Service_eq_dec : EqDecision Service.
Proof. solve_decision. Defined.

Definition set_svc_meta (v : ObjectMeta) (r : Service) : Service :=
  mkService v (svc_Type r) (svc_ClusterIP r) (svc_PublishNotReadyAddresses r) (svc_Ports r) (svc_Selector r).

Definition set_svc_ClusterIP (v : string) (r : Service) : Service :=
  mkService (svc_meta r) (svc_Type r) v (svc_PublishNotReadyAddresses r) (svc_Ports r) (svc_Selector r).

Definition set_svc_PublishNotReadyAddresses (v : bool) (r : Service) : Service :=
  mkService (svc_meta r) (svc_Type r) (svc_ClusterIP r) v (svc_Ports r) (svc_Selector r).

(** corev1.ServiceAccount *)
Record ServiceAccount := mkServiceAccount {
  sa_meta : ObjectMeta;
}.

Global Instance ServiceAccount_eq_dec : EqDecision ServiceAccount.
Proof. solve_decision. Defined.

Definition set_sa_meta (v : ObjectMeta) (r : ServiceAccount) : ServiceAccount :=
  mkServiceAccount v.

(** corev1.PersistentVolumeClaim: its specification (a nil map of requests is [None]), capacity and condition types. *)
Record PersistentVolumeClaim := mkPvc {
  pvc_meta : ObjectMeta;
  pvc_VolumeName : string;
  pvc_StorageClassName : option string;
  pvc_Selector : option strmap;
  pvc_AccessModes : list string;
  pvc_Requests : option (gmap string Z);
  pvc_Capacity : gmap string Z;
  pvc_Conditions : list string;
}.

Global Instance PersistentVolumeClaim_eq_dec : EqDecision PersistentVolumeClaim.
Proof. solve_decision. Defined.

Definition set_pvc_meta (v : ObjectMeta) (r : PersistentVolumeClaim) : PersistentVolumeClaim :=
  mkPvc v (pvc_VolumeName r) (pvc_StorageClassName r) (pvc_Selector r) (pvc_AccessModes r) (pvc_Requests r) (pvc_Capacity r) (pvc_Conditions r).

Definition set_pvc_Requests (v : option (gmap string Z)) (r : PersistentVolumeClaim) : PersistentVolumeClaim :=
  mkPvc (pvc_meta r) (pvc_VolumeName r) (pvc_StorageClassName r) (pvc_Selector r) (pvc_AccessModes r) v (pvc_Capacity r) (pvc_Conditions r).

(** corev1.Pod: its conditions as pairs of type and status. *)
Record Pod := mkPod {
  pod_meta : ObjectMeta;
  pod_Conditions : list (string * string);
  pod_Containers : list Container;
}.

Global Instance Pod_eq_dec : EqDecision Pod.
Proof. solve_decision. Defined.
