(* ===== verification/Api.v ===== *)
(** * The custom resources

    Sources: operator/api/v1/*_types.go and operator/api/v7/kafkaservice_types.go.  [set_f]
    replaces the field [f] of a record.  At the end, the kinds of objects the API server keeps. *)

From S2P Require Import Prelude Transformation Kube.

(** operator/api/v1/kafka_types.go *)
Module KafkaV1.

Record OAuth := mkOAuth {
  OAuth_ClockSkew : option Z;
  OAuth_JwkSourceType : option string;
  OAuth_JwksConnectionTimeout : option Z;
  OAuth_JwksReadTimeout : option Z;
  OAuth_JwksSizeLimit : option Z;
}.

Global Instance OAuth_eq_dec : EqDecision OAuth.
Proof. solve_decision. Defined.

Record Ssl := mkSsl {
  Ssl_Enabled : bool;
  Ssl_SecretName : string;
  Ssl_CipherSuites : list string;
  Ssl_EnableTwoWaySsl : bool;
  Ssl_AllowNonencryptedAccess : bool;
}.

Global Instance Ssl_eq_dec : EqDecision Ssl.
Proof. solve_decision. Defined.

Record Scaling := mkScaling {
  Scaling_ReassignPartitions : option bool;
  Scaling_BrokerDeploymentScaleInEnabled : option bool;
  Scaling_AllBrokersStartTimeoutSeconds : option Z;
  Scaling_TopicReassignmentTimeoutSeconds : option Z;
}.

Global Instance Scaling_eq_dec : EqDecision Scaling.
Proof. solve_decision. Defined.

Record Storage := mkStorage {
  Storage_ClassName : list string;
  Storage_Size : string;
  Storage_Volumes : list string;
  Storage_Nodes : list string;
  Storage_Labels : list string;
}.

Global Instance Storage_eq_dec : EqDecision Storage.
Proof. solve_decision. Defined.

Record Kraft := mkKraft {
  Kraft_Enabled : bool;
  Kraft_Migration : bool;
  Kraft_MigrationTimeout : Z;
}.

Global Instance Kraft_eq_dec : EqDecision Kraft.
Proof. solve_decision. Defined.

Record MigrationController := mkMigrationController {
  MigrationController_Affinity : Affinity;
  MigrationController_Tolerations : list Raw;
  MigrationController_PriorityClassName : string;
  MigrationController_HeapSize : Z;
  MigrationController_Resources : ResourceRequirements;
  MigrationController_Storage : Storage;
}.

Global Instance MigrationController_eq_dec : EqDecision MigrationController.
Proof. solve_decision. Defined.

Record ProbeTimingConfig := mkProbeTimingConfig {
  ProbeTimingConfig_InitialDelaySeconds : option Z;
  ProbeTimingConfig_TimeoutSeconds : option Z;
  ProbeTimingConfig_PeriodSeconds : option Z;
  ProbeTimingConfig_SuccessThreshold : option Z;
  ProbeTimingConfig_FailureThreshold : option Z;
}.

Global Instance ProbeTimingConfig_eq_dec : EqDecision ProbeTimingConfig.
Proof. solve_decision. Defined.

Record PVCMetadata := mkPVCMetadata {
  PVCMetadata_Annotations : strmap;
}.

Global Instance PVCMetadata_eq_dec : EqDecision PVCMetadata.
Proof. solve_decision. Defined.

Record PVC := mkPVC {
  PVC_PVCMetadata : PVCMetadata;
}.

Global Instance PVC_eq_dec : EqDecision PVC.
Proof. solve_decision. Defined.

Record KafkaSpec := mkKafkaSpec {
  KafkaSpec_WaitForPodsReady : bool;
  KafkaSpec_PodsReadyTimeout : Z;
  KafkaSpec_Affinity : Affinity;
  KafkaSpec_Tolerations : list Raw;
  KafkaSpec_PriorityClassName : string;
  KafkaSpec_DisableSecurity : option bool;
  KafkaSpec_DockerImage : string;
  KafkaSpec_HeapSize : Z;
  KafkaSpec_Oauth : OAuth;
  KafkaSpec_Ssl : Ssl;
  KafkaSpec_Replicas : Z;
  KafkaSpec_Scaling : Scaling;
  KafkaSpec_Resources : ResourceRequirements;
  KafkaSpec_SecretName : string;
  KafkaSpec_SecurityContext : Raw;
  KafkaSpec_Storage : Storage;
  KafkaSpec_GetRacksFromNodeLabels : option bool;
  KafkaSpec_NodeLabelNameForRack : string;
  KafkaSpec_Racks : list string;
  KafkaSpec_TerminationGracePeriod : option Z;
  KafkaSpec_ZookeeperConnect : string;
  KafkaSpec_ZookeeperEnableSsl : bool;
  KafkaSpec_ZookeeperSslSecretName : string;
  KafkaSpec_ZookeeperSetACL : option bool;
  KafkaSpec_ExternalHostNames : list string;
  KafkaSpec_ExternalPorts : list Z;
  KafkaSpec_EnvironmentVariables : list string;
  KafkaSpec_Config : strmap;
  KafkaSpec_RollbackTimeout : option Z;
  KafkaSpec_HealthCheckTimeout : option Z;
  KafkaSpec_EnableAuditLogs : option bool;
  KafkaSpec_TokenRolesPath : string;
  KafkaSpec_EnableAuthorization : option bool;
  KafkaSpec_DiscoveryEnabled : bool;
  KafkaSpec_RegisteredServiceName : string;
  KafkaSpec_KafkaDiscoveryMeta : strmap;
  KafkaSpec_KafkaDiscoveryTags : list string;
  KafkaSpec_ConsulAclEnabled : bool;
  KafkaSpec_ConsulAuthMethod : string;
  KafkaSpec_RollingUpdate : bool;
  KafkaSpec_CustomLabels : strmap;
  KafkaSpec_DefaultLabels : strmap;
  KafkaSpec_DebugContainer : bool;
  KafkaSpec_CCMetricReporterEnabled : bool;
  KafkaSpec_Kraft : Kraft;
  KafkaSpec_MigrationController : MigrationController;
  KafkaSpec_LivenessProbe : option ProbeTimingConfig;
  KafkaSpec_ReadinessProbe : option ProbeTimingConfig;
  KafkaSpec_PVC : PVC;
}.

Global Instance KafkaSpec_eq_dec : EqDecision KafkaSpec.
Proof. solve_decision. Defined.

Record KafkaBrokerStatus := mkKafkaBrokerStatus {
  KafkaBrokerStatus_Brokers : list string;
}.

Global Instance KafkaBrokerStatus_eq_dec : EqDecision KafkaBrokerStatus.
Proof. solve_decision. Defined.

Record PartitionsReassignmentStatus := mkPartitionsReassignmentStatus {
  PartitionsReassignmentStatus_Status : string;
}.

Global Instance PartitionsReassignmentStatus_eq_dec : EqDecision PartitionsReassignmentStatus.
Proof. solve_decision. Defined.

Record KraftMigrationStatus := mkKraftMigrationStatus {
  KraftMigrationStatus_Status : string;
}.

Global Instance KraftMigrationStatus_eq_dec : EqDecision KraftMigrationStatus.
Proof. solve_decision. Defined.

Record StatusCondition := mkStatusCondition {
  StatusCondition_Type : string;
  StatusCondition_Status : string;
  StatusCondition_Reason : string;
  StatusCondition_Message : string;
  StatusCondition_LastTransitionTime : string;
}.

Global Instance StatusCondition_eq_dec : EqDecision StatusCondition.
Proof. solve_decision. Defined.

Record PVCStatus := mkPVCStatus {
  PVCStatus_Annotations : strmap;
}.

Global Instance PVCStatus_eq_dec : EqDecision PVCStatus.
Proof. solve_decision. Defined.

Record KafkaStatus := mkKafkaStatus {
  KafkaStatus_KafkaBrokerStatus : KafkaBrokerStatus;
  KafkaStatus_PartitionsReassignmentStatus : PartitionsReassignmentStatus;
  KafkaStatus_Conditions : list StatusCondition;
  KafkaStatus_KraftMigrationStatus : KraftMigrationStatus;
  KafkaStatus_PVCStatus : PVCStatus;
}.

Global Instance KafkaStatus_eq_dec : EqDecision KafkaStatus.
Proof. solve_decision. Defined.

Definition set_KafkaStatus_KafkaBrokerStatus (v : KafkaBrokerStatus) (r : KafkaStatus) : KafkaStatus :=
  mkKafkaStatus v (KafkaStatus_PartitionsReassignmentStatus r) (KafkaStatus_Conditions r) (KafkaStatus_KraftMigrationStatus r) (KafkaStatus_PVCStatus r).

Definition set_KafkaStatus_PartitionsReassignmentStatus (v : PartitionsReassignmentStatus) (r : KafkaStatus) : KafkaStatus :=
  mkKafkaStatus (KafkaStatus_KafkaBrokerStatus r) v (KafkaStatus_Conditions r) (KafkaStatus_KraftMigrationStatus r) (KafkaStatus_PVCStatus r).

Definition set_KafkaStatus_Conditions (v : list StatusCondition) (r : KafkaStatus) : KafkaStatus :=
  mkKafkaStatus (KafkaStatus_KafkaBrokerStatus r) (KafkaStatus_PartitionsReassignmentStatus r) v (KafkaStatus_KraftMigrationStatus r) (KafkaStatus_PVCStatus r).

Definition set_KafkaStatus_KraftMigrationStatus (v : KraftMigrationStatus) (r : KafkaStatus) : KafkaStatus :=
  mkKafkaStatus (KafkaStatus_KafkaBrokerStatus r) (KafkaStatus_PartitionsReassignmentStatus r) (KafkaStatus_Conditions r) v (KafkaStatus_PVCStatus r).

Definition set_KafkaStatus_PVCStatus (v : PVCStatus) (r : KafkaStatus) : KafkaStatus :=
  mkKafkaStatus (KafkaStatus_KafkaBrokerStatus r) (KafkaStatus_PartitionsReassignmentStatus r) (KafkaStatus_Conditions r) (KafkaStatus_KraftMigrationStatus r) v.

Record Kafka := mkKafka {
  Kafka_APIVersion : string;
  Kafka_meta : ObjectMeta;
  Kafka_Spec : KafkaSpec;
  Kafka_Status : KafkaStatus;
}.

Global Instance Kafka_eq_dec : EqDecision Kafka.
Proof. solve_decision. Defined.

Definition set_Kafka_meta (v : ObjectMeta) (r : Kafka) : Kafka :=
  mkKafka (Kafka_APIVersion r) v (Kafka_Spec r) (Kafka_Status r).

Definition set_Kafka_Status (v : KafkaStatus) (r : Kafka) : Kafka :=
  mkKafka (Kafka_APIVersion r) (Kafka_meta r) (Kafka_Spec r) v.

End KafkaV1.

(** operator/api/v7/kafkaservice_types.go *)
Module ServiceV7.

Record KafkaSsl := mkKafkaSsl {
  KafkaSsl_Enabled : bool;
  KafkaSsl_SecretName : string;
}.

Global Instance KafkaSsl_eq_dec : EqDecision KafkaSsl.
Proof. solve_decision. Defined.

Record Kraft := mkKraft {
  Kraft_Enabled : bool;
}.

Global Instance Kraft_eq_dec : EqDecision Kraft.
Proof. solve_decision. Defined.

Record Global := mkGlobal {
  Global_WaitForPodsReady : bool;
  Global_PodsReadyTimeout : Z;
  Global_CustomLabels : strmap;
  Global_DefaultLabels : strmap;
  Global_KafkaSaslMechanism : string;
  Global_KafkaSsl : KafkaSsl;
  Global_Kraft : Kraft;
}.

Global Instance Global_eq_dec : EqDecision Global.
Proof. solve_decision. Defined.

Record MirrorMakerReplication := mkMirrorMakerReplication {
  MirrorMakerReplication_Enabled : bool;
}.

Global Instance MirrorMakerReplication_eq_dec : EqDecision MirrorMakerReplication.
Proof. solve_decision. Defined.

Record TopicsBackup := mkTopicsBackup {
  TopicsBackup_Enabled : bool;
}.

Global Instance TopicsBackup_eq_dec : EqDecision TopicsBackup.
Proof. solve_decision. Defined.

Record DisasterRecovery := mkDisasterRecovery {
  DisasterRecovery_Mode : string;
  DisasterRecovery_Region : string;
  DisasterRecovery_NoWait : bool;
  DisasterRecovery_MirrorMakerReplication : MirrorMakerReplication;
  DisasterRecovery_TopicsBackup : TopicsBackup;
}.

Global Instance DisasterRecovery_eq_dec : EqDecision DisasterRecovery.
Proof. solve_decision. Defined.

Record OAuth := mkOAuth {
  OAuth_ClockSkew : option Z;
  OAuth_JwkSourceType : option string;
  OAuth_JwksConnectionTimeout : option Z;
  OAuth_JwksReadTimeout : option Z;
  OAuth_JwksSizeLimit : option Z;
}.

Global Instance OAuth_eq_dec : EqDecision OAuth.
Proof. solve_decision. Defined.

Record Ssl := mkSsl {
  Ssl_CipherSuites : list string;
  Ssl_EnableTwoWaySsl : bool;
  Ssl_AllowNonencryptedAccess : bool;
}.

Global Instance Ssl_eq_dec : EqDecision Ssl.
Proof. solve_decision. Defined.

Record Scaling := mkScaling {
  Scaling_ReassignPartitions : option bool;
  Scaling_BrokerDeploymentScaleInEnabled : option bool;
  Scaling_AllBrokersStartTimeoutSeconds : option Z;
  Scaling_TopicReassignmentTimeoutSeconds : option Z;
}.

Global Instance Scaling_eq_dec : EqDecision Scaling.
Proof. solve_decision. Defined.

Record Storage := mkStorage {
  Storage_ClassName : list string;
  Storage_Size : string;
  Storage_Volumes : list string;
  Storage_Nodes : list string;
  Storage_Labels : list string;
}.

Global Instance Storage_eq_dec : EqDecision Storage.
Proof. solve_decision. Defined.

Record Kafka := mkKafka {
  Kafka_Affinity : Affinity;
  Kafka_Tolerations : list Raw;
  Kafka_PriorityClassName : string;
  Kafka_DisableSecurity : option bool;
  Kafka_DockerImage : string;
  Kafka_HeapSize : Z;
  Kafka_Oauth : OAuth;
  Kafka_Ssl : Ssl;
  Kafka_Replicas : Z;
  Kafka_Scaling : Scaling;
  Kafka_Resources : ResourceRequirements;
  Kafka_SecretName : string;
  Kafka_SecurityContext : Raw;
  Kafka_Storage : Storage;
  Kafka_GetRacksFromNodeLabels : option bool;
  Kafka_NodeLabelNameForRack : string;
  Kafka_Racks : list string;
  Kafka_TerminationGracePeriod : option Z;
  Kafka_ZookeeperConnect : string;
  Kafka_ZookeeperEnableSsl : bool;
  Kafka_ZookeeperSslSecretName : string;
  Kafka_ZookeeperSetACL : option bool;
  Kafka_ExternalHostNames : list string;
  Kafka_ExternalPorts : list Z;
  Kafka_EnvironmentVariables : list string;
  Kafka_RollbackTimeout : option Z;
  Kafka_HealthCheckTimeout : option Z;
  Kafka_EnableAuditLogs : option bool;
  Kafka_TokenRolesPath : string;
  Kafka_EnableAuthorization : option bool;
  Kafka_DiscoveryEnabled : bool;
  Kafka_RegisteredServiceName : string;
  Kafka_KafkaDiscoveryMeta : strmap;
  Kafka_KafkaDiscoveryTags : list string;
  Kafka_ConsulAclEnabled : bool;
  Kafka_ConsulAuthMethod : string;
  Kafka_RollingUpdate : bool;
  Kafka_CustomLabels : strmap;
  Kafka_DebugContainer : bool;
  Kafka_CCMetricReporterEnabled : bool;
}.

Global Instance Kafka_eq_dec : EqDecision Kafka.
Proof. solve_decision. Defined.

Record LdapServerContext := mkLdapServerContext {
  LdapServerContext_Server : string;
  LdapServerContext_ManagerDn : string;
  LdapServerContext_ManagerPass : string;
}.

Global Instance LdapServerContext_eq_dec : EqDecision LdapServerContext.
Proof. solve_decision. Defined.

Record LdapServerSearch := mkLdapServerSearch {
  LdapServerSearch_Base : string;
  LdapServerSearch_Filter : string;
}.

Global Instance LdapServerSearch_eq_dec : EqDecision LdapServerSearch.
Proof. solve_decision. Defined.

Record LdapServerGroups := mkLdapServerGroups {
  LdapServerGroups_Enabled : bool;
}.

Global Instance LdapServerGroups_eq_dec : EqDecision LdapServerGroups.
Proof. solve_decision. Defined.

Record LdapServer := mkLdapServer {
  LdapServer_Context : LdapServerContext;
  LdapServer_Search : LdapServerSearch;
  LdapServer_Groups : LdapServerGroups;
}.

Global Instance LdapServer_eq_dec : EqDecision LdapServer.
Proof. solve_decision. Defined.

Record LdapGroup := mkLdapGroup {
  LdapGroup_Name : string;
  LdapGroup_Groups : list string;
}.

Global Instance LdapGroup_eq_dec : EqDecision LdapGroup.
Proof. solve_decision. Defined.

Record LdapUser := mkLdapUser {
  LdapUser_Username : string;
  LdapUser_Groups : list string;
}.

Global Instance LdapUser_eq_dec : EqDecision LdapUser.
Proof. solve_decision. Defined.

Record LdapUsersConfig := mkLdapUsersConfig {
  LdapUsersConfig_Groups : list LdapGroup;
  LdapUsersConfig_Users : list LdapUser;
}.

Global Instance LdapUsersConfig_eq_dec : EqDecision LdapUsersConfig.
Proof. solve_decision. Defined.

Record LdapConfig := mkLdapConfig {
  LdapConfig_Enabled : bool;
  LdapConfig_EnableSsl : bool;
  LdapConfig_TrustedCerts : strmap;
  LdapConfig_Server : LdapServer;
  LdapConfig_UsersConfig : LdapUsersConfig;
}.

Global Instance LdapConfig_eq_dec : EqDecision LdapConfig.
Proof. solve_decision. Defined.

Record Akhq := mkAkhq {
  Akhq_DockerImage : string;
  Akhq_Affinity : Affinity;
  Akhq_Tolerations : list Raw;
  Akhq_PriorityClassName : string;
  Akhq_Resources : ResourceRequirements;
  Akhq_SecurityContext : Raw;
  Akhq_KafkaPollTimeout : option Z;
  Akhq_EnableAccessLog : option bool;
  Akhq_BootstrapServers : string;
  Akhq_KafkaEnableSsl : bool;
  Akhq_CustomLabels : strmap;
  Akhq_EnvironmentVariables : list string;
  Akhq_HeapSize : option Z;
  Akhq_SchemaRegistryUrl : string;
  Akhq_SchemaRegistryType : string;
  Akhq_Ldap : option LdapConfig;
}.

Global Instance Akhq_eq_dec : EqDecision Akhq.
Proof. solve_decision. Defined.

Record LagExporter := mkLagExporter {
  LagExporter_DockerImage : string;
  LagExporter_MetricsPort : Z;
}.

Global Instance LagExporter_eq_dec : EqDecision LagExporter.
Proof. solve_decision. Defined.

Record Monitoring := mkMonitoring {
  Monitoring_DockerImage : string;
  Monitoring_Affinity : Affinity;
  Monitoring_Tolerations : list Raw;
  Monitoring_PriorityClassName : string;
  Monitoring_Resources : ResourceRequirements;
  Monitoring_SecurityContext : Raw;
  Monitoring_MonitoringType : string;
  Monitoring_SmDbHost : string;
  Monitoring_SmDbName : string;
  Monitoring_KafkaMeasurementPrefixName : string;
  Monitoring_DataCollectionInterval : string;
  Monitoring_KafkaExecPluginTimeout : string;
  Monitoring_SecretName : string;
  Monitoring_MinVersion : string;
  Monitoring_MaxVersion : string;
  Monitoring_BootstrapServers : string;
  Monitoring_KafkaEnableSsl : bool;
  Monitoring_KafkaTotalBrokerCount : Z;
  Monitoring_LagExporter : option LagExporter;
  Monitoring_CustomLabels : strmap;
}.

Global Instance Monitoring_eq_dec : EqDecision Monitoring.
Proof. solve_decision. Defined.

Record Cluster := mkCluster {
  Cluster_Name : string;
  Cluster_BootstrapServers : string;
  Cluster_NodeLabel : string;
  Cluster_EnableSsl : bool;
  Cluster_SslSecretName : string;
  Cluster_SaslMechanism : string;
}.

Global Instance Cluster_eq_dec : EqDecision Cluster.
Proof. solve_decision. Defined.

Record MirrorMaker := mkMirrorMaker {
  MirrorMaker_DockerImage : string;
  MirrorMaker_Affinity : Affinity;
  MirrorMaker_Tolerations : list Raw;
  MirrorMaker_PriorityClassName : string;
  MirrorMaker_HeapSize : Z;
  MirrorMaker_Resources : ResourceRequirements;
  MirrorMaker_Replicas : Z;
  MirrorMaker_Clusters : list Cluster;
  MirrorMaker_TopicsToReplicate : string;
  MirrorMaker_ReplicationFactor : Z;
  MirrorMaker_ConfiguratorEnabled : bool;
  MirrorMaker_RefreshTopicsIntervalSeconds : option Z;
  MirrorMaker_RefreshGroupsIntervalSeconds : option Z;
  MirrorMaker_ConfigurationName : string;
  MirrorMaker_SecretName : string;
  MirrorMaker_SecurityContext : Raw;
  MirrorMaker_EnvironmentVariables : list string;
  MirrorMaker_Config : strmap;
  MirrorMaker_RegionName : string;
  MirrorMaker_RepeatedReplication : option bool;
  MirrorMaker_CustomLabels : strmap;
  MirrorMaker_ReplicationFlowEnabled : bool;
  MirrorMaker_ReplicationPrefixEnabled : bool;
  MirrorMaker_Transformation : option Transformation;
  MirrorMaker_TasksMax : option Z;
  MirrorMaker_InternalRestEnabled : option bool;
  MirrorMaker_JolokiaPort : option Z;
}.

Global Instance MirrorMaker_eq_dec : EqDecision MirrorMaker.
Proof. solve_decision. Defined.

Record MirrorMakerMonitoring := mkMirrorMakerMonitoring {
  MirrorMakerMonitoring_DockerImage : string;
  MirrorMakerMonitoring_Affinity : Affinity;
  MirrorMakerMonitoring_Tolerations : list Raw;
  MirrorMakerMonitoring_PriorityClassName : string;
  MirrorMakerMonitoring_Resources : ResourceRequirements;
  MirrorMakerMonitoring_SecurityContext : Raw;
  MirrorMakerMonitoring_MonitoringType : string;
  MirrorMakerMonitoring_SmDbHost : string;
  MirrorMakerMonitoring_SmDbName : string;
  MirrorMakerMonitoring_KmmExecPluginTimeout : string;
  MirrorMakerMonitoring_KmmCollectionInterval : string;
  MirrorMakerMonitoring_SecretName : string;
  MirrorMakerMonitoring_CustomLabels : strmap;
  MirrorMakerMonitoring_JolokiaUrls : list string;
}.

Global Instance MirrorMakerMonitoring_eq_dec : EqDecision MirrorMakerMonitoring.
Proof. solve_decision. Defined.

Record SecretPaths := mkSecretPaths {
  SecretPaths_Kafka : strmap;
  SecretPaths_Monitoring : strmap;
  SecretPaths_MirrorMaker : strmap;
  SecretPaths_MirrorMakerMonitoring : strmap;
}.

Global Instance SecretPaths_eq_dec : EqDecision SecretPaths.
Proof. solve_decision. Defined.

Record VaultSecretManagement := mkVaultSecretManagement {
  VaultSecretManagement_DockerImage : string;
  VaultSecretManagement_Enabled : bool;
  VaultSecretManagement_Path : string;
  VaultSecretManagement_Url : string;
  VaultSecretManagement_Role : string;
  VaultSecretManagement_Method : string;
  VaultSecretManagement_PasswordGenerationMechanism : string;
  VaultSecretManagement_WritePolicies : bool;
  VaultSecretManagement_SecretPaths : SecretPaths;
}.

Global Instance VaultSecretManagement_eq_dec : EqDecision VaultSecretManagement.
Proof. solve_decision. Defined.

Record VaultSecretManagementStatus := mkVaultSecretManagementStatus {
  VaultSecretManagementStatus_SecretVersions : gmap string Z;
}.

Global Instance VaultSecretManagementStatus_eq_dec : EqDecision VaultSecretManagementStatus.
Proof. solve_decision. Defined.

Record IntegrationTests := mkIntegrationTests {
  IntegrationTests_ServiceName : string;
  IntegrationTests_WaitForResult : bool;
  IntegrationTests_Timeout : Z;
  IntegrationTests_RandomRunTrigger : string;
}.

Global Instance IntegrationTests_eq_dec : EqDecision IntegrationTests.
Proof. solve_decision. Defined.

Record BackupDaemon := mkBackupDaemon {
  BackupDaemon_Name : string;
}.

Global Instance BackupDaemon_eq_dec : EqDecision BackupDaemon.
Proof. solve_decision. Defined.

Record KafkaStatus := mkKafkaStatus {
  KafkaStatus_Brokers : list string;
}.

Global Instance KafkaStatus_eq_dec : EqDecision KafkaStatus.
Proof. solve_decision. Defined.

Record PartitionsReassignmentStatus := mkPartitionsReassignmentStatus {
  PartitionsReassignmentStatus_Status : string;
}.

Global Instance PartitionsReassignmentStatus_eq_dec : EqDecision PartitionsReassignmentStatus.
Proof. solve_decision. Defined.

Record AkhqStatus := mkAkhqStatus {
  AkhqStatus_Nodes : list string;
}.

Global Instance AkhqStatus_eq_dec : EqDecision AkhqStatus.
Proof. solve_decision. Defined.

Record MonitoringStatus := mkMonitoringStatus {
  MonitoringStatus_Nodes : list string;
}.

Global Instance MonitoringStatus_eq_dec : EqDecision MonitoringStatus.
Proof. solve_decision. Defined.

Record MirrorMakerStatus := mkMirrorMakerStatus {
  MirrorMakerStatus_Nodes : list string;
}.

Global Instance MirrorMakerStatus_eq_dec : EqDecision MirrorMakerStatus.
Proof. solve_decision. Defined.

Record DisasterRecoveryStatus := mkDisasterRecoveryStatus {
  DisasterRecoveryStatus_Mode : string;
  DisasterRecoveryStatus_Status : string;
  DisasterRecoveryStatus_Comment : string;
  DisasterRecoveryStatus_Message : string;
}.

Global Instance DisasterRecoveryStatus_eq_dec : EqDecision DisasterRecoveryStatus.
Proof. solve_decision. Defined.

Record StatusCondition := mkStatusCondition {
  StatusCondition_Type : string;
  StatusCondition_Status : string;
  StatusCondition_Reason : string;
  StatusCondition_Message : string;
  StatusCondition_LastTransitionTime : string;
}.

Global Instance StatusCondition_eq_dec : EqDecision StatusCondition.
Proof. solve_decision. Defined.

Record KafkaServiceSpec := mkKafkaServiceSpec {
  KafkaServiceSpec_Global : option Global;
  KafkaServiceSpec_DisasterRecovery : option DisasterRecovery;
  KafkaServiceSpec_Kafka : option Kafka;
  KafkaServiceSpec_Akhq : option Akhq;
  KafkaServiceSpec_Monitoring : option Monitoring;
  KafkaServiceSpec_MirrorMaker : option MirrorMaker;
  KafkaServiceSpec_MirrorMakerMonitoring : option MirrorMakerMonitoring;
  KafkaServiceSpec_VaultSecretManagement : option VaultSecretManagement;
  KafkaServiceSpec_IntegrationTests : option IntegrationTests;
  KafkaServiceSpec_BackupDaemon : option BackupDaemon;
}.

Global Instance KafkaServiceSpec_eq_dec : EqDecision KafkaServiceSpec.
Proof. solve_decision. Defined.

Record KafkaServiceStatus := mkKafkaServiceStatus {
  KafkaServiceStatus_KafkaStatus : KafkaStatus;
  KafkaServiceStatus_PartitionsReassignmentStatus : PartitionsReassignmentStatus;
  KafkaServiceStatus_AkhqStatus : AkhqStatus;
  KafkaServiceStatus_MonitoringStatus : MonitoringStatus;
  KafkaServiceStatus_MirrorMakerStatus : MirrorMakerStatus;
  KafkaServiceStatus_VaultSecretManagementStatus : VaultSecretManagementStatus;
  KafkaServiceStatus_DisasterRecoveryStatus : DisasterRecoveryStatus;
  KafkaServiceStatus_Conditions : list StatusCondition;
}.

Global Instance KafkaServiceStatus_eq_dec : EqDecision KafkaServiceStatus.
Proof. solve_decision. Defined.

Definition set_KafkaServiceStatus_KafkaStatus (v : KafkaStatus) (r : KafkaServiceStatus) : KafkaServiceStatus :=
  mkKafkaServiceStatus v (KafkaServiceStatus_PartitionsReassignmentStatus r) (KafkaServiceStatus_AkhqStatus r) (KafkaServiceStatus_MonitoringStatus r) (KafkaServiceStatus_MirrorMakerStatus r) (KafkaServiceStatus_VaultSecretManagementStatus r) (KafkaServiceStatus_DisasterRecoveryStatus r) (KafkaServiceStatus_Conditions r).

Definition set_KafkaServiceStatus_PartitionsReassignmentStatus (v : PartitionsReassignmentStatus) (r : KafkaServiceStatus) : KafkaServiceStatus :=
  mkKafkaServiceStatus (KafkaServiceStatus_KafkaStatus r) v (KafkaServiceStatus_AkhqStatus r) (KafkaServiceStatus_MonitoringStatus r) (KafkaServiceStatus_MirrorMakerStatus r) (KafkaServiceStatus_VaultSecretManagementStatus r) (KafkaServiceStatus_DisasterRecoveryStatus r) (KafkaServiceStatus_Conditions r).

Definition set_KafkaServiceStatus_AkhqStatus (v : AkhqStatus) (r : KafkaServiceStatus) : KafkaServiceStatus :=
  mkKafkaServiceStatus (KafkaServiceStatus_KafkaStatus r) (KafkaServiceStatus_PartitionsReassignmentStatus r) v (KafkaServiceStatus_MonitoringStatus r) (KafkaServiceStatus_MirrorMakerStatus r) (KafkaServiceStatus_VaultSecretManagementStatus r) (KafkaServiceStatus_DisasterRecoveryStatus r) (KafkaServiceStatus_Conditions r).

Definition set_KafkaServiceStatus_MonitoringStatus (v : MonitoringStatus) (r : KafkaServiceStatus) : KafkaServiceStatus :=
  mkKafkaServiceStatus (KafkaServiceStatus_KafkaStatus r) (KafkaServiceStatus_PartitionsReassignmentStatus r) (KafkaServiceStatus_AkhqStatus r) v (KafkaServiceStatus_MirrorMakerStatus r) (KafkaServiceStatus_VaultSecretManagementStatus r) (KafkaServiceStatus_DisasterRecoveryStatus r) (KafkaServiceStatus_Conditions r).

Definition set_KafkaServiceStatus_MirrorMakerStatus (v : MirrorMakerStatus) (r : KafkaServiceStatus) : KafkaServiceStatus :=
  mkKafkaServiceStatus (KafkaServiceStatus_KafkaStatus r) (KafkaServiceStatus_PartitionsReassignmentStatus r) (KafkaServiceStatus_AkhqStatus r) (KafkaServiceStatus_MonitoringStatus r) v (KafkaServiceStatus_VaultSecretManagementStatus r) (KafkaServiceStatus_DisasterRecoveryStatus r) (KafkaServiceStatus_Conditions r).

Definition set_KafkaServiceStatus_VaultSecretManagementStatus (v : VaultSecretManagementStatus) (r : KafkaServiceStatus) : KafkaServiceStatus :=
  mkKafkaServiceStatus (KafkaServiceStatus_KafkaStatus r) (KafkaServiceStatus_PartitionsReassignmentStatus r) (KafkaServiceStatus_AkhqStatus r) (KafkaServiceStatus_MonitoringStatus r) (KafkaServiceStatus_MirrorMakerStatus r) v (KafkaServiceStatus_DisasterRecoveryStatus r) (KafkaServiceStatus_Conditions r).

Definition set_KafkaServiceStatus_DisasterRecoveryStatus (v : DisasterRecoveryStatus) (r : KafkaServiceStatus) : KafkaServiceStatus :=
  mkKafkaServiceStatus (KafkaServiceStatus_KafkaStatus r) (KafkaServiceStatus_PartitionsReassignmentStatus r) (KafkaServiceStatus_AkhqStatus r) (KafkaServiceStatus_MonitoringStatus r) (KafkaServiceStatus_MirrorMakerStatus r) (KafkaServiceStatus_VaultSecretManagementStatus r) v (KafkaServiceStatus_Conditions r).

Definition set_KafkaServiceStatus_Conditions (v : list StatusCondition) (r : KafkaServiceStatus) : KafkaServiceStatus :=
  mkKafkaServiceStatus (KafkaServiceStatus_KafkaStatus r) (KafkaServiceStatus_PartitionsReassignmentStatus r) (KafkaServiceStatus_AkhqStatus r) (KafkaServiceStatus_MonitoringStatus r) (KafkaServiceStatus_MirrorMakerStatus r) (KafkaServiceStatus_VaultSecretManagementStatus r) (KafkaServiceStatus_DisasterRecoveryStatus r) v.

Record KafkaService := mkKafkaService {
  KafkaService_APIVersion : string;
  KafkaService_meta : ObjectMeta;
  KafkaService_Spec : KafkaServiceSpec;
  KafkaService_Status : KafkaServiceStatus;
}.

Global Instance KafkaService_eq_dec : EqDecision KafkaService.
Proof. solve_decision. Defined.

Definition set_KafkaService_meta (v : ObjectMeta) (r : KafkaService) : KafkaService :=
  mkKafkaService (KafkaService_APIVersion r) v (KafkaService_Spec r) (KafkaService_Status r).

Definition set_KafkaService_Status (v : KafkaServiceStatus) (r : KafkaService) : KafkaService :=
  mkKafkaService (KafkaService_APIVersion r) (KafkaService_meta r) (KafkaService_Spec r) v.

End ServiceV7.

Record KmmTopics := mkKmmTopics {
  Topics : string;
  SourceDc : string;
  TargetDc : string;
  kmm_Transformation : option Transformation;
}.

Global Instance KmmTopics_eq_dec : EqDecision KmmTopics.
Proof. solve_decision. Defined.

Record KmmConfigStatus := mkKmmStatus {
  kmm_IsProcessed : bool;
  kmm_ProblemTopics : string;
}.

Global Instance KmmConfigStatus_eq_dec : EqDecision KmmConfigStatus.
Proof. solve_decision. Defined.

Record KmmConfig := mkKmmConfig {
  kmm_APIVersion : string;
  kmm_meta : ObjectMeta;
  kmm_KmmTopics : option KmmTopics;
  kmm_Status : KmmConfigStatus;
}.

Global Instance KmmConfig_eq_dec : EqDecision KmmConfig.
Proof. solve_decision. Defined.

Definition set_kmm_Status (v : KmmConfigStatus) (r : KmmConfig) : KmmConfig :=
  mkKmmConfig (kmm_APIVersion r) (kmm_meta r) (kmm_KmmTopics r) v.

(** The type [Config] of the AkhqConfig specification. *)
Record AkhqTopicConfig := mkAkhqTopicConfig {
  TopicRegex : string;
  KeyType : string;
  MessageType : string;
  DescriptorFileBase64 : string;
}.

Global Instance AkhqTopicConfig_eq_dec : EqDecision AkhqTopicConfig.
Proof. solve_decision. Defined.

Definition set_TopicRegex (v : string) (r : AkhqTopicConfig) : AkhqTopicConfig :=
  mkAkhqTopicConfig v (KeyType r) (MessageType r) (DescriptorFileBase64 r).

Record AkhqConfigStatus := mkAkhqStatus {
  akhq_IsInvalid : bool;
  akhq_IsProcessed : bool;
  akhq_Problems : string;
}.

Global Instance AkhqConfigStatus_eq_dec : EqDecision AkhqConfigStatus.
Proof. solve_decision. Defined.

Record AkhqConfig := mkAkhqConfig {
  akhq_APIVersion : string;
  akhq_meta : ObjectMeta;
  akhq_Configs : list AkhqTopicConfig;
  akhq_Status : AkhqConfigStatus;
}.

Global Instance AkhqConfig_eq_dec : EqDecision AkhqConfig.
Proof. solve_decision. Defined.

Definition set_akhq_meta (v : ObjectMeta) (r : AkhqConfig) : AkhqConfig :=
  mkAkhqConfig (akhq_APIVersion r) v (akhq_Configs r) (akhq_Status r).

Definition set_akhq_Status (v : AkhqConfigStatus) (r : AkhqConfig) : AkhqConfig :=
  mkAkhqConfig (akhq_APIVersion r) (akhq_meta r) (akhq_Configs r) v.

(** The type [Secret] of the KafkaUser specification. *)
Record UserSecret := mkUserSecret {
  us_Name : string;
  us_Format : string;
  us_Generate : bool;
}.

Global Instance UserSecret_eq_dec : EqDecision UserSecret.
Proof. solve_decision. Defined.

Record Authentication := mkAuthentication {
  auth_Type : string;
  auth_Secret : option UserSecret;
  auth_WatchSecret : option bool;
}.

Global Instance Authentication_eq_dec : EqDecision Authentication.
Proof. solve_decision. Defined.

Record Authorization := mkAuthorization {
  Role : string;
}.

Global Instance Authorization_eq_dec : EqDecision Authorization.
Proof. solve_decision. Defined.

Record KafkaUserSpec := mkUserSpec {
  user_Authentication : Authentication;
  user_Authorization : Authorization;
}.

Global Instance KafkaUserSpec_eq_dec : EqDecision KafkaUserSpec.
Proof. solve_decision. Defined.

Record SecretKey := mkSecretKey {
  sk_Key : string;
  sk_Name : string;
}.

Global Instance SecretKey_eq_dec : EqDecision SecretKey.
Proof. solve_decision. Defined.

Record AuthenticationStatus := mkAuthnStatus {
  authn_State : string;
  authn_Password : SecretKey;
  authn_Username : SecretKey;
  authn_ConnectionUri : SecretKey;
  authn_ResourceVersion : string;
}.

Global Instance AuthenticationStatus_eq_dec : EqDecision AuthenticationStatus.
Proof. solve_decision. Defined.

Definition set_authn_State (v : string) (r : AuthenticationStatus) : AuthenticationStatus :=
  mkAuthnStatus v (authn_Password r) (authn_Username r) (authn_ConnectionUri r) (authn_ResourceVersion r).

Definition set_authn_Password (v : SecretKey) (r : AuthenticationStatus) : AuthenticationStatus :=
  mkAuthnStatus (authn_State r) v (authn_Username r) (authn_ConnectionUri r) (authn_ResourceVersion r).

Definition set_authn_Username (v : SecretKey) (r : AuthenticationStatus) : AuthenticationStatus :=
  mkAuthnStatus (authn_State r) (authn_Password r) v (authn_ConnectionUri r) (authn_ResourceVersion r).

Definition set_authn_ConnectionUri (v : SecretKey) (r : AuthenticationStatus) : AuthenticationStatus :=
  mkAuthnStatus (authn_State r) (authn_Password r) (authn_Username r) v (authn_ResourceVersion r).

Definition set_authn_ResourceVersion (v : string) (r : AuthenticationStatus) : AuthenticationStatus :=
  mkAuthnStatus (authn_State r) (authn_Password r) (authn_Username r) (authn_ConnectionUri r) v.

Record AuthorizationStatus := mkAuthzStatus {
  authz_State : string;
  authz_Acls : list string;
}.

Global Instance AuthorizationStatus_eq_dec : EqDecision AuthorizationStatus.
Proof. solve_decision. Defined.

Definition set_authz_State (v : string) (r : AuthorizationStatus) : AuthorizationStatus :=
  mkAuthzStatus v (authz_Acls r).

Definition set_authz_Acls (v : list string) (r : AuthorizationStatus) : AuthorizationStatus :=
  mkAuthzStatus (authz_State r) v.

Record KafkaUserStatus := mkUserStatus {
  user_Authn : AuthenticationStatus;
  user_Authz : AuthorizationStatus;
  user_State : string;
  user_ResourceVersion : string;
  user_ObservedGeneration : Z;
  user_Message : string;
  user_Conditions : list KafkaV1.StatusCondition;
}.

Global Instance KafkaUserStatus_eq_dec : EqDecision KafkaUserStatus.
Proof. solve_decision. Defined.

Definition set_user_Authn (v : AuthenticationStatus) (r : KafkaUserStatus) : KafkaUserStatus :=
  mkUserStatus v (user_Authz r) (user_State r) (user_ResourceVersion r) (user_ObservedGeneration r) (user_Message r) (user_Conditions r).

Definition set_user_Authz (v : AuthorizationStatus) (r : KafkaUserStatus) : KafkaUserStatus :=
  mkUserStatus (user_Authn r) v (user_State r) (user_ResourceVersion r) (user_ObservedGeneration r) (user_Message r) (user_Conditions r).

Definition set_user_State (v : string) (r : KafkaUserStatus) : KafkaUserStatus :=
  mkUserStatus (user_Authn r) (user_Authz r) v (user_ResourceVersion r) (user_ObservedGeneration r) (user_Message r) (user_Conditions r).

Definition set_user_ResourceVersion (v : string) (r : KafkaUserStatus) : KafkaUserStatus :=
  mkUserStatus (user_Authn r) (user_Authz r) (user_State r) v (user_ObservedGeneration r) (user_Message r) (user_Conditions r).

Definition set_user_ObservedGeneration (v : Z) (r : KafkaUserStatus) : KafkaUserStatus :=
  mkUserStatus (user_Authn r) (user_Authz r) (user_State r) (user_ResourceVersion r) v (user_Message r) (user_Conditions r).

Definition set_user_Message (v : string) (r : KafkaUserStatus) : KafkaUserStatus :=
  mkUserStatus (user_Authn r) (user_Authz r) (user_State r) (user_ResourceVersion r) (user_ObservedGeneration r) v (user_Conditions r).

Definition set_user_Conditions (v : list KafkaV1.StatusCondition) (r : KafkaUserStatus) : KafkaUserStatus :=
  mkUserStatus (user_Authn r) (user_Authz r) (user_State r) (user_ResourceVersion r) (user_ObservedGeneration r) (user_Message r) v.

Record KafkaUser := mkKafkaUser {
  user_APIVersion : string;
  user_meta : ObjectMeta;
  user_Spec : KafkaUserSpec;
  user_Status : KafkaUserStatus;
}.

Global Instance KafkaUser_eq_dec : EqDecision KafkaUser.
Proof. solve_decision. Defined.

Definition set_user_meta (v : ObjectMeta) (r : KafkaUser) : KafkaUser :=
  mkKafkaUser (user_APIVersion r) v (user_Spec r) (user_Status r).

Definition set_user_Status (v : KafkaUserStatus) (r : KafkaUser) : KafkaUser :=
  mkKafkaUser (user_APIVersion r) (user_meta r) (user_Spec r) v.

(** ** Kinds

    The client is called with an object of a Go type; [obj] gives the type of a kind, [meta_of]
    its metadata. *)

Inductive kind :=
  | KSecret | KConfigMap | KDeployment | KService | KServiceAccount | KPersistentVolumeClaim | KPod
  | KKmmConfig | KAkhqConfig | KKafkaUser | KKafka | KKafkaService.

Global Instance kind_eq_dec : EqDecision kind.
Proof. solve_decision. Defined.

Definition obj (k : kind) : Type :=
  match k with
  | KSecret => Secret
  | KConfigMap => ConfigMap
  | KDeployment => Deployment
  | KService => Service
  | KServiceAccount => ServiceAccount
  | KPersistentVolumeClaim => PersistentVolumeClaim
  | KPod => Pod
  | KKmmConfig => KmmConfig
  | KAkhqConfig => AkhqConfig
  | KKafkaUser => KafkaUser
  | KKafka => KafkaV1.Kafka
  | KKafkaService => ServiceV7.KafkaService
  end.

Global Instance obj_eq_dec (k : kind) : EqDecision (obj k).
Proof. destruct k; apply _. Defined.

Definition meta_of (k : kind) : obj k → ObjectMeta :=
  match k with
  | KSecret => secret_meta
  | KConfigMap => cm_meta
  | KDeployment => dep_meta
  | KService => svc_meta
  | KServiceAccount => sa_meta
  | KPersistentVolumeClaim => pvc_meta
  | KPod => pod_meta
  | KKmmConfig => kmm_meta
  | KAkhqConfig => akhq_meta
  | KKafkaUser => user_meta
  | KKafka => KafkaV1.Kafka_meta
  | KKafkaService => ServiceV7.KafkaService_meta
  end.

(** The metadata of an object built by the operator. *)
Definition newMeta (name namespace : string) (labels annotations : strmap) : ObjectMeta :=
  mkMeta name namespace labels annotations "" 0 [] false [].
