(* ===== verification/Providers.v ===== *)
(** * What the providers of Kubernetes objects share

    Source: operator/controllers/provider/kafkaservice_provider.go.  A Go map is ranged over in an
    order the language leaves open: [range] is that order. *)

From S2P Require Import Prelude GoStrings Util Transformation Kube Api.

(** The fields of a KafkaService the providers read; its global section may be nil. *)
Definition cr_Name (cr : ServiceV7.KafkaService) : string := Name (ServiceV7.KafkaService_meta cr).
Definition cr_Namespace (cr : ServiceV7.KafkaService) : string := Namespace (ServiceV7.KafkaService_meta cr).
Definition cr_Global (cr : ServiceV7.KafkaService) : outcome ServiceV7.Global :=
  deref (ServiceV7.KafkaServiceSpec_Global (ServiceV7.KafkaService_Spec cr)).

Definition NewServiceAccount (serviceAccountName namespace : string) (labels : strmap) : ServiceAccount :=
  mkServiceAccount (newMeta serviceAccountName namespace labels ∅).

Definition newServiceForCR (serviceName namespace : string) (labels selectorLabels : strmap) (ports : list ServicePort) : Service :=
  mkService (newMeta serviceName namespace labels ∅) "" "" false ports selectorLabels.

Definition newServiceForBroker (serviceName namespace : string) (labels selectorLabels : strmap) (ports : list ServicePort) : Service :=
  let service := newServiceForCR serviceName namespace labels selectorLabels ports in
  let service := set_svc_PublishNotReadyAddresses true service in
  set_svc_meta
    (set_Annotations {["service.alpha.kubernetes.io/tolerate-unready-endpoints" := "true"]} (svc_meta service)) service.

Definition newDomainServiceForCR (serviceName namespace : string) (labels selectorLabels : strmap) (ports : list ServicePort) : Service :=
  mkService (newMeta serviceName namespace labels ∅) "" "None" true ports selectorLabels.

Definition getConfigMapEnvVarSource (configMapName key : string) : EnvVarSource := ConfigMapKeyRef configMapName key.

(** ** Environment variables *)

(** [NAME=value] with a name: the trimmed name and what follows the first equals sign. *)
Definition env_pair (ev : string) : option (string * string) :=
  match SplitN2 ev "=" with
  | (p0, Some p1) => if decide (TrimSpace p0 = "") then None else Some (TrimSpace p0, p1)
  | (_, None) => None
  end.

Definition declared_names (existingEnvVars : list string) : gset string :=
  list_to_set (omap env_pair existingEnvVars).*1.

Definition encoded_name (envPrefix key : string) : string := envPrefix +:+ ToUpper (ReplaceAll key "." "_").

Section envs.
Context (range : strmap → list (string * string)).

Definition configMapToEnvVars (config : strmap) (envPrefix : string) (existingEnvVars : list string) : list EnvVar :=
  if decide (config = ∅) then []
  else
    let declared := declared_names existingEnvVars in
    omap (λ '(key, value),
      if decide (key = "") then None
      else if decide (encoded_name envPrefix key ∈ declared) then None
      else Some (mkEnv (encoded_name envPrefix key) value)) (range config).

(** The loop over the additional variables: a later one replaces an earlier one of its name. *)
Definition additional_envs (additionalEnvs : list string) : strmap :=
  foldl (λ envsMap envVar, match env_pair envVar with
                           | Some (name, value) => <[name := TrimSpace value]> envsMap
                           | None => envsMap
                           end) ∅ additionalEnvs.

Definition buildEnvs (envVars : list EnvVar) (additionalEnvs : list string) : list EnvVar :=
  envVars ++ ((λ '(name, value), mkEnv name value) <$> range (additional_envs additionalEnvs)).

End envs.

(** ** Security context, scratch volume *)

Definition getContainerSecurityContext (readOnlyRootFs : bool) : SecurityContext :=
  mkSecurityContext (Some false) (Some readOnlyRootFs) ["ALL"].

Definition getDefaultContainerSecurityContext : SecurityContext := getContainerSecurityContext true.

Definition tmpVolumeName : string := "tmp".

Definition getTmpVolume (sizeLimitQuantity : string) : Volume := mkVolume tmpVolumeName (EmptyDirVolume (Some sizeLimitQuantity)).

Definition getTmpVolumeMount : VolumeMount := mkVolumeMount tmpVolumeName "/tmp" false.

(** ** Environment variables: properties *)

(** An order in which Go may range over a map. *)
Definition ranges (range : strmap → list (string * string)) : Prop := ∀ m, range m ≡ₚ map_to_list m.

Lemma ranges_map_to_list : ranges map_to_list.
Proof. by intros m. Qed.

Lemma additional_envs_lookup evs name :
  additional_envs evs !! name =
    (λ p, TrimSpace p.2) <$> last (filter (λ p, p.1 = name) (omap env_pair evs)).
Proof.
  unfold additional_envs. induction evs as [|ev evs IH] using rev_ind; [done|].
  rewrite foldl_app, omap_app, filter_app. destruct (env_pair ev) as [[n v]|] eqn:E.
  - assert (omap env_pair [ev] = [(n, v)]) as -> by (by cbn; rewrite E). cbn [foldl]. rewrite E.
    destruct (decide (n = name)) as [->|Hn].
    + rewrite lookup_insert_eq, filter_cons_True by done. rewrite filter_nil, last_snoc. done.
    + rewrite lookup_insert_ne, filter_cons_False by done. by rewrite filter_nil, app_nil_r.
  - assert (omap env_pair [ev] = []) as -> by (by cbn; rewrite E). cbn [foldl]. rewrite E.
    by rewrite filter_nil, app_nil_r.
Qed.

Lemma env_pair_name ev n v : env_pair ev = Some (n, v) → n ≠ "".
Proof. unfold env_pair. destruct (SplitN2 ev "=") as [p0 [p1|]]; [|done]. case_decide; [done|]. by intros [= <- _]. Qed.

Lemma range_NoDup range m : ranges range → NoDup (range m).*1.
Proof. intros Hr. rewrite (Hr m). apply NoDup_fst_map_to_list. Qed.

Lemma range_In range m k v : ranges range → (k, v) ∈ range m ↔ m !! k = Some v.
Proof. intros Hr. rewrite (Hr m). apply elem_of_map_to_list. Qed.

(** C36. The variables of a workload, whatever the order Go ranges over maps in: first the entries of the
    resource's configuration, encoded, except those that an explicit variable of the same name
    overrides; then the variables of the operator; then each explicit variable once, with the last
    value given for it. *)
Theorem workload_envs_spec range config envPrefix base evs :
  ranges range →
  ∃ fromConfig explicit,
    buildEnvs range (configMapToEnvVars range config envPrefix evs ++ base) evs = fromConfig ++ base ++ explicit ∧
    (∀ e, e ∈ fromConfig ↔ ∃ k v, config !! k = Some v ∧ k ≠ "" ∧
       encoded_name envPrefix k ∉ declared_names evs ∧ e = mkEnv (encoded_name envPrefix k) v) ∧
    (∀ e, e ∈ explicit ↔ ∃ n v, last (filter (λ p, p.1 = n) (omap env_pair evs)) = Some (n, v) ∧ e = mkEnv n (TrimSpace v)) ∧
    NoDup (env_Name <$> explicit) ∧
    (∀ e, e ∈ fromConfig → env_Name e ∉ env_Name <$> explicit).
Proof.
  intros Hr. unfold buildEnvs. rewrite <- app_assoc. eexists _, _. split; [done|].
  assert (HC : ∀ e, e ∈ configMapToEnvVars range config envPrefix evs ↔ ∃ k v, config !! k = Some v ∧ k ≠ "" ∧
       encoded_name envPrefix k ∉ declared_names evs ∧ e = mkEnv (encoded_name envPrefix k) v).
  { intros e. unfold configMapToEnvVars. destruct (decide (config = ∅)) as [->|_]; [set_solver|].
    rewrite list_elem_of_omap. split.
    - intros ([k v] & Hk & He). apply range_In in Hk; [|done]. exists k, v. repeat case_decide; simplify_eq; done.
    - intros (k & v & Hk & Hne & Hd & ->). exists (k, v). rewrite range_In by done. split; [done|].
      by rewrite !decide_False. }
  assert (HL : ∀ n v, last (filter (λ p, p.1 = n) (omap env_pair evs)) = Some v → v.1 = n).
  { intros n v Hl. apply last_Some_elem_of, list_elem_of_filter in Hl. tauto. }
  assert (HE : ∀ n, n ∈ declared_names evs ↔ is_Some (additional_envs evs !! n)).
  { intros n. unfold declared_names. rewrite elem_of_list_to_set, additional_envs_lookup, fmap_is_Some.
    rewrite list_elem_of_fmap. split.
    - intros ([n' v] & -> & Hin). apply last_is_Some. intros HN.
      assert (HF : (n', v) ∈ filter (λ p, p.1 = n') (omap env_pair evs)) by (by apply list_elem_of_filter).
      cbn in HN. rewrite HN in HF. by apply not_elem_of_nil in HF.
    - intros [[n' v] Hl]. exists (n', v). apply last_Some_elem_of, list_elem_of_filter in Hl as [Hn Hin]. done. }
  split; [done|]. split; [|split].
  - intros e. rewrite list_elem_of_fmap. split.
    + intros ([n v] & -> & Hin). apply range_In in Hin; [|done]. rewrite additional_envs_lookup in Hin.
      apply fmap_Some in Hin as ([n' v'] & Hl & ->). specialize (HL _ _ Hl). cbn in HL. subst n'. eauto.
    + intros (n & v & Hl & ->). exists (n, TrimSpace v). split; [done|]. apply range_In; [done|].
      by rewrite additional_envs_lookup, Hl.
  - assert (HN : env_Name <$> ((λ '(name, value), mkEnv name value) <$> range (additional_envs evs)) = (range (additional_envs evs)).*1).
    { rewrite <- list_fmap_compose. apply list_fmap_ext. by intros ? [n v]. }
    rewrite HN. by apply range_NoDup.
  - intros e (k & v & _ & _ & Hd & ->)%HC. cbn. intros Hin. apply Hd, HE.
    apply list_elem_of_fmap in Hin as (e' & Hne & ([n v'] & -> & Hin)%list_elem_of_fmap). apply range_In in Hin; [|done].
    cbn in Hne. subst n. eauto.
Qed.

Lemma workload_envs_spec_witness :
  ∃ fromConfig explicit,
    buildEnvs map_to_list (configMapToEnvVars map_to_list {["log.level" := "DEBUG"]} "CONF_" ["A=1"; "A= 2 "] ++ [mkEnv "B" "3"]) ["A=1"; "A= 2 "]
      = fromConfig ++ [mkEnv "B" "3"] ++ explicit ∧
    (∀ e, e ∈ fromConfig ↔ ∃ k v, ({["log.level" := "DEBUG"]} : strmap) !! k = Some v ∧ k ≠ "" ∧
       encoded_name "CONF_" k ∉ declared_names ["A=1"; "A= 2 "] ∧ e = mkEnv (encoded_name "CONF_" k) v) ∧
    (∀ e, e ∈ explicit ↔ ∃ n v, last (filter (λ p, p.1 = n) (omap env_pair ["A=1"; "A= 2 "])) = Some (n, v) ∧ e = mkEnv n (TrimSpace v)) ∧
    NoDup (env_Name <$> explicit) ∧
    (∀ e, e ∈ fromConfig → env_Name e ∉ env_Name <$> explicit).
Proof. apply (workload_envs_spec map_to_list {["log.level" := "DEBUG"]} "CONF_" [mkEnv "B" "3"] ["A=1"; "A= 2 "]), ranges_map_to_list. Defined.
