(* ===== verification/MonitoringProviders.v ===== *)
(** * The objects of the monitoring of Kafka and of mirror maker

    Sources: operator/controllers/provider/lag_exporter_provider.go, monitoring_provider.go and
    mirror_maker_monitoring_provider.go.  A provider is made for a resource that has the section;
    a method that reads the global section of a resource without one panics. *)

From S2P Require Import Prelude GoStrings Util Transformation Kube Api Providers.

(** The probes of the monitoring containers: a TCP port, 20 failures. *)
Definition tcp_probe (port : Z) : Probe := mkProbe (TCPSocket port) 30 5 15 1 20.

Definition ssl_mounted (global : ServiceV7.Global) : bool :=
  ServiceV7.KafkaSsl_Enabled (ServiceV7.Global_KafkaSsl global) &&
  negb (bool_decide (ServiceV7.KafkaSsl_SecretName (ServiceV7.Global_KafkaSsl global) = "")).

Definition ssl_mount (global : ServiceV7.Global) : list VolumeMount :=
  if ssl_mounted global then [mkVolumeMount "ssl-certs" "/tls" false] else [].

Definition ssl_volume (global : ServiceV7.Global) : list Volume :=
  if ssl_mounted global then
    [mkVolume "ssl-certs" (SecretVolume (ServiceV7.KafkaSsl_SecretName (ServiceV7.Global_KafkaSsl global)) None [])]
  else [].

(** ** The lag exporter *)

Module LagExporter.

Definition volumeName : string := "config-volume".
Definition lagExporterNameSuffix : string := "lag-exporter".
Definition lagExporterContainerName : string := "kafka-lag-exporter".

Record LagExporterResourceProvider := mkProvider {
  cr : ServiceV7.KafkaService;
  spec : ServiceV7.Monitoring;
  lagExporterName : string;
}.

Definition NewLagExporterResourceProvider (cr : ServiceV7.KafkaService) (spec : ServiceV7.Monitoring) : LagExporterResourceProvider :=
  mkProvider cr spec (cr_Name cr +:+ "-" +:+ lagExporterNameSuffix).

Implicit Type lep : LagExporterResourceProvider.

Definition metrics_port (exporter : ServiceV7.LagExporter) : Z := int32_wrap (ServiceV7.LagExporter_MetricsPort exporter).

Definition getPorts lep : outcome (list ContainerPort) :=
  exporter ← deref (ServiceV7.Monitoring_LagExporter (spec lep));
  Ret [mkContainerPort "http" (metrics_port exporter) ProtocolTCP].

Definition getEnvs lep (cmVersion : string) : outcome (list EnvVar) :=
  global ← cr_Global (cr lep);
  Ret [mkEnv "KAFKA_SASL_MECHANISM" (ServiceV7.Global_KafkaSaslMechanism global);
       mkEnv "KAFKA_ENABLE_SSL" (show_bool (ServiceV7.KafkaSsl_Enabled (ServiceV7.Global_KafkaSsl global)));
       mkEnv "PYTHONDONTWRITEBYTECODE" "1"].

Definition getVolumeMounts lep : outcome (list VolumeMount) :=
  global ← cr_Global (cr lep);
  Ret ([mkVolumeMount volumeName "/opt/docker/src/" false;
        mkVolumeMount "monitoring-pod-secrets" "/etc/secrets/monitoring-pod-secrets" true]
       ++ ssl_mount global ++ [getTmpVolumeMount]).

Definition getVolume lep : Volume := mkVolume volumeName (ConfigMapVolume (lagExporterName lep +:+ "-configmap") []).

Definition getContainer lep (cmVersion : string) : outcome Container :=
  exporter ← deref (ServiceV7.Monitoring_LagExporter (spec lep));
  ports ← getPorts lep;
  envs ← getEnvs lep cmVersion;
  mounts ← getVolumeMounts lep;
  let probe := tcp_probe (metrics_port exporter) in
  Ret (mkContainer lagExporterContainerName (ServiceV7.LagExporter_DockerImage exporter) [] [] ports envs
         (ServiceV7.Monitoring_Resources (spec lep)) mounts (Some probe) (Some probe) "Always"
         (Some getDefaultContainerSecurityContext)).

End LagExporter.

(** ** Kafka monitoring *)

Module KafkaMonitoring.

Record MonitoringResourceProvider := mkProvider {
  cr : ServiceV7.KafkaService;
  spec : ServiceV7.Monitoring;
  serviceName : string;
  lagExporterResourceProvider : LagExporter.LagExporterResourceProvider;
}.

Definition NewMonitoringResourceProvider (cr : ServiceV7.KafkaService) (spec : ServiceV7.Monitoring) : MonitoringResourceProvider :=
  mkProvider cr spec (cr_Name cr +:+ "-monitoring") (LagExporter.NewLagExporterResourceProvider cr spec).

Implicit Type mrp : MonitoringResourceProvider.

Definition GetMonitoringSelectorLabels mrp : strmap :=
  <["component" := "kafka-monitoring"]> (<["name" := serviceName mrp]> ∅).

Definition GetMonitoringLabels mrp : outcome strmap :=
  global ← cr_Global (cr mrp);
  let labels := <["app.kubernetes.io/name" := serviceName mrp]> ∅ in
  Ret (JoinMaps (JoinMaps labels (GetMonitoringSelectorLabels mrp)) (ServiceV7.Global_DefaultLabels global)).

Definition GetMonitoringCustomLabels mrp (monitoringLabels : strmap) : outcome strmap :=
  global ← cr_Global (cr mrp);
  Ret (JoinMaps (JoinMaps (ServiceV7.Global_CustomLabels global) (ServiceV7.Monitoring_CustomLabels (spec mrp))) monitoringLabels).

Definition GetServiceName mrp : string := serviceName mrp.
Definition GetServiceAccountName mrp : string := GetServiceName mrp.

Definition has_exporter mrp : bool :=
  match ServiceV7.Monitoring_LagExporter (spec mrp) with Some _ => true | None => false end.

Definition NewMonitoringClientService mrp : outcome Service :=
  monitoringLabels ← GetMonitoringLabels mrp;
  let selectorLabels := GetMonitoringSelectorLabels mrp in
  let ports := [mkPort "kafka-monitoring-statsd" 8125 ProtocolTCP;
                mkPort "kafka-monitoring-tcp" 8094 ProtocolTCP;
                mkPort "kafka-monitoring-udp" 8092 ProtocolUDP] in
  let ports := if decide (ServiceV7.Monitoring_MonitoringType (spec mrp) = "prometheus")
               then ports ++ [mkPort "prometheus-cli" 8096 ProtocolTCP] else ports in
  let ports := match ServiceV7.Monitoring_LagExporter (spec mrp) with
               | Some exporter => ports ++ [mkPort "http" (LagExporter.metrics_port exporter) ProtocolTCP]
               | None => ports
               end in
  Ret (newServiceForCR (serviceName mrp) (cr_Namespace (cr mrp)) monitoringLabels selectorLabels ports).

Definition getMonitoringContainerPorts mrp : list ContainerPort :=
  [mkContainerPort "" 8125 ProtocolTCP; mkContainerPort "" 8094 ProtocolTCP; mkContainerPort "" 8092 ProtocolUDP;
   mkContainerPort "prometheus-cli" 8096 ProtocolTCP].

Definition getMonitoringEnvironmentVariables mrp : outcome (list EnvVar) :=
  global ← cr_Global (cr mrp);
  Ret [mkEnvVar "OS_PROJECT" "" (Some (FieldRef "metadata.namespace"));
       mkEnv "KAFKA_SERVICE_NAME" (cr_Name (cr mrp));
       mkEnv "KAFKA_EXEC_PLUGIN_TIMEOUT" (DefaultIfEmpty (ServiceV7.Monitoring_KafkaExecPluginTimeout (spec mrp)) "10s");
       mkEnv "KAFKA_TOTAL_BROKERS_COUNT" (itoa (ServiceV7.Monitoring_KafkaTotalBrokerCount (spec mrp)));
       mkEnv "KAFKA_ADDRESSES" (ServiceV7.Monitoring_BootstrapServers (spec mrp));
       mkEnv "KAFKA_SASL_MECHANISM" (ServiceV7.Global_KafkaSaslMechanism global);
       mkEnv "KAFKA_ENABLE_SSL" (show_bool (ServiceV7.KafkaSsl_Enabled (ServiceV7.Global_KafkaSsl global)));
       mkEnv "DATA_COLLECTION_INTERVAL" (DefaultIfEmpty (ServiceV7.Monitoring_DataCollectionInterval (spec mrp)) "10s");
       mkEnv "PYTHONDONTWRITEBYTECODE" "1"].

Definition getMonitoringEnvs mrp : outcome (list EnvVar) :=
  envVars ← getMonitoringEnvironmentVariables mrp;
  Ret (if decide (ServiceV7.Monitoring_MonitoringType (spec mrp) = "influxdb") then
         envVars ++ [mkEnv "SM_DB_HOST" (ServiceV7.Monitoring_SmDbHost (spec mrp));
                     mkEnv "SM_DB_NAME" (ServiceV7.Monitoring_SmDbName (spec mrp))]
       else envVars).

(** [0644] *)
Definition defaultMode : Z := 420.

Definition getMonitoringVolumes mrp : outcome (list Volume) :=
  global ← cr_Global (cr mrp);
  let volumes := [mkVolume "config" (ConfigMapVolume (serviceName mrp +:+ "-configuration") [mkKeyToPath "config" "telegraf.conf"])] in
  let projections := [SecretProjection (cr_Name (cr mrp) +:+ "-services-secret")
                        [mkKeyToPath "client-username" "client_username"; mkKeyToPath "client-password" "client_password"]] in
  let projections :=
    if decide (ServiceV7.Monitoring_SecretName (spec mrp) ≠ "" ∧ ServiceV7.Monitoring_MonitoringType (spec mrp) = "influxdb") then
      projections ++ [SecretProjection (ServiceV7.Monitoring_SecretName (spec mrp))
                        [mkKeyToPath "sm-db-username" "sm_db_username"; mkKeyToPath "sm-db-password" "sm_db_password"]]
    else projections in
  let volumes := volumes ++ [mkVolume "monitoring-pod-secrets" (ProjectedVolume (Some defaultMode) projections)] in
  let volumes := volumes ++ ssl_volume global in
  let volumes := if has_exporter mrp then volumes ++ [LagExporter.getVolume (lagExporterResourceProvider mrp)] else volumes in
  Ret (volumes ++ [getTmpVolume "32Mi"]).

Definition getMonitoringVolumeMounts mrp : outcome (list VolumeMount) :=
  global ← cr_Global (cr mrp);
  Ret ([mkVolumeMount "config" "/etc/telegraf" false;
        mkVolumeMount "monitoring-pod-secrets" "/etc/secrets/monitoring-pod-secrets" true]
       ++ ssl_mount global ++ [getTmpVolumeMount]).

Definition getCommand mrp : list string := [].
Definition getArgs mrp : list string := [].
Definition getInitContainers mrp : list Container := [].

Definition getMonitoringContainers mrp (cmVersion : string) : outcome (list Container) :=
  envs ← getMonitoringEnvs mrp;
  mounts ← getMonitoringVolumeMounts mrp;
  let containers :=
    [mkContainer (serviceName mrp) (ServiceV7.Monitoring_DockerImage (spec mrp)) (getCommand mrp) (getArgs mrp)
       (getMonitoringContainerPorts mrp) envs (ServiceV7.Monitoring_Resources (spec mrp)) mounts
       (Some (tcp_probe 8096)) (Some (tcp_probe 8096)) "Always" (Some getDefaultContainerSecurityContext)] in
  if has_exporter mrp then
    container ← LagExporter.getContainer (lagExporterResourceProvider mrp) cmVersion;
    Ret (containers ++ [container])
  else Ret containers.

Definition NewMonitoringDeployment mrp (cmVersion : string) : outcome Deployment :=
  labels ← GetMonitoringLabels mrp;
  let monitoringLabels := <["app.kubernetes.io/technology" := "python"]> labels in
  let monitoringLabels :=
    <["app.kubernetes.io/instance" := serviceName mrp +:+ "-" +:+ cr_Namespace (cr mrp)]> monitoringLabels in
  monitoringCustomLabels ← GetMonitoringCustomLabels mrp monitoringLabels;
  volumes ← getMonitoringVolumes mrp;
  containers ← getMonitoringContainers mrp cmVersion;
  let pod := mkPodSpec volumes (getInitContainers mrp) containers
    (Some (ServiceV7.Monitoring_SecurityContext (spec mrp))) (GetServiceAccountName mrp) None (serviceName mrp) ""
    (Some (ServiceV7.Monitoring_Affinity (spec mrp))) (ServiceV7.Monitoring_Tolerations (spec mrp))
    (ServiceV7.Monitoring_PriorityClassName (spec mrp)) in
  Ret (mkDeployment (newMeta (serviceName mrp) (cr_Namespace (cr mrp)) monitoringLabels ∅) "Recreate" (Some 1) None
         (GetMonitoringSelectorLabels mrp) (mkTemplate monitoringCustomLabels ∅ pod) 0 0).

End KafkaMonitoring.

(** [BuildServiceName] of mirror_maker_provider.go: the name of the mirror maker of a resource. *)
Definition BuildServiceName (cr : ServiceV7.KafkaService) : string := cr_Name cr +:+ "-mirror-maker".

(** ** Mirror maker monitoring

    [Marshaler] is the text encoding/json gives a list of strings, [None] being nil. *)

Module MirrorMakerMonitor.

Record MirrorMakerMonitoringResourceProvider := mkProvider {
  cr : ServiceV7.KafkaService;
  spec : ServiceV7.MirrorMakerMonitoring;
  serviceName : string;
}.

Definition NewMirrorMakerMonitoringResourceProvider (cr : ServiceV7.KafkaService) (spec : ServiceV7.MirrorMakerMonitoring) :
    MirrorMakerMonitoringResourceProvider :=
  mkProvider cr spec (cr_Name cr +:+ "-mirror-maker-monitoring").

Implicit Type mmmrp : MirrorMakerMonitoringResourceProvider.

Definition GetServiceName mmmrp : string := serviceName mmmrp.
Definition GetServiceAccountName mmmrp : string := GetServiceName mmmrp.
Definition getConfigurationName mmmrp : string := serviceName mmmrp +:+ "-configuration".

Definition GetMirrorMakerMonitoringSelectorLabels mmmrp : strmap :=
  <["component" := "kafka-mirror-maker-monitoring"]> (<["name" := serviceName mmmrp]> ∅).

Definition GetMirrorMakerMonitoringLabels mmmrp : outcome strmap :=
  global ← cr_Global (cr mmmrp);
  let labels := <["app.kubernetes.io/name" := serviceName mmmrp]> ∅ in
  Ret (JoinMaps (JoinMaps labels (GetMirrorMakerMonitoringSelectorLabels mmmrp)) (ServiceV7.Global_DefaultLabels global)).

Definition GetMirrorMakerMonitoringCustomLabels mmmrp (monitoringLabels : strmap) : outcome strmap :=
  global ← cr_Global (cr mmmrp);
  Ret (JoinMaps (JoinMaps (ServiceV7.Global_CustomLabels global) (ServiceV7.MirrorMakerMonitoring_CustomLabels (spec mmmrp)))
         monitoringLabels).

Definition url_of (cr : ServiceV7.KafkaService) (clusterName : string) : string :=
  "http://" +:+ (clusterName +:+ "-" +:+ BuildServiceName cr) +:+ "." +:+ cr_Namespace cr +:+ ":8080".

(** The search for the cluster of the region. *)
Fixpoint region_url (cr : ServiceV7.KafkaService) (regionName : string) (clusters : list ServiceV7.Cluster) : option (list string) :=
  match clusters with
  | [] => None
  | cluster :: clusters =>
      let currentClusterName := ToLower (ServiceV7.Cluster_Name cluster) in
      if decide (currentClusterName = regionName) then Some [url_of cr currentClusterName]
      else region_url cr regionName clusters
  end.

(** A list nothing was appended to is nil. *)
Definition buildPrometheusUrlsByMirrorMakerConfig mmmrp : outcome (option (list string)) :=
  let ks := cr mmmrp in
  mirrorMaker ← deref (ServiceV7.KafkaServiceSpec_MirrorMaker (ServiceV7.KafkaService_Spec ks));
  let clusters := ServiceV7.MirrorMaker_Clusters mirrorMaker in
  if decide (ServiceV7.MirrorMaker_RegionName mirrorMaker = "") then
    Ret (if decide (clusters = []) then None
         else Some ((λ cluster, url_of ks (ToLower (ServiceV7.Cluster_Name cluster))) <$> clusters))
  else Ret (region_url ks (ServiceV7.MirrorMaker_RegionName mirrorMaker) clusters).

Section urls.
Context `{Marshaler (option (list string))}.

Definition getPrometheusUrls mmmrp : outcome string :=
  urlList ← buildPrometheusUrlsByMirrorMakerConfig mmmrp;
  Ret (match Marshal urlList with inr _ => "[]" | inl result => result end).

Definition getMonitoringEnvironmentVariables mmmrp : outcome (list EnvVar) :=
  urls ← getPrometheusUrls mmmrp;
  Ret [mkEnvVar "OS_PROJECT" "" (Some (FieldRef "metadata.namespace"));
       mkEnv "PROMETHEUS_URLS" urls;
       mkEnv "KMM_EXEC_PLUGIN_TIMEOUT" (DefaultIfEmpty (ServiceV7.MirrorMakerMonitoring_KmmExecPluginTimeout (spec mmmrp)) "20s");
       mkEnv "KMM_COLLECTION_INTERVAL" (DefaultIfEmpty (ServiceV7.MirrorMakerMonitoring_KmmCollectionInterval (spec mmmrp)) "5s");
       mkEnv "PYTHONDONTWRITEBYTECODE" "1"].

Definition is_prometheus mmmrp : bool := bool_decide (ServiceV7.MirrorMakerMonitoring_MonitoringType (spec mmmrp) = "prometheus").

Definition NewMonitoringClientService mmmrp : outcome Service :=
  monitoringLabels ← GetMirrorMakerMonitoringLabels mmmrp;
  let selectorLabels := GetMirrorMakerMonitoringSelectorLabels mmmrp in
  let ports := [mkPort "kmm-monitoring-statsd" 8125 ProtocolTCP;
                mkPort "kmm-monitoring-tcp" 8094 ProtocolTCP;
                mkPort "kmm-monitoring-udp" 8092 ProtocolUDP] in
  let ports := if is_prometheus mmmrp then ports ++ [mkPort "prometheus-cli" 8096 ProtocolTCP] else ports in
  Ret (newServiceForCR (serviceName mmmrp) (cr_Namespace (cr mmmrp)) monitoringLabels selectorLabels ports).

Definition getContainerPorts mmmrp : list ContainerPort :=
  let ports := [mkContainerPort "" 8125 ProtocolTCP; mkContainerPort "" 8094 ProtocolTCP; mkContainerPort "" 8092 ProtocolUDP] in
  if is_prometheus mmmrp then ports ++ [mkContainerPort "prometheus-cli" 8096 ProtocolTCP] else ports.

(** A secret is mounted for InfluxDB only. *)
Definition has_secret mmmrp : bool :=
  bool_decide (ServiceV7.MirrorMakerMonitoring_SecretName (spec mmmrp) ≠ "" ∧
               ServiceV7.MirrorMakerMonitoring_MonitoringType (spec mmmrp) = "influxdb").

Definition getMirrorMakerMonitoringVolumes mmmrp : list Volume :=
  let volumes := [mkVolume "config" (ConfigMapVolume (getConfigurationName mmmrp) [mkKeyToPath "config" "telegraf.conf"]);
                  getTmpVolume "16Mi"] in
  if has_secret mmmrp then
    volumes ++ [mkVolume "mirror-maker-monitoring-pod-secrets"
                  (SecretVolume (ServiceV7.MirrorMakerMonitoring_SecretName (spec mmmrp)) (Some KafkaMonitoring.defaultMode)
                     [mkKeyToPath "sm-db-username" "sm_db_username"; mkKeyToPath "sm-db-password" "sm_db_password"])]
  else volumes.

Definition getMirrorMakerMonitoringVolumeMounts mmmrp : list VolumeMount :=
  let mounts := [mkVolumeMount "config" "/etc/telegraf" false; getTmpVolumeMount] in
  if has_secret mmmrp then
    mounts ++ [mkVolumeMount "mirror-maker-monitoring-pod-secrets" "/etc/secrets/mirror-maker-monitoring-pod-secrets" true]
  else mounts.

Definition getCommand mmmrp : list string := [].
Definition getArgs mmmrp : list string := [].
Definition getInitContainers mmmrp : list Container := [].

(** The monitoring is scaled down on the active side and when replication is off. *)
Definition replicas_of (cr : ServiceV7.KafkaService) : Z :=
  match ServiceV7.KafkaServiceSpec_DisasterRecovery (ServiceV7.KafkaService_Spec cr) with
  | Some dr =>
      if decide (ServiceV7.DisasterRecovery_Mode dr = "active" ∨ ServiceV7.DisasterRecovery_Mode dr = "disabled") then 0 else 1
  | None => 1
  end.

Definition NewMirrorMakerMonitoringDeployment mmmrp : outcome Deployment :=
  let deploymentName := serviceName mmmrp in
  labels ← GetMirrorMakerMonitoringLabels mmmrp;
  let monitoringLabels := <["app.kubernetes.io/technology" := "python"]> labels in
  let monitoringLabels :=
    <["app.kubernetes.io/instance" := deploymentName +:+ "-" +:+ cr_Namespace (cr mmmrp)]> monitoringLabels in
  monitoringCustomLabels ← GetMirrorMakerMonitoringCustomLabels mmmrp monitoringLabels;
  envVars ← getMonitoringEnvironmentVariables mmmrp;
  let envVars :=
    if decide (ServiceV7.MirrorMakerMonitoring_MonitoringType (spec mmmrp) = "influxdb") then
      envVars ++ [mkEnv "SM_DB_HOST" (ServiceV7.MirrorMakerMonitoring_SmDbHost (spec mmmrp));
                  mkEnv "SM_DB_NAME" (ServiceV7.MirrorMakerMonitoring_SmDbName (spec mmmrp))]
    else envVars in
  let container := mkContainer deploymentName (ServiceV7.MirrorMakerMonitoring_DockerImage (spec mmmrp))
    (getCommand mmmrp) (getArgs mmmrp) (getContainerPorts mmmrp) envVars
    (ServiceV7.MirrorMakerMonitoring_Resources (spec mmmrp)) (getMirrorMakerMonitoringVolumeMounts mmmrp)
    (Some (tcp_probe 8096)) (Some (tcp_probe 8096)) "Always" (Some getDefaultContainerSecurityContext) in
  let pod := mkPodSpec (getMirrorMakerMonitoringVolumes mmmrp) (getInitContainers mmmrp) [container]
    (Some (ServiceV7.MirrorMakerMonitoring_SecurityContext (spec mmmrp))) (GetServiceAccountName mmmrp) None deploymentName ""
    (Some (ServiceV7.MirrorMakerMonitoring_Affinity (spec mmmrp))) (ServiceV7.MirrorMakerMonitoring_Tolerations (spec mmmrp))
    (ServiceV7.MirrorMakerMonitoring_PriorityClassName (spec mmmrp)) in
  Ret (mkDeployment (newMeta deploymentName (cr_Namespace (cr mmmrp)) monitoringLabels ∅) "Recreate"
         (Some (replicas_of (cr mmmrp))) None (GetMirrorMakerMonitoringSelectorLabels mmmrp)
         (mkTemplate monitoringCustomLabels ∅ pod) 0 0).

End urls.

End MirrorMakerMonitor.
