(* ===== verification/MirrorMakerProvider.v ===== *)
(** * The objects of mirror maker

    Source: operator/controllers/provider/mirror_maker_provider.go: the configuration text, the
    deployment and the service of each cluster.  [range] is the order of ranging over maps. *)

From S2P Require Import Prelude GoStrings Util Transformation Kube Api Providers MonitoringProviders.

Definition TopicBlackList : string := "topics.blacklist".

Record MirrorMakerResourceProvider := mkMirrorMakerProvider {
  mm_cr : ServiceV7.KafkaService;
  mm_spec : ServiceV7.MirrorMaker;
  mm_serviceName : string;
}.

Definition NewMirrorMakerResourceProvider (cr : ServiceV7.KafkaService) (spec : ServiceV7.MirrorMaker) : MirrorMakerResourceProvider :=
  mkMirrorMakerProvider cr spec (BuildServiceName cr).

Implicit Type mmrp : MirrorMakerResourceProvider.

Definition getIntValueOrDefault (intValue : option Z) (defaultValue : Z) : Z := default defaultValue intValue.
Definition getBoolValueOrDefault (boolValue : option bool) (defaultValue : bool) : bool := default defaultValue boolValue.

Definition isRepeatedReplication mmrp : bool :=
  match ServiceV7.MirrorMaker_RepeatedReplication (mm_spec mmrp) with Some b => b | None => false end.

(** ** Labels *)

Definition GetMirrorMakerSelectorLabels mmrp : strmap :=
  <["component" := "kafka-mm"]> (<["clusterName" := mm_serviceName mmrp]> ∅).

Definition GetMirrorMakerLabels mmrp : outcome strmap :=
  global ← cr_Global (mm_cr mmrp);
  let labels := <["name" := mm_serviceName mmrp]> (<["app.kubernetes.io/name" := mm_serviceName mmrp]> ∅) in
  Ret (JoinMaps (JoinMaps labels (GetMirrorMakerSelectorLabels mmrp)) (ServiceV7.Global_DefaultLabels global)).

Definition GetMirrorMakerCustomLabels mmrp (mirrorMakerLabels : strmap) : outcome strmap :=
  global ← cr_Global (mm_cr mmrp);
  Ret (JoinMaps (JoinMaps (ServiceV7.Global_CustomLabels global) (ServiceV7.MirrorMaker_CustomLabels (mm_spec mmrp))) mirrorMakerLabels).

Definition GetServiceName mmrp : string := mm_serviceName mmrp.
Definition GetServiceAccountName mmrp : string := GetServiceName mmrp.

(** ** The configuration *)

Definition drEnabled mmrp : bool :=
  match ServiceV7.KafkaServiceSpec_DisasterRecovery (ServiceV7.KafkaService_Spec (mm_cr mmrp)) with
  | Some dr => ServiceV7.MirrorMakerReplication_Enabled (ServiceV7.DisasterRecovery_MirrorMakerReplication dr)
  | None => false
  end.

Definition identityReplicationEnabled mmrp : bool :=
  drEnabled mmrp || negb (ServiceV7.MirrorMaker_ReplicationPrefixEnabled (mm_spec mmrp)).

(** The body of the inner loop. *)
Definition flow_config mmrp (sourceClusterName : string) (replicationConfig : list string) (targetClusterName : string) : list string :=
  if decide (sourceClusterName = targetClusterName) then replicationConfig
  else
    let replicationFlow := NewReplicationFlow sourceClusterName targetClusterName in
    let replicationFlowEnabled := drEnabled mmrp || ServiceV7.MirrorMaker_ReplicationFlowEnabled (mm_spec mmrp) in
    let replicationConfig := replicationConfig ++ [replicationFlow +:+ ".enabled = " +:+ show_bool replicationFlowEnabled] in
    let replicationConfig :=
      if replicationFlowEnabled && negb (ServiceV7.MirrorMaker_ConfiguratorEnabled (mm_spec mmrp)) then
        AddTransformationProperties (NewTransformationConfigurator (ServiceV7.MirrorMaker_Transformation (mm_spec mmrp)) "")
          replicationConfig sourceClusterName targetClusterName (identityReplicationEnabled mmrp)
      else replicationConfig in
    if negb (drEnabled mmrp) then
      replicationConfig ++ [replicationFlow +:+ ".sync.group.offsets.enabled = false";
                            replicationFlow +:+ ".sync.group.offsets.interval.seconds = 5"]
    else replicationConfig.

(** The body of the outer loop. *)
Definition source_config mmrp (targetNames : list string) (repeatedReplication : bool)
    (acc : list string * list string) (sourceClusterName : string) : list string * list string :=
  let '(replicationConfig, topicPrefixes) := acc in
  (foldl (flow_config mmrp sourceClusterName) replicationConfig targetNames,
   if negb repeatedReplication then topicPrefixes ++ [sourceClusterName +:+ "\.*"] else topicPrefixes).

Definition createReplicationFlowConfig mmrp (sourceNames targetNames : list string) (repeatedReplication : bool) : list string :=
  let replicationConfig :=
    if drEnabled mmrp then ["emit.checkpoints.enabled = true"; "emit.checkpoints.interval.seconds = 5";
                            "sync.group.offsets.enabled = true"; "sync.group.offsets.interval.seconds = 5"] else [] in
  let replicationConfig :=
    if identityReplicationEnabled mmrp then
      replicationConfig ++ [ReplicationPolicyClassConfig +:+ " = " +:+ IdentityReplicationPolicy]
    else replicationConfig in
  let replicationConfig :=
    if negb (ServiceV7.MirrorMaker_ConfiguratorEnabled (mm_spec mmrp)) &&
       negb (bool_decide (ServiceV7.MirrorMaker_TopicsToReplicate (mm_spec mmrp) = "")) then
      replicationConfig ++ ["topics = " +:+ ServiceV7.MirrorMaker_TopicsToReplicate (mm_spec mmrp)]
    else replicationConfig in
  let replicationConfig := replicationConfig ++ [""; "# configure a specific source->target replication flow"] in
  let '(replicationConfig, topicPrefixes) :=
    foldl (source_config mmrp targetNames repeatedReplication) (replicationConfig, []) sourceNames in
  if negb repeatedReplication then
    let topicPrefixes := topicPrefixes ++ [".*\..*-internal"; ".*\..*\.internal"; "__.*"] in
    replicationConfig ++ [TopicBlackList +:+ " = " +:+ Join topicPrefixes ","]
  else replicationConfig.

Definition factor_rows (factor : Z) : list string :=
  (λ key, key +:+ " = " +:+ itoa factor) <$>
    ["replication.factor"; "config.storage.replication.factor"; "offset.storage.replication.factor";
     "status.storage.replication.factor"; "heartbeats.topic.replication.factor";
     "checkpoints.topic.replication.factor"; "offset-syncs.topic.replication.factor"].

Definition cluster_rows (cluster : ServiceV7.Cluster) : list string :=
  let clusterName := ToLower (ServiceV7.Cluster_Name cluster) in
  ["# configure [" +:+ clusterName +:+ "] cluster";
   clusterName +:+ ".bootstrap.servers = " +:+ ServiceV7.Cluster_BootstrapServers cluster; ""].

(** The rows of the configuration file. *)
Definition clustersConfiguration mmrp : list string :=
  let spec := mm_spec mmrp in
  let clusterNames := (λ cluster, ToLower (ServiceV7.Cluster_Name cluster)) <$> ServiceV7.MirrorMaker_Clusters spec in
  let rows := ["# mm2.properties"; "clusters = " +:+ Join clusterNames ", "]
    ++ factor_rows (ServiceV7.MirrorMaker_ReplicationFactor spec)
    ++ ["refresh.topics.interval.seconds = " +:+ itoa (getIntValueOrDefault (ServiceV7.MirrorMaker_RefreshTopicsIntervalSeconds spec) 5);
        "refresh.groups.interval.seconds = " +:+ itoa (getIntValueOrDefault (ServiceV7.MirrorMaker_RefreshGroupsIntervalSeconds spec) 5);
        "dedicated.mode.enable.internal.rest = " +:+ show_bool (getBoolValueOrDefault (ServiceV7.MirrorMaker_InternalRestEnabled spec) true);
        "tasks.max = " +:+ itoa (getIntValueOrDefault (ServiceV7.MirrorMaker_TasksMax spec) (int32_wrap (ServiceV7.MirrorMaker_Replicas spec)));
        "sync.topic.acls.enabled = false"; ""] in
  let rows := rows ++ concat (cluster_rows <$> ServiceV7.MirrorMaker_Clusters spec) in
  let '(targetClusterNames, rows) :=
    if decide (ServiceV7.MirrorMaker_RegionName spec ≠ "") then
      ([ToLower (ServiceV7.MirrorMaker_RegionName spec)], rows ++ ["target.dc=" +:+ ServiceV7.MirrorMaker_RegionName spec])
    else (clusterNames, rows) in
  rows ++ createReplicationFlowConfig mmrp clusterNames targetClusterNames (isRepeatedReplication mmrp).

Definition GetMirrorMakerProperties mmrp : string := Join (clustersConfiguration mmrp) nl.

Definition NewConfigurationMapForCR mmrp : outcome ConfigMap :=
  labels ← GetMirrorMakerLabels mmrp;
  Ret (mkConfigMap (newMeta (ServiceV7.MirrorMaker_ConfigurationName (mm_spec mmrp)) (cr_Namespace (mm_cr mmrp)) labels ∅)
         {["config" := GetMirrorMakerProperties mmrp]} ∅).

(** ** The deployment and the service of a cluster *)

Definition getMirrorMakerVolumes mmrp : list Volume :=
  let volumes := [mkVolume "log" (EmptyDirVolume None); mkVolume "data" (EmptyDirVolume None);
                  mkVolume "config" (ConfigMapVolume (ServiceV7.MirrorMaker_ConfigurationName (mm_spec mmrp))
                                       [mkKeyToPath "config" "kmm.conf"]);
                  getTmpVolume "32Mi"] in
  if decide (ServiceV7.MirrorMaker_SecretName (mm_spec mmrp) = "") then volumes
  else volumes ++ [mkVolume "mm-secrets" (SecretVolume (ServiceV7.MirrorMaker_SecretName (mm_spec mmrp)) (Some 420) [])].

Definition getMirrorMakerVolumeMounts mmrp : list VolumeMount :=
  let volumeMounts := [mkVolumeMount "data" "/var/opt/kafka/data" false; mkVolumeMount "log" "/opt/kafka/logs" false;
                       mkVolumeMount "config" "/opt/kafka/config/kmm" false; getTmpVolumeMount] in
  if decide (ServiceV7.MirrorMaker_SecretName (mm_spec mmrp) = "") then volumeMounts
  else volumeMounts ++ [mkVolumeMount "mm-secrets" "/etc/secrets/mirror-maker-pod-secrets" true].

(** A node label is written [key=value]. *)
Definition getAffinityRules mmrp (cluster : ServiceV7.Cluster) : outcome Affinity :=
  let affinity := ServiceV7.MirrorMaker_Affinity (mm_spec mmrp) in
  if decide (ServiceV7.Cluster_NodeLabel cluster = "") then Ret affinity
  else
    let labelPair := Split (ServiceV7.Cluster_NodeLabel cluster) "=" in
    key ← index labelPair 0;
    value ← index labelPair 1;
    Ret (set_aff_NodeAffinity (Some (mkNodeAffinity (Some [[mkNodeSelectorRequirement key "In" [value]]]) (mkRaw ""))) affinity).

Definition getCommand mmrp : list string := [].
Definition getArgs mmrp : list string := [].
Definition getInitContainers mmrp : list Container := [].

(** What the loop over the clusters adds for one of them. *)
Definition cluster_envs (cluster : ServiceV7.Cluster) : list EnvVar :=
  let upperClusterName := ToUpper (ServiceV7.Cluster_Name cluster) in
  [mkEnv (upperClusterName +:+ "_BOOTSTRAP_SERVERS") (ServiceV7.Cluster_BootstrapServers cluster);
   mkEnv (upperClusterName +:+ "_ENABLE_SSL") (show_bool (ServiceV7.Cluster_EnableSsl cluster));
   mkEnv (upperClusterName +:+ "_SASL_MECHANISM") (ServiceV7.Cluster_SaslMechanism cluster)].

Definition has_certs (cluster : ServiceV7.Cluster) : bool :=
  ServiceV7.Cluster_EnableSsl cluster && negb (bool_decide (ServiceV7.Cluster_SslSecretName cluster = "")).

Definition cluster_volumes (cluster : ServiceV7.Cluster) : list Volume :=
  if has_certs cluster then
    [mkVolume (ServiceV7.Cluster_Name cluster +:+ "-ssl-certs") (SecretVolume (ServiceV7.Cluster_SslSecretName cluster) None [])]
  else [].

Definition cluster_mounts (cluster : ServiceV7.Cluster) : list VolumeMount :=
  if has_certs cluster then
    [mkVolumeMount (ServiceV7.Cluster_Name cluster +:+ "-ssl-certs") ("/opt/kafka/tls/" +:+ ServiceV7.Cluster_Name cluster) false]
  else [].

(** Mirror maker replicates to the standby side only: it is scaled down when the resource is active
    and when replication is off. *)
Definition mm_replicas mmrp : Z :=
  match ServiceV7.KafkaServiceSpec_DisasterRecovery (ServiceV7.KafkaService_Spec (mm_cr mmrp)) with
  | Some dr =>
      if decide (ServiceV7.DisasterRecovery_Mode dr = "active" ∨ ServiceV7.DisasterRecovery_Mode dr = "disable") then 0
      else int32_wrap (ServiceV7.MirrorMaker_Replicas (mm_spec mmrp))
  | None => int32_wrap (ServiceV7.MirrorMaker_Replicas (mm_spec mmrp))
  end.

Definition mm_envs mmrp (clusters : list ServiceV7.Cluster) (secretVersion configMapVersion currentClusterName : string) : list EnvVar :=
  let heap := itoa (ServiceV7.MirrorMaker_HeapSize (mm_spec mmrp)) in
  [mkEnv "SECRET_VERSION" secretVersion; mkEnv "CONFIG_MAP_VERSION" configMapVersion;
   mkEnv "HEAP_OPTS" ("-Xms" +:+ heap +:+ "m -Xmx" +:+ heap +:+ "m"); mkEnv "PROMETHEUS_PORT" (itoa 8080);
   mkEnv "CLUSTER" currentClusterName]
  ++ concat (cluster_envs <$> clusters)
  ++ [mkEnv "CLUSTERS" (Join ((λ cluster, ToLower (ServiceV7.Cluster_Name cluster)) <$> clusters) ", ")].

Section deployment.
Context (range : strmap → list (string * string)).

Definition mm_container mmrp (clusters : list ServiceV7.Cluster) (envVars : list EnvVar) : Container :=
  mkContainer "kafka-mirror-maker" (ServiceV7.MirrorMaker_DockerImage (mm_spec mmrp)) (getCommand mmrp) (getArgs mmrp)
    [mkContainerPort "" 8080 ProtocolTCP]
    (buildEnvs range
       (configMapToEnvVars range (ServiceV7.MirrorMaker_Config (mm_spec mmrp)) "CONF_"
          (ServiceV7.MirrorMaker_EnvironmentVariables (mm_spec mmrp)) ++ envVars)
       (ServiceV7.MirrorMaker_EnvironmentVariables (mm_spec mmrp)))
    (ServiceV7.MirrorMaker_Resources (mm_spec mmrp))
    (getMirrorMakerVolumeMounts mmrp ++ concat (cluster_mounts <$> clusters))
    (Some (mkProbe (Exec ["./bin/health.sh"; "live"]) 50 5 15 1 5))
    (Some (mkProbe (Exec ["./bin/health.sh"; "ready"]) 60 15 15 1 5))
    "Always" (Some getDefaultContainerSecurityContext).

Definition NewMirrorMakerDeploymentForCR mmrp (cluster : ServiceV7.Cluster) (clusters : list ServiceV7.Cluster)
    (secretVersion configMapVersion currentClusterName deploymentName : string) : outcome Deployment :=
  labels ← GetMirrorMakerLabels mmrp;
  let mirrorMakerLabels := <["name" := deploymentName]> labels in
  let mirrorMakerLabels := <["app.kubernetes.io/technology" := "java-others"]> mirrorMakerLabels in
  let mirrorMakerLabels :=
    <["app.kubernetes.io/instance" := deploymentName +:+ "-" +:+ cr_Namespace (mm_cr mmrp)]> mirrorMakerLabels in
  mirrorMakerCustomLabels ← GetMirrorMakerCustomLabels mmrp mirrorMakerLabels;
  let selectorLabels := <["name" := deploymentName]> (GetMirrorMakerSelectorLabels mmrp) in
  let envVars := mm_envs mmrp clusters secretVersion configMapVersion currentClusterName in
  affinity ← getAffinityRules mmrp cluster;
  let pod := mkPodSpec (getMirrorMakerVolumes mmrp ++ concat (cluster_volumes <$> clusters)) (getInitContainers mmrp)
    [mm_container mmrp clusters envVars] (Some (ServiceV7.MirrorMaker_SecurityContext (mm_spec mmrp)))
    (GetServiceAccountName mmrp) None deploymentName "" (Some affinity) (ServiceV7.MirrorMaker_Tolerations (mm_spec mmrp))
    (ServiceV7.MirrorMaker_PriorityClassName (mm_spec mmrp)) in
  Ret (mkDeployment (newMeta deploymentName (cr_Namespace (mm_cr mmrp)) mirrorMakerLabels ∅) "Recreate"
         (Some (mm_replicas mmrp)) None selectorLabels (mkTemplate mirrorMakerCustomLabels ∅ pod) 0 0).

End deployment.

Definition GetService mmrp (deploymentName : string) : outcome Service :=
  labels ← GetMirrorMakerLabels mmrp;
  let mirrorMakerLabels := <["name" := deploymentName]> labels in
  let selectorLabels := <["name" := deploymentName]> (GetMirrorMakerSelectorLabels mmrp) in
  Ret (newServiceForCR deploymentName (cr_Namespace (mm_cr mmrp)) mirrorMakerLabels selectorLabels
         [mkPort "prometheus-http" 8080 ProtocolTCP]).
