(* ===== verification/KafkaProvider.v ===== *)
(** * The objects of the brokers

    Source: operator/controllers/provider/kafka_provider.go.  The provider keeps the resource and a
    copy of its specification; nothing it reads is changed between the two, so it is the resource
    here.  [range] is the order of ranging over maps.  A list of the specification that is shorter
    than the number of a broker makes the code panic. *)

From S2P Require Import Prelude GoStrings Util Transformation Kube Api Providers.

Import KafkaV1.

(** apimachinery's resource.ParseQuantity. *)
Class Quantities := { ParseQuantity : string → Z + gerror }.

Definition MustParse `{Quantities} (str : string) : outcome Z :=
  match ParseQuantity str with inl q => Ret q | inr _ => Panic end.

Module KafkaObjects.

Definition persistentVolumeClaimName (name : string) (brokerId : Z) : string := "pvc-" +:+ name +:+ "-" +:+ itoa brokerId.
Definition defaultClockSkew : Z := 10.
Definition defaultJwkSourceType : string := "jwks".
Definition defaultJwksConnectionTimeout : Z := 1000.
Definition defaultJwksReadTimeout : Z := 1000.
Definition defaultJwksSizeLimit : Z := 51200.
Definition defaultTerminationGracePeriod : Z := 180.
Definition defaultVolumeName : string := "emptyDir".
Definition defaultRollbackTimeout : Z := 3600.
Definition defaultHealthCheckTimeout : Z := 30.
Definition defaultAllBrokersStartTimeoutSeconds : Z := 600.
Definition defaultTopicReassignmentTimeoutSeconds : Z := 300.
Definition defaultBrokerDeploymentScaleInEnabled : bool := false.
Definition zooKeeperClusterID : string := "U5tHX5uHQnmsniDS54EF_w".
Definition veleroExcludeFromBackupLabel : string := "velero.io/exclude-from-backup".

Implicit Type cr : Kafka.

Definition cr_Name cr : string := Name (Kafka_meta cr).
Definition cr_Namespace cr : string := Namespace (Kafka_meta cr).
Definition storage cr : Storage := KafkaSpec_Storage (Kafka_Spec cr).
Definition controller_storage cr : Storage := MigrationController_Storage (KafkaSpec_MigrationController (Kafka_Spec cr)).
Definition kraft_enabled cr : bool := Kraft_Enabled (KafkaSpec_Kraft (Kafka_Spec cr)).
Definition pvc_annotations cr : strmap := PVCMetadata_Annotations (PVC_PVCMetadata (KafkaSpec_PVC (Kafka_Spec cr))).

(** [l[brokerId-1]] *)
Definition broker_item {A} (l : list A) (brokerId : Z) : outcome A := index l (brokerId - 1).

(** ** Labels and names *)

Definition GetSelectorLabels cr : strmap := <["component" := "kafka"]> (<["clusterName" := cr_Name cr]> ∅).

Definition GetKafkaLabels cr : strmap :=
  let labels := <["name" := cr_Name cr]> (<["app.kubernetes.io/name" := cr_Name cr]> ∅) in
  JoinMaps (JoinMaps (GetSelectorLabels cr) labels) (KafkaSpec_DefaultLabels (Kafka_Spec cr)).

Definition GetKafkaCustomLabels cr (kafkaLabels : strmap) : strmap := JoinMaps (KafkaSpec_CustomLabels (Kafka_Spec cr)) kafkaLabels.

Definition GetServiceName cr : string := cr_Name cr.
Definition GetServiceAccountName cr : string := GetServiceName cr.

Definition broker_name cr (brokerId : Z) : string := cr_Name cr +:+ "-" +:+ itoa brokerId.
Definition domain_name cr : string := cr_Name cr +:+ "-broker".
Definition controller_name cr : string := cr_Name cr +:+ "-" +:+ "kraft-controller".

(** ** Services *)

Definition tcp_port (name : string) (port : Z) : ServicePort := mkPort name port ProtocolTCP.

Definition client_ports : list ServicePort :=
  [tcp_port "kafka-client" 9092; tcp_port "external-kafka-client" 9094; tcp_port "nonencrypted-kafka-client" 9095;
   tcp_port "jolokia-http" 9087].

Definition NewKafkaClientServiceForCR cr : Service :=
  newServiceForCR (cr_Name cr) (cr_Namespace cr) (GetKafkaLabels cr) (GetSelectorLabels cr) client_ports.

Definition NewKafkaDomainClientServiceForCR cr : Service :=
  let ports := [tcp_port "kafka-inter-broker" 9093; tcp_port "jolokia-http" 9087]
               ++ (if kraft_enabled cr then [tcp_port "kafka-controller" 9096] else []) in
  newDomainServiceForCR (domain_name cr) (cr_Namespace cr) (GetKafkaLabels cr) (GetSelectorLabels cr) ports.

Definition NewKafkaBrokerServiceForCR cr (brokerId : Z) : Service :=
  let serviceName := broker_name cr brokerId in
  newServiceForBroker serviceName (cr_Namespace cr) (<["name" := serviceName]> (GetKafkaLabels cr))
    (<["name" := serviceName]> (GetSelectorLabels cr)) (client_ports ++ [tcp_port "prometheus-http" 8080]).

Definition controller_selector cr : strmap := <["component" := "kafka-controller"]> (<["name" := controller_name cr]> ∅).

Definition controller_labels cr : strmap :=
  delete "clusterName" (<["component" := "kafka-controller"]> (<["name" := controller_name cr]> (GetKafkaLabels cr))).

Definition NewKafkaControllerServiceForCR cr : Service :=
  newServiceForBroker (controller_name cr) (cr_Namespace cr) (controller_labels cr) (controller_selector cr)
    [tcp_port "kafka-kraft-controller" 9092].

(** ** Persistent volume claims

    A claim is bound to a named volume, or selected by a label, or provided by a storage class; no
    claim, nil, is made without any of these, or when there are several classes but not one for
    each named volume. *)

Definition checkStorageClassDefinition cr (volumesCount : nat) : option gerror :=
  let classNamesCount := length (Storage_ClassName (storage cr)) in
  if bool_decide (1 < classNamesCount)%nat && negb (bool_decide (classNamesCount = volumesCount)) then
    Some (errorf "number of storage class names should be matched to volumes number")
  else None.

Definition checkControllerStorageClassDefinition cr : option gerror :=
  let classNamesCount := length (Storage_ClassName (controller_storage cr)) in
  if negb (bool_decide (classNamesCount = 0%nat)) && negb (bool_decide (classNamesCount = 1%nat)) then
    Some (errorf "number of storage class names for controller should be 1 or 0")
  else None.

Definition getStorageClassForDynamicallyProvidedVolumes cr (brokerId : Z) : outcome string :=
  match Storage_ClassName (storage cr) with
  | [className] => Ret className
  | classNames => broker_item classNames brokerId
  end.

(** The fields of the specification of a claim that depend on the storage. *)
Record claim_source := mkClaimSource {
  cs_VolumeName : string;
  cs_StorageClassName : option string;
  cs_Selector : option strmap;
}.

(** [k=v], split at equals signs: without one the code panics. *)
Definition label_selector (label : string) : outcome strmap :=
  let keyValue := Split label "=" in
  key ← index keyValue 0;
  value ← index keyValue 1;
  Ret {[key := value]}.

Definition claim_by_storage (s : Storage) (item : list string → outcome string) (class : outcome string) : outcome (option claim_source) :=
  let class_or (otherwise : option string) := if decide (Storage_ClassName s = []) then Ret otherwise else c ← class; Ret (Some c) in
  if decide (Storage_Volumes s ≠ []) then
    volume ← item (Storage_Volumes s);
    className ← class_or (Some "");
    Ret (Some (mkClaimSource volume className None))
  else if decide (Storage_Labels s ≠ []) then
    label ← item (Storage_Labels s);
    selector ← label_selector label;
    className ← class_or None;
    Ret (Some (mkClaimSource "" className (Some selector)))
  else if decide (Storage_ClassName s ≠ []) then
    className ← class;
    Ret (Some (mkClaimSource "" (Some className) None))
  else Ret None.

Definition claim `{Quantities} cr (name : string) (labels : strmap) (size : string) (source : claim_source) : outcome PersistentVolumeClaim :=
  quantity ← MustParse size;
  Ret (mkPvc (newMeta name (cr_Namespace cr) labels (pvc_annotations cr)) (cs_VolumeName source) (cs_StorageClassName source)
         (cs_Selector source) ["ReadWriteOnce"] (Some {["storage" := quantity]}) ∅ []).

Definition NewKafkaPersistentVolumeClaimForCR `{Quantities} cr (brokerId : Z) : outcome (option PersistentVolumeClaim) :=
  let s := storage cr in
  match checkStorageClassDefinition cr (length (Storage_Volumes s)) with
  | Some _ => Ret None
  | None =>
      source ← claim_by_storage s (λ l, broker_item l brokerId) (getStorageClassForDynamicallyProvidedVolumes cr brokerId);
      match source with
      | None => Ret None
      | Some source =>
          let labels := GetKafkaLabels cr in
          let labels := if kraft_enabled cr then <["kraft" := "enabled"]> labels else labels in
          let labels := <["cloud-backuper.netcracker.com/exclude-from-physical-backup" := "true"]> labels in
          pvc ← claim cr (persistentVolumeClaimName (cr_Name cr) brokerId) labels (Storage_Size s) source;
          Ret (Some pvc)
      end
  end.

Definition controller_claim_name cr : string := "pvc-" +:+ controller_name cr.

Definition NewKafkaControllerPersistentVolumeClaimForCR `{Quantities} cr : outcome (option PersistentVolumeClaim) :=
  let s := controller_storage cr in
  match checkControllerStorageClassDefinition cr with
  | Some _ => Ret None
  | None =>
      source ← claim_by_storage s (λ l, index l 0) (index (Storage_ClassName s) 0);
      match source with
      | None => Ret None
      | Some source =>
          pvc ← claim cr (controller_claim_name cr) (<["kraft" := "enabled"]> (GetKafkaLabels cr)) (Storage_Size s) source;
          Ret (Some pvc)
      end
  end.

Definition NewEmptySecret cr (secretName : string) : Secret :=
  mkSecret (newMeta secretName (cr_Namespace cr) (GetKafkaLabels cr) ∅) ∅ ∅.

(** ** Settings with a default *)

Definition flag (b : option bool) : bool := default false b.

Definition IsSecurityDisabled cr : bool := flag (KafkaSpec_DisableSecurity (Kafka_Spec cr)).
Definition isAuditLogsEnabled cr : bool := flag (KafkaSpec_EnableAuditLogs (Kafka_Spec cr)).
Definition isZookeeperSetACL cr : bool := flag (KafkaSpec_ZookeeperSetACL (Kafka_Spec cr)).
Definition isEnableAuthorization cr : bool := flag (KafkaSpec_EnableAuthorization (Kafka_Spec cr)).

Definition getClockSkew (oauth : OAuth) : Z := default defaultClockSkew (OAuth_ClockSkew oauth).
Definition getJwkSourceType (oauth : OAuth) : string := default defaultJwkSourceType (OAuth_JwkSourceType oauth).
Definition getJwksConnectionTimeout (oauth : OAuth) : Z := default defaultJwksConnectionTimeout (OAuth_JwksConnectionTimeout oauth).
Definition getJwksReadTimeout (oauth : OAuth) : Z := default defaultJwksReadTimeout (OAuth_JwksReadTimeout oauth).
Definition getJwksSizeLimit (oauth : OAuth) : Z := default defaultJwksSizeLimit (OAuth_JwksSizeLimit oauth).
Definition getTerminationGracePeriod (kafka : KafkaSpec) : Z := default defaultTerminationGracePeriod (KafkaSpec_TerminationGracePeriod kafka).
Definition getRollbackTimeout (kafka : KafkaSpec) : Z := default defaultRollbackTimeout (KafkaSpec_RollbackTimeout kafka).
Definition getHealthCheckTimeout (kafka : KafkaSpec) : Z := default defaultHealthCheckTimeout (KafkaSpec_HealthCheckTimeout kafka).

Definition scaling cr : Scaling := KafkaSpec_Scaling (Kafka_Spec cr).

(** When the cluster is scaled out, the reassignment of partitions is on unless it is set to off. *)
Definition IsReassignPartitionsEnabled cr (clusterScaling : bool) : bool := default clusterScaling (Scaling_ReassignPartitions (scaling cr)).

Definition GetAllBrokersStartTimeoutSeconds cr : Z :=
  default defaultAllBrokersStartTimeoutSeconds (Scaling_AllBrokersStartTimeoutSeconds (scaling cr)).

Definition IsBrokerScalingInEnabled cr : bool :=
  default defaultBrokerDeploymentScaleInEnabled (Scaling_BrokerDeploymentScaleInEnabled (scaling cr)).

Definition GetTopicReassignmentTimeoutSeconds cr : Z :=
  default defaultTopicReassignmentTimeoutSeconds (Scaling_TopicReassignmentTimeoutSeconds (scaling cr)).

(** ** Affinity *)

Definition hostname_affinity (node : string) : NodeAffinity :=
  mkNodeAffinity (Some [[mkNodeSelectorRequirement "kubernetes.io/hostname" "In" [node]]]) (mkRaw "").

Definition getBrokerAffinityForCR cr (brokerId : Z) : outcome Affinity :=
  let affinity := KafkaSpec_Affinity (Kafka_Spec cr) in
  if decide (Storage_Nodes (storage cr) = []) then Ret affinity
  else
    node ← broker_item (Storage_Nodes (storage cr)) brokerId;
    Ret (set_aff_NodeAffinity (Some (hostname_affinity node)) affinity).

Definition getControllerAffinityForCR cr : outcome Affinity :=
  let affinity := MigrationController_Affinity (KafkaSpec_MigrationController (Kafka_Spec cr)) in
  if decide (Storage_Nodes (controller_storage cr) = []) then Ret affinity
  else
    node ← index (Storage_Nodes (controller_storage cr)) 0;
    Ret (set_aff_NodeAffinity (Some (hostname_affinity node)) affinity).

Definition GetZooKeeperFullName cr : outcome string :=
  zooKeeperAddress ← index (Split (KafkaSpec_ZookeeperConnect (Kafka_Spec cr)) ":") 0;
  Ret (if decide (length (Split zooKeeperAddress ".") = 1%nat) then zooKeeperAddress +:+ "." +:+ cr_Namespace cr else zooKeeperAddress).

(** ** Containers *)

Definition getCommand cr : list string := [].
Definition getArgs cr : list string := [].
Definition getInitContainers cr : list Container := [].
Definition getExecCommand cr (originalCommand : list string) : ProbeHandler := Exec originalCommand.

(** The mode is 0644. *)
Definition getSecretFilesVolume cr : option Volume :=
  let secretName := KafkaSpec_SecretName (Kafka_Spec cr) in
  if decide (secretName = "") then None else Some (mkVolume "kafka-secrets" (SecretVolume secretName (Some 420) [])).

Definition getSecretFilesVolumeMount : VolumeMount := mkVolumeMount "kafka-secrets" "/etc/secrets/kafka-pod-secrets" true.

Definition no_timing : ProbeTimingConfig := mkProbeTimingConfig None None None None None.

Definition timed_probe (handler : ProbeHandler) (config : option ProbeTimingConfig) (initial timeout period success failure : Z) : Probe :=
  let config := default no_timing config in
  mkProbe handler
    (DefaultIfEmptyInt32 (ProbeTimingConfig_InitialDelaySeconds config) initial)
    (DefaultIfEmptyInt32 (ProbeTimingConfig_TimeoutSeconds config) timeout)
    (DefaultIfEmptyInt32 (ProbeTimingConfig_PeriodSeconds config) period)
    (DefaultIfEmptyInt32 (ProbeTimingConfig_SuccessThreshold config) success)
    (DefaultIfEmptyInt32 (ProbeTimingConfig_FailureThreshold config) failure).

Definition container_ports (kraftEnabled : bool) : list ContainerPort :=
  (λ port, mkContainerPort "" port ProtocolTCP) <$> [9092; 9093; 9094; 9095; 9087; 8080] ++ (if kraftEnabled then [9096] else []).

Definition ephemeral : string := "ephemeral-storage".

Definition with_ephemeral (source target : strmap) : strmap :=
  match source !! ephemeral with Some value => <[ephemeral := value]> target | None => target end.

Definition debug_resources cr : ResourceRequirements :=
  let resources := KafkaSpec_Resources (Kafka_Spec cr) in
  mkResources (with_ephemeral (res_Requests resources) (<["memory" := "25Mi"]> (<["cpu" := "10m"]> ∅)))
              (with_ephemeral (res_Limits resources) (<["memory" := "100Mi"]> (<["cpu" := "100m"]> ∅))).

Definition createDeploymentContainers cr (envs : list EnvVar) (volumeMounts : list VolumeMount) (kraftEnabled kraftController : bool) :
    list Container :=
  let spec := Kafka_Spec cr in
  let livenessCommand := "./bin/kafka-health.sh" :: (if kraftController then [] else ["live"]) in
  let readinessCommand := "./bin/kafka-health.sh" :: (if kraftController then [] else ["ready"]) in
  mkContainer "kafka" (KafkaSpec_DockerImage spec) (getCommand cr) (getArgs cr) (container_ports kraftEnabled) envs
    (KafkaSpec_Resources spec) volumeMounts
    (Some (timed_probe (getExecCommand cr livenessCommand) (KafkaSpec_LivenessProbe spec) 60 5 15 1 20))
    (Some (timed_probe (getExecCommand cr readinessCommand) (KafkaSpec_ReadinessProbe spec) 60 30 30 1 5))
    "Always" (Some getDefaultContainerSecurityContext)
  :: (if KafkaSpec_DebugContainer spec then
        [mkContainer "kafka-debug-container" (KafkaSpec_DockerImage spec) ["/bin/sh"] ["-c"; "tail -f /dev/null"] [] envs
           (debug_resources cr) volumeMounts None None "IfNotPresent" (Some getDefaultContainerSecurityContext)]
      else []).

(** ** Deployments: what brokers and the controller of the migration share *)

(** Whether the data directory is on a claim. *)
Definition on_claim (s : Storage) : bool :=
  match Storage_Volumes s, Storage_ClassName s with
  | _ :: _, _ => true
  | [], className :: _ => negb (bool_decide (className = defaultVolumeName))
  | [], [] => false
  end.

Definition data_volume (s : Storage) (claimName : string) : VolumeSource :=
  if on_claim s then PersistentVolumeClaimVolume claimName else EmptyDirVolume None.

Definition ssl_used cr : bool :=
  let ssl := KafkaSpec_Ssl (Kafka_Spec cr) in
  Ssl_Enabled ssl && negb (bool_decide (Ssl_SecretName ssl = "")).

(** [zookeeper] tells whether the pod still connects to ZooKeeper. *)
Definition zookeeper_ssl cr (zookeeper : bool) : bool := KafkaSpec_ZookeeperEnableSsl (Kafka_Spec cr) && zookeeper.

Definition zookeeper_certs cr (zookeeper : bool) : bool :=
  zookeeper_ssl cr zookeeper && negb (bool_decide (KafkaSpec_ZookeeperSslSecretName (Kafka_Spec cr) = "")).

Definition secret_volume (name secretName : string) : Volume := mkVolume name (SecretVolume secretName None []).

Definition pod_volumes cr (data : VolumeSource) (zookeeper : bool) : list Volume :=
  [mkVolume "data" data; mkVolume "log" (EmptyDirVolume None);
   secret_volume "trusted-certs" (cr_Name cr +:+ "-trusted-certs"); secret_volume "public-certs" (cr_Name cr +:+ "-public-certs");
   getTmpVolume "32Mi"]
  ++ option_list (getSecretFilesVolume cr)
  ++ (if ssl_used cr then [secret_volume "ssl-certs" (Ssl_SecretName (KafkaSpec_Ssl (Kafka_Spec cr)))] else [])
  ++ (if zookeeper_certs cr zookeeper then [secret_volume "zookeeper-ssl-certs" (KafkaSpec_ZookeeperSslSecretName (Kafka_Spec cr))] else []).

Definition pod_mounts cr (zookeeper : bool) : list VolumeMount :=
  [mkVolumeMount "data" "/var/opt/kafka/data" false; mkVolumeMount "log" "/opt/kafka/logs" false;
   mkVolumeMount "trusted-certs" "/opt/kafka/trustcerts" false; mkVolumeMount "public-certs" "/opt/kafka/public-certs" false;
   getTmpVolumeMount]
  ++ (if getSecretFilesVolume cr then [getSecretFilesVolumeMount] else [])
  ++ (if ssl_used cr then [mkVolumeMount "ssl-certs" "/opt/kafka/tls" false] else [])
  ++ (if zookeeper_certs cr zookeeper then [mkVolumeMount "zookeeper-ssl-certs" "/opt/kafka/zookeeper-tls" false] else []).

Definition heap_opts cr : string :=
  let size := itoa (KafkaSpec_HeapSize (Kafka_Spec cr)) in
  "-Xms" +:+ size +:+ "m -Xmx" +:+ size +:+ "m".

(** From the variable of the host name to the one of the timeout of the health check. *)
Definition common_envs cr (deploymentName : string) : list EnvVar :=
  let spec := Kafka_Spec cr in
  let oauth := KafkaSpec_Oauth spec in
  [mkEnv "INTERNAL_HOST_NAME" (deploymentName +:+ "." +:+ cr_Namespace cr);
   mkEnv "INTER_BROKER_HOST_NAME" (deploymentName +:+ "." +:+ domain_name cr +:+ "." +:+ cr_Namespace cr);
   mkEnv "HEAP_OPTS" (heap_opts cr);
   mkEnv "DISABLE_SECURITY" (show_bool (IsSecurityDisabled cr));
   mkEnv "CLOCK_SKEW" (itoa (getClockSkew oauth));
   mkEnv "JWK_SOURCE_TYPE" (getJwkSourceType oauth);
   mkEnv "JWKS_CONNECTION_TIMEOUT" (itoa (getJwksConnectionTimeout oauth));
   mkEnv "TOKEN_ROLES_PATH" (KafkaSpec_TokenRolesPath spec);
   mkEnv "JWKS_READ_TIMEOUT" (itoa (getJwksReadTimeout oauth));
   mkEnv "JWKS_SIZE_LIMIT" (itoa (getJwksSizeLimit oauth));
   mkEnv "ENABLE_AUDIT_LOGS" (show_bool (isAuditLogsEnabled cr));
   mkEnv "ENABLE_AUTHORIZATION" (show_bool (isEnableAuthorization cr));
   mkEnv "HEALTH_CHECK_TIMEOUT" (itoa (getHealthCheckTimeout spec))].

Definition zookeeper_envs cr : list EnvVar :=
  [mkEnv "ZOOKEEPER_CONNECT" (KafkaSpec_ZookeeperConnect (Kafka_Spec cr));
   mkEnv "ZOOKEEPER_SET_ACL" (show_bool (isZookeeperSetACL cr))].

Definition tls_envs cr (zookeeper : bool) : list EnvVar :=
  let ssl := KafkaSpec_Ssl (Kafka_Spec cr) in
  (if ssl_used cr then
     [mkEnv "ENABLE_SSL" "true"; mkEnv "SSL_CIPHER_SUITES" (Join (Ssl_CipherSuites ssl) ",");
      mkEnv "ENABLE_2WAY_SSL" (show_bool (Ssl_EnableTwoWaySsl ssl));
      mkEnv "ALLOW_NONENCRYPTED_ACCESS" (show_bool (Ssl_AllowNonencryptedAccess ssl))]
   else [])
  ++ (if zookeeper_ssl cr zookeeper then [mkEnv "ENABLE_ZOOKEEPER_SSL" "true"] else [])
  ++ (if KafkaSpec_CCMetricReporterEnabled (Kafka_Spec cr) then [mkEnv "METRIC_COLLECTOR_ENABLED" "true"] else []).

(** The address of a broker as a voter of the quorum. *)
Definition broker_voter cr (i : Z) : string :=
  itoa i +:+ "@" +:+ broker_name cr i +:+ "." +:+ domain_name cr +:+ "." +:+ cr_Namespace cr +:+ ":9096".

Definition broker_voters cr (replicas : Z) : list string := broker_voter cr <$> range_incl 1 replicas.

Definition controller_voter cr : string := "3000@" +:+ controller_name cr +:+ ":9092".

Section deployments.
Context (range : strmap → list (string * string)).

Definition container_envs cr (envVars : list EnvVar) : list EnvVar :=
  let spec := Kafka_Spec cr in
  buildEnvs range (configMapToEnvVars range (KafkaSpec_Config spec) "CONF_KAFKA_" (KafkaSpec_EnvironmentVariables spec) ++ envVars)
    (KafkaSpec_EnvironmentVariables spec).

(** The name and the port of the external listener of a broker. *)
Definition external_address cr (brokerId : Z) : outcome (string * string) :=
  let spec := Kafka_Spec cr in
  if decide (KafkaSpec_ExternalHostNames spec = []) then Ret ("", "")
  else
    externalHostName ← broker_item (KafkaSpec_ExternalHostNames spec) brokerId;
    externalPort ← (if decide (KafkaSpec_ExternalPorts spec = []) then Ret "9094"
                    else port ← broker_item (KafkaSpec_ExternalPorts spec) brokerId; Ret (itoa port));
    Ret (externalHostName, externalPort).

Definition broker_envs cr (brokerId : Z) (externalHostName externalPort rack : string) (kraftEnabled : bool) (zkClusterID : string) :
    list EnvVar :=
  let spec := Kafka_Spec cr in
  let replicationFactor := if decide (KafkaSpec_Replicas spec < 3) then KafkaSpec_Replicas spec else 3 in
  let zkClusterID := if decide (zkClusterID = "") then zooKeeperClusterID else zkClusterID in
  [mkEnv "READINESS_PERIOD" "30"; mkEnv "BROKER_ID" (itoa brokerId); mkEnv "REPLICATION_FACTOR" (itoa replicationFactor);
   mkEnv "EXTERNAL_HOST_NAME" externalHostName; mkEnv "EXTERNAL_PORT" externalPort; mkEnv "CONF_KAFKA_BROKER_RACK" rack]
  ++ common_envs cr (broker_name cr brokerId)
  ++ (if kraftEnabled then
        [mkEnv "KRAFT_ENABLED" "true"; mkEnv "KRAFT_CLUSTER_ID" zkClusterID;
         mkEnv "VOTERS" (Join (broker_voters cr (KafkaSpec_Replicas spec)) ","); mkEnv "PROCESS_ROLES" "broker,controller"]
      else zookeeper_envs cr)
  ++ tls_envs cr (negb kraftEnabled).

Definition deployment_labels cr (brokerId : Z) : strmap :=
  let deploymentName := broker_name cr brokerId in
  let kafkaLabels := <["name" := deploymentName]> (GetKafkaLabels cr) in
  let kafkaLabels := <["app.kubernetes.io/instance" := deploymentName +:+ "-" +:+ cr_Namespace cr]> kafkaLabels in
  <[veleroExcludeFromBackupLabel := "true"]> kafkaLabels.

(** The object that is built once the variables and the affinity are known. *)
Definition brokerDeployment cr (brokerId : Z) (envVars : list EnvVar) (affinity : Affinity) (kraftEnabled : bool) : Deployment :=
  let spec := Kafka_Spec cr in
  let deploymentName := broker_name cr brokerId in
  let kafkaLabels := deployment_labels cr brokerId in
  let selectorLabels := <["name" := deploymentName]> (GetSelectorLabels cr) in
  let pod := mkPodSpec (pod_volumes cr (data_volume (storage cr) (persistentVolumeClaimName (cr_Name cr) brokerId)) (negb kraftEnabled))
    (getInitContainers cr) (createDeploymentContainers cr (container_envs cr envVars) (pod_mounts cr (negb kraftEnabled)) kraftEnabled false)
    (Some (KafkaSpec_SecurityContext spec)) (GetServiceAccountName cr) (Some (getTerminationGracePeriod spec)) deploymentName (domain_name cr)
    (Some affinity) (KafkaSpec_Tolerations spec) (KafkaSpec_PriorityClassName spec) in
  mkDeployment (newMeta deploymentName (cr_Namespace cr) kafkaLabels ∅) "Recreate" (Some 1) (Some (getRollbackTimeout spec))
    selectorLabels (mkTemplate (GetKafkaCustomLabels cr kafkaLabels) ∅ pod) 0 0.

Definition NewKafkaBrokerDeploymentForCR cr (brokerId : Z) (rack : string) (kraftEnabled : bool) (zkClusterID : string) : outcome Deployment :=
  '(externalHostName, externalPort) ← external_address cr brokerId;
  affinity ← getBrokerAffinityForCR cr brokerId;
  let envVars := broker_envs cr brokerId externalHostName externalPort rack kraftEnabled zkClusterID in
  Ret (brokerDeployment cr brokerId envVars affinity kraftEnabled).

Definition controller_envs cr (zkClusterID : string) (migrated zookeeperEnabled : bool) : list EnvVar :=
  let voters := "3000@localhost:9092" :: (if migrated then broker_voters cr (KafkaSpec_Replicas (Kafka_Spec cr)) else []) in
  [mkEnv "KRAFT_ENABLED" "true"; mkEnv "BROKER_ID" "3000"; mkEnv "CONTROLLER_LISTENER_NAMES" "CONTROLLER";
   mkEnv "LISTENERS" "CONTROLLER://:9092"; mkEnv "KRAFT_CLUSTER_ID" zkClusterID; mkEnv "INTER_BROKER_LISTENER_NAME" "INTERNAL";
   mkEnv "PROCESS_ROLES" "controller"; mkEnv "VOTERS" (Join voters ","); mkEnv "READINESS_PERIOD" "30";
   mkEnv "REPLICATION_FACTOR" "3"; mkEnv "EXTERNAL_HOST_NAME" ""; mkEnv "EXTERNAL_PORT" ""; mkEnv "CONF_KAFKA_BROKER_RACK" ""]
  ++ common_envs cr (controller_name cr)
  ++ (if zookeeperEnabled then zookeeper_envs cr else [])
  ++ [mkEnv (if migrated then "MIGRATED_CONTROLLER" else "MIGRATION_CONTROLLER") "true"]
  ++ tls_envs cr zookeeperEnabled.

Definition controllerDeployment cr (envVars : list EnvVar) (affinity : Affinity) (zookeeperEnabled : bool) : Deployment :=
  let spec := Kafka_Spec cr in
  let controller := KafkaSpec_MigrationController spec in
  let deploymentName := controller_name cr in
  let kafkaLabels := <["app.kubernetes.io/instance" := deploymentName +:+ "-" +:+ cr_Namespace cr]> (controller_labels cr) in
  let pod := mkPodSpec (pod_volumes cr (data_volume (controller_storage cr) (controller_claim_name cr)) zookeeperEnabled)
    (getInitContainers cr) (createDeploymentContainers cr (container_envs cr envVars) (pod_mounts cr zookeeperEnabled) false true)
    (Some (KafkaSpec_SecurityContext spec)) (GetServiceAccountName cr) (Some (getTerminationGracePeriod spec)) deploymentName (domain_name cr)
    (Some affinity) (MigrationController_Tolerations controller) (MigrationController_PriorityClassName controller) in
  mkDeployment (newMeta deploymentName (cr_Namespace cr) kafkaLabels ∅) "Recreate" (Some 1) (Some (getRollbackTimeout spec))
    (controller_selector cr) (mkTemplate (GetKafkaCustomLabels cr kafkaLabels) ∅ pod) 0 0.

Definition NewKafkaKraftControllerDeploymentForCR cr (zkClusterID : string) (migrated zookeeperEnabled : bool) : outcome Deployment :=
  affinity ← getControllerAffinityForCR cr;
  Ret (controllerDeployment cr (controller_envs cr zkClusterID migrated zookeeperEnabled) affinity zookeeperEnabled).

End deployments.

End KafkaObjects.

(** ** Properties *)

Module KafkaObjectsProperties.
Import KafkaObjects.

Implicit Type cr : Kafka.

Lemma index_is_ret {A} (l : list A) i : is_ret (index l i) ↔ 0 ≤ i < Z.of_nat (length l).
Proof.
  split.
  - intros [a Ha]. revert Ha. unfold index. case_decide; [|done]. destruct (l !! Z.to_nat i) eqn:E; [|done].
    apply lookup_lt_Some in E. intros _. lia.
  - intros Hi. destruct (lookup_lt_is_Some_2 l (Z.to_nat i)) as [a Ha]; [lia|]. exists a. unfold index.
    rewrite decide_True by lia. by rewrite Ha.
Qed.

(** A list of the specification with an entry for the broker: none at all will do. *)
Definition reaches {A} (l : list A) (brokerId : Z) : Prop := l = [] ∨ 1 ≤ brokerId ≤ Z.of_nat (length l).

Lemma reaches_index {A} (l : list A) brokerId : reaches l brokerId → l ≠ [] → is_ret (broker_item l brokerId).
Proof. intros [->|Hl] Hn; [done|]. apply index_is_ret. lia. Qed.

Lemma bind_is_ret {A B} (o : outcome A) (f : A → outcome B) : is_ret (o ≫= f) ↔ ∃ a, o = Ret a ∧ is_ret (f a).
Proof. destruct o as [a|e|]; [|split; [intros [b [=]]|naive_solver]..]. unfold mbind, outcome_bind. naive_solver. Qed.

Lemma external_address_is_ret cr brokerId :
  is_ret (external_address cr brokerId) ↔
  let spec := Kafka_Spec cr in
  KafkaSpec_ExternalHostNames spec = [] ∨ reaches (KafkaSpec_ExternalHostNames spec) brokerId ∧ reaches (KafkaSpec_ExternalPorts spec) brokerId.
Proof.
  unfold external_address. cbv zeta. case_decide as Hh; [split; [by left|by eexists]|]. rewrite bind_is_ret. unfold reaches.
  pose proof (index_is_ret (KafkaSpec_ExternalHostNames (Kafka_Spec cr)) (brokerId - 1)) as HH.
  pose proof (index_is_ret (KafkaSpec_ExternalPorts (Kafka_Spec cr)) (brokerId - 1)) as HP.
  fold (broker_item (KafkaSpec_ExternalHostNames (Kafka_Spec cr)) brokerId) in HH.
  fold (broker_item (KafkaSpec_ExternalPorts (Kafka_Spec cr)) brokerId) in HP.
  assert (HB : ∀ host : string, is_ret (externalPort ← (if decide (KafkaSpec_ExternalPorts (Kafka_Spec cr) = []) then Ret "9094"
      else port ← broker_item (KafkaSpec_ExternalPorts (Kafka_Spec cr)) brokerId; Ret (itoa port)); Ret (host, externalPort)) ↔
      KafkaSpec_ExternalPorts (Kafka_Spec cr) = [] ∨ is_ret (broker_item (KafkaSpec_ExternalPorts (Kafka_Spec cr)) brokerId)).
  { intros host. rewrite bind_is_ret. case_decide as Hp; [split; [by left|intros _; eexists; split; [done|by eexists]]|].
    split.
    - intros (port & Hb & _). right. destruct (broker_item (KafkaSpec_ExternalPorts (Kafka_Spec cr)) brokerId) as [p|e|]; [by exists p|done..].
    - intros [?|[p Hp']]; [done|]. rewrite Hp'. eexists. split; [done|by eexists]. }
  setoid_rewrite HB. split.
  - intros (host & Hh' & Hp). right. assert (is_ret (broker_item (KafkaSpec_ExternalHostNames (Kafka_Spec cr)) brokerId)) as Hr%HH by (by eexists).
    split; [right; lia|]. destruct Hp as [Hp|Hp%HP]; [by left|right; lia].
  - intros [?|[[?|Hl] Hp]]; [done..|]. destruct (proj2 HH) as [host Hh']; [lia|]. exists host. split; [done|].
    destruct Hp as [Hp|Hp]; [by left|]. right. apply HP. lia.
Qed.

Lemma affinity_is_ret cr brokerId : is_ret (getBrokerAffinityForCR cr brokerId) ↔ reaches (Storage_Nodes (storage cr)) brokerId.
Proof.
  unfold getBrokerAffinityForCR, reaches. case_decide as Hn; [split; [by left|by eexists]|]. rewrite bind_is_ret.
  pose proof (index_is_ret (Storage_Nodes (storage cr)) (brokerId - 1)) as HN. unfold broker_item. split.
  - intros (node & E & _). right. assert (is_ret (index (Storage_Nodes (storage cr)) (brokerId - 1))) as Hr%HN by (by eexists). lia.
  - intros [?|Hl]; [done|]. destruct (proj2 HN) as [node E]; [lia|]. exists node. split; [done|by eexists].
Qed.

Lemma broker_deployment_made range cr brokerId rack kraftEnabled zkClusterID d :
  NewKafkaBrokerDeploymentForCR range cr brokerId rack kraftEnabled zkClusterID = Ret d →
  ∃ h p affinity, external_address cr brokerId = Ret (h, p) ∧ getBrokerAffinityForCR cr brokerId = Ret affinity ∧
    d = brokerDeployment range cr brokerId (broker_envs cr brokerId h p rack kraftEnabled zkClusterID) affinity kraftEnabled.
Proof.
  unfold NewKafkaBrokerDeploymentForCR. destruct (external_address cr brokerId) as [[h p]|e|]; [|done..].
  cbn. destruct (getBrokerAffinityForCR cr brokerId) as [affinity|e|]; [|done..]. intros [= <-]. by exists h, p, affinity.
Qed.

Lemma controller_deployment_made range cr zkClusterID migrated zookeeperEnabled d :
  NewKafkaKraftControllerDeploymentForCR range cr zkClusterID migrated zookeeperEnabled = Ret d →
  ∃ affinity, getControllerAffinityForCR cr = Ret affinity ∧
    d = controllerDeployment range cr (controller_envs cr zkClusterID migrated zookeeperEnabled) affinity zookeeperEnabled.
Proof.
  unfold NewKafkaKraftControllerDeploymentForCR. destruct (getControllerAffinityForCR cr) as [affinity|e|]; [|done..].
  intros [= <-]. by exists affinity.
Qed.

(** The deployment of a broker can be built exactly when the lists of the specification reach its
    number: the external host names with the external ports, and the nodes. *)
Lemma broker_deployment_reaches range cr brokerId rack kraftEnabled zkClusterID :
  let spec := Kafka_Spec cr in
  is_ret (NewKafkaBrokerDeploymentForCR range cr brokerId rack kraftEnabled zkClusterID) ↔
  (KafkaSpec_ExternalHostNames spec = [] ∨ reaches (KafkaSpec_ExternalHostNames spec) brokerId ∧ reaches (KafkaSpec_ExternalPorts spec) brokerId) ∧
  reaches (Storage_Nodes (storage cr)) brokerId.
Proof.
  intros spec. subst spec. rewrite <- external_address_is_ret, <- affinity_is_ret. unfold NewKafkaBrokerDeploymentForCR.
  rewrite bind_is_ret. split.
  - intros ([h p] & E & Hr). apply bind_is_ret in Hr as (aff & Ea & _). split; by eexists.
  - intros [[[h p] E] [aff Ea]]. exists (h, p). split; [done|]. apply bind_is_ret. exists aff. split; [done|by eexists].
Qed.

(** A list that is too short makes the code panic. *)
Lemma broker_deployment_panics range cr brokerId rack kraftEnabled zkClusterID :
  is_ret (NewKafkaBrokerDeploymentForCR range cr brokerId rack kraftEnabled zkClusterID) ∨
  NewKafkaBrokerDeploymentForCR range cr brokerId rack kraftEnabled zkClusterID = Panic.
Proof.
  assert (HE : ∀ e, external_address cr brokerId ≠ Error e).
  { intros e. unfold external_address, broker_item, index. by repeat (case_decide || case_match); simplify_eq/=. }
  assert (HF : ∀ e, getBrokerAffinityForCR cr brokerId ≠ Error e).
  { intros e. unfold getBrokerAffinityForCR, broker_item, index. by repeat (case_decide || case_match); simplify_eq/=. }
  unfold NewKafkaBrokerDeploymentForCR. destruct (external_address cr brokerId) as [[h p]|e'|] eqn:E; [|by destruct (HE e')|by right].
  cbn. destruct (getBrokerAffinityForCR cr brokerId) as [aff|e'|] eqn:Ea; [by left; eexists|by destruct (HF e')|by right].
Qed.

(** *** The claim and the volume *)

Definition pod_volumes_of (d : Deployment) : list Volume := ps_Volumes (tmpl_Spec (dep_Template d)).

Definition mounts_claim (d : Deployment) (name : string) : Prop := mkVolume "data" (PersistentVolumeClaimVolume name) ∈ pod_volumes_of d.

Lemma pod_volumes_claim cr data zookeeper claimName :
  mkVolume "data" (PersistentVolumeClaimVolume claimName) ∈ pod_volumes cr data zookeeper ↔ data = PersistentVolumeClaimVolume claimName.
Proof.
  unfold pod_volumes, getSecretFilesVolume, secret_volume, getTmpVolume. cbn [app]. rewrite elem_of_cons.
  split; [intros [[= ->]|Hs]; [done|exfalso]|intros ->; by left].
  destruct (decide (KafkaSpec_SecretName (Kafka_Spec cr) = "")), (ssl_used cr), (zookeeper_certs cr zookeeper); cbn in Hs;
    repeat (apply elem_of_cons in Hs as [Hs|Hs]; [done|]); by apply elem_of_nil in Hs.
Qed.

Lemma broker_deployment_volumes range cr brokerId rack kraftEnabled zkClusterID d :
  NewKafkaBrokerDeploymentForCR range cr brokerId rack kraftEnabled zkClusterID = Ret d →
  pod_volumes_of d = pod_volumes cr (data_volume (storage cr) (persistentVolumeClaimName (cr_Name cr) brokerId)) (negb kraftEnabled).
Proof.
  by intros (h & p & affinity & _ & _ & ->)%broker_deployment_made.
Qed.

Lemma claim_made `{Quantities} cr brokerId o :
  NewKafkaPersistentVolumeClaimForCR cr brokerId = Ret o →
  match o with
  | Some pvc => checkStorageClassDefinition cr (length (Storage_Volumes (storage cr))) = None ∧
      ¬ (Storage_Volumes (storage cr) = [] ∧ Storage_Labels (storage cr) = [] ∧ Storage_ClassName (storage cr) = []) ∧
      Name (pvc_meta pvc) = persistentVolumeClaimName (cr_Name cr) brokerId ∧ Namespace (pvc_meta pvc) = cr_Namespace cr
  | None => is_Some (checkStorageClassDefinition cr (length (Storage_Volumes (storage cr)))) ∨
      Storage_Volumes (storage cr) = [] ∧ Storage_Labels (storage cr) = [] ∧ Storage_ClassName (storage cr) = []
  end.
Proof.
  unfold NewKafkaPersistentVolumeClaimForCR, claim_by_storage, claim. cbv zeta. destruct (checkStorageClassDefinition _ _); [intros [= <-]; eauto|].
  unfold mbind, outcome_bind. intros Hc.
  repeat first [case_decide | case_match]; simplify_eq/=; try done; try tauto; repeat (split; [done|]); tauto.
Qed.

(** C26. The claim of a broker and the volume of its pod: a claim has the name the pod mounts, but the
    two decisions are made apart.  The pod mounts a claim nobody makes exactly when there are
    several storage classes and not one for each volume; a claim is made that the pod does not
    mount, its data going to an empty directory, exactly when volumes are selected by label
    without a storage class, or when the first class is called emptyDir. *)
Theorem claim_and_mount `{Quantities} range cr brokerId rack kraftEnabled zkClusterID o d :
  NewKafkaPersistentVolumeClaimForCR cr brokerId = Ret o →
  NewKafkaBrokerDeploymentForCR range cr brokerId rack kraftEnabled zkClusterID = Ret d →
  let s := storage cr in
  let name := persistentVolumeClaimName (cr_Name cr) brokerId in
  let bad_classes := is_Some (checkStorageClassDefinition cr (length (Storage_Volumes s))) in
  (∀ pvc, o = Some pvc → Name (pvc_meta pvc) = name ∧ Namespace (pvc_meta pvc) = Namespace (dep_meta d)) ∧
  (o = None ∧ mounts_claim d name ↔
    bad_classes ∧ (Storage_Volumes s ≠ [] ∨ head (Storage_ClassName s) ≠ Some defaultVolumeName)) ∧
  (is_Some o ∧ ¬ mounts_claim d name ↔
    ¬ bad_classes ∧ Storage_Volumes s = [] ∧
    (Storage_ClassName s = [] ∧ Storage_Labels s ≠ [] ∨ head (Storage_ClassName s) = Some defaultVolumeName)).
Proof.
  intros Hc Hd s name bad. assert (HN : Namespace (dep_meta d) = cr_Namespace cr).
  { by apply broker_deployment_made in Hd as (h & p & affinity & _ & _ & ->). }
  assert (HM : mounts_claim d name ↔ on_claim s = true).
  { unfold mounts_claim. rewrite (broker_deployment_volumes _ _ _ _ _ _ _ Hd), pod_volumes_claim. unfold data_volume. fold s name.
    by destruct (on_claim s). }
  rewrite HM, HN. apply claim_made in Hc. unfold on_claim.
  assert (HB : bad → Storage_ClassName s ≠ []).
  { unfold bad, checkStorageClassDefinition. fold s. intros [e He] E. rewrite E in He. done. }
  assert (Hbad : bad ↔ is_Some (checkStorageClassDefinition cr (length (Storage_Volumes (storage cr))))) by done. clearbody bad.
  destruct o as [pvc|].
  - destruct Hc as (Hk & Hne & Hn & Hns). assert (¬ bad) by (rewrite Hbad, Hk; by intros [? [=]]).
    split; [by intros ? [= <-]|]. split; [naive_solver|].
    destruct (Storage_Volumes s) as [|v vs] eqn:Ev; [|naive_solver]. destruct (Storage_ClassName s) as [|c cs] eqn:Ec; cbn.
    + split; [|naive_solver]. intros _. repeat split; [done|]. left. split; [done|]. intros El. apply Hne. by fold s; rewrite Ev, El, Ec.
    + case_bool_decide; cbn; naive_solver.
  - split; [done|]. destruct Hc as [Hb|(Ev & El & Ec)].
    + apply Hbad in Hb. specialize (HB Hb). split; [|split; [intros [[? [=]] _]|naive_solver]].
      destruct (Storage_Volumes s) as [|v vs]; [|split; [intros _; split; [exact Hb|by left]|done]].
      destruct (Storage_ClassName s) as [|c cs]; [done|]. cbn. case_bool_decide as Ed; cbn.
      * split; [by intros [_ ?]|]. intros [_ [?|?]]; [done|congruence].
      * split; [intros _; split; [exact Hb|right; congruence]|done].
    + fold s in Ev, El, Ec. rewrite Ev, El, Ec in *. split; [naive_solver|]. split; [intros [[? [=]] _]|].
      intros (_ & _ & [[_ ?]|?]); done.
Qed.

(** *** Selectors *)

(** Whether an entry of the selector survives the default labels. *)
Definition label_kept cr (key value : string) : Prop :=
  KafkaSpec_DefaultLabels (Kafka_Spec cr) !! key = None ∨ KafkaSpec_DefaultLabels (Kafka_Spec cr) !! key = Some value.

Lemma kafka_label cr key value :
  GetSelectorLabels cr !! key = Some value → key ≠ "name" → key ≠ "app.kubernetes.io/name" →
  (GetKafkaLabels cr !! key = Some value ↔ label_kept cr key value).
Proof.
  intros Hs H1 H2. unfold GetKafkaLabels, label_kept. cbv zeta. rewrite !JoinMaps_lookup, Hs.
  rewrite !lookup_insert_ne, lookup_empty by done. destruct (KafkaSpec_DefaultLabels (Kafka_Spec cr) !! key); naive_solver.
Qed.

(** C27. The deployment and the service of a broker select the pods of this broker's template, as the
    API server demands of a deployment, exactly when the default labels of the resource do not
    give another value to the labels component and clusterName; custom labels cannot break it. *)
Theorem broker_selectors_match range cr brokerId rack kraftEnabled zkClusterID d :
  NewKafkaBrokerDeploymentForCR range cr brokerId rack kraftEnabled zkClusterID = Ret d →
  let matching := label_kept cr "component" "kafka" ∧ label_kept cr "clusterName" (cr_Name cr) in
  (dep_Selector d ⊆ tmpl_Labels (dep_Template d) ↔ matching) ∧
  (svc_Selector (NewKafkaBrokerServiceForCR cr brokerId) ⊆ tmpl_Labels (dep_Template d) ↔ matching) ∧
  ∀ brokerId', brokerId' ≠ brokerId → ¬ svc_Selector (NewKafkaBrokerServiceForCR cr brokerId') ⊆ tmpl_Labels (dep_Template d).
Proof.
  intros Hd matching. pose (instance := broker_name cr brokerId +:+ "-" +:+ cr_Namespace cr).
  assert (HL : tmpl_Labels (dep_Template d) = GetKafkaCustomLabels cr (<[veleroExcludeFromBackupLabel := "true"]>
      (<["app.kubernetes.io/instance" := instance]> (<["name" := broker_name cr brokerId]> (GetKafkaLabels cr)))) ∧
    dep_Selector d = <["name" := broker_name cr brokerId]> (GetSelectorLabels cr)).
  { by apply broker_deployment_made in Hd as (h & p & affinity & _ & _ & ->). }
  destruct HL as [HL HS]. set (tl := tmpl_Labels (dep_Template d)) in *.
  assert (Hname : tl !! "name" = Some (broker_name cr brokerId)).
  { rewrite HL. unfold GetKafkaCustomLabels. rewrite JoinMaps_lookup, !lookup_insert_ne by done. by rewrite lookup_insert_eq. }
  assert (Hlab : ∀ key value, GetSelectorLabels cr !! key = Some value → key ≠ "name" → key ≠ "app.kubernetes.io/name" →
    key ≠ veleroExcludeFromBackupLabel → key ≠ "app.kubernetes.io/instance" → (tl !! key = Some value ↔ label_kept cr key value)).
  { intros key value Hs H1 H2 H3 H4. rewrite HL. unfold GetKafkaCustomLabels.
    rewrite JoinMaps_lookup, !lookup_insert_ne by done. rewrite <- (kafka_label cr key value Hs H1 H2).
    assert (HK : is_Some (GetKafkaLabels cr !! key)).
    { unfold GetKafkaLabels. cbv zeta. rewrite !JoinMaps_lookup, Hs, !lookup_insert_ne, lookup_empty by done.
      destruct (KafkaSpec_DefaultLabels (Kafka_Spec cr) !! key) as [v|]; eauto. }
    destruct HK as [v ->]. done. }
  assert (HC := Hlab "component" "kafka" (lookup_insert_eq _ _ _)).
  assert (HG := Hlab "clusterName" (cr_Name cr)). specialize (HC ltac:(done) ltac:(done) ltac:(done) ltac:(done)).
  assert (HG' : GetSelectorLabels cr !! "clusterName" = Some (cr_Name cr)).
  { unfold GetSelectorLabels. rewrite lookup_insert_ne by done. apply lookup_insert_eq. }
  specialize (HG HG' ltac:(done) ltac:(done) ltac:(done) ltac:(done)).
  assert (HM : <["name" := broker_name cr brokerId]> (GetSelectorLabels cr) ⊆ tl ↔ matching).
  { rewrite map_subseteq_spec. unfold matching. rewrite <- HC, <- HG. split.
    - intros Hsub. split; apply Hsub; rewrite lookup_insert_ne by done; [apply lookup_insert_eq|done].
    - intros [H1 H2] k v. rewrite lookup_insert_Some. intros [[<- <-]|[_ Hk]]; [done|]. revert Hk. unfold GetSelectorLabels.
      rewrite lookup_insert_Some. intros [[<- <-]|[_ Hk]]; [done|]. revert Hk. rewrite lookup_insert_Some. intros [[<- <-]|[_ Hk]]; [done|].
      by rewrite lookup_empty in Hk. }
  split; [by rewrite HS|]. split; [done|].
  intros b' Hb Hsub. rewrite map_subseteq_spec in Hsub. specialize (Hsub "name" (broker_name cr b')).
  unfold NewKafkaBrokerServiceForCR, newServiceForBroker in Hsub. cbn in Hsub. rewrite lookup_insert_eq in Hsub. specialize (Hsub eq_refl).
  rewrite Hname in Hsub. injection Hsub as Hsub. unfold broker_name in Hsub. apply app_inj_l in Hsub. apply app_inj_l in Hsub.
  apply Hb. symmetry. by apply (inj pretty).
Qed.

End KafkaObjectsProperties.
