(* ===== verification/External.v ===== *)
(** * The outside world

    Everything the operator calls and does not implement: the API server behind the
    controller-runtime client, the Kafka brokers behind sarama, the clock, the random source,
    the compressor of files, HTTP servers, the file system.
    [call R] lists the requests the code makes, [R] being what a request answers with.  An
    [Env W] answers them, from a state [W] that it may change at will between two requests: a
    theorem that quantifies over every [Env] holds whatever other actors do meanwhile.

    The state of a run is that world, the history of requests with their answers, and the
    in-memory state [L] of the component that runs. *)

From S2P Require Import Prelude GoStrings Util Transformation Kube Api.

(** ** sarama *)

Record Broker := mkBroker { broker_ID : Z; broker_Rack : string }.

Record TopicDetail := mkTopicDetail {
  NumPartitions : Z;
  ReplicationFactor : Z;
  ReplicaAssignment : gmap Z (list Z);
}.

(** sarama.TopicMetadata: the leaders of the partitions. *)
Record TopicMetadata := mkTopicMetadata { tm_Name : string; tm_Leaders : list Z }.

Inductive AclResourceType := AclResourceAny | AclResourceTopic | AclResourceGroup
  | AclResourceCluster | AclResourceTransactionalID | AclResourceDelegationToken.

Inductive AclResourcePatternType := AclPatternAny | AclPatternMatch | AclPatternLiteral | AclPatternPrefixed.

Inductive AclPermissionType := AclPermissionAny | AclPermissionDeny | AclPermissionAllow.

Inductive AclOperation := AclOperationAny | AclOperationAll | AclOperationRead | AclOperationWrite
  | AclOperationCreate | AclOperationDelete | AclOperationAlter | AclOperationDescribe
  | AclOperationClusterAction | AclOperationDescribeConfigs | AclOperationAlterConfigs
  | AclOperationIdempotentWrite.

Global Instance AclResourceType_eq_dec : EqDecision AclResourceType.
Proof. solve_decision. Defined.

Global Instance AclResourcePatternType_eq_dec : EqDecision AclResourcePatternType.
Proof. solve_decision. Defined.

Global Instance AclPermissionType_eq_dec : EqDecision AclPermissionType.
Proof. solve_decision. Defined.

Global Instance AclOperation_eq_dec : EqDecision AclOperation.
Proof. solve_decision. Defined.

Record Acl := mkAcl {
  acl_Principal : string;
  acl_Host : string;
  acl_Operation : AclOperation;
  acl_PermissionType : AclPermissionType;
}.

Global Instance Acl_eq_dec : EqDecision Acl.
Proof. solve_decision. Defined.

Record ResourceAcls := mkResourceAcls {
  ra_ResourceType : AclResourceType;
  ra_ResourceName : string;
  ra_ResourcePatternType : AclResourcePatternType;
  ra_Acls : list Acl;
}.

Record AclFilter := mkAclFilter {
  af_Principal : string;
  af_ResourceType : AclResourceType;
  af_ResourcePatternTypeFilter : AclResourcePatternType;
  af_PermissionType : AclPermissionType;
  af_Operation : AclOperation;
}.

Inductive ScramMechanism := SCRAM_MECHANISM_SHA_256 | SCRAM_MECHANISM_SHA_512.

(** sarama.Config: what the operator sets in it. *)
Record SaramaConfig := mkSaramaConfig {
  SASL_Enable : bool;
  SASL_Mechanism : string;
  SASL_User : string;
  SASL_Password : string;
  SASL_Scram512 : bool;
  TLS_Enable : bool;
  TLS_RootCAs : option string;
  TLS_Certificate : option (string * string);
}.

(** ** Requests

    A client is named by the handle [NewClusterAdmin] or [NewClient] answered with.  [ListTopics]
    answers with the entries of a map, in the order in which the run ranges over it.  [HttpDo]
    answers with the status and the body of the response, [ExecStream] with what a command in a pod
    wrote to its output and its error output.  Besides the error of the call itself, the changes of
    users and ACLs answer with a result for each user or ACL they matched.  [AwaitContext] is a select between a timer and the
    end of a context: it answers whether the timer came first. *)
Inductive call : Type → Type :=
  | Get (k : kind) (name namespace : string) : call (obj k)
  | ListObjs (k : kind) (namespace : string) (selector : strmap) : call (list (obj k))
  | Create (k : kind) (o : obj k) : call (obj k)
  | Update (k : kind) (o : obj k) : call (obj k)
  | StatusUpdate (k : kind) (o : obj k) : call (obj k)
  | Delete (k : kind) (o : obj k) : call unit
  | GetNodeLabels (node : string) : call strmap
  | NewClusterAdmin (addresses : list string) (config : SaramaConfig) : call nat
  | DescribeCluster (h : nat) : call (list Broker * Z)
  | ListTopics (h : nat) : call (list (string * TopicDetail))
  | DescribeTopics (h : nat) (topics : list string) : call (list TopicMetadata)
  | AlterPartitionReassignments (h : nat) (topic : string) (assignment : list (list Z)) : call unit
  | ListPartitionReassignments (h : nat) (topic : string) (partitions : list Z) : call (gmap string (gmap Z (list Z)))
  | UpsertUserScramCredentials (h : nat) (name : string) (mechanism : ScramMechanism) (iterations : Z) (password : string) : call (list (string * option gerror))
  | DeleteUserScramCredentials (h : nat) (name : string) (mechanism : ScramMechanism) : call (list (string * option gerror))
  | CreateACLs (h : nat) (acls : list ResourceAcls) : call unit
  | ListAcls (h : nat) (f : AclFilter) : call (list ResourceAcls)
  | DeleteACL (h : nat) (f : AclFilter) : call (list (Acl * option gerror))
  | NewClient (brokers : list string) (config : SaramaConfig) : call nat
  | ClientTopics (h : nat) : call (list string)
  | Partitions (h : nat) (topic : string) : call (list Z)
  | GetOffset (h : nat) (topic : string) (partition : Z) (newest : bool) : call Z
  | GeneratePassword (length digits symbols : Z) (alphabet : string) : call string
  | Gzip (content : string) : call string
  | HttpDo (method url : string) (body : option string) (auth : option (string * string)) (ca : option string) : call (Z * string)
  | ReadFile (path : string) : call string
  | Sleep (seconds : Z) : call unit
  | AwaitContext (seconds : Z) : call bool
  | NewForConfig : call unit
  | NewSPDYExecutor (pod container namespace : string) (command : list string) : call unit
  | ExecStream (pod container namespace : string) (command : list string) : call (string * string).

Class Env (W : Type) := { perform : ∀ R : Type, call R → W → (R + gerror) * W }.

Inductive event := Ev (R : Type) (c : call R) (r : R + gerror).

Arguments Ev {R}.

Record St (W L : Type) := mkSt { world : W; trace : list event; local : L }.

Arguments mkSt {W L}.
Arguments world {W L}.
Arguments trace {W L}.
Arguments local {W L}.

Definition start {W L} (w : W) (l : L) : St W L := mkSt w [] l.

Definition request `{Env W} {L R} (c : call R) : M (St W L) R := λ s,
  let '(r, w) := perform R c (world s) in
  (match r with inl a => Ret a | inr e => Error e end, mkSt w (trace s ++ [Ev c r]) (local s)).

Definition get_local {W L} : M (St W L) L := gets local.

Definition modify_local {W L} (f : L → L) : M (St W L) unit :=
  modify (λ s, mkSt (world s) (trace s) (f (local s))).

(** The objects of the API server an event wrote: created or updated, successfully or not. *)
Definition is_write (e : event) : bool :=
  match e with
  | Ev (Create _ _) _ | Ev (Update _ _) _ | Ev (StatusUpdate _ _) _ | Ev (Delete _ _) _ => true
  | _ => false
  end.

Definition succeeded (e : event) : bool := match e with Ev _ (inl _) => true | _ => false end.

(** The seconds an event sleeps. *)
Definition slept (e : event) : Z := match e with Ev (Sleep n) _ => n | _ => 0 end.

(** ** Triples on the history *)

Section history.
Context `{Env W} {L : Type}.

Lemma triple_request {R} (P E : St W L → Prop) (c : call R) Q :
  (∀ w tr l r w', P (mkSt w tr l) →
     match r with
     | inl a => Q a (mkSt w' (tr ++ [Ev c r]) l)
     | inr _ => E (mkSt w' (tr ++ [Ev c r]) l)
     end) →
  triple P (request c) Q E.
Proof.
  intros Hc [w tr l] Hs. unfold request. cbn.
  destruct (perform R c w) as [r w'] eqn:E1. specialize (Hc w tr l r w' Hs). by destruct r.
Qed.

(** What follows a request whose error is handled. *)
Lemma try_request_bind {R B} (c : call R) (f : R + gerror → M (St W L) B) s :
  (try (request c) ≫= f) s =
    f (perform R c (world s)).1 (mkSt (perform R c (world s)).2 (trace s ++ [Ev c (perform R c (world s)).1]) (local s)).
Proof. unfold mbind, M_bind, try, request. by destruct (perform R c (world s)) as [[a|e] w]. Qed.

(** The same when the answer is dropped. *)
Lemma try_dropped_bind {R B} (c : call R) (f : unit + gerror → M (St W L) B) s :
  (try (_ ← request c; mret tt) ≫= f) s =
    f (match (perform R c (world s)).1 with inl _ => inl tt | inr e => inr e end)
      (mkSt (perform R c (world s)).2 (trace s ++ [Ev c (perform R c (world s)).1]) (local s)).
Proof. unfold mbind, M_bind, try, request. by destruct (perform R c (world s)) as [[a|e] w]. Qed.

(** Every event the code adds to the history satisfies [P]. *)
Definition emits {A} (P : event → Prop) (m : M (St W L) A) : Prop :=
  ∀ s, ∃ tr, trace (m s).2 = trace s ++ tr ∧ Forall P tr.

Lemma emits_weaken {A} (P P' : event → Prop) (m : M (St W L) A) :
  emits P m → (∀ e, P e → P' e) → emits P' m.
Proof. intros Hm HP s. destruct (Hm s) as (tr & E & F). exists tr. split; [done|]. by eapply Forall_impl. Qed.

Lemma emits_nil {A} (P : event → Prop) (m : M (St W L) A) : (∀ s, trace (m s).2 = trace s) → emits P m.
Proof. intros Hm s. exists []. by rewrite app_nil_r. Qed.

Lemma emits_ret {A} (P : event → Prop) (a : A) : emits P (mret a).
Proof. by apply emits_nil. Qed.

Lemma emits_throw {A} (P : event → Prop) e : emits P (throw (A := A) e).
Proof. by apply emits_nil. Qed.

Lemma emits_panic {A} (P : event → Prop) : emits P (panic (A := A)).
Proof. by apply emits_nil. Qed.

Lemma emits_lift {A} (P : event → Prop) (o : outcome A) : emits P (lift o).
Proof. by apply emits_nil. Qed.

Lemma emits_get_local (P : event → Prop) : emits P get_local.
Proof. by apply emits_nil. Qed.

Lemma emits_modify_local (P : event → Prop) f : emits P (modify_local f).
Proof. by apply emits_nil. Qed.

Lemma emits_request {R} (P : event → Prop) (c : call R) : (∀ r, P (Ev c r)) → emits P (request c).
Proof.
  intros HP [w tr l]. unfold request. cbn. destruct (perform R c w) as [r w'] eqn:E1. cbn.
  exists [Ev c r]. eauto.
Qed.

Lemma emits_bind {A B} (P : event → Prop) (m : M (St W L) A) (f : A → M (St W L) B) :
  emits P m → (∀ a, emits P (f a)) → emits P (m ≫= f).
Proof.
  intros Hm Hf s. destruct (Hm s) as (tr & E & F). unfold mbind, M_bind.
  destruct (m s) as [[a|e|] s1]; cbn in *; [|by exists tr..].
  destruct (Hf a s1) as (tr' & E' & F'). exists (tr ++ tr').
  rewrite E', E, app_assoc. split; [done|]. by apply Forall_app_2.
Qed.

Lemma emits_lift_bind {A B} (P : event → Prop) (o : outcome A) (f : A → M (St W L) B) :
  (∀ a, o = Ret a → emits P (f a)) → emits P (lift o ≫= f).
Proof.
  intros Hf s. unfold mbind, M_bind, lift. destruct o as [a|e|]; [by apply Hf|exists []; by rewrite app_nil_r..].
Qed.

Lemma emits_try {A} (P : event → Prop) (m : M (St W L) A) : emits P m → emits P (try m).
Proof.
  intros Hm s. destruct (Hm s) as (tr & E & F). exists tr. unfold try.
  by destruct (m s) as [[a|e|] s1].
Qed.

Lemma emits_for_each {A} (P : event → Prop) (f : A → M (St W L) unit) l :
  (∀ x, x ∈ l → emits P (f x)) → emits P (for_each f l).
Proof.
  induction l as [|x l IH]; intros Hf; cbn; [apply emits_ret|].
  apply emits_bind; [apply Hf; set_solver|]. intros _. apply IH. set_solver.
Qed.

Lemma emits_prefix {A} (P : event → Prop) (m : M (St W L) A) s : emits P m → trace s `prefix_of` trace (m s).2.
Proof. intros Hm. destruct (Hm s) as (tr & -> & _). by exists tr. Qed.

Lemma emits_start {A} (P : event → Prop) (m : M (St W L) A) w l : emits P m → Forall P (trace (m (start w l)).2).
Proof. intros Hm. destruct (Hm (start w l)) as (tr & -> & F). done. Qed.

(** A property of histories that the events of some code cannot break. *)
Lemma emits_keeps {A} (P : event → Prop) (I : list event → Prop) (m : M (St W L) A) s :
  emits P m → (∀ tr e, I tr → P e → I (tr ++ [e])) → I (trace s) → I (trace (m s).2).
Proof.
  intros Hm HI Hs. destruct (Hm s) as (tr & -> & HF). revert Hs. generalize (trace s) as t0.
  induction HF as [|e tr He HF IH]; intros t0 Ht; [by rewrite app_nil_r|].
  change (e :: tr) with ([e] ++ tr). rewrite app_assoc. apply IH. by apply HI.
Qed.

(** Code that never breaks a property of its history. *)
Definition keeps {A} (I : list event → Prop) (m : M (St W L) A) : Prop := ∀ s, I (trace s) → I (trace (m s).2).

Lemma keeps_emits {A} (P : event → Prop) (I : list event → Prop) (m : M (St W L) A) :
  emits P m → (∀ tr e, I tr → P e → I (tr ++ [e])) → keeps I m.
Proof. intros Hm HI s. by eapply emits_keeps. Qed.

Lemma keeps_bind {A B} (I : list event → Prop) (m : M (St W L) A) (f : A → M (St W L) B) :
  keeps I m → (∀ a, keeps I (f a)) → keeps I (m ≫= f).
Proof.
  intros Hm Hf s Hs. specialize (Hm s Hs). unfold mbind, M_bind. destruct (m s) as [[a|e|] s1]; [by apply Hf|done..].
Qed.

Lemma keeps_trace {A} (I : list event → Prop) (m : M (St W L) A) : (∀ s, trace (m s).2 = trace s) → keeps I m.
Proof. intros Hm s. by rewrite Hm. Qed.

Lemma keeps_request {R} (I : list event → Prop) (c : call R) : (∀ tr r, I tr → I (tr ++ [Ev c r])) → keeps I (request c).
Proof. intros Hc [w tr l] Hs. unfold request. cbn. destruct (perform R c w) as [r w']. by apply Hc. Qed.

Lemma keeps_try {A} (I : list event → Prop) (m : M (St W L) A) : keeps I m → keeps I (try m).
Proof. intros Hm s Hs. specialize (Hm s Hs). unfold try. by destruct (m s) as [[a|e|] s1]. Qed.

Lemma keeps_for_each {A} (I : list event → Prop) (f : A → M (St W L) unit) l :
  (∀ x, x ∈ l → keeps I (f x)) → keeps I (for_each f l).
Proof.
  induction l as [|x l IH]; intros Hf; cbn; [by apply keeps_trace|].
  apply keeps_bind; [apply Hf; set_solver|]. intros _. apply IH. set_solver.
Qed.

End history.

#[export] Hint Resolve emits_ret emits_throw emits_panic emits_lift emits_get_local
  emits_modify_local : operator.

(** Names the answer of the first request of the goal and the world after it. *)
Tactic Notation "answer" simple_intropattern(x) ident(w) :=
  match goal with |- context [perform ?R ?c ?v] => destruct (perform R c v) as [r_ w] eqn:?; destruct r_ as x; cbn [fst snd] end.

(** Follows the code, branch by branch, down to its requests. *)
Ltac emits_step :=
  match goal with
  | |- emits _ (mret _) => apply emits_ret
  | |- emits _ (throw _) => apply emits_throw
  | |- emits _ panic => apply emits_panic
  | |- emits _ (lift _) => apply emits_lift
  | |- emits _ get_local => apply emits_get_local
  | |- emits _ (modify_local _) => apply emits_modify_local
  | |- emits _ (request _) => apply emits_request; intros ?
  | |- emits _ (lift _ ≫= _) => apply emits_lift_bind; intros ? ?
  | |- emits _ (_ ≫= _) => apply emits_bind; [|intros ?]
  | |- emits _ (try _) => apply emits_try
  | |- emits _ (for_each _ _) => apply emits_for_each; intros ? ?
  | |- emits _ (match ?x with _ => _ end) => destruct x eqn:?
  | |- emits _ (let _ := _ in _) => cbv zeta
  | |- emits _ _ => solve [eauto with operator]
  end.

Ltac emits_auto := repeat emits_step.

Ltac keeps_step :=
  match goal with
  | |- keeps _ (mret _) => by apply keeps_trace
  | |- keeps _ (throw _) => by apply keeps_trace
  | |- keeps _ panic => by apply keeps_trace
  | |- keeps _ (lift _) => by apply keeps_trace
  | |- keeps _ get_local => by apply keeps_trace
  | |- keeps _ (modify_local _) => by apply keeps_trace
  | |- keeps _ (_ ≫= _) => apply keeps_bind; [|intros ?]
  | |- keeps _ (try _) => apply keeps_try
  | |- keeps _ (for_each _ _) => apply keeps_for_each; intros ? ?
  | |- keeps _ (match ?x with _ => _ end) => destruct x eqn:?
  | |- keeps _ (let _ := _ in _) => cbv zeta
  | |- keeps _ _ => solve [eauto with operator]
  end.

Ltac keeps_auto := repeat keeps_step.

(** ** Waiting and retrying

    client-go's retry.RetryOnConflict(retry.DefaultRetry, fn): documented to run [fn] again while
    it returns a conflict, 5 times at most, and to return what the last run returned. *)
Inductive retried {S} (fn : M S unit) : nat → S → outcome unit → S → Prop :=
  | retried_last n s o s' : fn s = (o, s') → retried fn (Datatypes.S n) s o s'
  | retried_again n s e s1 o s' :
      fn s = (Error e, s1) → IsConflict e = true → retried fn n s1 o s' →
      retried fn (Datatypes.S n) s o s'.

Class Retry := {
  RetryOnConflict : ∀ {S : Type}, M S unit → M S unit;
  RetryOnConflict_spec : ∀ {S} (fn : M S unit) s o s',
    RetryOnConflict fn s = (o, s') → retried fn 5 s o s';
}.

(** An implementation with the documented behaviour. *)
Fixpoint retry_loop {S} (n : nat) (fn : M S unit) : M S unit := λ s,
  match fn s with
  | (Error e, s1) =>
      match n with
      | Datatypes.S n' => if IsConflict e then retry_loop n' fn s1 else (Error e, s1)
      | O => (Error e, s1)
      end
  | r => r
  end.

Lemma retry_loop_spec {S} n (fn : M S unit) s o s' :
  retry_loop n fn s = (o, s') → retried fn (Datatypes.S n) s o s'.
Proof.
  revert s. induction n as [|n IH]; intros s; cbn; destruct (fn s) as [[[]|e|] s1] eqn:E;
    try (intros [= <- <-]; by apply retried_last).
  destruct (IsConflict e) eqn:Ec; [|intros [= <- <-]; by apply retried_last].
  intros Hr. eapply retried_again; eauto.
Qed.

Definition retry_default : Retry := {|
  RetryOnConflict := λ S fn, retry_loop 4 fn;
  RetryOnConflict_spec := λ S fn s o s', retry_loop_spec 4 fn s o s';
|}.

Lemma retried_inv {S} (I : S → Prop) (fn : M S unit) n s o s' :
  (∀ s o s', I s → fn s = (o, s') → I s') → retried fn n s o s' → I s → I s'.
Proof. intros Hfn. induction 1; eauto. Qed.

(** apimachinery's wait.PollImmediate(interval, timeout, cond): documented to run [cond] at once and
    then after each interval, until it returns true, an error, or the timeout is reached.  How many
    turns the timeout leaves is up to the clock. *)
Definition errTimeout : gerror := mkErr ReasonDeadline "timed out waiting for the condition".

Inductive polled `{Env W} {L} (interval : Z) (cond : M (St W L) bool) : St W L → outcome unit → St W L → Prop :=
  | polled_done s s' : cond s = (Ret true, s') → polled interval cond s (Ret tt) s'
  | polled_error s e s' : cond s = (Error e, s') → polled interval cond s (Error e) s'
  | polled_panic s s' : cond s = (Panic, s') → polled interval cond s Panic s'
  | polled_timeout s s' : cond s = (Ret false, s') → polled interval cond s (Error errTimeout) s'
  | polled_again s s1 o s' :
      cond s = (Ret false, s1) → polled interval cond (try (request (Sleep interval)) s1).2 o s' → polled interval cond s o s'.

Class Polling := {
  PollImmediate : ∀ {W L : Type} `{Env W}, Z → Z → M (St W L) bool → M (St W L) unit;
  PollImmediate_spec : ∀ {W L : Type} `{Env W} interval timeout (cond : M (St W L) bool) s o s',
    PollImmediate interval timeout cond s = (o, s') → polled interval cond s o s';
}.

(** An implementation: the timeout leaves a turn for each of its intervals. *)
Fixpoint poll_loop `{Env W} {L} (interval : Z) (n : nat) (cond : M (St W L) bool) : M (St W L) unit := λ s,
  match cond s with
  | (Ret true, s1) => (Ret tt, s1)
  | (Ret false, s1) =>
      match n with
      | Datatypes.S n => poll_loop interval n cond (try (request (Sleep interval)) s1).2
      | O => (Error errTimeout, s1)
      end
  | (Error e, s1) => (Error e, s1)
  | (Panic, s1) => (Panic, s1)
  end.

Lemma poll_loop_spec `{Env W} {L} interval n (cond : M (St W L) bool) s o s' :
  poll_loop interval n cond s = (o, s') → polled interval cond s o s'.
Proof.
  revert s. induction n as [|n IH]; intros s; cbn [poll_loop]; destruct (cond s) as [[[]|e|] s1] eqn:E; intros Hr;
    try (injection Hr as <- <-); try (by constructor).
  apply IH in Hr. by eapply polled_again.
Qed.

Definition poll_default : Polling := {|
  PollImmediate := λ W L _ interval timeout cond, poll_loop interval (Z.to_nat (timeout / interval)) cond;
  PollImmediate_spec := λ W L _ interval timeout cond s o s' Hr, poll_loop_spec interval _ cond s o s' Hr;
|}.

(** What [fn] establishes when it returns nil, a retried [fn] establishes when it returns nil. *)
Lemma triple_RetryOnConflict `{Retry} {S} (P : S → Prop) (fn : M S unit) (Q : S → Prop) (E : S → Prop) :
  triple P fn (λ _, Q) (λ s, E s ∧ P s) → triple P (RetryOnConflict fn) (λ _, Q) E.
Proof.
  intros Hfn s Hs. destruct (RetryOnConflict fn s) as [o s'] eqn:Er.
  apply RetryOnConflict_spec in Er. revert Hs.
  induction Er as [n s o s' Hs'|n s e s1 o s' Hs' Hc Hr IH]; intros Hs.
  - specialize (Hfn s Hs). rewrite Hs' in Hfn. destruct o; naive_solver.
  - apply IH. specialize (Hfn s Hs). rewrite Hs' in Hfn. naive_solver.
Qed.

Lemma emits_RetryOnConflict `{Env W} `{Retry} {L} (P : event → Prop) (fn : M (St W L) unit) :
  emits P fn → emits P (RetryOnConflict fn).
Proof.
  intros Hfn s. destruct (RetryOnConflict fn s) as [o s'] eqn:Er.
  apply RetryOnConflict_spec in Er. cbn. induction Er as [n s o s' Hs'|n s e s1 o s' Hs' Hc Hr IH].
  - specialize (Hfn s). by rewrite Hs' in Hfn.
  - specialize (Hfn s). rewrite Hs' in Hfn. destruct Hfn as (tr1 & E1 & F1). destruct IH as (tr2 & E2 & F2).
    exists (tr1 ++ tr2). rewrite E2, app_assoc. cbn in E1. rewrite <- E1. split; [done|]. by apply Forall_app_2.
Qed.

Lemma keeps_RetryOnConflict `{Env W} `{Retry} {L} (I : list event → Prop) (fn : M (St W L) unit) :
  keeps I fn → keeps I (RetryOnConflict fn).
Proof.
  intros Hfn s Hs. destruct (RetryOnConflict fn s) as [o s'] eqn:Er. apply RetryOnConflict_spec in Er. cbn.
  refine (retried_inv (λ x, I (trace x)) fn 5 s o s' _ Er Hs). intros s1 o1 s2 H1 E. specialize (Hfn s1 H1). by rewrite E in Hfn.
Qed.

(** What a condition keeps, waiting for it keeps. *)
Lemma polled_inv `{Env W} {L} (I : St W L → Prop) interval (cond : M (St W L) bool) s o s' :
  (∀ s, I s → I (cond s).2) → (∀ s, I s → I (try (request (Sleep interval)) s).2) → polled interval cond s o s' → I s → I s'.
Proof.
  intros Hc Hs Hp. induction Hp as [s s' E|s e s' E|s s' E|s s' E|s s1 o s' E Hp IH]; intros Hi; specialize (Hc s Hi); rewrite E in Hc; [done..|].
  by apply IH, Hs.
Qed.

(** When the wait returns nil, the condition was true in the end. *)
Lemma PollImmediate_true `{Env W} `{Polling} {L} interval timeout (cond : M (St W L) bool) s s' :
  (∀ s, trace s `prefix_of` trace (cond s).2) → PollImmediate interval timeout cond s = (Ret tt, s') →
  ∃ s1, trace s `prefix_of` trace s1 ∧ cond s1 = (Ret true, s').
Proof.
  intros Hc Hp%PollImmediate_spec. remember (Ret tt) as o eqn:Eo. induction Hp as [s s' E|s e s' E|s s' E|s s' E|s s1 o s' E Hp IH]; try done; [by exists s|].
  destruct (IH Eo) as (s2 & H2 & E2). exists s2. split; [|done]. etrans; [|exact H2]. specialize (Hc s). rewrite E in Hc. etrans; [exact Hc|].
  unfold try, request. destruct (perform _ (Sleep interval) (world s1)) as [[u|e] w]; by eexists.
Qed.

Lemma keeps_PollImmediate `{Env W} `{Polling} {L} (I : list event → Prop) interval timeout (cond : M (St W L) bool) :
  keeps I cond → (∀ tr r, I tr → I (tr ++ [Ev (Sleep interval) r])) → keeps I (PollImmediate interval timeout cond).
Proof.
  intros Hc Hs s Hi. destruct (PollImmediate interval timeout cond s) as [o s'] eqn:E. apply PollImmediate_spec in E.
  refine (polled_inv (λ s, I (trace s)) interval cond s o s' Hc _ E Hi). intros s1. by apply keeps_try, keeps_request.
Qed.

Lemma emits_PollImmediate `{Env W} `{Polling} {L} (P : event → Prop) interval timeout (cond : M (St W L) bool) :
  emits P cond → (∀ r, P (Ev (Sleep interval) r)) → emits P (PollImmediate interval timeout cond).
Proof.
  intros Hc Hs s. destruct (PollImmediate interval timeout cond s) as [o s'] eqn:E. apply PollImmediate_spec in E. cbn.
  refine (polled_inv (λ x, ∃ tr, trace x = trace s ++ tr ∧ Forall P tr) interval cond s o s' _ _ E _).
  - intros x (tr & Ex & F). destruct (Hc x) as (tr' & E' & F'). exists (tr ++ tr'). rewrite E', Ex, app_assoc. split; [done|]. by apply Forall_app_2.
  - intros x (tr & Ex & F). destruct (emits_try P _ (emits_request P (Sleep interval) Hs) x) as (tr' & E' & F').
    exists (tr ++ tr'). rewrite E', Ex, app_assoc. split; [done|]. by apply Forall_app_2.
  - exists []. by rewrite app_nil_r.
Qed.

#[export] Hint Resolve emits_RetryOnConflict : operator.

(** ** Code whose errors are answers of the outside world *)

Definition fails_with (e : gerror) (ev : event) : Prop := match ev with Ev _ (inr e') => e' = e | _ => False end.

Section reports.
Context `{Env W} {L : Type}.

Definition reports {A} (m : M (St W L) A) : Prop := ∀ s, ∃ tr,
  trace (m s).2 = trace s ++ tr ∧ match (m s).1 with Error e => Exists (fails_with e) tr | _ => True end.

Lemma reports_ret {A} (a : A) : reports (mret a).
Proof. intros s. exists []. by rewrite app_nil_r. Qed.

Lemma reports_request {R} (c : call R) : reports (request c).
Proof.
  intros s. unfold request. destruct (perform R c (world s)) as [[a|e] w]; eexists; (split; [done|]); [done|].
  by apply Exists_cons_hd.
Qed.

Lemma reports_bind {A B} (m : M (St W L) A) (f : A → M (St W L) B) :
  reports m → (∀ a, reports (f a)) → reports (m ≫= f).
Proof.
  intros Hm Hf s. destruct (Hm s) as (tr & E & HE). unfold mbind, M_bind. destruct (m s) as [[a|e|] s1]; cbn in *; [|by exists tr..].
  destruct (Hf a s1) as (tr' & E' & HE'). exists (tr ++ tr'). rewrite E', E, app_assoc. split; [done|].
  destruct (f a s1).1; [done| |done]. apply Exists_app. by right.
Qed.

Lemma reports_for_each {A} (f : A → M (St W L) unit) l : (∀ x, reports (f x)) → reports (for_each f l).
Proof. intros Hf. induction l as [|x l IH]; cbn; [apply reports_ret|]. by apply reports_bind. Qed.

End reports.

(** ** Code that leaves the in-memory state as it is *)

Section same_local.
Context `{Env W} {L : Type}.

Definition same_local {A} (m : M (St W L) A) : Prop := ∀ s, local (m s).2 = local s.

Lemma same_local_request {R} (c : call R) : same_local (request c).
Proof. intros s. unfold request. by destruct (perform R c (world s)). Qed.

Lemma same_local_bind {A B} (m : M (St W L) A) (f : A → M (St W L) B) :
  same_local m → (∀ a, same_local (f a)) → same_local (m ≫= f).
Proof.
  intros Hm Hf s. specialize (Hm s). unfold mbind, M_bind. destruct (m s) as [[a|e|] s1]; cbn in *; [by rewrite Hf|done..].
Qed.

Lemma same_local_try {A} (m : M (St W L) A) : same_local m → same_local (try m).
Proof. intros Hm s. specialize (Hm s). unfold try. by destruct (m s) as [[a|e|] s1]. Qed.

Lemma same_local_for_each {A} (f : A → M (St W L) unit) l : (∀ x, same_local (f x)) → same_local (for_each f l).
Proof. intros Hf. induction l as [|x l IH]; cbn; [done|]. by apply same_local_bind. Qed.

Lemma same_local_RetryOnConflict `{Retry} (fn : M (St W L) unit) : same_local fn → same_local (RetryOnConflict fn).
Proof.
  intros Hfn s. destruct (RetryOnConflict fn s) as [o s'] eqn:Er. apply RetryOnConflict_spec in Er. cbn.
  refine (retried_inv (λ x, local x = local s) fn 5 s o s' _ Er eq_refl). intros s1 o1 s2 E1 E2. rewrite <- E1.
  specialize (Hfn s1). by rewrite E2 in Hfn.
Qed.

Lemma same_local_PollImmediate `{Polling} interval timeout (cond : M (St W L) bool) :
  same_local cond → same_local (PollImmediate interval timeout cond).
Proof.
  intros Hc s. destruct (PollImmediate interval timeout cond s) as [o s'] eqn:E. apply PollImmediate_spec in E.
  refine (polled_inv (λ x, local x = local s) interval cond s o s' _ _ E eq_refl).
  - intros s1 <-. apply Hc.
  - intros s1 <-. by apply same_local_try, same_local_request.
Qed.

End same_local.

Ltac same_local_step :=
  match goal with
  | |- same_local (mret _) => done
  | |- same_local (throw _) => done
  | |- same_local panic => done
  | |- same_local (lift _) => done
  | |- same_local get_local => done
  | |- same_local (request _) => apply same_local_request
  | |- same_local (_ ≫= _) => apply same_local_bind; [|intros ?]
  | |- same_local (try _) => apply same_local_try
  | |- same_local (for_each _ _) => apply same_local_for_each; intros ?
  | |- same_local (RetryOnConflict _) => apply same_local_RetryOnConflict
  | |- same_local (PollImmediate _ _ _) => apply same_local_PollImmediate
  | |- same_local (match ?x with _ => _ end) => destruct x
  | |- same_local (let _ := _ in _) => cbv zeta
  | |- same_local _ => solve [eauto with operator]
  end.

Ltac same_local_auto := repeat same_local_step.

(** Code that changes the in-memory state as a preorder allows. *)
Section relates.
Context `{Env W} {L : Type} (R : L → L → Prop) `{!PreOrder R}.

Definition relates {A} (m : M (St W L) A) : Prop := ∀ s, R (local s) (local (m s).2).

Lemma relates_same {A} (m : M (St W L) A) : same_local m → relates m.
Proof. intros Hm s. by rewrite Hm. Qed.

Lemma relates_modify f : (∀ l, R l (f l)) → relates (modify_local f).
Proof. intros Hf s. apply Hf. Qed.

Lemma relates_bind {A B} (m : M (St W L) A) (f : A → M (St W L) B) : relates m → (∀ a, relates (f a)) → relates (m ≫= f).
Proof.
  intros Hm Hf s. specialize (Hm s). unfold mbind, M_bind. destruct (m s) as [[a|e|] s1]; cbn in *; [|done..]. by etrans; [|apply Hf].
Qed.

Lemma relates_try {A} (m : M (St W L) A) : relates m → relates (try m).
Proof. intros Hm s. specialize (Hm s). unfold try. by destruct (m s) as [[a|e|] s1]. Qed.

Lemma relates_PollImmediate `{Polling} interval timeout (cond : M (St W L) bool) : relates cond → relates (PollImmediate interval timeout cond).
Proof.
  intros Hc s. destruct (PollImmediate interval timeout cond s) as [o s'] eqn:E. apply PollImmediate_spec in E.
  refine (polled_inv (λ x, R (local s) (local x)) interval cond s o s' _ _ E _); [| |reflexivity].
  - intros s1 H1. by etrans.
  - intros s1 H1. etrans; [exact H1|]. by rewrite (same_local_try _ (same_local_request _)).
Qed.

Lemma relates_for_each {A} (f : A → M (St W L) unit) l : (∀ x, relates (f x)) → relates (for_each f l).
Proof. intros Hf. induction l as [|x l IH]; cbn; [by intros s|]. by apply relates_bind. Qed.

End relates.

Ltac relates_step :=
  match goal with
  | |- relates ?R (modify_local _) => apply (relates_modify R); intros ?; eauto with operator
  | |- relates ?R (_ ≫= _) => apply (relates_bind R); [|intros ?]
  | |- relates ?R (for_each _ _) => apply (relates_for_each R); intros ?
  | |- relates ?R (mret _) => apply (relates_same R); done
  | |- relates ?R (throw _) => apply (relates_same R); done
  | |- relates _ (match ?x with _ => _ end) => destruct x
  | |- relates _ (let _ := _ in _) => cbv zeta
  | |- relates ?R (try _) => apply (relates_try R)
  | |- relates ?R (PollImmediate _ _ _) => apply (relates_PollImmediate R)
  | |- relates _ _ => solve [eauto with operator]
  | |- relates ?R _ => solve [apply (relates_same R); same_local_auto]
  end.

Ltac relates_auto := repeat relates_step.

(** ** Order in histories

    An event of the kind [Q] only comes once the history satisfies [S]. *)
Definition once (S : list event → Prop) (Q : event → Prop) (tr : list event) : Prop :=
  ∀ tr1 e tr2, tr = tr1 ++ e :: tr2 → Q e → S tr1.

(** It only comes after an event of the kind [P]. *)
Definition preceded (P Q : event → Prop) : list event → Prop := once (Exists P) Q.

(** What holds of the part of the history since [t0]. *)
Definition since (t0 : list event) (I : list event → Prop) (t : list event) : Prop := ∃ tr, t = t0 ++ tr ∧ I tr.

Lemma once_nil S Q : once S Q [].
Proof. intros [|e1 tr1] e tr2 E; discriminate E. Qed.

Lemma once_snoc (S : list event → Prop) Q tr e : once S Q tr → (Q e → S tr) → once S Q (tr ++ [e]).
Proof.
  intros Ht He tr1 e1 tr2 E Hq. destruct tr2 as [|e2 tr2 _] using rev_ind.
  - apply app_inj_tail in E as [-> ->]. by apply He.
  - rewrite app_comm_cons, app_assoc in E. apply app_inj_tail in E as [E ->]. by eapply Ht.
Qed.

Section order.
Context (P Q : event → Prop).

Lemma preceded_nil : preceded P Q [].
Proof. apply once_nil. Qed.

Lemma preceded_snoc tr e : preceded P Q tr → (Q e → Exists P tr) → preceded P Q (tr ++ [e]).
Proof. apply once_snoc. Qed.

Context `{Env W} {L : Type} (t0 : list event).

(** Code that adds no event of the kind [Q]. *)
Lemma keeps_preceded {A} (m : M (St W L) A) : emits (λ e, ¬ Q e) m → keeps (since t0 (preceded P Q)) m.
Proof.
  intros Hm. eapply keeps_emits; [exact Hm|]. intros t e (tr & -> & Hp) He. exists (tr ++ [e]). split; [by rewrite app_assoc|].
  by apply preceded_snoc.
Qed.

(** Once an event of the kind [P] has come, any code will do. *)
Lemma keeps_preceded_after {A} (m : M (St W L) A) :
  emits (λ _, True) m → keeps (since t0 (λ tr, preceded P Q tr ∧ Exists P tr)) m.
Proof.
  intros Hm. eapply keeps_emits; [exact Hm|]. intros t e (tr & -> & Hp & HE) _. exists (tr ++ [e]). split; [by rewrite app_assoc|].
  split; [by apply preceded_snoc|]. apply Exists_app. by left.
Qed.

End order.

(** ** Variables a closure captures *)

Section captured.
Context {W L V : Type}.

Definition without_var (s : St W (L * V)) : St W L := mkSt (world s) (trace s) (local s).1.

(** Runs code with a variable, and returns its last value too. *)
Definition with_var {A} (v : V) (m : M (St W (L * V)) A) : M (St W L) (A * V) := λ s,
  match m (mkSt (world s) (trace s) (local s, v)) with
  | (Ret a, s1) => (Ret (a, (local s1).2), without_var s1)
  | (Error e, s1) => (Error e, without_var s1)
  | (Panic, s1) => (Panic, without_var s1)
  end.

Definition set_var (v : V) : M (St W (L * V)) unit := modify_local (λ l, (l.1, v)).

(** Code with the variable may change that variable only. *)
Definition outer_kept (l l' : L * V) : Prop := l'.1 = l.1.

Global Instance outer_kept_preorder : PreOrder outer_kept.
Proof. split; [by intros l|]. intros l1 l2 l3. unfold outer_kept. congruence. Qed.

Lemma with_var_keeps (I : list event → Prop) {A} v (m : M (St W (L * V)) A) : keeps I m → keeps I (with_var v m).
Proof. intros Hm s Hs. specialize (Hm (mkSt (world s) (trace s) (local s, v)) Hs). unfold with_var. by destruct (m _) as [[a|e|] s1]. Qed.

Lemma with_var_same_local {A} v (m : M (St W (L * V)) A) : relates outer_kept m → same_local (with_var v m).
Proof. intros Hm s. specialize (Hm (mkSt (world s) (trace s) (local s, v))). unfold with_var. by destruct (m _) as [[a|e|] s1]. Qed.

Lemma set_var_kept v (l : L * V) : outer_kept l (l.1, v).
Proof. done. Qed.

Lemma with_var_inv {A} (v v' : V) (m : M (St W (L * V)) A) a (s s' : St W L) :
  with_var v m s = (Ret (a, v'), s') →
  ∃ s1, m (mkSt (world s) (trace s) (local s, v)) = (Ret a, s1) ∧ (local s1).2 = v' ∧ trace s' = trace s1.
Proof. unfold with_var. destruct (m _) as [[b|e|] s1]; [|done..]. intros [= <- <- <-]. by exists s1. Qed.

Lemma emits_with_var {A} (P : event → Prop) (v : V) (m : M (St W (L * V)) A) : emits P m → emits P (with_var v m).
Proof. intros Hm s. destruct (Hm (mkSt (world s) (trace s) (local s, v))) as (tr & E & F). exists tr. unfold with_var. by destruct (m _) as [[a|e|] s1]. Qed.

End captured.

#[export] Hint Resolve set_var_kept : operator.
