(* ===== verification/Cluster.v ===== *)
(** * A cluster in memory

    A concrete environment: an API server that stores objects by kind, namespace and name, and a
    Kafka cluster with its brokers, topics, users, ACLs and offsets.  The witnesses of the theorems
    that quantify over environments run the operator's code on it. *)

From S2P Require Import Prelude GoStrings Util Transformation Kube Api External.

Record Cluster := mkCluster {
  objs : ∀ k : kind, gmap (string * string) (obj k);
  brokers : list Broker;
  topics : list (string * TopicDetail);
  leaders : list TopicMetadata;
  users : list string;
  acls : list ResourceAcls;
  offsets : gmap (string * Z) (Z * Z);
  clock : Z;
  web : gmap (string * string) (Z * string);
  files : strmap;
}.

Definition notFound (what : string) : gerror := mkErr ReasonNotFound (what +:+ " not found").

Definition empty_cluster : Cluster := mkCluster (λ _, ∅) [] [] [] [] [] ∅ 0 ∅ ∅.

Definition put (k : kind) (m : gmap (string * string) (obj k)) (c : Cluster) : Cluster :=
  mkCluster
    (λ k', match decide (k = k') with
           | left e => eq_rect k (λ k, gmap (string * string) (obj k)) m k' e
           | right _ => objs c k'
           end)
    (brokers c) (topics c) (leaders c) (users c) (acls c) (offsets c) (clock c) (web c) (files c).

Definition key_of (k : kind) (o : obj k) : string * string := (Namespace (meta_of k o), Name (meta_of k o)).

(** The server turns the string data of a secret into data, and the pods of a deployment are ready at once. *)
Definition admitted (k : kind) : obj k → obj k :=
  match k with
  | KSecret => λ o, mkSecret (secret_meta o) (secret_StringData o ∪ secret_Data o) ∅
  | KDeployment => λ o,
      let replicas := default 1 (dep_Replicas o) in
      mkDeployment (dep_meta o) (dep_Strategy o) (dep_Replicas o) (dep_ProgressDeadlineSeconds o) (dep_Selector o) (dep_Template o) replicas replicas
  | _ => λ o, o
  end.

Definition store (k : kind) (o : obj k) (c : Cluster) : Cluster :=
  put k (<[key_of k o := admitted k o]> (objs c k)) c.

Definition set_kafka (us : list string) (rs : list ResourceAcls) (c : Cluster) : Cluster :=
  mkCluster (objs c) (brokers c) (topics c) (leaders c) us rs (offsets c) (clock c) (web c) (files c).

Definition pass (n : Z) (c : Cluster) : Cluster :=
  mkCluster (objs c) (brokers c) (topics c) (leaders c) (users c) (acls c) (offsets c) (clock c + n) (web c) (files c).

(** Selects the ACLs of a principal. *)
Definition acls_of (p : string) (rs : list ResourceAcls) : list ResourceAcls :=
  filter (λ r, ra_Acls r ≠ [])
    ((λ r, mkResourceAcls (ra_ResourceType r) (ra_ResourceName r) (ra_ResourcePatternType r)
             (filter (λ a, acl_Principal a = p) (ra_Acls r))) <$> rs).

Definition without_acls_of (p : string) (rs : list ResourceAcls) : list ResourceAcls :=
  filter (λ r, ra_Acls r ≠ [])
    ((λ r, mkResourceAcls (ra_ResourceType r) (ra_ResourceName r) (ra_ResourcePatternType r)
             (filter (λ a, acl_Principal a ≠ p) (ra_Acls r))) <$> rs).

Definition cluster_perform (R : Type) (c : call R) (w : Cluster) : (R + gerror) * Cluster :=
  match c in call R return (R + gerror) * Cluster with
  | Get k name namespace =>
      (match objs w k !! (namespace, name) with Some o => inl o | None => inr (notFound name) end, w)
  | ListObjs k namespace selector =>
      (inl ((filter (λ p, p.1.1 = namespace ∧ selector ⊆ Labels (meta_of k p.2)) (map_to_list (objs w k))).*2), w)
  | Create k o =>
      match objs w k !! key_of k o with
      | Some _ => (inr (errorf "already exists"), w)
      | None => (inl (admitted k o), store k o w)
      end
  | Update k o | StatusUpdate k o =>
      match objs w k !! key_of k o with
      | Some _ => (inl (admitted k o), store k o w)
      | None => (inr (notFound (key_of k o).2), w)
      end
  | Delete k o => (inl tt, put k (delete (key_of k o) (objs w k)) w)
  | GetNodeLabels node => (inr (notFound node), w)
  | NewClusterAdmin addresses config => (inl 0%nat, w)
  | DescribeCluster h => (inl (brokers w, 1), w)
  | ListTopics h => (inl (topics w), w)
  | DescribeTopics h names => (inl (leaders w), w)
  | AlterPartitionReassignments h topic assignment => (inl tt, w)
  | ListPartitionReassignments h topic partitions => (inl ∅, w)
  | UpsertUserScramCredentials h name mechanism iterations password =>
      (inl [(name, None)], set_kafka (name :: users w) (acls w) w)
  | DeleteUserScramCredentials h name mechanism =>
      (inl [(name, None)], set_kafka (filter (λ u, u ≠ name) (users w)) (acls w) w)
  | CreateACLs h rs => (inl tt, set_kafka (users w) (acls w ++ rs) w)
  | ListAcls h f => (inl (acls_of (af_Principal f) (acls w)), w)
  | DeleteACL h f => (inl [], set_kafka (users w) (without_acls_of (af_Principal f) (acls w)) w)
  | NewClient addresses config => (inl 1%nat, w)
  | ClientTopics h => (inl (topics w).*1, w)
  | Partitions h topic => (inl (range_incl 0 0), w)
  | GetOffset h topic partition newest =>
      match offsets w !! (topic, partition) with
      | Some (o, n) => (inl (if newest then n else o), w)
      | None => (inr (errorf "no such partition"), w)
      end
  | GeneratePassword length digits symbols alphabet => (inl "Secret_1", w)
  | Gzip content => (inl ("gz:" +:+ content), w)
  | HttpDo method url body auth ca =>
      (match web w !! (method, url) with Some r => inl r | None => inr (errorf "connection refused") end, w)
  | ReadFile path => (match files w !! path with Some content => inl content | None => inr (errorf "no such file") end, w)
  | Sleep n => (inl tt, pass n w)
  | AwaitContext n => (inl true, pass n w)
  | NewForConfig => (inl tt, w)
  | NewSPDYExecutor pod container namespace command => (inl tt, w)
  | ExecStream pod container namespace command =>
      (match web w !! (pod, Join command " ") with Some (_, output) => inl (output, "") | None => inr (errorf "no such pod") end, w)
  end.

Global Instance cluster_env : Env Cluster := {| perform := cluster_perform |}.


