(* ===== verification/Reconciler.v ===== *)
(** * Operations shared by the controllers

    Source: operator/controllers/reconciler.go.  Each operation is the sequence of requests the
    code makes, for every answer of the API server.  Logging is left out.  The fields
    [ResourceVersions] and [ResourceHashes] of the Go struct belong to the controllers that use
    them (the local state [L]). *)

From S2P Require Import Prelude GoStrings Util Transformation Kube Api External Cluster.

(** What a reconciliation asks of the queue: nothing (0), or to be called again after some seconds. *)
Record Result := mkResult { RequeueAfter : Z }.

Global Instance Result_eq_dec : EqDecision Result.
Proof. solve_decision. Defined.

Definition ApiGroupMatches (apiVersion targetApiGroup : string) : outcome bool :=
  apiGroup ← index (Split apiVersion "/") 0;
  Ret (bool_decide (apiGroup = targetApiGroup)).

Lemma ApiGroupMatches_total apiVersion g : ∃ b, ApiGroupMatches apiVersion g = Ret b.
Proof. unfold ApiGroupMatches. destruct (Split_cons apiVersion "/") as (w & ws & ->). cbn. eauto. Qed.

(** ** Pods, deployments, labels *)

Definition pod_ready (pod : Pod) : bool :=
  existsb (λ c, bool_decide (c = ("Ready", "True"))) (pod_Conditions pod).

Fixpoint GetFirstAvailablePod (pods : list Pod) : option Pod :=
  match pods with
  | [] => None
  | pod :: pods => if pod_ready pod then Some pod else GetFirstAvailablePod pods
  end.

Definition GetPodNames (pods : list Pod) : list string := (λ pod, sget (Labels (pod_meta pod)) "name") <$> pods.

Definition GetActualPodNames (pods : list Pod) : list string := (λ pod, Name (pod_meta pod)) <$> pods.

Definition GetKafkaLabels (customResourceName : string) : strmap :=
  <["component" := "kafka"]> (<["clusterName" := customResourceName]> ∅).

Definition GetMirrorMakerLabels (customResourceName : string) : strmap :=
  <["component" := "kafka-mm"]> (<["clusterName" := customResourceName +:+ "-mirror-maker"]> ∅).

Definition GetBackupDaemonLabels (customResourceName : string) : strmap :=
  <["component" := "kafka-backup-daemon"]> (<["name" := customResourceName +:+ "-backup-daemon"]> ∅).

Fixpoint find_env (parameterName defaultValue : string) (envVars : list EnvVar) : string :=
  match envVars with
  | [] => defaultValue
  | e :: envVars => if decide (env_Name e = parameterName) then env_Value e else find_env parameterName defaultValue envVars
  end.

Definition GetDeploymentParameterWithDefault (deployment : Deployment) (parameterName defaultValue : string) :
    outcome string :=
  container ← index (dep_Containers deployment) 0;
  Ret (find_env parameterName defaultValue (container_Env container)).

Definition GetDeploymentParameter (deployment : Deployment) (parameterName : string) : outcome string :=
  GetDeploymentParameterWithDefault deployment parameterName "".

Definition IsDeploymentReady (deployment : Deployment) : outcome bool :=
  let availableReplicas := Min (dep_ReadyReplicas deployment) (dep_UpdatedReplicas deployment) in
  match dep_Replicas deployment with
  | Some replicas => Ret (bool_decide (replicas = availableReplicas))
  | None => Panic
  end.

Fixpoint all_ready (deployments : list Deployment) : outcome bool :=
  match deployments with
  | [] => Ret true
  | d :: deployments => ready ← IsDeploymentReady d; if (ready : bool) then all_ready deployments else Ret false
  end.

Record SslCertificates := mkSsl { CaCert : string; TlsCert : string; TlsKey : string }.

(** ** Library code

    Of apimachinery and controller-runtime: the parser of [group/version] strings, the setter of
    the controller reference, the text of a quantity. *)
Record OwnerObject := mkOwnerObject {
  oo_APIVersion : string;
  oo_Kind : string;
  oo_Name : string;
  oo_Namespace : string;
}.

Class Library := {
  ParseGroupVersion : string → outcome string;
  controllerutil_SetControllerReference : OwnerObject → ObjectMeta → outcome ObjectMeta;
  quantity_String : Z → string;
}.

(** A runtime.Object: a typed object, or an unstructured one, which [toUnstructured] returns as
    it is; of a typed object it returns a copy. *)
Inductive runtime_object := Typed (meta : ObjectMeta) | Unstructured (meta : ObjectMeta).

Definition runtime_meta (o : runtime_object) : ObjectMeta :=
  match o with Typed m => m | Unstructured m => m end.

(** The metadata of the unstructured object, and whether it is the object itself. *)
Definition toUnstructured (o : runtime_object) : ObjectMeta * bool :=
  match o with
  | Unstructured m => (m, true)
  | Typed m => (m, false)
  end.

(** metav1.GetControllerOf *)
Definition GetControllerOf (m : ObjectMeta) : option OwnerReference :=
  list_find (λ r, owner_Controller r = true) (OwnerReferences m) ≫= λ p, Some p.2.

(** The merge of [UpdateSecret]: an entry of the desired data is written when it differs. *)
Definition merge_entry (acc : strmap * bool) (entry : string * string) : strmap * bool :=
  let '(data, modified) := acc in
  if decide (sget data entry.1 = entry.2) then (data, modified) else (<[entry.1 := entry.2]> data, true).

Section operations.
Context `{Env W} `{Retry} `{Library} {L : Type}.

Definition FindPodList (namespace : string) (podLabels : strmap) : M (St W L) (list Pod) :=
  request (ListObjs KPod namespace podLabels).

Definition GetNodeLabel (nodeName labelName : string) : M (St W L) string :=
  nodeLabels ← request (GetNodeLabels nodeName);
  let labelValue := sget nodeLabels labelName in
  if decide (labelValue = "") then
    throw (errorf ("Node [" +:+ nodeName +:+ "] does not have label [" +:+ labelName +:+ "]"))
  else mret labelValue.

Definition CreateOrUpdateServiceAccount (serviceAccount : ServiceAccount) : M (St W L) unit :=
  r ← try (request (Get KServiceAccount (Name (sa_meta serviceAccount)) (Namespace (sa_meta serviceAccount))));
  match r with
  | inr err => if IsNotFound err then _ ← request (Create KServiceAccount serviceAccount); mret tt else throw err
  | inl found =>
      let labels := JoinMaps (Labels (sa_meta found)) (Labels (sa_meta serviceAccount)) in
      _ ← request (Update KServiceAccount (set_sa_meta (set_Labels labels (sa_meta found)) found));
      mret tt
  end.

Definition CreateOrUpdateService (service : Service) : M (St W L) unit :=
  r ← try (request (Get KService (Name (svc_meta service)) (Namespace (svc_meta service))));
  match r with
  | inr err => if IsNotFound err then _ ← request (Create KService service); mret tt else throw err
  | inl found =>
      let service := set_svc_meta (set_ResourceVersion (ResourceVersion (svc_meta found)) (svc_meta service)) service in
      let service := if decide (svc_Type found = "ClusterIP") then set_svc_ClusterIP (svc_ClusterIP found) service
                     else service in
      _ ← request (Update KService service);
      mret tt
  end.

Definition DeleteService (service : Service) : M (St W L) unit :=
  r ← try (request (Get KService (Name (svc_meta service)) (Namespace (svc_meta service))));
  match r with
  | inr err => if IsNotFound err then mret tt else throw err
  | inl found =>
      request (Delete KService
        (set_svc_meta (set_ResourceVersion (ResourceVersion (svc_meta found)) (svc_meta service)) service))
  end.

Definition GetServiceIp (namespace serviceName : string) : M (St W L) string :=
  found ← request (Get KService serviceName namespace);
  mret (svc_ClusterIP found).

(** *** Persistent volume claims *)

Definition GetPersistentVolumeClaim (name namespace : string) : M (St W L) PersistentVolumeClaim :=
  request (Get KPersistentVolumeClaim name namespace).

Definition merge_annotations (found desired previous : strmap) : strmap :=
  if decide (desired = previous) then found
  else filter (λ p, ¬ (is_Some (previous !! p.1) ∧ desired !! p.1 = None)) (desired ∪ found).

Definition storage_of (pvc : PersistentVolumeClaim) : Z :=
  default 0 (default ∅ (pvc_Requests pvc) !! "storage").

Definition updatePersistentVolumeClaim (found pvc : PersistentVolumeClaim) (previous : strmap) : M (St W L) unit :=
  let meta := set_OwnerReferences [] (pvc_meta found) in
  let meta := set_Labels (JoinMaps (Labels meta) (Labels (pvc_meta pvc))) meta in
  let meta := set_Annotations (merge_annotations (Annotations meta) (Annotations (pvc_meta pvc)) previous) meta in
  let desired := storage_of pvc in
  let current := storage_of found in
  if decide (desired < current) then
    throw (errorf ("PVC shrinking is forbidden, current PVC size is " +:+ quantity_String current +:+
                   ", desired is " +:+ quantity_String desired))
  else
    match pvc_Requests found with
    | None => panic
    | Some requests =>
        _ ← try (request (Update KPersistentVolumeClaim
               (set_pvc_Requests (Some (<["storage" := desired]> requests)) (set_pvc_meta meta found))));
        mret tt
    end.

Definition CreatePersistentVolumeClaim (pvc : PersistentVolumeClaim) (previous : strmap) : M (St W L) unit :=
  r ← try (GetPersistentVolumeClaim (Name (pvc_meta pvc)) (Namespace (pvc_meta pvc)));
  match r with
  | inr err => if IsNotFound err then _ ← request (Create KPersistentVolumeClaim pvc); mret tt else throw err
  | inl found => updatePersistentVolumeClaim found pvc previous
  end.

Definition DeletePersistentVolumeClaim (pvc : PersistentVolumeClaim) : M (St W L) unit :=
  r ← try (GetPersistentVolumeClaim (Name (pvc_meta pvc)) (Namespace (pvc_meta pvc)));
  match r with
  | inl found => request (Delete KPersistentVolumeClaim found)
  | inr err => if IsNotFound err then mret tt else throw err
  end.

(** *** Deployments *)

Definition FindDeployment (name namespace : string) : M (St W L) Deployment := request (Get KDeployment name namespace).

Definition FindDeploymentList (namespace : string) (deploymentLabels : strmap) : M (St W L) (list Deployment) :=
  request (ListObjs KDeployment namespace deploymentLabels).

Definition update_deployment (desired : Deployment) : M (St W L) unit :=
  found ← FindDeployment (Name (dep_meta desired)) (Namespace (dep_meta desired));
  let meta := set_ResourceVersion (ResourceVersion (dep_meta found)) (dep_meta desired) in
  let meta := set_Annotations (JoinMaps (Annotations (dep_meta found)) (Annotations (dep_meta desired))) meta in
  _ ← request (Update KDeployment (set_dep_meta meta desired));
  mret tt.

Definition CreateOrUpdateDeployment (deployment : Deployment) : M (St W L) unit :=
  r ← try (FindDeployment (Name (dep_meta deployment)) (Namespace (dep_meta deployment)));
  match r with
  | inr err => if IsNotFound err then _ ← request (Create KDeployment deployment); mret tt else throw err
  | inl _ => RetryOnConflict (update_deployment deployment)
  end.

Definition DeleteDeployment (deployment : Deployment) : M (St W L) unit :=
  r ← try (FindDeployment (Name (dep_meta deployment)) (Namespace (dep_meta deployment)));
  match r with
  | inr err => if IsNotFound err then mret tt else throw err
  | inl _ => request (Delete KDeployment deployment)
  end.

Definition FindKafkaDeployments (cr : ObjectMeta) : M (St W L) (list Deployment) :=
  FindDeploymentList (Namespace cr) (GetKafkaLabels (Name cr)).

Definition AreDeploymentsReady (deploymentLabels : strmap) (namespace : string) : M (St W L) bool :=
  r ← try (FindDeploymentList namespace deploymentLabels);
  match r with
  | inr _ => mret false
  | inl deployments => lift (all_ready deployments)
  end.

Definition ScaleDeployment (name : string) (replicas : Z) (namespace : string) : M (St W L) unit :=
  found ← FindDeployment name namespace;
  _ ← request (Update KDeployment (set_dep_Replicas (Some replicas) found));
  mret tt.

(** *** Config maps *)

Definition FindConfigMap (name namespace : string) : M (St W L) ConfigMap := request (Get KConfigMap name namespace).

(** Returns the config map as the client leaves it: filled with the answer of the server. *)
Definition StoreConfigMap (configMap : ConfigMap) : M (St W L) ConfigMap :=
  r ← try (FindConfigMap (Name (cm_meta configMap)) (Namespace (cm_meta configMap)));
  match r with
  | inr err => if IsNotFound err then request (Create KConfigMap configMap) else throw err
  | inl _ => request (Update KConfigMap configMap)
  end.

Definition CreateOrUpdateConfigMap (configMap : ConfigMap) : M (St W L) unit :=
  _ ← StoreConfigMap configMap; mret tt.

Definition CreateConfigMapIfNotExist (configMap : ConfigMap) : M (St W L) unit :=
  r ← try (FindConfigMap (Name (cm_meta configMap)) (Namespace (cm_meta configMap)));
  match r with
  | inr err => if IsNotFound err then _ ← request (Create KConfigMap configMap); mret tt else throw err
  | inl _ => mret tt
  end.

Definition GetAllConfigMapsFromNamespace (namespace : string) : M (St W L) (list ConfigMap) :=
  request (ListObjs KConfigMap namespace ∅).

Definition DeleteConfigMapByName (name namespace : string) : M (St W L) unit :=
  r ← try (FindConfigMap name namespace);
  match r with
  | inr err => if IsNotFound err then mret tt else throw err
  | inl cm => request (Delete KConfigMap cm)
  end.

(** *** Secrets *)

Definition FindSecret (name namespace : string) : M (St W L) Secret := request (Get KSecret name namespace).

Definition CreateSecret (secret : Secret) : M (St W L) unit :=
  r ← try (FindSecret (Name (secret_meta secret)) (Namespace (secret_meta secret)));
  match r with
  | inr err => if IsNotFound err then _ ← request (Create KSecret secret); mret tt else throw err
  | inl _ => mret tt
  end.

(** Returns the secret with the named fields taken from the stored one; its [StringData] is a map
    the caller has made. *)
Definition RestoreSpecFields (secret : Secret) (keys : list string) : M (St W L) Secret :=
  r ← try (FindSecret (Name (secret_meta secret)) (Namespace (secret_meta secret)));
  match r with
  | inr err => if IsNotFound err then mret secret else throw err
  | inl old =>
      mret (set_secret_StringData
             (foldl (λ data key, <[key := sget (secret_Data old) key]> data) (secret_StringData secret) keys) secret)
  end.

Definition CreateOrUpdateSecret (secret : Secret) : M (St W L) unit :=
  r ← try (FindSecret (Name (secret_meta secret)) (Namespace (secret_meta secret)));
  match r with
  | inr err => if IsNotFound err then _ ← request (Create KSecret secret); mret tt else throw err
  | inl _ => _ ← request (Update KSecret secret); mret tt
  end.

Definition update_secret (desired : Secret) : M (St W L) unit :=
  latest ← FindSecret (Name (secret_meta desired)) (Namespace (secret_meta desired));
  let owners_differ := negb (bool_decide (OwnerReferences (secret_meta latest) = OwnerReferences (secret_meta desired))) in
  let latest := if owners_differ then
                  set_secret_meta (set_OwnerReferences (OwnerReferences (secret_meta desired)) (secret_meta latest)) latest
                else latest in
  let '(data, modified) := foldl merge_entry (secret_Data latest, owners_differ) (map_to_list (secret_Data desired)) in
  if (modified : bool) then
    _ ← request (Update KSecret (set_secret_Data data latest));
    mret tt
  else mret tt.

Definition UpdateSecret (desired : Secret) : M (St W L) unit := RetryOnConflict (update_secret desired).

Definition CleanSecretData (secret : Secret) : M (St W L) unit :=
  _ ← request (Update KSecret (set_secret_Data ∅ secret));
  mret tt.

Definition GetSslCertificates (secretName namespace : string) : M (St W L) SslCertificates :=
  found ← FindSecret secretName namespace;
  let caCert := sget (secret_Data found) "ca.crt" in
  if decide (caCert = "") then
    throw (errorf ("TLS certificates must be provided by secret with name: " +:+ secretName))
  else mret (mkSsl caCert (sget (secret_Data found) "tls.crt") (sget (secret_Data found) "tls.key")).

(** *** Owner references *)

Definition ReferSameObject (aName aGroup aKind bName bGroup bKind : string) : bool :=
  match ParseGroupVersion aGroup, ParseGroupVersion bGroup with
  | Ret aGV, Ret bGV => bool_decide (aGV = bGV ∧ aKind = bKind ∧ aName = bName)
  | _, _ => false
  end.

(** The controlled object after the call. *)
Definition SetControllerReference (owner : OwnerObject) (controlled : runtime_object) : outcome runtime_object :=
  let '(u, same) := toUnstructured controlled in
  let u := match GetControllerOf u with
           | Some existing =>
               if ReferSameObject (owner_Name existing) (owner_APIVersion existing) (owner_Kind existing)
                    (oo_Name owner) (oo_APIVersion owner) (oo_Kind owner)
               then u else set_OwnerReferences [] u
           | None => u
           end in
  u ← controllerutil_SetControllerReference owner u;
  Ret (if (same : bool) then Unstructured u else controlled).

Definition WatchSecret (secretName : string) (cr : OwnerObject) : M (St W L) Secret :=
  secret ← FindSecret secretName (oo_Namespace cr);
  let ownerReferencesBefore := OwnerReferences (secret_meta secret) in
  controlled ← lift (SetControllerReference cr (Typed (secret_meta secret)));
  let secret := set_secret_meta (runtime_meta controlled) secret in
  if decide (ownerReferencesBefore = OwnerReferences (secret_meta secret)) then mret secret
  else
    UpdateSecret secret;;
    FindSecret secretName (oo_Namespace cr).

End operations.

(** ** Create or update

    The contract of the create-or-update operations: one read, then one write that depends on what
    the read answered. *)
Section contract.
Context `{Env W} {L : Type}.

Definition upsert (k : kind) (desired : obj k) (merge : obj k → obj k) : M (St W L) unit :=
  r ← try (request (Get k (Name (meta_of k desired)) (Namespace (meta_of k desired))));
  match r with
  | inr err => if IsNotFound err then _ ← request (Create k desired); mret tt else throw err
  | inl found => _ ← request (Update k (merge found)); mret tt
  end.

(** What the history gains from it. *)
Inductive upsert_history (k : kind) (desired : obj k) (merge : obj k → obj k) : list event → Prop :=
  | upsert_creates e r : IsNotFound e = true →
      upsert_history k desired merge
        [Ev (Get k (Name (meta_of k desired)) (Namespace (meta_of k desired))) (inr e); Ev (Create k desired) r]
  | upsert_updates found r :
      upsert_history k desired merge
        [Ev (Get k (Name (meta_of k desired)) (Namespace (meta_of k desired))) (inl found); Ev (Update k (merge found)) r]
  | upsert_fails e : IsNotFound e = false →
      upsert_history k desired merge
        [Ev (Get k (Name (meta_of k desired)) (Namespace (meta_of k desired))) (inr e)].

Lemma upsert_trace k desired merge (s : St W L) :
  ∃ tr, trace (upsert k desired merge s).2 = trace s ++ tr ∧ upsert_history k desired merge tr.
Proof.
  unfold upsert, mbind, M_bind, try, request, throw, mret, M_ret.
  destruct (perform _ _ (world s)) as [[found|e] w1] eqn:E1; cbn.
  - destruct (perform _ _ w1) as [[?|e] w2] eqn:E2; cbn; eexists; (split; [by rewrite <- app_assoc|]); apply upsert_updates.
  - destruct (IsNotFound e) eqn:En; cbn.
    + destruct (perform _ _ w1) as [[?|e'] w2] eqn:E2; cbn; eexists; (split; [by rewrite <- app_assoc|]); by apply upsert_creates.
    + eexists. split; [done|]. by apply upsert_fails.
Qed.

(** The operation reports what the last of its requests answered, a successful one as nil. *)
Lemma upsert_outcome k desired merge (s : St W L) :
  (upsert k desired merge s).1 ≠ Panic.
Proof.
  unfold upsert, mbind, M_bind, try, request, throw, mret, M_ret.
  destruct (perform _ _ (world s)) as [[found|e] w1] eqn:E1; cbn.
  - by destruct (perform _ _ w1) as [[?|e] w2].
  - destruct (IsNotFound e) eqn:En; cbn; [|done]. by destruct (perform _ _ w1) as [[?|e'] w2].
Qed.

End contract.

(** The object an update of each kind sends, from the one found and the one desired. *)
Definition merge_service_account (desired found : ServiceAccount) : ServiceAccount :=
  set_sa_meta (set_Labels (Labels (sa_meta desired) ∪ Labels (sa_meta found)) (sa_meta found)) found.

Definition merge_service (desired found : Service) : Service :=
  let service := set_svc_meta (set_ResourceVersion (ResourceVersion (svc_meta found)) (svc_meta desired)) desired in
  if decide (svc_Type found = "ClusterIP") then set_svc_ClusterIP (svc_ClusterIP found) service else service.

(** What an update makes of a found claim: the desired size, never below the found one, no owner,
    the labels and the managed annotations of the desired claim, the rest as found. *)
Record pvc_updated (desired found : PersistentVolumeClaim) (previous : strmap) (o : PersistentVolumeClaim) : Prop := {
  pvc_size : storage_of o = storage_of desired;
  pvc_grows : storage_of found ≤ storage_of o;
  pvc_unowned : OwnerReferences (pvc_meta o) = [];
  pvc_labels : ∀ key, Labels (pvc_meta o) !! key =
    match Labels (pvc_meta desired) !! key with
    | Some v => Some v
    | None => Labels (pvc_meta found) !! key
    end;
  pvc_annotations : ∀ key, Annotations (pvc_meta o) !! key =
    if decide (Annotations (pvc_meta desired) = previous) then Annotations (pvc_meta found) !! key
    else match Annotations (pvc_meta desired) !! key, previous !! key with
         | Some v, _ => Some v
         | None, Some _ => None
         | None, None => Annotations (pvc_meta found) !! key
         end;
  pvc_other_requests : ∀ res, res ≠ "storage" →
    default ∅ (pvc_Requests o) !! res = default ∅ (pvc_Requests found) !! res;
}.

(** The histories and outcomes of creating or updating a claim. *)
Inductive pvc_history (desired : PersistentVolumeClaim) (previous : strmap) : list event → outcome unit → Prop :=
  | pvc_create e r : IsNotFound e = true →
      pvc_history desired previous
        [Ev (Get KPersistentVolumeClaim (Name (pvc_meta desired)) (Namespace (pvc_meta desired))) (inr e);
         Ev (Create KPersistentVolumeClaim desired) r]
        (match r with inl _ => Ret tt | inr e => Error e end)
  | pvc_read_error e : IsNotFound e = false →
      pvc_history desired previous
        [Ev (Get KPersistentVolumeClaim (Name (pvc_meta desired)) (Namespace (pvc_meta desired))) (inr e)] (Error e)
  | pvc_shrink found e : storage_of desired < storage_of found →
      pvc_history desired previous
        [Ev (Get KPersistentVolumeClaim (Name (pvc_meta desired)) (Namespace (pvc_meta desired))) (inl found)] (Error e)
  | pvc_no_requests found : pvc_Requests found = None →
      pvc_history desired previous
        [Ev (Get KPersistentVolumeClaim (Name (pvc_meta desired)) (Namespace (pvc_meta desired))) (inl found)] Panic
  | pvc_update found o r : pvc_updated desired found previous o →
      pvc_history desired previous
        [Ev (Get KPersistentVolumeClaim (Name (pvc_meta desired)) (Namespace (pvc_meta desired))) (inl found);
         Ev (Update KPersistentVolumeClaim o) r] (Ret tt).

Lemma merge_annotations_lookup found desired previous key :
  merge_annotations found desired previous !! key =
    if decide (desired = previous) then found !! key
    else match desired !! key, previous !! key with
         | Some v, _ => Some v
         | None, Some _ => None
         | None, None => found !! key
         end.
Proof.
  unfold merge_annotations. case_decide as Hd; [done|].
  rewrite map_lookup_filter, lookup_union.
  destruct (desired !! key) eqn:E1, (previous !! key) eqn:E2, (found !! key) eqn:E3; cbn;
    try case_guard as G; cbn; try done; exfalso;
    solve [ destruct G as [[??]?]; congruence | apply G; split; [by eexists|done] ].
Qed.

Lemma pvc_updated_intro (desired found : PersistentVolumeClaim) previous requests :
  pvc_Requests found = Some requests → ¬ storage_of desired < storage_of found →
  pvc_updated desired found previous
    (set_pvc_Requests (Some (<["storage" := storage_of desired]> requests))
       (set_pvc_meta
          (set_Annotations (merge_annotations (Annotations (pvc_meta found)) (Annotations (pvc_meta desired)) previous)
             (set_Labels (JoinMaps (Labels (pvc_meta found)) (Labels (pvc_meta desired)))
                (set_OwnerReferences [] (pvc_meta found)))) found)).
Proof.
  intros Hr Hs. split; cbn.
  - unfold storage_of at 1. cbn. by rewrite lookup_insert_eq.
  - unfold storage_of at 2. cbn. rewrite lookup_insert_eq. cbn. lia.
  - done.
  - intros key. rewrite JoinMaps_lookup. done.
  - intros key. apply merge_annotations_lookup.
  - intros res Hn. rewrite lookup_insert_ne by done. by rewrite Hr.
Qed.

(** The merge of [UpdateSecret], looked up key by key. *)
Lemma merge_entries_spec entries data modified :
  NoDup entries.*1 →
  let r := foldl merge_entry (data, modified) entries in
  (∀ key, sget r.1 key = default (sget data key) ((list_to_map entries : strmap) !! key)) ∧
  (r.2 = false ↔ modified = false ∧ ∀ key v, (key, v) ∈ entries → sget data key = v) ∧
  (r.2 = false → r.1 = data).
Proof.
  revert data modified. induction entries as [|[k v] entries IH]; intros data modified Hn; cbn.
  { split_and!; [done| |done]. split; [|tauto]. intros ->. split; [done|]. intros ?? Hin. by apply not_elem_of_nil in Hin. }
  cbn in Hn. apply NoDup_cons in Hn as [Hk Hn].
  assert (Hfree : ∀ key w, (key, w) ∈ entries → key ≠ k).
  { intros key w Hin ->. apply Hk. apply list_elem_of_fmap. by exists (k, w). }
  case_decide as Heq.
  - destruct (IH data modified Hn) as (H1 & H2 & H3). split_and!; [|rewrite H2; split|done].
    + intros key. rewrite H1. rewrite lookup_insert. case_decide; [|done]. subst key.
      rewrite not_elem_of_list_to_map_1 by done. cbn. done.
    + intros [Hm Hall]. split; [done|]. intros key w [Heq'|Hin]%elem_of_cons; [|by apply Hall]. by simplify_eq.
    + intros [Hm Hall]. split; [done|]. intros key w Hin. apply Hall. by right.
  - destruct (IH (<[k := v]> data) true Hn) as (H1 & H2 & H3). split_and!; [|rewrite H2; split|].
    + intros key. rewrite H1, lookup_insert. unfold sget, map_get. case_decide.
      * subst key. rewrite not_elem_of_list_to_map_1 by done. cbn. by rewrite lookup_insert_eq.
      * by rewrite lookup_insert_ne.
    + intros [? _]; done.
    + intros [_ Hall]. exfalso. apply Heq. apply Hall. by left.
    + rewrite H2. by intros [? _].
Qed.

Section properties.
Context `{Env W} `{Retry} `{Library} {L : Type}.

(** C39. Creating or updating a persistent volume claim has one of five histories: the claim is
    created; the read failed; the request to shrink is refused without a write; a found claim
    without resource requests panics; or exactly one update is sent, which asks for the desired
    size (at least the current one), drops the owner references, merges the labels, writes the
    desired annotations, removes the ones the operator wrote before and no longer wants, and
    keeps foreign ones; the result of that update is ignored. *)
Theorem CreatePersistentVolumeClaim_history (desired : PersistentVolumeClaim) previous (s : St W L) :
  ∃ tr, trace (CreatePersistentVolumeClaim desired previous s).2 = trace s ++ tr ∧
        pvc_history desired previous tr (CreatePersistentVolumeClaim desired previous s).1.
Proof.
  unfold CreatePersistentVolumeClaim, updatePersistentVolumeClaim, GetPersistentVolumeClaim, mbind, M_bind, try,
    request, throw, panic, mret, M_ret.
  destruct (perform _ _ (world s)) as [[found|e] w1] eqn:E1; cbn.
  - case_decide as Hs; cbn; [eexists; split; [done|]; by apply pvc_shrink|].
    destruct (pvc_Requests found) as [requests|] eqn:Er; cbn; [|eexists; split; [done|]; by apply pvc_no_requests].
    destruct (perform _ _ w1) as [[o|e] w2] eqn:E2; cbn;
      (eexists; split; [by rewrite <- app_assoc|]); by apply pvc_update, pvc_updated_intro.
  - destruct (IsNotFound e) eqn:En; cbn; [|eexists; split; [done|]; by apply pvc_read_error].
    destruct (perform _ _ w1) as [[o|e'] w2] eqn:E2; cbn; eexists; (split; [by rewrite <- app_assoc|]).
    + exact (pvc_create desired previous e (inl o) En).
    + exact (pvc_create desired previous e (inr e') En).
Qed.

(** Watching a secret returns the secret as it was read and writes nothing, whatever the API
    server answers and whoever owns the secret: the controller reference is set on an unstructured
    copy of the typed secret, so the test for changed owner references never succeeds. *)
Theorem WatchSecret_never_writes (secretName : string) (cr : OwnerObject) (s : St W L) :
  ∃ r, trace (WatchSecret secretName cr s).2 = trace s ++ [Ev (Get KSecret secretName (oo_Namespace cr)) r] ∧
       (∀ secret, (WatchSecret secretName cr s).1 = Ret secret → r = inl secret).
Proof.
  unfold WatchSecret, SetControllerReference, FindSecret, mbind, M_bind, request, lift. cbn.
  destruct (perform _ _ (world s)) as [[secret|e] w1] eqn:E1; cbn; [|by exists (inr e)].
  exists (inl secret).
  destruct (controllerutil_SetControllerReference _ _) as [u|e|]; cbn; [|done..].
  unfold runtime_meta. destruct secret as [meta data sdata]. cbn.
  rewrite decide_True by done. cbn. split; [done|]. intros x [= <-]. done.
Qed.

(** One attempt to update a secret reads it and sends an update exactly when the owner
    references or some desired entry differ; the update keeps every entry that is not desired,
    carries the desired value of the others and the desired owner references. *)
Theorem update_secret_merges (desired : Secret) (s : St W L) :
  ∃ r, (∃ e, r = inr e ∧ trace (update_secret desired s).2 =
              trace s ++ [Ev (Get KSecret (Name (secret_meta desired)) (Namespace (secret_meta desired))) r] ∧
              (update_secret desired s).1 = Error e) ∨
       (∃ latest, r = inl latest ∧
          let unchanged := OwnerReferences (secret_meta latest) = OwnerReferences (secret_meta desired) ∧
            ∀ key v, secret_Data desired !! key = Some v → sget (secret_Data latest) key = v in
          (unchanged →
             trace (update_secret desired s).2 =
               trace s ++ [Ev (Get KSecret (Name (secret_meta desired)) (Namespace (secret_meta desired))) r]) ∧
          (¬ unchanged → ∃ o r',
             trace (update_secret desired s).2 =
               trace s ++ [Ev (Get KSecret (Name (secret_meta desired)) (Namespace (secret_meta desired))) r;
                           Ev (Update KSecret o) r'] ∧
             OwnerReferences (secret_meta o) = OwnerReferences (secret_meta desired) ∧
             ∀ key, sget (secret_Data o) key = default (sget (secret_Data latest) key) (secret_Data desired !! key))).
Proof.
  unfold update_secret, FindSecret, mbind, M_bind, request, mret, M_ret. cbn.
  destruct (perform _ _ (world s)) as [[latest|e] w1] eqn:E1; cbn; [|exists (inr e); left; by exists e].
  exists (inl latest). right. exists latest. split; [done|].
  set (differ := negb _).
  assert (Hd : differ = false ↔ OwnerReferences (secret_meta latest) = OwnerReferences (secret_meta desired)).
  { unfold differ. rewrite negb_false_iff. apply bool_decide_eq_true. }
  assert (Hdata : secret_Data (if differ then set_secret_meta (set_OwnerReferences (OwnerReferences (secret_meta desired))
                    (secret_meta latest)) latest else latest) = secret_Data latest) by (by destruct differ).
  rewrite Hdata.
  destruct (merge_entries_spec (map_to_list (secret_Data desired)) (secret_Data latest) differ) as (H1' & H2' & _).
  { apply NoDup_fst_map_to_list. }
  rewrite list_to_map_to_list in H1'.
  destruct (foldl merge_entry _ _) as [data modified] eqn:Ef. cbn in H1', H2'.
  assert (Hm : modified = false ↔ OwnerReferences (secret_meta latest) = OwnerReferences (secret_meta desired) ∧
            ∀ key v, secret_Data desired !! key = Some v → sget (secret_Data latest) key = v).
  { rewrite H2', Hd. setoid_rewrite elem_of_map_to_list. done. }
  split.
  - intros Hu. apply Hm in Hu. by subst modified.
  - intros Hu. destruct modified; [|exfalso; apply Hu; by apply Hm]. cbn.
    destruct (perform _ _ w1) as [[o|e] w2] eqn:E2; cbn; eexists _, _; rewrite <- app_assoc;
      (split; [done|]); (split; [|exact H1']); destruct differ eqn:Edf; cbn; try done; by apply Hd.
Qed.

(** C38. Each create-or-update operation implements the contract [upsert]: it reads the object once,
    creates the desired one exactly when the read answered not found, otherwise sends one update:
    the found service account with the labels of the desired one added, the desired service with
    the resource version and the cluster address of the found one, the desired config map or
    secret as it is; on any other error of the read nothing is written. *)
Theorem create_or_update_refines_upsert (s : St W L) :
  (∀ sa, CreateOrUpdateServiceAccount sa s = upsert KServiceAccount sa (merge_service_account sa) s) ∧
  (∀ svc, CreateOrUpdateService svc s = upsert KService svc (merge_service svc) s) ∧
  (∀ cm, CreateOrUpdateConfigMap cm s = upsert KConfigMap cm (λ _, cm) s) ∧
  (∀ sec, CreateOrUpdateSecret sec s = upsert KSecret sec (λ _, sec) s) ∧
  (∀ k desired merge,
     (upsert k desired merge s).1 ≠ Panic ∧
     ∃ tr, trace (upsert k desired merge s).2 = trace s ++ tr ∧ upsert_history k desired merge tr).
Proof.
  split_and!; try done.
  - intros sa. unfold CreateOrUpdateServiceAccount, upsert, merge_service_account. cbn [meta_of].
    unfold mbind, M_bind. destruct (try _ s) as [[[found|e]|e|] s1]; try done.
    by rewrite JoinMaps_union.
  - intros cm. unfold CreateOrUpdateConfigMap, StoreConfigMap, upsert, FindConfigMap, mbind, M_bind. cbn [meta_of].
    destruct (try _ s) as [[[found|e]|e|] s1]; [done| |done..]. by destruct (IsNotFound e).
  - intros k d m. split; [apply upsert_outcome | apply upsert_trace].
Qed.

End properties.

(** ** The operations leave the in-memory state alone *)

Section same_local.
Context `{Env W} `{Retry} `{Library} {L : Type}.

Abbreviation same := (same_local (W := W) (L := L)).

Lemma same_FindPodList namespace labels : same (FindPodList namespace labels).
Proof. unfold FindPodList. same_local_auto. Qed.

Lemma same_GetNodeLabel node label : same (GetNodeLabel node label).
Proof. unfold GetNodeLabel. same_local_auto. Qed.

Lemma same_CreateOrUpdateService service : same (CreateOrUpdateService service).
Proof. unfold CreateOrUpdateService. same_local_auto. Qed.

Lemma same_DeleteService service : same (DeleteService service).
Proof. unfold DeleteService. same_local_auto. Qed.

Lemma same_CreateOrUpdateServiceAccount account : same (CreateOrUpdateServiceAccount account).
Proof. unfold CreateOrUpdateServiceAccount. same_local_auto. Qed.

Lemma same_GetPersistentVolumeClaim name namespace : same (GetPersistentVolumeClaim name namespace).
Proof. unfold GetPersistentVolumeClaim. same_local_auto. Qed.

Lemma same_CreatePersistentVolumeClaim pvc previous : same (CreatePersistentVolumeClaim pvc previous).
Proof. unfold CreatePersistentVolumeClaim, GetPersistentVolumeClaim, updatePersistentVolumeClaim. same_local_auto. Qed.

Lemma same_DeletePersistentVolumeClaim pvc : same (DeletePersistentVolumeClaim pvc).
Proof. unfold DeletePersistentVolumeClaim, GetPersistentVolumeClaim. same_local_auto. Qed.

Lemma same_CreateOrUpdateDeployment deployment : same (CreateOrUpdateDeployment deployment).
Proof. unfold CreateOrUpdateDeployment, FindDeployment. same_local_auto. unfold update_deployment, FindDeployment. same_local_auto. Qed.

Lemma same_DeleteDeployment deployment : same (DeleteDeployment deployment).
Proof. unfold DeleteDeployment, FindDeployment. same_local_auto. Qed.

Lemma same_AreDeploymentsReady labels namespace : same (AreDeploymentsReady labels namespace).
Proof. unfold AreDeploymentsReady, FindDeploymentList. same_local_auto. Qed.

Lemma same_ScaleDeployment name replicas namespace : same (ScaleDeployment name replicas namespace).
Proof. unfold ScaleDeployment, FindDeployment. same_local_auto. Qed.

Lemma same_StoreConfigMap cm : same (StoreConfigMap cm).
Proof. unfold StoreConfigMap, FindConfigMap. same_local_auto. Qed.

Lemma same_FindSecret name namespace : same (FindSecret name namespace).
Proof. unfold FindSecret. same_local_auto. Qed.

Lemma same_CreateSecret secret : same (CreateSecret secret).
Proof. unfold CreateSecret, FindSecret. same_local_auto. Qed.

Lemma same_CreateOrUpdateSecret secret : same (CreateOrUpdateSecret secret).
Proof. unfold CreateOrUpdateSecret, FindSecret. same_local_auto. Qed.

Lemma same_UpdateSecret secret : same (UpdateSecret secret).
Proof. unfold UpdateSecret, update_secret, FindSecret. same_local_auto. Qed.

Lemma same_GetSslCertificates name namespace : same (GetSslCertificates name namespace).
Proof. unfold GetSslCertificates, FindSecret. same_local_auto. Qed.

Lemma same_WatchSecret name owner : same (WatchSecret name owner).
Proof. unfold WatchSecret, FindSecret. same_local_auto. apply same_UpdateSecret. Qed.

End same_local.

#[export] Hint Resolve same_FindPodList same_GetNodeLabel same_CreateOrUpdateService same_DeleteService same_CreateOrUpdateServiceAccount
  same_GetPersistentVolumeClaim same_CreatePersistentVolumeClaim same_DeletePersistentVolumeClaim same_CreateOrUpdateDeployment
  same_DeleteDeployment same_AreDeploymentsReady same_ScaleDeployment same_StoreConfigMap same_FindSecret same_CreateSecret
  same_CreateOrUpdateSecret same_UpdateSecret same_GetSslCertificates same_WatchSecret : operator.
