(* ===== verification/KmmConfig.v ===== *)
(** * The KmmConfig controller

    Source: operator/controllers/kmmconfig/kmmconfig_controller.go.  A KmmConfig resource asks
    for topics to be replicated between data centres; the controller edits the properties file of
    Kafka Mirror Maker kept in a config map, and writes the result in the status of the resource.

    The map of error messages that the code passes by pointer is the local state of a run.  The
    order in which Go ranges over a map is the argument [range].  [operatorName] and
    [operatorNamespace] are the environment variables OPERATOR_NAME and OPERATOR_NAMESPACE. *)

From S2P Require Import Prelude GoStrings Util Transformation Kube Api External Cluster Reconciler.

Abbreviation errmap := (gmap string (list string)).

Definition configurationError : gerror := errorf "configuration error occurred".

Definition addMessageToErrorMap (key message : string) (errorsMap : errmap) : errmap :=
  match errorsMap !! key with
  | Some valueSlice => <[key := valueSlice ++ [message]]> errorsMap
  | None => errorsMap
  end.

Definition getTrimmedSlice (source : string) : list string := Trim <$> Split source ",".

Definition contains (value : string) (l : list string) : bool :=
  if decide (l = []) then false else Contains value l.

(** ** The data centres of a resource *)

Fixpoint check_each (bad : string → bool) (message : string → string) (crDc : list string) : M errmap unit :=
  match crDc with
  | [] => mret tt
  | dc :: crDc =>
      if bad dc then
        modify (addMessageToErrorMap "targetDc" (message dc));; throw configurationError
      else check_each bad message crDc
  end.

Definition checkTargetDc (crDc : list string) (configMapDc : option (list string))
    (clustersSet : gset string) : M errmap unit :=
  match configMapDc with
  | None =>
      check_each (λ dc, negb (bool_decide (dc ∈ clustersSet)))
        (λ dc, dc +:+ " - neither 'target.dc' property nor 'clusters' property contains current target dc") crDc
  | Some configMapDc =>
      check_each (λ cr, negb (contains cr configMapDc))
        (λ cr, cr +:+ " - target.dc property does not contain target dc") crDc
  end.

Fixpoint checkSourceDc (sourceDcCr : list string) (clustersSet : gset string) : M errmap unit :=
  match sourceDcCr with
  | [] => mret tt
  | dc :: rest =>
      if decide (dc ∈ clustersSet) then checkSourceDc rest clustersSet
      else
        modify (addMessageToErrorMap "sourceDc" (dc +:+ " - 'clusters' property does not contain current source dc"));;
        throw configurationError
  end.

(** [properties["clusters"].([]string)]: a missing or single-valued property panics. *)
Definition clusters_of (properties : gmap string propval) : M errmap (list string) :=
  match properties !! "clusters" with
  | Some (PList clusters) => mret clusters
  | _ => panic
  end.

Definition target_of_config (properties : gmap string propval) : option (list string) :=
  match properties !! "target.dc" with
  | Some (PStr value) => Some [value]
  | Some (PList value) => Some value
  | None => None
  end.

Definition resolve_targets (topics : KmmTopics) (targetDcCM : option (list string)) (clustersSet : gset string) :
    M errmap (list string) :=
  if decide (TargetDc topics ≠ "") then
    let targetDcCr := getTrimmedSlice (TargetDc topics) in
    checkTargetDc targetDcCr targetDcCM clustersSet;;
    mret targetDcCr
  else
    match targetDcCM with
    | Some targetDcCM => mret targetDcCM
    | None =>
        modify (addMessageToErrorMap "targetDc" "Can not resolve target data center");;
        throw configurationError
    end.

Definition resolve_sources (topics : KmmTopics) (targetDc clusters : list string) (clustersSet : gset string) :
    M errmap (list string) :=
  if decide (SourceDc topics ≠ "") then
    let sourceDcCr := getTrimmedSlice (SourceDc topics) in
    checkSourceDc sourceDcCr clustersSet;;
    mret sourceDcCr
  else mret (filter (λ dc, contains dc targetDc = false) clusters).

Definition recognizeTargetAndSourceDc (topics : KmmTopics) (properties : gmap string propval) :
    M errmap (list string * list string) :=
  clusters ← clusters_of properties;
  let clustersSet : gset string := list_to_set clusters in
  targetDc ← resolve_targets topics (target_of_config properties) clustersSet;
  sourceDc ← resolve_sources topics targetDc clusters clustersSet;
  mret (targetDc, sourceDc).

(** ** The edit of the properties *)

Definition getDcPairs (targetDc sourceDc : list string) : list string :=
  source ← sourceDc;
  target ← targetDc;
  if decide (source = target) then [] else [NewReplicationFlow source target].

Definition makeSlice (value : propval) : list string :=
  match value with
  | PStr value => [value]
  | PList value => value
  end.

Definition mergeTopics (oldTopics newTopics : list string) : string :=
  let oldTopicsSet : gset string := list_to_set oldTopics in
  Join (oldTopics ++ filter (λ newTopic, newTopic ∉ oldTopicsSet) newTopics) ",".

(** The three results of [getUpdatedContent] as they are accumulated by its loop. *)
Record content := mkContent {
  turnOnReplicationPairs : list string;
  updateTopicLines : strmap;
  newLines : list string;
}.

Definition flow_content (properties : gmap string propval) (topics : string) (c : content) (flow : string) :
    outcome content :=
  let enabledPair := flow +:+ ".enabled" in
  c ← match properties !! enabledPair with
      | Some (PStr value) =>
          Ret (if decide (value = "false") then
                 mkContent (turnOnReplicationPairs c ++ [enabledPair]) (updateTopicLines c) (newLines c)
               else c)
      | Some (PList _) => Panic
      | None => Ret (mkContent (turnOnReplicationPairs c) (updateTopicLines c)
                       (newLines c ++ [enabledPair +:+ " = true"]))
      end;
  let topicsPair := flow +:+ ".topics" in
  match properties !! topicsPair with
  | Some existsTopics =>
      Ret (mkContent (turnOnReplicationPairs c)
             (<[topicsPair := mergeTopics (makeSlice existsTopics) (getTrimmedSlice topics)]> (updateTopicLines c))
             (newLines c))
  | None => Ret (mkContent (turnOnReplicationPairs c) (updateTopicLines c)
                   (newLines c ++ [topicsPair +:+ " = " +:+ topics]))
  end.

Fixpoint flows_content (properties : gmap string propval) (topics : string) (flows : list string) (c : content) :
    outcome content :=
  match flows with
  | [] => Ret c
  | flow :: flows => c ← flow_content properties topics c flow; flows_content properties topics flows c
  end.

Definition getUpdatedContent (targetDc sourceDc : list string) (properties : gmap string propval)
    (topics : string) : outcome (list string * strmap * string) :=
  c ← flows_content properties topics (getDcPairs targetDc sourceDc) (mkContent [] ∅ []);
  Ret (turnOnReplicationPairs c, updateTopicLines c, Join (newLines c) nl).

(** Replaces every line that starts with [key]. *)
Definition set_line (key value : string) (cmLines : list string) : list string :=
  (λ line, if HasPrefix line key then key +:+ " = " +:+ value else line) <$> cmLines.

Definition setEnabledReplication (turnOn : list string) (cmLines : list string) : list string :=
  foldl (λ cmLines enabledReplication, set_line enabledReplication "true" cmLines) cmLines turnOn.

Definition updateTopics (topicsUpdatePairs : list (string * string)) (cmLines : list string) : list string :=
  foldl (λ cmLines '(key, value), set_line key value cmLines) cmLines topicsUpdatePairs.

(** The lines before the first one that starts with [topics.blacklist], and that one with the rest. *)
Fixpoint split_blacklist (cmLines : list string) : list string * list string :=
  match cmLines with
  | [] => ([], [])
  | line :: rest =>
      if HasPrefix line "topics.blacklist" then ([], cmLines)
      else let '(b, a) := split_blacklist rest in (line :: b, a)
  end.

Definition setNewProperties (updateContent : string) (cmLines : list string) : list string :=
  let '(before, after) := split_blacklist cmLines in
  before ++ Split updateContent newline ++ after.

Definition setUpdatedContent (turnOn : list string) (topicsUpdatePairs : list (string * string))
    (updateContent configMapContent : string) : list string :=
  let cmLines := Split configMapContent newline in
  let cmLines := setEnabledReplication turnOn cmLines in
  let cmLines := updateTopics topicsUpdatePairs cmLines in
  if decide (updateContent ≠ "") then setNewProperties updateContent cmLines else cmLines.

(** The transformation properties of every replication flow, one after the other. *)
Definition update_flows (tc : TransformationConfigurator) (identity : bool)
    (sourceClusterNames targetClusterNames : list string) (replicationConfig : list string) : list string :=
  foldl (λ config source,
    foldl (λ config target,
      if decide (source = target) then config
      else UpdateTransformationProperties tc config source target identity) config targetClusterNames)
    replicationConfig sourceClusterNames.

Definition identity_enabled (properties : gmap string propval) : bool :=
  bool_decide (properties !! ReplicationPolicyClassConfig = Some (PStr IdentityReplicationPolicy)).

Definition generateErrorMessage (failed : bool) (errorsMap : errmap) : string :=
  let message := if failed then "topics were not added" else "" in
  let targetErrs := Join (map_get [] errorsMap "targetDc") nl in
  let message := if decide (targetErrs ≠ "") then message +:+ "; Problem target dc: " +:+ targetErrs else message in
  let sourceErrs := Join (map_get [] errorsMap "targetDc") nl in
  if decide (sourceErrs ≠ "") then message +:+ "; Problem source dc: " +:+ sourceErrs else message.

(** ** The controller *)

Definition initial_errors : errmap := <["sourceDc" := []]> (<["targetDc" := []]> ∅).

(** The whole edit, from the content of the config map to its new content. *)
Definition new_config (range : strmap → list (string * string)) (instance : KmmConfig) (topics : KmmTopics)
    (configMapContent : string) : M errmap string :=
  properties ← lift (GetProperties configMapContent);
  '(targetClusterNames, sourceClusterNames) ← recognizeTargetAndSourceDc topics properties;
  '(turnOn, topicsUpdatePairs, updateContent) ←
    lift (getUpdatedContent targetClusterNames sourceClusterNames properties (Topics topics));
  let replicationConfig := setUpdatedContent turnOn (range topicsUpdatePairs) updateContent configMapContent in
  let transformationConfigurator := NewTransformationConfigurator (kmm_Transformation topics)
    (Name (kmm_meta instance) +:+ "_" +:+ Namespace (kmm_meta instance) +:+ "_") in
  mret (Join (update_flows transformationConfigurator (identity_enabled properties)
                sourceClusterNames targetClusterNames replicationConfig) nl).

Section controller.
Context `{Env W}.
Context (range : strmap → list (string * string)).
Context (operatorName operatorNamespace ApiGroup : string) (periodTime : Z).

Definition on_local {L A} (m : M L A) : M (St W L) A := λ s,
  let '(o, l) := m (local s) in (o, mkSt (world s) (trace s) l).

Definition UpdateKmmConfigMap (instance : KmmConfig) : M (St W errmap) unit :=
  match kmm_KmmTopics instance with
  | None => panic
  | Some topics =>
      name ← lift (GetKmmConfigMapName operatorName);
      kmmConfigMap ← request (Get KConfigMap name operatorNamespace);
      config ← on_local (new_config range instance topics (sget (cm_Data kmmConfigMap) "config"));
      _ ← request (Update KConfigMap (set_cm_Data (<["config" := config]> (cm_Data kmmConfigMap)) kmmConfigMap));
      mret tt
  end.

Definition updateCrStatus (instance : KmmConfig) (failed : bool) : M (St W errmap) unit :=
  errorsMap ← get_local;
  let message := generateErrorMessage failed errorsMap in
  _ ← request (StatusUpdate KKmmConfig (set_kmm_Status (mkKmmStatus true message) instance));
  mret tt.

Definition Reconcile (namespace name : string) : M (St W errmap) Result :=
  r ← try (request (Get KKmmConfig name namespace));
  match r with
  | inr err => if IsNotFound err then mret (mkResult 0) else throw err
  | inl instance =>
      matches ← lift (ApiGroupMatches (kmm_APIVersion instance) ApiGroup);
      if negb matches then mret (mkResult 0)
      else
        modify_local (λ _, initial_errors);;
        err ← try (UpdateKmmConfigMap instance);
        let failed := match err with inl _ => false | inr _ => true end in
        updateStatusError ← try (updateCrStatus instance failed);
        match err, updateStatusError with
        | inl _, inl _ => mret (mkResult 0)
        | _, _ => mret (mkResult periodTime)
        end
  end.

End controller.

(** The updates the controller reacts to. *)
Definition status_predicate_update (old new : ObjectMeta) : bool :=
  negb (bool_decide (Generation old = Generation new)).

Definition status_predicate_delete (deleteStateUnknown : bool) : bool := negb deleteStateUnknown.

(** ** The edit read back

    [props lines] is what [GetProperties] reads from lines that all parse. *)

Definition props (lines : list string) : gmap string propval := foldl add_entry ∅ lines.

Definition line_of (key value : string) : string := key +:+ " = " +:+ value.

(** A property name that can be written on a line and read back. *)
Definition plain (key : string) : Prop :=
  key ≠ "" ∧ HasPrefix key "#" = false ∧ has_char " " key = false ∧ has_char "=" key = false ∧
  has_char newline key = false.

Definition clean (value : string) : Prop := has_char "=" value = false ∧ has_char newline value = false.

(** The lines that start with [key] are the ones that define it: no property has a longer name
    that starts with [key], and no line that defines it is indented. *)
Definition tidy (key line : string) : Prop :=
  active_row line → (HasPrefix line key = true ↔ (row_entry line).1 = key).

Definition parses (line : string) : Prop := ¬ (active_row line ∧ has_char "=" line = false).

Global Instance plain_dec key : Decision (plain key).
Proof. unfold plain. apply _. Defined.

Global Instance tidy_dec key line : Decision (tidy key line).
Proof. unfold tidy, active_row. apply _. Defined.

Global Instance parses_dec line : Decision (parses line).
Proof. unfold parses, active_row. apply _. Defined.

Lemma GetProperties_props content m :
  GetProperties content = Ret m ↔ Forall parses (Split content newline) ∧ m = props (Split content newline).
Proof.
  unfold GetProperties. rewrite add_rows_eq. case_decide as HE.
  - split; [done|]. intros [HF _]. rewrite Exists_exists in HE. destruct HE as (x & Hx & Hbad).
    rewrite Forall_forall in HF. exfalso. by apply (HF x).
  - unfold props. split; [intros [= <-]; split; [|done] | intros [_ ->]; done].
    apply not_Exists_Forall in HE; [done|]. intros x. apply _.
Qed.

Lemma trim_right_blank s : has_char " " s = false → trim_right is_blank (s +:+ " ") = s.
Proof.
  induction s as [|a s IH]; intros Hs; [done|]. cbn in Hs. apply orb_false_elim in Hs as [Ha Hs].
  rewrite app_cons. cbn. rewrite IH by done. destruct (is_blank a) eqn:Eb; [|by rewrite andb_false_r].
  unfold is_blank in Eb. apply bool_decide_eq_true in Eb. apply bool_decide_eq_false in Ha. congruence.
Qed.

Lemma Trim_key key : plain key → Trim (key +:+ " ") = key.
Proof.
  intros (Hn & _ & Hb & _ & _). unfold Trim, trim. destruct key as [|a key]; [done|].
  cbn in Hb. apply orb_false_elim in Hb as [Ha Hb']. rewrite app_cons. cbn [trim_left].
  assert (is_blank a = false) as ->.
  { unfold is_blank. apply bool_decide_eq_false. apply bool_decide_eq_false in Ha. congruence. }
  rewrite <- app_cons. apply trim_right_blank. cbn. by rewrite Hb', Ha.
Qed.

Lemma has_char_line_of c key value :
  has_char c (line_of key value) = has_char c key || (has_char c " = " || has_char c value).
Proof. unfold line_of. by rewrite !has_char_app. Qed.

Lemma row_entry_line key value :
  plain key → has_char "=" value = false → row_entry (line_of key value) = (key, getTrimmedPropertyValue (" " +:+ value)).
Proof.
  intros Hk Hv. unfold row_entry, line_of.
  replace (key +:+ " = " +:+ value) with ((key +:+ " ") +:+ String "=" (" " +:+ value)).
  2: { rewrite app_assoc_s. f_equal. }
  rewrite Split_app. 2: { rewrite has_char_app. destruct Hk as (_ & _ & _ & -> & _). done. }
  rewrite Split_no_char by (rewrite has_char_app; by rewrite Hv).
  by rewrite Trim_key.
Qed.

Lemma active_line key value : plain key → active_row (line_of key value).
Proof.
  intros (Hn & Hp & _). unfold active_row, line_of. destruct key as [|a key]; [done|].
  rewrite app_cons. split; [done|]. rewrite HasPrefix_cons, HasPrefix_empty in *. done.
Qed.

Lemma parses_line key value : plain key → parses (line_of key value).
Proof. intros Hk [_ H]. rewrite has_char_line_of in H. cbn in H. by rewrite orb_true_r in H. Qed.

(** A line that is skipped by the reader does not start with a plain name. *)
Lemma inactive_prefix key line : plain key → ¬ active_row line → HasPrefix line key = false.
Proof.
  intros (Hn & Hp & _) Ha. destruct (HasPrefix line key) eqn:E; [|done].
  apply HasPrefix_spec in E as (t & ->). exfalso. apply Ha. destruct key as [|a key]; [done|].
  rewrite app_cons. split; [done|]. rewrite HasPrefix_cons, HasPrefix_empty in *. done.
Qed.

(** [key] set to [v] where it is defined. *)
Definition upd (key : string) (v : propval) (m : gmap string propval) : gmap string propval :=
  match m !! key with Some _ => <[key := v]> m | None => m end.

Lemma upd_insert_same key v x m : <[key := v]> (upd key v m) = upd key v (<[key := x]> m).
Proof. unfold upd. rewrite lookup_insert_eq, insert_insert_eq. destruct (m !! key); [by rewrite insert_insert_eq|done]. Qed.

Lemma upd_insert_ne key k v x m : k ≠ key → <[k := x]> (upd key v m) = upd key v (<[k := x]> m).
Proof.
  intros Hk. unfold upd. rewrite lookup_insert_ne by done. destruct (m !! key); [by rewrite insert_insert_ne|done].
Qed.

(** Replacing the lines of a key changes its value and nothing else. *)
Lemma set_line_props key value lines m :
  plain key → has_char "=" value = false → Forall (tidy key) lines →
  foldl add_entry (upd key (getTrimmedPropertyValue (" " +:+ value)) m) (set_line key value lines) =
    upd key (getTrimmedPropertyValue (" " +:+ value)) (foldl add_entry m lines).
Proof.
  intros Hk Hv. revert m. induction lines as [|line lines IH]; intros m HT; [done|].
  apply Forall_cons in HT as [Ht HT]. cbn. rewrite <- IH by done. f_equal.
  destruct (decide (active_row line)) as [Ha|Ha].
  - specialize (Ht Ha). unfold add_entry at 2. rewrite decide_True by done.
    destruct (HasPrefix line key) eqn:Ep.
    + destruct Ht as [Ht _]. rewrite Ht by done. unfold add_entry.
      rewrite decide_True by (by apply active_line). fold (line_of key value).
      rewrite row_entry_line by done. apply upd_insert_same.
    + unfold add_entry. rewrite decide_True by done. apply upd_insert_ne. intros E. apply Ht in E. done.
  - rewrite inactive_prefix by done. unfold add_entry. by rewrite !decide_False.
Qed.

Lemma HasPrefix_line_of key k value :
  has_char " " k = false → HasPrefix (line_of key value) k = true → HasPrefix key k = true.
Proof.
  unfold line_of. revert k. induction key as [|a key IH]; intros k Hk Hp.
  - destruct k as [|b k]; [done|]. rewrite app_empty_l in Hp. change (" = " +:+ value) with (String " " ("= " +:+ value)) in Hp.
    rewrite HasPrefix_cons in Hp. apply andb_true_iff in Hp as [Hb _]. apply bool_decide_eq_true in Hb. subst b. done.
  - destruct k as [|b k]; [done|]. rewrite app_cons, HasPrefix_cons in *. cbn in Hk.
    apply andb_true_iff in Hp as [-> Hp]. apply orb_false_elim in Hk as [_ Hk]. by apply IH.
Qed.

Lemma tidy_line_of key k value :
  plain key → plain k → has_char "=" value = false → (HasPrefix key k = true → key = k) → tidy k (line_of key value).
Proof.
  intros Hk1 Hk2 Hv Hfree _. rewrite row_entry_line by done. cbn. split.
  - intros Hp. apply Hfree. apply (HasPrefix_line_of _ _ value); [|done]. by destruct Hk2 as (_ & _ & ? & _).
  - intros ->. unfold line_of. apply HasPrefix_app.
Qed.

Lemma set_line_tidy key k value lines :
  plain key → plain k → has_char "=" value = false → (HasPrefix key k = true → key = k) →
  Forall (tidy k) lines → Forall (tidy k) (set_line key value lines).
Proof.
  intros ???? HT. unfold set_line. apply Forall_fmap. eapply Forall_impl; [exact HT|].
  intros line Ht. unfold compose. cbn. destruct (HasPrefix line key); [by apply tidy_line_of|done].
Qed.

Lemma set_line_parses key value lines :
  plain key → Forall parses lines → Forall parses (set_line key value lines).
Proof.
  intros ? HT. unfold set_line. apply Forall_fmap. eapply Forall_impl; [exact HT|].
  intros line Ht. unfold compose. cbn. destruct (HasPrefix line key); [by apply parses_line|done].
Qed.

Lemma set_line_no_newline key value lines :
  has_char newline key = false → has_char newline value = false →
  Forall (λ l, has_char newline l = false) lines → Forall (λ l, has_char newline l = false) (set_line key value lines).
Proof.
  intros Hk Hv HT. unfold set_line. apply Forall_fmap. eapply Forall_impl; [exact HT|].
  intros line Ht. unfold compose. cbn. destruct (HasPrefix line key); [|done].
  fold (line_of key value). rewrite has_char_line_of, Hk, Hv. done.
Qed.

(** *** A list of edits *)

(** The names that are written: none is a proper prefix of another. *)
Definition prefix_free (keys : list string) : Prop :=
  ∀ k1 k2, k1 ∈ keys → k2 ∈ keys → HasPrefix k1 k2 = true → k1 = k2.

Definition editable (keys : list string) (lines : list string) : Prop :=
  Forall plain keys ∧ prefix_free keys ∧ Forall (λ k, Forall (tidy k) lines) keys.

Definition apply_edit (m : gmap string propval) (e : string * string) : gmap string propval :=
  upd e.1 (getTrimmedPropertyValue (" " +:+ e.2)) m.

Lemma upd_empty key v : upd key v ∅ = ∅.
Proof. unfold upd. by rewrite lookup_empty. Qed.

(** What holds of lines being edited: they parse, hold no line break, and are still editable. *)
Definition good_lines (keys lines : list string) : Prop :=
  editable keys lines ∧ Forall parses lines ∧ Forall (λ l, has_char newline l = false) lines.

Lemma set_line_good keys key value lines :
  good_lines keys lines → key ∈ keys → clean value →
  good_lines keys (set_line key value lines) ∧
  props (set_line key value lines) = apply_edit (props lines) (key, value).
Proof.
  intros ((HP & HF & HT) & Hpa & Hnl) Hin [Hv1 Hv2].
  assert (Hk : plain key) by (rewrite Forall_forall in HP; auto). split.
  - split; [split_and!; [done..|]|split].
    + rewrite Forall_forall in HT |- *. intros k Hk2.
      assert (plain k) by (rewrite Forall_forall in HP; auto). apply set_line_tidy; auto.
    + by apply set_line_parses.
    + apply set_line_no_newline; [|done..]. by destruct Hk as (_ & _ & _ & _ & ?).
  - unfold props, apply_edit. cbn.
    rewrite <- (upd_empty key (getTrimmedPropertyValue (" " +:+ value))) at 1.
    apply set_line_props; [done..|]. rewrite Forall_forall in HT. by apply HT.
Qed.

Lemma updateTopics_good keys entries lines :
  good_lines keys lines → Forall (λ e, e.1 ∈ keys ∧ clean e.2) entries →
  good_lines keys (updateTopics entries lines) ∧
  props (updateTopics entries lines) = foldl apply_edit (props lines) entries.
Proof.
  revert lines. induction entries as [|[k v] entries IH]; intros lines Hg HE; [done|].
  apply Forall_cons in HE as [[Hk Hv] HE]. destruct (set_line_good keys k v lines) as [Hg' Hp]; [done..|].
  change (updateTopics ((k, v) :: entries) lines) with (updateTopics entries (set_line k v lines)).
  destruct (IH (set_line k v lines)) as [? Hp']; [done..|]. split; [done|]. by rewrite Hp', Hp.
Qed.

Lemma setEnabledReplication_edits turnOn lines :
  setEnabledReplication turnOn lines = updateTopics ((λ k, (k, "true")) <$> turnOn) lines.
Proof. revert lines. induction turnOn as [|k turnOn IH]; intros lines; [done|]. cbn. apply IH. Qed.

Lemma upd_lookup key v m k :
  upd key v m !! k = if decide (k = key ∧ is_Some (m !! key)) then Some v else m !! k.
Proof.
  unfold upd. destruct (m !! key) eqn:E.
  - destruct (decide (k = key)) as [->|Hk].
    + rewrite lookup_insert_eq, decide_True; [done|]. split; [done|]. by eexists.
    + rewrite lookup_insert_ne, decide_False by naive_solver. done.
  - rewrite decide_False; [done|]. intros [_ [??]]. done.
Qed.

(** The value of a key after the edits: what the last edit of the key wrote, if it was defined. *)
Lemma apply_edits_lookup entries m k :
  (k ∉ entries.*1 → foldl apply_edit m entries !! k = m !! k) ∧
  (m !! k = None → foldl apply_edit m entries !! k = None) ∧
  (∀ v, is_Some (m !! k) → k ∈ entries.*1 → (∀ v', (k, v') ∈ entries → v' = v) →
     foldl apply_edit m entries !! k = Some (getTrimmedPropertyValue (" " +:+ v))).
Proof.
  revert m. induction entries as [|[k1 v1] entries IH]; intros m.
  { split_and!; [done..|]. intros v _ Hin. cbn in Hin. by apply not_elem_of_nil in Hin. }
  cbn [foldl]. destruct (IH (apply_edit m (k1, v1))) as (I1 & I2 & I3).
  assert (HL : apply_edit m (k1, v1) !! k =
    if decide (k = k1 ∧ is_Some (m !! k1)) then Some (getTrimmedPropertyValue (" " +:+ v1)) else m !! k)
    by apply upd_lookup.
  split_and!.
  - cbn. intros Hn. apply not_elem_of_cons in Hn as [Hk Hn]. rewrite I1 by done.
    rewrite HL, decide_False; [done|]. naive_solver.
  - intros Hm. apply I2. rewrite HL. case_decide as Hd; [|done]. destruct Hd as [-> [??]]. congruence.
  - intros v Hs Hin Hall. destruct (decide (k ∈ entries.*1)) as [Hin'|Hin'].
    + apply I3; [|done|intros; apply Hall; by right]. rewrite HL. case_decide; [by eexists|done].
    + cbn in Hin. apply elem_of_cons in Hin as [->|Hin]; [|done]. rewrite I1 by done.
      rewrite HL, decide_True by done. do 3 f_equal. apply Hall. by left.
Qed.

(** *** New lines *)

Lemma foldl_add_entry_insert k v m lines :
  (∀ line, line ∈ lines → active_row line → (row_entry line).1 ≠ k) →
  foldl add_entry (<[k := v]> m) lines = <[k := v]> (foldl add_entry m lines).
Proof.
  revert m. induction lines as [|line lines IH]; intros m HF; [done|]. cbn.
  rewrite <- IH by set_solver. f_equal. unfold add_entry. case_decide as Ha; [|done].
  apply insert_insert_ne. apply HF; [set_solver|done].
Qed.

Lemma props_mono lines k m : is_Some (m !! k) → is_Some (foldl add_entry m lines !! k).
Proof.
  revert m. induction lines as [|line lines IH]; intros m Hm; [done|]. cbn. apply IH.
  unfold add_entry. case_decide; [|done]. rewrite lookup_insert. case_decide; [by eexists|done].
Qed.

Lemma props_defined lines k m :
  (∃ line, line ∈ lines ∧ active_row line ∧ (row_entry line).1 = k) → is_Some (foldl add_entry m lines !! k).
Proof.
  revert m. induction lines as [|line lines IH]; intros m (l & Hl & Ha & Hk); [by apply not_elem_of_nil in Hl|].
  cbn. apply elem_of_cons in Hl as [->|Hl]; [|apply IH; eauto].
  apply props_mono. unfold add_entry. rewrite decide_True by done. rewrite Hk, lookup_insert_eq. by eexists.
Qed.

(** New definitions of undefined keys, put anywhere, define them and change nothing else. *)
Lemma props_insert before after entries :
  Forall (λ e, plain e.1 ∧ has_char "=" e.2 = false) entries →
  (∀ k, k ∈ entries.*1 → props (before ++ after) !! k = None) →
  props (before ++ ((λ e, line_of e.1 e.2) <$> entries) ++ after) =
    foldl (λ m e, <[e.1 := getTrimmedPropertyValue (" " +:+ e.2)]> m) (props (before ++ after)) entries.
Proof.
  intros HE Hfresh. unfold props. rewrite !foldl_app. revert Hfresh HE.
  assert (Hafter : ∀ k, props (before ++ after) !! k = None →
    ∀ line, line ∈ after → active_row line → (row_entry line).1 ≠ k).
  { intros k Hk line Hl Ha Hr. destruct (props_defined (before ++ after) k ∅) as [x Hx].
    - exists line. set_solver.
    - unfold props in Hk. congruence. }
  generalize (foldl add_entry ∅ before). unfold props in Hafter.
  induction entries as [|[k v] entries IH]; intros m Hfresh HE; [done|].
  apply Forall_cons in HE as [[Hk Hv] HE]. cbn [fmap list_fmap foldl fst snd].
  unfold add_entry at 3. rewrite decide_True by (by apply active_line). rewrite row_entry_line by done. cbn [fst snd].
  rewrite IH; [|intros; apply Hfresh; cbn; by right|done]. f_equal.
  apply foldl_add_entry_insert. apply Hafter, Hfresh. cbn. by left.
Qed.

Lemma split_blacklist_app lines : (split_blacklist lines).1 ++ (split_blacklist lines).2 = lines.
Proof.
  induction lines as [|line lines IH]; [done|]. cbn. destruct (HasPrefix line "topics.blacklist"); [done|].
  destruct (split_blacklist lines). cbn in *. by rewrite IH.
Qed.

Lemma inserts_lookup (entries : list (string * string)) (m : gmap string propval) k :
  let m' := foldl (λ m e, <[e.1 := getTrimmedPropertyValue (" " +:+ e.2)]> m) m entries in
  (k ∉ entries.*1 → m' !! k = m !! k) ∧
  (∀ v, k ∈ entries.*1 → (∀ v', (k, v') ∈ entries → v' = v) → m' !! k = Some (getTrimmedPropertyValue (" " +:+ v))).
Proof.
  revert m. induction entries as [|[k1 v1] entries IH]; intros m.
  { split; [done|]. intros v Hin. cbn in Hin. by apply not_elem_of_nil in Hin. }
  cbn [foldl fst snd]. destruct (IH (<[k1 := getTrimmedPropertyValue (" " +:+ v1)]> m)) as (I1 & I2). split.
  - cbn. intros Hn. apply not_elem_of_cons in Hn as [Hk Hn]. rewrite I1 by done. by rewrite lookup_insert_ne.
  - intros v Hin Hall. destruct (decide (k ∈ entries.*1)) as [Hin'|Hin'].
    + apply I2; [done|]. intros; apply Hall; by right.
    + cbn in Hin. apply elem_of_cons in Hin as [->|Hin]; [|done]. rewrite I1 by done.
      rewrite lookup_insert_eq. do 3 f_equal. apply Hall. by left.
Qed.

(** *** The values written are clean *)

Lemma has_char_pieces c d s : has_char c s = false → Forall (λ w, has_char c w = false) (Split s d).
Proof.
  induction s as [|a s IH]; intros Hs; cbn; [by repeat constructor|].
  cbn in Hs. apply orb_false_elim in Hs as [Ha Hs]. specialize (IH Hs).
  destruct (bool_decide (a = d)); [by constructor|]. destruct (Split s d) as [|w ws]; [repeat constructor; cbn; by rewrite Ha|].
  apply Forall_cons in IH as [Hw IH]. constructor; [|done]. cbn. by rewrite Ha, Hw.
Qed.

Lemma has_char_Join c l sep : has_char c sep = false → Forall (λ w, has_char c w = false) l → has_char c (Join l sep) = false.
Proof.
  intros Hsep HF. induction HF as [|w l Hw HF IH]; [done|]. destruct l as [|w' l]; [by rewrite Join_single|].
  rewrite Join_cons, !has_char_app, Hw, Hsep, IH. done.
Qed.

Lemma Forall_Trim c l : Forall (λ w, has_char c w = false) l → Forall (λ w, has_char c w = false) (Trim <$> l).
Proof. intros HF. apply Forall_fmap. eapply Forall_impl; [exact HF|]. intros w. apply has_char_trim. Qed.

Lemma value_clean c s : has_char c s = false → Forall (λ w, has_char c w = false) (makeSlice (getTrimmedPropertyValue s)).
Proof.
  intros Hs. unfold getTrimmedPropertyValue. case_decide; cbn.
  - repeat constructor. by apply has_char_trim.
  - by apply Forall_Trim, has_char_pieces.
Qed.

Lemma row_entry_clean row : has_char newline row = false → Forall clean (makeSlice (row_entry row).2).
Proof.
  intros Hr. unfold row_entry. pose proof (Split_pieces row "=") as H1. pose proof (has_char_pieces newline "=" row Hr) as H2.
  destruct (Split row "=") as [|p0 [|p1 ps]]; [repeat constructor..|]. cbn.
  apply Forall_cons in H1 as [_ H1]. apply Forall_cons in H1 as [H1 _].
  apply Forall_cons in H2 as [_ H2]. apply Forall_cons in H2 as [H2 _].
  apply value_clean in H1. apply value_clean in H2. unfold clean. by apply Forall_and.
Qed.

Lemma props_clean lines m k x :
  Forall (λ l, has_char newline l = false) lines → (∀ y, m !! k = Some y → Forall clean (makeSlice y)) →
  foldl add_entry m lines !! k = Some x → Forall clean (makeSlice x).
Proof.
  revert m. induction lines as [|line lines IH]; intros m HF Hm; [apply Hm|].
  apply Forall_cons in HF as [Hl HF]. cbn. apply IH; [done|]. intros y. unfold add_entry. case_decide; [|apply Hm].
  rewrite lookup_insert. case_decide; [|apply Hm]. intros [= <-]. by apply row_entry_clean.
Qed.

Lemma getTrimmedSlice_clean topics : clean topics → Forall clean (getTrimmedSlice topics).
Proof.
  intros [H1 H2]. unfold getTrimmedSlice. apply (has_char_pieces _ ",") in H1, H2. apply Forall_Trim in H1, H2.
  unfold clean. by apply Forall_and.
Qed.

Lemma mergeTopics_clean old new : Forall clean old → Forall clean new → clean (mergeTopics old new).
Proof.
  intros Ho Hn. assert (HF : Forall clean (old ++ filter (λ t, t ∉ (list_to_set old : gset string)) new)).
  { apply Forall_app_2; [done|]. by apply Forall_filter. }
  unfold clean in *. apply Forall_and in HF as [H1 H2]. split; unfold mergeTopics; by apply has_char_Join.
Qed.

(** *** What [getUpdatedContent] collects *)

Definition enabled_key (flow : string) : string := flow +:+ ".enabled".
Definition topics_key (flow : string) : string := flow +:+ ".topics".

Definition new_entries (m : gmap string propval) (topics : string) (flow : string) : list (string * string) :=
  match m !! enabled_key flow with None => [(enabled_key flow, "true")] | Some _ => [] end ++
  match m !! topics_key flow with None => [(topics_key flow, topics)] | Some _ => [] end.

Definition merged (m : gmap string propval) (topics k : string) : option string :=
  x ← m !! k; Some (mergeTopics (makeSlice x) (getTrimmedSlice topics)).

Lemma flow_content_topics m topics c flow c1 :
  flow_content m topics c flow = Ret c1 →
  updateTopicLines c1 = match merged m topics (topics_key flow) with
                        | Some v => <[topics_key flow := v]> (updateTopicLines c)
                        | None => updateTopicLines c
                        end.
Proof.
  unfold flow_content, merged. fold (enabled_key flow) (topics_key flow). intros Ef.
  destruct (m !! topics_key flow) as [x|], (m !! enabled_key flow) as [[v|l]|]; cbn in *; try done;
    try case_decide; by simplify_eq/=.
Qed.

Lemma flows_content_spec m topics flows c c' :
  flows_content m topics flows c = Ret c' →
  turnOnReplicationPairs c' = turnOnReplicationPairs c ++ filter (λ k, m !! k = Some (PStr "false")) (enabled_key <$> flows) ∧
  (∀ k, updateTopicLines c' !! k =
     if decide (k ∈ topics_key <$> flows ∧ is_Some (m !! k)) then merged m topics k else updateTopicLines c !! k) ∧
  newLines c' = newLines c ++ ((λ e, line_of e.1 e.2) <$> (flows ≫= new_entries m topics)).
Proof.
  revert c. induction flows as [|flow flows IH]; intros c; cbn [flows_content].
  { cbn. intros [= <-]. rewrite !app_nil_r. split_and!; [done| |done]. intros k. rewrite decide_False; [done|].
    intros [Hin _]. by apply not_elem_of_nil in Hin. }
  destruct (flow_content m topics c flow) as [c1|e|] eqn:Ef; cbn [mbind outcome_bind]; [|done..]. intros Hc.
  apply IH in Hc as (H1 & H2 & H3). rewrite H1, H3. clear H1 H3 IH.
  pose proof Ef as Ef'. unfold flow_content in Ef. fold (enabled_key flow) (topics_key flow) in Ef. unfold new_entries.
  rewrite !fmap_cons, (filter_cons _ (enabled_key flow)), bind_cons, fmap_app.
  assert (HK : ∀ k, k ∈ topics_key flow :: (topics_key <$> flows) ↔ k = topics_key flow ∨ k ∈ topics_key <$> flows)
    by (intros; apply elem_of_cons).
  unfold merged in *.
  split_and!.
  - destruct (m !! enabled_key flow) as [[v|l]|]; cbn in Ef; [|done|].
    + case_decide as Hv; cbn in Ef; [subst v|rewrite decide_False by congruence].
      * rewrite decide_True by done. destruct (m !! topics_key flow); simplify_eq/=; by rewrite <- app_assoc.
      * destruct (m !! topics_key flow); by simplify_eq/=.
    + rewrite decide_False by done. destruct (m !! topics_key flow); by simplify_eq/=.
  - intros k. rewrite H2. clear H2.
    assert (Hc1 : updateTopicLines c1 !! k =
      if decide (k = topics_key flow ∧ is_Some (m !! k)) then merged m topics k else updateTopicLines c !! k).
    { rewrite (flow_content_topics _ _ _ _ _ Ef'). unfold merged.
      destruct (decide (k = topics_key flow)) as [->|Hk].
      - destruct (m !! topics_key flow) as [x|]; cbn.
        + rewrite lookup_insert_eq, decide_True; [done|]. split; [done|by eexists].
        + rewrite decide_False; [done|]. by intros [_ [??]].
      - rewrite decide_False by tauto. destruct (m !! topics_key flow); cbn; [|done]. by rewrite lookup_insert_ne. }
    rewrite Hc1. unfold merged. repeat case_decide; try done; exfalso; rewrite HK in *; tauto.
  - destruct (m !! enabled_key flow) as [[v|l]|]; cbn in Ef; [|done|]; try case_decide;
      destruct (m !! topics_key flow); simplify_eq/=; by rewrite <- ?app_assoc.
Qed.

Fixpoint last_char (d : ascii) (s : string) : ascii :=
  match s with EmptyString => d | String a s => last_char a s end.

Lemma last_char_app d s a t : last_char d (s +:+ String a t) = last_char a t.
Proof. revert d. induction s as [|b s IH]; intros d; [done|]. rewrite app_cons. cbn. apply IH. Qed.

Lemma enabled_topics_ne f g : enabled_key f ≠ topics_key g.
Proof. intros E. apply (f_equal (last_char " ")) in E. unfold enabled_key, topics_key in E. by rewrite !last_char_app in E. Qed.

Lemma new_entry_iff m topics flows k v :
  (k, v) ∈ flows ≫= new_entries m topics ↔
  m !! k = None ∧ ((k ∈ enabled_key <$> flows ∧ v = "true") ∨ (k ∈ topics_key <$> flows ∧ v = topics)).
Proof.
  rewrite list_elem_of_bind. unfold new_entries. split.
  - intros (f & Hin & Hf). apply elem_of_app in Hin as [Hin|Hin].
    + destruct (m !! enabled_key f) eqn:E; [by apply not_elem_of_nil in Hin|].
      apply list_elem_of_singleton in Hin as [= -> ->]. split; [done|]. left. split; [|done]. by apply list_elem_of_fmap_2.
    + destruct (m !! topics_key f) eqn:E; [by apply not_elem_of_nil in Hin|].
      apply list_elem_of_singleton in Hin as [= -> ->]. split; [done|]. right. split; [|done]. by apply list_elem_of_fmap_2.
  - intros (Hn & [[Hk ->]|[Hk ->]]); apply list_elem_of_fmap in Hk as (f & -> & Hf); exists f; (split; [|done]);
      rewrite Hn; set_solver.
Qed.

Lemma merge_entries_perm m topics flows c' entries k v :
  flows_content m topics flows (mkContent [] ∅ []) = Ret c' → entries ≡ₚ map_to_list (updateTopicLines c') →
  (k, v) ∈ entries ↔ k ∈ topics_key <$> flows ∧ merged m topics k = Some v.
Proof.
  intros Hc Hp. apply flows_content_spec in Hc as (_ & H2 & _). cbn in H2. rewrite Hp, elem_of_map_to_list, H2.
  case_decide as Hd; [tauto|]. rewrite lookup_empty. split; [done|]. intros [Hk Hm]. exfalso. apply Hd.
  split; [done|]. unfold merged in Hm. destruct (m !! k); [by eexists|done].
Qed.

Definition flow_keys (flows : list string) : list string := (enabled_key <$> flows) ++ (topics_key <$> flows).

(** The edits a request makes are on keys of its flows and their values can be read back. *)
Lemma edits_clean topics lines flows turnOn entries :
  Forall (λ l, has_char newline l = false) lines → clean topics →
  (∀ k, k ∈ turnOn → k ∈ enabled_key <$> flows) →
  (∀ k v, (k, v) ∈ entries → k ∈ topics_key <$> flows ∧ merged (props lines) topics k = Some v) →
  Forall (λ e, e.1 ∈ flow_keys flows ∧ clean e.2) (((λ k, (k, "true")) <$> turnOn) ++ entries).
Proof.
  intros Hnl Ht Hon Hent. apply Forall_app_2.
  - apply Forall_fmap, Forall_forall. intros k Hk. apply Hon in Hk. cbn. split; [unfold flow_keys; set_solver|done].
  - apply Forall_forall. intros [k v] Hin. apply Hent in Hin as [Hk Hv]. cbn. split; [unfold flow_keys; set_solver|].
    unfold merged in Hv. destruct (props _ !! k) as [x|] eqn:Ex; [|done]. cbn in Hv. injection Hv as <-.
    apply mergeTopics_clean; [|by apply getTrimmedSlice_clean]. eapply props_clean; [exact Hnl| |exact Ex].
    intros y. by rewrite lookup_empty.
Qed.

(** A flow is switched on by its edit and by nothing else. *)
Lemma enabled_edit (m : gmap string propval) turnOn entries f :
  is_Some (m !! enabled_key f) → enabled_key f ∈ turnOn → enabled_key f ∉ entries.*1 →
  foldl apply_edit m (((λ k, (k, "true")) <$> turnOn) ++ entries) !! enabled_key f = Some (PStr "true").
Proof.
  intros Hs Hin Hnt. set (edits := _ ++ entries). destruct (apply_edits_lookup edits m (enabled_key f)) as (_ & _ & H3).
  apply (H3 "true"); [done|..].
  - unfold edits. rewrite fmap_app, <- list_fmap_compose. apply elem_of_app. left. apply list_elem_of_fmap. by exists (enabled_key f).
  - intros v' Hv. unfold edits in Hv. apply elem_of_app in Hv as [Hv|Hv].
    + by apply list_elem_of_fmap in Hv as (? & [= _ ->] & _).
    + exfalso. apply Hnt. apply list_elem_of_fmap. by exists (enabled_key f, v').
Qed.

(** The two edits of existing lines, read back. *)
Lemma existing_lines_props content topics m flows c entries :
  GetProperties content = Ret m → editable (flow_keys flows) (Split content newline) → clean topics →
  flows_content m topics flows (mkContent [] ∅ []) = Ret c → entries ≡ₚ map_to_list (updateTopicLines c) →
  let lines := updateTopics entries (setEnabledReplication (turnOnReplicationPairs c) (Split content newline)) in
  good_lines (flow_keys flows) lines ∧
  (∀ k, m !! k = None → props lines !! k = None) ∧
  (∀ k, k ∉ flow_keys flows → props lines !! k = m !! k) ∧
  (∀ f, f ∈ flows → is_Some (m !! enabled_key f) → props lines !! enabled_key f =
     if decide (m !! enabled_key f = Some (PStr "false")) then Some (PStr "true") else m !! enabled_key f) ∧
  (∀ f v, f ∈ flows → merged m topics (topics_key f) = Some v →
     props lines !! topics_key f = Some (getTrimmedPropertyValue (" " +:+ v))).
Proof.
  intros Hm Hed Ht Hc Hp lines. apply GetProperties_props in Hm as [Hpa ->].
  pose proof (λ k v, merge_entries_perm _ _ _ _ _ k v Hc Hp) as Hent.
  apply flows_content_spec in Hc as (H1 & _ & _). cbn in H1.
  assert (Hnl : Forall (λ l, has_char newline l = false) (Split content newline)) by apply Split_pieces.
  set (edits := ((λ k, (k, "true")) <$> turnOnReplicationPairs c) ++ entries).
  assert (Hlines : lines = updateTopics edits (Split content newline)).
  { unfold lines, edits. rewrite setEnabledReplication_edits. unfold updateTopics. by rewrite foldl_app. }
  assert (HF : Forall (λ e, e.1 ∈ flow_keys flows ∧ clean e.2) edits).
  { apply (edits_clean topics (Split content newline)); [done..| |by intros k v ?%Hent].
    intros k. rewrite H1. intros [_ Hk]%list_elem_of_filter. done. }
  destruct (updateTopics_good (flow_keys flows) edits (Split content newline)) as [Hg Hpr]; [by split|done|].
  rewrite Hlines. split; [done|]. rewrite Hpr. set (m := props (Split content newline)) in *.
  assert (Hon : ∀ k, k ∈ edits.*1 → (k ∈ enabled_key <$> flows ∧ m !! k = Some (PStr "false")) ∨ k ∈ entries.*1).
  { intros k. unfold edits. rewrite fmap_app, elem_of_app, <- list_fmap_compose. intros [Hk|Hk]; [left|by right].
    rewrite H1 in Hk. apply list_elem_of_fmap in Hk as (k' & -> & Hk). cbn. apply list_elem_of_filter in Hk. tauto. }
  assert (Hen : ∀ k, k ∈ entries.*1 → k ∈ topics_key <$> flows).
  { intros k Hk. apply list_elem_of_fmap in Hk as ([k' v] & -> & Hk). apply Hent in Hk. tauto. }
  split_and!.
  - intros k Hk. by apply apply_edits_lookup.
  - intros k Hk. apply apply_edits_lookup. intros Hin. apply Hk. unfold flow_keys.
    apply Hon in Hin as [[? _]|Hin]; [set_solver|]. apply Hen in Hin. set_solver.
  - intros f Hf Hs. assert (Hnt : enabled_key f ∉ entries.*1).
    { intros Hin. apply Hen, list_elem_of_fmap in Hin as (g & E & _). by apply enabled_topics_ne in E. }
    case_decide as Hd.
    + apply enabled_edit; [done| |done]. rewrite H1. apply list_elem_of_filter. split; [done|]. by apply list_elem_of_fmap_2.
    + apply apply_edits_lookup. intros Hin. apply Hon in Hin as [[_ ?]|?]; done.
  - intros f v Hf Hv. destruct (apply_edits_lookup edits m (topics_key f)) as (_ & _ & H3). apply H3.
    + unfold merged in Hv. destruct (m !! topics_key f); [by eexists|done].
    + unfold edits. rewrite fmap_app. apply elem_of_app. right. apply list_elem_of_fmap. exists (topics_key f, v).
      split; [done|]. apply Hent. split; [by apply list_elem_of_fmap_2|done].
    + intros v' Hin. unfold edits in Hin. apply elem_of_app in Hin as [Hin|Hin].
      * apply list_elem_of_fmap in Hin as (k & [= <- ->] & Hk). rewrite H1 in Hk.
        apply list_elem_of_filter in Hk as [_ Hk]. apply list_elem_of_fmap in Hk as (g & E & _).
        symmetry in E. by apply enabled_topics_ne in E.
      * apply Hent in Hin as [_ Hin]. congruence.
Qed.

(** Lines put among others: what is read, and that the lines can be written and read back. *)
Lemma setNewProperties_props lines (es : list (string * string)) :
  Forall parses lines → Forall (λ l, has_char newline l = false) lines →
  Forall (λ e, plain e.1 ∧ clean e.2) es → (∀ k, k ∈ es.*1 → props lines !! k = None) →
  let updateContent := Join ((λ e, line_of e.1 e.2) <$> es) nl in
  let lines' := if decide (updateContent ≠ "") then setNewProperties updateContent lines else lines in
  Forall parses lines' ∧ Forall (λ l, has_char newline l = false) lines' ∧
  props lines' = foldl (λ m e, <[e.1 := getTrimmedPropertyValue (" " +:+ e.2)]> m) (props lines) es.
Proof.
  intros Hpa Hnl HE Hfresh updateContent lines'.
  assert (HL : Forall (λ l, has_char newline l = false) ((λ e, line_of e.1 e.2) <$> es)).
  { apply Forall_fmap. eapply Forall_impl; [exact HE|]. intros [k v] [(_ & _ & _ & _ & Hk) [_ Hv]]. cbn in *.
    by rewrite has_char_line_of, Hk, Hv. }
  destruct es as [|[k v] es]; [done|].
  assert (Hne : updateContent ≠ "").
  { unfold updateContent. apply Forall_cons in HE as [[[Hk _] _] _]. cbn in Hk. destruct k as [|a k]; [done|].
    rewrite fmap_cons. cbn [fst snd]. unfold line_of at 1. rewrite app_cons, Join_head_cons. done. }
  assert (Hl : lines' = (split_blacklist lines).1 ++ ((λ e, line_of e.1 e.2) <$> ((k, v) :: es)) ++ (split_blacklist lines).2).
  { unfold lines', setNewProperties. rewrite decide_True by done.
    destruct (split_blacklist lines) as [b a]. cbn [fst snd]. do 2 f_equal. unfold updateContent, nl.
    apply Split_Join; [done|exact HL]. }
  pose proof (split_blacklist_app lines) as Hs. destruct (split_blacklist lines) as [b a]. cbn [fst snd] in *.
  rewrite Hl. rewrite <- Hs in Hpa, Hnl, Hfresh |- *. apply Forall_app in Hpa as [? ?]. apply Forall_app in Hnl as [? ?].
  split_and!.
  - apply Forall_app_2; [done|]. apply Forall_app_2; [|done]. apply Forall_fmap. eapply Forall_impl; [exact HE|].
    intros e [? _]. by apply parses_line.
  - by repeat apply Forall_app_2.
  - apply props_insert; [|done]. eapply Forall_impl; [exact HE|]. intros e [? [? _]]. done.
Qed.

Lemma setUpdatedContent_not_nil turnOn entries updateContent content :
  setUpdatedContent turnOn entries updateContent content ≠ [].
Proof.
  assert (HU : ∀ es ls, ls ≠ [] → updateTopics es ls ≠ []).
  { induction es as [|[k v] es IH]; intros ls Hl; [done|]. cbn. apply IH. unfold set_line. by destruct ls. }
  assert (HL : updateTopics entries (setEnabledReplication turnOn (Split content newline)) ≠ []).
  { rewrite setEnabledReplication_edits. apply HU, HU, Split_not_nil. }
  unfold setUpdatedContent. case_decide; [|done]. unfold setNewProperties.
  pose proof (split_blacklist_app (updateTopics entries (setEnabledReplication turnOn (Split content newline)))) as Hs.
  destruct (split_blacklist _) as [b a]. cbn in Hs. intros E. apply app_nil in E as [-> E]. apply app_nil in E as [E _].
  by apply Split_not_nil in E.
Qed.

(** C21. The edit of the mirror maker properties, read back with the reader the operator itself
    uses: after it every requested flow is enabled (an enabled value other than false stays),
    the topics of the flow are the ones that were there followed by the requested new ones (the
    requested ones where there were none), and every other property has the value it had.  It
    holds when the names written are plain, none a prefix of another, and each of their lines
    starts with the name (no indentation, no longer name with the same beginning), and does not
    depend on the order in which the map of topic lines is ranged over. *)
Theorem updated_content_properties content topics m targetDc sourceDc turnOn topicLines newContent entries :
  GetProperties content = Ret m →
  getUpdatedContent targetDc sourceDc m topics = Ret (turnOn, topicLines, newContent) →
  entries ≡ₚ map_to_list topicLines →
  editable (flow_keys (getDcPairs targetDc sourceDc)) (Split content newline) → clean topics →
  ∃ m', GetProperties (Join (setUpdatedContent turnOn entries newContent content) nl) = Ret m' ∧
    (∀ f, f ∈ getDcPairs targetDc sourceDc →
       m' !! (f +:+ ".enabled") =
         Some (match m !! (f +:+ ".enabled") with
               | Some v => if decide (v = PStr "false") then PStr "true" else v
               | None => PStr "true"
               end) ∧
       m' !! (f +:+ ".topics") =
         Some (getTrimmedPropertyValue (" " +:+
           match m !! (f +:+ ".topics") with
           | Some v => mergeTopics (makeSlice v) (getTrimmedSlice topics)
           | None => topics
           end))) ∧
    (∀ k, k ∉ flow_keys (getDcPairs targetDc sourceDc) → m' !! k = m !! k).
Proof.
  intros Hm Hu Hp Hed Ht. unfold getUpdatedContent in Hu. set (flows := getDcPairs targetDc sourceDc) in *.
  destruct (flows_content m topics flows (mkContent [] ∅ [])) as [c|e|] eqn:Hc; cbn in Hu; [|done..].
  injection Hu as <- <- <-.
  destruct (existing_lines_props _ _ _ _ _ _ Hm Hed Ht Hc Hp) as (Hg & Hnone & Hother & Hen & Htop).
  apply flows_content_spec in Hc as (_ & _ & H3). cbn in H3.
  set (lines := updateTopics entries (setEnabledReplication (turnOnReplicationPairs c) (Split content newline))) in *.
  set (es := flows ≫= new_entries m topics) in *.
  assert (Hes : ∀ k, k ∈ es.*1 → m !! k = None ∧ k ∈ flow_keys flows).
  { intros k Hk. apply list_elem_of_fmap in Hk as ([k' v] & -> & Hk). apply new_entry_iff in Hk. unfold flow_keys. set_solver. }
  destruct Hg as ((HP & _ & _) & Hpa & Hnl).
  destruct (setNewProperties_props lines es) as (Hpa' & Hnl' & Hpr); [done..| |by intros k [? _]%Hes; apply Hnone|].
  { apply Forall_forall. intros [k v] Hin. cbn. split.
    - rewrite Forall_forall in HP. apply HP. apply Hes. apply list_elem_of_fmap. by exists (k, v).
    - apply new_entry_iff in Hin as (_ & [[_ ->]|[_ ->]]); done. }
  set (lines' := if decide _ then _ else _) in *.
  assert (Hset : setUpdatedContent (turnOnReplicationPairs c) entries (Join (newLines c) nl) content = lines').
  { unfold setUpdatedContent, lines'. rewrite H3. done. }
  exists (props lines'). rewrite Hset. split; [|split].
  - apply GetProperties_props. unfold nl. rewrite Split_Join; [done| |done].
    rewrite <- Hset. apply setUpdatedContent_not_nil.
  - intros f Hf. fold (enabled_key f) (topics_key f). rewrite Hpr.
    destruct (inserts_lookup es (props lines) (enabled_key f)) as [E1 E2].
    destruct (inserts_lookup es (props lines) (topics_key f)) as [T1 T2]. split.
    + destruct (m !! enabled_key f) as [v|] eqn:Ev.
      * rewrite E1 by (intros [? _]%Hes; congruence). rewrite Hen, Ev by (done || by eexists).
        repeat case_decide; congruence.
      * apply (E2 "true"); [|intros v' [_ [[_ ?]|[Hk _]]]%new_entry_iff; [done|]].
        -- apply list_elem_of_fmap. exists (enabled_key f, "true"). split; [done|]. apply new_entry_iff. split; [done|].
           left. split; [by apply list_elem_of_fmap_2|done].
        -- apply list_elem_of_fmap in Hk as (g & E & _). by apply enabled_topics_ne in E.
    + destruct (m !! topics_key f) as [v|] eqn:Ev.
      * rewrite T1 by (intros [? _]%Hes; congruence). apply Htop; [done|]. unfold merged. by rewrite Ev.
      * apply T2; [|intros v' [_ [[Hk _]|[_ ?]]]%new_entry_iff; [|done]].
        -- apply list_elem_of_fmap. exists (topics_key f, topics). split; [done|]. apply new_entry_iff. split; [done|].
           right. split; [by apply list_elem_of_fmap_2|done].
        -- apply list_elem_of_fmap in Hk as (g & E & _). symmetry in E. by apply enabled_topics_ne in E.
  - intros k Hk. rewrite Hpr. destruct (inserts_lookup es (props lines) k) as [E1 _].
    rewrite E1; [by apply Hother|]. intros [_ ?]%Hes. done.
Qed.

(** ** Data centres *)

Lemma check_each_ok bad message l s : check_each bad message l s = (Ret tt, s) ↔ Forall (λ dc, bad dc = false) l.
Proof.
  induction l as [|dc l IH]; cbn; [split; [constructor|done]|]. rewrite Forall_cons. destruct (bad dc).
  - split; [done|]. by intros [? _].
  - rewrite IH. tauto.
Qed.

Lemma check_each_cases bad message l s :
  check_each bad message l s = (Ret tt, s) ∨
  ∃ dc, dc ∈ l ∧ bad dc = true ∧
        check_each bad message l s = (Error configurationError, addMessageToErrorMap "targetDc" (message dc) s).
Proof.
  induction l as [|dc l IH]; cbn; [by left|]. destruct (bad dc) eqn:E.
  - right. exists dc. split; [by left|done].
  - destruct IH as [->|(dc' & ? & ? & ->)]; [by left|]. right. exists dc'. split; [by right|done].
Qed.

Lemma checkSourceDc_cases l (clusters : gset string) s :
  (checkSourceDc l clusters s = (Ret tt, s) ∧ Forall (.∈ clusters) l) ∨
  ∃ dc, dc ∈ l ∧ (dc ∉ clusters) ∧
        checkSourceDc l clusters s = (Error configurationError,
          addMessageToErrorMap "sourceDc" (dc +:+ " - 'clusters' property does not contain current source dc") s).
Proof.
  induction l as [|dc l IH]; cbn; [by left|]. destruct (decide (dc ∈ clusters)) as [E|E].
  - destruct IH as [[-> ?]|(dc' & ? & ? & ->)]; [left; by split; [|constructor]|].
    right. exists dc'. split; [by right|done].
  - right. exists dc. split; [by left|done].
Qed.

Lemma contains_Contains value l : contains value l = Contains value l.
Proof. unfold contains. case_decide; [by subst l|done]. Qed.

Lemma checkTargetDc_ok crDc configMapDc clusters s s' :
  checkTargetDc crDc configMapDc clusters s = (Ret tt, s') →
  s' = s ∧ Forall (λ dc, match configMapDc with Some l => dc ∈ l | None => dc ∈ clusters end) crDc.
Proof.
  unfold checkTargetDc. destruct configMapDc as [l|]; intros HC.
  - destruct (check_each_cases (λ cr, negb (contains cr l)) (λ cr, cr +:+ " - target.dc property does not contain target dc")
      crDc s) as [E|(? & _ & _ & E)]; rewrite E in HC; [|done]. injection HC as <-. split; [done|].
    apply check_each_ok in E. eapply Forall_impl; [exact E|]. intros dc Hd. cbn in Hd.
    apply negb_false_iff in Hd. rewrite contains_Contains in Hd. by apply Contains_spec.
  - edestruct check_each_cases as [E|(? & _ & _ & E)]; rewrite E in HC; [|done]. injection HC as <-. split; [done|].
    apply check_each_ok in E. eapply Forall_impl; [exact E|]. intros dc Hd. cbn in Hd.
    apply negb_false_iff in Hd. by apply bool_decide_eq_true in Hd.
Qed.

Lemma clusters_of_inv m s cl s' : clusters_of m s = (Ret cl, s') → m !! "clusters" = Some (PList cl) ∧ s' = s.
Proof. unfold clusters_of. destruct (m !! "clusters") as [[]|]; [done| |done]. by intros [= <- <-]. Qed.

(** The targets a run resolves to. *)
Definition good_targets (topics : KmmTopics) (m : gmap string propval) (clusters targetDc : list string) : Prop :=
  (TargetDc topics ≠ "" → targetDc = getTrimmedSlice (TargetDc topics)) ∧
  match target_of_config m with
  | Some l => Forall (.∈ l) targetDc
  | None => TargetDc topics ≠ "" ∧ Forall (.∈ clusters) targetDc
  end.

(** The sources: the requested ones, all of them clusters, or the clusters that are not targets. *)
Definition good_sources (topics : KmmTopics) (clusters targetDc sourceDc : list string) : Prop :=
  if decide (SourceDc topics ≠ "") then
    sourceDc = getTrimmedSlice (SourceDc topics) ∧ Forall (.∈ clusters) sourceDc
  else ∀ dc, dc ∈ sourceDc ↔ dc ∈ clusters ∧ dc ∉ targetDc.

Lemma resolve_targets_spec topics m clusters errs :
  match resolve_targets topics (target_of_config m) (list_to_set clusters) errs with
  | (Ret targetDc, s) => s = errs ∧ good_targets topics m clusters targetDc
  | (Error e, s) => e = configurationError ∧ ∃ message, s = addMessageToErrorMap "targetDc" message errs
  | (Panic, _) => False
  end.
Proof.
  unfold resolve_targets, good_targets. case_decide as Ht.
  - unfold mbind, M_bind. destruct (checkTargetDc _ _ _ errs) as [[[]|e|] s] eqn:E.
    + apply checkTargetDc_ok in E as [-> HF]. split; [done|]. split; [done|].
      destruct (target_of_config m); [done|]. split; [done|]. eapply Forall_impl; [exact HF|].
      intros dc. by rewrite elem_of_list_to_set.
    + unfold checkTargetDc in E. destruct (target_of_config m);
        edestruct check_each_cases as [E1|(dc & _ & _ & E1)]; rewrite E1 in E; simplify_eq/=; eauto.
    + unfold checkTargetDc in E. destruct (target_of_config m);
        edestruct check_each_cases as [E1|(dc & _ & _ & E1)]; rewrite E1 in E; by simplify_eq/=.
  - destruct (target_of_config m); [|unfold mbind, M_bind; cbn; eauto].
    cbn. split; [done|]. split; [done|]. by apply Forall_forall.
Qed.

Lemma resolve_sources_spec topics targetDc clusters errs :
  match resolve_sources topics targetDc clusters (list_to_set clusters) errs with
  | (Ret sourceDc, s) => s = errs ∧ good_sources topics clusters targetDc sourceDc
  | (Error e, s) => e = configurationError ∧ ∃ message, s = addMessageToErrorMap "sourceDc" message errs
  | (Panic, _) => False
  end.
Proof.
  unfold resolve_sources, good_sources, mbind, M_bind. case_decide as Hs.
  - destruct (checkSourceDc_cases (getTrimmedSlice (SourceDc topics)) (list_to_set clusters) errs)
      as [[-> HF]|(dc & _ & _ & ->)]; cbn; [|eauto]. split_and!; [done..|].
    eapply Forall_impl; [exact HF|]. intros dc. by rewrite elem_of_list_to_set.
  - cbn. split; [done|]. intros dc. rewrite list_elem_of_filter, contains_Contains, Contains_false. tauto.
Qed.

(** When the data centres are resolved, no message was recorded, every target is one of the
    configured targets (or a cluster, when none are configured), every source is a cluster, and
    sources that were not requested are exactly the clusters that are not targets.  A failure has
    recorded a message, of the target or of the source; without a list of clusters the code panics. *)
Theorem recognizeTargetAndSourceDc_sound topics m errs :
  match recognizeTargetAndSourceDc topics m errs with
  | (Ret (targetDc, sourceDc), errs') =>
      errs' = errs ∧ ∃ clusters, m !! "clusters" = Some (PList clusters) ∧
        good_targets topics m clusters targetDc ∧ good_sources topics clusters targetDc sourceDc
  | (Error e, errs') =>
      e = configurationError ∧
      ∃ key message, (key = "targetDc" ∨ key = "sourceDc") ∧ errs' = addMessageToErrorMap key message errs
  | (Panic, errs') => errs' = errs ∧ ∀ clusters, m !! "clusters" ≠ Some (PList clusters)
  end.
Proof.
  unfold recognizeTargetAndSourceDc, clusters_of.
  destruct (m !! "clusters") as [[v|clusters]|] eqn:Ec; [by split|cbn|by split].
  unfold mbind, M_bind. cbn. pose proof (resolve_targets_spec topics m clusters errs) as HT.
  destruct (resolve_targets _ _ _ errs) as [[targetDc|e|] s]; [|destruct HT as [-> [message ->]]; split; [done|]; exists "targetDc", message; auto|done].
  destruct HT as [-> HT]. pose proof (resolve_sources_spec topics targetDc clusters errs) as HS.
  destruct (resolve_sources _ _ _ _ errs) as [[sourceDc|e|] s]; [|destruct HS as [-> [message ->]]; split; [done|]; exists "sourceDc", message; auto|done].
  destruct HS as [-> HS]. cbn. split; [done|]. by exists clusters.
Qed.

Lemma getDcPairs_spec targetDc sourceDc f :
  f ∈ getDcPairs targetDc sourceDc ↔
  ∃ s t, s ∈ sourceDc ∧ t ∈ targetDc ∧ s ≠ t ∧ f = NewReplicationFlow s t.
Proof.
  unfold getDcPairs. rewrite list_elem_of_bind. setoid_rewrite list_elem_of_bind. split.
  - intros (s & (t & Hf & Ht) & Hs). case_decide as E; [by apply not_elem_of_nil in Hf|].
    apply list_elem_of_singleton in Hf. eauto 10.
  - intros (s & t & Hs & Ht & Hne & ->). exists s. split; [|done]. exists t. split; [|done].
    rewrite decide_False by done. by apply list_elem_of_singleton.
Qed.

(** *** Topics *)

Lemma mergeTopics_split old new :
  old ≠ [] → Forall (λ t, has_char "," t = false) (old ++ new) →
  Split (mergeTopics old new) "," = old ++ filter (λ t, t ∉ old) new.
Proof.
  intros Hne HF. unfold mergeTopics. rewrite Split_Join.
  - f_equal. apply list_filter_iff. intros x. by rewrite elem_of_list_to_set.
  - by destruct old.
  - apply Forall_app in HF as [? ?]. apply Forall_app_2; [done|]. by apply Forall_filter.
Qed.

(** Merging topics keeps the existing topics first and in order, adds exactly the requested
    ones that were missing, and merging the same request again changes nothing. *)
Theorem mergeTopics_adds_missing old new :
  old ≠ [] → Forall (λ t, has_char "," t = false) (old ++ new) →
  let topics := Split (mergeTopics old new) "," in
  old `prefix_of` topics ∧ (∀ t, t ∈ topics ↔ t ∈ old ∨ t ∈ new) ∧
  mergeTopics topics new = mergeTopics old new.
Proof.
  intros Hne HF topics. assert (E : topics = old ++ filter (λ t, t ∉ old) new) by (by apply mergeTopics_split).
  assert (Hin : ∀ t, t ∈ topics ↔ t ∈ old ∨ t ∈ new).
  { intros t. rewrite E, elem_of_app, list_elem_of_filter. destruct (decide (t ∈ old)); tauto. }
  split_and!; [rewrite E; by eexists|done|].
  rewrite <- (Join_Split (mergeTopics old new) ","). fold topics. unfold mergeTopics.
  rewrite filter_none, app_nil_r; [done|]. apply Forall_forall. intros t Ht Hn. apply Hn.
  apply elem_of_list_to_set, Hin. by right.
Qed.

(** ** The controller *)

(** A property whose name starts with the name of a written one is overwritten with it: in a
    configuration that has a block list for a flow, adding topics to the flow replaces the block
    list by a second copy of the topics, so that the blocked topics are replicated. *)
Theorem updateTopics_clobbers_longer_names :
  let content := "a->b.enabled = true" +:+ nl +:+ "a->b.topics = events" +:+ nl +:+ "a->b.topics.blacklist = secret" in
  let m := props (Split content newline) in
  GetProperties content = Ret m ∧ m !! "a->b.topics.blacklist" = Some (PStr "secret") ∧
  match getUpdatedContent ["b"] ["a"] m "orders" with
  | Ret (turnOn, topicLines, newContent) =>
      let m' := props (setUpdatedContent turnOn (map_to_list topicLines) newContent content) in
      m' !! "a->b.topics" = Some (PList ["events"; "orders"]) ∧ m' !! "a->b.topics.blacklist" = None
  | _ => False
  end.
Proof.
  intros content m. split; [|split].
  - apply GetProperties_props. split; [|done]. refine (bool_decide_eq_true_1 _ _). vm_compute. reflexivity.
  - vm_compute. reflexivity.
  - vm_compute. split; reflexivity.
Qed.

(** The message of the status never mentions the problems of the source data centre: it does
    not depend on the source entry of the error map, and repeats the target problems instead. *)
Theorem generateErrorMessage_ignores_source failed errs sourceErrs :
  generateErrorMessage failed (<["sourceDc" := sourceErrs]> errs) = generateErrorMessage failed errs ∧
  (map_get [] errs "targetDc" = [] →
   generateErrorMessage failed errs = if failed then "topics were not added" else "") ∧
  (Join (map_get [] errs "targetDc") nl ≠ "" →
   generateErrorMessage failed errs =
     (if failed then "topics were not added" else "") +:+ "; Problem target dc: " +:+ Join (map_get [] errs "targetDc") nl +:+
     "; Problem source dc: " +:+ Join (map_get [] errs "targetDc") nl).
Proof.
  unfold generateErrorMessage. split_and!.
  - unfold map_get. by rewrite lookup_insert_ne.
  - intros ->. done.
  - intros Hn. rewrite !decide_True by done. destruct failed; by rewrite !app_assoc_s.
Qed.

(** The histories and results of a reconciliation. *)
Inductive kmm_history (range : strmap → list (string * string)) (operatorName operatorNamespace ApiGroup : string)
    (periodTime : Z) (namespace name : string) : list event → outcome Result → Prop :=
  | kmm_no_resource e :
      kmm_history range operatorName operatorNamespace ApiGroup periodTime namespace name
        [Ev (Get KKmmConfig name namespace) (inr e)] (if IsNotFound e then Ret (mkResult 0) else Error e)
  | kmm_other_group inst : ApiGroupMatches (kmm_APIVersion inst) ApiGroup = Ret false →
      kmm_history range operatorName operatorNamespace ApiGroup periodTime namespace name
        [Ev (Get KKmmConfig name namespace) (inl inst)] (Ret (mkResult 0))
  | kmm_unreadable inst cmName e r : GetKmmConfigMapName operatorName = Ret cmName →
      kmm_history range operatorName operatorNamespace ApiGroup periodTime namespace name
        [Ev (Get KKmmConfig name namespace) (inl inst);
         Ev (Get KConfigMap cmName operatorNamespace) (inr e);
         Ev (StatusUpdate KKmmConfig (set_kmm_Status (mkKmmStatus true "topics were not added") inst)) r]
        (Ret (mkResult periodTime))
  | kmm_refused inst cmName cm topics e errs r : GetKmmConfigMapName operatorName = Ret cmName →
      kmm_KmmTopics inst = Some topics →
      new_config range inst topics (sget (cm_Data cm) "config") initial_errors = (Error e, errs) →
      kmm_history range operatorName operatorNamespace ApiGroup periodTime namespace name
        [Ev (Get KKmmConfig name namespace) (inl inst);
         Ev (Get KConfigMap cmName operatorNamespace) (inl cm);
         Ev (StatusUpdate KKmmConfig (set_kmm_Status (mkKmmStatus true (generateErrorMessage true errs)) inst)) r]
        (Ret (mkResult periodTime))
  | kmm_written inst cmName cm topics config errs w r : GetKmmConfigMapName operatorName = Ret cmName →
      kmm_KmmTopics inst = Some topics →
      new_config range inst topics (sget (cm_Data cm) "config") initial_errors = (Ret config, errs) →
      kmm_history range operatorName operatorNamespace ApiGroup periodTime namespace name
        [Ev (Get KKmmConfig name namespace) (inl inst);
         Ev (Get KConfigMap cmName operatorNamespace) (inl cm);
         Ev (Update KConfigMap (set_cm_Data (<["config" := config]> (cm_Data cm)) cm)) w;
         Ev (StatusUpdate KKmmConfig (set_kmm_Status (mkKmmStatus true
               (generateErrorMessage (match w with inl _ => false | inr _ => true end) errs)) inst)) r]
        (Ret (mkResult (match w, r with inl _, inl _ => 0 | _, _ => periodTime end))).

Section controller_properties.
Context `{Env W}.
Context (range : strmap → list (string * string)) (operatorName operatorNamespace ApiGroup : string) (periodTime : Z).

(** The status is written with the messages recorded so far. *)
Lemma updateCrStatus_eq instance failed (s : St W errmap) :
  ∃ r w, try (updateCrStatus instance failed) s =
    (Ret (match r with inl _ => inl tt | inr e => inr e end),
     mkSt w (trace s ++ [Ev (StatusUpdate KKmmConfig
       (set_kmm_Status (mkKmmStatus true (generateErrorMessage failed (local s))) instance)) r]) (local s)).
Proof.
  unfold updateCrStatus, get_local, try, gets, request, mbind, M_bind, mret, M_ret. cbn.
  destruct (perform _ _ (world s)) as [[o|e] w] eqn:E; [exists (inl o), w|exists (inr e), w]; done.
Qed.

(** The outcomes of the update of the config map, with what each adds to the history. *)
Lemma UpdateKmmConfigMap_cases inst (s : St W errmap) o s' :
  try (UpdateKmmConfigMap range operatorName operatorNamespace inst) s = (o, s') → o ≠ Panic →
  ∃ cmName topics, GetKmmConfigMapName operatorName = Ret cmName ∧ kmm_KmmTopics inst = Some topics ∧
  ((∃ e, o = Ret (inr e) ∧ trace s' = trace s ++ [Ev (Get KConfigMap cmName operatorNamespace) (inr e)] ∧ local s' = local s) ∨
   (∃ cm e, o = Ret (inr e) ∧ trace s' = trace s ++ [Ev (Get KConfigMap cmName operatorNamespace) (inl cm)] ∧
      new_config range inst topics (sget (cm_Data cm) "config") (local s) = (Error e, local s')) ∨
   (∃ cm config r, o = Ret (match r with inl _ => inl tt | inr e => inr e end) ∧
      trace s' = trace s ++ [Ev (Get KConfigMap cmName operatorNamespace) (inl cm);
        Ev (Update KConfigMap (set_cm_Data (<["config" := config]> (cm_Data cm)) cm)) r] ∧
      new_config range inst topics (sget (cm_Data cm) "config") (local s) = (Ret config, local s'))).
Proof.
  unfold try, UpdateKmmConfigMap. destruct (kmm_KmmTopics inst) as [topics|]; [|by intros [= <- _]].
  unfold mbind, M_bind, lift.
  destruct (GetKmmConfigMapName operatorName) as [cmName|e|] eqn:Enm;
    [|by apply GetKmmConfigMapName_no_error in Enm|by intros [= <- _]].
  unfold request at 1. cbn. destruct (perform _ _ (world s)) as [[cm|e] w2] eqn:E2; cbn.
  2: { intros [= <- <-] _. exists cmName, topics. split_and!; [done..|]. left. by exists e. }
  unfold on_local. cbn. destruct (new_config _ _ _ _ (local s)) as [[config|e|] errs] eqn:Ecfg; cbn.
  - unfold request. cbn. intros HR _. exists cmName, topics. split_and!; [done..|]. right. right.
    destruct (perform _ _ w2) as [[cm'|e] w3] eqn:E3; cbn in HR; injection HR as <- <-; exists cm, config;
      [exists (inl cm')|exists (inr e)]; cbn; by rewrite <- app_assoc.
  - intros [= <- <-] _. exists cmName, topics. split_and!; [done..|]. right. left. by exists cm, e.
  - by intros [= <- _].
Qed.

(** C22. Every reconciliation that does not panic has one of five histories, whatever the API
    server answers: the resource is gone or unreadable; it belongs to another API group and
    nothing is written; the config map cannot be read, or the request is refused, and only the
    status is written, saying that the topics were not added, with the recorded target problems;
    or the config map as it was read is written back with the edited configuration and the status
    says whether that succeeded.  It is tried again exactly when something failed. *)
Theorem Reconcile_history namespace name (s : St W errmap) o s' :
  Reconcile range operatorName operatorNamespace ApiGroup periodTime namespace name s = (o, s') → o ≠ Panic →
  ∃ tr, trace s' = trace s ++ tr ∧
        kmm_history range operatorName operatorNamespace ApiGroup periodTime namespace name tr o.
Proof.
  unfold Reconcile. unfold mbind at 1, M_bind at 1, try at 1, request at 1. cbn.
  destruct (perform _ _ (world s)) as [[inst|e] w1] eqn:E1; cbn.
  2: { intros HR _. exists [Ev (Get KKmmConfig name namespace) (inr e)].
       pose proof (kmm_no_resource range operatorName operatorNamespace ApiGroup periodTime namespace name e) as HH.
       destruct (IsNotFound e); by injection HR as <- <-. }
  unfold mbind at 1, M_bind at 1, lift.
  destruct (ApiGroupMatches_total (kmm_APIVersion inst) ApiGroup) as [[] Eg]; rewrite Eg; cbn [negb].
  2: { intros [= <- <-] _. eexists. split; [done|]. by apply kmm_other_group. }
  unfold mbind, M_bind, modify_local, modify. cbn. set (s1 := mkSt w1 _ initial_errors).
  destruct (try (UpdateKmmConfigMap _ _ _ inst) s1) as [ou s2] eqn:EU. intros HR Hp.
  assert (Hou : ou ≠ Panic) by (intros ->; by injection HR as <- _).
  apply UpdateKmmConfigMap_cases in EU; [|done]. destruct EU as (cmName & topics & Enm & Et & HC).
  assert (Hs1 : trace s1 = trace s ++ [Ev (Get KKmmConfig name namespace) (inl inst)]) by done.
  destruct HC as [(e & -> & Htr & Hl)|[(cm & e & -> & Htr & Hcfg)|(cm & config & w & -> & Htr & Hcfg)]].
  - destruct (updateCrStatus_eq inst true s2) as (r & w3 & Es). rewrite Es, Hl in HR. injection HR as <- <-.
    eexists. split; [cbn; rewrite Htr, Hs1, <- !app_assoc; done|]. cbn. by apply kmm_unreadable.
  - destruct (updateCrStatus_eq inst true s2) as (r & w3 & Es). rewrite Es in HR. injection HR as <- <-.
    eexists. split; [cbn; rewrite Htr, Hs1, <- !app_assoc; done|]. cbn. by eapply kmm_refused.
  - set (failed := match (match w with inl _ => inl tt | inr e => inr e end : unit + gerror) with inl _ => false | inr _ => true end) in HR.
    destruct (updateCrStatus_eq inst failed s2) as (r & w3 & Es). rewrite Es in HR.
    exists ([Ev (Get KKmmConfig name namespace) (inl inst); Ev (Get KConfigMap cmName operatorNamespace) (inl cm);
            Ev (Update KConfigMap (set_cm_Data (<["config" := config]> (cm_Data cm)) cm)) w;
            Ev (StatusUpdate KKmmConfig (set_kmm_Status (mkKmmStatus true (generateErrorMessage failed (local s2))) inst)) r]).
    pose proof (kmm_written range operatorName operatorNamespace ApiGroup periodTime namespace name
                  inst cmName cm topics config (local s2) w r Enm Et Hcfg) as HH.
    destruct w as [cm'|e], r as [x|x]; cbn in HR, HH; injection HR as <- <-;
      (split; [cbn; rewrite Htr, Hs1, <- !app_assoc; done|exact HH]).
Qed.

End controller_properties.

(** ** Witnesses *)

Definition example_content : string :=
  "clusters = a, b" +:+ nl +:+ "# flows" +:+ nl +:+ "a->b.enabled = false" +:+ nl +:+ "a->b.topics = events" +:+ nl +:+
  "topics.blacklist = __.*".

Lemma example_editable : editable (flow_keys ["a->b"]) (Split example_content newline).
Proof.
  split_and!.
  - refine (bool_decide_eq_true_1 _ _). vm_compute. reflexivity.
  - intros k1 k2 H1 H2. vm_compute in H1, H2.
    repeat (apply elem_of_cons in H1 as [->|H1]); try (by apply not_elem_of_nil in H1);
      repeat (apply elem_of_cons in H2 as [->|H2]); try (by apply not_elem_of_nil in H2); vm_compute; done.
  - refine (bool_decide_eq_true_1 _ _). vm_compute. reflexivity.
Defined.

Lemma updated_content_properties_witness :
  ∃ m', GetProperties (Join (setUpdatedContent ["a->b.enabled"] [("a->b.topics", "events,orders")] "" example_content) nl) = Ret m' ∧
    m' !! ("a->b" +:+ ".topics") = Some (PList ["events"; "orders"]).
Proof.
  destruct (updated_content_properties example_content "orders" (props (Split example_content newline)) ["b"] ["a"]
    ["a->b.enabled"] {["a->b.topics" := "events,orders"]} "" [("a->b.topics", "events,orders")]) as (m' & Hm & Hf & _).
  - apply GetProperties_props. split; [|done]. refine (bool_decide_eq_true_1 _ _). vm_compute. reflexivity.
  - vm_compute. reflexivity.
  - rewrite map_to_list_singleton. reflexivity.
  - exact example_editable.
  - split; reflexivity.
  - exists m'. split; [exact Hm|]. destruct (Hf "a->b") as [_ Ht]; [vm_compute; by left|]. rewrite Ht. vm_compute. reflexivity.
Defined.

Lemma mergeTopics_adds_missing_witness :
  mergeTopics (Split (mergeTopics ["a"; "b"] ["b"; "c"]) ",") ["b"; "c"] = "a,b,c".
Proof.
  destruct (mergeTopics_adds_missing ["a"; "b"] ["b"; "c"]) as (_ & _ & ->); [done|repeat constructor|vm_compute; reflexivity].
Defined.

Definition example_kmm_config : KmmConfig :=
  mkKmmConfig "netcracker.com/v1" (newMeta "orders" "team" ∅ ∅) (Some (mkKmmTopics "orders" "" "b" None)) (mkKmmStatus false "").

Definition example_kmm_cluster : Cluster :=
  store KConfigMap (mkConfigMap (newMeta "kafka-mirror-maker-configuration" "ns" ∅ ∅) (<["config" := example_content]> ∅) ∅)
    (store KKmmConfig example_kmm_config empty_cluster).

Lemma Reconcile_history_witness :
  ∃ o s' tr,
    Reconcile map_to_list "kafka-service-operator" "ns" "netcracker.com" 60 "team" "orders" (start example_kmm_cluster ∅) = (o, s') ∧
    trace s' = [] ++ tr ∧ length tr = 4%nat ∧
    kmm_history map_to_list "kafka-service-operator" "ns" "netcracker.com" 60 "team" "orders" tr o.
Proof.
  destruct (Reconcile map_to_list "kafka-service-operator" "ns" "netcracker.com" 60 "team" "orders"
              (start example_kmm_cluster ∅)) as [o s'] eqn:E.
  destruct (Reconcile_history map_to_list "kafka-service-operator" "ns" "netcracker.com" 60 "team" "orders"
              (start example_kmm_cluster ∅) o s' E) as (tr & Ht & Hh).
  - apply (f_equal fst) in E. cbn [fst] in E. rewrite <- E. vm_compute. discriminate.
  - exists o, s', tr. split; [done|]. split; [exact Ht|]. split; [|exact Hh].
    apply (f_equal (λ p, length (trace p.2))) in E. cbn [snd] in E. rewrite Ht in E. cbn [start trace app] in E.
    rewrite <- E. vm_compute. reflexivity.
Defined.
