(* ===== verification/KmmDr.v ===== *)
(** * The mirror maker configuration of disaster recovery

    Sources: operator/controllers/handlers/kmm_dr_config.go and kmm_config_map_handler.go.  The
    properties of mirror maker are read from its config map, checked (two distinct clusters, a
    target, brokers for both) and interpreted: the settings of the flow from the source to the
    target override the global ones. *)

From S2P Require Import Prelude GoStrings Util Transformation Kube Api External Cluster Reconciler.

(** ** Reading *)

Definition add_string_row (properties : strmap) (row : string) : strmap :=
  if decide (row ≠ "" ∧ HasPrefix row "#" = false) then
    match SplitN2 row "=" with
    | (p0, Some p1) => <[Trim p0 := Trim p1]> properties
    | (_, None) => properties
    end
  else properties.

Definition getStringProperties (config : string) : strmap :=
  foldl add_string_row ∅ (Split config newline).

(** ** The patterns *)

(** [\w] *)
Definition is_word (a : ascii) : bool :=
  let n := nat_of_ascii a in
  ((48 <=? n)%nat && (n <=? 57)%nat) || ((65 <=? n)%nat && (n <=? 90)%nat) ||
  ((97 <=? n)%nat && (n <=? 122)%nat) || (n =? 95)%nat.

(** What follows the longest word at the start of a string. *)
Fixpoint skip_word (s : string) : string :=
  match s with
  | EmptyString => ""
  | String a s' => if is_word a then skip_word s' else s
  end.

(** Matches the pattern [^[\w]*->[\w]*suffix$], the suffix starting with a dot. *)
Definition arrow_match (suffix key : string) : bool :=
  let rest := skip_word key in
  HasPrefix rest "->" && bool_decide (skip_word (sdrop 2 rest) = suffix).

Definition arrowTopicsPattern (key : string) : bool := arrow_match ".topics" key.
Definition arrowBlackListPattern (key : string) : bool := arrow_match ".topics.blacklist" key.
Definition arrowEnabledPattern (key : string) : bool := arrow_match ".enabled" key.

Definition stringProperties : list string := ["target.dc"; "enabled"].
Definition sliceProperties : list string := ["clusters"; "topics"; "topics.blacklist"].
Definition arrowSlicePatterns : list (string → bool) := [arrowTopicsPattern; arrowBlackListPattern].
Definition arrowStringPatterns : list (string → bool) := [arrowEnabledPattern].

(** ** The configuration *)

Record KmmDrConfig := mkDr {
  Properties : strmap;
  StringProperties : strmap;
  SliceProperties : gmap string (list string);
  ArrowPattern : string;
  TargetCluster : string;
  SourceCluster : string;
  TargetBrokers : list string;
  SourceBrokers : list string;
  ReplicationEnabled : bool;
}.

Definition set_StringProperties (v : strmap) (c : KmmDrConfig) : KmmDrConfig :=
  mkDr (Properties c) v (SliceProperties c) (ArrowPattern c) (TargetCluster c) (SourceCluster c)
    (TargetBrokers c) (SourceBrokers c) (ReplicationEnabled c).

Definition set_SliceProperties (v : gmap string (list string)) (c : KmmDrConfig) : KmmDrConfig :=
  mkDr (Properties c) (StringProperties c) v (ArrowPattern c) (TargetCluster c) (SourceCluster c)
    (TargetBrokers c) (SourceBrokers c) (ReplicationEnabled c).

(** A value without a comma. *)
Definition string_value (value : string) : option string := if has_char "," value then None else Some value.

Definition slice_value (value : string) : list string :=
  if decide (value = "") then [] else Trim <$> Split value ",".

Definition enrich_string (key value : string) (c : KmmDrConfig) : KmmDrConfig :=
  match string_value value with
  | Some v => set_StringProperties (<[key := v]> (StringProperties c)) c
  | None => c
  end.

Definition enrich_slice (key value : string) (c : KmmDrConfig) : KmmDrConfig :=
  set_SliceProperties (<[key := slice_value value]> (SliceProperties c)) c.

Definition enrichStringProperties (names : list string) (c : KmmDrConfig) : KmmDrConfig :=
  foldl (λ c property, match Properties c !! property with
                       | Some value => enrich_string property value c
                       | None => c
                       end) c names.

Definition enrichSliceProperties (names : list string) (c : KmmDrConfig) : KmmDrConfig :=
  foldl (λ c property, match Properties c !! property with
                       | Some value => enrich_slice property value c
                       | None => c
                       end) c names.

(** The loops over the map and, for each key, over the patterns. *)
Definition enrich_matching (enrich : string → string → KmmDrConfig → KmmDrConfig) (patterns : list (string → bool))
    (entries : list (string * string)) (c : KmmDrConfig) : KmmDrConfig :=
  foldl (λ c '(key, property),
    foldl (λ c pattern, if (pattern key : bool) then enrich key property c else c) c patterns) c entries.

Definition enrichArrowStringProperties (patterns : list (string → bool)) (c : KmmDrConfig) : KmmDrConfig :=
  enrich_matching enrich_string patterns (map_to_list (Properties c)) c.

Definition enrichArrowSliceProperties (patterns : list (string → bool)) (c : KmmDrConfig) : KmmDrConfig :=
  enrich_matching enrich_slice patterns (map_to_list (Properties c)) c.

Definition enrichInitial (c : KmmDrConfig) : KmmDrConfig :=
  let c := enrichStringProperties stringProperties c in
  let c := enrichSliceProperties sliceProperties c in
  let c := enrichArrowStringProperties arrowStringPatterns c in
  enrichArrowSliceProperties arrowSlicePatterns c.

Definition clustersPropertyNotFoundError : string := "can not find KMM property 'clusters'".
Definition incorrectClustersCountError : string :=
  "in disaster recovery mode exactly two clusters must be declared in 'clusters' property".
Definition sameClusterNameError : string := "declared KMM clusters can not be repeated".
Definition targetDcPropertyInvalidError : string :=
  "can not find KMM property 'target.dc' or property has incorrect value".

Definition set_clusters (source target : string) (c : KmmDrConfig) : KmmDrConfig :=
  mkDr (Properties c) (StringProperties c) (SliceProperties c) (source +:+ "->" +:+ target) target source
    (TargetBrokers c) (SourceBrokers c) (ReplicationEnabled c).

Definition validateClusters (c : KmmDrConfig) : outcome KmmDrConfig :=
  match SliceProperties c !! "clusters" with
  | None => Error (errorf clustersPropertyNotFoundError)
  | Some clusters =>
      if decide (length clusters ≠ 2%nat) then Error (errorf incorrectClustersCountError)
      else
        c0 ← index clusters 0;
        c1 ← index clusters 1;
        if decide (c0 = c1) then Error (errorf sameClusterNameError)
        else
          match StringProperties c !! "target.dc" with
          | None => Error (errorf targetDcPropertyInvalidError)
          | Some target =>
              let source := foldl (λ source cluster, if decide (cluster = target) then source else cluster)
                              (SourceCluster c) clusters in
              Ret (set_clusters source target c)
          end
  end.

Definition set_brokers (target source : list string) (c : KmmDrConfig) : KmmDrConfig :=
  mkDr (Properties c) (StringProperties c) (SliceProperties c) (ArrowPattern c) (TargetCluster c) (SourceCluster c)
    target source (ReplicationEnabled c).

Definition brokers_key (cluster : string) : string := cluster +:+ ".bootstrap.servers".

Definition resolveBootstrapServers (c : KmmDrConfig) : outcome KmmDrConfig :=
  let target := brokers_key (TargetCluster c) in
  let source := brokers_key (SourceCluster c) in
  let c := enrichSliceProperties [target; source] c in
  match SliceProperties c !! target with
  | None | Some [] => Error (errorf "target Kafka bootstrap servers are not set")
  | Some targetBrokers =>
      match SliceProperties c !! source with
      | None | Some [] => Error (errorf "source Kafka bootstrap servers are not set")
      | Some sourceBrokers => Ret (set_brokers targetBrokers sourceBrokers c)
      end
  end.

Definition resolveGlobalLocalStringValue (key : string) (c : KmmDrConfig) : option string :=
  let globalValue := StringProperties c !! key in
  let localValue := StringProperties c !! (ArrowPattern c +:+ "." +:+ key) in
  match localValue with Some v => Some v | None => globalValue end.

Definition resolveGlobalLocalSliceValue (key : string) (c : KmmDrConfig) : option (list string) :=
  let globalValue := SliceProperties c !! key in
  let localValue := SliceProperties c !! (ArrowPattern c +:+ "." +:+ key) in
  match localValue with Some v => Some v | None => globalValue end.

Definition set_enabled (b : bool) (c : KmmDrConfig) : KmmDrConfig :=
  mkDr (Properties c) (StringProperties c) (SliceProperties c) (ArrowPattern c) (TargetCluster c) (SourceCluster c)
    (TargetBrokers c) (SourceBrokers c) b.

Definition resolveReplicationEnable (c : KmmDrConfig) : KmmDrConfig :=
  match resolveGlobalLocalStringValue "enabled" c with
  | None => set_enabled true c
  | Some value => set_enabled (bool_decide (ToLower value = "true")) c
  end.

Definition enrichProperties (c : KmmDrConfig) : outcome KmmDrConfig :=
  let c := enrichInitial c in
  c ← validateClusters c;
  c ← resolveBootstrapServers c;
  Ret (resolveReplicationEnable c).

Definition NewKmmDrConfig (properties : strmap) : outcome KmmDrConfig :=
  enrichProperties (mkDr properties ∅ ∅ "" "" "" [] [] false).

(** A nil slice is [None]. *)
Definition getAllowRegExps (c : KmmDrConfig) : option (list string) := resolveGlobalLocalSliceValue "topics" c.
Definition getBlockRegExps (c : KmmDrConfig) : option (list string) := resolveGlobalLocalSliceValue "topics.blacklist" c.

Definition GetRegularExpressions (c : KmmDrConfig) : option (list string) * option (list string) :=
  (getAllowRegExps c, getBlockRegExps c).

(** ** The handler *)

Record KmmConfigHandler := mkHandler {
  config : option KmmDrConfig;
  data : gmap string (list string);
}.

Section handler.
Context `{Env W} {L : Type} (operatorName operatorNamespace : string).

Definition getKmmConfigMapContent : M (St W L) string :=
  name ← lift (GetKmmConfigMapName operatorName);
  kmmConfigMap ← request (Get KConfigMap name operatorNamespace);
  mret (sget (cm_Data kmmConfigMap) "config").

Definition credential (kmmSecret : Secret) (key what targetUserKey : string) : M (St W L) string :=
  match secret_Data kmmSecret !! key with
  | Some value => mret value
  | None => throw (errorf ("can not find " +:+ what +:+ " for Kafka cluster with key - " +:+ targetUserKey))
  end.

Definition getKafkaCredentials (targetCluster sourceCluster : string) : M (St W L) (list string * list string) :=
  secretName ← lift (GetKmmSecretName operatorName);
  kmmSecret ← request (Get KSecret secretName operatorNamespace);
  let targetUserKey := targetCluster +:+ "-kafka-username" in
  targetUser ← credential kmmSecret targetUserKey "username" targetUserKey;
  sourceUser ← credential kmmSecret (sourceCluster +:+ "-kafka-username") "username" targetUserKey;
  targetPassword ← credential kmmSecret (targetCluster +:+ "-kafka-password") "password" targetUserKey;
  sourcePassword ← credential kmmSecret (sourceCluster +:+ "-kafka-password") "password" targetUserKey;
  mret ([targetUser; targetPassword], [sourceUser; sourcePassword]).

(** Returns the handler with what could be read: an unreadable config map and an invalid
    configuration leave it empty. *)
Definition enrichKmmHandler (kch : KmmConfigHandler) : M (St W L) KmmConfigHandler :=
  r ← try getKmmConfigMapContent;
  match r with
  | inr _ => mret kch
  | inl cmContent =>
      match NewKmmDrConfig (getStringProperties cmContent) with
      | Error _ => mret kch
      | Panic => panic
      | Ret c =>
          '(targetCreds, sourceCreds) ← getKafkaCredentials (TargetCluster c) (SourceCluster c);
          mret (mkHandler (Some c)
                  (<["sourceCredentials" := sourceCreds]> (<["targetCredentials" := targetCreds]> ∅)))
      end
  end.

Definition NewKmmConfigHandler : M (St W L) KmmConfigHandler := enrichKmmHandler (mkHandler None ∅).

End handler.

(** A method that reads the configuration of a handler without one dereferences nil. *)
Definition with_config {A} (f : KmmDrConfig → A) (kch : KmmConfigHandler) : outcome A :=
  match config kch with Some c => Ret (f c) | None => Panic end.

Definition GetKafkaUsernamePasswords (kch : KmmConfigHandler) : list string * list string :=
  (map_get [] (data kch) "targetCredentials", map_get [] (data kch) "sourceCredentials").

Definition GetBrokers : KmmConfigHandler → outcome (list string * list string) :=
  with_config (λ c, (TargetBrokers c, SourceBrokers c)).
Definition GetTargetCluster : KmmConfigHandler → outcome string := with_config TargetCluster.
Definition GetSourceCluster : KmmConfigHandler → outcome string := with_config SourceCluster.
Definition IsReplicationEnabled : KmmConfigHandler → outcome bool := with_config ReplicationEnabled.
Definition handler_GetRegularExpressions : KmmConfigHandler → outcome (option (list string) * option (list string)) :=
  with_config GetRegularExpressions.

(** ** What the enrichment collects *)

(** The string and the slice a property stands for. *)
Definition str_of (p : strmap) (k : string) : option string := p !! k ≫= string_value.
Definition slc_of (p : strmap) (k : string) : option (list string) := slice_value <$> p !! k.

Definition over {A} (new old : option A) : option A := match new with Some v => Some v | None => old end.

Lemma enrich_string_eq key value c :
  enrich_string key value c =
    set_StringProperties (match string_value value with
                          | Some v => <[key := v]> (StringProperties c)
                          | None => StringProperties c
                          end) c.
Proof. unfold enrich_string. destruct (string_value value); [done|by destruct c]. Qed.

Lemma enrichStringProperties_spec names c :
  ∃ X, enrichStringProperties names c = set_StringProperties X c ∧
    ∀ k, X !! k = if decide (k ∈ names) then over (str_of (Properties c) k) (StringProperties c !! k)
                  else StringProperties c !! k.
Proof.
  unfold enrichStringProperties. revert c. induction names as [|n names IH]; intros c.
  { exists (StringProperties c). split; [by destruct c|]. intros k. rewrite decide_False; [done|]. apply not_elem_of_nil. }
  cbn [foldl]. unfold str_of. destruct (Properties c !! n) as [value|] eqn:E.
  - rewrite enrich_string_eq. match goal with |- context [set_StringProperties ?Y c] => set (Z := Y) end.
    destruct (IH (set_StringProperties Z c)) as (X & -> & HX). exists X. split; [done|]. intros k. rewrite HX.
    cbn. unfold str_of. destruct (decide (k = n)) as [->|Hk].
    + rewrite (decide_True (P := n ∈ n :: names)) by (by left). rewrite E. cbn. unfold Z.
      destruct (string_value value) as [v|] eqn:Ev; cbn; rewrite ?lookup_insert_eq; by case_decide.
    + assert (HZ : Z !! k = StringProperties c !! k).
      { unfold Z. destruct (string_value value); [|done]. by rewrite lookup_insert_ne. }
      rewrite HZ. repeat case_decide; try done; exfalso; set_solver.
  - destruct (IH c) as (X & -> & HX). exists X. split; [done|]. intros k. rewrite HX. unfold str_of.
    destruct (decide (k = n)) as [->|Hk].
    + rewrite E. cbn. repeat case_decide; done.
    + repeat case_decide; try done; exfalso; set_solver.
Qed.

Lemma enrichSliceProperties_spec names c :
  ∃ X, enrichSliceProperties names c = set_SliceProperties X c ∧
    ∀ k, X !! k = if decide (k ∈ names) then over (slc_of (Properties c) k) (SliceProperties c !! k)
                  else SliceProperties c !! k.
Proof.
  unfold enrichSliceProperties. revert c. induction names as [|n names IH]; intros c.
  { exists (SliceProperties c). split; [by destruct c|]. intros k. rewrite decide_False; [done|]. apply not_elem_of_nil. }
  cbn [foldl]. unfold slc_of. destruct (Properties c !! n) as [value|] eqn:E.
  - destruct (IH (enrich_slice n value c)) as (X & -> & HX). exists X. split; [done|]. intros k. rewrite HX.
    cbn. unfold slc_of. destruct (decide (k = n)) as [->|Hk].
    + rewrite (decide_True (P := n ∈ n :: names)) by (by left). rewrite E. cbn. rewrite lookup_insert_eq. by case_decide.
    + rewrite lookup_insert_ne by done. repeat case_decide; try done; exfalso; set_solver.
  - destruct (IH c) as (X & -> & HX). exists X. split; [done|]. intros k. rewrite HX. unfold slc_of.
    destruct (decide (k = n)) as [->|Hk].
    + rewrite E. cbn. repeat case_decide; done.
    + repeat case_decide; try done; exfalso; set_solver.
Qed.

Lemma enrich_patterns (enrich : string → string → KmmDrConfig → KmmDrConfig) patterns key property c :
  (∀ c, enrich key property (enrich key property c) = enrich key property c) →
  foldl (λ c pattern, if (pattern key : bool) then enrich key property c else c) c patterns =
    if existsb (λ pattern, pattern key) patterns then enrich key property c else c.
Proof.
  intros Hid. revert c. induction patterns as [|p ps IH]; intros c; [done|]. cbn. rewrite IH.
  destruct (p key), (existsb _ ps); cbn; [apply Hid|done..].
Qed.

Lemma enrich_matching_string patterns entries c :
  NoDup entries.*1 →
  ∃ X, enrich_matching enrich_string patterns entries c = set_StringProperties X c ∧
    ∀ k, X !! k = if existsb (λ pattern, pattern k) patterns then over (str_of (list_to_map entries) k) (StringProperties c !! k)
                  else StringProperties c !! k.
Proof.
  unfold enrich_matching, str_of. intros Hn. revert c.
  induction entries as [|[key property] entries IH]; intros c.
  { exists (StringProperties c). split; [by destruct c|]. intros k. cbn. rewrite lookup_empty. cbn. by destruct (existsb _ _). }
  cbn in Hn. apply NoDup_cons in Hn as [Hk Hn]. cbn [foldl].
  rewrite enrich_patterns.
  2: { intros c'. rewrite !enrich_string_eq. cbn. destruct (string_value property); [|done]. by rewrite insert_insert_eq. }
  rewrite enrich_string_eq. set (c1 := if existsb _ _ then _ else _).
  destruct (IH Hn c1) as (X & -> & HX). exists X. split; [unfold c1; destruct (existsb _ _); by destruct c|].
  intros k. rewrite HX. cbn [list_to_map foldr]. unfold c1. destruct (decide (k = key)) as [->|Hne].
  - rewrite lookup_insert_eq. rewrite not_elem_of_list_to_map_1 by done. cbn.
    destruct (existsb (λ pattern, pattern key) patterns); [|done]. cbn.
    destruct (string_value property); cbn; [by rewrite lookup_insert_eq|done].
  - rewrite lookup_insert_ne by done. destruct (existsb (λ pattern, pattern key) patterns); [cbn|done].
    destruct (string_value property); [|done]. by rewrite lookup_insert_ne.
Qed.

Lemma enrichArrowStringProperties_spec patterns c :
  ∃ X, enrichArrowStringProperties patterns c = set_StringProperties X c ∧
    ∀ k, X !! k = if existsb (λ pattern, pattern k) patterns then over (str_of (Properties c) k) (StringProperties c !! k)
                  else StringProperties c !! k.
Proof.
  destruct (enrich_matching_string patterns (map_to_list (Properties c)) c) as (X & HX & Hk);
    [apply NoDup_fst_map_to_list|]. exists X. split; [exact HX|]. intros k. by rewrite Hk, list_to_map_to_list.
Qed.

Lemma enrich_matching_slice patterns entries c :
  NoDup entries.*1 →
  ∃ X, enrich_matching enrich_slice patterns entries c = set_SliceProperties X c ∧
    ∀ k, X !! k = if existsb (λ pattern, pattern k) patterns then over (slc_of (list_to_map entries) k) (SliceProperties c !! k)
                  else SliceProperties c !! k.
Proof.
  unfold enrich_matching, slc_of. intros Hn. revert c.
  induction entries as [|[key property] entries IH]; intros c.
  { exists (SliceProperties c). split; [by destruct c|]. intros k. cbn. rewrite lookup_empty. cbn. by destruct (existsb _ _). }
  cbn in Hn. apply NoDup_cons in Hn as [Hk Hn]. cbn [foldl].
  rewrite enrich_patterns.
  2: { intros c'. unfold enrich_slice. cbn. unfold set_SliceProperties. cbn. by rewrite insert_insert_eq. }
  set (c1 := if existsb _ _ then _ else _).
  destruct (IH Hn c1) as (X & -> & HX). exists X. split; [unfold c1; destruct (existsb _ _); by destruct c|].
  intros k. rewrite HX. cbn [list_to_map foldr]. unfold c1. destruct (decide (k = key)) as [->|Hne].
  - rewrite lookup_insert_eq. rewrite not_elem_of_list_to_map_1 by done. cbn.
    destruct (existsb (λ pattern, pattern key) patterns); [|done]. cbn. by rewrite lookup_insert_eq.
  - rewrite lookup_insert_ne by done. destruct (existsb (λ pattern, pattern key) patterns); [cbn|done].
    by rewrite lookup_insert_ne.
Qed.

Lemma enrichArrowSliceProperties_spec patterns c :
  ∃ X, enrichArrowSliceProperties patterns c = set_SliceProperties X c ∧
    ∀ k, X !! k = if existsb (λ pattern, pattern k) patterns then over (slc_of (Properties c) k) (SliceProperties c !! k)
                  else SliceProperties c !! k.
Proof.
  destruct (enrich_matching_slice patterns (map_to_list (Properties c)) c) as (X & HX & Hk);
    [apply NoDup_fst_map_to_list|]. exists X. split; [exact HX|]. intros k. by rewrite Hk, list_to_map_to_list.
Qed.

(** The keys the two maps are filled for. *)
Definition string_key (k : string) : bool := bool_decide (k ∈ stringProperties) || arrowEnabledPattern k.
Definition slice_key (k : string) : bool :=
  bool_decide (k ∈ sliceProperties) || arrowTopicsPattern k || arrowBlackListPattern k.

Lemma enrichInitial_spec p :
  ∃ X Y, enrichInitial (mkDr p ∅ ∅ "" "" "" [] [] false) = mkDr p X Y "" "" "" [] [] false ∧
    (∀ k, X !! k = if string_key k then str_of p k else None) ∧
    (∀ k, Y !! k = if slice_key k then slc_of p k else None).
Proof.
  unfold enrichInitial. edestruct enrichStringProperties_spec as (X1 & -> & HX1).
  edestruct enrichSliceProperties_spec as (Y1 & -> & HY1).
  edestruct enrichArrowStringProperties_spec as (X2 & -> & HX2).
  edestruct enrichArrowSliceProperties_spec as (Y2 & -> & HY2).
  exists X2, Y2. cbn in *. split; [done|]. split; intros k.
  - rewrite HX2, HX1, lookup_empty. unfold string_key. cbn.
    destruct (decide (k ∈ stringProperties)) as [Hd|Hd];
      [rewrite (bool_decide_eq_true_2 _ Hd)|rewrite (bool_decide_eq_false_2 _ Hd)];
      destruct (arrowEnabledPattern k), (str_of p k); done.
  - rewrite HY2, HY1, lookup_empty. unfold slice_key. cbn.
    destruct (decide (k ∈ sliceProperties)) as [Hd|Hd];
      [rewrite (bool_decide_eq_true_2 _ Hd)|rewrite (bool_decide_eq_false_2 _ Hd)];
      destruct (arrowTopicsPattern k), (arrowBlackListPattern k), (slc_of p k); done.
Qed.

(** ** What is accepted *)

(** The source cluster: the declared cluster that is not the target, the second one when neither is. *)
Definition source_of (c0 c1 target : string) : string := if decide (c1 = target) then c0 else c1.

(** The value of a setting of the flow: its own, or else the global one; the own one counts only
    when its name is made of word characters. *)
Definition flow_string (p : strmap) (arrow key : string) : option string :=
  over (if arrowEnabledPattern (arrow +:+ "." +:+ key) then str_of p (arrow +:+ "." +:+ key) else None) (str_of p key).

Definition flow_slice (p : strmap) (arrow key : string) : option (list string) :=
  over (if arrowTopicsPattern (arrow +:+ "." +:+ key) || arrowBlackListPattern (arrow +:+ "." +:+ key)
        then slc_of p (arrow +:+ "." +:+ key) else None) (slc_of p key).

Record accepted (p : strmap) (c : KmmDrConfig) (c0 c1 : string) : Prop := {
  acc_clusters : slc_of p "clusters" = Some [c0; c1];
  acc_distinct : c0 ≠ c1;
  acc_target : str_of p "target.dc" = Some (TargetCluster c);
  acc_source : SourceCluster c = source_of c0 c1 (TargetCluster c);
  acc_flow : SourceCluster c ≠ TargetCluster c;
  acc_target_brokers : slc_of p (brokers_key (TargetCluster c)) = Some (TargetBrokers c) ∧ TargetBrokers c ≠ [];
  acc_source_brokers : slc_of p (brokers_key (SourceCluster c)) = Some (SourceBrokers c) ∧ SourceBrokers c ≠ [];
  acc_arrow : ArrowPattern c = SourceCluster c +:+ "->" +:+ TargetCluster c;
  acc_enabled : ReplicationEnabled c =
    match flow_string p (ArrowPattern c) "enabled" with
    | Some v => bool_decide (ToLower v = "true")
    | None => true
    end;
}.

Lemma over_slc p k (b : bool) : over (slc_of p k) (if b then slc_of p k else None) = slc_of p k.
Proof. by destruct (slc_of p k), b. Qed.

Lemma arrow_has_dash s t x : has_char "-" ((s +:+ "->" +:+ t) +:+ x) = true.
Proof. rewrite !has_char_app. cbn. by rewrite orb_true_r. Qed.

Lemma not_listed k l : has_char "-" k = true → Forall (λ x, has_char "-" x = false) l → bool_decide (k ∈ l) = false.
Proof.
  intros Hk HF. apply bool_decide_eq_false_2. intros Hin. rewrite Forall_forall in HF. apply HF in Hin. congruence.
Qed.

Lemma validateClusters_eq c :
  validateClusters c =
    match SliceProperties c !! "clusters" with
    | None => Error (errorf clustersPropertyNotFoundError)
    | Some [c0; c1] =>
        if decide (c0 = c1) then Error (errorf sameClusterNameError)
        else match StringProperties c !! "target.dc" with
             | None => Error (errorf targetDcPropertyInvalidError)
             | Some target =>
                 Ret (set_clusters (if decide (c1 = target) then if decide (c0 = target) then SourceCluster c else c0 else c1)
                        target c)
             end
    | Some _ => Error (errorf incorrectClustersCountError)
    end.
Proof.
  unfold validateClusters. destruct (SliceProperties c !! "clusters") as [[|c0 [|c1 [|c2 cs]]]|]; try done.
Qed.

Lemma list_ascii_app s t : Strings.String.list_ascii_of_string (s +:+ t) = Strings.String.list_ascii_of_string s ++ Strings.String.list_ascii_of_string t.
Proof. induction s as [|a s IH]; [done|]. rewrite app_cons. cbn. by rewrite IH. Qed.

Lemma suffix_ne a x s : s = ".topics" ∨ s = ".topics.blacklist" → a +:+ s ≠ x +:+ ".bootstrap.servers".
Proof.
  intros Hs E. apply (f_equal (λ s, reverse (Strings.String.list_ascii_of_string s))) in E. rewrite !list_ascii_app, !reverse_app in E.
  by destruct Hs as [-> | ->].
Qed.

(** What the collected maps say of a key of the flow, the broker lists having been added. *)
Lemma flow_string_collected p (X : gmap string string) s u key :
  (∀ k, X !! k = if string_key k then str_of p k else None) → string_key key = true →
  match X !! ((s +:+ "->" +:+ u) +:+ "." +:+ key) with Some v => Some v | None => X !! key end = flow_string p (s +:+ "->" +:+ u) key.
Proof.
  intros HX Hk. rewrite !HX, Hk. unfold flow_string, over, string_key. rewrite not_listed; [done|apply arrow_has_dash|repeat constructor].
Qed.

Lemma flow_slice_collected p (Y Z : gmap string (list string)) s u key :
  (∀ k, Y !! k = if slice_key k then slc_of p k else None) →
  (∀ k, Z !! k = if decide (k ∈ [brokers_key u; brokers_key s]) then over (slc_of p k) (Y !! k) else Y !! k) →
  key = "topics" ∨ key = "topics.blacklist" →
  match Z !! ((s +:+ "->" +:+ u) +:+ "." +:+ key) with Some v => Some v | None => Z !! key end = flow_slice p (s +:+ "->" +:+ u) key.
Proof.
  intros HY HZ Hkey. unfold flow_slice, over.
  assert (Hz : ∀ k, has_char "-" k = true → (∀ x, k ≠ x +:+ ".bootstrap.servers") →
    Z !! k = if arrowTopicsPattern k || arrowBlackListPattern k then slc_of p k else None).
  { intros k Hk Hb. rewrite HZ, decide_False, HY.
    - unfold slice_key. rewrite not_listed; [done|done|repeat constructor].
    - unfold brokers_key. intros [->|[->|Hin]%elem_of_cons]%elem_of_cons; [by apply (Hb u)|by apply (Hb s)|].
      by apply not_elem_of_nil in Hin. }
  assert (Zk : Z !! key = slc_of p key).
  { rewrite HZ, HY. case_decide; destruct Hkey as [-> | ->]; [apply over_slc..|done|done]. }
  rewrite Zk, Hz; [done|apply arrow_has_dash|]. intros x E. apply suffix_ne in E; [done|]. destruct Hkey as [-> | ->]; auto.
Qed.

(** The outcome of the construction in terms of the properties. *)
Lemma NewKmmDrConfig_cases p :
  (∃ e, NewKmmDrConfig p = Error e ∧
     ¬ (∃ c0 c1 target, slc_of p "clusters" = Some [c0; c1] ∧ c0 ≠ c1 ∧ str_of p "target.dc" = Some target ∧
          default [] (slc_of p (brokers_key target)) ≠ [] ∧
          default [] (slc_of p (brokers_key (source_of c0 c1 target))) ≠ [])) ∨
  (∃ c c0 c1, NewKmmDrConfig p = Ret c ∧ accepted p c c0 c1 ∧
     GetRegularExpressions c = (flow_slice p (ArrowPattern c) "topics", flow_slice p (ArrowPattern c) "topics.blacklist")).
Proof.
  unfold NewKmmDrConfig, enrichProperties. destruct (enrichInitial_spec p) as (X & Y & -> & HX & HY).
  cbn zeta. rewrite validateClusters_eq. cbn [SliceProperties StringProperties SourceCluster].
  rewrite HY, HX. change (slice_key "clusters") with true. change (string_key "target.dc") with true. cbn [negb].
  destruct (slc_of p "clusters") as [[|c0 [|c1 [|c2 cs]]]|] eqn:Ecl;
    try (left; eexists; split; [done|]; intros (?&?&?&?&_); congruence).
  case_decide as Hd; [left; eexists; split; [done|]; intros (?&?&?&?&?&_); congruence|].
  destruct (str_of p "target.dc") as [target|] eqn:Et; [|left; eexists; split; [done|]; intros (?&?&?&?&?&?&_); congruence].
  assert (Hsrc : (if decide (c1 = target) then if decide (c0 = target) then "" else c0 else c1) = source_of c0 c1 target).
  { unfold source_of. repeat case_decide; congruence. }
  rewrite Hsrc. clear Hsrc. set (source := source_of c0 c1 target).
  assert (Hflow : source ≠ target). { unfold source, source_of. case_decide; congruence. }
  cbn [mbind outcome_bind]. unfold set_clusters, resolveBootstrapServers.
  cbn [Properties StringProperties SliceProperties ArrowPattern TargetCluster SourceCluster TargetBrokers SourceBrokers ReplicationEnabled].
  edestruct enrichSliceProperties_spec as (Z & -> & HZ). cbn [Properties SliceProperties] in HZ. cbn [SliceProperties set_SliceProperties].
  assert (HZt : Z !! brokers_key target = slc_of p (brokers_key target)).
  { rewrite HZ, decide_True by set_solver. rewrite HY. apply over_slc. }
  assert (HZs : Z !! brokers_key source = slc_of p (brokers_key source)).
  { rewrite HZ, decide_True by set_solver. rewrite HY. apply over_slc. }
  rewrite HZt, HZs.
  destruct (slc_of p (brokers_key target)) as [[|tb tbs]|] eqn:Etb;
    [left; eexists; split; [done|]; intros (?&?&?&?&?&?&?&?); simplify_eq; rewrite Etb in *; done| |
     left; eexists; split; [done|]; intros (?&?&?&?&?&?&?&?); simplify_eq; rewrite Etb in *; done].
  destruct (slc_of p (brokers_key source)) as [[|sb sbs]|] eqn:Esb;
    [left; eexists; split; [done|]; intros (?&?&?&?&?&?&?&Hs); simplify_eq; fold source in Hs; rewrite Esb in Hs; done| |
     left; eexists; split; [done|]; intros (?&?&?&?&?&?&?&Hs); simplify_eq; fold source in Hs; rewrite Esb in Hs; done].
  right. cbn [mbind outcome_bind]. unfold resolveReplicationEnable, set_brokers, resolveGlobalLocalStringValue, set_SliceProperties.
  cbn [Properties StringProperties SliceProperties ArrowPattern TargetCluster SourceCluster TargetBrokers SourceBrokers ReplicationEnabled].
  set (arrow := source +:+ "->" +:+ target).
  assert (Hen := flow_string_collected p X source target "enabled" HX eq_refl).
  assert (Hsl := λ key, flow_slice_collected p Y Z source target key HY HZ). fold arrow in Hen, Hsl.
  rewrite Hen. destruct (flow_string p arrow "enabled") as [v|] eqn:Ev; eexists _, c0, c1; (split; [reflexivity|]).
  - split; [|unfold GetRegularExpressions, getAllowRegExps, getBlockRegExps, resolveGlobalLocalSliceValue; cbn; by rewrite !Hsl by auto].
    split; cbn; try done. fold arrow. by rewrite Ev.
  - split; [|unfold GetRegularExpressions, getAllowRegExps, getBlockRegExps, resolveGlobalLocalSliceValue; cbn; by rewrite !Hsl by auto].
    split; cbn; try done. fold arrow. by rewrite Ev.
Qed.

(** ** Names of flows *)

Fixpoint word (s : string) : bool :=
  match s with EmptyString => true | String a s => is_word a && word s end.

Lemma skip_word_spec s : ∃ w, word w = true ∧ s = w +:+ skip_word s.
Proof.
  induction s as [|a s (w & Hw & Hs)]; [by exists ""|]. cbn. destruct (is_word a) eqn:E.
  - exists (String a w). cbn. rewrite E, Hw. split; [done|]. by rewrite app_cons, <- Hs.
  - by exists "".
Qed.

Lemma word_no_dash w : word w = true → has_char "-" w = false.
Proof.
  induction w as [|a w IH]; [done|]. cbn. intros [Ha Hw]%andb_true_iff. rewrite IH by done. rewrite orb_false_r.
  apply bool_decide_eq_false. intros ->. done.
Qed.

Lemma arrow_match_words suffix key :
  arrow_match suffix key = true → ∃ w1 w2, word w1 = true ∧ word w2 = true ∧ key = w1 +:+ "->" +:+ w2 +:+ suffix.
Proof.
  unfold arrow_match. intros [Hp Hs]%andb_true_iff. apply bool_decide_eq_true in Hs.
  destruct (skip_word_spec key) as (w1 & Hw1 & Ek). apply HasPrefix_spec in Hp as (t & Et). rewrite Et in *.
  change (sdrop 2 ("->" +:+ t)) with (sdrop (String.length "->") ("->" +:+ t)) in Hs. rewrite sdrop_app in Hs.
  destruct (skip_word_spec t) as (w2 & Hw2 & Ew). rewrite Hs in Ew. exists w1, w2. split_and!; [done..|].
  by rewrite Ek, Ew.
Qed.

Lemma Split_app_any a b c : Split (a +:+ String c b) c = Split a c ++ Split b c.
Proof.
  induction a as [|x a IH]; [rewrite app_empty_l; cbn; by rewrite bool_decide_eq_true_2|].
  rewrite app_cons. cbn. rewrite IH. case_bool_decide; [done|].
  destruct (Split_cons a c) as (w & ws & ->). done.
Qed.

Lemma app_inj_r s1 s2 t : s1 +:+ t = s2 +:+ t → s1 = s2.
Proof.
  intros E. assert (HL : String.length s1 = String.length s2).
  { apply (f_equal String.length) in E. rewrite !length_app_s in E. lia. }
  by apply app_inj_len in E as [? _].
Qed.

Lemma arrow_match_flow suffix s t :
  has_char "-" suffix = false → arrow_match suffix (s +:+ "->" +:+ t +:+ suffix) = true → word s = true ∧ word t = true.
Proof.
  intros Hsuf Hm. apply arrow_match_words in Hm as (w1 & w2 & H1 & H2 & E).
  assert (ES : Split (s +:+ "->" +:+ t +:+ suffix) "-" = Split (w1 +:+ "->" +:+ w2 +:+ suffix) "-") by (by rewrite E).
  change ("->" +:+ t +:+ suffix) with (String "-" (">" +:+ t +:+ suffix)) in ES.
  change ("->" +:+ w2 +:+ suffix) with (String "-" (">" +:+ w2 +:+ suffix)) in ES.
  rewrite !Split_app_any in ES. rewrite (Split_no_char w1) in ES by (by apply word_no_dash).
  rewrite (Split_no_char (">" +:+ w2 +:+ suffix)) in ES by (by rewrite !has_char_app, Hsuf, (word_no_dash w2)).
  destruct (Split_cons s "-") as (x & xs & Ex). destruct (Split_cons (">" +:+ t +:+ suffix) "-") as (y & ys & Ey).
  rewrite Ex, Ey in ES. destruct xs as [|x' xs]; [|injection ES as _ _ ES; by destruct xs].
  injection ES as -> -> ->. assert (s = w1) as -> by (by rewrite <- (Join_Split s "-"), Ex).
  assert (EE : ">" +:+ t +:+ suffix = ">" +:+ w2 +:+ suffix).
  { by rewrite <- (Join_Split (">" +:+ t +:+ suffix) "-"), Ey. }
  apply app_inj_l, app_inj_r in EE. by subst t.
Qed.

(** C25. The configuration of disaster recovery is accepted exactly when two distinct clusters are
    declared, the target has a single value and both clusters have brokers; it never panics.  An
    accepted configuration has a source different from its target, the brokers of both, the value
    of [enabled] of the flow before the global one, enabled by default, and likewise the allow and
    block lists. *)
Theorem NewKmmDrConfig_accepts p :
  NewKmmDrConfig p ≠ Panic ∧
  ((∃ c, NewKmmDrConfig p = Ret c) ↔
   ∃ c0 c1 target, slc_of p "clusters" = Some [c0; c1] ∧ c0 ≠ c1 ∧ str_of p "target.dc" = Some target ∧
     default [] (slc_of p (brokers_key target)) ≠ [] ∧
     default [] (slc_of p (brokers_key (source_of c0 c1 target))) ≠ []) ∧
  (∀ c, NewKmmDrConfig p = Ret c →
     (∃ c0 c1, accepted p c c0 c1) ∧
     GetRegularExpressions c = (flow_slice p (ArrowPattern c) "topics", flow_slice p (ArrowPattern c) "topics.blacklist")).
Proof.
  destruct (NewKmmDrConfig_cases p) as [(e & -> & Hn)|(c & c0 & c1 & -> & Ha & Hr)].
  - split_and!; [done| |done]. split; [by intros [??]|]. intros HH. exfalso. by apply Hn.
  - split_and!; [done| |].
    + split; [intros _|by eexists]. destruct Ha as [H1 H2 H3 H4 _ [H5 H5'] [H6 H6'] _ _].
      exists c0, c1, (TargetCluster c). rewrite <- H4, H5, H6. done.
    + intros c' [= <-]. eauto.
Qed.

(** The settings of a flow count only when the names of its clusters are made of word
    characters: with a name such as dc-1 the value of [enabled] of the flow is ignored and the
    global one decides. *)
Theorem flow_enabled_needs_word_names p c :
  NewKmmDrConfig p = Ret c → word (SourceCluster c) && word (TargetCluster c) = false →
  ReplicationEnabled c = match str_of p "enabled" with Some v => bool_decide (ToLower v = "true") | None => true end.
Proof.
  intros HN Hw. destruct (NewKmmDrConfig_cases p) as [(e & E & _)|(c' & c0 & c1 & E & Ha & _)]; rewrite E in HN; [done|].
  injection HN as <-. rewrite (acc_enabled _ _ _ _ Ha), (acc_arrow _ _ _ _ Ha). unfold flow_string.
  destruct (arrowEnabledPattern _) eqn:Ep; [|done]. exfalso. unfold arrowEnabledPattern in Ep.
  rewrite !app_assoc_s in Ep. change ("." +:+ "enabled") with ".enabled" in Ep.
  apply arrow_match_flow in Ep as [E1 E2]; [|done]. by rewrite E1, E2 in Hw.
Qed.

Section handler_properties.
Context `{Env W} {L : Type} (operatorName operatorNamespace : string).

Lemma getKafkaCredentials_emits target source :
  emits (W := W) (L := L) (λ _, True) (getKafkaCredentials operatorName operatorNamespace target source).
Proof. unfold getKafkaCredentials, credential. emits_auto; done. Qed.

(** A config map that cannot be read, or that holds an invalid configuration, does not fail
    the creation of the handler: it returns a handler without configuration, on which every
    method that reads the configuration dereferences nil; a handler with a configuration has the
    one of the config map that was read. *)
Theorem NewKmmConfigHandler_swallows_errors cmName (s : St W L) :
  GetKmmConfigMapName operatorName = Ret cmName →
  ∃ r tr, trace (NewKmmConfigHandler operatorName operatorNamespace s).2 =
            trace s ++ Ev (Get KConfigMap cmName operatorNamespace) r :: tr ∧
    match r with
    | inl cm =>
        match NewKmmDrConfig (getStringProperties (sget (cm_Data cm) "config")) with
        | Ret c => ∀ h, (NewKmmConfigHandler operatorName operatorNamespace s).1 = Ret h → config h = Some c
        | _ => ∃ h, (NewKmmConfigHandler operatorName operatorNamespace s).1 = Ret h ∧ config h = None ∧
                    IsReplicationEnabled h = Panic ∧ GetBrokers h = Panic
        end
    | inr _ => ∃ h, (NewKmmConfigHandler operatorName operatorNamespace s).1 = Ret h ∧ config h = None ∧
                    IsReplicationEnabled h = Panic ∧ GetBrokers h = Panic
    end.
Proof.
  intros Hn. set (run := NewKmmConfigHandler operatorName operatorNamespace s).
  assert (Hrun : run = NewKmmConfigHandler operatorName operatorNamespace s) by done. clearbody run.
  unfold NewKmmConfigHandler, enrichKmmHandler, getKmmConfigMapContent, try, lift, mbind, M_bind in Hrun. rewrite Hn in Hrun.
  unfold request at 1 in Hrun. cbn in Hrun. destruct (perform _ _ (world s)) as [[cm|e] w1] eqn:E1; cbn in Hrun.
  2: { exists (inr e), []. subst run. split; [done|]. by eexists. }
  exists (inl cm). destruct (NewKmmDrConfig_cases (getStringProperties (sget (cm_Data cm) "config")))
    as [(e & E & _)|(c & _ & _ & E & _)]; rewrite E in Hrun |- *.
  - exists []. subst run. split; [done|]. by eexists.
  - destruct (getKafkaCredentials_emits (TargetCluster c) (SourceCluster c)
      (mkSt w1 (trace s ++ [Ev (Get KConfigMap cmName operatorNamespace) (inl cm)]) (local s))) as (tr & Htr & _).
    destruct (getKafkaCredentials _ _ _ _ _) as [[[tc sc]|e|] s2]; cbn in Htr; subst run; cbn; exists tr;
      rewrite Htr, <- app_assoc; (split; [done|]); intros h [= <-]; done.
Qed.

End handler_properties.

(** ** Witnesses *)

Definition example_dr : strmap :=
  list_to_map [("clusters", "dc-1, dc-2"); ("target.dc", "dc-2"); ("dc-1.bootstrap.servers", "k1:9092");
               ("dc-2.bootstrap.servers", "k2:9092"); ("dc-1->dc-2.enabled", "false")].

Lemma flow_enabled_needs_word_names_witness :
  ∃ c, NewKmmDrConfig example_dr = Ret c ∧ sget example_dr "dc-1->dc-2.enabled" = "false" ∧ ReplicationEnabled c = true.
Proof.
  destruct (NewKmmDrConfig example_dr) as [c|e|] eqn:E; [|exfalso; by vm_compute in E..].
  exists c. split; [done|]. split; [vm_compute; reflexivity|].
  rewrite (flow_enabled_needs_word_names example_dr c E); [vm_compute; reflexivity|].
  assert (SourceCluster c = "dc-1") as ->; [|vm_compute; reflexivity].
  apply (f_equal (λ o, match o with Ret c => SourceCluster c | _ => "" end)) in E. rewrite <- E. vm_compute. reflexivity.
Defined.

Lemma NewKmmConfigHandler_swallows_errors_witness :
  ∃ h, (NewKmmConfigHandler (L := unit) "kafka-service-operator" "ns" (start empty_cluster tt)).1 = Ret h ∧
       IsReplicationEnabled h = Panic.
Proof.
  destruct (NewKmmConfigHandler_swallows_errors (L := unit) "kafka-service-operator" "ns" "kafka-mirror-maker-configuration"
    (start empty_cluster tt)) as (r & tr & Ht & Hr); [vm_compute; reflexivity|].
  destruct r as [cm|e].
  - exfalso. apply (f_equal (λ l, match l with Ev _ r :: _ => match r with inl _ => true | inr _ => false end | [] => false end)) in Ht.
    clear Hr. vm_compute in Ht. discriminate Ht.
  - destruct Hr as (h & Hh & _ & Hp & _). by exists h.
Defined.
