(* ===== verification/KafkaClient.v ===== *)
(** * Partition reassignment

    Source: operator/controllers/kafka_client.go.  After a scale-out the operator moves replicas
    from the brokers that hold most partitions to the ones that hold least, topic by topic.

    The fields of the Go struct that are set on the way are the local state [KafkaClient].  Floats
    are those of Floats.v, int32 and int64 values are integers, wrapped
    where the code increments an int32.  sort.Slice is a [Sorter].  A loop without a bound returns
    [None] when the fuel it is run with is spent. *)

From S2P Require Import Prelude Floats GoStrings Util Transformation Kube Api External Cluster Reconciler.

(** ** Rounding *)

Definition RoundFloatTo2Decimals (x : float64) : float64 :=
  f64_div (f64_Round (f64_mul x (f64_of_Z 100))) (f64_of_Z 100).

Definition Max (x y : float64) : float64 := if SFltb x y then y else x.

(** ** Data *)

Record SaslSettings := mkSasl { Mechanism : string; Username : string; Password : string }.

Record BrokerInfo := mkInfo { brokerId : Z; partitionsCount : Z; rack : string; skew : Z }.

Global Instance BrokerInfo_eq_dec : EqDecision BrokerInfo.
Proof. solve_decision. Defined.

Record TopicInfo := mkTopic { topicName : string; configs : TopicDetail }.

Record KafkaClient := mkClient {
  newBrokersCount : Z;
  allBrokersStartTimeoutSeconds : Z;
  topicReassignmentTimeoutSeconds : Z;
  adminClient : nat;
  controllerId : Z;
  racksEnabled : bool;
  brokerRacks : gmap Z string;
}.

Definition MaxRetryAttempts : Z := 5.
Definition RetryDelay : Z := 60.

(** sort.Slice(l, less): some permutation of [l] in which no element is less than one before it. *)
Class Sorter := {
  sort_Slice : (BrokerInfo → BrokerInfo → bool) → list BrokerInfo → list BrokerInfo;
  sort_Slice_perm : ∀ less l, sort_Slice less l ≡ₚ l;
  sort_Slice_sorted : ∀ (key : BrokerInfo → Z) l,
    StronglySorted (λ a b, key a ≤ key b) (sort_Slice (λ a b, bool_decide (key a < key b)) l);
}.

(** ** Connection settings *)

Definition SASLTypePlaintext : string := "PLAIN".
Definition SASLTypeSCRAMSHA512 : string := "SCRAM-SHA-512".

(** [X509KeyPair] is crypto/tls's parser of a certificate and its key. *)
Definition NewKafkaClientConfig (X509KeyPair : string → string → option gerror)
    (saslSettings : SaslSettings) (sslEnabled : bool) (certs : SslCertificates) : outcome SaramaConfig :=
  let sasl := negb (bool_decide (Username saslSettings = "")) && negb (bool_decide (Password saslSettings = "")) in
  let mechanism := DefaultIfEmpty (Mechanism saslSettings) SASLTypeSCRAMSHA512 in
  if sasl && negb (bool_decide (mechanism = SASLTypePlaintext)) && negb (bool_decide (mechanism = SASLTypeSCRAMSHA512)) then
    Error (errorf ("cannot use given SASL Mechanism: " +:+ mechanism))
  else
    let config := mkSaramaConfig sasl (if sasl then mechanism else "") (if sasl then Username saslSettings else "")
      (if sasl then Password saslSettings else "") (sasl && bool_decide (mechanism = SASLTypeSCRAMSHA512)) in
    if sslEnabled then
      if decide (CaCert certs = "") then Ret (config true None None)
      else if negb (bool_decide (TlsCert certs = "")) && negb (bool_decide (TlsKey certs = "")) then
        match X509KeyPair (TlsCert certs) (TlsKey certs) with
        | Some err => Error err
        | None => Ret (config true (Some (CaCert certs)) (Some (TlsCert certs, TlsKey certs)))
        end
      else Ret (config true (Some (CaCert certs)) None)
    else Ret (config false None None).

(** ** Pure steps *)

Definition Abs (x : Z) : Z := if decide (x < 0) then int32_wrap (- x) else x.

Definition containsString (array : list string) (element : string) : bool := Contains element array.

Fixpoint containsInt32 (array : list Z) (element : Z) : bool :=
  match array with
  | [] => false
  | a :: array => if decide (a = element) then true else containsInt32 array element
  end.

Definition checkBrokersSkewIsNormal (brokersInfo : list BrokerInfo) : bool :=
  forallb (λ broker, negb (bool_decide (5 < Abs (skew broker)))) brokersInfo.

Definition rack_of (kc : KafkaClient) (id : Z) : string := default "" (brokerRacks kc !! id).

Definition newBrokerInfo (kc : KafkaClient) (id count : Z) : BrokerInfo := mkInfo id count (rack_of kc id) 0.

(** The racks read for a list of brokers: the loop indexes the map with the position. *)
Definition getRacksForBrokers (kc : KafkaClient) (brokers : list Z) : list string :=
  (λ broker, rack_of kc (Z.of_nat broker)) <$> seq 0 (length brokers).

Definition set_skew (v : Z) (b : BrokerInfo) : BrokerInfo := mkInfo (brokerId b) (partitionsCount b) (rack b) v.

Definition set_count (v : Z) (b : BrokerInfo) : BrokerInfo := mkInfo (brokerId b) v (rack b) (skew b).

Definition broker_skew (average maxPossibleSkew : float64) (broker : BrokerInfo) : Z :=
  let brokerSkew := f64_sub (f64_of_Z (partitionsCount broker)) average in
  if f64_is_zero brokerSkew || f64_is_zero maxPossibleSkew then 0
  else f64_to_int (f64_mul (RoundFloatTo2Decimals (f64_div brokerSkew maxPossibleSkew)) (f64_of_Z 100)).

Definition calculateBrokersSkew (kc : KafkaClient) (globalPartitionCount : Z) (brokersInfo : list BrokerInfo) :
    list BrokerInfo :=
  let partitionsOnBrokersSum := zsum partitionsCount brokersInfo in
  let average := RoundFloatTo2Decimals (f64_div (f64_of_Z partitionsOnBrokersSum) (f64_of_Z (newBrokersCount kc))) in
  let maxPossibleSkew := Max (f64_sub (f64_of_Z globalPartitionCount) average) average in
  let brokersSkew : gmap Z Z :=
    foldl (λ m broker, <[brokerId broker := broker_skew average maxPossibleSkew broker]> m) ∅ brokersInfo in
  (λ broker, set_skew (default 0 (brokersSkew !! brokerId broker)) broker) <$> brokersInfo.

(** The first of the first [n] brokers with a negative skew, [n] if there is none. *)
Fixpoint threshold_of (n i : nat) (brokersInfo : list BrokerInfo) : outcome nat :=
  match n with
  | O => Ret i
  | S n =>
      match brokersInfo with
      | [] => Panic
      | b :: brokersInfo => if decide (skew b < 0) then Ret i else threshold_of n (S i) brokersInfo
      end
  end.

Definition PrepareBrokersWithMostAndLeastPartitions `{Sorter} (kc : KafkaClient) (brokersInfo : list BrokerInfo) :
    outcome (list BrokerInfo * list BrokerInfo) :=
  let n := Z.to_nat (newBrokersCount kc) in
  threshold ← threshold_of n 0 brokersInfo;
  if decide (length brokersInfo < n)%nat then Panic
  else
    let most := take threshold brokersInfo in
    let least := take (n - threshold) (drop threshold brokersInfo) in
    Ret (most, sort_Slice (λ a b, bool_decide (skew a < skew b)) least).

Fixpoint index_of (id : Z) (idx : Z) (replicas : list Z) : option Z :=
  match replicas with
  | [] => None
  | replica :: replicas => if decide (id = replica) then Some idx else index_of id (idx + 1) replicas
  end.

Fixpoint CalcBrokerWithMostPartitionsToSwap (most : list BrokerInfo) (replicas : list Z) : Z * Z :=
  match most with
  | [] => (-1, -1)
  | broker :: most =>
      match index_of (brokerId broker) 0 replicas with
      | Some idx => (brokerId broker, idx)
      | None => CalcBrokerWithMostPartitionsToSwap most replicas
      end
  end.

Definition first_id (p : BrokerInfo → bool) (l : list BrokerInfo) : option Z :=
  brokerId <$> head (filter (λ b, p b = true) l).

Definition CalcBrokerWithLeastPartitionsToSwap (kc : KafkaClient) (least : list BrokerInfo) (replicas : list Z)
    (brokerWithMost : Z) : Z :=
  let free b := negb (containsInt32 replicas (brokerId b)) in
  let candidates :=
    if racksEnabled kc then
      [first_id (λ b, negb (containsString (getRacksForBrokers kc replicas) (rack b)) && free b) least;
       first_id (λ b, bool_decide (rack_of kc brokerWithMost = rack b) && free b) least]
    else [] in
  default (-1) (foldr (λ c rest, match c with Some id => Some id | None => rest end) None
                  (candidates ++ [first_id free least])).

Definition UpdateBrokersInfoWithNewPartitionsDistribution (brokersInfo : list BrokerInfo) (most least : Z) :
    list BrokerInfo :=
  (λ broker, if decide (brokerId broker = most) then set_count (partitionsCount broker - 1) broker
             else if decide (brokerId broker = least) then set_count (partitionsCount broker + 1) broker
             else broker) <$> brokersInfo.

Definition copy_replicas (rf : nat) (assigned : list Z) : outcome (list Z) :=
  if decide (rf ≤ length assigned)%nat then Ret (take rf assigned) else Panic.

Fixpoint copy_partitions (rf : nat) (assignment : gmap Z (list Z)) (partitions : list Z) : outcome (list (list Z)) :=
  match partitions with
  | [] => Ret []
  | p :: partitions =>
      replicas ← copy_replicas rf (default [] (assignment !! p));
      rest ← copy_partitions rf assignment partitions;
      Ret (replicas :: rest)
  end.

(** make([]int32, n) panics on a negative length. *)
Definition CopyCurrentReplicaAssignment (topic : TopicInfo) : outcome (list (list Z)) :=
  if decide (NumPartitions (configs topic) < 0) then Panic
  else if decide (ReplicationFactor (configs topic) < 0 ∧ 0 < NumPartitions (configs topic)) then Panic
  else copy_partitions (Z.to_nat (ReplicationFactor (configs topic))) (ReplicaAssignment (configs topic))
         (range_incl 0 (NumPartitions (configs topic) - 1)).

(** The variables of the loop over the partitions. *)
Record swap_state := mkSwap {
  newReplicaAssignment : list (list Z);
  sw_brokersInfo : list BrokerInfo;
  previousAssignment : Z;
}.

Definition swap_partition `{Sorter} (kc : KafkaClient) (topic : TopicInfo) (globalPartitionCount : Z) (partition : nat)
    (s : swap_state) : outcome swap_state :=
  let brokersInfo := calculateBrokersSkew kc globalPartitionCount (sw_brokersInfo s) in
  let brokersInfo := sort_Slice (λ a b, bool_decide (- skew a < - skew b)) brokersInfo in
  '(most, least) ← PrepareBrokersWithMostAndLeastPartitions kc brokersInfo;
  replicas ← index (newReplicaAssignment s) (Z.of_nat partition);
  let '(brokerWithMost, idx) := CalcBrokerWithMostPartitionsToSwap most replicas in
  if decide (brokerWithMost = -1) then Ret (mkSwap (newReplicaAssignment s) brokersInfo (previousAssignment s))
  else
    let brokerWithLeast := CalcBrokerWithLeastPartitionsToSwap kc least replicas brokerWithMost in
    if decide (brokerWithLeast = -1) then Ret (mkSwap (newReplicaAssignment s) brokersInfo (previousAssignment s))
    else if decide (ReplicationFactor (configs topic) = 1 ∧ previousAssignment s = brokerWithLeast) then
      Ret (mkSwap (newReplicaAssignment s) brokersInfo (-1))
    else
      Ret (mkSwap (<[partition := <[Z.to_nat idx := brokerWithLeast]> replicas]> (newReplicaAssignment s))
             (UpdateBrokersInfoWithNewPartitionsDistribution brokersInfo brokerWithMost brokerWithLeast)
             brokerWithLeast).

Fixpoint swap_partitions `{Sorter} (kc : KafkaClient) (topic : TopicInfo) (globalPartitionCount : Z)
    (partitions : list nat) (s : swap_state) : outcome swap_state :=
  match partitions with
  | [] => Ret s
  | p :: partitions =>
      s ← swap_partition kc topic globalPartitionCount p s;
      swap_partitions kc topic globalPartitionCount partitions s
  end.

(** ** The client *)

Section client.
Context `{Env W} `{Sorter} (X509KeyPair : string → string → option gerror).

Definition NewKafkaAdminClient {L} (bootstrapServers : string) (saslSettings : SaslSettings) (sslEnabled : bool)
    (certs : SslCertificates) : M (St W L) nat :=
  let address := Split bootstrapServers "," in
  config ← lift (NewKafkaClientConfig X509KeyPair saslSettings sslEnabled certs);
  request (NewClusterAdmin address config).

Definition NewKafkaClient {L} (serviceName clientUsername clientPassword : string) (sslEnabled : bool)
    (certs : SslCertificates) (brokersCount startTimeout reassignmentTimeout : Z) : M (St W L) KafkaClient :=
  let saslSettings := mkSasl SASLTypeSCRAMSHA512 clientUsername clientPassword in
  adminClient ← NewKafkaAdminClient (serviceName +:+ ":9092") saslSettings sslEnabled certs;
  mret (mkClient brokersCount startTimeout reassignmentTimeout adminClient 0 false ∅).

Definition GetActiveBrokers : M (St W KafkaClient) (list Broker * Z) :=
  kc ← get_local;
  request (DescribeCluster (adminClient kc)).

Definition with_brokers (controller : Z) (brokers : list Broker) (kc : KafkaClient) : KafkaClient :=
  mkClient (newBrokersCount kc) (allBrokersStartTimeoutSeconds kc) (topicReassignmentTimeoutSeconds kc) (adminClient kc)
    controller (existsb (λ b, negb (bool_decide (broker_Rack b = ""))) brokers)
    (foldl (λ m b, <[broker_ID b := broker_Rack b]> m) ∅ brokers).

Fixpoint wait_brokers (fuel : nat) (remainingTime : Z) : M (St W KafkaClient) unit :=
  match fuel with
  | O => panic
  | S fuel =>
      r ← try GetActiveBrokers;
      kc ← get_local;
      let again :=
        _ ← try (request (Sleep 10));
        let remainingTime := remainingTime - 10 in
        if decide (remainingTime ≤ 0) then throw (errorf "not all brokers are started, timeout is expired")
        else wait_brokers fuel remainingTime in
      match r with
      | inl (brokers, controller) =>
          if decide (newBrokersCount kc ≤ Z.of_nat (length brokers)) then modify_local (with_brokers controller brokers)
          else again
      | inr _ => if decide (newBrokersCount kc ≤ -1) then modify_local (with_brokers 0 []) else again
      end
  end.

Definition WaitUntilAllBrokersAreUp : M (St W KafkaClient) unit :=
  kc ← get_local;
  wait_brokers (S (Z.to_nat (allBrokersStartTimeoutSeconds kc / 10 + 1))) (allBrokersStartTimeoutSeconds kc).

(** The loop retries without end: [None] stands for a loop that has not ended yet. *)
Fixpoint describe_topics (fuel : nat) (titles : list string) : M (St W KafkaClient) (option (list TopicMetadata)) :=
  match fuel with
  | O => mret None
  | S fuel =>
      kc ← get_local;
      r ← try (request (DescribeTopics (adminClient kc) titles));
      match r with
      | inl metadata => mret (Some metadata)
      | inr _ => _ ← try (request (Sleep RetryDelay)); describe_topics fuel titles
      end
  end.

Definition leader_counts (metadata : list TopicMetadata) : gmap Z Z :=
  foldl (λ m leader, <[leader := int32_wrap (default 0 (m !! leader) + 1)]> m) ∅ (metadata ≫= tm_Leaders).

Definition calculatePartitionsCount (fuel : nat) (topics : list (string * TopicDetail)) :
    M (St W KafkaClient) (option (Z * list BrokerInfo)) :=
  kc ← get_local;
  if decide (newBrokersCount kc < 0) then panic
  else
    r ← describe_topics fuel topics.*1;
    match r with
    | None => mret None
    | Some metadata =>
        let globalPartitionCount := Z.of_nat (length (metadata ≫= tm_Leaders)) in
        let brokersInfo := (λ id, newBrokerInfo kc id (default 0 (leader_counts metadata !! id))) <$>
                             range_incl 1 (newBrokersCount kc) in
        mret (Some (globalPartitionCount, brokersInfo))
    end.

Fixpoint wait_reassignment (fuel : nat) (topic : TopicInfo) (partitions : list Z) (remaining : Z) :
    M (St W KafkaClient) unit :=
  match fuel with
  | O => panic
  | S fuel =>
      kc ← get_local;
      r ← try (request (ListPartitionReassignments (adminClient kc) (topicName topic) partitions));
      let again :=
        _ ← try (request (Sleep 2));
        let remaining := remaining - 2 in
        if decide (remaining ≤ 0) then mret tt else wait_reassignment fuel topic partitions remaining in
      match r with
      | inl reassignmentStatus =>
          if decide (size (default ∅ (reassignmentStatus !! topicName topic)) = 0%nat) then mret tt else again
      | inr _ => again
      end
  end.

Definition WaitUntilPartitionsReassignmentFinished (topic : TopicInfo) : M (St W KafkaClient) unit :=
  kc ← get_local;
  let partitions := range_incl 0 (NumPartitions (configs topic) - 1) in
  wait_reassignment (S (Z.to_nat (topicReassignmentTimeoutSeconds kc / 2 + 1))) topic partitions
    (topicReassignmentTimeoutSeconds kc).

Definition ReassignPartitionsForTopic (topic : TopicInfo) (brokersInfo : list BrokerInfo) (globalPartitionCount : Z) :
    M (St W KafkaClient) unit :=
  kc ← get_local;
  current ← lift (CopyCurrentReplicaAssignment topic);
  s ← lift (swap_partitions kc topic globalPartitionCount (seq 0 (Z.to_nat (NumPartitions (configs topic))))
              (mkSwap current brokersInfo (-1)));
  _ ← try (request (AlterPartitionReassignments (adminClient kc) (topicName topic) (newReplicaAssignment s)));
  WaitUntilPartitionsReassignmentFinished topic.

(** The loop over the topics, in the order the map is ranged over. *)
Fixpoint reassign_topics (fuel : nat) (all topics : list (string * TopicDetail)) : M (St W KafkaClient) (option unit) :=
  match topics with
  | [] => mret (Some tt)
  | (topic, config) :: topics =>
      r ← calculatePartitionsCount fuel all;
      match r with
      | None => mret None
      | Some (globalPartitionCount, brokersInfo) =>
          kc ← get_local;
          let brokersInfo := calculateBrokersSkew kc globalPartitionCount brokersInfo in
          if checkBrokersSkewIsNormal brokersInfo then mret (Some tt)
          else
            _ ← try (ReassignPartitionsForTopic (mkTopic topic config) brokersInfo globalPartitionCount);
            reassign_topics fuel all topics
      end
  end.

Definition ReassignPartitions (fuel : nat) : M (St W KafkaClient) (option unit) :=
  WaitUntilAllBrokersAreUp;;
  kc ← get_local;
  topics ← request (ListTopics (adminClient kc));
  reassign_topics fuel topics topics.

End client.

(** ** Choosing brokers *)

Lemma containsInt32_spec l x : containsInt32 l x = true ↔ x ∈ l.
Proof.
  induction l as [|a l IH]; cbn; [split; [done|by intros ?%not_elem_of_nil]|].
  rewrite elem_of_cons. case_decide; [naive_solver|]. rewrite IH. naive_solver.
Qed.

Lemma index_of_Some id idx l i :
  index_of id idx l = Some i → idx ≤ i ∧ l !! Z.to_nat (i - idx) = Some id.
Proof.
  revert idx. induction l as [|r l IH]; intros idx; cbn; [done|]. case_decide as E.
  - intros [= <-]. subst. replace (Z.to_nat (idx - idx)) with 0%nat by lia. split; [lia|done].
  - intros [? Hl]%IH. split; [lia|]. replace (Z.to_nat (i - idx)) with (S (Z.to_nat (i - (idx + 1)))) by lia. done.
Qed.

(** The broker to take from holds a replica of the partition, at the returned position. *)
Lemma CalcBrokerWithMost_spec most replicas b idx :
  CalcBrokerWithMostPartitionsToSwap most replicas = (b, idx) →
  (b = -1 ∧ idx = -1) ∨ (b ∈ brokerId <$> most ∧ 0 ≤ idx ∧ replicas !! Z.to_nat idx = Some b).
Proof.
  induction most as [|m most IH]; cbn; [intros [= <- <-]; by left|].
  destruct (index_of (brokerId m) 0 replicas) as [i|] eqn:E.
  - intros [= <- <-]. apply index_of_Some in E as [? E]. rewrite Z.sub_0_r in E. right. split_and!; [by left|done|done].
  - intros [?|(?&?&?)]%IH; [by left|]. right. split_and!; [by right|done..].
Qed.

Lemma first_id_Some p l id : first_id p l = Some id → ∃ b, b ∈ l ∧ p b = true ∧ brokerId b = id.
Proof.
  unfold first_id. destruct (filter _ l) as [|b bs] eqn:E; [done|]. cbn. intros [= <-].
  assert (Hb : b ∈ filter (λ b, p b = true) l) by (rewrite E; by left). apply list_elem_of_filter in Hb as [? ?]. by exists b.
Qed.

(** The broker to give to is one of the candidates and holds no replica of the partition. *)
Lemma CalcBrokerWithLeast_spec kc least replicas b :
  let x := CalcBrokerWithLeastPartitionsToSwap kc least replicas b in
  x = -1 ∨ (x ∈ brokerId <$> least ∧ x ∉ replicas).
Proof.
  intros x.
  assert (HF : ∀ p id, (∀ y, p y = true → containsInt32 replicas (brokerId y) = false) → first_id p least = Some id →
    id ∈ brokerId <$> least ∧ id ∉ replicas).
  { intros p id Hp (y & Hy & Hpy & <-)%first_id_Some. split; [by apply list_elem_of_fmap_2|].
    rewrite <- containsInt32_spec, (Hp y Hpy). done. }
  assert (HC : ∀ l, Forall (λ c : option Z, ∀ id, c = Some id → id ∈ brokerId <$> least ∧ id ∉ replicas) l →
    let r := default (-1) (foldr (λ c rest, match c with Some id => Some id | None => rest end) None l) in
    r = -1 ∨ (r ∈ brokerId <$> least ∧ r ∉ replicas)).
  { induction 1 as [|[id|] l Hid HF' IH]; [by left|right; by apply Hid|done]. }
  apply HC. apply Forall_app_2.
  - destruct (racksEnabled kc); [|by apply Forall_nil]. rewrite !Forall_cons, Forall_nil.
    split_and!; [intros id; apply HF; intros y [_ ?]%andb_true_iff; by apply negb_true_iff..|done].
  - rewrite Forall_singleton. intros id. apply HF. intros y. apply negb_true_iff.
Qed.

Lemma threshold_of_total n i l : (n ≤ length l)%nat → ∃ t, threshold_of n i l = Ret t ∧ (i ≤ t ≤ i + n)%nat.
Proof.
  revert i l. induction n as [|n IH]; intros i l Hl; cbn; [exists i; split; [done|lia]|].
  destruct l as [|b l]; [cbn in Hl; lia|]. case_decide; [exists i; split; [done|lia]|].
  destruct (IH (S i) l) as (t & -> & ?); [cbn in Hl; lia|]. exists t. split; [done|lia].
Qed.

(** The two halves consist of the brokers. *)
Lemma PrepareBrokers_spec `{Sorter} kc brokersInfo :
  length brokersInfo = Z.to_nat (newBrokersCount kc) →
  ∃ most least, PrepareBrokersWithMostAndLeastPartitions kc brokersInfo = Ret (most, least) ∧
    most ++ least ≡ₚ brokersInfo.
Proof.
  intros Hl. unfold PrepareBrokersWithMostAndLeastPartitions.
  destruct (threshold_of_total (Z.to_nat (newBrokersCount kc)) 0 brokersInfo) as (t & -> & Ht); [lia|].
  cbn. rewrite decide_False by lia. eexists _, _. split; [done|].
  rewrite sort_Slice_perm, (take_ge (drop t brokersInfo)) by (rewrite length_drop; lia). by rewrite take_drop.
Qed.

Lemma calculateBrokersSkew_ids kc g l : brokerId <$> calculateBrokersSkew kc g l = brokerId <$> l.
Proof. unfold calculateBrokersSkew. rewrite <- list_fmap_compose. by apply list_fmap_ext. Qed.

Lemma calculateBrokersSkew_counts kc g l : partitionsCount <$> calculateBrokersSkew kc g l = partitionsCount <$> l.
Proof. unfold calculateBrokersSkew. rewrite <- list_fmap_compose. by apply list_fmap_ext. Qed.

Lemma zsum_fmap {A} (f : A → Z) l : zsum f l = zsum id (f <$> l).
Proof. induction l as [|x l IH]; cbn; [done|]. by rewrite IH. Qed.

(** Moving one partition between two brokers conserves the number of partitions. *)
Lemma Update_conserves l most least :
  NoDup (brokerId <$> l) → most ≠ least →
  zsum partitionsCount (UpdateBrokersInfoWithNewPartitionsDistribution l most least) =
    zsum partitionsCount l - (if decide (most ∈ brokerId <$> l) then 1 else 0) + (if decide (least ∈ brokerId <$> l) then 1 else 0).
Proof.
  intros Hn Hne. unfold UpdateBrokersInfoWithNewPartitionsDistribution.
  induction l as [|b l IH]; [done|]. cbn in Hn |- *. apply NoDup_cons in Hn as [Hb Hn]. rewrite IH by done. clear IH.
  destruct (decide (brokerId b = most)) as [E1|E1]; cbn; [subst most|destruct (decide (brokerId b = least)) as [E2|E2]; cbn; [subst least|]].
  - rewrite (decide_True (P := brokerId b ∈ brokerId b :: _)) by (by left). rewrite decide_False by done.
    assert (HD : least ∈ brokerId b :: (brokerId <$> l) ↔ least ∈ brokerId <$> l) by (rewrite elem_of_cons; naive_solver).
    repeat case_decide; try lia; tauto.
  - rewrite (decide_True (P := brokerId b ∈ brokerId b :: _)) by (by left).
    rewrite (decide_False (P := brokerId b ∈ brokerId <$> l)) by done.
    assert (HD : most ∈ brokerId b :: (brokerId <$> l) ↔ most ∈ brokerId <$> l) by (rewrite elem_of_cons; naive_solver).
    repeat case_decide; try lia; tauto.
  - assert (HD : most ∈ brokerId b :: (brokerId <$> l) ↔ most ∈ brokerId <$> l) by (rewrite elem_of_cons; naive_solver).
    assert (HD' : least ∈ brokerId b :: (brokerId <$> l) ↔ least ∈ brokerId <$> l) by (rewrite elem_of_cons; naive_solver).
    repeat case_decide; try lia; tauto.
Qed.

Lemma Update_ids l most least : brokerId <$> UpdateBrokersInfoWithNewPartitionsDistribution l most least = brokerId <$> l.
Proof.
  unfold UpdateBrokersInfoWithNewPartitionsDistribution. rewrite <- list_fmap_compose. apply list_fmap_ext.
  intros i b _. cbn. by repeat case_decide.
Qed.

(** ** The new assignment *)

(** What may happen to the replicas of a partition: nothing, or one replica is replaced by a
    broker of the cluster that held none. *)
Inductive moved (ids : list Z) (old : list Z) : list Z → Prop :=
  | moved_none : moved ids old old
  | moved_one idx x : (idx < length old)%nat → x ∈ ids → x ∉ old → moved ids old (<[idx := x]> old).

Lemma moved_spec ids old new :
  moved ids old new → length new = length old ∧ (NoDup old → NoDup new) ∧ (∀ x, x ∈ new → x ∈ old ∨ x ∈ ids).
Proof.
  intros [|idx x Hi Hx Hn]; [naive_solver|]. split_and!.
  - by rewrite length_insert.
  - intros Hd. apply NoDup_alt. intros i j y. rewrite !list_lookup_insert_Some.
    intros Hy1 Hy2. rewrite NoDup_alt in Hd.
    destruct Hy1 as [(<- & -> & _)|[? H1]], Hy2 as [(<- & E & _)|[? H2]]; try done.
    + exfalso. apply Hn. by eapply list_elem_of_lookup_2.
    + subst. exfalso. apply Hn. by eapply list_elem_of_lookup_2.
    + by eapply Hd.
  - intros y [i Hy]%list_elem_of_lookup. apply list_lookup_insert_Some in Hy as [(_ & <- & _)|[_ Hy]]; [by right|].
    left. by eapply list_elem_of_lookup_2.
Qed.

Section swaps.
Context `{Sorter} (kc : KafkaClient) (topic : TopicInfo) (g : Z).

(** Brokers of a run: as many as the client expects, with distinct ids. *)
Definition fit (brokersInfo : list BrokerInfo) : Prop :=
  length brokersInfo = Z.to_nat (newBrokersCount kc) ∧ NoDup (brokerId <$> brokersInfo).

Lemma swap_partition_spec p (s : swap_state) :
  fit (sw_brokersInfo s) → (p < length (newReplicaAssignment s))%nat →
  ∃ s', swap_partition kc topic g p s = Ret s' ∧
    brokerId <$> sw_brokersInfo s' ≡ₚ brokerId <$> sw_brokersInfo s ∧
    zsum partitionsCount (sw_brokersInfo s') = zsum partitionsCount (sw_brokersInfo s) ∧
    ∃ replicas replicas', newReplicaAssignment s !! p = Some replicas ∧
      moved (brokerId <$> sw_brokersInfo s) replicas replicas' ∧
      newReplicaAssignment s' = <[p := replicas']> (newReplicaAssignment s).
Proof.
  intros [Hlen Hdup] Hp. unfold swap_partition. set (b1 := calculateBrokersSkew kc g (sw_brokersInfo s)).
  set (b2 := sort_Slice _ b1).
  assert (Hids : brokerId <$> b2 ≡ₚ brokerId <$> sw_brokersInfo s).
  { unfold b2. rewrite sort_Slice_perm. unfold b1. by rewrite calculateBrokersSkew_ids. }
  assert (Hsum : zsum partitionsCount b2 = zsum partitionsCount (sw_brokersInfo s)).
  { unfold b2. rewrite (zsum_perm _ _ _ (sort_Slice_perm _ b1)). unfold b1.
    by rewrite zsum_fmap, calculateBrokersSkew_counts, <- zsum_fmap. }
  assert (Hl2 : length b2 = Z.to_nat (newBrokersCount kc)).
  { rewrite <- Hlen, <- (length_fmap brokerId (sw_brokersInfo s)), <- Hids. by rewrite length_fmap. }
  destruct (PrepareBrokers_spec kc b2 Hl2) as (most & least & -> & Hml). cbn [mbind outcome_bind].
  destruct (lookup_lt_is_Some_2 _ _ Hp) as [replicas Hr].
  assert (index (newReplicaAssignment s) (Z.of_nat p) = Ret replicas) as ->.
  { apply index_Ret. split; [lia|]. by rewrite Nat2Z.id. }
  cbn [mbind outcome_bind]. destruct (CalcBrokerWithMostPartitionsToSwap most replicas) as [bm idx] eqn:Em.
  assert (Hsame : newReplicaAssignment s = <[p := replicas]> (newReplicaAssignment s)) by (by rewrite list_insert_id).
  case_decide as D1. { eexists. split; [done|]. split_and!; [done..|]. exists replicas, replicas. split_and!; [done|constructor|done]. }
  apply CalcBrokerWithMost_spec in Em as [[? _]|(Hbm & Hi & Hrm)]; [done|].
  destruct (CalcBrokerWithLeast_spec kc least replicas bm) as [HL|[HL1 HL2]]; [by rewrite decide_True by done; eexists; split;
    [done|]; split_and!; [done..|]; exists replicas, replicas; split_and!; [done|constructor|done]|].
  set (bl := CalcBrokerWithLeastPartitionsToSwap kc least replicas bm) in *.
  case_decide as D2. { eexists. split; [done|]. split_and!; [done..|]. exists replicas, replicas. split_and!; [done|constructor|done]. }
  case_decide as D3. { eexists. split; [done|]. split_and!; [done..|]. exists replicas, replicas. split_and!; [done|constructor|done]. }
  assert (Hin : ∀ x l, x ∈ brokerId <$> l → l ⊆ most ++ least → x ∈ brokerId <$> b2).
  { intros x l (b & -> & Hb)%list_elem_of_fmap Hsub. apply list_elem_of_fmap_2. rewrite <- Hml. by apply Hsub. }
  assert (Hne : bm ≠ bl). { intros E. apply HL2. rewrite <- E. by eapply list_elem_of_lookup_2. }
  eexists. split; [done|]. cbn. split_and!.
  - by rewrite Update_ids.
  - rewrite Update_conserves; [|by rewrite Hids|done].
    rewrite !decide_True; [lia|eapply Hin; [exact HL1|set_solver]|eapply Hin; [exact Hbm|set_solver]].
  - exists replicas, (<[Z.to_nat idx := bl]> replicas). split_and!; [done| |done]. apply moved_one; [|rewrite <- Hids|done].
    + by eapply lookup_lt_Some.
    + eapply Hin; [exact HL1|set_solver].
Qed.

(** The loop over some partitions, each visited once. *)
Lemma swap_partitions_spec ps (s : swap_state) :
  fit (sw_brokersInfo s) → NoDup ps → Forall (λ p, (p < length (newReplicaAssignment s))%nat) ps →
  ∃ s', swap_partitions kc topic g ps s = Ret s' ∧
    brokerId <$> sw_brokersInfo s' ≡ₚ brokerId <$> sw_brokersInfo s ∧
    zsum partitionsCount (sw_brokersInfo s') = zsum partitionsCount (sw_brokersInfo s) ∧
    length (newReplicaAssignment s') = length (newReplicaAssignment s) ∧
    ∀ p old, newReplicaAssignment s !! p = Some old →
      ∃ new, newReplicaAssignment s' !! p = Some new ∧
             if decide (p ∈ ps) then moved (brokerId <$> sw_brokersInfo s) old new else new = old.
Proof.
  revert s. induction ps as [|p ps IH]; intros s Hf Hn HF; cbn.
  { exists s. split_and!; try done. intros p old Hp. exists old. split; [done|]. rewrite decide_False; [done|]. apply not_elem_of_nil. }
  apply NoDup_cons in Hn as [Hpn Hn]. apply Forall_cons in HF as [Hp HF].
  destruct (swap_partition_spec p s Hf Hp) as (s1 & -> & Hi1 & Hs1 & r & r' & Hr & Hm & Ha). cbn.
  destruct (IH s1) as (s2 & -> & Hi2 & Hs2 & Hl2 & HA); [|done| |].
  - destruct Hf as [Hl Hd]. split; [|by rewrite Hi1].
    rewrite <- Hl, <- (length_fmap brokerId (sw_brokersInfo s)), <- Hi1. by rewrite length_fmap.
  - by rewrite Ha, length_insert.
  - exists s2. split_and!; [done|by rewrite Hi2|lia|by rewrite Hl2, Ha, length_insert|].
    intros q old Hq. destruct (decide (q = p)) as [->|Hqp].
    + assert (old = r) as -> by congruence.
      destruct (HA p r') as (new & Hnew & Hd). { rewrite Ha. by rewrite list_lookup_insert_eq. }
      rewrite decide_False in Hd by done. subst new. exists r'. split; [done|]. by rewrite decide_True by (by left).
    + destruct (HA q old) as (new & Hnew & Hd). { rewrite Ha. by rewrite list_lookup_insert_ne. }
      exists new. split; [done|]. assert (HD : q ∈ p :: ps ↔ q ∈ ps) by (rewrite elem_of_cons; naive_solver).
      case_decide; case_decide; try tauto. inversion Hd; [constructor|]. apply moved_one; [done| |done]. by rewrite <- Hi1.
Qed.

(** C17. The new assignment of a topic: with as many brokers as expected, with distinct ids, the
    loop over the partitions never panics; it keeps the number of partitions and the number of
    replicas of each; in each partition at most one replica is replaced, by a broker of the
    cluster that held none of that partition, so that replicas stay distinct; and the total
    number of partitions counted on the brokers is unchanged. *)
Theorem new_assignment_valid current brokersInfo :
  fit brokersInfo → length current = Z.to_nat (NumPartitions (configs topic)) →
  ∃ s, swap_partitions kc topic g (seq 0 (Z.to_nat (NumPartitions (configs topic)))) (mkSwap current brokersInfo (-1)) = Ret s ∧
    Forall2 (λ old new, moved (brokerId <$> brokersInfo) old new ∧ length new = length old ∧ (NoDup old → NoDup new))
      current (newReplicaAssignment s) ∧
    zsum partitionsCount (sw_brokersInfo s) = zsum partitionsCount brokersInfo.
Proof.
  intros Hf Hl. set (n := Z.to_nat _).
  destruct (swap_partitions_spec (seq 0 n) (mkSwap current brokersInfo (-1))) as (s & Hs & _ & Hsum & Hlen & HA);
    [done|apply NoDup_seq|apply Forall_seq; cbn; lia|].
  exists s. split_and!; [done| |done]. apply Forall2_same_length_lookup_2; [done|]. intros i old new Ho Hn.
  destruct (HA i old Ho) as (new' & Hn' & Hm). simplify_eq. rewrite decide_True in Hm.
  - pose proof (moved_spec _ _ _ Hm). tauto.
  - apply elem_of_seq. apply lookup_lt_Some in Ho. lia.
Qed.

End swaps.

(** ** Waiting *)

Lemma copy_partitions_length rf a ps r : copy_partitions rf a ps = Ret r → length r = length ps.
Proof.
  revert r. induction ps as [|p ps IH]; intros r; cbn; [by intros [= <-]|].
  destruct (copy_replicas _ _); cbn; [|done..]. destruct (copy_partitions _ _ ps); cbn; [|done..].
  intros [= <-]. cbn. by rewrite IH.
Qed.

Lemma CopyCurrent_length topic r :
  CopyCurrentReplicaAssignment topic = Ret r → length r = Z.to_nat (NumPartitions (configs topic)).
Proof.
  unfold CopyCurrentReplicaAssignment. repeat case_decide; try done. intros ->%copy_partitions_length.
  unfold range_incl. rewrite length_fmap, length_seq. lia.
Qed.

Section waiting.
Context `{Env W}.

Lemma zsum_slept_snoc tr e : zsum slept (tr ++ [e]) = zsum slept tr + slept e.
Proof. rewrite zsum_app. cbn. lia. Qed.

(** What a run of the loop from [s] with [remaining] seconds ends with. *)
Definition waited (s : St W KafkaClient) (remaining : Z) (r : outcome unit * St W KafkaClient) : Prop :=
  ∃ tr, trace r.2 = trace s ++ tr ∧ zsum slept tr ≤ Z.max 10 (remaining + 9) ∧
    match r.1 with
    | Ret _ => ∃ pre brokers controller,
        tr = pre ++ [Ev (DescribeCluster (adminClient (local s))) (inl (brokers, controller))] ∧
        newBrokersCount (local s) ≤ Z.of_nat (length brokers) ∧ local r.2 = with_brokers controller brokers (local s)
    | Error _ => remaining ≤ zsum slept tr ∧ local r.2 = local s
    | Panic => False
    end.

(** One more round: the poll [tr], the sleep, then a wait for the rest of the time. *)
Lemma waited_again (s : St W KafkaClient) remaining w tr r k :
  zsum slept tr = 0 → 10 < remaining →
  let s1 := mkSt w ((trace s ++ tr) ++ [Ev (Sleep 10) r]) (local s) in
  waited s1 (remaining - 10) k → waited s remaining k.
Proof.
  intros Htr Hr s1 (tr2 & Ht & Hz & Ho). exists ((tr ++ [Ev (Sleep 10) r]) ++ tr2).
  rewrite Ht, zsum_app, zsum_slept_snoc, Htr. cbn [slept]. unfold s1. cbn [trace local] in *.
  rewrite !app_assoc. split_and!; [done|lia|]. destruct (k.1) as [[]|e'|]; [|split; [lia|tauto]|done].
  destruct Ho as (pre & bs & c & -> & ? & ?). exists ((tr ++ [Ev (Sleep 10) r]) ++ pre), bs, c. by rewrite !app_assoc.
Qed.

Lemma wait_brokers_spec fuel remaining (s : St W KafkaClient) :
  0 ≤ newBrokersCount (local s) → remaining ≤ 10 * Z.of_nat fuel → (0 < fuel)%nat →
  waited s remaining (wait_brokers fuel remaining s).
Proof.
  revert remaining s. induction fuel as [|fuel IH]; intros remaining s Hb Hr Hf; [lia|].
  cbn [wait_brokers].
  set (again := _ ← try (request (Sleep 10)); _).
  assert (HA : ∀ w tr, zsum slept tr = 0 → waited s remaining (again (mkSt w (trace s ++ tr) (local s)))).
  { intros w tr Htr. unfold again, mbind, M_bind, try, request. cbn [world trace local].
    destruct (perform _ _ w) as [r w'] eqn:E.
    set (k := (if decide (remaining - 10 ≤ 0) then throw (errorf "not all brokers are started, timeout is expired") else wait_brokers fuel (remaining - 10))
                (mkSt w' ((trace s ++ tr) ++ [Ev (Sleep 10) r]) (local s))).
    assert (HW : waited s remaining k); [|by destruct r]. unfold k. case_decide as D.
    - exists (tr ++ [Ev (Sleep 10) r]). cbn. rewrite zsum_slept_snoc, Htr. cbn. rewrite app_assoc. split_and!; [done|lia|lia|done].
    - apply (waited_again s remaining w' tr r); [done|lia|]. apply IH; cbn; lia. }
  clearbody again. clear IH. unfold mbind, M_bind, try at 1, GetActiveBrokers, get_local, gets, request. cbn.
  unfold mbind, M_bind. destruct (perform _ _ (world s)) as [[[brokers controller]|e] w1] eqn:E1; cbn.
  - case_decide as D; [|by apply HA]. eexists. split_and!; [done|cbn; lia|]. by exists [], brokers, controller.
  - rewrite decide_False by lia. by apply HA.
Qed.

(** Waiting for the brokers ends: it never runs out of rounds; it returns nil only after the
    cluster answered with at least the expected number of brokers, whose racks and controller are
    then kept; otherwise it returns an error, after at least the timeout; and it sleeps less than
    ten seconds more than the timeout (ten seconds at least). *)
Theorem WaitUntilAllBrokersAreUp_bounded (s : St W KafkaClient) :
  0 ≤ newBrokersCount (local s) →
  waited s (allBrokersStartTimeoutSeconds (local s)) (WaitUntilAllBrokersAreUp s).
Proof.
  intros Hb. unfold WaitUntilAllBrokersAreUp, mbind, M_bind, get_local, gets. apply wait_brokers_spec; [done| |lia].
  pose proof (Z.div_mod (allBrokersStartTimeoutSeconds (local s)) 10 ltac:(lia)).
  pose proof (Z.mod_pos_bound (allBrokersStartTimeoutSeconds (local s)) 10 ltac:(lia)). lia.
Qed.

Lemma wait_reassignment_spec fuel topic partitions remaining (s : St W KafkaClient) :
  remaining ≤ 2 * Z.of_nat fuel → (0 < fuel)%nat →
  ∃ s' tr, wait_reassignment fuel topic partitions remaining s = (Ret tt, s') ∧ trace s' = trace s ++ tr ∧
    local s' = local s ∧ zsum slept tr ≤ Z.max 2 (remaining + 1).
Proof.
  revert remaining s. induction fuel as [|fuel IH]; intros remaining s Hr Hf; [lia|].
  cbn [wait_reassignment]. unfold mbind, M_bind, get_local, gets, try, request. cbn [world trace local].
  destruct (perform _ _ (world s)) as [r w1] eqn:E1.
  set (e1 := Ev (ListPartitionReassignments (adminClient (local s)) (topicName topic) partitions) r).
  destruct (perform _ (Sleep 2) w1) as [r2 w2] eqn:E2.
  assert (HA : ∃ s' tr, (if decide (remaining - 2 ≤ 0) then mret tt else wait_reassignment fuel topic partitions (remaining - 2))
      (mkSt w2 ((trace s ++ [e1]) ++ [Ev (Sleep 2) r2]) (local s)) = (Ret tt, s') ∧ trace s' = trace s ++ tr ∧
    local s' = local s ∧ zsum slept tr ≤ Z.max 2 (remaining + 1)).
  { case_decide as D.
    - eexists _, ([e1] ++ [Ev (Sleep 2) r2]). split; [done|]. cbn. rewrite <- app_assoc. split_and!; [done..|lia].
    - destruct (IH (remaining - 2) (mkSt w2 ((trace s ++ [e1]) ++ [Ev (Sleep 2) r2]) (local s))) as (s' & tr & -> & Ht & Hl & Hz); [lia..|].
      exists s', ([e1] ++ [Ev (Sleep 2) r2] ++ tr). rewrite Ht, Hl. cbn. rewrite <- !app_assoc. split_and!; [done..|]. cbn in Hz. lia. }
  destruct r as [status|e]; cbn [world trace local].
  - destruct (decide (size _ = 0%nat)) as [D|D]; [|cbn [world trace local]; rewrite E2; destruct r2; exact HA]. eexists _, [e1]. split; [done|]. split_and!; [done..|cbn; lia].
  - cbn [world trace local]. rewrite E2. destruct r2; exact HA.
Qed.

(** Reassigning a topic, for any answers of the brokers: with brokers that fit, it sends
    exactly one assignment, the one computed from the current one, ignores whether that failed,
    and polls the reassignment for less than two seconds more than the timeout; it never fails. *)
Theorem ReassignPartitionsForTopic_sends_assignment `{Sorter} topic brokersInfo g current (s : St W KafkaClient) :
  fit (local s) brokersInfo → CopyCurrentReplicaAssignment topic = Ret current →
  ∃ sw s' r tr,
    swap_partitions (local s) topic g (seq 0 (Z.to_nat (NumPartitions (configs topic)))) (mkSwap current brokersInfo (-1)) = Ret sw ∧
    ReassignPartitionsForTopic topic brokersInfo g s = (Ret tt, s') ∧
    trace s' = trace s ++ Ev (AlterPartitionReassignments (adminClient (local s)) (topicName topic) (newReplicaAssignment sw)) r :: tr ∧
    zsum slept tr ≤ Z.max 2 (topicReassignmentTimeoutSeconds (local s) + 1) ∧ local s' = local s.
Proof.
  intros Hf Hc. destruct (swap_partitions_spec (local s) topic g (seq 0 (Z.to_nat (NumPartitions (configs topic))))
    (mkSwap current brokersInfo (-1))) as (sw & Hs & _); [done|apply NoDup_seq| |].
  { cbn. rewrite (CopyCurrent_length _ _ Hc). apply Forall_seq. lia. }
  exists sw. unfold ReassignPartitionsForTopic, mbind, M_bind, get_local, gets, lift. rewrite Hc, Hs.
  unfold try, request. cbn [world trace local]. destruct (perform _ _ (world s)) as [r w1] eqn:E1.
  set (e := Ev (AlterPartitionReassignments _ _ _) r). set (s1 := mkSt w1 (trace s ++ [e]) (local s)).
  destruct (wait_reassignment_spec (S (Z.to_nat (topicReassignmentTimeoutSeconds (local s) / 2 + 1))) topic
    (range_incl 0 (NumPartitions (configs topic) - 1)) (topicReassignmentTimeoutSeconds (local s)) s1)
    as (s' & tr & Hw & Ht & Hl & Hz); [|lia|].
  { pose proof (Z.div_mod (topicReassignmentTimeoutSeconds (local s)) 2 ltac:(lia)).
    pose proof (Z.mod_pos_bound (topicReassignmentTimeoutSeconds (local s)) 2 ltac:(lia)). lia. }
  exists s', r, tr. split; [done|]. split; [|rewrite Ht; cbn; rewrite <- app_assoc; done].
  unfold WaitUntilPartitionsReassignmentFinished, mbind, M_bind, get_local, gets.
  destruct r; exact Hw.
Qed.

(** Describing the topics is retried without end although a maximum of attempts is declared:
    a broker that always fails keeps the loop running, a minute per round, for any number of
    rounds. *)
Theorem describe_topics_never_gives_up titles (s : St W KafkaClient) :
  (∀ w, ∃ e, (perform _ (DescribeTopics (adminClient (local s)) titles) w).1 = inr e) →
  ∀ fuel, ∃ s' tr, describe_topics fuel titles s = (Ret None, s') ∧ trace s' = trace s ++ tr ∧
    zsum slept tr = RetryDelay * Z.of_nat fuel.
Proof.
  intros Hfail fuel.
  assert (HG : ∀ s0 : St W KafkaClient, local s0 = local s → ∃ s' tr, describe_topics fuel titles s0 = (Ret None, s') ∧
    trace s' = trace s0 ++ tr ∧ zsum slept tr = RetryDelay * Z.of_nat fuel); [|by apply HG].
  induction fuel as [|fuel IH]; intros s0 Hl. { exists s0, []. cbn. rewrite app_nil_r. done. }
  cbn [describe_topics]. unfold mbind, M_bind, get_local, gets, try, request. rewrite Hl. cbn [world trace local].
  destruct (Hfail (world s0)) as [e He]. destruct (perform _ _ (world s0)) as [r w1] eqn:E1. cbn in He. subst r.
  cbn [world trace local]. destruct (perform _ (Sleep RetryDelay) w1) as [r2 w2] eqn:E2.
  set (e1 := Ev (DescribeTopics _ _) _). set (s1 := mkSt w2 ((trace s0 ++ [e1]) ++ [Ev (Sleep RetryDelay) r2]) (local s)).
  destruct (IH s1) as (s' & tr & Hd & Ht & Hz); [done|]. exists s', ([e1] ++ [Ev (Sleep RetryDelay) r2] ++ tr).
  split; [destruct r2; exact Hd|]. rewrite Ht. cbn [trace s1]. rewrite <- !app_assoc. split; [done|].
  rewrite !zsum_app, Hz. cbn [zsum slept e1]. unfold RetryDelay. lia.
Qed.

End waiting.

(** The racks that are compared belong to the positions of the replicas, not to the brokers
    that hold them: only the number of replicas counts.  So a replica can move to a rack the
    partition already uses while a free rack is available. *)
Theorem getRacksForBrokers_reads_positions :
  (∀ kc b1 b2, length b1 = length b2 → getRacksForBrokers kc b1 = getRacksForBrokers kc b2) ∧
  ∃ kc least replicas chosen free,
    racksEnabled kc = true ∧ chosen ∈ least ∧ free ∈ least ∧
    CalcBrokerWithLeastPartitionsToSwap kc least replicas 1 = brokerId chosen ∧
    rack chosen ∈ rack_of kc <$> replicas ∧ rack free ∉ rack_of kc <$> replicas ∧ brokerId free ∉ replicas.
Proof.
  split. { intros kc b1 b2 E. unfold getRacksForBrokers. by rewrite E. }
  set (racks := list_to_map [(1, "a"); (2, "b"); (4, "c"); (5, "b")] : gmap Z string).
  exists (mkClient 5 0 0 0 0 true racks), [mkInfo 5 0 "b" (-50); mkInfo 4 0 "c" (-50)], [1; 2],
    (mkInfo 5 0 "b" (-50)), (mkInfo 4 0 "c" (-50)).
  split_and!; [done|set_solver|set_solver|vm_compute; reflexivity|..];
    refine (bool_decide_eq_true_1 _ _); vm_compute; reflexivity.
Qed.

(** ** Witnesses *)

(** Merge sort is a sorter. *)
Definition not_after (less : BrokerInfo → BrokerInfo → bool) (a b : BrokerInfo) : Prop := less b a = false.

Global Instance not_after_dec less : RelDecision (not_after less).
Proof. intros a b. unfold not_after. apply _. Defined.

Definition merge_Slice (less : BrokerInfo → BrokerInfo → bool) (l : list BrokerInfo) : list BrokerInfo :=
  merge_sort (not_after less) l.

Lemma merge_Slice_sorted (key : BrokerInfo → Z) l :
  StronglySorted (λ a b, key a ≤ key b) (merge_Slice (λ a b, bool_decide (key a < key b)) l).
Proof.
  unfold merge_Slice. set (R := not_after _).
  assert (HR : ∀ a b, R a b ↔ key a ≤ key b). { intros a b. unfold R, not_after. rewrite bool_decide_eq_false. lia. }
  assert (Transitive R) by (intros a b c; rewrite !HR; lia).
  assert (Total R) by (intros a b; rewrite !HR; lia).
  assert (HS : StronglySorted R (merge_sort R l)) by (by apply StronglySorted_merge_sort).
  induction HS as [|x xs HS IH HF]; constructor; [done|].
  eapply Forall_impl; [exact HF|]. intros y. apply HR.
Qed.

Definition merge_sorter : Sorter := {|
  sort_Slice := merge_Slice;
  sort_Slice_perm := λ less l, merge_sort_Permutation _ l;
  sort_Slice_sorted := merge_Slice_sorted;
|}.

Definition example_client : KafkaClient := mkClient 3 30 4 0 0 false ∅.

Definition example_topic : TopicInfo :=
  mkTopic "orders" (mkTopicDetail 4 2 (list_to_map [(0, [1; 2]); (1, [2; 1]); (2, [1; 2]); (3, [2; 1])])).

Definition example_brokers : list BrokerInfo := [mkInfo 1 2 "" 0; mkInfo 2 2 "" 0; mkInfo 3 0 "" 0].

Lemma example_fit : fit example_client example_brokers.
Proof. split; [reflexivity|]. refine (bool_decide_eq_true_1 _ _). vm_compute. reflexivity. Defined.

(** Two replicas move to the new broker: the counts 2, 2, 0 become 1, 1, 2. *)
Lemma new_assignment_valid_witness :
  ∃ s, swap_partitions (H := merge_sorter) example_client example_topic 4 (seq 0 4)
         (mkSwap [[1; 2]; [2; 1]; [1; 2]; [2; 1]] example_brokers (-1)) = Ret s ∧
       zsum partitionsCount (sw_brokersInfo s) = 4 ∧ newReplicaAssignment s ≠ [[1; 2]; [2; 1]; [1; 2]; [2; 1]].
Proof.
  destruct (new_assignment_valid (H := merge_sorter) example_client example_topic 4
    [[1; 2]; [2; 1]; [1; 2]; [2; 1]] example_brokers example_fit) as (s & Hs & _ & Hz); [reflexivity|].
  exists s. split; [exact Hs|]. split; [exact Hz|]. intros E.
  apply (f_equal (λ o, match o with Ret s => newReplicaAssignment s | _ => [] end)) in Hs. rewrite E in Hs.
  vm_compute in Hs. discriminate Hs.
Defined.

Definition example_kafka : Cluster :=
  mkCluster (λ _, ∅) [mkBroker 1 ""; mkBroker 2 ""; mkBroker 3 "rack-3"] [] [] [] [] ∅ 0 ∅ ∅.

Lemma WaitUntilAllBrokersAreUp_bounded_witness :
  waited (start example_kafka example_client) 30 (WaitUntilAllBrokersAreUp (start example_kafka example_client)) ∧
  racksEnabled (local (WaitUntilAllBrokersAreUp (start example_kafka example_client)).2) = true.
Proof.
  split; [|vm_compute; reflexivity].
  apply (WaitUntilAllBrokersAreUp_bounded (start example_kafka example_client)). cbn. lia.
Defined.

Lemma ReassignPartitionsForTopic_sends_assignment_witness :
  ∃ s', ReassignPartitionsForTopic (H0 := merge_sorter) example_topic example_brokers 4 (start example_kafka example_client) = (Ret tt, s') ∧
        local s' = example_client.
Proof.
  destruct (ReassignPartitionsForTopic_sends_assignment (H0 := merge_sorter) example_topic example_brokers 4
    [[1; 2]; [2; 1]; [1; 2]; [2; 1]] (start example_kafka example_client) example_fit)
    as (sw & s' & r & tr & _ & Hr & _ & _ & Hl); [vm_compute; reflexivity|].
  exists s'. split; [exact Hr|exact Hl].
Defined.

(** An environment in which every request fails. *)
Definition broken_env : Env unit := {| perform := λ R c w, (inr (errorf "unreachable"), w) |}.

Lemma describe_topics_never_gives_up_witness :
  ∃ s' tr, describe_topics (H := broken_env) 100 ["orders"] (start tt example_client) = (Ret None, s') ∧
           trace s' = [] ++ tr ∧ zsum slept tr = 60 * 100.
Proof.
  apply (describe_topics_never_gives_up (H := broken_env) ["orders"] (start tt example_client)).
  intros w. exists (errorf "unreachable"). reflexivity.
Defined.
