(* ===== verification/MirrorMakerConfig.v ===== *)
(** * The configuration the operator writes is the one it reads back

    The provider of mirror maker writes the configuration text (MirrorMakerProvider.v); before a
    switch-over the auditor reads it through the handler of disaster recovery (KmmDr.v).  Here the
    two are composed: what the handler makes of the text the provider writes. *)

From S2P Require Import Prelude GoStrings Util Transformation Kube Api Providers MonitoringProviders.
From S2P Require Import MirrorMakerProvider External Cluster Reconciler KmmDr.

(** ** Rows *)

(** What a row [key = value] gives. *)
Definition entry_of (key value : string) : string * string := (key, Trim value).

Definition enter (p : strmap) (e : string * string) : strmap := <[e.1 := e.2]> p.

(** A key as the provider writes them. *)
Definition good_key (k : string) : Prop :=
  k ≠ "" ∧ has_char "=" k = false ∧ has_char " " k = false ∧ HasPrefix k "#" = false.

Lemma SplitN2_app s c t : has_char c s = false → SplitN2 (s +:+ String c t) c = (s, Some t).
Proof.
  induction s as [|a s IH]; [rewrite app_empty_l; cbn; by rewrite bool_decide_eq_true_2|].
  rewrite app_cons. cbn. intros [Ha Hs]%orb_false_elim. rewrite Ha. by rewrite IH.
Qed.

Lemma trim_left_solid s t : has_char " " s = false → s ≠ "" → trim_left is_blank (s +:+ t) = s +:+ t.
Proof.
  destruct s as [|a s]; [done|]. cbn [has_char]. intros [Ha _]%orb_false_elim _. rewrite app_cons.
  apply trim_left_id. exact Ha.
Qed.

Lemma trim_right_solid s : has_char " " s = false → trim_right is_blank s = s.
Proof.
  induction s as [|a s IH]; [done|]. cbn. intros [Ha Hs]%orb_false_elim. rewrite IH by done.
  unfold is_blank. rewrite Ha. by rewrite andb_false_r.
Qed.

Lemma trim_right_snoc s : trim_right is_blank (s +:+ " ") = trim_right is_blank s.
Proof. induction s as [|a s IH]; [done|]. rewrite app_cons. cbn. by rewrite IH. Qed.

Lemma Trim_solid s : has_char " " s = false → Trim s = s.
Proof.
  intros Hs. unfold Trim, trim. destruct s as [|a s]; [done|].
  rewrite <- (app_empty_r (String a s)), trim_left_solid, app_empty_r by done. by apply trim_right_solid.
Qed.

Lemma Trim_solid_snoc s : has_char " " s = false → s ≠ "" → Trim (s +:+ " ") = s.
Proof. intros Hs Hn. unfold Trim, trim. rewrite trim_left_solid by done. rewrite trim_right_snoc. by apply trim_right_solid. Qed.

Lemma Trim_blank s : Trim (" " +:+ s) = Trim s.
Proof. done. Qed.

(** A row with a good key is entered. *)
Lemma add_string_row_entry p k v : good_key k → add_string_row p (k +:+ " = " +:+ v) = enter p (entry_of k v).
Proof.
  intros (Hn & Heq & Hsp & Hh). unfold add_string_row.
  assert (HP : HasPrefix (k +:+ " = " +:+ v) "#" = false).
  { destruct k as [|a k]; [done|]. rewrite app_cons, HasPrefix_cons in *. by rewrite HasPrefix_empty in *. }
  rewrite decide_True by (split; [by destruct k|done]).
  change (k +:+ " = " +:+ v) with (k +:+ " " +:+ String "=" (" " +:+ v)). rewrite <- app_assoc_s.
  rewrite SplitN2_app by (rewrite has_char_app, Heq; done). unfold enter, entry_of. cbn [fst snd].
  by rewrite Trim_solid_snoc, Trim_blank.
Qed.

Lemma add_string_row_comment p c : add_string_row p ("#" +:+ c) = p.
Proof. unfold add_string_row. rewrite decide_False; [done|]. intros [_ H].
  change ("#" +:+ c) with (String "#" c) in H. by rewrite HasPrefix_cons, HasPrefix_empty in H.
Qed.

Lemma add_string_row_blank p : add_string_row p "" = p.
Proof. done. Qed.

(** The last entry of a key counts. *)
Fixpoint assoc (k : string) (l : list (string * string)) : option string :=
  match l with
  | [] => None
  | e :: l => over (assoc k l) (if decide (e.1 = k) then Some e.2 else None)
  end.

Lemma assoc_app k l1 l2 : assoc k (l1 ++ l2) = over (assoc k l2) (assoc k l1).
Proof. induction l1 as [|e l1 IH]; cbn; [by destruct (assoc k l2)|]. rewrite IH. by destruct (assoc k l2). Qed.

Lemma enter_lookup l p k : foldl enter p l !! k = over (assoc k l) (p !! k).
Proof.
  revert p. induction l as [|e l IH]; intros p; [done|]. cbn. rewrite IH. unfold enter.
  destruct (assoc k l); [done|]. cbn. case_decide as E; [by rewrite E, lookup_insert_eq|by rewrite lookup_insert_ne].
Qed.

Lemma assoc_none k l : Forall (λ e, e.1 ≠ k) l → assoc k l = None.
Proof. induction 1 as [|e l He Hl IH]; [done|]. cbn. by rewrite IH, decide_False. Qed.

(** ** The entries of the configuration *)

(** Rows that the reader turns into these entries. *)
Definition reads (rows : list string) (l : list (string * string)) : Prop :=
  ∀ p, foldl add_string_row p rows = foldl enter p l.

Lemma reads_nil : reads [] [].
Proof. done. Qed.

Lemma reads_app r1 l1 r2 l2 : reads r1 l1 → reads r2 l2 → reads (r1 ++ r2) (l1 ++ l2).
Proof. intros H1 H2 p. by rewrite !foldl_app, H1, H2. Qed.

Lemma reads_entry k v r l : good_key k → reads r l → reads ((k +:+ " = " +:+ v) :: r) (entry_of k v :: l).
Proof. intros Hk H p. cbn. by rewrite add_string_row_entry, H. Qed.

Lemma reads_row k v row r l : good_key k → row = k +:+ " = " +:+ v → reads r l → reads (row :: r) (entry_of k v :: l).
Proof. intros Hk ->. by apply reads_entry. Qed.

Lemma reads_comment c r l : reads r l → reads (("#" +:+ c) :: r) l.
Proof. intros H p. cbn [foldl]. by rewrite add_string_row_comment, H. Qed.

Lemma reads_blank r l : reads r l → reads ("" :: r) l.
Proof. intros H p. cbn. by rewrite H. Qed.

Lemma reads_concat {A} (f : A → list string) (g : A → list (string * string)) l :
  (∀ x, x ∈ l → reads (f x) (g x)) → reads (concat (f <$> l)) (concat (g <$> l)).
Proof.
  induction l as [|x l IH]; intros H; [done|]. cbn. apply reads_app; [apply H; set_solver|]. apply IH. set_solver.
Qed.

Lemma reads_properties rows l :
  Forall (λ row, has_char newline row = false) rows → rows ≠ [] → reads rows l →
  getStringProperties (Join rows nl) = foldl enter ∅ l.
Proof. intros Hn Hne Hr. unfold getStringProperties. unfold nl. rewrite Split_Join by done. apply Hr. Qed.

(** The names the program works with: the names of clusters are words, and no text holds a line
    break; what the transformations add is not covered here. *)
Record regular mmrp : Prop := {
  reg_words : ∀ cluster, cluster ∈ ServiceV7.MirrorMaker_Clusters (mm_spec mmrp) → word (ToLower (ServiceV7.Cluster_Name cluster)) = true;
  reg_names : ∀ cluster, cluster ∈ ServiceV7.MirrorMaker_Clusters (mm_spec mmrp) → ServiceV7.Cluster_Name cluster ≠ "";
  reg_lines : ∀ cluster, cluster ∈ ServiceV7.MirrorMaker_Clusters (mm_spec mmrp) → has_char newline (ServiceV7.Cluster_BootstrapServers cluster) = false;
  reg_topics : has_char newline (ServiceV7.MirrorMaker_TopicsToReplicate (mm_spec mmrp)) = false;
  reg_region : word (ServiceV7.MirrorMaker_RegionName (mm_spec mmrp)) = true;
  reg_named : ServiceV7.MirrorMaker_RegionName (mm_spec mmrp) ≠ "";
  reg_plain : ServiceV7.MirrorMaker_ConfiguratorEnabled (mm_spec mmrp) = true ∨ ServiceV7.MirrorMaker_Transformation (mm_spec mmrp) = None;
}.

Definition names_of mmrp : list string := (λ cluster, ToLower (ServiceV7.Cluster_Name cluster)) <$> ServiceV7.MirrorMaker_Clusters (mm_spec mmrp).

Definition flow_enabled mmrp : bool := drEnabled mmrp || ServiceV7.MirrorMaker_ReplicationFlowEnabled (mm_spec mmrp).

Definition flow_rows mmrp (flow : string) : list string :=
  [flow +:+ ".enabled = " +:+ show_bool (flow_enabled mmrp)] ++
  (if drEnabled mmrp then [] else [flow +:+ ".sync.group.offsets.enabled = false"; flow +:+ ".sync.group.offsets.interval.seconds = 5"]).

Lemma flow_config_eq mmrp source rows target :
  ServiceV7.MirrorMaker_ConfiguratorEnabled (mm_spec mmrp) = true ∨ ServiceV7.MirrorMaker_Transformation (mm_spec mmrp) = None →
  flow_config mmrp source rows target =
    rows ++ (if decide (source = target) then [] else flow_rows mmrp (NewReplicationFlow source target)).
Proof.
  intros Hp. unfold flow_config. case_decide; [by rewrite app_nil_r|]. cbv zeta.
  assert (HA : ∀ rows b, AddTransformationProperties (NewTransformationConfigurator (ServiceV7.MirrorMaker_Transformation (mm_spec mmrp)) "")
            rows source target b = rows ∨ ServiceV7.MirrorMaker_ConfiguratorEnabled (mm_spec mmrp) = true).
  { intros r b. destruct Hp as [Hp|Hp]; [by right|]. left. unfold AddTransformationProperties, getTransformationDefinition.
    cbn. by rewrite Hp. }
  fold (flow_enabled mmrp). unfold flow_rows.
  assert (HB : ∀ rows, (if flow_enabled mmrp && negb (ServiceV7.MirrorMaker_ConfiguratorEnabled (mm_spec mmrp)) then
      AddTransformationProperties (NewTransformationConfigurator (ServiceV7.MirrorMaker_Transformation (mm_spec mmrp)) "")
        rows source target (identityReplicationEnabled mmrp) else rows) = rows).
  { intros r. destruct (HA r (identityReplicationEnabled mmrp)) as [-> | ->]; [by destruct (_ && _)|by rewrite andb_false_r]. }
  rewrite HB. destruct (drEnabled mmrp); cbn [negb]; by rewrite <- ?app_assoc, ?app_nil_r.
Qed.

Lemma source_config_eq mmrp repeated target sources rows prefixes :
  ServiceV7.MirrorMaker_ConfiguratorEnabled (mm_spec mmrp) = true ∨ ServiceV7.MirrorMaker_Transformation (mm_spec mmrp) = None →
  foldl (source_config mmrp [target] repeated) (rows, prefixes) sources =
    (rows ++ concat ((λ source, if decide (source = target) then [] else flow_rows mmrp (NewReplicationFlow source target)) <$> sources),
     prefixes ++ (if repeated then [] else (λ source, source +:+ "\.*") <$> sources)).
Proof.
  intros Hp. revert rows prefixes. induction sources as [|source sources IH]; intros rows prefixes.
  { cbn. rewrite app_nil_r. destruct repeated; by rewrite app_nil_r. }
  cbn [foldl source_config]. rewrite flow_config_eq, IH by done. rewrite !fmap_cons. cbn [concat]. rewrite <- app_assoc.
  destruct repeated; cbn [negb]; [done|]. by rewrite <- app_assoc.
Qed.

Definition factor_keys : list string :=
  ["replication.factor"; "config.storage.replication.factor"; "offset.storage.replication.factor";
   "status.storage.replication.factor"; "heartbeats.topic.replication.factor";
   "checkpoints.topic.replication.factor"; "offset-syncs.topic.replication.factor"].

(** The entries, section by section of the text. *)
Definition fixed_entries mmrp : list (string * string) :=
  let spec := mm_spec mmrp in
  [entry_of "clusters" (Join (names_of mmrp) ", ")]
  ++ ((λ key, entry_of key (itoa (ServiceV7.MirrorMaker_ReplicationFactor spec))) <$> factor_keys)
  ++ [entry_of "refresh.topics.interval.seconds" (itoa (getIntValueOrDefault (ServiceV7.MirrorMaker_RefreshTopicsIntervalSeconds spec) 5));
      entry_of "refresh.groups.interval.seconds" (itoa (getIntValueOrDefault (ServiceV7.MirrorMaker_RefreshGroupsIntervalSeconds spec) 5));
      entry_of "dedicated.mode.enable.internal.rest" (show_bool (getBoolValueOrDefault (ServiceV7.MirrorMaker_InternalRestEnabled spec) true));
      entry_of "tasks.max" (itoa (getIntValueOrDefault (ServiceV7.MirrorMaker_TasksMax spec) (int32_wrap (ServiceV7.MirrorMaker_Replicas spec))));
      entry_of "sync.topic.acls.enabled" "false"].

Definition cluster_entries (cluster : ServiceV7.Cluster) : list (string * string) :=
  [entry_of (brokers_key (ToLower (ServiceV7.Cluster_Name cluster))) (ServiceV7.Cluster_BootstrapServers cluster)].

Definition dr_entries mmrp : list (string * string) :=
  (if drEnabled mmrp then [entry_of "emit.checkpoints.enabled" "true"; entry_of "emit.checkpoints.interval.seconds" "5";
                           entry_of "sync.group.offsets.enabled" "true"; entry_of "sync.group.offsets.interval.seconds" "5"] else [])
  ++ (if identityReplicationEnabled mmrp then [entry_of ReplicationPolicyClassConfig IdentityReplicationPolicy] else []).

Definition has_topics mmrp : bool :=
  negb (ServiceV7.MirrorMaker_ConfiguratorEnabled (mm_spec mmrp)) && negb (bool_decide (ServiceV7.MirrorMaker_TopicsToReplicate (mm_spec mmrp) = "")).

Definition topics_entries mmrp : list (string * string) :=
  if has_topics mmrp then [entry_of "topics" (ServiceV7.MirrorMaker_TopicsToReplicate (mm_spec mmrp))] else [].

Definition flow_entries mmrp (flow : string) : list (string * string) :=
  [entry_of (flow +:+ ".enabled") (show_bool (flow_enabled mmrp))] ++
  (if drEnabled mmrp then [] else [entry_of (flow +:+ ".sync.group.offsets.enabled") "false";
                                   entry_of (flow +:+ ".sync.group.offsets.interval.seconds") "5"]).

Definition sources_entries mmrp (target : string) (sources : list string) : list (string * string) :=
  concat ((λ source, if decide (source = target) then [] else flow_entries mmrp (NewReplicationFlow source target)) <$> sources).

(** The topics that are not to be replicated. *)
Definition blocked_topics mmrp : list string :=
  ((λ source, source +:+ "\.*") <$> names_of mmrp) ++ [".*\..*-internal"; ".*\..*\.internal"; "__.*"].

Definition black_entries mmrp : list (string * string) :=
  if isRepeatedReplication mmrp then [] else [entry_of TopicBlackList (Join (blocked_topics mmrp) ",")].

Definition entries mmrp : list (string * string) :=
  let region := ServiceV7.MirrorMaker_RegionName (mm_spec mmrp) in
  fixed_entries mmrp ++ concat (cluster_entries <$> ServiceV7.MirrorMaker_Clusters (mm_spec mmrp)) ++ [("target.dc", Trim region)]
  ++ dr_entries mmrp ++ topics_entries mmrp ++ sources_entries mmrp (ToLower region) (names_of mmrp) ++ black_entries mmrp.

Lemma word_chars w c : word w = true → is_word c = false → has_char c w = false.
Proof.
  induction w as [|a w IH]; [done|]. cbn. intros [Ha Hw]%andb_true_iff Hc. rewrite IH, orb_false_r by done.
  apply bool_decide_eq_false. intros ->. congruence.
Qed.

Lemma word_app s t : word (s +:+ t) = word s && word t.
Proof. induction s as [|a s IH]; [done|]. rewrite app_cons. cbn. by rewrite IH, andb_assoc. Qed.

Lemma lower_word a : is_word a = true → is_word (lower a) = true.
Proof. destruct a as [[] [] [] [] [] [] [] []]; vm_compute; done. Qed.

Lemma ToLower_word w : word w = true → word (ToLower w) = true.
Proof. induction w as [|a w IH]; [done|]. cbn. intros [Ha Hw]%andb_true_iff. by rewrite lower_word, IH. Qed.

(** A word followed by text without special characters is a good key. *)
Lemma good_key_word w s :
  word w = true → s ≠ "" → has_char "=" s = false → has_char " " s = false → HasPrefix s "#" = false → good_key (w +:+ s).
Proof.
  intros Hw Hs He Hb Hh. split_and!.
  - by destruct w.
  - by rewrite has_char_app, (word_chars w), He.
  - by rewrite has_char_app, (word_chars w), Hb.
  - destruct w as [|a w]; [done|]. rewrite app_cons, HasPrefix_cons, HasPrefix_empty, andb_true_r.
    cbn in Hw. apply andb_true_iff in Hw as [Ha _]. apply bool_decide_eq_false_2. intros ->. done.
Qed.

Lemma good_key_const k : negb (bool_decide (k = "")) && negb (has_char "=" k) && negb (has_char " " k) && negb (HasPrefix k "#") = true → good_key k.
Proof.
  intros [[[H1 H2]%andb_true_iff H3]%andb_true_iff H4]%andb_true_iff. unfold good_key.
  apply negb_true_iff in H1, H2, H3, H4. apply bool_decide_eq_false in H1. done.
Qed.

Lemma flow_good source target suffix :
  word source = true → word target = true → has_char "=" suffix = false → has_char " " suffix = false →
  good_key (NewReplicationFlow source target +:+ suffix).
Proof.
  intros Hs Ht He Hb. unfold NewReplicationFlow. rewrite !app_assoc_s. apply good_key_word; try done.
  - by rewrite !has_char_app, (word_chars target), He.
  - by rewrite !has_char_app, (word_chars target), Hb.
Qed.

Lemma reads_flow mmrp source target :
  word source = true → word target = true →
  reads (flow_rows mmrp (NewReplicationFlow source target)) (flow_entries mmrp (NewReplicationFlow source target)).
Proof.
  intros Hs Ht. unfold flow_rows, flow_entries.
  assert (HR : ∀ suffix v r l, has_char "=" suffix = false → has_char " " suffix = false → reads r l →
    reads ((NewReplicationFlow source target +:+ suffix +:+ " = " +:+ v) :: r) (entry_of (NewReplicationFlow source target +:+ suffix) v :: l)).
  { intros suffix v r l He Hb Hr. rewrite <- app_assoc_s. apply reads_entry; [by apply flow_good|done]. }
  change (".enabled = " +:+ ?v) with (".enabled" +:+ " = " +:+ v). apply reads_app; [by apply HR|].
  destruct (drEnabled mmrp); [done|]. apply (HR ".sync.group.offsets.enabled" "false"); [done..|].
  by apply (HR ".sync.group.offsets.interval.seconds" "5").
Qed.

Lemma reads_clusters clusters :
  (∀ cluster, cluster ∈ clusters → word (ToLower (ServiceV7.Cluster_Name cluster)) = true) →
  reads (concat (cluster_rows <$> clusters)) (concat (cluster_entries <$> clusters)).
Proof.
  intros Hw. apply reads_concat. intros cluster Hin%Hw. unfold cluster_rows, cluster_entries, brokers_key.
  apply (reads_comment (" configure [" +:+ ToLower (ServiceV7.Cluster_Name cluster) +:+ "] cluster")).
  change (".bootstrap.servers = " +:+ ?v) with (".bootstrap.servers" +:+ " = " +:+ v). rewrite <- app_assoc_s.
  apply reads_entry; [by apply good_key_word|]. apply reads_blank, reads_nil.
Qed.

Lemma reads_sources mmrp target sources :
  word target = true → (∀ source, source ∈ sources → word source = true) →
  reads (concat ((λ source, if decide (source = target) then [] else flow_rows mmrp (NewReplicationFlow source target)) <$> sources))
        (sources_entries mmrp target sources).
Proof.
  intros Ht Hs. apply reads_concat. intros source Hin%Hs. case_decide; [done|]. by apply reads_flow.
Qed.

Lemma names_words mmrp : regular mmrp → ∀ name, name ∈ names_of mmrp → word name = true.
Proof. intros Hr name (cluster & -> & Hin)%list_elem_of_fmap. by apply (reg_words _ Hr). Qed.

Lemma reads_target region r l : reads r l → reads (("target.dc=" +:+ region) :: r) (("target.dc", Trim region) :: l).
Proof. intros H p. cbn [foldl]. by rewrite <- H. Qed.

(** The text, section by section. *)
Definition fixed_rows mmrp : list string :=
  let spec := mm_spec mmrp in
  ["# mm2.properties"; "clusters = " +:+ Join (names_of mmrp) ", "]
  ++ factor_rows (ServiceV7.MirrorMaker_ReplicationFactor spec)
  ++ ["refresh.topics.interval.seconds = " +:+ itoa (getIntValueOrDefault (ServiceV7.MirrorMaker_RefreshTopicsIntervalSeconds spec) 5);
      "refresh.groups.interval.seconds = " +:+ itoa (getIntValueOrDefault (ServiceV7.MirrorMaker_RefreshGroupsIntervalSeconds spec) 5);
      "dedicated.mode.enable.internal.rest = " +:+ show_bool (getBoolValueOrDefault (ServiceV7.MirrorMaker_InternalRestEnabled spec) true);
      "tasks.max = " +:+ itoa (getIntValueOrDefault (ServiceV7.MirrorMaker_TasksMax spec) (int32_wrap (ServiceV7.MirrorMaker_Replicas spec)));
      "sync.topic.acls.enabled = false"; ""].

Definition dr_rows mmrp : list string :=
  (if drEnabled mmrp then ["emit.checkpoints.enabled = true"; "emit.checkpoints.interval.seconds = 5";
                           "sync.group.offsets.enabled = true"; "sync.group.offsets.interval.seconds = 5"] else [])
  ++ (if identityReplicationEnabled mmrp then [ReplicationPolicyClassConfig +:+ " = " +:+ IdentityReplicationPolicy] else []).

Definition topics_rows mmrp : list string :=
  if has_topics mmrp then ["topics = " +:+ ServiceV7.MirrorMaker_TopicsToReplicate (mm_spec mmrp)] else [].

Definition sources_rows mmrp (target : string) : list string :=
  concat ((λ source, if decide (source = target) then [] else flow_rows mmrp (NewReplicationFlow source target)) <$> names_of mmrp).

Definition black_rows mmrp : list string :=
  if isRepeatedReplication mmrp then [] else [TopicBlackList +:+ " = " +:+ Join (blocked_topics mmrp) ","].

Lemma clustersConfiguration_eq mmrp :
  regular mmrp →
  let region := ServiceV7.MirrorMaker_RegionName (mm_spec mmrp) in
  clustersConfiguration mmrp =
    fixed_rows mmrp ++ concat (cluster_rows <$> ServiceV7.MirrorMaker_Clusters (mm_spec mmrp)) ++ ["target.dc=" +:+ region]
    ++ dr_rows mmrp ++ topics_rows mmrp ++ [""; "# configure a specific source->target replication flow"]
    ++ sources_rows mmrp (ToLower region) ++ black_rows mmrp.
Proof.
  intros Hr region. unfold clustersConfiguration, createReplicationFlowConfig. cbv zeta. fold (names_of mmrp) region.
  rewrite (decide_True (P := _ ≠ "")) by apply (reg_named _ Hr).
  rewrite source_config_eq by apply (reg_plain _ Hr). fold (sources_rows mmrp (ToLower region)).
  unfold dr_rows, topics_rows, black_rows, blocked_topics, has_topics, fixed_rows.
  destruct (drEnabled mmrp), (identityReplicationEnabled mmrp),
    (negb (ServiceV7.MirrorMaker_ConfiguratorEnabled (mm_spec mmrp)) && negb (bool_decide (ServiceV7.MirrorMaker_TopicsToReplicate (mm_spec mmrp) = ""))),
    (isRepeatedReplication mmrp); cbn [negb app]; rewrite <- ?app_assoc, ?app_nil_r; done.
Qed.

(** The reader recovers the entries from the rows. *)
Lemma reads_configuration mmrp : regular mmrp → reads (clustersConfiguration mmrp) (entries mmrp).
Proof.
  intros Hr. rewrite clustersConfiguration_eq by done. unfold entries. cbv zeta. apply reads_app; [|apply reads_app; [|apply reads_app; [|apply reads_app; [|apply reads_app; [|apply (reads_app _ []); [|apply reads_app]]]]]].
  - apply (reads_comment " mm2.properties"). unfold fixed_rows, fixed_entries, factor_rows, factor_keys. cbn.
    repeat (apply reads_row; [by apply good_key_const|reflexivity|]). apply reads_blank, reads_nil.
  - apply reads_clusters, (reg_words _ Hr).
  - apply reads_target, reads_nil.
  - unfold dr_rows, dr_entries. apply reads_app; [destruct (drEnabled mmrp)|destruct (identityReplicationEnabled mmrp)]; [|done| |done];
    repeat (apply reads_row; [by apply good_key_const|reflexivity|]); done.
  - unfold topics_rows, topics_entries. destruct (has_topics mmrp); [|done]. by apply reads_row; [apply good_key_const| |].
  - apply reads_blank, (reads_comment " configure a specific source->target replication flow"), reads_nil.
  - apply reads_sources; [apply ToLower_word, (reg_region _ Hr)|by apply names_words].
  - unfold black_rows, black_entries. destruct (isRepeatedReplication mmrp); [done|]. by apply reads_row; [apply good_key_const| |].
Qed.

(** ** What the entries say *)

Fixpoint srev (s : string) : string :=
  match s with EmptyString => "" | String a s => srev s +:+ String a "" end.

Lemma srev_app s t : srev (s +:+ t) = srev t +:+ srev s.
Proof. induction s as [|a s IH]; [by rewrite app_empty_l, app_empty_r|]. rewrite app_cons. cbn [srev]. by rewrite IH, app_assoc_s. Qed.

Lemma ends_ne x suffix k : HasPrefix (srev k) (srev suffix) = false → x +:+ suffix ≠ k.
Proof. intros H <-. by rewrite srev_app, HasPrefix_app in H. Qed.

(** A key that no entry of a cluster or of a flow has. *)
Definition plain_key (k : string) : bool :=
  negb (HasPrefix (srev k) (srev ".bootstrap.servers")) && negb (has_char ">" k).

Lemma assoc_clusters_none k clusters :
  HasPrefix (srev k) (srev ".bootstrap.servers") = false → assoc k (concat (cluster_entries <$> clusters)) = None.
Proof.
  intros Hk. apply assoc_none, Forall_concat, Forall_fmap, Forall_forall. intros cluster _.
  repeat constructor. cbn. by apply ends_ne.
Qed.

Lemma flow_keys mmrp source target k :
  has_char ">" k = false → Forall (λ e, e.1 ≠ k) (flow_entries mmrp (NewReplicationFlow source target)).
Proof.
  intros Hk. assert (HA : ∀ suffix, NewReplicationFlow source target +:+ suffix ≠ k).
  { intros suffix <-. unfold NewReplicationFlow in Hk. rewrite !has_char_app in Hk. cbn in Hk. by rewrite orb_true_r in Hk. }
  unfold flow_entries. destruct (drEnabled mmrp); repeat constructor; apply HA.
Qed.

Lemma assoc_sources_none mmrp k target sources : has_char ">" k = false → assoc k (sources_entries mmrp target sources) = None.
Proof.
  intros Hk. apply assoc_none. unfold sources_entries. apply Forall_concat, Forall_fmap, Forall_forall. intros source _. cbn.
  case_decide; [constructor|]. by apply flow_keys.
Qed.

(** The value of a constant key comes from the constant sections. *)
Lemma entries_plain mmrp k :
  plain_key k = true →
  assoc k (entries mmrp) =
    over (assoc k (black_entries mmrp)) (over (assoc k (topics_entries mmrp)) (over (assoc k (dr_entries mmrp))
      (over (if decide ("target.dc" = k) then Some (Trim (ServiceV7.MirrorMaker_RegionName (mm_spec mmrp))) else None)
         (assoc k (fixed_entries mmrp))))).
Proof.
  intros [H1%negb_true_iff H2%negb_true_iff]%andb_true_iff. unfold entries. cbv zeta. rewrite !assoc_app.
  rewrite assoc_clusters_none, assoc_sources_none by done. cbn [assoc fst snd over].
  by destruct (assoc k (black_entries mmrp)), (assoc k (topics_entries mmrp)), (assoc k (dr_entries mmrp)), (decide ("target.dc" = k)).
Qed.

Lemma assoc_clusters_brokers mmrp cluster :
  cluster ∈ ServiceV7.MirrorMaker_Clusters (mm_spec mmrp) → NoDup (names_of mmrp) →
  assoc (brokers_key (ToLower (ServiceV7.Cluster_Name cluster))) (concat (cluster_entries <$> ServiceV7.MirrorMaker_Clusters (mm_spec mmrp)))
    = Some (Trim (ServiceV7.Cluster_BootstrapServers cluster)).
Proof.
  unfold names_of. generalize (ServiceV7.MirrorMaker_Clusters (mm_spec mmrp)) as l.
  induction l as [|x l IH]; intros Hin Hn; [by apply not_elem_of_nil in Hin|]. cbn [fmap list_fmap concat] in *.
  apply NoDup_cons in Hn as [Hx Hn]. rewrite assoc_app. apply elem_of_cons in Hin as [->|Hin].
  - rewrite (assoc_none _ (concat _)).
    { cbn [over assoc cluster_entries]. rewrite decide_True by done. done. }
    apply Forall_concat, Forall_fmap, Forall_forall. intros y Hy. repeat constructor. cbn. intros E%app_inj_r.
    apply Hx. apply list_elem_of_fmap. by exists y.
  - rewrite IH by done. done.
Qed.

Lemma assoc_clusters_other mmrp name :
  name ∉ names_of mmrp → assoc (brokers_key name) (concat (cluster_entries <$> ServiceV7.MirrorMaker_Clusters (mm_spec mmrp))) = None.
Proof.
  intros Hn. apply assoc_none, Forall_concat, Forall_fmap, Forall_forall. intros y Hy. repeat constructor. cbn. intros E%app_inj_r.
  apply Hn. apply list_elem_of_fmap. by exists y.
Qed.

(** Only clusters have brokers. *)
Lemma entries_brokers mmrp name :
  word name = true →
  assoc (brokers_key name) (entries mmrp) =
    assoc (brokers_key name) (concat (cluster_entries <$> ServiceV7.MirrorMaker_Clusters (mm_spec mmrp))).
Proof.
  intros Hw. unfold entries. cbv zeta. rewrite !assoc_app.
  assert (HC : ∀ l, Forall (λ e : string * string, HasPrefix (srev e.1) (srev ".bootstrap.servers") = false) l → assoc (brokers_key name) l = None).
  { intros l HF. apply assoc_none. eapply Forall_impl; [exact HF|]. intros e He E. symmetry in E. revert E. by apply ends_ne. }
  rewrite assoc_sources_none by (unfold brokers_key; by rewrite has_char_app, (word_chars name)).
  rewrite (HC (fixed_entries mmrp)), (HC [_]), (HC (dr_entries mmrp)), (HC (topics_entries mmrp)), (HC (black_entries mmrp));
    [by destruct (assoc (brokers_key name) (concat (cluster_entries <$> ServiceV7.MirrorMaker_Clusters (mm_spec mmrp))))|..].
  all: unfold fixed_entries, factor_keys, dr_entries, topics_entries, black_entries;
    destruct (drEnabled mmrp), (identityReplicationEnabled mmrp), (has_topics mmrp), (isRepeatedReplication mmrp); cbn [app fmap list_fmap];
    repeat (apply Forall_cons; split; [reflexivity|]); by apply Forall_nil.
Qed.

Definition read_back mmrp : strmap := getStringProperties (GetMirrorMakerProperties mmrp).

Lemma word_two a b : word a = true → word b = true → a ≠ "" → b ≠ "" →
  slice_value (Trim (Join [a; b] ", ")) = [a; b].
Proof.
  intros Ha Hb Na Nb. cbn [Join]. change (Join [a; b] ", ") with (a +:+ ", " +:+ b).
  assert (HB : trim_right is_blank (", " +:+ b) = ", " +:+ b).
  { rewrite trim_right_app, trim_right_solid by (by apply word_chars). by rewrite decide_False. }
  assert (HT : Trim (a +:+ ", " +:+ b) = a +:+ ", " +:+ b).
  { unfold Trim, trim. rewrite trim_left_solid by (try done; by apply word_chars). rewrite trim_right_app, HB. by rewrite decide_False by done. }
  rewrite HT. unfold slice_value. rewrite decide_False by (by destruct a).
  change (", " +:+ b) with (String "," (" " +:+ b)). rewrite Split_app by (by apply word_chars).
  rewrite Split_no_char by (rewrite has_char_app; by rewrite (word_chars b)). cbn [fmap list_fmap].
  rewrite Trim_blank, !Trim_solid by (by apply word_chars). done.
Qed.

(** *** The text has one row per line *)

Definition one_line (row : string) : Prop := has_char newline row = false.

Lemma one_line_app s t : one_line s → one_line t → one_line (s +:+ t).
Proof. unfold one_line. intros Hs Ht. by rewrite has_char_app, Hs, Ht. Qed.

Lemma one_line_word w : word w = true → one_line w.
Proof. intros Hw. by apply word_chars. Qed.

Lemma one_line_itoa n : one_line (itoa n).
Proof. apply itoa_has_char; [done|by left]. Qed.

Lemma one_line_bool b : one_line (show_bool b).
Proof. by destruct b. Qed.

Lemma one_line_Join l sep : one_line sep → Forall one_line l → one_line (Join l sep).
Proof.
  intros Hs HF. induction HF as [|x l Hx HF IH]; [done|]. destruct l as [|y l]; [done|].
  rewrite Join_cons. by repeat apply one_line_app.
Qed.

Ltac one_lines :=
  repeat match goal with
         | |- Forall _ (_ :: _) => apply Forall_cons; split
         | |- Forall _ [] => by apply Forall_nil
         | |- Forall _ (_ ++ _) => apply Forall_app_2
         | |- one_line (itoa _) => apply one_line_itoa
         | |- one_line (show_bool _) => apply one_line_bool
         | |- one_line _ => first [assumption | reflexivity | apply one_line_app]
         end.

Lemma one_line_flow mmrp source target : one_line source → one_line target → Forall one_line (flow_rows mmrp (NewReplicationFlow source target)).
Proof. intros Hs Ht. unfold flow_rows, NewReplicationFlow. apply Forall_app_2; [|destruct (drEnabled mmrp)]; one_lines. Qed.

Lemma one_line_configuration mmrp : regular mmrp → Forall one_line (clustersConfiguration mmrp).
Proof.
  intros Hr. rewrite clustersConfiguration_eq by done. cbv zeta.
  assert (HN : ∀ name, name ∈ names_of mmrp → one_line name) by (intros; by eapply one_line_word, names_words).
  assert (HR := one_line_word _ (reg_region _ Hr)).
  apply Forall_app_2; [|apply Forall_app_2; [|apply Forall_app_2; [|apply Forall_app_2; [|apply Forall_app_2; [|apply Forall_app_2; [|apply Forall_app_2]]]]]].
  - unfold fixed_rows, factor_rows. cbn. one_lines. apply one_line_Join; [done|]. by apply Forall_forall.
  - apply Forall_concat, Forall_fmap, Forall_forall. intros cluster Hin. cbn. unfold cluster_rows.
    assert (HB : one_line (ServiceV7.Cluster_BootstrapServers cluster)) by (by apply (reg_lines _ Hr)).
    assert (HC := one_line_word _ (reg_words _ Hr _ Hin)). one_lines.
  - one_lines.
  - unfold dr_rows. destruct (drEnabled mmrp), (identityReplicationEnabled mmrp); one_lines.
  - unfold topics_rows. assert (HT : one_line (ServiceV7.MirrorMaker_TopicsToReplicate (mm_spec mmrp))) by apply (reg_topics _ Hr).
    destruct (has_topics mmrp); one_lines.
  - one_lines.
  - unfold sources_rows. apply Forall_concat, Forall_fmap, Forall_forall. intros source Hin. cbn. case_decide; [by apply Forall_nil|].
    apply one_line_flow; [by apply HN|]. apply one_line_word, ToLower_word, (reg_region _ Hr).
  - unfold black_rows, blocked_topics. destruct (isRepeatedReplication mmrp); [one_lines|]. apply Forall_cons; split; [|by apply Forall_nil].
    apply one_line_app; [done|]. apply one_line_app; [done|]. apply one_line_Join; [done|]. apply Forall_app_2; [|one_lines].
    apply Forall_fmap, Forall_forall. intros name Hin%HN. cbn. one_lines.
Qed.

(** What the reader finds under a key. *)
Lemma read_back_lookup mmrp k : regular mmrp → read_back mmrp !! k = assoc k (entries mmrp).
Proof.
  intros Hr. unfold read_back, GetMirrorMakerProperties.
  rewrite (reads_properties _ (entries mmrp)), enter_lookup, lookup_empty.
  - by destruct (assoc k (entries mmrp)).
  - by apply one_line_configuration.
  - rewrite clustersConfiguration_eq by done. done.
  - by apply reads_configuration.
Qed.

(** ** The round trip *)

Lemma skip_word_app w a t : word w = true → is_word a = false → skip_word (w +:+ String a t) = String a t.
Proof.
  induction w as [|b w IH]; intros Hw Ha; [rewrite app_empty_l; cbn; by rewrite Ha|].
  cbn in Hw. apply andb_true_iff in Hw as [Hb Hw]. rewrite app_cons. cbn. rewrite Hb. by apply IH.
Qed.

Lemma arrow_match_flow_words suffix s t :
  word s = true → word t = true → arrow_match (String "." suffix) (NewReplicationFlow s t +:+ String "." suffix) = true.
Proof.
  intros Hs Ht. unfold arrow_match, NewReplicationFlow. rewrite !app_assoc_s.
  change ("->" +:+ t +:+ String "." suffix) with (String "-" (">" +:+ t +:+ String "." suffix)).
  rewrite skip_word_app by done. change (String "-" (">" +:+ t +:+ String "." suffix)) with ("->" +:+ t +:+ String "." suffix).
  rewrite HasPrefix_app. change 2%nat with (String.length "->"). rewrite sdrop_app, skip_word_app by done.
  by rewrite bool_decide_eq_true_2.
Qed.

(** A key with an arrow is one of a flow. *)
Lemma entries_flow mmrp k :
  regular mmrp → has_char ">" k = true →
  assoc k (entries mmrp) = assoc k (sources_entries mmrp (ToLower (ServiceV7.MirrorMaker_RegionName (mm_spec mmrp))) (names_of mmrp)).
Proof.
  intros Hr Hk. unfold entries. cbv zeta. rewrite !assoc_app.
  assert (HC : ∀ l, Forall (λ e : string * string, has_char ">" e.1 = false) l → assoc k l = None).
  { intros l HF. apply assoc_none. eapply Forall_impl; [exact HF|]. intros e He E. congruence. }
  rewrite (HC (fixed_entries mmrp)), (HC [_]), (HC (dr_entries mmrp)), (HC (topics_entries mmrp)), (HC (black_entries mmrp)), (HC (concat _));
    [by destruct (assoc k (sources_entries _ _ _))|..].
  { apply Forall_concat, Forall_fmap, Forall_forall. intros cluster Hin. repeat constructor. cbn. unfold brokers_key.
    by rewrite has_char_app, word_chars by (done || by apply (reg_words _ Hr)). }
  all: unfold fixed_entries, factor_keys, dr_entries, topics_entries, black_entries;
    destruct (drEnabled mmrp), (identityReplicationEnabled mmrp), (has_topics mmrp), (isRepeatedReplication mmrp); cbn [app fmap list_fmap];
    repeat (apply Forall_cons; split; [reflexivity|]); by apply Forall_nil.
Qed.

Lemma prefixes_compatible a b x y : a +:+ x = b +:+ y → HasPrefix a b || HasPrefix b a = true.
Proof.
  revert b. induction a as [|c a IH]; intros b E; [by rewrite HasPrefix_empty, orb_true_r|].
  destruct b as [|d b]; [by rewrite HasPrefix_empty|]. rewrite !app_cons in E. injection E as -> E.
  rewrite !HasPrefix_cons, !bool_decide_eq_true_2 by done. by apply IH.
Qed.

Lemma suffixes_compatible x y s t : x +:+ s = y +:+ t → HasPrefix (srev s) (srev t) || HasPrefix (srev t) (srev s) = true.
Proof. intros E. apply (f_equal srev) in E. rewrite !srev_app in E. by apply prefixes_compatible in E. Qed.

(** No flow has topics of its own. *)
Lemma flow_no_topics mmrp flow suffix :
  regular mmrp → has_char ">" flow = true → suffix = ".topics" ∨ suffix = ".topics.blacklist" →
  read_back mmrp !! (flow +:+ suffix) = None.
Proof.
  intros Hr Hf Hs. rewrite read_back_lookup, entries_flow by (done || by rewrite has_char_app, Hf).
  apply assoc_none, Forall_concat, Forall_fmap, Forall_forall. intros source _. cbn. case_decide; [by apply Forall_nil|].
  unfold flow_entries. destruct (drEnabled mmrp); repeat (apply Forall_cons; split); try (by apply Forall_nil);
    cbn; intros E%suffixes_compatible; by destruct Hs as [-> | ->].
Qed.

(** The flow from a source to the target has the setting of the resource. *)
Lemma flow_enabled_read mmrp source :
  let target := ToLower (ServiceV7.MirrorMaker_RegionName (mm_spec mmrp)) in
  regular mmrp → NoDup (names_of mmrp) → source ∈ names_of mmrp → source ≠ target →
  read_back mmrp !! (NewReplicationFlow source target +:+ ".enabled") = Some (show_bool (flow_enabled mmrp)).
Proof.
  intros target Hr Hn Hin Hne. rewrite read_back_lookup, entries_flow by (done || by unfold NewReplicationFlow; rewrite !has_char_app, orb_true_r).
  fold target. assert (HS : ∀ l, NoDup l → source ∈ l →
    assoc (NewReplicationFlow source target +:+ ".enabled") (sources_entries mmrp target l) = Some (show_bool (flow_enabled mmrp))); [|by apply HS].
  assert (HA : assoc (NewReplicationFlow source target +:+ ".enabled") (flow_entries mmrp (NewReplicationFlow source target)) = Some (show_bool (flow_enabled mmrp))).
  { unfold flow_entries. rewrite assoc_app. rewrite (assoc_none _ (if drEnabled mmrp then [] else _)).
    - cbn. rewrite decide_True by done. by destruct (flow_enabled mmrp).
    - destruct (drEnabled mmrp); repeat (apply Forall_cons; split); try (by apply Forall_nil); cbn; intros E%app_inj_l; done. }
  assert (HO : ∀ l, source ∉ l → assoc (NewReplicationFlow source target +:+ ".enabled") (sources_entries mmrp target l) = None).
  { intros l Hl. apply assoc_none, Forall_concat, Forall_fmap, Forall_forall. intros x Hx. cbn. case_decide; [by apply Forall_nil|].
    assert (x ≠ source) by (intros ->; done). unfold flow_entries, NewReplicationFlow.
    destruct (drEnabled mmrp); repeat (apply Forall_cons; split); try (by apply Forall_nil); cbn; intros E.
    1, 2: by apply app_inj_r, app_inj_r in E.
    - change ".sync.group.offsets.enabled" with (".sync.group.offsets" +:+ ".enabled") in E.
      rewrite <- (app_assoc_s _ ".sync.group.offsets") in E. apply app_inj_r, (f_equal (has_char ".")) in E.
      assert (Ws : has_char "." source = false) by (by apply word_chars; [apply (names_words mmrp)|]).
      assert (Wt : has_char "." target = false) by (by apply word_chars; [apply ToLower_word, (reg_region _ Hr)|]).
      rewrite !has_char_app, Ws, Wt in E.
      cbn in E. by rewrite orb_true_r in E.
    - by apply suffixes_compatible in E. }
  induction l as [|x l IH]; intros Hnd Hs; [by apply not_elem_of_nil in Hs|]. apply NoDup_cons in Hnd as [Hx Hnd].
  unfold sources_entries. cbn [fmap list_fmap concat]. fold (sources_entries mmrp target l). rewrite assoc_app.
  apply elem_of_cons in Hs as [<-|Hs]; [|by rewrite IH]. rewrite HO, decide_False by done. by rewrite HA.
Qed.

Lemma read_back_constants mmrp :
  regular mmrp →
  read_back mmrp !! "clusters" = Some (Trim (Join (names_of mmrp) ", ")) ∧
  read_back mmrp !! "target.dc" = Some (Trim (ServiceV7.MirrorMaker_RegionName (mm_spec mmrp))) ∧
  read_back mmrp !! "topics" =
    (if has_topics mmrp then Some (Trim (ServiceV7.MirrorMaker_TopicsToReplicate (mm_spec mmrp))) else None) ∧
  read_back mmrp !! TopicBlackList = (if isRepeatedReplication mmrp then None else Some (Trim (Join (blocked_topics mmrp) ","))).
Proof.
  intros Hr. rewrite !read_back_lookup, !entries_plain by done.
  unfold fixed_entries, factor_keys, dr_entries, topics_entries, black_entries.
  destruct (drEnabled mmrp), (identityReplicationEnabled mmrp), (has_topics mmrp), (isRepeatedReplication mmrp); split_and!; reflexivity.
Qed.

Lemma blocked_read mmrp :
  regular mmrp → slice_value (Trim (Join (blocked_topics mmrp) ",")) = blocked_topics mmrp.
Proof.
  intros Hr. assert (HN := names_words _ Hr).
  assert (HP : ∀ c, is_word c = false → c ≠ "\"%char → c ≠ "."%char → c ≠ "*"%char → c ≠ "-"%char → Forall (λ x, has_char c x = false) (blocked_topics mmrp)).
  { intros c Hc N1 N2 N3 N4. apply Forall_app_2.
    - apply Forall_fmap, Forall_forall. intros name Hin%HN. cbn. rewrite has_char_app, (word_chars name) by done. cbn.
      by rewrite !bool_decide_eq_false_2 by congruence.
    - repeat (apply Forall_cons; split); try (by apply Forall_nil); cbn; rewrite !bool_decide_eq_false_2;
        try done; try congruence; intros <-; done. }
  assert (HS := HP " "%char eq_refl). assert (HC := HP ","%char eq_refl).
  rewrite Trim_solid.
  - unfold slice_value. rewrite decide_False.
    + change (Join (blocked_topics mmrp) ",") with (Join (blocked_topics mmrp) (String "," "")).
      rewrite Split_Join; [|unfold blocked_topics; by destruct (names_of mmrp)|by apply HC].
      apply list_eq_Forall2, Forall2_fmap_l, Forall2_same_length_lookup_2; [done|].
      intros i x y Hx Hy. rewrite Hx in Hy. injection Hy as <-. apply Trim_solid.
      assert (HF : Forall (λ x, has_char " " x = false) (blocked_topics mmrp)) by (by apply HS).
      rewrite Forall_forall in HF. by eapply HF, list_elem_of_lookup_2.
    + assert (∃ x y l, blocked_topics mmrp = x :: y :: l) as (x & y & l & ->).
      { unfold blocked_topics. destruct (names_of mmrp) as [|n [|n' ns]]; cbn; eauto. }
      rewrite Join_cons. by destruct x.
  - assert (HF : Forall (λ x, has_char " " x = false) (blocked_topics mmrp)) by (by apply HS).
    clear HS HC HP. induction HF as [|x l Hx HF IH]; [done|]. destruct l; [done|]. rewrite Join_cons, !has_char_app, Hx, IH. done.
Qed.

(** The properties of two clusters, the target being the first or the second. *)
Lemma read_back_two mmrp c0 c1 :
  let name c := ToLower (ServiceV7.Cluster_Name c) in
  regular mmrp → ServiceV7.MirrorMaker_Clusters (mm_spec mmrp) = [c0; c1] → name c0 ≠ name c1 →
  names_of mmrp = [name c0; name c1] ∧ NoDup (names_of mmrp) ∧
  slc_of (read_back mmrp) "clusters" = Some [name c0; name c1] ∧
  str_of (read_back mmrp) "target.dc" = Some (ServiceV7.MirrorMaker_RegionName (mm_spec mmrp)) ∧
  (∀ c, c ∈ [c0; c1] → slc_of (read_back mmrp) (brokers_key (name c)) = Some (slice_value (Trim (ServiceV7.Cluster_BootstrapServers c)))) ∧
  (∀ w, word w = true → w ≠ name c0 → w ≠ name c1 → slc_of (read_back mmrp) (brokers_key w) = None).
Proof.
  intros name Hr Hc Hne. assert (HN : names_of mmrp = [name c0; name c1]) by (unfold names_of; by rewrite Hc).
  assert (HD : NoDup (names_of mmrp)).
  { rewrite HN. apply NoDup_cons. split; [|apply NoDup_singleton]. by intros Hx%list_elem_of_singleton. }
  assert (HW := names_words _ Hr). rewrite HN in HW.
  assert (Hnm : ∀ c, c ∈ [c0; c1] → name c ≠ "").
  { intros c Hin. rewrite <- Hc in Hin. apply (reg_names _ Hr) in Hin. unfold name. by destruct (ServiceV7.Cluster_Name c). }
  destruct (read_back_constants _ Hr) as (E1 & E2 & _). split_and!; [done..| | | |].
  - unfold slc_of. rewrite E1, HN. cbn [fmap option_fmap option_map]. f_equal. apply word_two; [apply HW|apply HW|apply Hnm|apply Hnm]; set_solver.
  - unfold str_of. assert (HR := reg_region _ Hr). rewrite E2, Trim_solid by (by apply word_chars). cbn. unfold string_value.
    by rewrite word_chars.
  - intros c Hin. unfold slc_of. rewrite read_back_lookup by done. rewrite entries_brokers.
    + unfold name. rewrite assoc_clusters_brokers by (done || by rewrite Hc). done.
    + apply (reg_words _ Hr). by rewrite Hc.
  - intros w Hw N0 N1. unfold slc_of. rewrite read_back_lookup, entries_brokers by done.
    rewrite assoc_clusters_other; [done|]. rewrite HN. set_solver.
Qed.

Lemma slice_value_nonempty v : v ≠ "" → slice_value v ≠ [].
Proof.
  intros Hv. unfold slice_value. rewrite decide_False by done. destruct (Split_cons v ",") as (w & ws & ->). done.
Qed.

Lemma flow_string_own p arrow v v' :
  arrowEnabledPattern (arrow +:+ "." +:+ "enabled") = true → p !! (arrow +:+ "." +:+ "enabled") = Some v → string_value v = Some v' →
  flow_string p arrow "enabled" = Some v'.
Proof. intros Hp Hv Hs. unfold flow_string, str_of. by rewrite Hp, Hv; cbn; rewrite Hs. Qed.

Lemma flow_slice_global p arrow key :
  p !! (arrow +:+ "." +:+ key) = None → flow_slice p arrow key = slc_of p key.
Proof. intros Hn. unfold flow_slice, slc_of. rewrite Hn. cbn. by destruct (_ || _). Qed.

(** C18. The configuration the operator writes for a mirror maker of two clusters with different names
    is accepted by the handler that reads it before a switch-over exactly when the region, as it is
    written in the resource, is the lower-case name of a cluster; then the target is the region,
    the source the other cluster, the brokers are those of the clusters, replication is enabled as
    the resource asks, and the allow and block lists are the ones written.

    It is stated for a [regular] resource: the names of the clusters and the region are not empty
    and made of word characters only, the brokers of both clusters are given, no text holds a line
    break, and there is no transformation unless the configurator is enabled.  Without it the
    statement fails: the names that [flow_enabled_needs_word_names] gives are read back with
    another answer on replication. *)
Theorem configuration_read_back mmrp c0 c1 :
  let name c := ToLower (ServiceV7.Cluster_Name c) in
  let region := ServiceV7.MirrorMaker_RegionName (mm_spec mmrp) in
  regular mmrp → ServiceV7.MirrorMaker_Clusters (mm_spec mmrp) = [c0; c1] → name c0 ≠ name c1 →
  Trim (ServiceV7.Cluster_BootstrapServers c0) ≠ "" → Trim (ServiceV7.Cluster_BootstrapServers c1) ≠ "" →
  (region ∉ [name c0; name c1] → ∃ e, NewKmmDrConfig (read_back mmrp) = Error e) ∧
  ∀ target source, [target; source] ≡ₚ [c0; c1] → region = name target →
    ∃ c, NewKmmDrConfig (read_back mmrp) = Ret c ∧
      TargetCluster c = region ∧ SourceCluster c = name source ∧
      TargetBrokers c = slice_value (Trim (ServiceV7.Cluster_BootstrapServers target)) ∧
      SourceBrokers c = slice_value (Trim (ServiceV7.Cluster_BootstrapServers source)) ∧
      ReplicationEnabled c = flow_enabled mmrp ∧
      GetRegularExpressions c =
        (if has_topics mmrp then Some (slice_value (Trim (ServiceV7.MirrorMaker_TopicsToReplicate (mm_spec mmrp)))) else None,
         if isRepeatedReplication mmrp then None else Some (blocked_topics mmrp)).
Proof.
  intros name region Hr Hc Hne B0 B1.
  destruct (read_back_two mmrp c0 c1 Hr Hc Hne) as (HN & HD & Hcl & Htd & Hbr & Hno). subst name. cbn beta in *. split.
  - intros Hnr. destruct (NewKmmDrConfig_cases (read_back mmrp)) as [(e & E & _)|(c & x0 & x1 & E & Ha & _)]; [by exists e|].
    exfalso. destruct Ha as [_ _ At _ _ [Ab _] _ _ _]. rewrite Htd in At. injection At as At. rewrite <- At in Ab.
    rewrite Hno in Ab; [done|apply (reg_region _ Hr)|set_solver..].
  - intros target source Hp Hreg.
    assert (Ht : target ∈ [c0; c1]) by (rewrite <- Hp; set_solver). assert (Hs : source ∈ [c0; c1]) by (rewrite <- Hp; set_solver).
    assert (Hd : ToLower (ServiceV7.Cluster_Name source) ≠ ToLower (ServiceV7.Cluster_Name target)).
    { apply Permutation_length_2_inv in Hp as [[= <- <-]|[= <- <-]]; congruence. }
    assert (Hsrc : source_of (ToLower (ServiceV7.Cluster_Name c0)) (ToLower (ServiceV7.Cluster_Name c1)) region = ToLower (ServiceV7.Cluster_Name source)).
    { unfold source_of. apply Permutation_length_2_inv in Hp as [[= <- <-]|[= <- <-]]; case_decide; congruence. }
    assert (HB : ∀ c, c ∈ [c0; c1] → slice_value (Trim (ServiceV7.Cluster_BootstrapServers c)) ≠ []).
    { intros c [->|[->|Hx]%elem_of_cons]%elem_of_cons; [by apply slice_value_nonempty..|by apply not_elem_of_nil in Hx]. }
    destruct (NewKmmDrConfig_cases (read_back mmrp)) as [(e & _ & Hbad)|(c & x0 & x1 & E & Ha & Hre)].
    { exfalso. apply Hbad. exists (ToLower (ServiceV7.Cluster_Name c0)), (ToLower (ServiceV7.Cluster_Name c1)), region. rewrite Hsrc, Hreg. rewrite !Hbr by done. cbn.
      split_and!; try done; [by rewrite <- Hreg|by apply HB|by apply HB]. }
    exists c. split; [done|]. destruct Ha as [Acl Adi At As _ [Atb _] [Asb _] Aar Aen].
    rewrite Hcl in Acl. injection Acl as <- <-. rewrite Htd in At. injection At as At. fold region in At.
    rewrite <- At, Hsrc in As. rewrite As, <- At in Aar. rewrite <- At, Hreg, Hbr in Atb by done. rewrite As, Hbr in Asb by done.
    injection Atb as Atb. injection Asb as Asb.
    assert (Hlow : ToLower region = region) by (rewrite Hreg; apply ToLower_idem).
    assert (Ws : word (ToLower (ServiceV7.Cluster_Name source)) = true) by (apply (reg_words _ Hr); by rewrite Hc).
    assert (Wt : word region = true) by apply (reg_region _ Hr).
    assert (Hfl := flow_enabled_read mmrp (ToLower (ServiceV7.Cluster_Name source))). fold region in Hfl. rewrite Hlow in Hfl.
    specialize (Hfl Hr HD). rewrite HN in Hfl.
    assert (Hin : ToLower (ServiceV7.Cluster_Name source) ∈ [ToLower (ServiceV7.Cluster_Name c0); ToLower (ServiceV7.Cluster_Name c1)]) by set_solver. specialize (Hfl Hin). rewrite Hreg in Hfl. specialize (Hfl Hd).
    rewrite <- Hreg in Hfl. fold (NewReplicationFlow (ToLower (ServiceV7.Cluster_Name source)) region) in Aar.
    destruct (read_back_constants _ Hr) as (_ & _ & Eto & Ebl).
    split_and!; [done..| |].
    + rewrite Aen, Aar. rewrite (flow_string_own _ _ (show_bool (flow_enabled mmrp)) (show_bool (flow_enabled mmrp))); [by destruct (flow_enabled mmrp)| |by exact Hfl|by destruct (flow_enabled mmrp)].
      apply (arrow_match_flow_words "enabled"); done.
    + assert (HG : ∀ suffix, suffix = ".topics" ∨ suffix = ".topics.blacklist" → read_back mmrp !! (NewReplicationFlow (ToLower (ServiceV7.Cluster_Name source)) region +:+ suffix) = None).
      { intros suffix Hsu. apply flow_no_topics; [done| |done]. unfold NewReplicationFlow. by rewrite !has_char_app, orb_true_r. }
      rewrite Hre, Aar. rewrite !flow_slice_global; [|by apply (HG ".topics.blacklist"); right|by apply (HG ".topics"); left].
      unfold slc_of. change "topics.blacklist" with TopicBlackList. rewrite Eto, Ebl. f_equal; [by destruct (has_topics mmrp)|].
      destruct (isRepeatedReplication mmrp); [done|]. cbn. by rewrite blocked_read.
Qed.

(** ** Witness *)

Definition example_cluster (name servers : string) : ServiceV7.Cluster := ServiceV7.mkCluster name servers "" false "" "SCRAM-SHA-512".

Definition example_affinity : Affinity := mkAffinity None (mkRaw "").

Definition example_spec (region : string) : ServiceV7.MirrorMaker :=
  ServiceV7.mkMirrorMaker "image" example_affinity [] "" 256 (mkResources ∅ ∅) 1
    [example_cluster "DC1" "left:9092,left-2:9092"; example_cluster "dc2" "right:9092"] "orders" 3 true None None
    "kafka-mirror-maker-configuration" "kafka-mirror-maker-secret" (mkRaw "") [] ∅ region None ∅ false false None None None None.

Definition example_dr (mode : string) : ServiceV7.DisasterRecovery :=
  ServiceV7.mkDisasterRecovery mode "dc1" false (ServiceV7.mkMirrorMakerReplication true) (ServiceV7.mkTopicsBackup true).

Definition example_global : ServiceV7.Global :=
  ServiceV7.mkGlobal true 300 ∅ ∅ "SCRAM-SHA-512" (ServiceV7.mkKafkaSsl false "") (ServiceV7.mkKraft false).

Definition example_status (mode status : string) : ServiceV7.KafkaServiceStatus :=
  ServiceV7.mkKafkaServiceStatus (ServiceV7.mkKafkaStatus []) (ServiceV7.mkPartitionsReassignmentStatus "")
    (ServiceV7.mkAkhqStatus []) (ServiceV7.mkMonitoringStatus []) (ServiceV7.mkMirrorMakerStatus [])
    (ServiceV7.mkVaultSecretManagementStatus ∅) (ServiceV7.mkDisasterRecoveryStatus mode status "" "") [].

Definition example_cr (spec : ServiceV7.MirrorMaker) (mode : string) (status : ServiceV7.KafkaServiceStatus) : ServiceV7.KafkaService :=
  ServiceV7.mkKafkaService "netcracker.com/v7" (newMeta "kafka" "ns" ∅ ∅)
    (ServiceV7.mkKafkaServiceSpec (Some example_global) (Some (example_dr mode)) None None None (Some spec) None None None None) status.

Definition example_mm (region : string) : MirrorMakerResourceProvider :=
  NewMirrorMakerResourceProvider (example_cr (example_spec region) "active" (example_status "" "")) (example_spec region).

Lemma example_regular region : word region = true → region ≠ "" → regular (example_mm region).
Proof.
  intros Hw Hn. split; try done; try (by left);
    intros cluster [->|[->|Hx]%elem_of_cons]%elem_of_cons; try done; by apply not_elem_of_nil in Hx.
Qed.

Lemma configuration_read_back_witness :
  (∃ e, NewKmmDrConfig (read_back (example_mm "DC1")) = Error e) ∧
  ∃ c, NewKmmDrConfig (read_back (example_mm "dc1")) = Ret c ∧ TargetCluster c = "dc1" ∧ SourceCluster c = "dc2" ∧
    TargetBrokers c = ["left:9092"; "left-2:9092"] ∧ ReplicationEnabled c = true.
Proof.
  split.
  - apply (configuration_read_back (example_mm "DC1") (example_cluster "DC1" "left:9092,left-2:9092") (example_cluster "dc2" "right:9092"));
      try done; [by apply example_regular|]. refine (bool_decide_eq_true_1 _ _). vm_compute. reflexivity.
  - destruct (configuration_read_back (example_mm "dc1") (example_cluster "DC1" "left:9092,left-2:9092") (example_cluster "dc2" "right:9092"))
      as [_ HR]; try done; [by apply example_regular|].
    destruct (HR (example_cluster "DC1" "left:9092,left-2:9092") (example_cluster "dc2" "right:9092")) as (c & H1 & H2 & H3 & H4 & _ & H5 & _);
      [reflexivity|reflexivity|].
    exists c. split; [exact H1|]. split; [rewrite H2; reflexivity|]. split; [rewrite H3; vm_compute; reflexivity|].
    split; [rewrite H4; vm_compute; reflexivity|rewrite H5; reflexivity].
Defined.
