(* ===== verification/Auditor.v ===== *)
(** * The replication auditor

    Source: operator/controllers/kafkaservice/kafka_replication_auditor.go.  Before a switch-over
    the operator compares, partition by partition, how many messages the active and the standby
    cluster hold, and waits until the standby has as many.

    [MatchString] is the regular expression matcher of the standard library (an invalid expression
    is an error, [None]); [range] is the order in which Go ranges over a map.  The handshake of the
    two counting goroutines with the auditor is the transition system at the end of the file. *)

From S2P Require Import Prelude GoStrings Util Transformation Kube Api External Cluster Reconciler KmmDr.
From S2P Require Import KafkaClient.

(** ** Counting *)

Definition delay : Z := 5.

Definition calculateMessagesCount (latestOffset earliestOffset : Z) : Z :=
  if decide (latestOffset < earliestOffset) then 0
  else
    let latestOffset := if decide (latestOffset < 0) then 0 else latestOffset in
    let earliestOffset := if decide (earliestOffset < 0) then 0 else earliestOffset in
    int64_wrap (latestOffset - earliestOffset).

Abbreviation counts := (gmap string Z).

Definition partition_key (topic : string) (partition : Z) : string := topic +:+ "-" +:+ itoa partition.

(** The partitions of the active side that the standby side does not have, or has fewer messages of. *)
Definition flushOut (activePartitions standByPartitions : counts) : counts :=
  foldl (λ result '(activePartition, valueActive),
    match standByPartitions !! activePartition with
    | None => <[activePartition := valueActive]> result
    | Some valueStandby =>
        if decide (valueStandby < valueActive) then <[activePartition := valueActive]> result else result
    end) ∅ (map_to_list activePartitions).

(** [key[:strings.LastIndex(key, "-")]]: without a dash the slice expression panics. *)
Definition topic_of_key (key : string) : outcome string :=
  match LastIndex key "-" with
  | Some i => Ret (stake i key)
  | None => Panic
  end.

Fixpoint topics_of_keys (keys : list string) : outcome (list string) :=
  match keys with
  | [] => Ret []
  | key :: keys => topic ← topic_of_key key; topics ← topics_of_keys keys; Ret (topic :: topics)
  end.

Definition getTopicList (range : counts → list (string * Z)) (m : counts) : outcome (list string) :=
  topics_of_keys (range m).*1.

(** ** Which topics are replicated *)

Section topics.
Context (MatchString : string → string → option bool).

Definition matchTopic (pattern topic : string) : option bool := MatchString ("^" +:+ pattern +:+ "$") topic.

(** A pattern that matches; an invalid one is logged and does not. *)
Definition matches (topic pattern : string) : bool := default false (matchTopic pattern topic).

Definition mustBeTopicReplicated (topic : string) (allow block : option (list string)) : bool :=
  if HasPrefix topic "__" || bool_decide (topic = "heartbeats") then false
  else if existsb (matches topic) (default [] block) then false
  else match allow with
       | None => true
       | Some allow => existsb (matches topic) allow
       end.

End topics.

(** ** The audit *)

Fixpoint find_cluster (clusterName : string) (clusters : list ServiceV7.Cluster) : outcome ServiceV7.Cluster :=
  match clusters with
  | [] => Error (errorf ("cannot find cluster with name: " +:+ clusterName))
  | cluster :: clusters =>
      if EqualFold clusterName (ServiceV7.Cluster_Name cluster) then Ret cluster else find_cluster clusterName clusters
  end.

(** A resource without a mirror maker section has a nil pointer there. *)
Definition findCluster (clusterName : string) (cr : ServiceV7.KafkaService) : outcome ServiceV7.Cluster :=
  match ServiceV7.KafkaServiceSpec_MirrorMaker (ServiceV7.KafkaService_Spec cr) with
  | None => Panic
  | Some mirrorMaker => find_cluster clusterName (ServiceV7.MirrorMaker_Clusters mirrorMaker)
  end.

Section audit.
Context `{Env W} {L : Type}.
Context (MatchString : string → string → option bool) (range : counts → list (string * Z)).
Context (X509KeyPair : string → string → option gerror) (operatorName operatorNamespace : string).

(** The loops return the counts collected so far together with the error. *)
Fixpoint count_partitions (client : nat) (topic : string) (partitions : list Z) (messagesCount : counts) :
    M (St W L) (counts * option gerror) :=
  match partitions with
  | [] => mret (messagesCount, None)
  | partition :: partitions =>
      latest ← try (request (GetOffset client topic partition true));
      match latest with
      | inr err => mret (messagesCount, Some err)
      | inl latestOffset =>
          earliest ← try (request (GetOffset client topic partition false));
          match earliest with
          | inr err => mret (messagesCount, Some err)
          | inl earliestOffset =>
              count_partitions client topic partitions
                (<[partition_key topic partition := calculateMessagesCount latestOffset earliestOffset]> messagesCount)
          end
      end
  end.

Fixpoint count_topics (client : nat) (topics : list string) (messagesCount : counts) :
    M (St W L) (counts * option gerror) :=
  match topics with
  | [] => mret (messagesCount, None)
  | topic :: topics =>
      r ← try (request (Partitions client topic));
      match r with
      | inr err => mret (messagesCount, Some err)
      | inl partitions =>
          '(messagesCount, err) ← count_partitions client topic partitions messagesCount;
          match err with
          | Some err => mret (messagesCount, Some err)
          | None => count_topics client topics messagesCount
          end
      end
  end.

Definition getMessagesCount (client : nat) (topics : list string) : M (St W L) (counts * option gerror) :=
  count_topics client topics ∅.

(** The goroutine drops the error and delivers the counts. *)
Definition getMessagesCountWrapped (client : nat) (topics : list string) : M (St W L) counts :=
  '(messagesCount, _) ← getMessagesCount client topics;
  mret messagesCount.

(** [rounds]: how often the channel [stopAudit] is found open.  The code returns nil both when nothing
    is left to replicate ([true]) and when it finds the channel closed ([false]). *)
Fixpoint waitUntilActiveMessagesFlushOut (rounds : nat) (notReplicated : counts) (clientStandby : nat) : M (St W L) bool :=
  match rounds with
  | O => mret false
  | S rounds =>
      topics ← lift (getTopicList range notReplicated);
      '(standby, err) ← getMessagesCount clientStandby topics;
      match err with
      | Some err => throw err
      | None =>
          let notReplicated := flushOut notReplicated standby in
          if decide (notReplicated = ∅) then mret true
          else
            _ ← try (request (Sleep delay));
            waitUntilActiveMessagesFlushOut rounds notReplicated clientStandby
      end
  end.

Definition cluster_certificates (cluster : ServiceV7.Cluster) : M (St W L) SslCertificates :=
  if ServiceV7.Cluster_EnableSsl cluster && negb (bool_decide (ServiceV7.Cluster_SslSecretName cluster = "")) then
    GetSslCertificates (ServiceV7.Cluster_SslSecretName cluster) operatorNamespace
  else mret (mkSsl "" "" "").

Definition sasl_of (cluster : ServiceV7.Cluster) (creds : list string) : outcome SaslSettings :=
  user ← index creds 0;
  password ← index creds 1;
  Ret (mkSasl (ServiceV7.Cluster_SaslMechanism cluster) user password).

(** Returns the clients of the target (standby) and of the source (active). *)
Definition getKafkaClients (cr : ServiceV7.KafkaService) (handler : KmmConfigHandler) : M (St W L) (nat * nat) :=
  '(targetBrokers, sourceBrokers) ← lift (GetBrokers handler);
  targetName ← lift (GetTargetCluster handler);
  targetCluster ← lift (findCluster targetName cr);
  sourceName ← lift (GetSourceCluster handler);
  sourceCluster ← lift (findCluster sourceName cr);
  let '(targetCreds, sourceCreds) := GetKafkaUsernamePasswords handler in
  targetSasl ← lift (sasl_of targetCluster targetCreds);
  sourceSasl ← lift (sasl_of sourceCluster sourceCreds);
  targetCerts ← cluster_certificates targetCluster;
  sourceCerts ← cluster_certificates sourceCluster;
  targetConfig ← lift (NewKafkaClientConfig X509KeyPair targetSasl (ServiceV7.Cluster_EnableSsl targetCluster) targetCerts);
  sourceConfig ← lift (NewKafkaClientConfig X509KeyPair sourceSasl (ServiceV7.Cluster_EnableSsl sourceCluster) sourceCerts);
  targetClient ← request (NewClient targetBrokers targetConfig);
  sourceClient ← request (NewClient sourceBrokers sourceConfig);
  mret (targetClient, sourceClient).

(** The part of the audit that follows the connection.  The two goroutines read different clusters;
    here the active one is read first. *)
Definition audit (rounds : nat) (allow block : option (list string)) (clientStandby clientActive : nat) : M (St W L) bool :=
  topicsActive ← request (ClientTopics clientActive);
  let replicatedTopics := filter (λ topic, mustBeTopicReplicated MatchString topic allow block = true) topicsActive in
  messagesActive ← getMessagesCountWrapped clientActive replicatedTopics;
  messagesStandby ← getMessagesCountWrapped clientStandby replicatedTopics;
  let notReplicated := flushOut messagesActive messagesStandby in
  if decide (notReplicated = ∅) then mret true
  else waitUntilActiveMessagesFlushOut rounds notReplicated clientStandby.

Definition checkFullReplication (rounds : nat) (cr : ServiceV7.KafkaService) : M (St W L) bool :=
  handler ← NewKmmConfigHandler operatorName operatorNamespace;
  enabled ← lift (IsReplicationEnabled handler);
  if negb enabled then mret true
  else
    '(clientStandby, clientActive) ← getKafkaClients cr handler;
    '(allow, block) ← lift (handler_GetRegularExpressions handler);
    audit rounds allow block clientStandby clientActive.

(** The select of [CheckFullReplication]: the result of the audit if it comes before the ticker
    ([timeout] is false).  The channel is closed by the deferred function after the select, so an
    audit that found it closed came after the ticker. *)
Definition CheckFullReplication (rounds : nat) (timeout : bool) (cr : ServiceV7.KafkaService) : M (St W L) (bool * option gerror) :=
  r ← try (checkFullReplication rounds cr);
  mret (match r with
        | inl false => (false, None)
        | inl true => if timeout then (false, None) else (true, None)
        | inr err => if timeout then (false, None) else (true, Some err)
        end).

End audit.

(** ** Counting: properties *)

(** The number of messages of a partition is never negative and, for 64-bit offsets, the
    subtraction does not overflow; for offsets as a broker reports them it is their difference,
    and it is zero when the earliest offset is past the latest. *)
Theorem calculateMessagesCount_bounds latest earliest :
  in_int64 latest → in_int64 earliest →
  0 ≤ calculateMessagesCount latest earliest ∧ in_int64 (calculateMessagesCount latest earliest) ∧
  (0 ≤ earliest ≤ latest → calculateMessagesCount latest earliest = latest - earliest) ∧
  (latest < earliest → calculateMessagesCount latest earliest = 0) ∧
  calculateMessagesCount latest earliest ≤ Z.max 0 latest.
Proof.
  unfold calculateMessagesCount, in_int64. intros Hl He.
  repeat case_decide; try rewrite int64_wrap_id by (unfold in_int64; lia); split_and!; lia.
Qed.

Lemma calculateMessagesCount_bounds_witness : calculateMessagesCount 10 4 = 6.
Proof. apply (calculateMessagesCount_bounds 10 4); unfold in_int64; lia. Defined.

(** The entry that [flushOut] leaves for a partition. *)
Lemma flushOut_lookup active standby k :
  flushOut active standby !! k =
    match active !! k, standby !! k with
    | Some a, Some s => if decide (s < a) then Some a else None
    | Some a, None => Some a
    | None, _ => None
    end.
Proof.
  unfold flushOut.
  assert (HG : ∀ entries (acc : counts), NoDup entries.*1 →
    foldl (λ result '(p, a), match standby !! p with None => <[p := a]> result
             | Some s => if decide (s < a) then <[p := a]> result else result end) acc entries !! k =
    match (list_to_map entries : counts) !! k, standby !! k with
    | Some a, Some s => if decide (s < a) then Some a else acc !! k
    | Some a, None => Some a
    | None, _ => acc !! k
    end).
  { induction entries as [|[p a] entries IH]; intros acc Hn; cbn; [by rewrite lookup_empty|].
    apply NoDup_cons in Hn as [Hp Hn]. rewrite IH by done. destruct (decide (k = p)) as [->|Hk].
    - rewrite lookup_insert_eq, not_elem_of_list_to_map_1 by done.
      destruct (standby !! p); [case_decide; [by rewrite lookup_insert_eq|done]|by rewrite lookup_insert_eq].
    - rewrite (lookup_insert_ne (list_to_map entries : counts)) by done.
      assert (HE : (match standby !! p with None => <[p := a]> acc
             | Some s => if decide (s < a) then <[p := a]> acc else acc end) !! k = acc !! k).
      { destruct (standby !! p); [case_decide; [by rewrite lookup_insert_ne|done]|by rewrite lookup_insert_ne]. }
      rewrite HE. done. }
  rewrite HG by apply NoDup_fst_map_to_list. rewrite list_to_map_to_list, lookup_empty. done.
Qed.

(** The comparison keeps exactly the partitions the standby side lags behind in, with the
    active count: nothing is left if and only if the standby side has every partition with at
    least as many messages. *)
Theorem flushOut_spec active standby :
  flushOut active standby ⊆ active ∧
  (flushOut active standby = ∅ ↔ ∀ k a, active !! k = Some a → ∃ s, standby !! k = Some s ∧ a ≤ s).
Proof.
  split.
  - apply map_subseteq_spec. intros k x. rewrite flushOut_lookup.
    destruct (active !! k), (standby !! k); try case_decide; naive_solver.
  - split.
    + intros E k a Ha. assert (HL := flushOut_lookup active standby k). rewrite E, lookup_empty, Ha in HL.
      destruct (standby !! k) as [s|]; [|done]. exists s. split; [done|]. case_decide; [done|lia].
    + intros HA. apply map_eq. intros k. rewrite lookup_empty, flushOut_lookup.
      destruct (active !! k) as [a|] eqn:Ea; [|done]. destruct (HA k a Ea) as (s & -> & ?). rewrite decide_False by lia. done.
Qed.

(** *** Keys of partitions *)

Lemma LastIndex_none s c : has_char c s = false → LastIndex s c = None.
Proof.
  induction s as [|a s IH]; [done|]. cbn. intros [Ha Hs]%orb_false_elim. rewrite IH by done.
  rewrite bool_decide_eq_false_2; [done|]. intros ->. by rewrite bool_decide_eq_true_2 in Ha.
Qed.

Lemma LastIndex_app s t c : has_char c t = false → LastIndex (s +:+ String c t) c = Some (String.length s).
Proof.
  intros Ht. induction s as [|a s IH].
  - rewrite app_empty_l. cbn. rewrite LastIndex_none by done. by rewrite bool_decide_eq_true_2.
  - rewrite app_cons. cbn. by rewrite IH.
Qed.

Lemma stake_app s t : stake (String.length s) (s +:+ t) = s.
Proof. induction s as [|a s IH]; [by destruct t|]. rewrite app_cons. cbn. by rewrite IH. Qed.

(** The topic is recovered from the key of its partition, also when its name has dashes. *)
Theorem partition_key_roundtrip topic partition :
  0 ≤ partition → topic_of_key (partition_key topic partition) = Ret topic.
Proof.
  intros Hp. unfold topic_of_key, partition_key. change ("-" +:+ itoa partition) with (String "-" (itoa partition)).
  rewrite LastIndex_app by (apply itoa_has_char; [done|by right]). by rewrite stake_app.
Qed.

Lemma partition_key_roundtrip_witness : topic_of_key (partition_key "my-topic" 12) = Ret "my-topic".
Proof. apply (partition_key_roundtrip "my-topic" 12). lia. Defined.

(** ** The audit: properties *)

Section audit_properties.
Context `{Env W} {L : Type}.
Context (MatchString : string → string → option bool) (range : counts → list (string * Z)).

Lemma flushed_by_snapshot snaps m k a :
  foldl flushOut m snaps = ∅ → m !! k = Some a → ∃ snap v, snap ∈ snaps ∧ snap !! k = Some v ∧ a ≤ v.
Proof.
  revert m. induction snaps as [|snap snaps IH]; intros m HE Hk; cbn in HE.
  { subst m. by rewrite lookup_empty in Hk. }
  assert (HL := flushOut_lookup m snap k). rewrite Hk in HL. destruct (snap !! k) as [v|] eqn:Ev.
  - case_decide as D.
    + destruct (IH _ HE HL) as (sn & v' & ? & ? & ?). exists sn, v'. split; [by right|done].
    + exists snap, v. split; [by left|]. split; [done|lia].
  - destruct (IH _ HE HL) as (sn & v' & ? & ? & ?). exists sn, v'. split; [by right|done].
Qed.

(** *** Code that only looks *)

(** Neither a write to the API server nor a pause. *)
Definition looks (e : event) : Prop := is_write e = false ∧ slept e = 0.

Lemma emits_count_partitions client topic ps m : emits looks (count_partitions (W := W) (L := L) client topic ps m).
Proof. revert m. induction ps as [|p ps IH]; intros m; cbn [count_partitions]; by emits_auto. Qed.

Lemma emits_count_topics client topics m : emits looks (count_topics (W := W) (L := L) client topics m).
Proof.
  revert m. induction topics as [|t topics IH]; intros m; cbn [count_topics]; emits_auto; try done; apply emits_count_partitions.
Qed.

Lemma looks_trace {A} (m : M (St W L) A) s : emits looks m → trace s `prefix_of` trace (m s).2 ∧ zsum slept (trace (m s).2) = zsum slept (trace s).
Proof.
  intros Hm. destruct (Hm s) as (tr & -> & HF). split; [by exists tr|]. rewrite zsum_app.
  assert (zsum slept tr = 0); [|lia]. induction HF as [|e tr [_ He] HF IH]; cbn; lia.
Qed.

(** Between two states of a run, a side was counted over some topics with this result, which an
    error may have cut short. *)
Definition counted (s s' : St W L) (client : nat) (topics : list string) (snap : counts) (err : option gerror) : Prop :=
  ∃ s1 s2 : St W L, trace s `prefix_of` trace s1 ∧ getMessagesCount client topics s1 = (Ret (snap, err), s2) ∧ trace s2 `prefix_of` trace s'.

Lemma counted_weaken s0 s s' s3 client topics snap err :
  counted s s' client topics snap err → trace s0 `prefix_of` trace s → trace s' `prefix_of` trace s3 → counted s0 s3 client topics snap err.
Proof. intros (s1 & s2 & H1 & Hc & H2) H0 H3. exists s1, s2. split_and!; [by etrans|done|by etrans]. Qed.

Lemma wait_flush_snapshots rounds m client (s s' : St W L) :
  waitUntilActiveMessagesFlushOut range rounds m client s = (Ret true, s') →
  trace s `prefix_of` trace s' ∧
  ∃ snaps, Forall (λ snap, ∃ topics, counted s s' client topics snap None) snaps ∧ foldl flushOut m snaps = ∅.
Proof.
  revert m s. induction rounds as [|rounds IH]; intros m s; cbn [waitUntilActiveMessagesFlushOut]; [done|].
  unfold mbind, M_bind, lift. destruct (getTopicList range m) as [topics|e|]; [|done..].
  destruct (looks_trace _ s (emits_count_topics client topics ∅)) as [Hp1 _].
  destruct (getMessagesCount client topics s) as [[[snap [e|]]|e|] s1] eqn:Ec; [done| |done..].
  unfold getMessagesCount in Ec. rewrite Ec in Hp1. cbn in Hp1.
  assert (Hs : ∀ s3 : St W L, trace s1 `prefix_of` trace s3 → ∃ topics, counted s s3 client topics snap None) by (intros s3 Hp; by exists topics, s, s1).
  case_decide as D.
  - intros [= <-]. split; [done|]. exists [snap]. split; [apply Forall_singleton; by apply Hs|done].
  - destruct (try (request (Sleep delay)) s1) as [[r|e|] s2] eqn:Es; [|done..].
    assert (Hp2 : trace s1 `prefix_of` trace s2).
    { revert Es. unfold try, request. destruct (perform _ (Sleep delay) (world s1)) as [[u|e] w]; intros [= _ <-]; cbn; by eexists. }
    intros (Hp3 & snaps & HF & Hd)%IH. split; [etrans; [exact Hp1|]; by etrans; [exact Hp2|]|].
    exists (snap :: snaps). split; [|done].
    apply Forall_cons. split; [apply Hs; by etrans|]. eapply Forall_impl; [exact HF|]. intros sn [t Ht]. exists t.
    eapply counted_weaken; [exact Ht|by etrans|done].
Qed.

(** When the wait for the standby side ends other than by the channel being closed, each partition
    that lagged behind was seen, in some poll of the standby side made during this wait, with at
    least the number of messages counted on the active side. *)
Theorem waitUntilActiveMessagesFlushOut_sound rounds m client (s s' : St W L) :
  waitUntilActiveMessagesFlushOut range rounds m client s = (Ret true, s') →
  ∃ snaps, Forall (λ snap, ∃ topics, counted s s' client topics snap None) snaps ∧
    ∀ k a, m !! k = Some a → ∃ snap v, snap ∈ snaps ∧ snap !! k = Some v ∧ a ≤ v.
Proof.
  intros (_ & snaps & HF & Hd)%wait_flush_snapshots. exists snaps. split; [done|]. intros k a. by apply flushed_by_snapshot.
Qed.

(** *** What counting asks *)

(** The messages of a partition were counted from two answers, one after the other. *)
Definition count_of (client : nat) (topic : string) (p v : Z) (tr : list event) : Prop :=
  ∃ t1 latest earliest t2,
    tr = t1 ++ [Ev (GetOffset client topic p true) (inl latest); Ev (GetOffset client topic p false) (inl earliest)] ++ t2 ∧
    v = calculateMessagesCount latest earliest.

(** The counting came to the end of a partition. *)
Definition read_through (client : nat) (topic : string) (p : Z) (tr : list event) : Prop :=
  ∃ earliest, Ev (GetOffset client topic p false) (inl earliest) ∈ tr.

Definition has_partition (client : nat) (topic : string) (p : Z) (tr : list event) : Prop :=
  ∃ ps, Ev (Partitions client topic) (inl ps) ∈ tr ∧ p ∈ ps.

(** A question of the counting was answered with an error. *)
Definition count_failed (client : nat) (e : event) : Prop :=
  (∃ topic err, e = Ev (Partitions client topic) (inr err)) ∨ ∃ topic p newest err, e = Ev (GetOffset client topic p newest) (inr err).

Lemma count_of_app client topic p v t1 tr t2 : count_of client topic p v tr → count_of client topic p v (t1 ++ tr ++ t2).
Proof. intros (a & l & e & b & -> & ->). exists (t1 ++ a), l, e, (b ++ t2). by rewrite <- !app_assoc. Qed.

Lemma count_partitions_spec client topic ps m m' err (s s' : St W L) :
  count_partitions client topic ps m s = (Ret (m', err), s') →
  ∃ tr, trace s' = trace s ++ tr ∧
    (∀ k v, m' !! k = Some v → m !! k = Some v ∨ ∃ p, k = partition_key topic p ∧ p ∈ ps ∧ count_of client topic p v tr) ∧
    (∀ k, is_Some (m !! k) → is_Some (m' !! k)) ∧
    (∀ c t p, read_through c t p tr → c = client ∧ t = topic ∧ p ∈ ps ∧ is_Some (m' !! partition_key topic p)) ∧
    match err with
    | None => ∀ p, p ∈ ps → read_through client topic p tr
    | Some _ => Exists (count_failed client) tr
    end.
Proof.
  revert m s. induction ps as [|p ps IH]; intros m s; cbn [count_partitions].
  { intros [= -> <- <-]. exists []. rewrite app_nil_r. split_and!; [done|auto|auto| |set_solver]. intros c t p [e He]. set_solver. }
  rewrite try_request_bind. destruct (perform _ (GetOffset client topic p true) (world s)) as [[l|e] w1].
  2: { intros [= -> <- <-]. eexists. split; [done|]. split_and!; [auto|auto|intros c t q [e' He%list_elem_of_singleton]; by inversion He|].
       apply Exists_cons. left. right. by eexists _, _, _, _. }
  cbn [fst snd]. rewrite try_request_bind. cbn [fst snd world trace local]. destruct (perform _ (GetOffset client topic p false) w1) as [[er|e] w2].
  2: { intros [= -> <- <-]. eexists. cbn [trace]. split; [by rewrite <- app_assoc|]. cbn [app]. split_and!; [auto|auto| |].
       - intros c t q [e' He]. apply elem_of_cons in He as [He|He]; [by inversion He|]. apply list_elem_of_singleton in He. by inversion He.
       - apply Exists_cons. right. apply Exists_cons. left. right. by eexists _, _, _, _. }
  intros (tr & E & H1 & H2 & H3 & H4)%IH. cbn [trace] in E.
  exists ([Ev (GetOffset client topic p true) (inl l); Ev (GetOffset client topic p false) (inl er)] ++ tr).
  assert (Hk : is_Some (m' !! partition_key topic p)) by (apply H2; rewrite lookup_insert_eq; by eexists).
  split; [by rewrite E, <- !app_assoc|]. split_and!.
  - intros k v [Hm|(q & -> & Hq & Hc)]%H1.
    + apply lookup_insert_Some in Hm as [[<- <-]|[_ Hm]]; [right|by left]. exists p. split; [done|]. split; [by left|].
      by exists [], l, er, tr.
    + right. exists q. split; [done|]. split; [by right|]. rewrite <- (app_nil_r tr). by apply count_of_app.
  - intros k Hm. apply H2. destruct (decide (k = partition_key topic p)) as [->|]; [rewrite lookup_insert_eq; by eexists|by rewrite lookup_insert_ne].
  - intros c t q [e He]. apply elem_of_app in He as [He|He].
    + apply elem_of_cons in He as [He|He]; [by inversion He|]. apply list_elem_of_singleton in He. injection He as -> -> -> _. split_and!; auto. by left.
    + destruct (H3 c t q) as (-> & -> & Hq & Hs); [by exists e|]. split_and!; auto. by right.
  - destruct err.
    + apply Exists_app. by right.
    + intros q [->|Hq]%elem_of_cons; [exists er; set_solver|]. destruct (H4 q Hq) as [e He]. exists e. set_solver.
Qed.

Lemma count_topics_spec client topics m m' err (s s' : St W L) :
  count_topics client topics m s = (Ret (m', err), s') →
  ∃ tr, trace s' = trace s ++ tr ∧
    (∀ k v, m' !! k = Some v → m !! k = Some v ∨ ∃ topic p, k = partition_key topic p ∧ has_partition client topic p tr ∧ count_of client topic p v tr) ∧
    (∀ k, is_Some (m !! k) → is_Some (m' !! k)) ∧
    (∀ c topic p, read_through c topic p tr → c = client ∧ has_partition client topic p tr ∧ is_Some (m' !! partition_key topic p)) ∧
    match err with
    | None => ∀ topic, topic ∈ topics → ∃ ps, Ev (Partitions client topic) (inl ps) ∈ tr ∧ ∀ p, p ∈ ps → read_through client topic p tr
    | Some _ => Exists (count_failed client) tr
    end.
Proof.
  revert m s. induction topics as [|topic topics IH]; intros m s; cbn [count_topics].
  { intros [= -> <- <-]. exists []. rewrite app_nil_r. split_and!; [done|auto|auto| |set_solver]. intros c t p [e He]. set_solver. }
  rewrite try_request_bind. destruct (perform _ (Partitions client topic) (world s)) as [[ps|e] w1].
  2: { intros [= -> <- <-]. eexists. split; [done|]. split_and!; [auto|auto|intros c t q [e' He%list_elem_of_singleton]; by inversion He|].
       apply Exists_cons. left. left. by eexists _, _. }
  intros ([m1 err1] & s1 & Hc & Hr)%bind_inv. apply count_partitions_spec in Hc as (tr1 & E1 & A1 & A2 & A3 & A4). cbn [trace] in E1.
  set (ev := Ev (Partitions client topic) (inl ps)) in *.
  assert (HP : ∀ p t2, p ∈ ps → has_partition client topic p ([ev] ++ tr1 ++ t2)) by (intros p t2 Hp; exists ps; split; [set_solver|done]).
  destruct err1 as [e1|].
  - injection Hr as -> <- <-. exists ([ev] ++ tr1). split; [by rewrite E1, <- app_assoc|]. split_and!.
    + intros k v [?|(p & -> & Hp & Hc)]%A1; [by left|right]. exists topic, p. split; [done|]. rewrite <- (app_nil_r tr1).
      split; [by apply HP|by apply (count_of_app _ _ _ _ [ev])].
    + done.
    + intros c t p [e He]. apply elem_of_app in He as [He|He]; [apply list_elem_of_singleton in He; by inversion He|].
      destruct (A3 c t p) as (-> & -> & Hp & Hs); [by exists e|]. split; [done|]. split; [rewrite <- (app_nil_r tr1); by apply HP|done].
    + apply Exists_app. by right.
  - apply IH in Hr as (tr2 & E2 & B1 & B2 & B3 & B4). exists ([ev] ++ tr1 ++ tr2). split; [by rewrite E2, E1, <- !app_assoc|].
    assert (HQ : ∀ t p, has_partition client t p tr2 → has_partition client t p ([ev] ++ tr1 ++ tr2)) by (intros t p (q & ? & ?); exists q; set_solver).
    split_and!.
    + intros k v [[?|(p & -> & Hp & Hc)]%A1|(t & p & -> & Hp & Hc)]%B1; [by left|right..].
      * exists topic, p. split; [done|]. split; [by apply HP|by apply (count_of_app _ _ _ _ [ev])].
      * exists t, p. split; [done|]. split; [by apply HQ|]. rewrite <- (app_nil_r tr2), app_assoc. by apply (count_of_app _ _ _ _ ([ev] ++ tr1)).
    + auto.
    + intros c t p [e He]. apply elem_of_app in He as [He|He]; [apply list_elem_of_singleton in He; by inversion He|].
      apply elem_of_app in He as [He|He].
      * destruct (A3 c t p) as (-> & -> & Hp & Hs); [by exists e|]. split; [done|]. split; [by apply HP|by apply B2].
      * destruct (B3 c t p) as (-> & Hp & Hs); [by exists e|]. split; [done|]. split; [by apply HQ|done].
    + destruct err; [rewrite !Exists_app; by right; right|]. intros t [->|Ht]%elem_of_cons.
      * exists ps. split; [set_solver|]. intros p Hp. destruct (A4 p Hp) as [e He]. exists e. set_solver.
      * destruct (B4 t Ht) as (q & Hq & Hp). exists q. split; [set_solver|]. intros p [e He]%Hp. exists e. set_solver.
Qed.

Lemma counted_read s s' client topics snap err tr k v :
  counted s s' client topics snap err → trace s' = trace s ++ tr → snap !! k = Some v →
  ∃ topic p, k = partition_key topic p ∧ has_partition client topic p tr ∧ count_of client topic p v tr.
Proof.
  intros (s1 & s2 & [t1 E1] & Hc & [t2 E2]) E Hk. apply count_topics_spec in Hc as (tr0 & E0 & H1 & _).
  rewrite E2, E0, E1, <- !app_assoc in E. apply app_inv_head in E as <-.
  apply H1 in Hk as [Hk|(topic & p & -> & (ps & Hps & Hp) & Hc)]; [by rewrite lookup_empty in Hk|].
  exists topic, p. split; [done|]. split; [exists ps; set_solver|by apply count_of_app].
Qed.

(** The brokers number the partitions of a topic from zero. *)
Definition numbered (e : event) : Prop := ∀ client topic ps, e = Ev (Partitions client topic) (inl ps) → Forall (λ p, 0 ≤ p) ps.

Lemma numbered_partition client topic p tr : Forall numbered tr → has_partition client topic p tr → 0 ≤ p.
Proof.
  intros HF (ps & Hin & Hp). rewrite Forall_forall in HF. specialize (HF _ Hin client topic ps eq_refl).
  rewrite Forall_forall in HF. by apply HF.
Qed.

Lemma partition_key_inj t p t' p' : 0 ≤ p → 0 ≤ p' → partition_key t p = partition_key t' p' → t = t' ∧ p = p'.
Proof.
  intros Hp Hp' E. pose proof (partition_key_roundtrip t p Hp) as H1. rewrite E, partition_key_roundtrip in H1 by done. injection H1 as ->.
  split; [done|]. unfold partition_key in E. apply app_inj_l, app_inj_l in E. by apply (inj pretty).
Qed.

(** What an audit that came to its end has seen: the topics of the active side; of every partition it
    counted there, the standby side with at least as many messages; and, unless a question of that
    counting was answered with an error, which the code drops, it counted every partition of every
    topic that is replicated. *)
Definition caught_up (allow block : option (list string)) (clientStandby clientActive : nat) (tr : list event) : Prop :=
  ∃ listed tr_active tr_standby,
    tr = Ev (ClientTopics clientActive) (inl listed) :: tr_active ++ tr_standby ∧
    (Forall numbered tr → ∀ topic p, read_through clientActive topic p tr_active →
       ∃ a b, count_of clientActive topic p a tr_active ∧ count_of clientStandby topic p b tr_standby ∧ a ≤ b) ∧
    (Exists (count_failed clientActive) tr_active ∨
     ∀ topic, topic ∈ listed → mustBeTopicReplicated MatchString topic allow block = true →
       ∃ ps, Ev (Partitions clientActive topic) (inl ps) ∈ tr_active ∧ ∀ p, p ∈ ps → read_through clientActive topic p tr_active).

Lemma audit_snapshots rounds replicated standby (active : counts) (s s' : St W L) :
  (messagesStandby ← getMessagesCountWrapped standby replicated;
   let notReplicated := flushOut active messagesStandby in
   if decide (notReplicated = ∅) then mret true
   else waitUntilActiveMessagesFlushOut range rounds notReplicated standby) s = (Ret true, s') →
  ∃ tr, trace s' = trace s ++ tr ∧
    ∀ k a, active !! k = Some a → ∃ topic p b, k = partition_key topic p ∧ has_partition standby topic p tr ∧ count_of standby topic p b tr ∧ a ≤ b.
Proof.
  unfold getMessagesCountWrapped. intros (ms & s3 & Hs & HB)%bind_inv. apply bind_inv in Hs as ([ms' es] & s3' & Hs & [= -> ->]).
  destruct (looks_trace _ s (emits_count_topics standby replicated ∅)) as [Hp3 _].
  pose proof Hs as Hs'. unfold getMessagesCount in Hs'. rewrite Hs' in Hp3. cbn in *.
  assert (HC : ∀ snaps, trace s3 `prefix_of` trace s' → Forall (λ snap, ∃ topics, counted s3 s' standby topics snap None) snaps →
    foldl flushOut active (ms :: snaps) = ∅ →
    ∃ tr, trace s' = trace s ++ tr ∧
      ∀ k a, active !! k = Some a → ∃ topic p b, k = partition_key topic p ∧ has_partition standby topic p tr ∧ count_of standby topic p b tr ∧ a ≤ b).
  { intros snaps Hp HF Hd. assert (Hp' : trace s `prefix_of` trace s') by (by etrans). destruct Hp' as [tr Etr]. exists tr. split; [done|].
    intros k a Ha. destruct (flushed_by_snapshot _ _ k a Hd Ha) as (snap & b & Hin & Hb & Hle).
    assert (HX : ∃ topics err, counted s s' standby topics snap err).
    { apply elem_of_cons in Hin as [->|Hin]; [exists replicated, es, s, s3; by split_and!|].
      rewrite Forall_forall in HF. destruct (HF _ Hin) as [t Ht]. exists t, None. by eapply counted_weaken. }
    destruct HX as (topics & err & Hx). destruct (counted_read _ _ _ _ _ _ _ _ _ Hx Etr Hb) as (topic & p & -> & H1 & H2). by exists topic, p, b. }
  case_decide as D.
  - injection HB as <-. by apply (HC []).
  - apply wait_flush_snapshots in HB as (Hp & snaps & HF & Hd). by apply (HC snaps).
Qed.

Lemma audit_catches_up rounds allow block standby active (s s' : St W L) :
  audit MatchString range rounds allow block standby active s = (Ret true, s') →
  ∃ tr, trace s' = trace s ++ tr ∧ caught_up allow block standby active tr.
Proof.
  unfold audit. intros (listed & s1 & Hl & HA)%bind_inv.
  assert (H1 : trace s1 = trace s ++ [Ev (ClientTopics active) (inl listed)]).
  { revert Hl. unfold request. destruct (perform _ (ClientTopics active) (world s)) as [[l|e] w]; [|done]. by intros [= <- <-]. }
  apply bind_inv in HA as (ma & s2 & Ha & HB). unfold getMessagesCountWrapped in Ha. apply bind_inv in Ha as ([ma' ea] & s2' & Ha & [= -> ->]).
  apply count_topics_spec in Ha as (tra & Ea & A1 & _ & A3 & A4). apply audit_snapshots in HB as (trb & Eb & HB).
  eexists. rewrite Eb, Ea, H1, <- !app_assoc. split; [done|]. exists listed, tra, trb. split; [done|]. split.
  - intros HN topic p Hr. destruct (A3 _ _ _ Hr) as (_ & Hp & [a Hk]). apply Forall_cons in HN as [_ HN]. apply Forall_app in HN as [Na Nb].
    destruct (A1 _ _ Hk) as [Hx|(t & q & E & Hq & Hca)]; [by rewrite lookup_empty in Hx|].
    apply partition_key_inj in E as [<- <-]; [|exact (numbered_partition _ _ _ _ Na Hp)|exact (numbered_partition _ _ _ _ Na Hq)].
    destruct (HB _ _ Hk) as (t & q & b & E & Hq' & Hcb & Hle). apply partition_key_inj in E as [<- <-]; [|exact (numbered_partition _ _ _ _ Na Hp)|exact (numbered_partition _ _ _ _ Nb Hq')].
    by exists a, b.
  - destruct ea; [by left|right]. intros topic Ht Hm. apply A4. by apply list_elem_of_filter.
Qed.

(** It keeps the in-memory state. *)
Lemma same_local_count_topics client topics m : same_local (count_topics (W := W) (L := L) client topics m).
Proof.
  revert m. induction topics as [|t topics IH]; intros m; cbn [count_topics]; [done|].
  apply same_local_bind; [same_local_auto|]. intros [ps|e]; [|done]. apply same_local_bind; [|intros [c [e|]]; [done|apply IH]].
  clear. revert m. induction ps as [|p ps IH]; intros m; cbn [count_partitions]; same_local_auto; try done; apply IH.
Qed.

Lemma same_local_wait_flush rounds m client : same_local (waitUntilActiveMessagesFlushOut (W := W) (L := L) range rounds m client).
Proof.
  revert m. induction rounds as [|n IH]; intros m; cbn [waitUntilActiveMessagesFlushOut]; [done|].
  apply same_local_bind; [done|]. intros topics. apply same_local_bind; [apply same_local_count_topics|]. intros [c [e|]]; [done|].
  case_decide; [done|]. apply same_local_bind; [same_local_auto|intros _; apply IH].
Qed.

Lemma same_local_CheckFullReplication X509KeyPair operatorName operatorNamespace rounds timeout cr :
  same_local (CheckFullReplication (W := W) (L := L) MatchString range X509KeyPair operatorName operatorNamespace rounds timeout cr).
Proof.
  unfold CheckFullReplication, checkFullReplication, audit, getKafkaClients, getMessagesCountWrapped, getMessagesCount,
    cluster_certificates, GetSslCertificates, FindSecret, NewKmmConfigHandler, enrichKmmHandler, getKmmConfigMapContent,
    getKafkaCredentials, credential.
  same_local_auto; try apply same_local_count_topics; try apply same_local_wait_flush; done.
Qed.

Lemma count_partitions_returns client topic ps m (s : St W L) :
  ∃ r s', count_partitions client topic ps m s = (Ret r, s').
Proof.
  revert m s. induction ps as [|p ps IH]; intros m s; cbn [count_partitions]; [by eexists _, _|].
  unfold mbind, M_bind, try, request. cbn [world trace local].
  destruct (perform _ (GetOffset client topic p true) (world s)) as [[l|e] w1]; [|by eexists _, _].
  cbn [world trace local]. destruct (perform _ (GetOffset client topic p false) w1) as [[er|e] w2]; [apply IH|by eexists _, _].
Qed.

Lemma count_topics_returns client topics m (s : St W L) : ∃ r s', count_topics client topics m s = (Ret r, s').
Proof.
  revert m s. induction topics as [|t topics IH]; intros m s; cbn [count_topics]; [by eexists _, _|].
  unfold mbind, M_bind, try, request. cbn [world trace local].
  destruct (perform _ (Partitions client t) (world s)) as [[ps|e] w1]; [|by eexists _, _].
  destruct (count_partitions_returns client t ps m (mkSt w1 (trace s ++ [Ev (Partitions client t) (inl ps)]) (local s)))
    as ([m' err] & s' & ->). destruct err; [by eexists _, _|apply IH].
Qed.

(** Errors of counting are dropped: when the active cluster lists its topics but its partitions
    cannot be read, the audit counts nothing, compares nothing, and reports that the replication
    is complete. *)
Theorem audit_drops_count_errors rounds allow block standby active (s : St W L) :
  (∀ topic w, ∃ e, (perform _ (Partitions active topic) w).1 = inr e) →
  (∃ topics, (perform _ (ClientTopics active) (world s)).1 = inl topics) →
  (audit MatchString range rounds allow block standby active s).1 = Ret true.
Proof.
  intros Hp [topics Ht]. unfold audit, mbind at 1, M_bind at 1, request at 1.
  destruct (perform _ (ClientTopics active) (world s)) as [r w1]. cbn in Ht. subst r.
  set (rt := filter _ topics). set (s1 := mkSt w1 _ _).
  assert (HA : ∃ s2, getMessagesCountWrapped active rt s1 = (Ret ∅, s2)).
  { unfold getMessagesCountWrapped, getMessagesCount. destruct rt as [|t rt]; cbn [count_topics].
    - unfold mbind, M_bind, mret, M_ret. by eexists.
    - unfold mbind, M_bind, try, request. cbn [world trace local]. destruct (Hp t (world s1)) as [e He].
      destruct (perform _ (Partitions active t) (world s1)) as [r w2]. cbn in He. subst r. by eexists. }
  destruct HA as [s2 HA]. unfold mbind at 1, M_bind at 1. rewrite HA.
  unfold mbind at 1, M_bind at 1, getMessagesCountWrapped at 1, mbind at 1, M_bind at 1, getMessagesCount at 1.
  destruct (count_topics_returns standby rt ∅ s2) as ([m err] & s3 & ->). cbn.
  rewrite decide_True; [done|]. apply map_eq. intros k. by rewrite flushOut_lookup, lookup_empty.
Qed.

(** The audit changes nothing on the API server. *)
Definition reads_only (e : event) : Prop := is_write e = false.

Lemma looks_reads_only {A} (m : M (St W L) A) : emits looks m → emits reads_only m.
Proof. intros Hm. eapply emits_weaken; [exact Hm|]. by intros e []. Qed.

Lemma emits_wait_flush rounds m client : emits reads_only (waitUntilActiveMessagesFlushOut (W := W) (L := L) range rounds m client).
Proof.
  revert m. induction rounds as [|n IH]; intros m; cbn [waitUntilActiveMessagesFlushOut]; [apply emits_ret|].
  apply emits_lift_bind. intros topics _. apply emits_bind; [apply looks_reads_only, emits_count_topics|]. intros [c [e|]]; [apply emits_throw|].
  case_decide; [apply emits_ret|]. apply emits_bind; [by apply emits_try, emits_request|]. intros _. apply IH.
Qed.

Lemma emits_CheckFullReplication X509KeyPair operatorName operatorNamespace rounds timeout cr :
  emits reads_only (CheckFullReplication (W := W) (L := L) MatchString range X509KeyPair operatorName operatorNamespace rounds timeout cr).
Proof.
  unfold CheckFullReplication, checkFullReplication, audit, getKafkaClients, getMessagesCountWrapped, getMessagesCount,
    cluster_certificates, GetSslCertificates, FindSecret, NewKmmConfigHandler, enrichKmmHandler, getKmmConfigMapContent,
    getKafkaCredentials, credential.
  emits_auto; try done; try apply looks_reads_only, emits_count_topics; try apply emits_wait_flush.
Qed.

End audit_properties.

(** A cluster whose standby side has caught up with the ten messages of a topic, and one whose
    partitions cannot be read. *)
Definition orders_cluster : Cluster :=
  mkCluster (λ _, ∅) [] [("orders", mkTopicDetail 1 1 ∅)] [] [] [] {[("orders", 0) := (0, 10)]} 0 ∅ ∅.

Definition run_flush : outcome bool * St Cluster unit :=
  waitUntilActiveMessagesFlushOut map_to_list 3 {["orders-0" := 10]} 1 (start orders_cluster ()).

Lemma waitUntilActiveMessagesFlushOut_sound_witness :
  ∃ snaps, Forall (λ snap, ∃ topics, counted (start orders_cluster ()) run_flush.2 1 topics snap None) snaps ∧
    ∀ k a, ({["orders-0" := 10]} : counts) !! k = Some a → ∃ snap v, snap ∈ snaps ∧ snap !! k = Some v ∧ a ≤ v.
Proof.
  apply (waitUntilActiveMessagesFlushOut_sound map_to_list 3 {["orders-0" := 10]} 1 (start orders_cluster ()) run_flush.2).
  vm_compute. reflexivity.
Defined.

Definition unreadable_env : Env unit :=
  {| perform := λ R c w,
       (match c in call R return R + gerror with
        | ClientTopics _ => inl ["orders"]
        | _ => inr (errorf "unreachable")
        end, w) |}.

Lemma audit_drops_count_errors_witness :
  (audit (H := unreadable_env) (L := unit) (λ _ _, Some true) map_to_list 3 None None 0 1 (start () ())).1 = Ret true.
Proof.
  apply (audit_drops_count_errors (H := unreadable_env)).
  - intros topic w. exists (errorf "unreachable"). reflexivity.
  - exists ["orders"]. reflexivity.
Defined.

(** A topic is audited exactly when it is not a service topic, no pattern of the block list
    matches it, and there is no allow list or one of its patterns does; an invalid pattern counts
    as one that does not match. *)
Theorem mustBeTopicReplicated_spec MatchString topic allow block :
  mustBeTopicReplicated MatchString topic allow block = true ↔
  HasPrefix topic "__" = false ∧ topic ≠ "heartbeats" ∧
  (∀ p, p ∈ default [] block → matchTopic MatchString p topic ≠ Some true) ∧
  (∀ l, allow = Some l → ∃ p, p ∈ l ∧ matchTopic MatchString p topic = Some true).
Proof.
  unfold mustBeTopicReplicated.
  assert (HM : ∀ l, existsb (matches MatchString topic) l = true ↔ ∃ p, p ∈ l ∧ matchTopic MatchString p topic = Some true).
  { intros l. rewrite existsb_exists. unfold matches. split; intros (p & Hp & Hm); exists p.
    - apply list_elem_of_In in Hp. destruct (matchTopic MatchString p topic) as [[]|]; done.
    - rewrite Hm. split; [by apply list_elem_of_In|done]. }
  destruct (HasPrefix topic "__"); cbn [orb]; [naive_solver|]. case_bool_decide as Hh; [naive_solver|].
  destruct (existsb _ (default [] block)) eqn:Eb.
  - apply HM in Eb as (p & Hp & Hm). split; [done|]. intros (_ & _ & HB & _). by apply HB in Hm.
  - assert (HB : ∀ p, p ∈ default [] block → matchTopic MatchString p topic ≠ Some true).
    { intros p Hp Hm. rewrite (proj2 (HM _)) in Eb; [done|]. by exists p. }
    destruct allow as [l|]; [|split; [intros _; split_and!; [done..|by intros ??]|done]]. rewrite HM. split.
    + intros HE. split_and!; [done..|]. by intros l' [= <-].
    + intros (_ & _ & _ & HE). by apply HE.
Qed.

(** ** The handshake of the goroutines

    [checkFullReplication] starts two goroutines, waits on a [sync.WaitGroup], then receives from
    two unbuffered channels.  Each goroutine adds itself to the group, counts, sends its counts,
    and leaves the group when it returns, that is after its send was received. *)
Module Handshake.

Inductive worker := WStart | WCounting | WSending | WReturning | WEnded.

Inductive auditor := AWait | ARecvActive | ARecvStandby | ADone.

Global Instance worker_eq_dec : EqDecision worker.
Proof. solve_decision. Defined.

Global Instance auditor_eq_dec : EqDecision auditor.
Proof. solve_decision. Defined.

Record state := mkState { main : auditor; active : worker; standby : worker; wg : Z }.

Definition init : state := mkState AWait WStart WStart 0.

(** A step of a goroutine on its own: [wg.Add(1)], the count, [wg.Done()]. *)
Inductive work : worker → Z → worker → Z → Prop :=
  | work_add n : work WStart n WCounting (n + 1)
  | work_count n : work WCounting n WSending n
  | work_done n : work WReturning n WEnded (n - 1).

Inductive step : state → state → Prop :=
  | step_active m a s n a' n' : work a n a' n' → step (mkState m a s n) (mkState m a' s n')
  | step_standby m a s n s' n' : work s n s' n' → step (mkState m a s n) (mkState m a s' n')
  | step_wait a s : step (mkState AWait a s 0) (mkState ARecvActive a s 0)
  | step_recv_active s n : step (mkState ARecvActive WSending s n) (mkState ARecvStandby WReturning s n)
  | step_recv_standby a n : step (mkState ARecvStandby a WSending n) (mkState ADone a WReturning n).

Definition reachable : state → Prop := rtc step init.

(** The members of the group are the goroutines between their Add and their Done. *)
Definition member (w : worker) : Z := match w with WCounting | WSending | WReturning => 1 | _ => 0 end.

(** A goroutine goes on only after its send was received. *)
Definition received (m : auditor) (w : worker) (own : list auditor) : Prop :=
  match w with WReturning | WEnded => m ∈ own | _ => True end.

Definition inv (x : state) : Prop :=
  wg x = member (active x) + member (standby x) ∧
  received (main x) (active x) [ARecvStandby; ADone] ∧ received (main x) (standby x) [ADone] ∧
  (main x = ARecvActive → active x ∈ [WStart; WCounting; WSending]) ∧
  (main x = ARecvStandby ∨ main x = ADone → active x ∈ [WReturning; WEnded]) ∧
  (main x ≠ ADone → standby x ∈ [WStart; WCounting; WSending]) ∧
  (main x = ADone → standby x ∈ [WReturning; WEnded]).

Lemma inv_init : inv init.
Proof. unfold inv. cbn. split_and!; try done; intros; set_solver. Qed.

Lemma work_inv w n w' n' : work w n w' n' →
  (w = WStart ∧ w' = WCounting ∧ n' = n + 1) ∨ (w = WCounting ∧ w' = WSending ∧ n' = n) ∨
  (w = WReturning ∧ w' = WEnded ∧ n' = n - 1).
Proof. intros []; auto. Qed.

Lemma inv_step x y : step x y → inv x → inv y.
Proof.
  intros Hs. unfold inv, received.
  destruct Hs as [m a s n a' n' Hw|m a s n s' n' Hw|a s|s n|a n]; cbn; intros (H1 & H2 & H3 & H4 & H5 & H6 & H7);
    try (apply work_inv in Hw as [(-> & -> & ->)|[(-> & -> & ->)|(-> & -> & ->)]]; cbn in * );
    split_and!; try done; try lia; intros; try set_solver;
    try (destruct m; set_solver); try (destruct a; set_solver); try (destruct s; set_solver).
Qed.

Lemma inv_reachable x : reachable x → inv x.
Proof. revert x. apply rtc_ind_r; [apply inv_init|]. intros y z _ Hs Hi. by eapply inv_step. Qed.

(** Once a goroutine is in the group before the auditor waits, nobody leaves it. *)
Lemma trapped_step x y : step x y → inv x → main x = AWait → 0 < wg x → main y = AWait ∧ 0 < wg y.
Proof.
  intros Hs HI HM HW. pose proof HI as (H1 & H2 & H3 & _).
  destruct Hs as [m a s n a' n' Hw|m a s n s' n' Hw|a s|s n|a n]; cbn in *; try (subst m); try done; try lia;
    (split; [done|]); apply work_inv in Hw as [(-> & -> & ->)|[(-> & -> & ->)|(-> & -> & ->)]]; cbn in *; try lia;
    unfold received in *; set_solver.
Qed.

(** C40. The auditor gets the counts only if it passes the wait before either goroutine has
    started: from any reachable state in which one of them is already in the group while the
    auditor is at the wait, the auditor stays there for ever, because the goroutine leaves the
    group only after its send, which the auditor would receive after the wait; and both
    goroutines can then stop in a state without any step. *)
Theorem audit_deadlocks :
  (∀ x y, reachable x → main x = AWait → 0 < wg x → rtc step x y → main y = AWait) ∧
  (∃ x, reachable x ∧ main x = AWait ∧ active x = WSending ∧ standby x = WSending ∧ ∀ y, ¬ step x y).
Proof.
  split.
  - intros x y Hx HM HW Hs. apply inv_reachable in Hx. revert Hx HM HW.
    induction Hs as [|x z y Hxz Hzy IH]; intros HI HM HW; [done|].
    destruct (trapped_step x z Hxz HI HM HW). apply IH; [|done..]. by eapply inv_step.
  - exists (mkState AWait WSending WSending 2). split_and!; [|done..|].
    + eapply rtc_l; [apply step_active, work_add|]. eapply rtc_l; [apply step_standby, work_add|].
      eapply rtc_l; [apply step_active, work_count|]. eapply rtc_l; [apply step_standby, work_count|]. apply rtc_refl.
    + intros y Hs. inversion Hs; subst; try done; match goal with Hw : work WSending _ _ _ |- _ => inversion Hw end.
Qed.

(** How many steps are left. *)
Definition left (w : worker) : nat :=
  match w with WStart => 4 | WCounting => 3 | WSending => 2 | WReturning => 1 | WEnded => 0 end.

Definition left_main (m : auditor) : nat :=
  match m with AWait => 3 | ARecvActive => 2 | ARecvStandby => 1 | ADone => 0 end.

Definition measure (x : state) : nat := (left_main (main x) + left (active x) + left (standby x))%nat.

Lemma step_measure x y : step x y → (measure y < measure x)%nat.
Proof.
  unfold measure. destruct 1 as [m a s n a' n' Hw|m a s n s' n' Hw|a s|s n|a n]; cbn; try lia; destruct Hw; cbn; lia.
Qed.

(** Discharges the hypotheses of the invariant on a state it rules out. *)
Ltac absurd_state :=
  exfalso;
  repeat match goal with
  | H : ?P → _ |- _ => let HP := fresh in assert (HP : P) by (done || (left; done) || (right; done)); specialize (H HP)
  end;
  set_solver.

Lemma progress x : inv x → main x ≠ AWait → (active x ≠ WEnded ∨ standby x ≠ WEnded ∨ main x ≠ ADone) → ∃ y, step x y.
Proof.
  destruct x as [m a s n]. unfold inv, received. cbn. intros (H1 & H2 & H3 & H4 & H5 & H6 & H7) HM HD.
  destruct a; try (eexists; apply step_active; constructor).
  - destruct m; [done|eexists; apply step_recv_active|by absurd_state|by absurd_state].
  - destruct s; try (eexists; apply step_standby; constructor).
    + destruct m; [done|by absurd_state|eexists; apply step_recv_standby|by absurd_state].
    + destruct m; [done|by absurd_state|by absurd_state|by destruct HD as [?|[?|?]]].
Qed.

(** When the auditor passes the wait first, no goroutine having started, it always gets both
    counts: every state reachable from there that is not the end has a step, and the end is
    reached within a bounded number of steps. *)
Theorem audit_completes_when_wait_is_first x :
  rtc step (mkState ARecvActive WStart WStart 0) x →
  (measure x ≤ 10)%nat ∧ (x = mkState ADone WEnded WEnded 0 ∨ ∃ y, step x y).
Proof.
  intros Hr.
  assert (HI : inv x ∧ main x ≠ AWait ∧ (measure x ≤ 10)%nat).
  { revert x Hr. apply rtc_ind_r.
    - split_and!; [apply (inv_step init); [apply step_wait|apply inv_init]|done|cbn; lia].
    - intros y z _ Hyz (HI & HM & Hm). split_and!; [by eapply inv_step| |pose proof (step_measure _ _ Hyz); lia].
      destruct Hyz; cbn in *; done. }
  destruct HI as (HI & HM & Hm). split; [done|].
  destruct (decide (active x = WEnded ∧ standby x = WEnded ∧ main x = ADone)) as [(Ea & Es & Em)|HD].
  - left. destruct x as [m a s n]. cbn in *. subst. destruct HI as (H1 & _). cbn in H1. by subst n.
  - right. apply progress; [done..|]. destruct x as [m a s n]. cbn in *. destruct m, a, s; naive_solver.
Qed.

Lemma audit_completes_when_wait_is_first_witness :
  (measure (mkState ARecvActive WCounting WStart 1) ≤ 10)%nat ∧
  (mkState ARecvActive WCounting WStart 1 = mkState ADone WEnded WEnded 0 ∨ ∃ y, step (mkState ARecvActive WCounting WStart 1) y).
Proof.
  apply (audit_completes_when_wait_is_first (mkState ARecvActive WCounting WStart 1)).
  apply rtc_once. exact (step_active ARecvActive WStart WStart 0 WCounting 1 (work_add 0)).
Defined.

End Handshake.
