(* ===== verification/KafkaUsers.v ===== *)
(** * The KafkaUser controller

    Sources: operator/controllers/kafkauser/kafkauser_controller.go, user_provider.go and
    custom_resource_updater.go.  The controller keeps the SCRAM credentials and the ACLs of the
    Kafka user [{namespace}_{name}] as a KafkaUser resource asks.

    Its in-memory state is the map of hashes of the last processed specification, labels and
    annotations.  Library code is given by classes: finalizers of an object
    ([Finalizing]), net/url ([Urls]), and the names sarama prints for ACLs ([AclNames]). *)

From S2P Require Import Prelude GoStrings Util Transformation Kube Api External Cluster Reconciler KafkaClient.

(** controllerutil.AddFinalizer and RemoveFinalizer, on the list of finalizers. *)
Class Finalizing := {
  AddFinalizer : string → list string → list string;
  RemoveFinalizer : string → list string → list string;
  AddFinalizer_spec : ∀ f g l, g ∈ AddFinalizer f l ↔ g = f ∨ g ∈ l;
  RemoveFinalizer_spec : ∀ f g l, g ∈ RemoveFinalizer f l ↔ g ≠ f ∧ g ∈ l;
}.

(** [url_String scheme host user password query] is the text of a [url.URL] with these parts, the
    query being given by its keys and values; [url_Parse] gives the user and the password of a
    parsed URL, empty when the URL has none. *)
Class Urls := {
  url_String : string → string → string → string → list (string * string) → string;
  url_Parse : string → (string * string) + gerror;
}.

Class AclNames := {
  operation_String : AclOperation → string;
  resource_String : AclResourceType → string;
}.

(** ** The provider of users *)

Definition connectionPropertiesKey : string := "connection-properties".
Definition connectionUriKey : string := "connection-uri".
Definition kafkaClusterKey : string := "kafka-cluster".
Definition usernameKey : string := "username".
Definition passwordKey : string := "password".
Definition adminRole : string := "admin".
Definition namespaceAdminRole : string := "namespace-admin".
Definition scramSha512 : string := "scram-sha-512".

Definition extractConnectionProperties `{Urls} (secret : Secret) (format : string) : outcome (string * string) :=
  if decide (connectionPropertiesKey = format) then
    Ret (sget (secret_Data secret) usernameKey, sget (secret_Data secret) passwordKey)
  else
    match url_Parse (sget (secret_Data secret) connectionUriKey) with
    | inr err => Error err
    | inl (username, password) => Ret (username, password)
    end.

Definition unsupported_type {A} (authenticationType : string) : outcome A :=
  Error (errorf ("unsupported SCRAM authntication type: " +:+ authenticationType)).

Definition upsert_mechanism (authenticationType : string) : outcome ScramMechanism :=
  if decide (authenticationType = scramSha512) then Ret SCRAM_MECHANISM_SHA_512 else unsupported_type authenticationType.

Definition delete_mechanism (authenticationType : string) : outcome ScramMechanism :=
  if decide (ToLower authenticationType = scramSha512) then Ret SCRAM_MECHANISM_SHA_512
  else unsupported_type authenticationType.

(** The name and the type of the pattern of a role. *)
Definition role_pattern (namespace role : string) : outcome (string * AclResourcePatternType) :=
  if decide (role = adminRole) then Ret ("*", AclPatternLiteral)
  else if decide (role = namespaceAdminRole) then Ret (namespace, AclPatternPrefixed)
  else Error (errorf ("unsupported KafkaUser role: " +:+ role)).

Definition allow (principal : string) (operation : AclOperation) : Acl := mkAcl principal "*" operation AclPermissionAllow.

Definition principal_of (username : string) : string := "User:" +:+ username.

Definition role_acls (principal resourceNamePattern : string) (resourcePatternType : AclResourcePatternType) : list ResourceAcls :=
  [ mkResourceAcls AclResourceCluster kafkaClusterKey AclPatternLiteral
      (allow principal <$> [AclOperationCreate; AclOperationDescribeConfigs; AclOperationAlterConfigs]);
    mkResourceAcls AclResourceTopic resourceNamePattern resourcePatternType
      (allow principal <$> [AclOperationCreate; AclOperationAlter; AclOperationDelete; AclOperationDescribe;
                            AclOperationWrite; AclOperationRead; AclOperationDescribeConfigs]);
    mkResourceAcls AclResourceGroup resourceNamePattern resourcePatternType (allow principal <$> [AclOperationRead]);
    mkResourceAcls AclResourceTransactionalID resourceNamePattern resourcePatternType
      (allow principal <$> [AclOperationWrite]) ].

(** The filter of all the ACLs of a principal. *)
Definition all_of (principal : string) : AclFilter :=
  mkAclFilter principal AclResourceAny AclPatternAny AclPermissionAllow AclOperationAny.

(** The first expected resource of the type of a listed one. *)
Definition expected_of (rACLs : list ResourceAcls) (aclResource : ResourceAcls) : option ResourceAcls :=
  snd <$> list_find (λ rACL, ra_ResourceType aclResource = ra_ResourceType rACL) rACLs.

(** The filter that deletes a listed ACL. *)
Definition filter_of (principal : string) (aclResource : ResourceAcls) (createdACL : Acl) : AclFilter :=
  mkAclFilter principal (ra_ResourceType aclResource) (ra_ResourcePatternType aclResource)
    (acl_PermissionType createdACL) (acl_Operation createdACL).

Section provider.
Context `{Env W} `{AclNames} {L : Type}.
Context (kafkaClient : nat).

(** The results for each user and each ACL are dropped, here and below: only the error of the call is
    looked at. *)
Definition upsertKafkaUser (username password authenticationType : string) : M (St W L) unit :=
  mechanism ← lift (upsert_mechanism authenticationType);
  _ ← request (UpsertUserScramCredentials kafkaClient username mechanism 8192 password);
  mret tt.

Definition deleteKafkaUser (username authenticationType : string) : M (St W L) unit :=
  mechanism ← lift (delete_mechanism authenticationType);
  _ ← request (DeleteUserScramCredentials kafkaClient username mechanism);
  mret tt.

(** Deletes what is listed for a resource and not expected of it. *)
Definition delete_stale (principal : string) (rACLs : list ResourceAcls) (aclResource : ResourceAcls) : M (St W L) unit :=
  match expected_of rACLs aclResource with
  | None => mret tt
  | Some rACL =>
      for_each (λ createdACL,
        if decide (createdACL ∈ ra_Acls rACL) then mret tt
        else _ ← request (DeleteACL kafkaClient (filter_of principal aclResource createdACL)); mret tt) (ra_Acls aclResource)
  end.

(** The text of an ACL in the status. *)
Definition acl_text (namespace role : string) (aclResource : ResourceAcls) (acl : Acl) : string :=
  let namespacePattern :=
    if decide (ra_ResourceType aclResource = AclResourceCluster) then ""
    else if decide (role = adminRole) then " *"
    else " " +:+ namespace +:+ "*" in
  "--operation " +:+ operation_String (acl_Operation acl) +:+ " --" +:+
    resource_String (ra_ResourceType aclResource) +:+ namespacePattern.

Definition createACLs (namespace role username : string) : M (St W L) (list string) :=
  let principal := principal_of username in
  '(resourceNamePattern, resourcePatternType) ← lift (role_pattern namespace role);
  let rACLs := role_acls principal resourceNamePattern resourcePatternType in
  request (CreateACLs kafkaClient rACLs);;
  aclResources ← request (ListAcls kafkaClient (all_of principal));
  for_each (delete_stale principal rACLs) aclResources;;
  aclResources ← request (ListAcls kafkaClient (all_of principal));
  mret (aclResources ≫= λ aclResource, acl_text namespace role aclResource <$> ra_Acls aclResource).

Definition deleteACLs (username : string) : M (St W L) unit :=
  _ ← request (DeleteACL kafkaClient (all_of (principal_of username)));
  mret tt.

Definition generatePassword : M (St W L) string := request (GeneratePassword 12 1 1 "_&!@#").

End provider.

(** ** The updater of the resource *)

Section updater.
Context `{Env W} `{Retry} {L : Type}.

Definition GetCustomResource (name namespace : string) : M (St W L) KafkaUser := request (Get KKafkaUser name namespace).

Definition updateWithRetry (name namespace : string) (updateFunc : KafkaUser → KafkaUser)
    (doUpdate : KafkaUser → M (St W L) unit) : M (St W L) unit :=
  RetryOnConflict (instance ← GetCustomResource name namespace; doUpdate (updateFunc instance)).

Definition UpdateWithRetry (cr : KafkaUser) (updateFunc : KafkaUser → KafkaUser) : M (St W L) unit :=
  updateWithRetry (Name (user_meta cr)) (Namespace (user_meta cr)) updateFunc
    (λ obj, _ ← request (Update KKafkaUser obj); mret tt).

Definition UpdateStatusWithRetry (cr : KafkaUser) (statusUpdateFunc : KafkaUserStatus → KafkaUserStatus) : M (St W L) unit :=
  updateWithRetry (Name (user_meta cr)) (Namespace (user_meta cr))
    (λ obj, set_user_Status (statusUpdateFunc (user_Status obj)) obj)
    (λ obj, _ ← request (StatusUpdate KKafkaUser obj); mret tt).

End updater.

(** ** The controller *)

Definition successState : string := "success".
Definition failureState : string := "failure".
Definition processingState : string := "processing".
Definition disabledState : string := "disabled".
Definition kafkaUserFinalizerName : string := "kafka-user-controller".
Definition specName : string := "spec".
Definition labelsName : string := "labels".
Definition annotationsName : string := "annotations".
Definition bootstrapServersLabel : string := "kafka.netcracker.com/bootstrap.servers".
Definition authorizationDisabled : string := "Security features are disabled".
Definition kafkaScheme : string := "kafka".
Definition saslPlaintextProtocol : string := "sasl_plaintext".

Record KafkaUserReconciler := mkUserReconciler {
  BootstrapServers : string;
  SecretCreatingEnabled : bool;
  ur_Namespace : string;
  ReconciliationPeriod : Z;
  KafkaSecret : string;
  KafkaSaslMechanism : string;
  KafkaSslEnabled : bool;
  KafkaSslSecret : string;
  ApiGroup : string;
}.

Definition user_finalizer (r : KafkaUserReconciler) : string := ApiGroup r +:+ "/" +:+ kafkaUserFinalizerName.

(** The name of the Kafka user of a resource. *)
Definition user_of (instance : KafkaUser) : string :=
  Namespace (user_meta instance) +:+ "_" +:+ Name (user_meta instance).

Definition hash_key (instance : KafkaUser) (what : string) : string :=
  JoinNames [Namespace (user_meta instance); Name (user_meta instance); what].

(** The hashes of a resource: of its specification, labels and annotations. *)
Record hashes := mkHashes { specHash : string; labelsHash : string; annotationsHash : string }.

Definition hashes_of `{Digest} `{Marshaler KafkaUserSpec} `{Marshaler strmap} (instance : KafkaUser) : outcome hashes :=
  specHash ← Hash (user_Spec instance);
  labelsHash ← Hash (Labels (user_meta instance));
  annotationsHash ← Hash (Annotations (user_meta instance));
  Ret (mkHashes specHash labelsHash annotationsHash).

Definition resource_changed (instance : KafkaUser) (h : hashes) (ResourceHashes : strmap) : bool :=
  negb (bool_decide (sget ResourceHashes (hash_key instance specName) = specHash h)) ||
  negb (bool_decide (sget ResourceHashes (hash_key instance labelsName) = labelsHash h)) ||
  negb (bool_decide (sget ResourceHashes (hash_key instance annotationsName) = annotationsHash h)).

Definition record_hashes (instance : KafkaUser) (h : hashes) (ResourceHashes : strmap) : strmap :=
  <[hash_key instance annotationsName := annotationsHash h]>
    (<[hash_key instance labelsName := labelsHash h]>
       (<[hash_key instance specName := specHash h]> ResourceHashes)).

Definition forget_hashes (instance : KafkaUser) (ResourceHashes : strmap) : strmap :=
  delete (hash_key instance annotationsName)
    (delete (hash_key instance labelsName) (delete (hash_key instance specName) ResourceHashes)).

(** *** Status updates *)

Definition set_progress (state message : string) (st : KafkaUserStatus) : KafkaUserStatus :=
  set_user_Message message (set_user_State state st).

Definition error_text (err : gerror) : string := "During custom resource processing error occurred: " +:+ err_msg err.

Definition authentication_failed (err : gerror) (st : KafkaUserStatus) : KafkaUserStatus :=
  set_progress failureState (error_text err) (set_user_Authn (set_authn_State failureState (user_Authn st)) st).

Definition authorization_failed (err : gerror) (st : KafkaUserStatus) : KafkaUserStatus :=
  set_progress failureState (error_text err) (set_user_Authz (set_authz_State failureState (user_Authz st)) st).

Definition authenticated (secret : UserSecret) (version : string) (st : KafkaUserStatus) : KafkaUserStatus :=
  let a := set_authn_ResourceVersion version (set_authn_State successState (user_Authn st)) in
  set_user_Authn
    (if decide (us_Format secret = connectionUriKey) then set_authn_ConnectionUri (mkSecretKey connectionUriKey (us_Name secret)) a
     else set_authn_Password (mkSecretKey passwordKey (us_Name secret))
            (set_authn_Username (mkSecretKey usernameKey (us_Name secret)) a)) st.

Definition not_watched (st : KafkaUserStatus) : KafkaUserStatus :=
  set_user_Authn (set_authn_ResourceVersion "" (set_authn_Password (mkSecretKey "" "")
    (set_authn_Username (mkSecretKey "" "") (set_authn_ConnectionUri (mkSecretKey "" "") (user_Authn st))))) st.

Definition authorized (state : string) (acls : list string) (st : KafkaUserStatus) : KafkaUserStatus :=
  set_user_Authz (set_authz_Acls acls (set_authz_State state (user_Authz st))) st.

Definition processed (generation : Z) (st : KafkaUserStatus) : KafkaUserStatus :=
  set_progress successState "Custom resource is successfully processed" (set_user_ObservedGeneration generation st).

(** The string data of a generated secret; a format outside of the enumeration leaves it nil. *)
Definition secret_data `{Urls} (r : KafkaUserReconciler) (instance : KafkaUser) (format password : string) : strmap :=
  let mechanism := auth_Type (user_Authentication (user_Spec instance)) in
  if decide (format = connectionPropertiesKey) then
    <["bootstrap.servers" := BootstrapServers r]> (<["username" := user_of instance]> (<["password" := password]>
      (<["security.protocol" := saslPlaintextProtocol]> (<["sasl.mechanism" := mechanism]> ∅))))
  else if decide (format = connectionUriKey) then
    {["connection-uri" := url_String kafkaScheme (BootstrapServers r) (user_of instance) password
        [("security.protocol", saslPlaintextProtocol); ("sasl.mechanism", mechanism)]]}
  else ∅.

Section controller.
Context `{Env W} `{Retry} `{AclNames} `{Urls} `{Finalizing} `{Digest} `{Marshaler KafkaUserSpec} `{Marshaler strmap}.
Context (X509KeyPair : string → string → option gerror) (r : KafkaUserReconciler).

Definition processError (reconcileError : gerror) (instance : KafkaUser) : M (St W strmap) Result :=
  UpdateStatusWithRetry instance (set_progress failureState (error_text reconcileError));;
  mret (mkResult (ReconciliationPeriod r)).

Definition processAuthenticationError (reconcileError : gerror) (instance : KafkaUser) : M (St W strmap) Result :=
  UpdateStatusWithRetry instance (authentication_failed reconcileError);;
  mret (mkResult (ReconciliationPeriod r)).

Definition processAuthorizationError (reconcileError : gerror) (instance : KafkaUser) : M (St W strmap) Result :=
  UpdateStatusWithRetry instance (authorization_failed reconcileError);;
  mret (mkResult (ReconciliationPeriod r)).

(** [FindSecret] and [GetSslCertificates] of this controller are those of the shared operations. *)
Definition getKafkaCredentials : M (St W strmap) (string * string) :=
  foundSecret ← FindSecret (KafkaSecret r) (ur_Namespace r);
  mret (sget (secret_Data foundSecret) "admin-username", sget (secret_Data foundSecret) "admin-password").

Definition getKafkaCertificates : M (St W strmap) SslCertificates :=
  if KafkaSslEnabled r && negb (bool_decide (KafkaSslSecret r = "")) then
    GetSslCertificates (KafkaSslSecret r) (ur_Namespace r)
  else mret (mkSsl "" "" "").

Definition newKafkaAdminClient : M (St W strmap) nat :=
  '(adminUsername, adminPassword) ← getKafkaCredentials;
  sslCertificates ← getKafkaCertificates;
  NewKafkaAdminClient X509KeyPair (BootstrapServers r) (mkSasl (KafkaSaslMechanism r) adminUsername adminPassword)
    (KafkaSslEnabled r) sslCertificates.

Definition generateSecret (instance : KafkaUser) (secret : UserSecret) : M (St W strmap) unit :=
  found ← try (FindSecret (us_Name secret) (Namespace (user_meta instance)));
  match found with
  | inl _ => mret tt
  | inr err =>
      if IsNotFound err then
        password ← generatePassword;
        _ ← request (Create KSecret (mkSecret (newMeta (us_Name secret) (Namespace (user_meta instance)) ∅ ∅) ∅
               (secret_data r instance (us_Format secret) password)));
        mret tt
      else throw err
  end.

(** The stages below return the result with which the code returns early, if it does. *)
Definition returning {S A} (m : M S A) : M S (option A) := a ← m; mret (Some a).

Definition generate_stage (instance : KafkaUser) (secret : UserSecret) : M (St W strmap) (option Result) :=
  if us_Generate secret then
    if negb (bool_decide (Namespace (user_meta instance) = ur_Namespace r)) && negb (SecretCreatingEnabled r) then
      returning $ processAuthenticationError (errorf "grants to create secret in separate namespace are not provided") instance
    else
      g ← try (generateSecret instance secret);
      match g with
      | inr reconcileError => returning $ processAuthenticationError reconcileError instance
      | inl _ => mret None
      end
  else mret None.

Definition watch_stage (kafkaClient : nat) (instance : KafkaUser) : M (St W strmap) (option Result) :=
  let auth := user_Authentication (user_Spec instance) in
  if default true (auth_WatchSecret auth) then
    match auth_Secret auth with
    | None => returning $ processAuthenticationError (errorf "user secret is not specified") instance
    | Some us =>
        f ← try (FindSecret (us_Name us) (Namespace (user_meta instance)));
        match f with
        | inr reconcileError => returning $ processAuthenticationError reconcileError instance
        | inl secret =>
            match extractConnectionProperties secret (us_Format us) with
            | Panic => panic
            | Error reconcileError => returning $ processAuthenticationError reconcileError instance
            | Ret (username, password) =>
                if negb (bool_decide (username = user_of instance)) then
                  returning $ processAuthenticationError (errorf "username must be specified in format {cr.namespace}_{cr.name}") instance
                else if negb (bool_decide (ResourceVersion (secret_meta secret) = authn_ResourceVersion (user_Authn (user_Status instance)))) then
                  u ← try (upsertKafkaUser kafkaClient username password (auth_Type auth));
                  match u with
                  | inr reconcileError => returning $ processAuthenticationError reconcileError instance
                  | inl _ =>
                      UpdateStatusWithRetry instance (authenticated us (ResourceVersion (secret_meta secret)));;
                      mret None
                  end
                else mret None
            end
        end
    end
  else
    UpdateStatusWithRetry instance not_watched;;
    mret None.

Definition acl_stage (kafkaClient : nat) (instance : KafkaUser) : M (St W strmap) (option Result) :=
  c ← try (createACLs kafkaClient (Namespace (user_meta instance)) (Role (user_Authorization (user_Spec instance))) (user_of instance));
  match c with
  | inr reconcileError =>
      if Contains_str (err_msg reconcileError) authorizationDisabled then
        UpdateStatusWithRetry instance (authorized disabledState []);;
        mret None
      else returning $ processAuthorizationError reconcileError instance
  | inl aclsCreated =>
      UpdateStatusWithRetry instance (authorized successState aclsCreated);;
      mret None
  end.

(** [Secret.Generate] is read before the secret is known to be there. *)
Definition apply_changes (kafkaClient : nat) (instance : KafkaUser) (h : hashes) : M (St W strmap) (option Result) :=
  match auth_Secret (user_Authentication (user_Spec instance)) with
  | None => panic
  | Some secret =>
      g ← generate_stage instance secret;
      match g with
      | Some result => mret (Some result)
      | None =>
          w ← watch_stage kafkaClient instance;
          match w with
          | Some result => mret (Some result)
          | None =>
              a ← acl_stage kafkaClient instance;
              match a with
              | Some result => mret (Some result)
              | None => modify_local (record_hashes instance h);; mret None
              end
          end
      end
  end.

Definition reconcile_deletion (kafkaClient : nat) (instance : KafkaUser) : M (St W strmap) Result :=
  let forget : M (St W strmap) Result := modify_local (forget_hashes instance);; mret (mkResult 0) in
  if Contains (user_finalizer r) (Finalizers (user_meta instance)) then
    d ← try (deleteKafkaUser kafkaClient (user_of instance) (auth_Type (user_Authentication (user_Spec instance))));
    match d with
    | inr reconcileError => processError reconcileError instance
    | inl _ =>
        d ← try (deleteACLs kafkaClient (user_of instance));
        match d with
        | inr reconcileError => processError reconcileError instance
        | inl _ =>
            UpdateWithRetry instance (λ cr, set_user_meta
              (set_Finalizers (RemoveFinalizer (user_finalizer r) (Finalizers (user_meta cr))) (user_meta cr)) cr);;
            forget
        end
    end
  else forget.

Definition reconcile_user (kafkaClient : nat) (instance : KafkaUser) (h : hashes) (customResourceChanged : bool) : M (St W strmap) Result :=
  (if Contains (user_finalizer r) (Finalizers (user_meta instance)) then mret tt
   else UpdateWithRetry instance (λ cr, set_user_meta
          (set_Finalizers (AddFinalizer (user_finalizer r) (Finalizers (user_meta cr))) (user_meta cr)) cr));;
  c ← (if customResourceChanged then apply_changes kafkaClient instance h else mret None);
  match c with
  | Some result => mret result
  | None =>
      UpdateStatusWithRetry instance (processed (Generation (user_meta instance)));;
      mret (mkResult 0)
  end.

Definition Reconcile (namespace name : string) : M (St W strmap) Result :=
  i ← try (request (Get KKafkaUser name namespace));
  match i with
  | inr err => if IsNotFound err then mret (mkResult 0) else throw err
  | inl instance =>
      matches ← lift (ApiGroupMatches (user_APIVersion instance) (ApiGroup r));
      if negb matches then mret (mkResult 0)
      else
        h ← lift (hashes_of instance);
        ResourceHashes ← get_local;
        let customResourceChanged := resource_changed instance h ResourceHashes in
        (if customResourceChanged then
           UpdateStatusWithRetry instance (set_progress processingState "Processing of custom resource is in progress")
         else mret tt);;
        k ← try newKafkaAdminClient;
        match k with
        | inr err =>
            UpdateStatusWithRetry instance (set_progress failureState ("Custom resource was not applied due to: " +:+ err_msg err));;
            throw err
        | inl kafkaClient =>
            if DeletionTimestamp (user_meta instance) then reconcile_deletion kafkaClient instance
            else reconcile_user kafkaClient instance h customResourceChanged
        end
  end.

End controller.

(** The resources and the changes the controller reacts to. *)
Definition kafkaHostFilterFunction (r : KafkaUserReconciler) (annotations : strmap) : bool :=
  match annotations !! bootstrapServersLabel with
  | Some bootstrapServers => bool_decide (bootstrapServers = BootstrapServers r)
  | None => true
  end.

Definition update_predicate (r : KafkaUserReconciler) (old new : ObjectMeta) : bool :=
  (negb (bool_decide (Generation old = Generation new)) || negb (AreMapsEqual (Labels old) (Labels new))) &&
  kafkaHostFilterFunction r (Annotations new).

Definition delete_predicate (r : KafkaUserReconciler) (deleteStateUnknown : bool) (o : ObjectMeta) : bool :=
  negb deleteStateUnknown && kafkaHostFilterFunction r (Annotations o).

(** ** What a reconciliation may touch *)

(** The secret a resource may have created for it. *)
Definition may_create (r : KafkaUserReconciler) (i : KafkaUser) (k : kind) : obj k → Prop :=
  match k with
  | KSecret => λ o, ∃ us, auth_Secret (user_Authentication (user_Spec i)) = Some us ∧ us_Generate us = true ∧
      Name (secret_meta o) = us_Name us ∧ Namespace (secret_meta o) = Namespace (user_meta i) ∧
      (Namespace (user_meta i) = ur_Namespace r ∨ SecretCreatingEnabled r = true)
  | _ => λ _, False
  end.

(** ACLs of the user of the resource, on everything only for the administrator, otherwise on what
    starts with the namespace; on the cluster itself they are the same for all. *)
Definition within_role (i : KafkaUser) (ra : ResourceAcls) : Prop :=
  Forall (λ a, acl_Principal a = principal_of (user_of i)) (ra_Acls ra) ∧
  (ra_ResourceType ra = AclResourceCluster ∨
   Role (user_Authorization (user_Spec i)) = adminRole ∧ ra_ResourceName ra = "*" ∧ ra_ResourcePatternType ra = AclPatternLiteral ∨
   Role (user_Authorization (user_Spec i)) = namespaceAdminRole ∧ ra_ResourceName ra = Namespace (user_meta i) ∧
     ra_ResourcePatternType ra = AclPatternPrefixed).

(** The object as it was read, but for its finalizers; but for its status. *)
Definition same_but_finalizers (o : KafkaUser) (k : kind) : obj k → Prop :=
  match k with KKafkaUser => λ o', ∃ finalizers, o' = set_user_meta (set_Finalizers finalizers (user_meta o)) o | _ => λ _, False end.

Definition same_but_status (o : KafkaUser) (k : kind) : obj k → Prop :=
  match k with KKafkaUser => λ o', ∃ status, o' = set_user_Status status o | _ => λ _, False end.

Definition writes_user (e : event) : Prop := match e with Ev (Update _ _) _ | Ev (StatusUpdate _ _) _ => True | _ => False end.

Definition written_back (o : KafkaUser) (e : event) : Prop :=
  match e with
  | Ev (Update k o') _ => same_but_finalizers o k o'
  | Ev (StatusUpdate k o') _ => same_but_status o k o'
  | _ => False
  end.

(** Every update of an object is of the resource itself: the event before it has read it, under the
    name of the resource, and it is written as read, but for its finalizers or its status. *)
Definition writes_back (i : KafkaUser) (tr : list event) : Prop :=
  ∀ tr1 e tr2, tr = tr1 ++ e :: tr2 → writes_user e →
    ∃ tr0 o, tr1 = tr0 ++ [Ev (Get KKafkaUser (Name (user_meta i)) (Namespace (user_meta i))) (inl o)] ∧ written_back o e.

Definition confined (r : KafkaUserReconciler) (i : KafkaUser) (e : event) : Prop :=
  match e with
  | Ev (UpsertUserScramCredentials _ n m it _) _ => n = user_of i ∧ m = SCRAM_MECHANISM_SHA_512 ∧ it = 8192
  | Ev (DeleteUserScramCredentials _ n m) _ => n = user_of i ∧ m = SCRAM_MECHANISM_SHA_512 ∧ DeletionTimestamp (user_meta i) = true
  | Ev (CreateACLs _ rs) _ => Forall (within_role i) rs ∧ DeletionTimestamp (user_meta i) = false
  | Ev (ListAcls _ f) _ | Ev (DeleteACL _ f) _ => af_Principal f = principal_of (user_of i)
  | Ev (Create k o) _ => may_create r i k o
  | Ev (Delete _ _) _ | Ev (AlterPartitionReassignments _ _ _) _ => False
  | _ => True
  end.

Lemma role_acls_within i name pattern :
  role_pattern (Namespace (user_meta i)) (Role (user_Authorization (user_Spec i))) = Ret (name, pattern) →
  Forall (within_role i) (role_acls (principal_of (user_of i)) name pattern).
Proof.
  unfold role_pattern, within_role. intros HR.
  assert (HA : ∀ ops, Forall (λ a, acl_Principal a = principal_of (user_of i)) (allow (principal_of (user_of i)) <$> ops)).
  { intros ops. apply Forall_fmap, Forall_true. done. }
  unfold role_acls. rewrite !Forall_cons, Forall_nil. cbn [ra_Acls ra_ResourceType ra_ResourceName ra_ResourcePatternType].
  repeat case_decide; simplify_eq; split_and!; auto.
Qed.

Lemma upsert_mechanism_sha t m : upsert_mechanism t = Ret m → m = SCRAM_MECHANISM_SHA_512.
Proof. unfold upsert_mechanism. case_decide; [naive_solver|done]. Qed.

Lemma delete_mechanism_sha t m : delete_mechanism t = Ret m → m = SCRAM_MECHANISM_SHA_512.
Proof. unfold delete_mechanism. case_decide; [naive_solver|done]. Qed.

Section confinement.
Context `{Env W} `{Retry} `{AclNames} `{Urls} `{Finalizing} `{Digest} `{Marshaler KafkaUserSpec} `{Marshaler strmap}.
Context (X509KeyPair : string → string → option gerror) (r : KafkaUserReconciler).

(** The updates of the resource send nothing but reads and writes of resources of its kind. *)
Lemma emits_user_status {L} (P : event → Prop) i f :
  (∀ n ns x, P (Ev (Get KKafkaUser n ns) x)) → (∀ o x, P (Ev (StatusUpdate KKafkaUser o) x)) →
  emits (L := L) P (UpdateStatusWithRetry i f).
Proof. intros HG HS. unfold UpdateStatusWithRetry, updateWithRetry, GetCustomResource. apply emits_RetryOnConflict. emits_auto; auto. Qed.

Lemma emits_UpdateWithRetry {L} (P : event → Prop) i f :
  (∀ n ns x, P (Ev (Get KKafkaUser n ns) x)) → (∀ o x, P (Ev (Update KKafkaUser (f o)) x)) →
  emits (L := L) P (UpdateWithRetry i f).
Proof. intros HG HS. unfold UpdateWithRetry, updateWithRetry, GetCustomResource. apply emits_RetryOnConflict. emits_auto; auto. Qed.

Lemma emits_returning {L A} (P : event → Prop) (m : M (St W L) A) : emits P m → emits P (returning m).
Proof. intros. unfold returning. emits_auto; auto. Qed.

Lemma confined_admin i : emits (confined r i) (newKafkaAdminClient X509KeyPair r).
Proof.
  unfold newKafkaAdminClient, getKafkaCredentials, getKafkaCertificates, GetSslCertificates, FindSecret, NewKafkaAdminClient.
  emits_auto; done.
Qed.

Lemma confined_status i f : emits (L := strmap) (confined r i) (UpdateStatusWithRetry i f).
Proof. by apply emits_user_status. Qed.

Lemma confined_acls i kc {L} : DeletionTimestamp (user_meta i) = false →
  emits (L := L) (confined r i) (createACLs kc (Namespace (user_meta i)) (Role (user_Authorization (user_Spec i))) (user_of i)).
Proof.
  intros Hd. unfold createACLs, delete_stale. emits_auto; try done. split; [|done]. by apply role_acls_within.
Qed.

Lemma confined_generate i us : auth_Secret (user_Authentication (user_Spec i)) = Some us →
  emits (confined r i) (generate_stage r i us).
Proof.
  intros Hu. unfold generate_stage, generateSecret, FindSecret, generatePassword, returning, processAuthenticationError.
  emits_auto; try done; try apply confined_status. exists us. split_and!; try done.
  destruct (bool_decide_reflect (Namespace (user_meta i) = ur_Namespace r)); [by left|]. right. by destruct (SecretCreatingEnabled r).
Qed.

Lemma confined_watch i kc : emits (confined r i) (watch_stage r kc i).
Proof.
  unfold watch_stage, FindSecret, upsertKafkaUser, returning, processAuthenticationError.
  emits_auto; try done; try apply confined_status. split_and!; [|by eapply upsert_mechanism_sha|done].
  match goal with Hb : negb (bool_decide (?x = _)) = false |- _ => by destruct (bool_decide_reflect (x = user_of i)) end.
Qed.

Lemma confined_deletion i kc : DeletionTimestamp (user_meta i) = true → emits (confined r i) (reconcile_deletion r kc i).
Proof.
  intros Hd. unfold reconcile_deletion, deleteKafkaUser, deleteACLs, processError.
  emits_auto; try done; try apply confined_status; [|by apply emits_UpdateWithRetry].
  split_and!; [done|by eapply delete_mechanism_sha|done].
Qed.

Lemma confined_user i kc h changed :
  DeletionTimestamp (user_meta i) = false → emits (confined r i) (reconcile_user r kc i h changed).
Proof.
  intros Hd. unfold reconcile_user, apply_changes, acl_stage, returning, processAuthorizationError.
  emits_auto; try apply confined_status;
    first [by apply confined_generate | by apply confined_watch | by apply confined_acls | by apply emits_UpdateWithRetry | done].
Qed.

(** *** Updates of the resource *)

Lemma writes_back_snoc i tr e :
  writes_back i tr →
  (writes_user e → ∃ tr0 o, tr = tr0 ++ [Ev (Get KKafkaUser (Name (user_meta i)) (Namespace (user_meta i))) (inl o)] ∧ written_back o e) →
  writes_back i (tr ++ [e]).
Proof.
  intros Ht He tr1 e1 tr2 E Hw. destruct tr2 as [|e2 tr2 _] using rev_ind.
  - apply app_inj_tail in E as [-> ->]. by apply He.
  - rewrite app_comm_cons, app_assoc in E. apply app_inj_tail in E as [E ->]. by eapply Ht.
Qed.

Section updates.
Context (i : KafkaUser) (t0 : list event).

Local Abbreviation I := (since t0 (writes_back i)).

Lemma back_silent {A} (m : M (St W strmap) A) : emits (λ e, ¬ writes_user e) m → keeps I m.
Proof.
  intros Hm. eapply keeps_emits; [exact Hm|]. intros t e (tr & -> & Hp) He. exists (tr ++ [e]). split; [by rewrite app_assoc|].
  by apply writes_back_snoc.
Qed.

Lemma back_updateWithRetry f (c : KafkaUser → call KafkaUser) :
  (∀ o r, written_back o (Ev (c (f o)) r)) →
  keeps I (updateWithRetry (L := strmap) (Name (user_meta i)) (Namespace (user_meta i)) f (λ obj, _ ← request (c obj); mret tt)).
Proof.
  intros Hc. apply keeps_RetryOnConflict. intros s (tr & E & Hp). unfold GetCustomResource, mbind, M_bind, request.
  destruct (perform _ (Get KKafkaUser _ _) (world s)) as [[o|e] w1]; cbn [world trace local].
  - assert (HI : I (trace s ++ [Ev (Get KKafkaUser (Name (user_meta i)) (Namespace (user_meta i))) (inl o)])).
    { exists (tr ++ [Ev (Get KKafkaUser (Name (user_meta i)) (Namespace (user_meta i))) (inl o)]). rewrite E, app_assoc. split; [done|].
      by apply writes_back_snoc. }
    destruct HI as (tr' & E' & Hp'). rewrite E'. destruct (perform _ (c (f o)) w1) as [[o'|e] w2]; cbn [trace];
      (eexists (tr' ++ [_]); rewrite app_assoc; split; [done|]; apply writes_back_snoc; [done|]; intros _;
       rewrite E, <- app_assoc in E'; apply app_inv_head in E' as <-; by eexists _, o).
  - exists (tr ++ [Ev (Get KKafkaUser (Name (user_meta i)) (Namespace (user_meta i))) (inr e)]). rewrite E, app_assoc. split; [done|].
    by apply writes_back_snoc.
Qed.

Lemma back_status f : keeps I (UpdateStatusWithRetry (L := strmap) i f).
Proof. apply (back_updateWithRetry _ (StatusUpdate KKafkaUser)). intros o r'. by eexists. Qed.

Lemma back_finalizers (g : KafkaUser → list string) :
  keeps I (UpdateWithRetry (L := strmap) i (λ cr, set_user_meta (set_Finalizers (g cr) (user_meta cr)) cr)).
Proof. apply (back_updateWithRetry _ (Update KKafkaUser)). intros o r'. by eexists. Qed.

#[local] Hint Resolve back_status back_finalizers : operator.

Ltac back_auto := repeat (first [apply back_silent; by (emits_auto; auto) | keeps_step]).

Lemma back_deletion kc : keeps I (reconcile_deletion r kc i).
Proof. unfold reconcile_deletion, deleteKafkaUser, deleteACLs, processError. back_auto. Qed.

Lemma back_changes kc h : keeps I (apply_changes r kc i h).
Proof.
  unfold apply_changes, acl_stage, createACLs, delete_stale, watch_stage, generate_stage, generateSecret, FindSecret, generatePassword,
    upsertKafkaUser, returning, processAuthorizationError, processAuthenticationError. back_auto.
Qed.

Lemma back_user kc h changed : keeps I (reconcile_user r kc i h changed).
Proof.
  unfold reconcile_user. back_auto. apply back_changes.
Qed.

End updates.

(** C14. Whatever the API server and the brokers answer, a reconciliation of a KafkaUser reads the
    resource first and then only touches what belongs to it: the SCRAM credentials and the ACLs of
    the user named after the namespace and the name of the resource, ACLs on everything only for
    the administrator role, the secret it names, in its namespace and only if it asks for
    generation and the operator may create secrets there, and the resource itself: every update is
    of an object just read under the name of the resource, and changes nothing but its finalizers
    or its status.  Credentials are deleted only for a resource being deleted, and ACLs are granted
    only to one that is not. *)
Theorem Reconcile_confined namespace name (s : St W strmap) :
  ∃ x tr, trace (Reconcile X509KeyPair r namespace name s).2 = trace s ++ Ev (Get KKafkaUser name namespace) x :: tr ∧
    match x with
    | inr _ => tr = []
    | inl i => Forall (confined r i) tr ∧ writes_back i tr
    end.
Proof.
  unfold Reconcile. rewrite try_request_bind.
  answer [i|e] w.
  2: { exists (inr e), []. split; [|done]. by destruct (IsNotFound e). }
  match goal with |- context [trace (?m ?s).2] => set (body := m); set (s1 := s) end.
  assert (HB : emits (confined r i) body).
  { unfold body. emits_auto; try done; try apply confined_status; [apply confined_admin|by apply confined_deletion|by apply confined_user]. }
  assert (HI : keeps (since (trace s1) (writes_back i)) body).
  { unfold body, newKafkaAdminClient, getKafkaCredentials, getKafkaCertificates, GetSslCertificates, FindSecret, NewKafkaAdminClient.
    repeat (first [apply back_silent; by (emits_auto; auto) | apply back_status | apply back_deletion | apply back_user | keeps_step]). }
  destruct (HB s1) as (tr & Et & HF). exists (inl i), tr. split; [rewrite Et; unfold s1; cbn; by rewrite <- app_assoc|]. split; [done|].
  destruct (HI s1) as (tr' & E' & HW); [exists []; rewrite app_nil_r; split; [done|by intros [|? ?] ? ? ?]|].
  rewrite Et in E'. by apply app_inv_head in E' as <-.
Qed.

End confinement.

(** ** Finalizers *)

(** An update that leaves a KafkaUser without the finalizer. *)
Definition drops (fin : string) (e : event) : Prop :=
  match e with
  | Ev (Update k o) _ =>
      match k return obj k → Prop with KKafkaUser => λ o, fin ∉ Finalizers (user_meta o) | _ => λ _, False end o
  | _ => False
  end.

Definition deletes_credentials (user : string) (e : event) : Prop :=
  match e with Ev (DeleteUserScramCredentials _ n _) (inl _) => n = user | _ => False end.

Definition deletes_acls (user : string) (e : event) : Prop :=
  match e with Ev (DeleteACL _ f) (inl _) => f = all_of (principal_of user) | _ => False end.

Definition released (user : string) (tr : list event) : Prop :=
  Exists (deletes_credentials user) tr ∧ Exists (deletes_acls user) tr.

(** Whenever the finalizer is dropped, the user has been removed from Kafka before. *)
Definition safe_removal (fin user : string) : list event → Prop := once (released user) (drops fin).

Lemma safe_removal_snoc fin user tr e :
  safe_removal fin user tr → (drops fin e → released user tr) → safe_removal fin user (tr ++ [e]).
Proof. apply once_snoc. Qed.

Lemma released_app user tr tr' : released user tr → released user (tr ++ tr').
Proof. intros [H1 H2]. split; apply Exists_app; by left. Qed.

Section finalizers.
Context `{Env W} `{Retry} `{AclNames} `{Urls} `{Finalizing} `{Digest} `{Marshaler KafkaUserSpec} `{Marshaler strmap}.
Context (X509KeyPair : string → string → option gerror) (r : KafkaUserReconciler).

Local Abbreviation fin := (user_finalizer r).

Lemma keeps_silent {A} (m : M (St W strmap) A) user : emits (λ e, ¬ drops fin e) m → keeps (safe_removal fin user) m.
Proof. intros Hm. eapply keeps_emits; [done|]. intros tr e Hs He. by apply safe_removal_snoc. Qed.

Lemma silent_status i f : emits (L := strmap) (λ e, ¬ drops fin e) (UpdateStatusWithRetry i f).
Proof. apply emits_user_status; cbn; tauto. Qed.

Lemma silent_user i kc h changed : emits (λ e, ¬ drops fin e) (reconcile_user r kc i h changed).
Proof.
  unfold reconcile_user, apply_changes, acl_stage, createACLs, delete_stale, watch_stage, generate_stage, generateSecret,
    FindSecret, generatePassword, upsertKafkaUser, returning, processAuthorizationError, processAuthenticationError.
  emits_auto; try apply silent_status; try (cbn; tauto). apply emits_UpdateWithRetry; [cbn; tauto|].
  intros o x Hd. apply Hd. cbn. apply AddFinalizer_spec. by left.
Qed.

(** The update that drops the finalizer comes after the successful deletions. *)
Lemma keeps_deletion i kc : keeps (safe_removal fin (user_of i)) (reconcile_deletion r kc i).
Proof.
  unfold reconcile_deletion. destruct (Contains _ _); [|apply keeps_silent; emits_auto].
  assert (HPE : ∀ e, keeps (safe_removal fin (user_of i)) (processError r e i)).
  { intros e. apply keeps_silent. unfold processError. emits_auto. apply silent_status. }
  unfold deleteKafkaUser. destruct (delete_mechanism _) as [m|e|];
    [|change (keeps (safe_removal fin (user_of i)) (processError r e i)); apply HPE|by apply keeps_trace].
  intros s Hs. change (try (lift (Ret m) ≫= ?f)) with (try (f m)). cbv beta. rewrite try_dropped_bind.
  answer [x|e] w1; [|apply HPE; cbn [trace]; by apply safe_removal_snoc].
  unfold deleteACLs. rewrite try_dropped_bind. cbn [trace world local]. answer [y|e] w2.
  2: { apply HPE. cbn [trace]. by apply safe_removal_snoc; [apply safe_removal_snoc|]. }
  set (s2 := mkSt w2 _ _).
  assert (HR : safe_removal fin (user_of i) (trace s2) ∧ released (user_of i) (trace s2)).
  { split; [by apply safe_removal_snoc; [apply safe_removal_snoc|]|]. unfold s2. cbn [trace].
    split; rewrite !Exists_app, !Exists_cons; cbn; auto. }
  match goal with |- context [(?m s2).2] => assert (HM : emits (λ _, True) m) end.
  { emits_auto. by apply emits_UpdateWithRetry. }
  refine (proj1 (emits_keeps _ (λ tr, safe_removal fin (user_of i) tr ∧ released (user_of i) tr) _ s2 HM _ HR)).
  intros tr e [HS HL] _. split; [by apply safe_removal_snoc|by apply released_app].
Qed.

(** C15. A KafkaUser loses the finalizer of the operator only after Kafka has answered, in the same
    reconciliation and without an error of the call, the deletion of the credentials of its user and
    the deletion of all its ACLs; the results for single users and ACLs in these answers are dropped. *)
Theorem finalizer_dropped_last namespace name w l i w' :
  perform KafkaUser (Get KKafkaUser name namespace) w = (inl i, w') →
  safe_removal (user_finalizer r) (user_of i) (trace (Reconcile X509KeyPair r namespace name (start w l)).2).
Proof.
  intros Hg. unfold Reconcile. rewrite try_request_bind. cbn [world start]. rewrite Hg. cbn [fst snd].
  match goal with |- context [trace (?m ?s).2] => set (body := m); set (s1 := s) end.
  assert (HB : keeps (safe_removal fin (user_of i)) body).
  { assert (HA : emits (λ e, ¬ drops fin e) (newKafkaAdminClient X509KeyPair r)).
    { unfold newKafkaAdminClient, getKafkaCredentials, getKafkaCertificates, GetSslCertificates, FindSecret, NewKafkaAdminClient.
      emits_auto; cbn; tauto. }
    unfold body. apply keeps_bind; [apply keeps_silent; emits_auto|]. intros m. destruct (negb m); [apply keeps_silent; emits_auto|].
    apply keeps_bind; [apply keeps_silent; emits_auto|]. intros h. apply keeps_bind; [apply keeps_silent; emits_auto|]. intros l'.
    apply keeps_bind; [apply keeps_silent; emits_auto; apply silent_status|]. intros _.
    apply keeps_bind; [apply keeps_silent, emits_try, HA|]. intros [kc|e].
    - destruct (DeletionTimestamp _); [apply keeps_deletion|apply keeps_silent, silent_user].
    - apply keeps_silent. emits_auto. apply silent_status. }
  apply HB. unfold s1. cbn [trace start]. apply safe_removal_snoc; [|done]. intros [|? ?] ? tr2 HE; discriminate HE.
Qed.

End finalizers.

(** ** When a resource counts as processed *)

Definition sets_credentials (user : string) (e : event) : Prop :=
  match e with Ev (UpsertUserScramCredentials _ n _ _ _) (inl _) => n = user | _ => False end.

(** The secret is the one the status already mentions. *)
Definition reads_known_secret (i : KafkaUser) (e : event) : Prop :=
  match e with
  | Ev (Get k _ ns) x =>
      match k return obj k + gerror → Prop with
      | KSecret => λ x, match x with
                        | inl s => ns = Namespace (user_meta i) ∧
                            ResourceVersion (secret_meta s) = authn_ResourceVersion (user_Authn (user_Status i))
                        | inr _ => False
                        end
      | _ => λ _, False
      end x
  | _ => False
  end.

Definition credentials_in_place (i : KafkaUser) (tr : list event) : Prop :=
  auth_WatchSecret (user_Authentication (user_Spec i)) = Some false ∨
  Exists (sets_credentials (user_of i)) tr ∨ Exists (reads_known_secret i) tr.

(** The ACLs of the role were granted, or Kafka answered that authorization is disabled (or the
    refusal of an unsupported role, which quotes it, has that text). *)
Definition grants_role (i : KafkaUser) (e : event) : Prop :=
  match e with
  | Ev (CreateACLs _ rs) (inl _) =>
      ∃ name pattern, role_pattern (Namespace (user_meta i)) (Role (user_Authorization (user_Spec i))) = Ret (name, pattern) ∧
        rs = role_acls (principal_of (user_of i)) name pattern
  | _ => False
  end.

Definition answers_disabled (e : event) : Prop :=
  match e with Ev _ (inr err) => Contains_str (err_msg err) authorizationDisabled = true | _ => False end.

Definition acls_in_place (i : KafkaUser) (tr : list event) : Prop :=
  Exists (grants_role i) tr ∨ Exists answers_disabled tr ∨
  ∃ e, role_pattern (Namespace (user_meta i)) (Role (user_Authorization (user_Spec i))) = Error e ∧
       Contains_str (err_msg e) authorizationDisabled = true.

Lemma credentials_in_place_app i tr tr' : credentials_in_place i tr → credentials_in_place i (tr ++ tr').
Proof. unfold credentials_in_place. rewrite !Exists_app. tauto. Qed.

Lemma acls_in_place_app i tr tr' : acls_in_place i tr → acls_in_place i (tr ++ tr').
Proof. unfold acls_in_place. rewrite !Exists_app. tauto. Qed.

(** Code only adds to its history. *)
Lemma emits_extends `{Env W} {L A} (m : M (St W L) A) s : emits (λ _, True) m → ∃ tr, trace (m s).2 = trace s ++ tr.
Proof. intros Hm. destruct (Hm s) as (tr & E & _). by exists tr. Qed.

Section processed.
Context `{Env W} `{Retry} `{AclNames} `{Urls} `{Finalizing} `{Digest} `{Marshaler KafkaUserSpec} `{Marshaler strmap}.
Context (X509KeyPair : string → string → option gerror) (r : KafkaUserReconciler).

Lemma same_status i f : same_local (L := strmap) (UpdateStatusWithRetry i f).
Proof. unfold UpdateStatusWithRetry, updateWithRetry, GetCustomResource. same_local_auto. Qed.

Lemma same_update i f : same_local (L := strmap) (UpdateWithRetry i f).
Proof. unfold UpdateWithRetry, updateWithRetry, GetCustomResource. same_local_auto. Qed.

Lemma same_error e i : same_local (processError r e i).
Proof. unfold processError. same_local_auto. apply same_status. Qed.

Lemma same_delete kc user t : same_local (L := strmap) (try (deleteKafkaUser kc user t)).
Proof. unfold deleteKafkaUser. same_local_auto. Qed.

Lemma extends_status {L} i f s : ∃ tr, trace (UpdateStatusWithRetry (L := L) i f s).2 = trace s ++ tr.
Proof. apply emits_extends. by apply emits_user_status. Qed.

Lemma same_generate i us : same_local (generate_stage r i us).
Proof.
  unfold generate_stage, generateSecret, FindSecret, generatePassword, returning, processAuthenticationError.
  same_local_auto; apply same_status.
Qed.

Lemma same_watch i kc : same_local (watch_stage r kc i).
Proof.
  unfold watch_stage, FindSecret, upsertKafkaUser, returning, processAuthenticationError. same_local_auto; apply same_status.
Qed.

Lemma same_acl i kc : same_local (acl_stage r kc i).
Proof.
  unfold acl_stage, createACLs, delete_stale, returning, processAuthorizationError. same_local_auto; apply same_status.
Qed.

Lemma same_admin : same_local (newKafkaAdminClient X509KeyPair r).
Proof.
  unfold newKafkaAdminClient, getKafkaCredentials, getKafkaCertificates, GetSslCertificates, FindSecret, NewKafkaAdminClient.
  same_local_auto.
Qed.

(** An early return is not the continuation. *)
Lemma returning_None {A} (m : M (St W strmap) A) s s' : returning m s = (Ret None, s') → False.
Proof. unfold returning, mbind, M_bind. by destruct (m s) as [[a|e|] s1]. Qed.

Lemma status_then_extends {A} i f (a : A) (s s' : St W strmap) :
  (UpdateStatusWithRetry i f;; mret a) s = (Ret a, s') → ∃ tr, trace s' = trace s ++ tr.
Proof.
  intros ([] & s1 & E1 & E2)%bind_inv. injection E2 as <-. destruct (extends_status i f s) as [tr E]. rewrite E1 in E. by exists tr.
Qed.

Lemma watch_stage_None i kc s s' :
  watch_stage r kc i s = (Ret None, s') → ∃ tr, trace s' = trace s ++ tr ∧ credentials_in_place i tr.
Proof.
  unfold watch_stage, credentials_in_place. destruct (auth_WatchSecret _) as [[]|] eqn:Ew; cbn [default id].
  2: { intros [tr E]%status_then_extends. exists tr. split; [done|]. by left. }
  all: destruct (auth_Secret _) as [us|]; [|by intros ?%returning_None];
    unfold FindSecret; rewrite try_request_bind; answer [secret|e] w1; [|by intros ?%returning_None];
    destruct (extractConnectionProperties _ _) as [[u p]|e|]; [|by intros ?%returning_None|done];
    (destruct (bool_decide_reflect (u = user_of i)) as [->|]; [|by intros ?%returning_None]); cbn [negb];
    destruct (bool_decide_reflect (ResourceVersion (secret_meta secret) = authn_ResourceVersion (user_Authn (user_Status i))));
      cbn [negb];
    [ intros [= <-]; eexists; split; [done|]; right; right; by apply Exists_cons_hd
    | unfold upsertKafkaUser; destruct (upsert_mechanism _) as [m|e|]; [|by intros ?%returning_None|done];
      change (try (lift (Ret m) ≫= ?f)) with (try (f m)); cbv beta; rewrite try_dropped_bind; cbn [world trace local];
      answer [x|e] w2; [|by intros ?%returning_None];
      intros [tr ->]%status_then_extends; eexists; cbn [trace]; rewrite <- !app_assoc; split; [done|];
      right; left; apply Exists_app; right; by apply Exists_cons_hd ].
Qed.

Lemma createACLs_cases i kc (s : St W strmap) o s' :
  createACLs kc (Namespace (user_meta i)) (Role (user_Authorization (user_Spec i))) (user_of i) s = (o, s') →
  ∃ tr, trace s' = trace s ++ tr ∧
    match o with
    | Ret _ => Exists (grants_role i) tr
    | Error e => Exists (fails_with e) tr ∨ role_pattern (Namespace (user_meta i)) (Role (user_Authorization (user_Spec i))) = Error e
    | Panic => True
    end.
Proof.
  unfold createACLs. unfold mbind at 1, M_bind at 1, lift. destruct (role_pattern _ _) as [[name pattern]|e|] eqn:ER.
  2,3: intros [= <- <-]; exists []; rewrite app_nil_r; auto.
  match goal with |- (request ?c ≫= ?f) s = _ → _ => assert (HF : ∀ a, reports (f a)) end.
  { intros _. unfold delete_stale.
    repeat first [apply reports_bind; [|intros ?] | apply reports_for_each; intros ? | apply reports_request | apply reports_ret
      | match goal with |- reports (match ?x with _ => _ end) => destruct x end]. }
  unfold mbind at 1, M_bind at 1, request at 1. answer [[]|e] w1.
  2: { intros [= <- <-]. eexists. split; [done|]. left. by apply Exists_cons_hd. }
  set (s1 := mkSt w1 _ _). intros HR. destruct (HF tt s1) as (tr & Et & HE). rewrite HR in Et, HE. cbn [fst snd] in Et, HE.
  exists (Ev (CreateACLs kc (role_acls (principal_of (user_of i)) name pattern)) (inl tt) :: tr). split.
  - rewrite Et. unfold s1. cbn [trace]. by rewrite <- app_assoc.
  - destruct o as [a|e|]; [|left; by apply Exists_cons_tl|done]. apply Exists_cons_hd. by exists name, pattern.
Qed.

Lemma acl_stage_None i kc s s' :
  acl_stage r kc i s = (Ret None, s') → ∃ tr, trace s' = trace s ++ tr ∧ acls_in_place i tr.
Proof.
  unfold acl_stage. unfold mbind at 1, M_bind at 1, try.
  destruct (createACLs _ _ _ _ s) as [o s1] eqn:EC. apply createACLs_cases in EC as (tr & Et & Ho).
  destruct o as [a|e|]; [| |done].
  - intros [tr' ->]%status_then_extends. exists (tr ++ tr'). rewrite Et, app_assoc. split; [done|].
    apply acls_in_place_app. by left.
  - destruct (Contains_str _ _) eqn:Ed; [|by intros ?%returning_None].
    intros [tr' ->]%status_then_extends. exists (tr ++ tr'). rewrite Et, app_assoc. split; [done|].
    apply acls_in_place_app. right. destruct Ho as [HE|HE]; [left|right; by exists e].
    eapply Exists_impl; [exact HE|]. by intros [R c [x|x]] Hx; cbn in *; subst.
Qed.

(** What a live resource leaves in the in-memory state. *)
Definition processed_as (i : KafkaUser) (h : hashes) (s s' : St W strmap) : Prop :=
  local s' = record_hashes i h (local s) ∧
  ∃ tr, trace s' = trace s ++ tr ∧ credentials_in_place i tr ∧ acls_in_place i tr.

Lemma extends_generate i us s : ∃ tr, trace (generate_stage r i us s).2 = trace s ++ tr.
Proof.
  apply emits_extends. unfold generate_stage, generateSecret, FindSecret, generatePassword, returning, processAuthenticationError.
  emits_auto; try done; by apply emits_user_status.
Qed.

Lemma apply_changes_local kc i h s o s' :
  apply_changes r kc i h s = (o, s') → local s' = local s ∨ (o = Ret None ∧ processed_as i h s s').
Proof.
  unfold apply_changes. destruct (auth_Secret _) as [us|]; [|intros [= <- <-]; by left].
  unfold mbind, M_bind. pose proof (same_generate i us s) as Hg. destruct (extends_generate i us s) as [tr1 E1].
  destruct (generate_stage r i us s) as [[[res|]|e|] s1]; cbn [fst snd] in *; [intros [= <- <-]; by left| |intros [= <- <-]; by left..].
  pose proof (same_watch i kc s1) as Hw.
  destruct (watch_stage r kc i s1) as [[[res|]|e|] s2] eqn:EW; cbn [fst snd] in *; [intros [= <- <-]; left; congruence| |intros [= <- <-]; left; congruence..].
  pose proof (same_acl i kc s2) as Ha.
  destruct (acl_stage r kc i s2) as [[[res|]|e|] s3] eqn:EA; cbn [fst snd] in *; [intros [= <- <-]; left; congruence| |intros [= <- <-]; left; congruence..].
  apply watch_stage_None in EW as (tr2 & E2 & HC). apply acl_stage_None in EA as (tr3 & E3 & HA).
  intros [= <- <-]. right. split; [done|]. split; cbn; [congruence|].
  exists (tr1 ++ tr2 ++ tr3). split; [by rewrite E3, E2, E1, <- !app_assoc|]. split.
  - unfold credentials_in_place in *. rewrite !Exists_app. tauto.
  - unfold acls_in_place in *. rewrite !Exists_app. tauto.
Qed.

Lemma reconcile_user_local kc i h changed s o s' :
  reconcile_user r kc i h changed s = (o, s') → local s' = local s ∨ processed_as i h s s'.
Proof.
  unfold reconcile_user. unfold mbind at 1, M_bind at 1.
  assert (HF : ∀ f s, local (UpdateWithRetry (L := strmap) i f s).2 = local s ∧ ∃ tr, trace (UpdateWithRetry (L := strmap) i f s).2 = trace s ++ tr).
  { intros f s0. split; [apply same_update|apply emits_extends; by apply emits_UpdateWithRetry]. }
  match goal with |- context [match ?m s with _ => _ end] => set (add := m) end.
  assert (HA : local (add s).2 = local s ∧ ∃ tr, trace (add s).2 = trace s ++ tr).
  { unfold add. destruct (Contains _ _); [|apply HF]. split; [done|]. exists []. by rewrite app_nil_r. }
  destruct (add s) as [[[]|e|] s1]; cbn [fst snd] in HA; destruct HA as [Hl [tr1 E1]]; [|intros [= <- <-]; by left..].
  destruct changed.
  2: { unfold mbind at 1, M_bind at 1, mret at 1, M_ret at 1. unfold mbind, M_bind.
       pose proof (same_status i (processed (Generation (user_meta i))) s1) as Hs.
       destruct (UpdateStatusWithRetry _ _ s1) as [[[]|e|] s2]; intros [= <- <-]; left; cbn in Hs; congruence. }
  unfold mbind at 1, M_bind at 1. destruct (apply_changes r kc i h s1) as [oc s2] eqn:EC.
  apply apply_changes_local in EC as [E2|[-> (E2 & tr2 & Et & HC & HA)]].
  - destruct oc as [[res|]|e|]; [intros [= <- <-]; left; congruence| |intros [= <- <-]; left; congruence..].
    unfold mbind, M_bind. pose proof (same_status i (processed (Generation (user_meta i))) s2) as Hs.
    destruct (UpdateStatusWithRetry _ _ s2) as [[[]|e|] s3]; intros [= <- <-]; left; cbn in Hs; congruence.
  - unfold mbind, M_bind. pose proof (same_status i (processed (Generation (user_meta i))) s2) as Hs.
    destruct (extends_status i (processed (Generation (user_meta i))) s2) as [tr3 E3].
    assert (HP : processed_as i h s (UpdateStatusWithRetry i (processed (Generation (user_meta i))) s2).2).
    { split; [by rewrite Hs, E2, Hl|]. exists (tr1 ++ tr2 ++ tr3). split; [by rewrite E3, Et, E1, <- !app_assoc|].
      unfold credentials_in_place, acls_in_place in *. rewrite !Exists_app. tauto. }
    destruct (UpdateStatusWithRetry _ _ s2) as [[[]|e|] s3]; intros [= <- <-]; by right.
Qed.

Lemma reconcile_deletion_local kc i s o s' :
  reconcile_deletion r kc i s = (o, s') → local s' = local s ∨ local s' = forget_hashes i (local s).
Proof.
  unfold reconcile_deletion. destruct (Contains _ _); [|intros [= <- <-]; by right].
  unfold mbind at 1, M_bind at 1. pose proof (same_delete kc (user_of i) (auth_Type (user_Authentication (user_Spec i))) s) as Hd.
  destruct (try _ s) as [[[[]|e]|e|] s1]; cbn [fst snd] in Hd; [| |intros [= <- <-]; by left..].
  2: { intros HR. left. rewrite <- Hd, <- (same_error e i s1). by rewrite HR. }
  unfold deleteACLs. rewrite try_dropped_bind. answer [y|e] w2.
  2: { intros HR. left. rewrite <- Hd. apply (f_equal (local ∘ snd)) in HR. cbn in HR. rewrite <- HR. exact (same_error e i (mkSt w2 _ (local s1))). }
  set (s2 := mkSt w2 _ _). unfold mbind at 1, M_bind at 1.
  match goal with |- context [UpdateWithRetry i ?f s2] => pose proof (same_update i f s2) as HS end.
  destruct (UpdateWithRetry i _ s2) as [[[]|e|] s3]; cbn [fst snd] in HS; intros [= <- <-]; cbn; rewrite HS;
    unfold s2; cbn [local]; rewrite Hd; auto.
Qed.

(** C16. A resource is remembered as processed only when what it asks for was written: if the
    hashes of a reconciled KafkaUser are recorded, then in that reconciliation the call that writes
    its credentials returned without an error (or its secret is the one the status mentions, or is
    not to be watched) and so did the one that grants the ACLs of its role (or Kafka has
    authorization disabled).  Otherwise the recorded hashes are those from before, so that the next
    reconciliation processes the resource again; only the deletion of the resource forgets them. *)
Theorem hashes_recorded_when_settled namespace name w l i w' o s' :
  perform KafkaUser (Get KKafkaUser name namespace) w = (inl i, w') →
  Reconcile X509KeyPair r namespace name (start w l) = (o, s') →
  local s' = l ∨
  (DeletionTimestamp (user_meta i) = true ∧ local s' = forget_hashes i l) ∨
  (DeletionTimestamp (user_meta i) = false ∧ ∃ h, hashes_of i = Ret h ∧ local s' = record_hashes i h l ∧
     credentials_in_place i (trace s') ∧ acls_in_place i (trace s')).
Proof.
  intros Hg. unfold Reconcile. rewrite try_request_bind. cbn [world start]. rewrite Hg. cbn [fst snd].
  unfold mbind at 1, M_bind at 1, lift at 1.
  destruct (ApiGroupMatches _ _) as [[]|e|]; cbn [negb]; [|intros [= <- <-]; by left..].
  unfold mbind at 1, M_bind at 1, lift at 1. destruct (hashes_of i) as [h|e|] eqn:Eh; [|intros [= <- <-]; by left..].
  unfold mbind at 1, M_bind at 1, get_local, gets. cbn [local start trace].
  set (s1 := mkSt w' _ l). unfold mbind at 1, M_bind at 1.
  match goal with |- context [match ?m s1 with _ => _ end] => assert (HM : same_local m) end.
  { same_local_auto. apply same_status. }
  specialize (HM s1). match goal with |- context [match ?x with _ => _ end] => destruct x as [[[]|e|] s2] end;
    cbn [fst snd] in HM; [|intros [= <- <-]; by left..].
  unfold mbind at 1, M_bind at 1. pose proof (same_local_try _ same_admin s2) as HA.
  destruct (try (newKafkaAdminClient X509KeyPair r) s2) as [[[kc|e]|e|] s3]; cbn [fst snd] in HA; [| |intros [= <- <-]; left; by rewrite HA, HM..].
  2: { intros HR. left. apply (f_equal (local ∘ snd)) in HR. cbn in HR. rewrite <- HR. etrans; [|etrans; [exact HA|exact HM]].
       match goal with |- local (?m s3).2 = _ => assert (HE : same_local m); [|apply HE] end. same_local_auto. apply same_status. }
  assert (Hl : local s3 = l) by (by rewrite HA, HM).
  destruct (DeletionTimestamp _).
  - intros [HR|HR]%reconcile_deletion_local; [left; congruence|right; left; split; [done|congruence]].
  - intros [HR|(HR & tr & Et & HC & Hc)]%reconcile_user_local; [left; congruence|]. right. right. split; [done|].
    exists h. split_and!; [done|congruence|..]; rewrite Et; unfold credentials_in_place, acls_in_place in *; rewrite !Exists_app; tauto.
Qed.

End processed.

(** ** ACLs of a former role *)

(** The ACLs of a listed resource are among those some role gives on a resource of its type. *)
Definition given_by_a_role (principal : string) (ra : ResourceAcls) : Prop :=
  ∃ name pattern given, given ∈ role_acls principal name pattern ∧ ra_ResourceType ra = ra_ResourceType given ∧
    ra_Acls ra ⊆ ra_Acls given.

Definition deletes_some_acl (e : event) : Prop := match e with Ev (DeleteACL _ _) _ => True | _ => False end.

(** The expected ACLs do not depend on the pattern of the role. *)
Lemma expected_of_given principal name pattern ra :
  given_by_a_role principal ra →
  ∃ expected, expected_of (role_acls principal name pattern) ra = Some expected ∧ ra_Acls ra ⊆ ra_Acls expected.
Proof.
  intros (name' & pattern' & given & Hg & Ht & Hs). unfold expected_of, role_acls in *. cbn [list_find fmap list_fmap].
  repeat (apply elem_of_cons in Hg as [->|Hg]); [..|by apply not_elem_of_nil in Hg];
    cbn [ra_ResourceType ra_Acls] in Ht, Hs; rewrite Ht; cbn; eexists; (split; [reflexivity|]); exact Hs.
Qed.

(** ACLs are compared by operation, permission, host and principal, never by the resource they
    are on: if all that Kafka lists for the user was given by some role, no ACL is deleted.  A
    user whose role changes from administrator to administrator of a namespace keeps the ACLs on
    everything. *)
Theorem role_change_revokes_nothing `{Env W} `{AclNames} {L} kc namespace role username :
  (∀ w l w', perform _ (ListAcls kc (all_of (principal_of username))) w = (inl l, w') →
     Forall (given_by_a_role (principal_of username)) l) →
  ∀ s : St W L, ∃ tr, trace (createACLs kc namespace role username s).2 = trace s ++ tr ∧
    Forall (λ e, ¬ deletes_some_acl e) tr.
Proof.
  intros HL. unfold createACLs. apply emits_lift_bind. intros [name pattern] _.
  apply emits_bind; [emits_auto; cbn; tauto|]. intros _. intros s.
  unfold mbind at 1, M_bind at 1, request at 1. answer [listed|e] w1.
  2: { eexists. split; [done|]. apply Forall_singleton. cbn. tauto. }
  assert (HG := HL _ _ _ Heqp). set (s1 := mkSt w1 _ _).
  match goal with |- context [(?m s1).2] => assert (HM : emits (λ e, ¬ deletes_some_acl e) m) end.
  { emits_auto; try (cbn; tauto). unfold delete_stale.
    match goal with Hx : ?x ∈ listed |- _ => rewrite Forall_forall in HG; specialize (HG x Hx) end.
    destruct (expected_of_given _ name pattern _ HG) as (expected & -> & Hs). apply emits_for_each. intros a Ha.
    rewrite decide_True by (by apply Hs). apply emits_ret. }
  destruct (HM s1) as (tr & -> & HF). eexists. unfold s1. cbn [trace]. rewrite <- app_assoc. split; [done|].
  apply Forall_cons. split; [cbn; tauto|done].
Qed.

(** ** Resources that share their hashes *)

Lemma JoinNames_three a b c : a ≠ "" → b ≠ "" → c ≠ "" → JoinNames [a; b; c] = a +:+ "-" +:+ b +:+ "-" +:+ c.
Proof.
  intros. unfold JoinNames. rewrite filter_all by (by rewrite !Forall_cons). rewrite !Join_cons, Join_single. done.
Qed.

(** The key of the recorded hashes joins the namespace and the name with a dash, which both may
    contain: the resources [c] of namespace [a-b] and [b-c] of namespace [a] share their keys, so
    once the first is processed, the second one, if it has the same specification, labels and
    annotations, counts as unchanged: nothing is done for it. *)
Theorem hash_keys_collide `{Digest} `{Marshaler KafkaUserSpec} `{Marshaler strmap} a b c i j h l :
  a ≠ "" → b ≠ "" → c ≠ "" →
  Namespace (user_meta i) = a +:+ "-" +:+ b → Name (user_meta i) = c →
  Namespace (user_meta j) = a → Name (user_meta j) = b +:+ "-" +:+ c →
  user_Spec i = user_Spec j → Labels (user_meta i) = Labels (user_meta j) → Annotations (user_meta i) = Annotations (user_meta j) →
  hashes_of i = Ret h →
  hashes_of j = Ret h ∧ resource_changed j h (record_hashes i h l) = false.
Proof.
  intros Ha Hb Hc Hin Hic Hjn Hjc Hs Hl Han Hh. split.
  { unfold hashes_of in *. by rewrite <- Hs, <- Hl, <- Han. }
  assert (HK : ∀ what, what ≠ "" → hash_key j what = hash_key i what).
  { intros what Hw. unfold hash_key. rewrite Hin, Hic, Hjn, Hjc.
    rewrite !JoinNames_three; try done; [by rewrite !app_assoc_s|by destruct a|by destruct b]. }
  assert (HN : ∀ x y, x ≠ "" → y ≠ "" → hash_key i x = hash_key i y → x = y).
  { intros x y Hx Hy. unfold hash_key. rewrite Hin, Hic, !JoinNames_three; try done; [|by destruct a..].
    intros HE. by do 4 apply app_inj_l in HE. }
  unfold resource_changed, record_hashes. rewrite !HK by done.
  assert (specName ≠ labelsName ∧ specName ≠ annotationsName ∧ labelsName ≠ annotationsName) as (N1 & N2 & N3) by done.
  unfold sget, map_get.
  rewrite lookup_insert_ne, lookup_insert_ne, lookup_insert_eq by (intros E; apply HN in E; done).
  rewrite lookup_insert_ne, lookup_insert_eq by (intros E; apply HN in E; done). rewrite lookup_insert_eq.
  cbn. by rewrite !bool_decide_eq_true_2.
Qed.

(** ** Resources without a secret *)

(** The field of the secret is read before the check that a secret is given: a new or changed
    resource without one, even if its secret is not to be watched, never gets past that point; the
    reconciliation ends in a panic, unless a request before it fails. *)
Theorem missing_secret_never_succeeds `{Env W} `{Retry} `{AclNames} `{Urls} `{Finalizing} `{Digest}
    `{Marshaler KafkaUserSpec} `{Marshaler strmap} X509KeyPair r namespace name w l i w' h :
  perform KafkaUser (Get KKafkaUser name namespace) w = (inl i, w') →
  ApiGroupMatches (user_APIVersion i) (ApiGroup r) = Ret true →
  DeletionTimestamp (user_meta i) = false → auth_Secret (user_Authentication (user_Spec i)) = None →
  hashes_of i = Ret h → resource_changed i h l = true →
  ∀ result, (Reconcile X509KeyPair r namespace name (start w l)).1 ≠ Ret result.
Proof.
  intros Hg Hm Hd Hs Hh Hc result. unfold Reconcile. rewrite try_request_bind. cbn [world start]. rewrite Hg. cbn [fst snd].
  unfold mbind, M_bind, lift, get_local, gets. rewrite Hm. cbn [negb]. rewrite Hh. cbn [local start]. rewrite Hc.
  destruct (UpdateStatusWithRetry _ _ _) as [[[]|e|] s1]; [|done..].
  destruct (try (newKafkaAdminClient X509KeyPair r) s1) as [[[kc|e]|e|] s2]; [| |done..].
  2: { by destruct (UpdateStatusWithRetry _ _ s2) as [[[]|e'|] s3]. }
  rewrite Hd. unfold reconcile_user, mbind, M_bind.
  match goal with |- context [match ?m s2 with _ => _ end] => destruct (m s2) as [[[]|e|] s3] end; [|done..].
  unfold apply_changes. rewrite Hs. done.
Qed.

(** ** Witnesses *)

Global Instance finalizing_filter : Finalizing.
Proof.
  refine {| AddFinalizer := λ f l, if decide (f ∈ l) then l else l ++ [f]; RemoveFinalizer := λ f l, filter (λ g, g ≠ f) l |}.
  - intros f g l. case_decide; set_solver.
  - intros f g l. by rewrite list_elem_of_filter.
Defined.

Definition example_urls : Urls := {| url_String := λ _ _ u p _, u; url_Parse := λ s, inl (s, s) |}.
Definition example_names : AclNames := {| operation_String := λ _, "op"; resource_String := λ _, "resource" |}.
Definition example_digest : Digest := {| sha256_hex := λ s, s |}.
Definition example_spec_marshaler : Marshaler KafkaUserSpec := {| Marshal := λ s, inl (Role (user_Authorization s)) |}.
Definition example_map_marshaler : Marshaler strmap := {| Marshal := λ _, inl "map" |}.

#[local] Existing Instances retry_default example_urls example_names example_digest example_spec_marshaler example_map_marshaler.

Definition example_reconciler : KafkaUserReconciler :=
  mkUserReconciler "kafka:9092" false "ns" 60 "kafka-secret" "" false "" "netcracker.com".

Definition example_user (secret : option UserSecret) (watch : option bool) (deleted : bool) (fins : list string) : KafkaUser :=
  mkKafkaUser "netcracker.com/v1" (mkMeta "app" "ns" ∅ ∅ "1" 1 fins deleted [])
    (mkUserSpec (mkAuthentication "scram-sha-512" secret watch) (mkAuthorization "admin"))
    (mkUserStatus (mkAuthnStatus "" (mkSecretKey "" "") (mkSecretKey "" "") (mkSecretKey "" "") "") (mkAuthzStatus "" []) "" "" 0 "" []).

Definition example_user_cluster (u : KafkaUser) : Cluster :=
  store KSecret (mkSecret (newMeta "kafka-secret" "ns" ∅ ∅) (<["admin-username" := "admin"]> (<["admin-password" := "pw"]> ∅)) ∅)
    (store KSecret (mkSecret (mkMeta "app-secret" "ns" ∅ ∅ "7" 1 [] false []) (<["username" := "ns_app"]> (<["password" := "pw"]> ∅)) ∅)
       (store KKafkaUser u empty_cluster)).

Definition live_user : KafkaUser := example_user (Some (mkUserSecret "app-secret" "connection-properties" false)) None false [].
Definition deleted_user : KafkaUser :=
  example_user (Some (mkUserSecret "app-secret" "connection-properties" false)) None true ["netcracker.com/kafka-user-controller"].
Definition secretless_user : KafkaUser := example_user None (Some false) false [].

Definition run_user (u : KafkaUser) : outcome Result * St Cluster strmap :=
  Reconcile (λ _ _, None) example_reconciler "ns" "app" (start (example_user_cluster u) ∅).

Example live_user_processed :
  (run_user live_user).1 = Ret (mkResult 0) ∧ users (world (run_user live_user).2) = ["ns_app"] ∧
  length (acls (world (run_user live_user).2)) = 4%nat.
Proof. vm_compute. done. Qed.

Lemma finalizer_dropped_last_witness :
  (run_user deleted_user).1 = Ret (mkResult 0) ∧
  safe_removal "netcracker.com/kafka-user-controller" "ns_app" (trace (run_user deleted_user).2).
Proof.
  split; [vm_compute; reflexivity|].
  apply (finalizer_dropped_last (λ _ _, None) example_reconciler "ns" "app" (example_user_cluster deleted_user) ∅ deleted_user
           (example_user_cluster deleted_user)).
  reflexivity.
Defined.

Lemma hashes_recorded_when_settled_witness :
  local (run_user live_user).2 ≠ ∅ ∧
  (local (run_user live_user).2 = ∅ ∨
   (false = true ∧ local (run_user live_user).2 = forget_hashes live_user ∅) ∨
   (false = false ∧ ∃ h, hashes_of live_user = Ret h ∧ local (run_user live_user).2 = record_hashes live_user h ∅ ∧
     credentials_in_place live_user (trace (run_user live_user).2) ∧ acls_in_place live_user (trace (run_user live_user).2))).
Proof.
  split; [refine (bool_decide_eq_true_1 _ _); vm_compute; reflexivity|].
  apply (hashes_recorded_when_settled (λ _ _, None) example_reconciler "ns" "app" (example_user_cluster live_user) ∅ live_user
           (example_user_cluster live_user) (run_user live_user).1); [reflexivity|].
  exact (surjective_pairing (run_user live_user)).
Defined.

(** The ACLs of an administrator, all of which stay when the role changes. *)
Definition granted_admin : Cluster :=
  world (createACLs (L := unit) 0 "ns" "admin" "ns_app" (start empty_cluster ())).2.

Example stale_acl_stays :
  existsb (λ ra, bool_decide (ra_ResourceType ra = AclResourceTopic) && bool_decide (ra_ResourceName ra = "*"))
    (acls (world (createACLs (L := unit) 0 "ns" "namespace-admin" "ns_app" (start granted_admin ())).2)) = true.
Proof. vm_compute. reflexivity. Qed.

(** An environment that lists the ACLs of the administrator. *)
Definition admin_env : Env unit :=
  {| perform := λ R c w,
       (match c in call R return R + gerror with
        | CreateACLs _ _ => inl tt
        | ListAcls _ _ => inl (role_acls "User:ns_app" "*" AclPatternLiteral)
        | _ => inr (errorf "unexpected")
        end, w) |}.

Lemma role_change_revokes_nothing_witness :
  ∃ tr, trace (createACLs (H := admin_env) (L := unit) 0 "ns" "namespace-admin" "ns_app" (start () ())).2 = [] ++ tr ∧
    Forall (λ e, ¬ deletes_some_acl e) tr.
Proof.
  apply (role_change_revokes_nothing (H := admin_env) (L := unit) 0 "ns" "namespace-admin" "ns_app").
  intros w l w' [= <- <-]. apply Forall_forall. intros ra Hra. exists "*", AclPatternLiteral, ra. split; [done|]. split; done.
Defined.

Definition team_user (namespace name : string) : KafkaUser :=
  set_user_meta (mkMeta name namespace ∅ ∅ "1" 1 [] false []) live_user.

Lemma hash_keys_collide_witness :
  ∃ h, hashes_of (team_user "team-a" "app") = Ret h ∧
  hashes_of (team_user "team" "a-app") = Ret h ∧
  resource_changed (team_user "team" "a-app") h (record_hashes (team_user "team-a" "app") h ∅) = false.
Proof.
  eexists. split; [reflexivity|].
  apply (hash_keys_collide "team" "a" "app" (team_user "team-a" "app") (team_user "team" "a-app")); try reflexivity; discriminate.
Defined.

Lemma missing_secret_never_succeeds_witness :
  (run_user secretless_user).1 = Panic ∧ ∀ result, (run_user secretless_user).1 ≠ Ret result.
Proof.
  split; [vm_compute; reflexivity|].
  apply (missing_secret_never_succeeds (λ _ _, None) example_reconciler "ns" "app" (example_user_cluster secretless_user) ∅
           secretless_user (example_user_cluster secretless_user) (mkHashes "admin" "map" "map")); reflexivity.
Defined.
