(* ===== verification/AkhqCompressor.v ===== *)
(** * The compressor of AKHQ descriptors

    Source: operator/controllers/akhqconfig/akhqconfig_helper.go, compressBytes and what it calls.
    The content of a descriptor goes through two files with fixed names: it is written to the one,
    compressed from there into the other, and read back; both are removed at the end.  The
    controller asks for this with the request [Gzip] (AkhqConfigs.v).

    The output of the gzip writer is complete in the second file when it is closed: its [Close] is
    the [Write] here, whose error the code ignores; an error of what it writes before is an error of
    [Copy].  The [Close] of a file has no effect on the files, and its error, which the
    code ignores as well, no effect on the run; it has no operation.

    The state is the files of the directory by name.  [fault] says which operations fail; one that
    fails changes nothing, except that a failing write leaves some other content, [partial]. *)

From S2P Require Import Prelude GoStrings.

Module AkhqCompressor.

Definition tmpFileName : string := "/tmp/protobuf".
Definition tmpCompressedFileName : string := "/tmp/compressed-proto.gz".

Inductive file_op :=
  | Create (name : string)
  | Write (name content : string)
  | Copy (from to : string)
  | Open (name : string)
  | ReadFile (name : string)
  | Remove (name : string).

Section compressor.
Context (gzip : string → string) (fault : file_op → strmap → option gerror) (partial : string → string).

Abbreviation run := (M strmap).

Definition noSuchFile (name : string) : gerror := mkErr ReasonNotFound ("open " +:+ name +:+ ": no such file or directory").

(** An operation that does not fail goes on with the files. *)
Definition perform {A} (op : file_op) (f : strmap → outcome A * strmap) : run A := λ files,
  match fault op files with Some err => (Error err, files) | None => f files end.

Definition os_Create (name : string) : run unit := perform (Create name) (λ files, (Ret tt, <[name := ""]> files)).

Definition file_Write (name content : string) : run unit := λ files,
  match fault (Write name content) files with
  | Some err => (Error err, <[name := partial content]> files)
  | None => (Ret tt, <[name := content]> files)
  end.

Definition os_Open (name : string) : run string :=
  perform (Open name) (λ files, match files !! name with Some content => (Ret content, files) | None => (Error (noSuchFile name), files) end).

Definition os_ReadFile (name : string) : run string :=
  perform (ReadFile name) (λ files, match files !! name with Some content => (Ret content, files) | None => (Error (noSuchFile name), files) end).

Definition os_Remove (name : string) : run unit := perform (Remove name) (λ files, (Ret tt, delete name files)).

Definition storeBytesToTmpFile (bytes : string) : run unit :=
  os_Create tmpFileName;;
  file_Write tmpFileName bytes.

Definition io_Copy (from to : string) : run unit := perform (Copy from to) (λ files, (Ret tt, files)).

(** The content reaches the file when the gzip writer is closed, whose error is ignored. *)
Definition compressBytesFromTmpFile : run unit :=
  content ← os_Open tmpFileName;
  os_Create tmpCompressedFileName;;
  copied ← try (io_Copy tmpFileName tmpCompressedFileName);
  _ ← try (file_Write tmpCompressedFileName (match copied with inl _ => gzip content | inr _ => partial (gzip content) end));
  lift (match copied with inl _ => Ret tt | inr err => Error err end).

(** The deferred removals, whose errors are ignored, last one first. *)
Definition compressBytes (bytes : string) : run string :=
  storeBytesToTmpFile bytes;;
  compressBytesFromTmpFile;;
  r ← try (os_ReadFile tmpCompressedFileName);
  _ ← try (os_Remove tmpCompressedFileName);
  _ ← try (os_Remove tmpFileName);
  lift (match r with inl fileBytes => Ret fileBytes | inr err => Error err end).

(** ** Properties *)

Definition leaves (op : file_op) : Prop := ∀ files, fault op files = None.

(** C35. The compressor does what the controller asks for with [Gzip]: it never panics, and an error is
    one of its operations'; when it succeeds, the result is the compressed content, whatever the
    two files held before, unless the write at the end of the compression failed, which the code
    ignores: then the result is what that write left.  No other file changes, and the two are gone
    when their removal succeeds. *)
Theorem compressBytes_refines_Gzip bytes files o files' :
  compressBytes bytes files = (o, files') →
  match o with
  | Ret fileBytes => fileBytes = gzip bytes ∨
      fileBytes = partial (gzip bytes) ∧ ∃ files err, fault (Write tmpCompressedFileName (gzip bytes)) files = Some err
  | Error err => ∃ op files, fault op files = Some err
  | Panic => False
  end ∧
  (∀ name, name ≠ tmpFileName → name ≠ tmpCompressedFileName → files' !! name = files !! name) ∧
  (is_ret o → leaves (Remove tmpFileName) → leaves (Remove tmpCompressedFileName) →
   files' = delete tmpFileName (delete tmpCompressedFileName files)).
Proof.
  assert (HN : tmpFileName ≠ tmpCompressedFileName) by done.
  unfold compressBytes, storeBytesToTmpFile, compressBytesFromTmpFile, os_Create, os_Open, io_Copy, os_ReadFile, os_Remove, perform, file_Write, try, lift, leaves.
  generalize dependent tmpFileName. generalize tmpCompressedFileName. intros compressed tmp HN.
  unfold mbind, M_bind.
  repeat (cbv beta iota; first [rewrite lookup_insert_eq | rewrite lookup_insert_ne by done
    | match goal with |- context [fault ?op ?f] => destruct (fault op f) eqn:? end]).
  all: cbv beta iota; intros [= <- <-]; split_and!; first
    [ by eauto | by intros name ? ?; rewrite ?lookup_delete_ne, ?lookup_insert_ne
    | intros [? Hr] R1 R2; first [discriminate Hr | by rewrite ?R1, ?R2 in * |
        apply map_eq; intros k; destruct (decide (k = tmp)), (decide (k = compressed)); by simplify_map_eq] ].
Qed.

End compressor.

(** *** Witness *)

(** A disk on which the last write fails: the code reports success with what is there. *)
Definition full_disk (op : file_op) (files : strmap) : option gerror :=
  match op with Write name _ => if decide (name = tmpCompressedFileName) then Some (errorf "no space left on device") else None | _ => None end.

Definition run_compressor : outcome string * strmap :=
  compressBytes (λ s, "gz:" +:+ s) full_disk (λ s, "gz") "descriptor" {["/etc/hosts" := "localhost"; tmpFileName := "stale"]}.

Lemma compressBytes_refines_Gzip_witness :
  run_compressor.1 = Ret "gz" ∧ run_compressor.2 !! "/etc/hosts" = Some "localhost" ∧
  run_compressor.2 = delete tmpFileName (delete tmpCompressedFileName {["/etc/hosts" := "localhost"; tmpFileName := "stale"]}).
Proof.
  destruct (compressBytes_refines_Gzip (λ s, "gz:" +:+ s) full_disk (λ s, "gz") "descriptor" {["/etc/hosts" := "localhost"; tmpFileName := "stale"]}
    run_compressor.1 run_compressor.2 (surjective_pairing run_compressor)) as (_ & HF & HR).
  split; [vm_compute; reflexivity|]. split; [exact (HF "/etc/hosts" ltac:(discriminate) ltac:(discriminate))|].
  apply HR; [exists "gz"; vm_compute; reflexivity|intros files; reflexivity|intros files; reflexivity].
Defined.

End AkhqCompressor.
