(* ===== verification/AkhqConfigs.v ===== *)
(** * The AkhqConfig controller

    Sources: operator/controllers/akhqconfig/akhqconfig_controller.go, akhqconfig_helper.go and
    status_updater.go, operator/controllers/akhqprotobuf/akhq_protobuf_config.go.  The controller
    keeps the mappings of topics to protobuf descriptors in one shared config map, and each
    descriptor, compressed, in a config map of its own.

    sigs.k8s.io/yaml is the class [Yaml]; the finalizer helpers are those of the KafkaUser
    controller; the temporary files and gzip are the request [Gzip].  [range] is the order in which
    Go ranges over a map. *)

From S2P Require Import Prelude GoStrings Util Transformation Kube Api External Cluster Reconciler KafkaClient.
From S2P Require Import KafkaUsers.

(** ** Base64

    encoding/base64's [StdEncoding.DecodeString]: line ends are skipped, four characters give three
    bytes, padding is required. *)

Definition code (a : ascii) : Z := Z.of_N (N_of_ascii a).

Definition sextet (a : ascii) : option Z :=
  let c := code a in
  if decide (65 ≤ c ≤ 90) then Some (c - 65)
  else if decide (97 ≤ c ≤ 122) then Some (c - 71)
  else if decide (48 ≤ c ≤ 57) then Some (c + 4)
  else if decide (c = 43) then Some 62
  else if decide (c = 47) then Some 63
  else None.

Definition byte_of (z : Z) : ascii := ascii_of_N (Z.to_N (Z.land z 255)).

Definition is_pad (a : ascii) : bool := bool_decide (a = "="%char).

Fixpoint decode_quanta (s : string) : option string :=
  match s with
  | "" => Some ""
  | String a (String b (String c (String d rest))) =>
      x ← sextet a; y ← sextet b;
      let b1 := byte_of (Z.lor (Z.shiftl x 2) (Z.shiftr y 4)) in
      if is_pad c then
        if is_pad d && bool_decide (rest = "") then Some (String b1 "") else None
      else
        z ← sextet c;
        let b2 := byte_of (Z.lor (Z.shiftl y 4) (Z.shiftr z 2)) in
        if is_pad d then
          if decide (rest = "") then Some (String b1 (String b2 "")) else None
        else
          t ← sextet d;
          bytes ← decode_quanta rest;
          Some (String b1 (String b2 (String (byte_of (Z.lor (Z.shiftl z 6) t)) bytes)))
  | _ => None
  end%string.

Fixpoint skip_line_ends (s : string) : string :=
  match s with
  | EmptyString => EmptyString
  | String a s => if decide (code a = 10 ∨ code a = 13) then skip_line_ends s else String a (skip_line_ends s)
  end.

Definition DecodeString (s : string) : option string := decode_quanta (skip_line_ends s).

Example DecodeString_examples :
  DecodeString "S2Fma2E=" = Some "Kafka" ∧ DecodeString "" = Some "" ∧ DecodeString "S2Fma2E" = None ∧ DecodeString "S-Fm" = None.
Proof. vm_compute. done. Qed.

(** ** The configuration of deserialization *)

Record TopicMapping := mkMapping {
  mp_TopicRegex : string;
  mp_Name : string;
  mp_DescriptorFile : string;
  mp_DescriptorFileBase64 : string;
  mp_KeyMessageType : string;
  mp_ValueMessageType : string;
}.

Global Instance TopicMapping_eq_dec : EqDecision TopicMapping.
Proof. solve_decision. Defined.

Record DeserializationConfig := mkDeserialization {
  DescriptorsFolder : string;
  TopicsMapping : list TopicMapping;
}.

Class Yaml := {
  yaml_Unmarshal : string → DeserializationConfig + gerror;
  yaml_Marshal : DeserializationConfig → string + gerror;
}.

Definition akhqFinalizerName : string := "akhq-config-controller".
Definition internalServerError : string := "internal server error, config was not applied".
Definition protobufConfigurationCMName : string := "akhq-protobuf-configuration".
Definition akhqDeserializationCMPrefix : string := "akhqdcm-".

Definition decodingValidationError (regex : string) : string :=
  "can not decode descriptor-file-base64 config which is associated with [" +:+ regex +:+ "] regular expression".

Definition duplicateValidationError (regex : string) : string := "this regular expression occurs twice - [" +:+ regex +:+ "]".

Definition protobufConfig : string :=
  "deserialization:" +:+ nl +:+ " protobuf:" +:+ nl +:+ "   descriptors-folder: " +:+ String "034" ("/app/config" +:+ String "034" nl) +:+
  "   topics-mapping: []" +:+ nl.

Definition converted (regex : string) : string := ReplaceAll regex "," "|".

(** *** Validation *)

Fixpoint validate_configs (regexSet : gset string) (crConfigs : list AkhqTopicConfig) : bool * string :=
  match crConfigs with
  | [] => (true, "")
  | config :: crConfigs =>
      let regex := converted (TopicRegex config) in
      if decide (regex ∈ regexSet) then (false, duplicateValidationError (TopicRegex config))
      else
        match DecodeString (DescriptorFileBase64 config) with
        | None => (false, decodingValidationError (TopicRegex config))
        | Some _ => validate_configs ({[regex]} ∪ regexSet) crConfigs
        end
  end.

Definition validateCrConfig (crConfigs : list AkhqTopicConfig) : bool * string := validate_configs ∅ crConfigs.

(** *** The update of the mappings *)

(** The mappings, the configurations not yet placed, the descriptor files to write, and where to
    insert. *)
Record update_state := mkUpdate {
  up_configs : list TopicMapping;
  up_rest : gmap string AkhqTopicConfig;
  up_files : strmap;
  up_position : nat;
}.

Definition short_file_name (file : string) : string :=
  match Split file "/" with
  | [_; name] => name
  | name :: _ => name
  | [] => ""
  end.

Definition set_types (crConfig : AkhqTopicConfig) (m : TopicMapping) : TopicMapping :=
  mkMapping (mp_TopicRegex m) (mp_Name m) (mp_DescriptorFile m) (mp_DescriptorFileBase64 m) (KeyType crConfig) (MessageType crConfig).

(** The loop over the positions; a removal stays at its position.  Every turn advances or removes a
    mapping, so as many turns as there are mappings are enough. *)
Fixpoint update_loop (crFullName : string) (fuel i : nat) (st : update_state) : update_state :=
  match fuel with
  | O => st
  | S fuel =>
      match up_configs st !! i with
      | None => st
      | Some existedConfig =>
          let shortFileName := short_file_name (mp_DescriptorFile existedConfig) in
          if decide (mp_Name existedConfig = crFullName) then
            match up_rest st !! mp_TopicRegex existedConfig with
            | Some crConfig =>
                update_loop crFullName fuel (S i)
                  (mkUpdate (<[i := set_types crConfig existedConfig]> (up_configs st)) (delete (TopicRegex crConfig) (up_rest st))
                     (<[shortFileName := DescriptorFileBase64 crConfig]> (up_files st)) (S i))
            | None =>
                update_loop crFullName fuel i
                  (mkUpdate (delete i (up_configs st)) (up_rest st) (<[shortFileName := ""]> (up_files st)) i)
            end
          else update_loop crFullName fuel (S i) st
      end
  end.

Definition file_name `{Digest} (crFullName regex : string) : string := crFullName +:+ "-" +:+ StringHash regex.

Definition new_mapping `{Digest} (crFullName : string) (value : AkhqTopicConfig) : TopicMapping :=
  mkMapping (TopicRegex value) crFullName ("descs/" +:+ file_name crFullName (TopicRegex value)) "" (KeyType value) (MessageType value).

Definition fullUpdateDeserializationConfig `{Digest} (range : gmap string AkhqTopicConfig → list (string * AkhqTopicConfig))
    (existingConfigs : list TopicMapping) (crConfigsMap : gmap string AkhqTopicConfig) (crFullName : string) : list TopicMapping * strmap :=
  let st := update_loop crFullName (length existingConfigs) 0 (mkUpdate existingConfigs crConfigsMap ∅ (length existingConfigs)) in
  let values := (range (up_rest st)).*2 in
  (take (up_position st) (up_configs st) ++ (new_mapping crFullName <$> values) ++ drop (up_position st) (up_configs st),
   foldl (λ files value, <[file_name crFullName (TopicRegex value) := DescriptorFileBase64 value]> files) (up_files st) values).

(** [strings.Split(file, "/")[1]]: a name without a slash panics. *)
Fixpoint delete_loop (crFullName : string) (fuel i : nat) (existingConfigs : list TopicMapping) (mapToDelete : strmap) :
    outcome (list TopicMapping * strmap) :=
  match fuel with
  | O => Ret (existingConfigs, mapToDelete)
  | S fuel =>
      match existingConfigs !! i with
      | None => Ret (existingConfigs, mapToDelete)
      | Some existedConfig =>
          if decide (mp_Name existedConfig = crFullName) then
            mapToDelete ← (if decide (mp_DescriptorFile existedConfig = "") then Ret mapToDelete
                           else shortFileName ← index (Split (mp_DescriptorFile existedConfig) "/") 1;
                                Ret (<[shortFileName := ""]> mapToDelete));
            delete_loop crFullName fuel i (delete i existingConfigs) mapToDelete
          else delete_loop crFullName fuel (S i) existingConfigs mapToDelete
      end
  end.

Definition deleteDeserializationConfig (existingConfigs : list TopicMapping) (crFullName : string) :
    outcome (list TopicMapping * strmap) :=
  delete_loop crFullName (length existingConfigs) 0 existingConfigs ∅.

(** ** The controller *)

Record AkhqConfigReconciler := mkAkhqReconciler { ar_Namespace : string; ar_ApiGroup : string }.

Definition akhq_finalizer (r : AkhqConfigReconciler) : string := ar_ApiGroup r +:+ "/" +:+ akhqFinalizerName.

Definition cr_full_name (instance : AkhqConfig) : string := Name (akhq_meta instance) +:+ "-" +:+ Namespace (akhq_meta instance).

Definition configs_map (crConfigs : list AkhqTopicConfig) : gmap string AkhqTopicConfig :=
  foldl (λ m value, let value := set_TopicRegex (converted (TopicRegex value)) value in <[TopicRegex value := value]> m) ∅ crConfigs.

(** [reflect.DeepEqual] of the labels of an object and a map that is not nil: an object without
    labels has a nil map, which is not equal to an empty one. *)
Definition same_labels (found labels : strmap) : bool := bool_decide (found = labels ∧ found ≠ ∅).

Section controller.
Context `{Env W} `{Retry} `{Library} `{Finalizing} `{Digest} `{Yaml} {L : Type}.
Context (range : gmap string AkhqTopicConfig → list (string * AkhqTopicConfig)) (range_files : strmap → list (string * string)).
Context (r : AkhqConfigReconciler).

Definition getConfigMap (configMapName namespace : string) : M (St W L) ConfigMap := request (Get KConfigMap configMapName namespace).

Definition CreateProtobufConfigMapIfNotExist (namespace : string) (labels : strmap) (controller : option OwnerObject) :
    M (St W L) ConfigMap :=
  found ← try (getConfigMap protobufConfigurationCMName namespace);
  '(protobufConfigMap, needToCreate) ←
    match found with
    | inl cm => mret (cm, false)
    | inr err => if IsNotFound err then
                   mret (mkConfigMap (newMeta protobufConfigurationCMName namespace ∅ ∅) {["config" := protobufConfig]} ∅, true)
                 else throw err
    end;
  let relabel := negb (same_labels (Labels (cm_meta protobufConfigMap)) labels) in
  let meta := if relabel then set_Labels labels (cm_meta protobufConfigMap) else cm_meta protobufConfigMap in
  '(meta, needToUpdate) ←
    match controller with
    | None => mret (meta, relabel)
    | Some owner =>
        let meta := match GetControllerOf meta with
                    | Some existing =>
                        if ReferSameObject (owner_Name existing) (owner_APIVersion existing) (owner_Kind existing)
                             (oo_Name owner) (oo_APIVersion owner) (oo_Kind owner)
                        then meta else set_OwnerReferences [] meta
                    | None => meta
                    end in
        meta ← lift (controllerutil_SetControllerReference owner meta);
        mret (meta, true)
    end;
  let protobufConfigMap := mkConfigMap meta (cm_Data protobufConfigMap) (cm_BinaryData protobufConfigMap) in
  if (needToCreate : bool) then request (Create KConfigMap protobufConfigMap)
  else if (needToUpdate : bool) then request (Update KConfigMap protobufConfigMap)
  else mret protobufConfigMap.

Definition getDeserializationConfig (deserializationCM : ConfigMap) : M (St W L) DeserializationConfig :=
  match yaml_Unmarshal (sget (cm_Data deserializationCM) "config") with
  | inl dc => mret dc
  | inr err => throw err
  end.

(** Writing into the nil map of a config map without data panics. *)
Definition updateDeserializationConfigMap (deserializationCM : ConfigMap) (dc : DeserializationConfig) : M (St W L) unit :=
  match yaml_Marshal dc with
  | inr err => throw err
  | inl binDc =>
      if decide (cm_Data deserializationCM = ∅) then panic
      else
        _ ← request (Update KConfigMap (mkConfigMap (cm_meta deserializationCM) (<["config" := binDc]> (cm_Data deserializationCM))
               (cm_BinaryData deserializationCM)));
        mret tt
  end.

(** The config map of one descriptor. *)
Definition apply_binary (namespace : string) (labels : strmap) (entry : string * string) : M (St W L) unit :=
  let '(configName, rawConfig) := entry in
  let name := akhqDeserializationCMPrefix +:+ configName in
  found ← try (request (Get KConfigMap name namespace));
  '(descKeysCM, configAlreadyPresented) ←
    match found with
    | inl cm => mret (cm, true)
    | inr err => if IsNotFound err then mret (mkConfigMap (newMeta "" "" ∅ ∅) ∅ ∅, false) else throw err
    end;
  match DecodeString rawConfig with
  | None => mret tt
  | Some content =>
      compressedBytes ← request (Gzip content);
      let binaryData := <[configName +:+ ".gz" := compressedBytes]> (cm_BinaryData descKeysCM) in
      let meta := set_Labels labels (cm_meta descKeysCM) in
      if negb configAlreadyPresented then
        _ ← request (Create KConfigMap (mkConfigMap (newMeta name namespace labels ∅) (cm_Data descKeysCM) binaryData));
        mret tt
      else
        _ ← request (Update KConfigMap (mkConfigMap meta (cm_Data descKeysCM) binaryData));
        mret tt
  end.

Definition applyBinaryConfigMap (namespace : string) (mapToApply labels : strmap) : M (St W L) unit :=
  for_each (apply_binary namespace labels) (range_files mapToApply).

Definition delete_binary (namespace : string) (entry : string * string) : M (St W L) unit :=
  found ← try (request (Get KConfigMap (akhqDeserializationCMPrefix +:+ entry.1) namespace));
  match found with
  | inr err => if IsNotFound err then mret tt else throw err
  | inl cm => request (Delete KConfigMap cm)
  end.

Definition deleteBinaryConfigMap (namespace : string) (mapToDelete : strmap) : M (St W L) unit :=
  for_each (delete_binary namespace) (range_files mapToDelete).

Definition deleteConfig (instance : AkhqConfig) : M (St W L) unit :=
  deserializationCM ← getConfigMap protobufConfigurationCMName (ar_Namespace r);
  dc ← getDeserializationConfig deserializationCM;
  '(existingConfigs, mapToDelete) ← lift (deleteDeserializationConfig (TopicsMapping dc) (cr_full_name instance));
  deleteBinaryConfigMap (ar_Namespace r) mapToDelete;;
  updateDeserializationConfigMap deserializationCM (mkDeserialization (DescriptorsFolder dc) existingConfigs).

Definition applyConfig (instance : AkhqConfig) : M (St W L) unit :=
  let crConfigsMap := configs_map (akhq_Configs instance) in
  deserializationCM ← CreateProtobufConfigMapIfNotExist (ar_Namespace r) ∅ None;
  dc ← getDeserializationConfig deserializationCM;
  let '(existingConfigs, mapToUpdate) :=
    fullUpdateDeserializationConfig range (TopicsMapping dc) crConfigsMap (cr_full_name instance) in
  applyBinaryConfigMap (ar_Namespace r) mapToUpdate (Labels (cm_meta deserializationCM));;
  updateDeserializationConfigMap deserializationCM (mkDeserialization (DescriptorsFolder dc) existingConfigs).

Definition akhq_UpdateStatusWithRetry (cr : AkhqConfig) (statusUpdateFunc : AkhqConfigStatus → AkhqConfigStatus) : M (St W L) unit :=
  RetryOnConflict (
    instance ← request (Get KAkhqConfig (Name (akhq_meta cr)) (Namespace (akhq_meta cr)));
    _ ← request (StatusUpdate KAkhqConfig (set_akhq_Status (statusUpdateFunc (akhq_Status instance)) instance));
    mret tt).

Definition updateCrStatus (instance : AkhqConfig) (isInvalid isProcessed : bool) (problems : string) : M (St W L) unit :=
  akhq_UpdateStatusWithRetry instance (λ _, mkAkhqStatus isInvalid isProcessed problems).

Definition set_finalizers (f : list string → list string) (instance : AkhqConfig) : AkhqConfig :=
  set_akhq_meta (set_Finalizers (f (Finalizers (akhq_meta instance))) (akhq_meta instance)) instance.

(** The instance after an update is the one the server answered with. *)
Definition Reconcile (namespace name : string) : M (St W L) Result :=
  i ← try (request (Get KAkhqConfig name namespace));
  match i with
  | inr err => if IsNotFound err then mret (mkResult 0) else throw err
  | inl instance =>
      matches ← lift (ApiGroupMatches (akhq_APIVersion instance) (ar_ApiGroup r));
      if negb matches then mret (mkResult 0)
      else if DeletionTimestamp (akhq_meta instance) then
        (if Contains (akhq_finalizer r) (Finalizers (akhq_meta instance)) then
           deleteConfig instance;;
           _ ← request (Update KAkhqConfig (set_finalizers (RemoveFinalizer (akhq_finalizer r)) instance));
           mret tt
         else mret tt);;
        mret (mkResult 0)
      else
        let '(isValid, description) := validateCrConfig (akhq_Configs instance) in
        if negb isValid then
          updateCrStatus instance true false description;;
          mret (mkResult 0)
        else
          instance ← (if Contains (akhq_finalizer r) (Finalizers (akhq_meta instance)) then mret instance
                      else request (Update KAkhqConfig (set_finalizers (AddFinalizer (akhq_finalizer r)) instance)));
          a ← try (applyConfig instance);
          match a with
          | inr err => updateCrStatus instance false true internalServerError;; throw err
          | inl _ => updateCrStatus instance false true "";; mret (mkResult 0)
          end
  end.

End controller.

(** The updates and deletions the controller reacts to. *)
Definition status_predicate_update (old new : ObjectMeta) : bool := negb (bool_decide (Generation old = Generation new)).

Definition status_predicate_delete (deleteStateUnknown : bool) : bool := negb deleteStateUnknown.

(** ** The loops against reference definitions *)

(** A pass over the mappings of one resource: the first mapping of a configured expression takes
    its types, any other mapping of the resource goes. *)
Fixpoint sync (crFullName : string) (m : gmap string AkhqTopicConfig) (l : list TopicMapping) :
    list TopicMapping * gmap string AkhqTopicConfig :=
  match l with
  | [] => ([], m)
  | x :: l =>
      if decide (mp_Name x = crFullName) then
        match m !! mp_TopicRegex x with
        | Some c => let '(l', m') := sync crFullName (delete (mp_TopicRegex x) m) l in (set_types c x :: l', m')
        | None => sync crFullName m l
        end
      else let '(l', m') := sync crFullName m l in (x :: l', m')
  end.

(** The configurations are stored under their own expression. *)
Definition well_keyed (m : gmap string AkhqTopicConfig) : Prop := ∀ k c, m !! k = Some c → TopicRegex c = k.

Lemma well_keyed_delete k m : well_keyed m → well_keyed (delete k m).
Proof. intros Hm k' c [_ Hc]%lookup_delete_Some. by apply Hm. Qed.

Lemma configs_map_keyed l : well_keyed (configs_map l).
Proof.
  unfold configs_map. assert (HG : ∀ m, well_keyed m → well_keyed (foldl (λ m value,
    let value := set_TopicRegex (converted (TopicRegex value)) value in <[TopicRegex value := value]> m) m l)).
  { induction l as [|x l IH]; intros m Hm; [done|]. cbn. apply IH. intros k c Hc. cbn in Hc.
    apply lookup_insert_Some in Hc as [[<- <-]|[_ Hc]]; [done|by apply Hm]. }
  apply HG. intros k c Hc. by rewrite lookup_empty in Hc.
Qed.

(** The loop does the pass on what follows the position, and places the insertion in bounds. *)
Lemma update_loop_sync n fuel i st :
  (length (drop i (up_configs st)) ≤ fuel)%nat → well_keyed (up_rest st) →
  (i ≤ length (up_configs st))%nat → (up_position st ≤ i)%nat ∨ up_position st = length (up_configs st) →
  let st' := update_loop n fuel i st in
  up_configs st' = take i (up_configs st) ++ (sync n (up_rest st) (drop i (up_configs st))).1 ∧
  up_rest st' = (sync n (up_rest st) (drop i (up_configs st))).2 ∧ (up_position st' ≤ length (up_configs st'))%nat.
Proof.
  revert i st. induction fuel as [|fuel IH]; intros i st Hf Hk Hi Hp; cbn [update_loop].
  { rewrite length_drop in Hf. rewrite drop_ge by lia. cbn. rewrite app_nil_r, take_ge by lia. split_and!; [done..|lia]. }
  destruct (up_configs st !! i) as [x|] eqn:Ex.
  2: { apply lookup_ge_None in Ex. rewrite drop_ge by lia. cbn. rewrite app_nil_r, take_ge by lia. split_and!; [done..|lia]. }
  pose proof (lookup_lt_Some _ _ _ Ex) as Hlt. pose proof (drop_S _ _ _ Ex) as Hd. rewrite Hd in Hf |- *.
  cbn [length sync] in *. case_decide as Hn; [destruct (up_rest st !! mp_TopicRegex x) as [c|] eqn:Ec|].
  - set (st1 := mkUpdate _ _ _ _).
    assert (Hd1 : drop (S i) (up_configs st1) = drop (S i) (up_configs st)) by (cbn; apply drop_insert_lt; lia).
    assert (Hr1 : up_rest st1 = delete (mp_TopicRegex x) (up_rest st)) by (cbn; by rewrite (Hk _ _ Ec)).
    destruct (IH (S i) st1) as (H1 & H2 & H3); [by rewrite Hd1; lia|by rewrite Hr1; apply well_keyed_delete|cbn; rewrite length_insert; lia|by left|].
    rewrite Hd1, Hr1 in H1, H2. destruct (sync n (delete _ _) _) as [l' m']. cbn [fst snd] in *. split_and!; [|done..].
    rewrite H1. cbn. rewrite (take_S_r _ i (set_types c x)) by (apply list_lookup_insert_eq; lia).
    rewrite take_insert_ge by lia. by rewrite <- app_assoc.
  - set (st1 := mkUpdate _ _ _ _).
    assert (Hd1 : drop i (up_configs st1) = drop (S i) (up_configs st)).
    { cbn. rewrite delete_take_drop, drop_app_length' by (rewrite length_take; lia). done. }
    assert (Ht1 : take i (up_configs st1) = take i (up_configs st)).
    { cbn. rewrite delete_take_drop, take_app_length' by (rewrite length_take; lia). done. }
    destruct (IH i st1) as (H1 & H2 & H3); [by rewrite Hd1; lia|done|cbn; rewrite length_delete; [lia|by eexists]|by left|].
    rewrite Hd1 in H1, H2. rewrite Ht1 in H1. split_and!; [exact H1|exact H2|exact H3].
  - destruct (IH (S i) st) as (H1 & H2 & H3); [lia|done|lia|destruct Hp; [left; lia|by right]|].
    destruct (sync n (up_rest st) (drop (S i) (up_configs st))) as [l' m']. cbn [fst snd] in *. split_and!; [|done..].
    rewrite H1, (take_S_r _ i x) by done. by rewrite <- app_assoc.
Qed.

(** The expressions and types of the mappings of a resource, and those its configurations ask for. *)
Definition typed (n : string) (l : list TopicMapping) : list (string * string * string) :=
  (λ x, (mp_TopicRegex x, mp_KeyMessageType x, mp_ValueMessageType x)) <$> filter (λ x, mp_Name x = n) l.

Definition wanted (m : gmap string AkhqTopicConfig) : list (string * string * string) :=
  (λ p, (p.1, KeyType p.2, MessageType p.2)) <$> map_to_list m.

(** The mappings of the other resources. *)
Definition others (n : string) (l : list TopicMapping) : list TopicMapping := filter (λ x, mp_Name x ≠ n) l.

Lemma others_app n l1 l2 : others n (l1 ++ l2) = others n l1 ++ others n l2.
Proof. apply filter_app. Qed.

Lemma typed_app n l1 l2 : typed n (l1 ++ l2) = typed n l1 ++ typed n l2.
Proof. unfold typed. by rewrite filter_app, fmap_app. Qed.

Lemma sync_spec n m l :
  others n (sync n m l).1 = others n l ∧ typed n (sync n m l).1 ++ wanted (sync n m l).2 ≡ₚ wanted m ∧ (sync n m l).2 ⊆ m.
Proof.
  revert m. induction l as [|x l IH]; intros m; cbn [sync]; [done|]. unfold others, typed in *. case_decide as Hn.
  - destruct (m !! mp_TopicRegex x) as [c|] eqn:Ec.
    + specialize (IH (delete (mp_TopicRegex x) m)). destruct (sync n (delete _ m) l) as [l' m']. cbn [fst snd] in *.
      destruct IH as (IH1 & IH2 & IH3). rewrite !filter_cons. cbn [set_types mp_Name].
      rewrite !(decide_True (P := mp_Name x = n)), !(decide_False (P := mp_Name x ≠ n)) by auto. split_and!; [done| |].
      * cbn. unfold wanted at 2. rewrite <- (map_to_list_delete m _ _ Ec). cbn. by apply Permutation_skip.
      * etrans; [done|]. apply delete_subseteq.
    + specialize (IH m). rewrite filter_cons, (decide_False (P := mp_Name x ≠ n)) by auto. done.
  - specialize (IH m). destruct (sync n m l) as [l' m']. cbn [fst snd] in *. destruct IH as (IH1 & IH2 & IH3).
    rewrite !filter_cons, !(decide_True (P := mp_Name x ≠ n)), !(decide_False (P := mp_Name x = n)) by done.
    split_and!; [by f_equal|done..].
Qed.

Lemma take_drop_insert {A B} (f : list A → list B) (Hf : ∀ l1 l2, f (l1 ++ l2) = f l1 ++ f l2) l new i :
  f (take i l ++ new ++ drop i l) ≡ₚ f l ++ f new.
Proof.
  rewrite !Hf. rewrite <- (take_drop i l) at 3. rewrite Hf. rewrite <- app_assoc. apply Permutation_app_head, Permutation_app_comm.
Qed.

Lemma others_inserted `{Digest} n l values i :
  others n (take i l ++ (new_mapping n <$> values) ++ drop i l) = others n l.
Proof.
  rewrite !others_app. assert (HN : others n (new_mapping n <$> values) = []).
  { apply filter_none, Forall_fmap, Forall_true. intros c Hc. by apply Hc. }
  rewrite HN. cbn [app]. by rewrite <- others_app, take_drop.
Qed.

Section update.
Context `{Digest} (range : gmap string AkhqTopicConfig → list (string * AkhqTopicConfig)).
Context (range_perm : ∀ m, range m ≡ₚ map_to_list m).

Lemma typed_new n m : well_keyed m → typed n (new_mapping n <$> (range m).*2) ≡ₚ wanted m.
Proof.
  intros Hm. unfold typed. rewrite filter_all by (apply Forall_fmap, Forall_true; done).
  rewrite <- !list_fmap_compose. unfold wanted. rewrite range_perm.
  match goal with |- ?a ≡ₚ ?b => assert (HE : a = b); [|by rewrite HE] end. apply list_fmap_ext. intros i [k c] Hkc. cbn.
  assert (Hc : m !! k = Some c) by (apply elem_of_map_to_list; by eapply list_elem_of_lookup_2). by rewrite (Hm _ _ Hc).
Qed.

(** C23. The update of the shared configuration leaves the mappings of other resources as they are,
    in their order, and gives the resource exactly one mapping for every configured expression,
    with the configured types, whatever was there before. *)
Theorem fullUpdate_spec existing m n result files :
  well_keyed m → fullUpdateDeserializationConfig range existing m n = (result, files) →
  others n result = others n existing ∧ typed n result ≡ₚ wanted m.
Proof.
  intros Hm. unfold fullUpdateDeserializationConfig.
  destruct (update_loop_sync n (length existing) 0 (mkUpdate existing m ∅ (length existing))) as (E1 & E2 & E3);
    [cbn; by rewrite drop_0|done|lia|by right|].
  set (st := update_loop _ _ _ _) in *. cbn [up_configs up_rest] in E1, E2. rewrite drop_0 in E1, E2. cbn in E1.
  destruct (sync_spec n m existing) as (S1 & S2 & S3). intros [= <- _]. split.
  - by rewrite others_inserted, E1.
  - rewrite take_drop_insert by apply typed_app. rewrite E1, typed_new, E2; [done|].
    rewrite E2. intros k c Hc. apply Hm. by eapply lookup_weaken.
Qed.

End update.

(** *** Deletion *)

(** A descriptor whose file name can be split. *)
Definition splittable (x : TopicMapping) : Prop := mp_DescriptorFile x = "" ∨ has_char "/" (mp_DescriptorFile x) = true.

Lemma index_Split_slash s : index (Split s "/") 1 = Panic ↔ has_char "/" s = false.
Proof.
  destruct (has_char "/" s) eqn:E.
  - split; [|done]. intros HP. exfalso.
    destruct (SplitN2 s "/") as [b [t|]] eqn:ES; [|apply SplitN2_none in ES as [_ ES]; congruence].
    apply SplitN2_has in ES as [-> Hb]. rewrite Split_app in HP by done.
    destruct (Split_cons t "/") as (w & ws & Ew). rewrite Ew in HP. done.
  - rewrite Split_no_char by done. done.
Qed.

(** The loop keeps the mappings of the others, if the file names can be split. *)
Lemma delete_loop_spec n fuel i l files :
  (length (drop i l) ≤ fuel)%nat → (i ≤ length l)%nat → Forall (λ x, mp_Name x = n → splittable x) (drop i l) →
  ∃ files', delete_loop n fuel i l files = Ret (take i l ++ others n (drop i l), files').
Proof.
  revert i l files. induction fuel as [|fuel IH]; intros i l files Hf Hi HF; cbn [delete_loop].
  { rewrite length_drop in Hf. rewrite drop_ge by lia. cbn. rewrite app_nil_r, take_ge by lia. by eexists. }
  destruct (l !! i) as [x|] eqn:Ex.
  2: { apply lookup_ge_None in Ex. rewrite drop_ge by lia. cbn. rewrite app_nil_r, take_ge by lia. by eexists. }
  pose proof (lookup_lt_Some _ _ _ Ex) as Hlt. pose proof (drop_S _ _ _ Ex) as Hd. rewrite Hd in Hf, HF |- *.
  apply Forall_cons in HF as [Hx HF]. cbn [length] in Hf. unfold others. rewrite filter_cons. case_decide as Hn.
  - rewrite (decide_False (P := mp_Name x ≠ n)) by auto.
    assert (HM : ∃ files1, (if decide (mp_DescriptorFile x = "") then Ret files
        else shortFileName ← index (Split (mp_DescriptorFile x) "/") 1; Ret (<[shortFileName := ""]> files)) = Ret files1).
    { case_decide as He; [by eexists|]. destruct (Hx Hn) as [?|Hs]; [done|].
      destruct (index (Split (mp_DescriptorFile x) "/") 1) as [f|e|] eqn:Ei; [by eexists| |].
      - unfold index in Ei. cbn in Ei. by destruct (Split _ _) as [|? [|? ?]].
      - apply index_Split_slash in Ei. congruence. }
    destruct HM as [files1 ->]. cbn [mbind outcome_bind].
    assert (Hd1 : drop i (delete i l) = drop (S i) l) by (rewrite delete_take_drop, drop_app_length' by (rewrite length_take; lia); done).
    assert (Ht1 : take i (delete i l) = take i l) by (rewrite delete_take_drop, take_app_length' by (rewrite length_take; lia); done).
    destruct (IH i (delete i l) files1) as [files' E]; [by rewrite Hd1; lia|rewrite length_delete; [lia|by eexists]|by rewrite Hd1|].
    exists files'. unfold mbind, outcome_bind. rewrite E, Hd1, Ht1. done.
  - rewrite (decide_True (P := mp_Name x ≠ n)) by done.
    destruct (IH (S i) l files) as [files' E]; [lia|lia|done|]. exists files'. rewrite E, (take_S_r _ i x) by done. by rewrite <- app_assoc.
Qed.

Lemma delete_spec n l :
  Forall (λ x, mp_Name x = n → splittable x) l → ∃ files, deleteDeserializationConfig l n = Ret (others n l, files).
Proof.
  intros HF. destruct (delete_loop_spec n (length l) 0 l ∅) as [files E]; [by rewrite drop_0|lia|by rewrite drop_0|].
  exists files. unfold deleteDeserializationConfig. rewrite E. by rewrite drop_0.
Qed.

Lemma set_types_splittable c x : splittable x → splittable (set_types c x).
Proof. done. Qed.

Lemma sync_splittable n m l :
  Forall (λ x, mp_Name x = n → splittable x) l → Forall (λ x, mp_Name x = n → splittable x) (sync n m l).1.
Proof.
  intros HF. revert m. induction HF as [|x l Hx HF IH]; intros m; cbn [sync]; [constructor|].
  case_decide; [destruct (m !! _); [|apply IH]|].
  - specialize (IH (delete (mp_TopicRegex x) m)). destruct (sync n _ l). by constructor.
  - specialize (IH m). destruct (sync n m l). by constructor.
Qed.

Lemma new_mapping_splittable `{Digest} n c : splittable (new_mapping n c).
Proof. right. cbn. done. Qed.

(** C24. Deleting a resource undoes its updates: from a shared configuration in which each descriptor of
    the resource is empty or holds a slash ([splittable]), as the controller writes them, the
    deletion that follows an update does not panic and leaves exactly the mappings of the other
    resources, in their order.  A descriptor without a slash, which only another writer can have
    left, makes the deletion panic. *)
Theorem update_then_delete `{Digest} range existing m n result files :
  (∀ m, range m ≡ₚ map_to_list m) → well_keyed m → Forall (λ x, mp_Name x = n → splittable x) existing →
  fullUpdateDeserializationConfig range existing m n = (result, files) →
  ∃ files', deleteDeserializationConfig result n = Ret (others n existing, files').
Proof.
  intros Hr Hm HF. unfold fullUpdateDeserializationConfig.
  destruct (update_loop_sync n (length existing) 0 (mkUpdate existing m ∅ (length existing))) as (E1 & E2 & E3);
    [cbn; by rewrite drop_0|done|lia|by right|].
  set (st := update_loop _ _ _ _) in *. cbn [up_configs up_rest] in E1, E2. rewrite drop_0 in E1, E2. cbn in E1.
  intros [= <- _]. destruct (sync_spec n m existing) as (S1 & _ & _).
  match goal with |- context [deleteDeserializationConfig ?l n] => assert (HS : Forall (λ x, mp_Name x = n → splittable x) l ∧ others n l = others n existing) end.
  { split.
    - rewrite !Forall_app. split_and!; [apply Forall_take| |apply Forall_drop]; try (rewrite E1; by apply sync_splittable).
      apply Forall_fmap, Forall_true. intros c _. apply new_mapping_splittable.
    - by rewrite others_inserted, E1. }
  destruct HS as [HS HO]. destruct (delete_spec n _ HS) as [files' E]. exists files'. by rewrite E, HO.
Qed.

(** ** Validation *)

Lemma validate_configs_true seen l :
  (validate_configs seen l).1 = true ↔
  NoDup ((converted ∘ TopicRegex) <$> l) ∧ Forall (λ c, converted (TopicRegex c) ∉ seen ∧ is_Some (DecodeString (DescriptorFileBase64 c))) l.
Proof.
  revert seen. induction l as [|c l IH]; intros seen; cbn [validate_configs].
  { split; [|done]. intros _. split; constructor. }
  rewrite fmap_cons, NoDup_cons, Forall_cons. cbn [compose]. case_decide as Hc; [naive_solver|].
  destruct (DecodeString (DescriptorFileBase64 c)) as [b|] eqn:Ed; [|cbn; split; [done|intros (_ & (_ & [? ?]) & _); done]].
  rewrite IH. rewrite (Forall_and (λ c0, converted (TopicRegex c0) ∉ seen)), Forall_and.
  assert (HS : Forall (λ c0, converted (TopicRegex c0) ∉ {[converted (TopicRegex c)]} ∪ seen) l ↔
               (converted ∘ TopicRegex) c ∉ (converted ∘ TopicRegex) <$> l ∧ Forall (λ c0, converted (TopicRegex c0) ∉ seen) l).
  { rewrite list_elem_of_fmap, !Forall_forall. cbn. set_solver. }
  rewrite HS. cbn [compose]. split; [intros (? & (? & ?) & ?)|intros ((? & ?) & ((? & ?) & ? & ?))]; split_and!; try done; by eexists.
Qed.

(** A resource is accepted exactly when its expressions, with commas read as alternatives, are
    different and all its descriptors decode. *)
Theorem validateCrConfig_spec l :
  (validateCrConfig l).1 = true ↔
  NoDup ((converted ∘ TopicRegex) <$> l) ∧ Forall (λ c, is_Some (DecodeString (DescriptorFileBase64 c))) l.
Proof.
  unfold validateCrConfig. rewrite validate_configs_true, Forall_and.
  assert (HS : Forall (λ c, converted (TopicRegex c) ∉ (∅ : gset string)) l) by (apply Forall_true; set_solver). tauto.
Qed.

(** ** Config maps of removed mappings *)

Lemma update_loop_files n fuel i st :
  (length (drop i (up_configs st)) ≤ fuel)%nat →
  dom (up_files st) ⊆ dom (up_files (update_loop n fuel i st)) ∧
  ∀ x, x ∈ drop i (up_configs st) → mp_Name x = n → short_file_name (mp_DescriptorFile x) ∈ dom (up_files (update_loop n fuel i st)).
Proof.
  revert i st. induction fuel as [|fuel IH]; intros i st Hf; cbn [update_loop].
  { rewrite length_drop in Hf. rewrite drop_ge by lia. set_solver. }
  destruct (up_configs st !! i) as [y|] eqn:Ey.
  2: { apply lookup_ge_None in Ey. rewrite drop_ge by lia. set_solver. }
  pose proof (lookup_lt_Some _ _ _ Ey) as Hlt. pose proof (drop_S _ _ _ Ey) as Hd. rewrite Hd in Hf |- *. cbn [length] in Hf.
  case_decide as Hn; [destruct (up_rest st !! mp_TopicRegex y) as [c|] eqn:Ec|].
  - set (st1 := mkUpdate _ _ _ _).
    assert (Hd1 : drop (S i) (up_configs st1) = drop (S i) (up_configs st)) by (cbn; apply drop_insert_lt; lia).
    destruct (IH (S i) st1) as [D1 D2]; [by rewrite Hd1; lia|]. rewrite Hd1 in D2. cbn [st1 up_files] in D1.
    rewrite dom_insert in D1. set_solver.
  - set (st1 := mkUpdate _ _ _ _).
    assert (Hd1 : drop i (up_configs st1) = drop (S i) (up_configs st)).
    { cbn. rewrite delete_take_drop, drop_app_length' by (rewrite length_take; lia). done. }
    destruct (IH i st1) as [D1 D2]; [by rewrite Hd1; lia|]. rewrite Hd1 in D2. cbn [st1 up_files] in D1.
    rewrite dom_insert in D1. set_solver.
  - destruct (IH (S i) st) as [D1 D2]; [lia|]. set_solver.
Qed.

Lemma fold_files_dom `{Digest} n values files :
  dom files ⊆ dom (foldl (λ files value, <[file_name n (TopicRegex value) := DescriptorFileBase64 value]> files) files values : strmap).
Proof.
  revert files. induction values as [|v values IH]; intros files; [done|]. cbn. etrans; [|apply IH]. rewrite dom_insert. set_solver.
Qed.

Definition deletes_object (e : event) : Prop := match e with Ev (Delete _ _) _ => True | _ => False end.

(** Applying a resource never deletes a config map: the file of every mapping the resource had,
    also of one that is not configured any more, is among the files to write, and all that
    applying sends is reads, creations and updates.  The config map of a removed mapping stays,
    and the deletion of the resource, which looks at the remaining mappings, does not find it. *)
Theorem removed_mapping_stays `{Env W} `{Retry} `{Library} `{Finalizing} `{Digest} `{Yaml} {L} range range_files r :
  (∀ existing m n x, x ∈ existing → mp_Name x = n →
     short_file_name (mp_DescriptorFile x) ∈ dom (fullUpdateDeserializationConfig range existing m n).2) ∧
  (∀ instance (s : St W L), ∃ tr, trace (applyConfig range range_files r instance s).2 = trace s ++ tr ∧
     Forall (λ e, ¬ deletes_object e) tr).
Proof.
  split.
  - intros existing m n x Hx Hn. unfold fullUpdateDeserializationConfig. cbn [snd].
    apply fold_files_dom. apply (update_loop_files n (length existing) 0 (mkUpdate existing m ∅ (length existing)));
      [cbn; by rewrite drop_0|by rewrite drop_0|done].
  - intros instance. unfold applyConfig, CreateProtobufConfigMapIfNotExist, getConfigMap, getDeserializationConfig,
      applyBinaryConfigMap, apply_binary, updateDeserializationConfigMap.
    match goal with |- ∀ s : _, ∃ tr, trace (?m s).2 = _ ∧ _ => change (emits (λ e, ¬ deletes_object e) m) end.
    emits_auto; cbn; tauto.
Qed.

(** ** Witnesses *)

#[local] Existing Instance example_digest.

Definition example_topic_configs : gmap string AkhqTopicConfig :=
  configs_map [mkAkhqTopicConfig "orders,events" "" "Order" "S2Fma2E="; mkAkhqTopicConfig "users" "Key" "User" ""].

Definition example_mappings : list TopicMapping :=
  [mkMapping "users" "app-ns" "descs/app-ns-users" "" "" "Old"; mkMapping "audit" "other-ns" "descs/other" "" "" "Audit";
   mkMapping "gone" "app-ns" "descs/app-ns-gone" "" "" "Gone"].

Definition example_update : list TopicMapping * strmap :=
  fullUpdateDeserializationConfig map_to_list example_mappings example_topic_configs "app-ns".

Lemma fullUpdate_spec_witness :
  others "app-ns" example_update.1 = [mkMapping "audit" "other-ns" "descs/other" "" "" "Audit"] ∧
  typed "app-ns" example_update.1 ≡ₚ [("orders|events", "", "Order"); ("users", "Key", "User")].
Proof.
  assert (HW : others "app-ns" example_update.1 = others "app-ns" example_mappings ∧
               typed "app-ns" example_update.1 ≡ₚ wanted example_topic_configs).
  { apply (fullUpdate_spec map_to_list (λ m, reflexivity _) example_mappings example_topic_configs "app-ns" example_update.1 example_update.2).
    - apply configs_map_keyed.
    - apply surjective_pairing. }
  destruct HW as [-> ->]. split; [reflexivity|]. vm_compute. reflexivity || (apply Permutation_swap).
Defined.

Lemma update_then_delete_witness :
  ∃ files, deleteDeserializationConfig example_update.1 "app-ns" =
    Ret ([mkMapping "audit" "other-ns" "descs/other" "" "" "Audit"], files).
Proof.
  apply (update_then_delete map_to_list example_mappings example_topic_configs "app-ns" example_update.1 example_update.2).
  - intros m. reflexivity.
  - apply configs_map_keyed.
  - unfold example_mappings. rewrite !Forall_cons, Forall_nil. split_and!; try done; intros _; right; reflexivity.
  - apply surjective_pairing.
Defined.
