(* ===== verification/AkhqProvider.v ===== *)
(** * The objects of AKHQ

    Source: operator/controllers/provider/akhq_provider.go.  [range] is the order of ranging over
    maps. *)

From S2P Require Import Prelude GoStrings Util Transformation Kube Api Providers MonitoringProviders External.
From S2P Require Import Cluster Reconciler KafkaClient KafkaUsers AkhqConfigs.

Module AkhqObjects.

Definition defaultKafkaPollTimeout : Z := 10000.
Definition deserializationSourcesVolumeName : string := "proto-keys".
Definition securityGroupConfigK8SKey : string := "security_groups_config".
Definition basicGroupsConfigK8SKey : string := "basic_auth_users_config".
Definition ldapServerConfigK8SKey : string := "ldap_server_config".
Definition ldapUsersConfigK8SKey : string := "ldap_users_config".

Record AkhqResourceProvider := mkProvider {
  cr : ServiceV7.KafkaService;
  spec : ServiceV7.Akhq;
  serviceName : string;
}.

Definition NewAkhqResourceProvider (cr : ServiceV7.KafkaService) (spec : ServiceV7.Akhq) : AkhqResourceProvider :=
  mkProvider cr spec "akhq".

Implicit Type arp : AkhqResourceProvider.

(** ** Labels *)

Definition GetAkhqSelectorLabels arp : strmap := <["component" := "akhq"]> (<["name" := serviceName arp]> ∅).

Definition GetAkhqLabels arp : outcome strmap :=
  global ← cr_Global (cr arp);
  let labels := <["app.kubernetes.io/name" := serviceName arp]> ∅ in
  Ret (JoinMaps (JoinMaps labels (GetAkhqSelectorLabels arp)) (ServiceV7.Global_DefaultLabels global)).

Definition GetCustomAkhqLabels arp (akhqLabels : strmap) : outcome strmap :=
  global ← cr_Global (cr arp);
  Ret (JoinMaps (JoinMaps (ServiceV7.Global_CustomLabels global) (ServiceV7.Akhq_CustomLabels (spec arp))) akhqLabels).

Definition GetServiceName arp : string := serviceName arp.
Definition GetServiceAccountName arp : string := GetServiceName arp.

Definition getKafkaPollTimeout (akhq : ServiceV7.Akhq) : Z :=
  match ServiceV7.Akhq_KafkaPollTimeout akhq with Some timeout => timeout | None => defaultKafkaPollTimeout end.

Definition isAccessLogEnabled arp : bool :=
  match ServiceV7.Akhq_EnableAccessLog (spec arp) with Some b => b | None => false end.

Definition NewAkhqClientService arp : outcome Service :=
  akhqLabels ← GetAkhqLabels arp;
  Ret (newServiceForCR (serviceName arp) (cr_Namespace (cr arp)) akhqLabels (GetAkhqSelectorLabels arp) [mkPort "akhq-http" 8080 ProtocolTCP]).

(** ** LDAP

    The methods that read the section of LDAP panic on a resource without one. *)

Definition ldap arp : outcome ServiceV7.LdapConfig := deref (ServiceV7.Akhq_Ldap (spec arp)).

Definition ldap_server_rows (config : ServiceV7.LdapConfig) : list string :=
  if ServiceV7.LdapConfig_Enabled config then
    let server := ServiceV7.LdapConfig_Server config in
    let serverScheme := if ServiceV7.LdapConfig_EnableSsl config then "ldaps" else "ldap" in
    ["context:";
     "  server: '" +:+ serverScheme +:+ "://" +:+ ServiceV7.LdapServerContext_Server (ServiceV7.LdapServer_Context server) +:+ "'";
     "  managerDn: '" +:+ ServiceV7.LdapServerContext_ManagerDn (ServiceV7.LdapServer_Context server) +:+ "'";
     "  managerPassword: '" +:+ ServiceV7.LdapServerContext_ManagerPass (ServiceV7.LdapServer_Context server) +:+ "'";
     "search:";
     "  base: '" +:+ ServiceV7.LdapServerSearch_Base (ServiceV7.LdapServer_Search server) +:+ "'";
     "  filter: '" +:+ ServiceV7.LdapServerSearch_Filter (ServiceV7.LdapServer_Search server) +:+ "'"]
    ++ (if ServiceV7.LdapServerGroups_Enabled (ServiceV7.LdapServer_Groups server) then ["groups:"; "  enabled: true"] else [])
  else [].

Definition GetLdapServerProperties arp : outcome string :=
  config ← ldap arp;
  Ret (Join (ldap_server_rows config) nl).

Definition group_rows (groups : list string) : list string :=
  (λ group, "        - " +:+ group) <$> filter (λ group, group ≠ "") groups.

Definition ldap_user_rows (user : ServiceV7.LdapUser) : list string :=
  if decide (ServiceV7.LdapUser_Username user = "") then []
  else ["ldap:"; "  users:"; "    - username: " +:+ ServiceV7.LdapUser_Username user; "      groups:"]
       ++ group_rows (ServiceV7.LdapUser_Groups user).

Definition ldap_group_rows (group : ServiceV7.LdapGroup) : list string :=
  if decide (ServiceV7.LdapGroup_Name group = "") then []
  else ["  groups:"; "    - name: " +:+ ServiceV7.LdapGroup_Name group; "      subgroups:"]
       ++ group_rows (ServiceV7.LdapGroup_Groups group).

Definition GetLdapUsersProperties arp : outcome string :=
  config ← ldap arp;
  Ret (Join (if ServiceV7.LdapConfig_Enabled config then
               concat (ldap_user_rows <$> ServiceV7.LdapUsersConfig_Users (ServiceV7.LdapConfig_UsersConfig config))
               ++ concat (ldap_group_rows <$> ServiceV7.LdapUsersConfig_Groups (ServiceV7.LdapConfig_UsersConfig config))
             else []) nl).

Definition NewConfigurationMapForLdap arp (configMapName : string) : outcome ConfigMap :=
  labels ← GetAkhqLabels arp;
  server ← GetLdapServerProperties arp;
  users ← GetLdapUsersProperties arp;
  Ret (mkConfigMap (newMeta configMapName (cr_Namespace (cr arp)) labels ∅)
         (<[ldapServerConfigK8SKey := nl +:+ server]> (<[ldapUsersConfigK8SKey := nl +:+ users]> ∅)) ∅).

(** ** Secrets and config maps *)

Section secrets.
Context (range : strmap → list (string * string)).

Fixpoint decode_certs (certs : list (string * string)) (data : strmap) : option strmap :=
  match certs with
  | [] => Some data
  | (key, cert) :: certs =>
      match DecodeString cert with
      | None => None
      | Some decodedCert => decode_certs certs (<[key := decodedCert]> data)
      end
  end.

(** A certificate that is not in base64 gives a nil secret. *)
Definition NewLdapTrustedSecret arp (secretName : string) : outcome (option Secret) :=
  labels ← GetAkhqLabels arp;
  config ← ldap arp;
  let meta := newMeta secretName (cr_Namespace (cr arp)) labels ∅ in
  if ServiceV7.LdapConfig_Enabled config && ServiceV7.LdapConfig_EnableSsl config then
    Ret (match decode_certs (range (ServiceV7.LdapConfig_TrustedCerts config)) ∅ with
         | None => None
         | Some data => Some (mkSecret meta data ∅)
         end)
  else Ret (Some (mkSecret meta ∅ ∅)).

End secrets.

Definition ProtectedSecretsFields arp : list string := [securityGroupConfigK8SKey; basicGroupsConfigK8SKey].

Definition NewSecurityConfiguration arp : outcome Secret :=
  let stringData := <[securityGroupConfigK8SKey := ""]> (<[basicGroupsConfigK8SKey := ""]>
    (<[ldapServerConfigK8SKey := ""]> (<[ldapUsersConfigK8SKey := ""]> ∅))) in
  stringData ←
    match ServiceV7.Akhq_Ldap (spec arp) with
    | Some config =>
        if ServiceV7.LdapConfig_Enabled config then
          server ← GetLdapServerProperties arp;
          users ← GetLdapUsersProperties arp;
          Ret (<[ldapUsersConfigK8SKey := users]> (<[ldapServerConfigK8SKey := server]> stringData))
        else Ret stringData
    | None => Ret stringData
    end;
  labels ← GetAkhqLabels arp;
  Ret (mkSecret (newMeta "akhq-security-configuration" (cr_Namespace (cr arp)) labels ∅) ∅ stringData).

Definition NewConfigMapWithKeyValue arp (configMapName key value : string) : outcome ConfigMap :=
  labels ← GetAkhqLabels arp;
  Ret (mkConfigMap (newMeta configMapName (cr_Namespace (cr arp)) labels ∅) {[key := value]} ∅).

Definition NewConfigMapWithKey arp (configMapName key : string) : outcome ConfigMap :=
  labels ← GetAkhqLabels arp;
  Ret (mkConfigMap (newMeta configMapName (cr_Namespace (cr arp)) labels ∅) {[key := ""]} ∅).

Definition NewBinaryConfigMap arp (configMapName : string) : outcome ConfigMap :=
  labels ← GetAkhqLabels arp;
  Ret (mkConfigMap (newMeta configMapName (cr_Namespace (cr arp)) labels ∅) ∅ ∅).

(** ** The deployment *)

(** [0644] *)
Definition defaultMode : Z := 420.

Definition createProjectedVolumeForProtoKeysMaps arp (deserializationConfigMaps : list ConfigMap) : Volume :=
  mkVolume deserializationSourcesVolumeName
    (ProjectedVolume None ((λ cm, ConfigMapProjection (Name (cm_meta cm))) <$> deserializationConfigMaps)).

Definition same_path (key : string) : KeyToPath := mkKeyToPath key key.

Definition ldap_enabled arp : outcome bool := config ← ldap arp; Ret (ServiceV7.LdapConfig_Enabled config).

Definition pod_secrets arp (ldapEnabled : bool) : list VolumeProjection :=
  [SecretProjection (cr_Name (cr arp) +:+ "-services-secret") (same_path <$> ["client-username"; "client-password"]);
   SecretProjection "akhq-secret" (same_path <$> ["akhq_default_user"; "akhq_default_password"]);
   SecretProjection "akhq-security-configuration"
     (same_path <$> [securityGroupConfigK8SKey; basicGroupsConfigK8SKey; ldapServerConfigK8SKey; ldapUsersConfigK8SKey])]
  ++ (if ldapEnabled then [SecretProjection "akhq-ldap-secret" (same_path <$> ["LDAP_ADMIN_USER"; "LDAP_ADMIN_PASSWORD"])] else [])
  ++ (if decide (ServiceV7.Akhq_SchemaRegistryUrl (spec arp) = "") then []
      else [SecretProjection "schema-registry-secret" (same_path <$> ["username"; "password"])]).

Definition getAkhqVolumes arp (deserializationConfigMaps : list ConfigMap) : outcome (list Volume) :=
  global ← cr_Global (cr arp);
  ldapEnabled ← ldap_enabled arp;
  Ret ([mkVolume "trusted-certs" (SecretVolume "akhq-trusted-certs" None [])]
       ++ (if decide (deserializationConfigMaps = []) then []
           else [createProjectedVolumeForProtoKeysMaps arp deserializationConfigMaps])
       ++ ssl_volume global
       ++ (if (ldapEnabled : bool) then [mkVolume "ldap-config" (ConfigMapVolume "akhq-security-configuration" [])] else [])
       ++ [mkVolume "akhq-pod-secrets" (ProjectedVolume (Some defaultMode) (pod_secrets arp ldapEnabled)); getTmpVolume "32Mi"]).

Definition getAkhqVolumeMounts arp (deserializationConfigMaps : list ConfigMap) : outcome (list VolumeMount) :=
  global ← cr_Global (cr arp);
  ldapEnabled ← ldap_enabled arp;
  Ret ([mkVolumeMount "trusted-certs" "/app/trustcerts" false]
       ++ (if decide (deserializationConfigMaps = []) then []
           else [mkVolumeMount deserializationSourcesVolumeName "/app/config/descs-compressed" false])
       ++ ssl_mount global
       ++ (if (ldapEnabled : bool) then [mkVolumeMount "ldap-config" "/app/config/ldap" false] else [])
       ++ [mkVolumeMount "akhq-pod-secrets" "/etc/secrets/akhq-pod-secrets" true; getTmpVolumeMount]).

Definition getAkhqEnvironmentVariables arp (protobufConfigMapVersion : string) : outcome (list EnvVar) :=
  global ← cr_Global (cr arp);
  Ret ([mkEnv "KAFKA_SERVICE_NAME" (cr_Name (cr arp));
        mkEnv "KAFKA_POLL_TIMEOUT_MS" (itoa (getKafkaPollTimeout (spec arp)));
        mkEnv "BOOTSTRAP_SERVERS" (ServiceV7.Akhq_BootstrapServers (spec arp));
        mkEnv "KAFKA_SASL_MECHANISM" (ServiceV7.Global_KafkaSaslMechanism global);
        mkEnv "KAFKA_ENABLE_SSL" (show_bool (ServiceV7.KafkaSsl_Enabled (ServiceV7.Global_KafkaSsl global)));
        mkEnv "ENABLE_ACCESS_LOG" (show_bool (isAccessLogEnabled arp));
        mkEnvVar "PROTOBUF_CONFIGURATION" "" (Some (getConfigMapEnvVarSource (GetServiceName arp +:+ "-protobuf-configuration") "config"));
        mkEnv "PROTOBUF_CONFIGURATION_VERSION" protobufConfigMapVersion]
       ++ match ServiceV7.Akhq_HeapSize (spec arp) with
          | Some size => [mkEnv "HEAP_OPTS" ("-Xms" +:+ itoa size +:+ "m -Xmx" +:+ itoa size +:+ "m")]
          | None => []
          end
       ++ (if decide (ServiceV7.Akhq_SchemaRegistryUrl (spec arp) = "") then []
           else [mkEnv "SCHEMA_REGISTRY_URL" (ServiceV7.Akhq_SchemaRegistryUrl (spec arp));
                 mkEnv "SCHEMA_REGISTRY_TYPE" (ServiceV7.Akhq_SchemaRegistryType (spec arp))])).

Definition getCommand arp : list string := [].
Definition getArgs arp : list string := [].
Definition getInitContainers arp : list Container := [].

Definition NewAkhqDeployment (range : strmap → list (string * string)) arp (protobufConfigMapVersion : string)
    (deserializationConfigMaps : list ConfigMap) : outcome Deployment :=
  let deploymentName := serviceName arp in
  labels ← GetAkhqLabels arp;
  let akhqLabels := <["app.kubernetes.io/technology" := "java-others"]> labels in
  let akhqLabels := <["app.kubernetes.io/instance" := deploymentName +:+ "-" +:+ cr_Namespace (cr arp)]> akhqLabels in
  akhqCustomLabels ← GetCustomAkhqLabels arp akhqLabels;
  volumes ← getAkhqVolumes arp deserializationConfigMaps;
  volumeMounts ← getAkhqVolumeMounts arp deserializationConfigMaps;
  envVars ← getAkhqEnvironmentVariables arp protobufConfigMapVersion;
  let container := mkContainer deploymentName (ServiceV7.Akhq_DockerImage (spec arp)) (getCommand arp) (getArgs arp)
    [mkContainerPort "" 8080 ProtocolTCP; mkContainerPort "" 8081 ProtocolTCP]
    (buildEnvs range envVars (ServiceV7.Akhq_EnvironmentVariables (spec arp)))
    (ServiceV7.Akhq_Resources (spec arp)) volumeMounts
    (Some (mkProbe (TCPSocket 8080) 30 5 15 1 5)) (Some (mkProbe (HTTPGet "/health" 8081 "HTTP") 40 15 15 1 5))
    "Always" (Some getDefaultContainerSecurityContext) in
  let pod := mkPodSpec volumes (getInitContainers arp) [container] (Some (ServiceV7.Akhq_SecurityContext (spec arp)))
    (GetServiceAccountName arp) None deploymentName "" (Some (ServiceV7.Akhq_Affinity (spec arp)))
    (ServiceV7.Akhq_Tolerations (spec arp)) (ServiceV7.Akhq_PriorityClassName (spec arp)) in
  Ret (mkDeployment (newMeta deploymentName (cr_Namespace (cr arp)) akhqLabels ∅) "RollingUpdate" (Some 1) None
         (GetAkhqSelectorLabels arp) (mkTemplate akhqCustomLabels ∅ pod) 0 0).

End AkhqObjects.
