(* ===== verification/Pool.v ===== *)
(** * Workers: which controllers run, and how they are restarted

    Sources: operator/workers/pool.go, operator/workers/jobs/*.go, operator/cfg/cfg.go.  A job
    builds a manager of one controller for one API group and runs it; the pool starts the enabled
    jobs, each in a goroutine that restarts it.

    Durations and times are in nanoseconds.  A manager is given by the options it is created with;
    [manager_error] is what controller-runtime answers when it is set up. *)

From S2P Require Import Prelude GoStrings Util Transformation Kube Api External Cluster Reconciler KafkaClient.
From S2P Require Import KafkaUsers.

(** ** Configuration *)

Definition KafkaMode : string := "kafka".
Definition KafkaServiceMode : string := "kafkaservice".

(** The options the workers read. *)
Record Cfg := mkCfg {
  MetricsAddr : string;
  ProbeAddr : string;
  EnableLeaderElection : bool;
  Mode : string;
  cfg_ApiGroup : string;
  SecondaryApiGroup : string;
  KmmEnabled : bool;
  WatchAkhqCollectNamespace : option string;
  WatchKafkaUsersCollectNamespace : option string;
  KafkaUserSecretCreatingEnabled : bool;
  KafkaUserConfiguratorReconcilePeriodSecs : Z;
  KafkaBootstrapServers : string;
  cfg_KafkaSecret : string;
  cfg_KafkaSaslMechanism : string;
  cfg_KafkaSslEnabled : bool;
  cfg_KafkaSslSecret : string;
  OperatorNamespace : string;
}.

(** The environment variables API_GROUP and WATCH_NAMESPACE. *)
Record environment := mkEnvironment { API_GROUP : option string; WATCH_NAMESPACE : option string }.

(** ** Jobs *)

Inductive job := KafkaJob | AkhqJob | KmmJob | KafkaUserJob.

Global Instance job_eq_dec : EqDecision job.
Proof. solve_decision. Defined.

(** Whether a job runs, and whether it also runs for the secondary API group. *)
Definition kafka_Enabled (opts : Cfg) : bool * bool := (negb (bool_decide (Mode opts = "")), false).

Definition akhq_Enabled (opts : Cfg) : bool * bool :=
  (bool_decide (Mode opts = KafkaServiceMode) && bool_decide (is_Some (WatchAkhqCollectNamespace opts)), true).

Definition kmm_Enabled (opts : Cfg) : bool * bool := (bool_decide (Mode opts = KafkaServiceMode) && KmmEnabled opts, true).

Definition user_Enabled (opts : Cfg) : bool * bool :=
  (bool_decide (Mode opts = KafkaServiceMode) && bool_decide (is_Some (WatchKafkaUsersCollectNamespace opts)), true).

Definition Enabled (j : job) (opts : Cfg) : bool * bool :=
  match j with
  | KafkaJob => kafka_Enabled opts
  | AkhqJob => akhq_Enabled opts
  | KmmJob => kmm_Enabled opts
  | KafkaUserJob => user_Enabled opts
  end.

Definition mainApiGroup (env : environment) : string := default "netcracker.com" (API_GROUP env).

Definition getWatchNamespace (env : environment) : outcome string :=
  match WATCH_NAMESPACE env with
  | Some ns => Ret ns
  | None => Error (errorf "WATCH_NAMESPACE must be set")
  end.

(** The namespaces a manager watches, [None] being all of them. *)
Definition configureManagerNamespaces (namespace ownNamespace : string) : option (gset string) :=
  let namespaces := Split namespace "," in
  let namespaces := if Contains ownNamespace namespaces then namespaces else namespaces ++ [ownNamespace] in
  let nsMap := foldl (λ nsMap ns, let ns := TrimSpace ns in if decide (ns = "") then nsMap else {[ns]} ∪ nsMap) (∅ : gset string) namespaces in
  if decide (nsMap = ∅) then None else Some nsMap.

(** ** Schemes *)

(** What a scheme knows of the resources of the operator: group, version and kind. *)
Abbreviation Scheme := (list (string * string * string)).

Definition v1_kinds : list string := ["AkhqConfig"; "Kafka"; "KafkaUser"; "KmmConfig"].

(** The groups of api/v1 and api/v7, which are read from the environment when the process starts. *)
Definition GroupVersion (env : environment) (version : string) : string * string := (default "netcracker.com" (API_GROUP env), version).

Definition register (groupVersion : string * string) (kinds : list string) : Scheme :=
  (λ kind, (groupVersion.1, groupVersion.2, kind)) <$> kinds.

(** The scheme of the main group. *)
Definition scheme (env : environment) : Scheme :=
  register (GroupVersion env "v1") v1_kinds ++ register (GroupVersion env "v7") ["KafkaService"].

(** The scheme of another group; its version of KafkaService has no v. *)
Definition duplicateScheme (apiGroup : string) : Scheme :=
  register (apiGroup, "v1") v1_kinds ++ register (apiGroup, "7") ["KafkaService"].

Definition runScheme (env : environment) (apiGroup : string) : Scheme :=
  if decide (mainApiGroup env = apiGroup) then scheme env else duplicateScheme apiGroup.

(** The controller a manager runs. *)
Inductive controller :=
  | KafkaController (apiGroup : string)
  | KafkaServiceController (apiGroup : string)
  | AkhqConfigController (namespace apiGroup : string)
  | KmmConfigController (apiGroup : string)
  | KafkaUserController (r : KafkaUserReconciler).

Record Manager := mkManager {
  mg_Scheme : Scheme;
  mg_Metrics : string;
  mg_Port : Z;
  mg_Probe : string;
  mg_LeaderElection : bool;
  mg_LeaderElectionNamespace : string;
  mg_LeaderElectionID : string;
  mg_Namespaces : option (gset string);
  mg_Controller : controller;
}.

Definition UnsupportedError : gerror := errorf "unsupported service invocation".
Definition UnexpectedError : gerror := errorf "unexpected behavior".

Definition port_for (env : environment) (apiGroup : string) (port : Z) : Z :=
  if decide (mainApiGroup env = apiGroup) then port else port + 10.

(** The options of the manager of each job. *)
Definition kafka_manager (env : environment) (opts : Cfg) (apiGroup : string) : outcome Manager :=
  if decide (mainApiGroup env = apiGroup) then
    Ret (mkManager (scheme env) (MetricsAddr opts) 9443 (ProbeAddr opts) (EnableLeaderElection opts) (OperatorNamespace opts)
           (Mode opts +:+ "." +:+ OperatorNamespace opts +:+ "." +:+ apiGroup) (Some {[OperatorNamespace opts]})
           (if decide (Mode opts = KafkaMode) then KafkaController apiGroup else KafkaServiceController apiGroup))
  else Error UnsupportedError.

Definition akhq_manager (env : environment) (opts : Cfg) (apiGroup : string) : outcome Manager :=
  match WatchAkhqCollectNamespace opts with
  | None => Panic
  | Some watchNamespace =>
      Ret (mkManager (runScheme env apiGroup) "0" (port_for env apiGroup 9542) "0" (EnableLeaderElection opts) (OperatorNamespace opts)
             ("akhqconfig." +:+ OperatorNamespace opts +:+ "." +:+ cfg_ApiGroup opts)
             (configureManagerNamespaces watchNamespace (OperatorNamespace opts))
             (AkhqConfigController (OperatorNamespace opts) apiGroup))
  end.

Definition kmm_manager (env : environment) (opts : Cfg) (apiGroup : string) : outcome Manager :=
  namespace ← getWatchNamespace env;
  Ret (mkManager (runScheme env apiGroup) "0" (port_for env apiGroup 9543) "0" (EnableLeaderElection opts) (OperatorNamespace opts)
         ("kmmconfig." +:+ OperatorNamespace opts +:+ "." +:+ apiGroup)
         (configureManagerNamespaces namespace (OperatorNamespace opts)) (KmmConfigController apiGroup)).

Definition user_manager (env : environment) (opts : Cfg) (apiGroup : string) : outcome Manager :=
  match WatchKafkaUsersCollectNamespace opts with
  | None => Panic
  | Some namespace =>
      Ret (mkManager (runScheme env apiGroup) "0" (port_for env apiGroup 9544) "0" (EnableLeaderElection opts) (OperatorNamespace opts)
             ("kafkausers." +:+ OperatorNamespace opts +:+ "." +:+ apiGroup)
             (configureManagerNamespaces namespace (OperatorNamespace opts))
             (KafkaUserController
                (mkUserReconciler (KafkaBootstrapServers opts) (KafkaUserSecretCreatingEnabled opts) (OperatorNamespace opts)
                   (KafkaUserConfiguratorReconcilePeriodSecs opts) (cfg_KafkaSecret opts) (cfg_KafkaSaslMechanism opts)
                   (cfg_KafkaSslEnabled opts) (cfg_KafkaSslSecret opts) apiGroup)))
  end.

Definition manager_of (env : environment) (j : job) (opts : Cfg) (apiGroup : string) : outcome Manager :=
  match j with
  | KafkaJob => kafka_manager env opts apiGroup
  | AkhqJob => akhq_manager env opts apiGroup
  | KmmJob => kmm_manager env opts apiGroup
  | KafkaUserJob => user_manager env opts apiGroup
  end.

(** The manager, or the first error of the scheme, the manager, its controller or its checks. *)
Definition Build (env : environment) (manager_error : Manager → option gerror) (j : job) (opts : Cfg) (apiGroup : string) :
    outcome Manager :=
  mgr ← manager_of env j opts apiGroup;
  match manager_error mgr with
  | Some err => Error err
  | None => Ret mgr
  end.

(** What running a job returns, from what the manager returned and whether the context was done. *)
Definition exec_error (j : job) (start_error : option gerror) (ctx_done : bool) : option gerror :=
  match start_error with
  | Some err => Some err
  | None =>
      match j with
      | KafkaJob => if ctx_done then None else Some UnexpectedError
      | _ => None
      end
  end.

(** ** The pool *)

Definition second : Z := 1000000000.

Record Pool := mkPool { jbs : list job; maxConsecutiveRestarts : Z; restartResetAfter : Z }.

Definition NewPool : Pool := mkPool [KafkaJob; AkhqJob; KmmJob; KafkaUserJob] 5 (60 * 60 * second).

(** The jobs started, with the API groups they are started for. *)
Definition Start (wrk : Pool) (opts : Cfg) : list (job * string) :=
  jbs wrk ≫= λ j,
    let '(runJob, runDuplicate) := Enabled j opts in
    if runJob then
      (j, cfg_ApiGroup opts) :: (if negb (bool_decide (SecondaryApiGroup opts = "")) && runDuplicate then [(j, SecondaryApiGroup opts)] else [])
    else [].

(** [rand.Int63n(n)] panics unless [n] is positive; [random] stands for the source. *)
Definition Int63n (random n : Z) : outcome Z := if decide (0 < n) then Ret (random mod n) else Panic.

Definition backoffWithJitter (random : Z) (coin : bool) (consecFails capDur : Z) : outcome Z :=
  let consecFails := if decide (consecFails < 1) then 1 else consecFails in
  let d := int64_wrap (Z.shiftl second (consecFails - 1)) in
  let d := if decide (capDur < d) then capDur else d in
  j ← Int63n random (d ÷ 3);
  Ret (if coin then int64_wrap (d - j) else int64_wrap (d + j)).

(** The counters of the goroutine of a job. *)
Record job_state := mkJobState { consecFails : Z; lastFail : Z }.

(** What happens in one turn of its loop: whether the context is done at the head, what the build
    and the manager return, whether the context is done when the manager has returned, when the
    error is looked at, and at the next check, the time, the random numbers, and whether the
    context is done before the timer fires. *)
Record turn := mkTurn {
  t_done_head : bool;
  t_build : option gerror;
  t_start : option gerror;
  t_done_exec : bool;
  t_done_switch : bool;
  t_done_check : bool;
  t_now : Z;
  t_random : Z;
  t_coin : bool;
  t_done_sleep : bool;
}.

Inductive exit := ShuttingDown | BuildFailed (err : gerror) | TooManyFailures.

(** A turn ends the goroutine, or sleeps and goes on. *)
Definition job_turn (wrk : Pool) (j : job) (t : turn) (st : job_state) : outcome ((job_state * Z) + exit) :=
  if t_done_head t then Ret (inr ShuttingDown)
  else
    match t_build t with
    | Some err => Ret (inr (BuildFailed err))
    | None =>
        let runErr := exec_error j (t_start t) (t_done_exec t) in
        let fails :=
          if t_done_switch t then consecFails st
          else match runErr with None => consecFails st | Some _ => consecFails st + 1 end in
        if t_done_check t then Ret (inr ShuttingDown)
        else
          let st := if decide (restartResetAfter wrk < t_now t - lastFail st) then mkJobState 1 (t_now t)
                    else mkJobState fails (lastFail st) in
          if decide (maxConsecutiveRestarts wrk ≤ consecFails st) then Ret (inr TooManyFailures)
          else
            sleep ← backoffWithJitter (t_random t) (t_coin t) (consecFails st) (30 * second);
            if t_done_sleep t then Ret (inr ShuttingDown) else Ret (inl (st, sleep))
    end.

(** The goroutine over a sequence of turns: the sleeps so far, and how it ended if it did. *)
Fixpoint launchJob (wrk : Pool) (j : job) (ts : list turn) (st : job_state) : outcome (list Z * option exit) :=
  match ts with
  | [] => Ret ([], None)
  | t :: ts =>
      r ← job_turn wrk j t st;
      match r with
      | inr e => Ret ([], Some e)
      | inl (st, sleep) =>
          '(sleeps, e) ← launchJob wrk j ts st;
          Ret (sleep :: sleeps, e)
      end
  end.

(** ** Backoff *)

(** The delay before the jitter. *)
Definition delay_of (fails cap : Z) : Z := Z.min (second * 2 ^ (Z.max 1 fails - 1)) cap.

Lemma pow2_bounds k n : 0 ≤ k ≤ n → 1 ≤ 2 ^ k ≤ 2 ^ n.
Proof. intros Hk. assert (0 < 2 ^ k) by (apply Z.pow_pos_nonneg; lia). split; [lia|]. apply Z.pow_le_mono_r; lia. Qed.

Lemma backoff_value random coin fails cap :
  fails ≤ 34 → 3 ≤ cap ≤ 2 ^ 60 →
  let d := delay_of fails cap in
  backoffWithJitter random coin fails cap = Ret (if coin then d - random mod (d ÷ 3) else d + random mod (d ÷ 3)) ∧
  3 ≤ d ≤ 2 ^ 60 ∧ 0 ≤ random mod (d ÷ 3) < d ÷ 3.
Proof.
  intros Hf Hc d. set (k := Z.max 1 fails - 1). assert (Hk : 0 ≤ k ≤ 33) by lia.
  assert (Hp : 1 ≤ 2 ^ k ≤ 2 ^ 33) by (by apply pow2_bounds).
  assert (Hs : int64_wrap (Z.shiftl second k) = second * 2 ^ k).
  { rewrite Z.shiftl_mul_pow2 by lia. apply int64_wrap_id. unfold in_int64, second. lia. }
  assert (Hd : 3 ≤ d ≤ 2 ^ 60) by (unfold d, delay_of; fold k; unfold second; lia).
  assert (H3 : 0 < d ÷ 3) by (rewrite Z.quot_div_nonneg by lia; pose proof (Z.div_le_lower_bound d 3 1); lia).
  assert (Hq : d ÷ 3 ≤ d) by (rewrite Z.quot_div_nonneg by lia; apply Z.div_le_upper_bound; lia).
  pose proof (Z.mod_pos_bound random (d ÷ 3) H3) as Hm. split_and!; try lia.
  assert (HD : (if decide (cap < second * 2 ^ k) then cap else second * 2 ^ k) = d) by (unfold d, delay_of; fold k; case_decide; lia).
  assert (HK : (if decide (fails < 1) then 1 else fails) - 1 = k) by (unfold k; destruct (decide (fails < 1)); lia).
  unfold backoffWithJitter. cbv zeta. rewrite HK, Hs, HD.
  unfold Int63n. rewrite decide_True by lia. cbn. f_equal. destruct coin; apply int64_wrap_id; unfold in_int64; lia.
Qed.

(** The backoff between restarts lies within a third of its base, which doubles from one second
    with every failure up to the cap, as long as the shift does not overflow; from 56 failures on
    the shift gives zero and the random source panics. *)
Theorem backoffWithJitter_bounds random coin fails cap :
  3 ≤ cap ≤ 2 ^ 60 →
  (fails ≤ 34 → ∃ sleep, backoffWithJitter random coin fails cap = Ret sleep ∧ 3 * Z.abs (sleep - delay_of fails cap) < delay_of fails cap) ∧
  (56 ≤ fails → backoffWithJitter random coin fails cap = Panic).
Proof.
  intros Hc. split.
  - intros Hf. destruct (backoff_value random coin fails cap Hf Hc) as (E & Hd & Hm). rewrite E. eexists. split; [done|].
    assert (Hq : 3 * (delay_of fails cap ÷ 3) ≤ delay_of fails cap).
    { rewrite Z.quot_div_nonneg by lia. apply Z.mul_div_le. lia. }
    destruct coin; lia.
  - intros Hf. unfold backoffWithJitter. cbv zeta. rewrite (decide_False (P := fails < 1)) by lia.
    assert (HZ : int64_wrap (Z.shiftl second (fails - 1)) = 0).
    { rewrite Z.shiftl_mul_pow2 by lia. replace (fails - 1) with (55 + (fails - 56)) by lia. rewrite Z.pow_add_r by lia.
      unfold int64_wrap, second. replace (1000000000 * (2 ^ 55 * 2 ^ (fails - 56)) + 2 ^ 63) with (2 ^ 63 + (1953125 * 2 ^ (fails - 56)) * 2 ^ 64) by lia.
      rewrite Z.mod_add by lia. done. }
    rewrite HZ, decide_False by lia. done.
Qed.

(** ** Restarts *)

Lemma job_turn_cases j t st :
  0 ≤ consecFails st ≤ 4 →
  (∃ e, job_turn NewPool j t st = Ret (inr e)) ∨
  (∃ st' sleep, job_turn NewPool j t st = Ret (inl (st', sleep)) ∧ 0 ≤ consecFails st' ≤ 4 ∧ 2 * second ≤ 3 * sleep ≤ 32 * second).
Proof.
  intros Hs. unfold job_turn. destruct (t_done_head t); [left; by eexists|]. destruct (t_build t); [left; by eexists|].
  cbv zeta. destruct (t_done_check t); [left; by eexists|]. set (fails := if t_done_switch t then _ else _).
  assert (Hfl : 0 ≤ fails) by (unfold fails; destruct (t_done_switch t); [lia|destruct (exec_error _ _ _); lia]).
  set (st1 := if decide (restartResetAfter NewPool < _) then _ else _).
  assert (H1 : 0 ≤ consecFails st1) by (unfold st1; case_decide; cbn; lia).
  case_decide as D; [left; by eexists|]. cbn [maxConsecutiveRestarts NewPool] in D.
  destruct (backoff_value (t_random t) (t_coin t) (consecFails st1) (30 * second)) as (E & Hd & Hm); [lia|unfold second; lia|].
  rewrite E. cbn [mbind outcome_bind]. unfold mbind, outcome_bind. destruct (t_done_sleep t); [left; by eexists|].
  right. eexists _, _. split; [done|]. split; [lia|].
  assert (HD : second ≤ delay_of (consecFails st1) (30 * second) ≤ 8 * second).
  { unfold delay_of. assert (Hk : 0 ≤ Z.max 1 (consecFails st1) - 1 ≤ 3) by lia.
    assert (1 ≤ 2 ^ (Z.max 1 (consecFails st1) - 1) ≤ 2 ^ 3) by (by apply pow2_bounds).
    unfold second. lia. }
  assert (Hq : 3 * (delay_of (consecFails st1) (30 * second) ÷ 3) ≤ delay_of (consecFails st1) (30 * second)).
  { rewrite Z.quot_div_nonneg by lia. apply Z.mul_div_le. lia. }
  destruct (t_coin t); lia.
Qed.

(** C34. The goroutine of a job never panics, whatever happens in its turns, and between two runs it
    sleeps at least two thirds of a second and at most thirty-two thirds: the cap of thirty
    seconds is never reached. *)
Theorem launchJob_sleeps j ts st :
  0 ≤ consecFails st ≤ 4 →
  ∃ sleeps e, launchJob NewPool j ts st = Ret (sleeps, e) ∧ Forall (λ sleep, 2 * second ≤ 3 * sleep ≤ 32 * second) sleeps.
Proof.
  revert st. induction ts as [|t ts IH]; intros st Hs; cbn [launchJob]; [by eexists _, _|].
  destruct (job_turn_cases j t st Hs) as [[e E]|(st' & sleep & E & Hs' & Hb)]; rewrite E; unfold mbind, outcome_bind.
  - by eexists _, _.
  - destruct (IH st' Hs') as (sleeps & e & -> & HF). eexists _, _. split; [done|]. by constructor.
Qed.

(** The turns in which a run ends with an error, the context not being done. *)
Definition failing (j : job) (t : turn) : bool :=
  negb (t_done_switch t) && bool_decide (is_Some (exec_error j (t_start t) (t_done_exec t))).

Definition failures (j : job) (ts : list turn) : Z := zsum (λ t, if failing j t then 1 else 0) ts.

Lemma failures_nonneg j ts : 0 ≤ failures j ts.
Proof. unfold failures. induction ts as [|t ts IH]; cbn; [done|]. destruct (failing j t); lia. Qed.

Lemma job_turn_counts j t st r :
  job_turn NewPool j t st = Ret r →
  match r with
  | inl (st', _) => consecFails st' ≤ consecFails st + (if failing j t then 1 else 0) ∨ consecFails st' = 1
  | inr TooManyFailures => 5 ≤ consecFails st + (if failing j t then 1 else 0)
  | inr _ => True
  end.
Proof.
  unfold job_turn, failing. destruct (t_done_head t); [by intros [= <-]|]. destruct (t_build t); [by intros [= <-]|].
  cbv zeta. destruct (t_done_check t); [by intros [= <-]|]. cbn [maxConsecutiveRestarts NewPool].
  set (fails := if t_done_switch t then _ else _).
  assert (HF : fails = consecFails st + (if negb (t_done_switch t) && bool_decide (is_Some (exec_error j (t_start t) (t_done_exec t))) then 1 else 0)).
  { unfold fails. destruct (t_done_switch t), (exec_error j (t_start t) (t_done_exec t)); cbn; lia. }
  set (st1 := if decide (restartResetAfter NewPool < _) then _ else _).
  assert (H1 : consecFails st1 = fails ∨ consecFails st1 = 1) by (unfold st1; case_decide; cbn; auto).
  case_decide as D; [intros [= <-]; lia|].
  unfold mbind, outcome_bind. destruct (backoffWithJitter _ _ _ _) as [sleep|e|]; [|done..].
  destruct (t_done_sleep t); intros [= <-]; [done|]. lia.
Qed.

(** The pool gives up on a job, and with it shuts the operator down, only after runs that ended
    with an error: at least four of them.  A run that ends without an error while it should not is
    restarted but not counted, so a job that keeps doing so is restarted for ever, at most once a
    second or so. *)
Theorem shutdown_needs_failures j ts now :
  (∃ sleeps, launchJob NewPool j ts (mkJobState 0 now) = Ret (sleeps, Some TooManyFailures)) → 4 ≤ failures j ts.
Proof.
  assert (HG : ∀ st sleeps, launchJob NewPool j ts st = Ret (sleeps, Some TooManyFailures) → 5 ≤ Z.max 1 (consecFails st) + failures j ts).
  { induction ts as [|t ts IH]; intros st sleeps; cbn [launchJob]; [done|].
    destruct (job_turn NewPool j t st) as [r|e|] eqn:E; [|done..]. apply job_turn_counts in E. unfold mbind, outcome_bind.
    pose proof (failures_nonneg j ts) as Hn. unfold failures in *. cbn [zsum].
    destruct r as [[st' sleep]|e'].
    - destruct (launchJob NewPool j ts st') as [[sleeps' e']|e'|] eqn:EL; [|done..]. intros [= _ ->].
      specialize (IH _ _ EL). destruct (failing j t); lia.
    - intros [= _ ->]. destruct (failing j t); lia. }
  intros [sleeps HR]. specialize (HG _ _ HR). cbn in HG. lia.
Qed.

(** ** Namespaces and leases *)

Lemma fold_namespaces (l : list string) (acc : gset string) x :
  x ∈ foldl (λ nsMap ns, let ns := TrimSpace ns in if decide (ns = "") then nsMap else {[ns]} ∪ nsMap) acc l ↔
  x ∈ acc ∨ (x ≠ "" ∧ ∃ piece, piece ∈ l ∧ x = TrimSpace piece).
Proof.
  revert acc. induction l as [|ns l IH]; intros acc; cbn; [set_solver|]. rewrite IH. case_decide as D.
  - split; [set_solver|]. intros [?|(Hx & piece & [->|Hp]%elem_of_cons & ->)]; [by left|done|right; eauto].
  - rewrite elem_of_union, elem_of_singleton. split; [intros [[->|?]|(Hx & piece & Hp & ->)]|intros [?|(Hx & piece & [->|Hp]%elem_of_cons & ->)]];
      [right; set_solver|by left|right; set_solver|by left; right|by left; left|right; eauto].
Qed.

(** A manager watches the trimmed, not blank entries of the list it is given and always its own
    namespace: whatever the list, also an empty one, it never watches all namespaces. *)
Theorem watched_namespaces namespace own :
  TrimSpace own ≠ "" →
  ∃ watched, configureManagerNamespaces namespace own = Some watched ∧ TrimSpace own ∈ watched ∧
    ∀ x, x ∈ watched ↔ x ≠ "" ∧ ∃ piece, (piece ∈ Split namespace "," ∨ piece = own) ∧ x = TrimSpace piece.
Proof.
  intros Hown. unfold configureManagerNamespaces. cbv zeta. set (l := if Contains own _ then _ else _).
  assert (Hl : ∀ piece, piece ∈ l ↔ piece ∈ Split namespace "," ∨ piece = own).
  { intros piece. unfold l. destruct (Contains own (Split namespace ",")) eqn:E; [apply Contains_spec in E; set_solver|set_solver]. }
  match goal with |- context [decide (?s = ∅)] => set (watched := s) end.
  assert (HW : ∀ x, x ∈ watched ↔ x ≠ "" ∧ ∃ piece, (piece ∈ Split namespace "," ∨ piece = own) ∧ x = TrimSpace piece).
  { intros x. unfold watched. rewrite fold_namespaces. setoid_rewrite Hl. set_solver. }
  assert (HO : TrimSpace own ∈ watched) by (apply HW; eauto).
  exists watched. case_decide; [set_solver|done].
Qed.

(** The version and the kind a controller watches, and its group. *)
Definition watched_kind (c : controller) : string * string * string :=
  match c with
  | KafkaController g => (g, "v1", "Kafka")
  | KafkaServiceController g => (g, "v7", "KafkaService")
  | AkhqConfigController _ g => (g, "v1", "AkhqConfig")
  | KmmConfigController g => (g, "v1", "KmmConfig")
  | KafkaUserController r => (KafkaUsers.ApiGroup r, "v1", "KafkaUser")
  end.

(** The scheme of a manager knows the resources its controller watches, for the API group the job
    was started for, whichever that is.  In another group than the main one KafkaService has the
    version 7 instead of v7, but no controller watches it there. *)
Theorem managers_know_their_kind env opts j apiGroup mgr :
  manager_of env j opts apiGroup = Ret mgr →
  watched_kind (mg_Controller mgr) ∈ mg_Scheme mgr ∧ (watched_kind (mg_Controller mgr)).1.1 = apiGroup.
Proof.
  assert (HS : ∀ kind, kind ∈ v1_kinds → (apiGroup, "v1", kind) ∈ runScheme env apiGroup).
  { intros kind Hk. unfold runScheme, scheme, duplicateScheme, register, GroupVersion. case_decide as D; apply elem_of_app; left;
      apply list_elem_of_fmap; exists kind; (split; [|done]); [by rewrite <- D|done]. }
  destruct j; cbn [manager_of].
  - unfold kafka_manager. case_decide as D; [|done]. intros [= <-]. cbn [mg_Scheme mg_Controller].
    subst apiGroup. case_decide; (split; [cbn; set_solver|done]).
  - unfold akhq_manager. destruct (WatchAkhqCollectNamespace opts); [|done]. intros [= <-]. split; [apply HS; cbn; set_solver|done].
  - unfold kmm_manager. destruct (getWatchNamespace env); [|done..]. intros [= <-]. split; [apply HS; cbn; set_solver|done].
  - unfold user_manager. destruct (WatchKafkaUsersCollectNamespace opts); [|done]. intros [= <-]. split; [apply HS; cbn; set_solver|done].
Qed.

(** The managers a job has for two API groups have different leases, so both can lead, except
    those of AKHQ: their lease has the main API group in its name for both, so only one of them
    can lead.  Both are started when there is a secondary API group. *)
Theorem akhq_managers_share_lease env opts j g1 g2 m1 m2 :
  (manager_of env j opts g1 = Ret m1 → manager_of env j opts g2 = Ret m2 → g1 ≠ g2 →
   (mg_LeaderElectionID m1 = mg_LeaderElectionID m2 ↔ j = AkhqJob)) ∧
  (Mode opts = KafkaServiceMode → is_Some (WatchAkhqCollectNamespace opts) → SecondaryApiGroup opts ≠ "" →
   (AkhqJob, cfg_ApiGroup opts) ∈ Start NewPool opts ∧ (AkhqJob, SecondaryApiGroup opts) ∈ Start NewPool opts).
Proof.
  split.
  - intros E1 E2 Hg. destruct j; cbn in E1, E2.
    + unfold kafka_manager in *. repeat case_decide; simplify_eq.
    + unfold akhq_manager in *. destruct (WatchAkhqCollectNamespace opts); [|done]. by simplify_eq.
    + unfold kmm_manager in *. destruct (getWatchNamespace env); [|done..]. unfold mbind, outcome_bind in E1, E2. injection E1 as <-. injection E2 as <-. cbn [mg_LeaderElectionID]. split; [|done]. intros E. by do 3 apply app_inj_l in E.
    + unfold user_manager in *. destruct (WatchKafkaUsersCollectNamespace opts); [|done]. injection E1 as <-. injection E2 as <-. cbn [mg_LeaderElectionID]. split; [|done]. intros E. by do 3 apply app_inj_l in E.
  - intros HM HA HS. unfold Start, NewPool. cbn [jbs].
    assert (HE : Enabled AkhqJob opts = (true, true)) by (cbn; unfold akhq_Enabled; by rewrite !bool_decide_eq_true_2).
    split; apply list_elem_of_bind; exists AkhqJob; rewrite HE, (bool_decide_eq_false_2 (SecondaryApiGroup opts = "")) by done; cbn; set_solver.
Qed.

(** ** Witnesses *)

Definition failing_turn (start : option gerror) : turn := mkTurn false None start false false false 0 7 true false.

Lemma launchJob_sleeps_witness :
  ∃ sleeps e, launchJob NewPool KmmJob [failing_turn None; failing_turn (Some (errorf "lost"))] (mkJobState 0 0) = Ret (sleeps, e) ∧
    Forall (λ sleep, 2 * second ≤ 3 * sleep ≤ 32 * second) sleeps.
Proof. apply (launchJob_sleeps KmmJob [failing_turn None; failing_turn (Some (errorf "lost"))] (mkJobState 0 0)). cbn. lia. Defined.

Lemma shutdown_needs_failures_witness : 4 ≤ failures KmmJob (repeat (failing_turn (Some (errorf "lost"))) 5).
Proof. apply (shutdown_needs_failures KmmJob (repeat (failing_turn (Some (errorf "lost"))) 5) 0). eexists. vm_compute. reflexivity. Defined.

Lemma watched_namespaces_witness :
  ∃ watched, configureManagerNamespaces "" "kafka" = Some watched ∧ TrimSpace "kafka" ∈ watched ∧
    ∀ x, x ∈ watched ↔ x ≠ "" ∧ ∃ piece, (piece ∈ Split "" "," ∨ piece = "kafka") ∧ x = TrimSpace piece.
Proof. apply (watched_namespaces "" "kafka"). vm_compute. discriminate. Defined.

Definition example_cfg : Cfg :=
  mkCfg ":8082" ":8081" true "kafkaservice" "netcracker.com" "qubership.org" true (Some "") (Some "team") false 60 "kafka:9092" "" "" false "" "kafka".

Lemma akhq_managers_share_lease_witness :
  ∃ m1 m2, manager_of (mkEnvironment None None) AkhqJob example_cfg "netcracker.com" = Ret m1 ∧
    manager_of (mkEnvironment None None) AkhqJob example_cfg "qubership.org" = Ret m2 ∧
    mg_LeaderElectionID m1 = mg_LeaderElectionID m2 ∧
    (AkhqJob, "qubership.org") ∈ Start NewPool example_cfg.
Proof.
  eexists _, _. split; [reflexivity|]. split; [reflexivity|].
  match goal with |- mg_LeaderElectionID ?m1 = mg_LeaderElectionID ?m2 ∧ _ =>
    destruct (akhq_managers_share_lease (mkEnvironment None None) example_cfg AkhqJob "netcracker.com" "qubership.org" m1 m2) as [H1 H2] end.
  split.
  - apply H1; [reflexivity..|discriminate|reflexivity].
  - apply H2; [reflexivity|by eexists|discriminate].
Defined.
