(* ===== verification/Shutdown.v ===== *)
(** * The process: main, the goroutines of the jobs, and how it ends

    Sources: operator/main.go, operator/workers/pool.go (Start, Wait, launchJob).  Pool.v follows
    one goroutine through its turns, the answers of its context being given from the outside.
    Here the goroutines of all jobs, the goroutine that waits for them and main run side by side:
    the context is one flag they share, set by a signal or by a goroutine that calls stop, and
    every point at which a goroutine looks at it, blocks, stops the pool or returns is a step of its
    own.  [sys_step] says what each step does, a run is any sequence of steps, and what a goroutine
    is seen to do in a run is shown to be turns of [launchJob].

    The code a job runs, its Build, its manager and the goroutines these start, is not recovered: a
    panic of it ends the process, at any time. *)

From stdpp Require Import relations.
From S2P Require Import Prelude Util Pool.

(** ** One goroutine *)

(** Where the goroutine of a job stands: at the check at the head of its loop, building the
    manager, running it, with what the run returned, with the failure counted, after the second
    check, waiting for the timer, after it called stop, or returned. *)
Inductive phase :=
  | Head (st : job_state)
  | Building (st : job_state)
  | Running (st : job_state)
  | Ran (st : job_state) (runErr : option gerror)
  | Counted (st : job_state)
  | Checked (st : job_state)
  | Resting (st : job_state) (sleep : Z)
  | Stopping
  | Gone (e : exit).

(** What lets a goroutine go on.  [Panicked]: Build or the manager panics. *)
Inductive event :=
  | Look
  | Panicked
  | NoClusterConfig
  | Built (err : option gerror)
  | Returned (start_error : option gerror)
  | Decide (now random : Z) (coin : bool)
  | Timer.

(** The goroutine goes on, goes on after it called stop, panics, or ends the process
    (controller-runtime's GetConfigOrDie). *)
Inductive stepped := Goes (ph : phase) | Stops (ph : phase) | Panics | Dies.

(** The counters after a run, the failure counted unless the context is done. *)
Definition counted (done : bool) (runErr : option gerror) (st : job_state) : job_state :=
  match done, runErr with
  | false, Some _ => mkJobState (consecFails st + 1) (lastFail st)
  | _, _ => st
  end.

Definition phase_step (wrk : Pool) (j : job) (done : bool) (ev : event) (ph : phase) : option stepped :=
  match ph, ev with
  | Head st, Look => Some (Goes (if done then Gone ShuttingDown else Building st))
  | Building _, Panicked | Running _, Panicked => Some Panics
  | Building _, NoClusterConfig => Some Dies
  | Building _, Built (Some err) => Some (Goes (Gone (BuildFailed err)))
  | Building st, Built None => Some (Goes (Running st))
  | Running st, Returned start_error => Some (Goes (Ran st (exec_error j start_error done)))
  | Ran st runErr, Look => Some (Goes (Counted (counted done runErr st)))
  | Counted st, Look => Some (Goes (if done then Gone ShuttingDown else Checked st))
  | Checked st, Decide now random coin =>
      let st := if decide (restartResetAfter wrk < now - lastFail st) then mkJobState 1 now else st in
      if decide (maxConsecutiveRestarts wrk ≤ consecFails st) then Some (Stops Stopping)
      else
        match backoffWithJitter random coin (consecFails st) (30 * second) with
        | Ret sleep => Some (Goes (Resting st sleep))
        | _ => Some Panics
        end
  | Resting st _, Timer => Some (Goes (Head st))
  | Resting _ _, Look => if done then Some (Goes (Gone ShuttingDown)) else None
  | Stopping, Look => Some (Goes (Gone TooManyFailures))
  | _, _ => None
  end.

(** ** The process *)

Record worker := mkWorker { w_job : job; w_group : string; w_phase : phase }.

(** Main launches the goroutines one by one ([Start]), then waits for the context or the other
    goroutines, then for the other goroutines.  A signal ends the process at once when nobody
    is notified of it any more. *)
Inductive main_phase := Launching (rest : list (job * string)) | Selecting | Receiving | Exited | Killed | Crashed.

(** The context, whether a signal came and whether the context is still notified of signals, the
    goroutines of the jobs, whether the channel [done] is closed, and main. *)
Record system := mkSystem {
  s_done : bool;
  s_signalled : bool;
  s_notified : bool;
  s_workers : list worker;
  s_waited : bool;
  s_main : main_phase;
}.

(** [Stray i]: a goroutine started by the code of the [i]-th job panics; it may have outlived the
    manager it was started by. *)
Inductive label :=
  | Signal
  | Stray (i : nat)
  | Launch (now : Z)
  | Launched
  | Worker (i : nat) (ev : event)
  | WaitReturns
  | CtxBranch
  | DoneBranch
  | ReceiveDone.

Definition gone (w : worker) : bool := match w_phase w with Gone _ => true | _ => false end.

Definition alive (m : main_phase) : bool := match m with Exited | Killed | Crashed => false | _ => true end.
Definition launching (m : main_phase) : bool := match m with Launching _ => true | _ => false end.

Definition set_main (m : main_phase) (s : system) : system :=
  mkSystem (s_done s) (s_signalled s) (s_notified s) (s_workers s) (s_waited s) m.

(** A signal is passed to the context once; a second one is swallowed as long as the context is
    notified, and ends the process after [stop]. *)
Definition signal (s : system) : option system :=
  if s_notified s then
    if s_done s then None else Some (mkSystem true true true (s_workers s) (s_waited s) (s_main s))
  else Some (set_main Killed s).

Definition worker_step (wrk : Pool) (i : nat) (ev : event) (s : system) : option system :=
  w ← s_workers s !! i;
  r ← phase_step wrk (w_job w) (s_done s) ev (w_phase w);
  let moved ph := <[i := mkWorker (w_job w) (w_group w) ph]> (s_workers s) in
  match r with
  | Goes ph => Some (mkSystem (s_done s) (s_signalled s) (s_notified s) (moved ph) (s_waited s) (s_main s))
  | Stops ph => Some (mkSystem true (s_signalled s) false (moved ph) (s_waited s) (s_main s))
  | Panics => Some (set_main Crashed s)
  | Dies => Some (set_main Killed s)
  end.

(** [wg.Wait] returns and the channel is closed. *)
Definition Wait (s : system) : option system :=
  if negb (launching (s_main s)) && forallb gone (s_workers s) && negb (s_waited s)
  then Some (mkSystem (s_done s) (s_signalled s) (s_notified s) (s_workers s) true (s_main s)) else None.

Definition sys_step (wrk : Pool) (s : system) (l : label) : option system :=
  if negb (alive (s_main s)) then None
  else
    match l, s_main s with
    | Signal, _ => signal s
    | Worker i ev, _ => worker_step wrk i ev s
    | Stray i, _ => _ ← s_workers s !! i; Some (set_main Crashed s)
    | WaitReturns, _ => Wait s
    | Launch now, Launching ((j, apiGroup) :: rest) =>
        Some (mkSystem (s_done s) (s_signalled s) (s_notified s)
                (s_workers s ++ [mkWorker j apiGroup (Head (mkJobState 0 now))]) (s_waited s) (Launching rest))
    | Launched, Launching [] => Some (set_main Selecting s)
    | CtxBranch, Selecting => if s_done s then Some (set_main Receiving s) else None
    | DoneBranch, Selecting => if s_waited s then Some (set_main Receiving s) else None
    | ReceiveDone, Receiving => if s_waited s then Some (set_main Exited s) else None
    | _, _ => None
    end.

Definition main (opts : Cfg) : system := mkSystem false false true [] false (Launching (Start NewPool opts)).

Definition sstep (s s' : system) : Prop := ∃ l, sys_step NewPool s l = Some s'.
Definition reachable (opts : Cfg) (s : system) : Prop := rtc sstep (main opts) s.

(** A scheduled run. *)
Fixpoint run (s : system) (ls : list label) : option system :=
  match ls with [] => Some s | l :: ls => s' ← sys_step NewPool s l; run s' ls end.

Lemma run_steps s ls s' : run s ls = Some s' → rtc sstep s s'.
Proof.
  revert s. induction ls as [|l ls IH]; intros s; cbn; [intros [= ->]; constructor|].
  destruct (sys_step NewPool s l) as [s1|] eqn:E; [|done]. intros HR%IH. econstructor; [by exists l|done].
Qed.

(** The code of a job panics. *)
Definition panicking (l : label) : Prop := match l with Worker _ Panicked | Stray _ => True | _ => False end.

(** ** What a goroutine is seen to do *)

(** The steps of the [i]-th goroutine in a run, each with what the context said at that moment. *)
Fixpoint seen (i : nat) (s : system) (ls : list label) : list (bool * event) :=
  match ls with
  | [] => []
  | l :: ls =>
      (match l with Worker k ev => if decide (k = i) then [(s_done s, ev)] else [] | _ => [] end) ++
      match sys_step NewPool s l with Some s1 => seen i s1 ls | None => [] end
  end.

(** When the goroutines of a run were launched. *)
Definition launches (ls : list label) : list Z := omap (λ l, match l with Launch now => Some now | _ => None end) ls.

(** The turn in which the context is first found done at the second check or while resting. *)
Definition turn_of (start : option gerror) (d1 d2 : bool) (now random : Z) (coin sleep_done : bool) : turn :=
  mkTurn false None start d1 d2 false now random coin sleep_done.

(** How far a goroutine is in the turn it is in, by what was seen of it. *)
Inductive part :=
  | AtHead
  | AtBuild
  | AtRun
  | AtCount (start : option gerror) (d1 : bool)
  | AtCheck (start : option gerror) (d1 d2 : bool)
  | AtDecision (start : option gerror) (d1 d2 : bool)
  | AtRest (start : option gerror) (d1 d2 : bool) (now random : Z) (coin : bool)
  | AtEnd.

(** The turns that are over, and the current one. *)
Definition read_step (p : list turn * part) (seen : bool * event) : list turn * part :=
  let '(ts, at_) := p in
  let '(done, ev) := seen in
  match at_, ev with
  | AtHead, Look => if done then (ts ++ [mkTurn true None None false false false 0 0 false false], AtEnd) else (ts, AtBuild)
  | AtBuild, Built (Some err) => (ts ++ [mkTurn false (Some err) None false false false 0 0 false false], AtEnd)
  | AtBuild, Built None => (ts, AtRun)
  | AtRun, Returned start => (ts, AtCount start done)
  | AtCount start d1, Look => (ts, AtCheck start d1 done)
  | AtCheck start d1 d2, Look =>
      if done then (ts ++ [mkTurn false None start d1 d2 true 0 0 false false], AtEnd) else (ts, AtDecision start d1 d2)
  | AtDecision start d1 d2, Decide now random coin => (ts, AtRest start d1 d2 now random coin)
  | AtRest start d1 d2 now random coin, Timer => (ts ++ [turn_of start d1 d2 now random coin false], AtHead)
  | AtRest start d1 d2 now random coin, Look => (ts ++ [turn_of start d1 d2 now random coin done], AtEnd)
  | _, _ => p
  end.

Definition read (es : list (bool * event)) : list turn * part := foldl read_step ([], AtHead) es.

(** The turns of [launchJob] that were seen. *)
Definition turns_of (es : list (bool * event)) : list turn := (read es).1.

Lemma rtc_run s s' : rtc sstep s s' → ∃ ls, run s ls = Some s'.
Proof. induction 1 as [s|s s1 s' [l E] _ [ls IH]]; [by exists []|]. exists (l :: ls). cbn. by rewrite E. Qed.

(** ** The steps of a goroutine are the turns of [launchJob] *)

(** The turns a goroutine started at [now] has behind it, its sleeps and its counters. *)
Inductive turned (j : job) (now : Z) : list turn → list Z → job_state → Prop :=
  | turned_start : turned j now [] [] (mkJobState 0 now)
  | turned_turn ts sleeps st t st' sleep :
      turned j now ts sleeps st → job_turn NewPool j t st = Ret (inl (st', sleep)) →
      turned j now (ts ++ [t]) (sleeps ++ [sleep]) st'.

Lemma turned_launchJob j now ts sleeps st us :
  turned j now ts sleeps st →
  launchJob NewPool j (ts ++ us) (mkJobState 0 now) =
    ('(sleeps', e) ← launchJob NewPool j us st; Ret (sleeps ++ sleeps', e)).
Proof.
  intros HT. revert us. induction HT as [|ts sleeps st t st' sleep HT IH Ht]; intros us; cbn [app].
  - unfold mbind, outcome_bind. by destruct (launchJob NewPool j us _) as [[]| |].
  - rewrite <- (assoc_L (++)), IH. cbn [app launchJob]. rewrite Ht. unfold mbind, outcome_bind.
    destruct (launchJob NewPool j us st') as [[]| |]; [|done..]. by rewrite <- (assoc_L (++)).
Qed.

Lemma turned_bounds j now ts sleeps st : turned j now ts sleeps st → 0 ≤ consecFails st ≤ 4.
Proof.
  induction 1 as [|ts sleeps st t st' sleep HT IH Ht]; [cbn; lia|].
  destruct (job_turn_cases j t st IH) as [[e E]|(st1 & sleep1 & E & Hb & _)]; congruence.
Qed.

(** A phase, explained by what was seen of the current turn. *)
Definition in_turn (j : job) (st0 : job_state) (at_ : part) (ph : phase) : Prop :=
  match at_, ph with
  | AtHead, Head st | AtBuild, Building st | AtRun, Running st => st = st0
  | AtCount start d1, Ran st runErr => st = st0 ∧ runErr = exec_error j start d1
  | AtCheck start d1 d2, Counted st | AtDecision start d1 d2, Checked st => st = counted d2 (exec_error j start d1) st0
  | AtRest start d1 d2 now random coin, Resting st sleep =>
      job_turn NewPool j (turn_of start d1 d2 now random coin false) st0 = Ret (inl (st, sleep))
  | AtRest start d1 d2 now random coin, Stopping =>
      ∀ sleep_done, job_turn NewPool j (turn_of start d1 d2 now random coin sleep_done) st0 = Ret (inr TooManyFailures)
  | _, _ => False
  end.

(** What was seen of a goroutine agrees with where it stands. *)
Definition agrees (j : job) (now : Z) (p : list turn * part) (ph : phase) : Prop :=
  match ph with
  | Gone e => ∃ sleeps, launchJob NewPool j p.1 (mkJobState 0 now) = Ret (sleeps, Some e)
  | _ => ∃ sleeps st0, turned j now p.1 sleeps st0 ∧ in_turn j st0 p.2 ph
  end.

Definition explained (w : worker) : Prop := ∃ now es, agrees (w_job w) now (read es) (w_phase w).

(** The outcome of a turn from the second check on. *)
Lemma job_turn_of j start d1 d2 now random coin sd st0 :
  job_turn NewPool j (turn_of start d1 d2 now random coin sd) st0 =
    let st := counted d2 (exec_error j start d1) st0 in
    let st := if decide (restartResetAfter NewPool < now - lastFail st) then mkJobState 1 now else st in
    if decide (maxConsecutiveRestarts NewPool ≤ consecFails st) then Ret (inr TooManyFailures)
    else sleep ← backoffWithJitter random coin (consecFails st) (30 * second);
         if sd then Ret (inr ShuttingDown) else Ret (inl (st, sleep)).
Proof. unfold job_turn, turn_of, counted. cbn. by destruct d2, (exec_error j start d1), st0. Qed.

(** The counter stays where the backoff is defined. *)
Lemma checked_backoff st (now random : Z) coin :
  0 ≤ consecFails st ≤ 5 →
  let st := if decide (restartResetAfter NewPool < now - lastFail st) then mkJobState 1 now else st in
  consecFails st < maxConsecutiveRestarts NewPool →
  ∃ sleep, backoffWithJitter random coin (consecFails st) (30 * second) = Ret sleep.
Proof.
  intros Hb st1 Hlt. cbn [maxConsecutiveRestarts NewPool] in Hlt.
  destruct (backoff_value random coin (consecFails st1) (30 * second)) as [E _]; [lia|unfold second; lia|]. by eexists.
Qed.

Lemma counted_bounds d e st : 0 ≤ consecFails st ≤ 4 → 0 ≤ consecFails (counted d e st) ≤ 5.
Proof. unfold counted. destruct d, e; cbn; lia. Qed.

(** A goroutine that called stop, or returned after it did. *)
Definition quits (ph : phase) : Prop := ph = Stopping ∨ ph = Gone TooManyFailures.

Lemma launch_last j now ts sleeps st t e :
  turned j now ts sleeps st → job_turn NewPool j t st = Ret (inr e) →
  ∃ sleeps', launchJob NewPool j (ts ++ [t]) (mkJobState 0 now) = Ret (sleeps', Some e).
Proof. intros HT Ht. exists (sleeps ++ []). rewrite (turned_launchJob _ _ _ _ _ _ HT). cbn [launchJob]. by rewrite Ht. Qed.

(** A step of a goroutine is what is seen of it: it does not panic by itself, calls stop only to
    give up, gives up because it is shut down only when the context is done, and goes on
    following the turns. *)
Definition step_sound (j : job) (now : Z) (p : list turn * part) (done : bool) (ev : event) (ph : phase) (r : stepped) : Prop :=
  match r with
  | Goes ph' => agrees j now (read_step p (done, ev)) ph' ∧ (ph' = Gone ShuttingDown → done = true) ∧ (quits ph' ↔ ph = Stopping)
  | Stops ph' => agrees j now (read_step p (done, ev)) ph' ∧ ph' = Stopping
  | Panics => ev = Panicked
  | Dies => ev = NoClusterConfig
  end.

#[local] Arguments turn_of : simpl never.
#[local] Arguments job_turn : simpl never.

Ltac moved := split_and!; [|by intros ?|by split; [intros [?|?]|]].

Lemma decision_sound j now ts sleeps st0 start d1 d2 done now0 random coin r :
  turned j now ts sleeps st0 →
  phase_step NewPool j done (Decide now0 random coin) (Checked (counted d2 (exec_error j start d1) st0)) = Some r →
  step_sound j now (ts, AtDecision start d1 d2) done (Decide now0 random coin) (Checked (counted d2 (exec_error j start d1) st0)) r.
Proof.
  intros HT E. pose proof (turned_bounds _ _ _ _ _ HT) as Hb. cbn [phase_step] in E.
  assert (Ht := λ sd, job_turn_of j start d1 d2 now0 random coin sd st0). cbv zeta in Ht, E.
  pose proof (checked_backoff _ now0 random coin (counted_bounds d2 (exec_error j start d1) st0 Hb)) as HB. cbv zeta in HB.
  set (st1 := if decide (restartResetAfter NewPool < _) then _ else _) in E, Ht, HB.
  destruct (decide (maxConsecutiveRestarts NewPool ≤ consecFails st1)) as [D|D].
  - injection E as <-. cbn. split; [|done]. by exists sleeps, st0.
  - destruct HB as [sleep HB]; [lia|]. rewrite HB in E. injection E as <-. moved. cbn. exists sleeps, st0. split; [done|]. rewrite Ht, HB. done.
Qed.

Lemma phase_step_sound j now p done ev ph r :
  agrees j now p ph → phase_step NewPool j done ev ph = Some r → step_sound j now p done ev ph r.
Proof.
  destruct p as [ts at_]. intros HA E. destruct ph as [st|st|st|st runErr|st|st|st sleep| |e]; [..|by destruct ev];
    destruct HA as (sleeps & st0 & HT & HP); cbn [fst snd] in HT; destruct at_; cbn [in_turn fst snd] in HP; try done;
    destruct ev; try discriminate E; try by (injection E as <-).
  - injection E as <-. subst st0. destruct done; moved; cbn; [by eapply launch_last|by exists sleeps, st].
  - destruct err as [err|]; injection E as <-; subst st0; moved; cbn; [by eapply launch_last|by exists sleeps, st].
  - injection E as <-. subst st0. moved. cbn. by exists sleeps, st.
  - injection E as <-. destruct HP as [-> ->]. moved. cbn. by exists sleeps, st0.
  - injection E as <-. subst st. destruct done; moved; cbn; [|by exists sleeps, st0]. eapply launch_last; [done|].
    unfold job_turn, counted. cbn. by destruct d2, (exec_error j start d1).
  - subst st. by apply decision_sound with sleeps.
  - cbn [phase_step] in E. destruct done; [|done]. injection E as <-. moved. cbn. eapply launch_last; [done|].
    rewrite job_turn_of in HP |- *. cbv zeta in HP |- *. case_decide; [done|]. unfold mbind, outcome_bind in *. by destruct (backoffWithJitter _ _ _ _).
  - injection E as <-. moved. cbn. exists (sleeps ++ [sleep]), st. split; [by econstructor|done].
  - injection E as <-. split_and!; [|done|by split; [|right]]. cbn. by eapply launch_last.
Qed.

(** ** The invariant of the process *)

Definition kind (w : worker) : job * string := (w_job w, w_group w).

Definition gave_up (w : worker) : Prop := quits (w_phase w).

Definition cause (s : system) : Prop := s_signalled s = true ∨ Exists gave_up (s_workers s).

Record consistent (opts : Cfg) (s : system) : Prop := {
  c_jobs : match s_main s with
           | Launching rest => map kind (s_workers s) ++ rest = Start NewPool opts
           | Selecting | Receiving | Exited => map kind (s_workers s) = Start NewPool opts
           | Killed | Crashed => length (s_workers s) ≤ length (Start NewPool opts)
           end%nat;
  c_workers : Forall explained (s_workers s);
  c_waited : s_waited s = true → launching (s_main s) = false ∧ Forall (λ w, gone w = true) (s_workers s);
  c_main : s_main s = Exited → s_waited s = true;
  c_done : s_done s = true → cause s;
  c_stopped : s_notified s = false → s_done s = true ∧ Exists gave_up (s_workers s);
  c_shut : Forall (λ w, w_phase w = Gone ShuttingDown ∨ gave_up w → s_done s = true) (s_workers s);
}.

Lemma consistent_main opts : consistent opts (main opts).
Proof. by split; cbn. Qed.

(** Main moves on, or the process is ended from outside. *)
Lemma consistent_set_main opts s m :
  consistent opts s → (m = Exited → s_waited s = true) → launching m = false →
  (m = Killed ∨ m = Crashed ∨ (launching (s_main s) = true → s_main s = Launching []) ∧ alive (s_main s) = true) →
  consistent opts (set_main m s).
Proof.
  intros [] Hx Hl Hm. split; cbn; try done; [|naive_solver].
  assert (HL : (length (s_workers s) ≤ length (Start NewPool opts))%nat).
  { destruct (s_main s); cbn in *; try done; rewrite <- c_jobs0; rewrite ?length_app, ?length_map; lia. }
  destruct m; try done; destruct Hm as [|[|[H1 H2]]]; try done; destruct (s_main s) as [rest| | | | |]; cbn in *; try done;
    injection (H1 eq_refl) as ->; by rewrite app_nil_r in c_jobs0.
Qed.

Lemma map_kind_insert ws i w ph :
  ws !! i = Some w → map kind (<[i := mkWorker (w_job w) (w_group w) ph]> ws) = map kind ws.
Proof. intros Hi. rewrite list_fmap_insert. apply list_insert_id. by rewrite list_lookup_fmap, Hi. Qed.

Lemma Exists_insert_mono {A} (P : A → Prop) l i x y : l !! i = Some x → (P x → P y) → Exists P l → Exists P (<[i := y]> l).
Proof.
  rewrite !Exists_exists. intros Hi Hx (z & [k Hk]%list_elem_of_lookup & HP). destruct (decide (k = i)) as [->|Hn].
  - exists y. split; [|apply Hx; congruence]. apply list_elem_of_lookup. exists i. apply list_lookup_insert_eq. by eapply lookup_lt_Some.
  - exists z. split; [|done]. apply list_elem_of_lookup. exists k. by rewrite list_lookup_insert_ne.
Qed.

(** A goroutine that takes a step is not gone. *)
Lemma phase_step_gone wrk j done ev w r : phase_step wrk j done ev (w_phase w) = Some r → gone w = false.
Proof. unfold gone. destruct (w_phase w); [done..|]. by destruct ev. Qed.

(** A goroutine moves to [ph], the context staying as it is or being done. *)
Lemma consistent_moved opts s i w ph dn nt :
  consistent opts s → s_workers s !! i = Some w → gone w = false →
  explained (mkWorker (w_job w) (w_group w) ph) → (gave_up w → quits ph) →
  (s_done s = true → dn = true) → (ph = Gone ShuttingDown ∨ quits ph → dn = true) →
  (quits ph ∧ dn = true ∨ dn = s_done s ∧ nt = s_notified s) →
  consistent opts (mkSystem dn (s_signalled s) nt (<[i := mkWorker (w_job w) (w_group w) ph]> (s_workers s)) (s_waited s) (s_main s)).
Proof.
  intros [] Hi Hg He Hw Hd Hs Hc.
  assert (HE : Exists gave_up (s_workers s) → Exists gave_up (<[i := mkWorker (w_job w) (w_group w) ph]> (s_workers s))).
  { apply Exists_insert_mono with w; [done|exact Hw]. }
  assert (HN : quits ph → Exists gave_up (<[i := mkWorker (w_job w) (w_group w) ph]> (s_workers s))).
  { intros Hq. apply Exists_exists. eexists. split; [apply list_elem_of_lookup; exists i; apply list_lookup_insert_eq; by eapply lookup_lt_Some|exact Hq]. }
  split; cbn.
  - rewrite (map_kind_insert _ _ _ ph Hi), length_insert. done.
  - by apply Forall_insert.
  - intros HW. destruct (c_waited0 HW) as [Hl HF]. rewrite (Forall_lookup_1 _ _ _ _ HF Hi) in Hg. done.
  - done.
  - intros HD. destruct Hc as [[HG _]|[HD' _]]; [right; auto|]. destruct c_done0 as [|]; [congruence|by left|right; auto].
  - intros HD. destruct Hc as [[HG HD']|[HD' HT]]; [by auto|]. rewrite HT in HD. destruct (c_stopped0 HD) as [H1 H2]. auto.
  - apply Forall_insert; [|exact Hs]. eapply Forall_impl; [exact c_shut0|]. cbn. auto.
Qed.

Lemma explained_step w done ev ph :
  explained w → (∀ now p, agrees (w_job w) now p (w_phase w) → agrees (w_job w) now (read_step p (done, ev)) ph) →
  explained (mkWorker (w_job w) (w_group w) ph).
Proof. intros (now & es & HA) Hs. exists now, (es ++ [(done, ev)]). cbn. unfold read. rewrite foldl_app. by apply Hs. Qed.

Lemma consistent_worker opts s i ev s' :
  consistent opts s → alive (s_main s) = true → worker_step NewPool i ev s = Some s' → consistent opts s'.
Proof.
  intros HC Ha. unfold worker_step. destruct (s_workers s !! i) as [w|] eqn:Hi; [|done]. cbn.
  destruct (phase_step NewPool (w_job w) (s_done s) ev (w_phase w)) as [r|] eqn:E; [|done]. cbn.
  pose proof (Forall_lookup_1 _ _ _ _ (c_workers _ _ HC) Hi) as Hw. pose proof (Forall_lookup_1 _ _ _ _ (c_shut _ _ HC) Hi) as Hq.
  pose proof (phase_step_gone _ _ _ _ _ _ E) as Hg. pose proof (λ now p HA, phase_step_sound (w_job w) now p _ _ _ _ HA E) as HS.
  destruct Hw as (now & es & HA). pose proof (HS _ _ HA) as H1.
  assert (HX : ∀ ph, (r = Goes ph ∨ r = Stops ph) → explained (mkWorker (w_job w) (w_group w) ph)).
  { intros ph Hr. apply (explained_step w (s_done s) ev); [by exists now, es|]. intros now' p HA'. specialize (HS _ _ HA').
    destruct Hr as [-> | ->]; apply HS. }
  destruct r as [ph|ph| |]; intros [= <-].
  - destruct H1 as (_ & Hd & Hn). apply consistent_moved; eauto.
    + intros [Hs|Hs]; [by apply Hn|]. unfold gone in Hg. by rewrite Hs in Hg.
    + intros [|Hs%Hn]; [by auto|]. apply Hq. right. by left.
  - destruct H1 as [_ ->]. apply consistent_moved; eauto; [by left|left; by split; [left|]].
  - apply consistent_set_main; auto; done.
  - apply consistent_set_main; auto; done.
Qed.

Lemma consistent_step opts s s' : consistent opts s → sstep s s' → consistent opts s'.
Proof.
  intros HC [l E]. unfold sys_step in E. destruct (alive (s_main s)) eqn:Ha; [|done]. cbn [negb] in E.
  destruct l as [|k|now| |i ev| | | |].
  - unfold signal in E. destruct (s_notified s) eqn:En; [destruct (s_done s) eqn:Ed; [done|]|]; injection E as <-;
      [|by apply consistent_set_main; [..|left]].
    destruct HC. split; cbn; try done; [by left|]. by eapply Forall_impl; [exact c_shut0|].
  - destruct (s_workers s !! k); [|done]. injection E as <-. apply consistent_set_main; auto; done.
  - destruct (s_main s) as [[|[j g] rest]| | | | |] eqn:Em; try done. injection E as <-.
    destruct HC. rewrite Em in *. split; cbn; try done.
    + by rewrite map_app, <- (assoc_L (++)).
    + apply Forall_app. split; [done|]. constructor; [|done]. exists now, []. exists [], (mkJobState 0 now). split; [constructor|done].
    + intros HW. by destruct (c_waited0 HW).
    + intros HD. destruct (c_done0 HD) as [|]; [by left|right; apply Exists_app; by left].
    + intros HN. destruct (c_stopped0 HN). split; [done|]. apply Exists_app. by left.
    + apply Forall_app. split; [done|]. constructor; [by intros [|[|]]|done].
  - destruct (s_main s) as [[|]| | | | |] eqn:Em; try done. injection E as <-.
    apply consistent_set_main; try done. right. right. by rewrite Em.
  - by eapply consistent_worker.
  - unfold Wait in E. destruct (launching (s_main s)) eqn:El; [done|]. destruct (forallb gone _) eqn:Eg; [|done].
    destruct (s_waited s); [done|]. injection E as <-. destruct HC. split; cbn; try done.
    intros _. split; [done|]. apply Forall_forall. intros w Hw. by apply (proj1 (forallb_forall _ _) Eg), list_elem_of_In.
  - destruct (s_main s) eqn:Em, (s_done s); try done. injection E as <-. apply consistent_set_main; try done. right. right. by rewrite Em.
  - destruct (s_main s) eqn:Em, (s_waited s); try done. injection E as <-. apply consistent_set_main; try done. right. right. by rewrite Em.
  - destruct (s_main s) eqn:Em, (s_waited s) eqn:Ew; try done. injection E as <-. apply consistent_set_main; try done. right. right. by rewrite Em.
Qed.

Lemma reachable_consistent opts s : reachable opts s → consistent opts s.
Proof.
  intros HR. refine (rtc_ind_r (R := sstep) (consistent opts) (main opts) _ _ s HR); [apply consistent_main|].
  intros. by eapply consistent_step.
Qed.

(** ** Runs *)

Lemma run_app s ls ls' : run s (ls ++ ls') = run s ls ≫= λ s1, run s1 ls'.
Proof. revert s. induction ls as [|l ls IH]; intros s; [done|]. cbn. destruct (sys_step NewPool s l); [apply IH|done]. Qed.

Lemma run_snoc s ls l s' : run s (ls ++ [l]) = Some s' ↔ ∃ s1, run s ls = Some s1 ∧ sys_step NewPool s1 l = Some s'.
Proof.
  rewrite run_app. destruct (run s ls) as [s1|]; cbn.
  - destruct (sys_step NewPool s1 l) as [s2|] eqn:E; cbn.
    + split; [intros [= <-]; by exists s1|]. intros (s3 & [= <-] & E'). congruence.
    + split; [done|]. intros (s3 & [= <-] & E'). congruence.
  - split; [done|]. by intros (s3 & ? & _).
Qed.

Definition step_seen (i : nat) (s : system) (l : label) : list (bool * event) :=
  match l with Worker k ev => if decide (k = i) then [(s_done s, ev)] else [] | _ => [] end.

Lemma seen_snoc i s ls l s1 : run s ls = Some s1 → seen i s (ls ++ [l]) = seen i s ls ++ step_seen i s1 l.
Proof.
  revert s. induction ls as [|l0 ls IH]; intros s; cbn.
  - intros [= ->]. destruct (sys_step NewPool s1 l); by rewrite app_nil_r.
  - destruct (sys_step NewPool s l0) as [s2|] eqn:E; [|done]. intros HR. cbn in HR. rewrite (IH _ HR). by rewrite (assoc_L (++)).
Qed.

Lemma run_ind_snoc (P : list label → system → Prop) s0 :
  P [] s0 → (∀ ls s l s', run s0 ls = Some s → P ls s → sys_step NewPool s l = Some s' → P (ls ++ [l]) s') →
  ∀ ls s, run s0 ls = Some s → P ls s.
Proof.
  intros H0 HS ls. induction ls as [|l ls IH] using rev_ind; intros s; [by intros [= <-]|].
  intros (s1 & HR & E)%run_snoc. eauto.
Qed.

Lemma run_consistent opts ls s : run (main opts) ls = Some s → consistent opts s.
Proof. intros HR%run_steps. by apply reachable_consistent. Qed.

(** What a step does to the context and to the goroutines. *)
Lemma step_done s l s' : sys_step NewPool s l = Some s' → s_done s = true → s_done s' = true.
Proof.
  unfold sys_step. destruct (negb _); [done|]. intros E Hd.
  destruct l as [|k|now| |i ev| | | |]; cbn in E.
  - unfold signal in E. destruct (s_notified s); [destruct (s_done s)|]; by simplify_eq/=.
  - destruct (s_workers s !! k); by simplify_eq/=.
  - destruct (s_main s) as [[|[]]| | | | |]; by simplify_eq/=.
  - destruct (s_main s) as [[|]| | | | |]; by simplify_eq/=.
  - unfold worker_step in E. destruct (s_workers s !! i) as [w|]; [|done]. cbn in E.
    destruct (phase_step _ _ _ _ _) as [[]|]; by simplify_eq/=.
  - unfold Wait in E. destruct (_ && _ && _); by simplify_eq/=.
  - destruct (s_main s), (s_done s) eqn:?; by simplify_eq/=.
  - destruct (s_main s), (s_waited s); by simplify_eq/=.
  - destruct (s_main s), (s_waited s); by simplify_eq/=.
Qed.

Lemma step_workers s l s' :
  sys_step NewPool s l = Some s' →
  match l with
  | Launch now => ∃ j g, s_workers s' = s_workers s ++ [mkWorker j g (Head (mkJobState 0 now))]
  | Worker i ev => ∃ w r, s_workers s !! i = Some w ∧ phase_step NewPool (w_job w) (s_done s) ev (w_phase w) = Some r ∧
      s_workers s' = match r with Goes ph | Stops ph => <[i := mkWorker (w_job w) (w_group w) ph]> (s_workers s) | _ => s_workers s end
  | _ => s_workers s' = s_workers s
  end.
Proof.
  unfold sys_step. destruct (negb _); [done|]. intros E.
  destruct l as [|k|now| |i ev| | | |]; cbn in E.
  - unfold signal in E. destruct (s_notified s); [destruct (s_done s)|]; by simplify_eq/=.
  - destruct (s_workers s !! k); by simplify_eq/=.
  - destruct (s_main s) as [[|[j g]]| | | | |]; simplify_eq. by eexists _, _.
  - destruct (s_main s) as [[|]| | | | |]; by simplify_eq/=.
  - unfold worker_step in E. destruct (s_workers s !! i) as [w|]; [|done]. cbn in E.
    destruct (phase_step _ _ _ _ _) as [r|] eqn:Er; [|done]. exists w, r. split_and!; [done..|]. destruct r; by simplify_eq/=.
  - unfold Wait in E. destruct (_ && _ && _); by simplify_eq/=.
  - destruct (s_main s), (s_done s) eqn:?; by simplify_eq/=.
  - destruct (s_main s), (s_waited s); by simplify_eq/=.
  - destruct (s_main s), (s_waited s); by simplify_eq/=.
Qed.

(** What was seen of the goroutines explains where they stand. *)
Record logged (s0 : system) (ls : list label) (s : system) : Prop := {
  l_launches : length (launches ls) = length (s_workers s);
  l_later : ∀ i, (length (s_workers s) ≤ i)%nat → seen i s0 ls = [];
  l_agrees : ∀ i w, s_workers s !! i = Some w →
    ∃ now, launches ls !! i = Some now ∧ agrees (w_job w) now (read (seen i s0 ls)) (w_phase w);
  l_done : ∀ i, Forall (λ x : bool * event, x.1 = true → s_done s = true) (seen i s0 ls);
  l_sorted : ∀ i, StronglySorted (λ a b : bool, a = true → b = true) (seen i s0 ls).*1;
}.

Lemma sorted_snoc es (x : bool * event) :
  StronglySorted (λ a b : bool, a = true → b = true) es.*1 → Forall (λ y, y.1 = true → x.1 = true) es →
  StronglySorted (λ a b : bool, a = true → b = true) (es ++ [x]).*1.
Proof.
  induction es as [|y es IH]; cbn; [by repeat constructor|]. intros [HS HF]%StronglySorted_inv [Hy HE]%Forall_cons.
  constructor; [by apply IH|]. rewrite fmap_app, Forall_app. split; [done|]. by repeat constructor.
Qed.

(** A step that no goroutine takes and that launches none. *)
Lemma logged_other s0 ls s l s' :
  run s0 ls = Some s → logged s0 ls s → sys_step NewPool s l = Some s' →
  launches [l] = [] → (∀ i, step_seen i s l = []) → s_workers s' = s_workers s → logged s0 (ls ++ [l]) s'.
Proof.
  intros HR [H1 H2 H3 H4 H5] E HL HS HW.
  assert (HE : ∀ i, seen i s0 (ls ++ [l]) = seen i s0 ls) by (intros i; rewrite (seen_snoc _ _ _ _ _ HR), HS; apply app_nil_r).
  assert (HN : launches (ls ++ [l]) = launches ls) by (unfold launches in *; rewrite omap_app, HL; apply app_nil_r).
  split; rewrite ?HW, ?HN; try setoid_rewrite HE; try done.
  intros i. eapply Forall_impl; [apply H4|]. cbn. intros x Hx Ht. by eapply step_done, Hx.
Qed.

Lemma logged_launch s0 ls s now s' :
  run s0 ls = Some s → logged s0 ls s → sys_step NewPool s (Launch now) = Some s' → logged s0 (ls ++ [Launch now]) s'.
Proof.
  intros HR [H1 H2 H3 H4 H5] E.
  assert (HE : ∀ i, seen i s0 (ls ++ [Launch now]) = seen i s0 ls) by (intros i; rewrite (seen_snoc _ _ _ _ _ HR); apply app_nil_r).
  assert (HN : launches (ls ++ [Launch now]) = launches ls ++ [now]) by (unfold launches; by rewrite omap_app).
  destruct (step_workers _ _ _ E) as (j & g & HW). split; rewrite ?HW, ?HN, ?length_app; try setoid_rewrite HE.
  - cbn. lia.
  - intros i Hi. apply H2. lia.
  - intros i w Hw. apply lookup_snoc_Some in Hw as [[Hi Hw]|[-> <-]].
    + destruct (H3 i w Hw) as (now' & Hn & HA). exists now'. by rewrite lookup_app_l by lia.
    + exists now. rewrite <- H1 at 1. rewrite list_lookup_middle by done. split; [done|]. rewrite H2 by done.
      exists [], (mkJobState 0 now). split; [constructor|done].
  - intros i. eapply Forall_impl; [apply H4|]. cbn. intros x Hx Ht. by eapply step_done, Hx.
  - done.
Qed.

Lemma logged_worker s0 ls s k ev s' :
  run s0 ls = Some s → logged s0 ls s → sys_step NewPool s (Worker k ev) = Some s' → logged s0 (ls ++ [Worker k ev]) s'.
Proof.
  intros HR [H1 H2 H3 H4 H5] E. pose proof (step_done _ _ _ E) as HD.
  assert (HE : ∀ i, seen i s0 (ls ++ [Worker k ev]) = seen i s0 ls ++ (if decide (k = i) then [(s_done s, ev)] else []))
    by (intros i; by rewrite (seen_snoc _ _ _ _ _ HR)).
  assert (HN : launches (ls ++ [Worker k ev]) = launches ls) by (unfold launches; rewrite omap_app; apply app_nil_r).
  destruct (step_workers _ _ _ E) as (w & r & Hw & Er & HW). destruct (H3 k w Hw) as (now & Hn & HA).
  pose proof (phase_step_sound _ _ _ _ _ _ _ HA Er) as HS.
  assert (HL : length (s_workers s') = length (s_workers s)) by (rewrite HW; destruct r; by rewrite ?length_insert).
  split; rewrite ?HL, ?HN; [done|..].
  - intros i Hi. rewrite HE, H2, decide_False by (done || (apply lookup_lt_Some in Hw; lia)). done.
  - intros i w' Hw'. rewrite HE. destruct (decide (k = i)) as [<-|Hk].
    + exists now. split; [done|]. unfold read. rewrite foldl_app. cbn [foldl].
      assert (HP : step_sound (w_job w) now (read (seen k s0 ls)) (s_done s) ev (w_phase w) r) by done. clear HS.
      destruct r as [ph|ph| |]; rewrite HW in Hw'.
      * rewrite list_lookup_insert_eq in Hw' by (by eapply lookup_lt_Some). injection Hw' as <-. apply HP.
      * rewrite list_lookup_insert_eq in Hw' by (by eapply lookup_lt_Some). injection Hw' as <-. apply HP.
      * rewrite Hw in Hw'. injection Hw' as <-. cbn in HP. subst ev. unfold read_step at 1. fold (read (seen k s0 ls)).
        destruct (read (seen k s0 ls)) as [ts []]; exact HA.
      * rewrite Hw in Hw'. injection Hw' as <-. cbn in HP. subst ev. unfold read_step at 1. fold (read (seen k s0 ls)).
        destruct (read (seen k s0 ls)) as [ts []]; exact HA.
    + rewrite app_nil_r. apply H3. rewrite HW in Hw'. by destruct r; rewrite ?list_lookup_insert_ne in Hw' by done.
  - intros i. rewrite HE. apply Forall_app. split; [eapply Forall_impl; [apply H4|]; cbn; auto|]. case_decide; repeat constructor. exact HD.
  - intros i. rewrite HE. case_decide; [by apply sorted_snoc|by rewrite app_nil_r].
Qed.

Lemma run_logged s0 : s_workers s0 = [] → ∀ ls s, run s0 ls = Some s → logged s0 ls s.
Proof.
  intros H0. apply run_ind_snoc.
  - split; try done; [by rewrite H0|intros i w; by rewrite H0|intros; constructor..].
  - intros ls s l s' HR HL E. pose proof (step_workers _ _ _ E) as HW.
    destruct l; first [by apply logged_launch with s | by apply logged_worker with s | by apply logged_other with s].
Qed.

(** ** How the process ends *)

(** C32. The goroutines of the process do what [launchJob] says.  However the steps of main, the
    signals and the goroutines interleave, the turns read off what was seen of a goroutine, the
    answers of Build and of the manager and what the context said each time it was looked at, are a
    run of [launchJob] from the moment it was launched, with the counters and sleeps that belong to
    them, and the goroutine has returned exactly if that run has ended, for the same reason.  The
    context it looked at never goes back: once done, it is done at every later look. *)
Theorem goroutines_refine_launchJob opts ls s i w :
  run (main opts) ls = Some s → s_workers s !! i = Some w →
  let es := seen i (main opts) ls in
  StronglySorted (λ a b : bool, a = true → b = true) es.*1 ∧
  ∃ now sleeps, launches ls !! i = Some now ∧
    launchJob NewPool (w_job w) (turns_of es) (mkJobState 0 now) =
      Ret (sleeps, match w_phase w with Gone e => Some e | _ => None end).
Proof.
  intros HR Hw es. destruct (run_logged (main opts) eq_refl ls s HR) as [_ _ HA _ HS]. split; [apply HS|].
  destruct (HA i w Hw) as (now & Hn & Ha). exists now. fold es in Ha. unfold turns_of.
  destruct (w_phase w) as [st|st|st|st runErr|st|st|st sleep| |e];
    try (destruct Ha as (sleeps & st0 & HT & _); exists sleeps; split; [done|];
         rewrite <- (app_nil_r (read es).1), (turned_launchJob _ _ _ _ _ _ HT); cbn; by rewrite app_nil_r).
  destruct Ha as [sleeps Ha]. by exists sleeps.
Qed.

(** The last step of a run that ended the process other than by main returning. *)
Lemma run_ended opts ls s :
  run (main opts) ls = Some s →
  (s_main s = Crashed → ∃ ls' l, ls = ls' ++ [l] ∧ panicking l) ∧
  (s_main s = Killed → ∃ ls' l, ls = ls' ++ [l] ∧ (l = Signal ∨ ∃ i, l = Worker i NoClusterConfig)).
Proof.
  destruct ls as [|l ls _] using rev_ind; [by intros [= <-]|]. intros (s1 & HR & E)%run_snoc.
  pose proof (run_logged (main opts) eq_refl _ _ HR) as HL.
  assert (HX : (s_main s = Crashed → panicking l) ∧ (s_main s = Killed → l = Signal ∨ ∃ i, l = Worker i NoClusterConfig)).
  2: { destruct HX. split; intros; exists ls, l; auto. }
  unfold sys_step in E. destruct (alive (s_main s1)) eqn:Ha; [|done]. cbn [negb] in E.
  assert (HS : s_main s = s_main s1 → (s_main s = Crashed → panicking l) ∧ (s_main s = Killed → l = Signal ∨ ∃ i, l = Worker i NoClusterConfig))
    by (intros ->; split; intros Hm; by rewrite Hm in Ha).
  destruct l as [|k|now| |i ev| | | |]; cbn in E.
  - unfold signal in E. split; [|auto]. destruct (s_notified s1); [destruct (s_done s1)|]; simplify_eq/=; [|done]. intros Hm. by rewrite Hm in Ha.
  - destruct (s_workers s1 !! k); by simplify_eq/=.
  - destruct (s_main s1) as [[|[]]| | | | |]; by simplify_eq/=.
  - destruct (s_main s1) as [[|]| | | | |]; by simplify_eq/=.
  - unfold worker_step in E. destruct (s_workers s1 !! i) as [w|] eqn:Hw; [|done]. cbn in E.
    destruct (l_agrees _ _ _ HL i w Hw) as (now & _ & HA).
    destruct (phase_step _ _ _ _ _) as [r|] eqn:Er; [|done]. pose proof (phase_step_sound _ _ _ _ _ _ _ HA Er) as Hr.
    destruct r; simplify_eq/=; [by apply HS..|by split; [|done]|]. split; [done|]. intros _. right. by eexists.
  - unfold Wait in E. destruct (_ && _ && _); simplify_eq/=. by apply HS.
  - destruct (s_main s1), (s_done s1); by simplify_eq/=.
  - destruct (s_main s1), (s_waited s1); by simplify_eq/=.
  - destruct (s_main s1), (s_waited s1); by simplify_eq/=.
Qed.

(** C30. How the process ends.  The pool itself never makes it panic: the process crashes only when
    the code of a job does, in its Build, its manager or a goroutine these started.  It is killed
    only by a signal or because the configuration of the cluster cannot be read.  Otherwise main
    returns, and then every job that is enabled, for every API group it is started for, was
    launched and its goroutine has returned: after a signal, after a job failed too often, or when
    no manager could be built (or no job is enabled).  A job that cannot be built does not end the
    others. *)
Theorem operator_exits opts ls s :
  run (main opts) ls = Some s →
  (s_main s = Crashed → ∃ ls' l, ls = ls' ++ [l] ∧ panicking l) ∧
  (s_main s = Killed → ∃ ls' l, ls = ls' ++ [l] ∧ (l = Signal ∨ ∃ i, l = Worker i NoClusterConfig)) ∧
  (s_main s = Exited →
   map kind (s_workers s) = Start NewPool opts ∧
   (∀ w, w ∈ s_workers s → ∃ e, w_phase w = Gone e) ∧
   (s_signalled s = true ∨ (∃ w, w ∈ s_workers s ∧ w_phase w = Gone TooManyFailures) ∨
    ∀ w, w ∈ s_workers s → ∃ err, w_phase w = Gone (BuildFailed err))).
Proof.
  intros HR. destruct (run_ended _ _ _ HR) as [HC HK]. split; [done|]. split; [done|].
  apply run_consistent in HR. destruct HR. intros HX. rewrite HX in *. destruct (c_waited0 (c_main0 eq_refl)) as [_ HF].
  rewrite Forall_forall in HF. assert (HG : ∀ w, w ∈ s_workers s → ∃ e, w_phase w = Gone e).
  { intros w Hw. specialize (HF w Hw). unfold gone in HF. destruct (w_phase w); try done. by eexists. }
  split_and!; [done..|]. destruct (s_done s) eqn:Ed.
  - destruct (c_done0 eq_refl) as [|HE]; [by left|]. apply Exists_exists in HE as (w & Hw & Hg). right. left. exists w. split; [done|].
    destruct Hg as [Hg|Hg]; [|done]. destruct (HG w Hw) as [e He]. congruence.
  - right. right. intros w Hw. destruct (HG w Hw) as [e He]. rewrite Forall_forall in c_shut0.
    destruct e as [|err|]; [|by eexists|]; assert (false = true) by (apply (c_shut0 w Hw); unfold gave_up, quits; auto); done.
Qed.

(** The steps the process still takes once its context is done. *)
Definition phase_left (ph : phase) : nat :=
  match ph with
  | Head _ | Counted _ | Stopping => 1
  | Ran _ _ | Resting _ _ => 2
  | Running _ | Checked _ => 3
  | Building _ => 4
  | Gone _ => 0
  end.

Definition main_left (m : main_phase) : nat :=
  match m with
  | Launching rest => 2 * length rest + 3
  | Selecting => 2
  | Receiving => 1
  | _ => 0
  end.

Definition steps_left (s : system) : nat :=
  (sum_list_with (λ w, phase_left (w_phase w)) (s_workers s) + main_left (s_main s) + (if s_waited s then 0 else 1))%nat.

Lemma phase_step_left wrk j ev ph ph' :
  phase_step wrk j true ev ph = Some (Goes ph') ∨ phase_step wrk j true ev ph = Some (Stops ph') → (phase_left ph' < phase_left ph)%nat.
Proof.
  destruct ph, ev; cbn; try (intros [|]; done);
    try (intros [[= <-]|[=]]; cbn; lia); try (destruct err; intros [[= <-]|[=]]; cbn; lia).
  destruct (decide (restartResetAfter wrk < _)); case_decide; try destruct (backoffWithJitter _ _ _ _);
    intros [[= <-]|[= <-]]; cbn; lia.
Qed.

Lemma sum_left_insert ws i w w' :
  ws !! i = Some w → (phase_left (w_phase w') < phase_left (w_phase w))%nat →
  (sum_list_with (λ w, phase_left (w_phase w)) (<[i := w']> ws) < sum_list_with (λ w, phase_left (w_phase w)) ws)%nat.
Proof.
  revert i. induction ws as [|w0 ws IH]; intros [|i]; cbn; try done.
  - intros [= ->]. lia.
  - intros Hi Hl. by apply Nat.add_lt_mono_l, IH.
Qed.

Lemma steps_left_falls s l s' : s_done s = true → sys_step NewPool s l = Some s' → s_done s' = true ∧ (steps_left s' < steps_left s)%nat.
Proof.
  intros Hd E. unfold sys_step in E. destruct (alive (s_main s)) eqn:Ha; [|done]. cbn [negb] in E.
  assert (HM : (0 < main_left (s_main s))%nat) by (destruct (s_main s); cbn; try done; lia).
  destruct l as [|k|now| |i ev| | | |].
  - unfold signal in E. rewrite Hd in E. destruct (s_notified s); [done|]. injection E as <-. split; [done|]. unfold steps_left. cbn. lia.
  - destruct (s_workers s !! k); [|done]. injection E as <-. split; [done|]. unfold steps_left. cbn. lia.
  - destruct (s_main s) as [[|[j g] rest]| | | | |] eqn:Em; try done. injection E as <-. split; [done|].
    unfold steps_left. cbn. rewrite sum_list_with_app, Em. cbn. lia.
  - destruct (s_main s) as [[|]| | | | |] eqn:Em; try done. injection E as <-. split; [done|]. unfold steps_left. rewrite Em. cbn. lia.
  - unfold worker_step in E. destruct (s_workers s !! i) as [w|] eqn:Hi; [|done]. cbn in E. rewrite Hd in E.
    destruct (phase_step NewPool (w_job w) true ev (w_phase w)) as [[ph|ph| |]|] eqn:EP; [..|done]; cbn in E; injection E as <-;
      (split; [done|]); unfold steps_left; cbn; try lia;
      pose proof (sum_left_insert _ _ _ (mkWorker (w_job w) (w_group w) ph) Hi (phase_step_left _ _ _ _ ph ltac:(eauto))); lia.
  - unfold Wait in E. destruct (negb _ && _), (s_waited s) eqn:Ew; try done. injection E as <-. split; [done|]. unfold steps_left. rewrite Ew. cbn. lia.
  - destruct (s_main s) eqn:Em, (s_done s) eqn:?; try done. injection E as <-. split; [done|]. unfold steps_left. rewrite Em. cbn. lia.
  - destruct (s_main s) eqn:Em, (s_waited s) eqn:Ew; try done. injection E as <-. split; [done|]. unfold steps_left. cbn. rewrite Em, Ew. cbn. lia.
  - destruct (s_main s) eqn:Em, (s_waited s) eqn:Ew; try done. injection E as <-. split; [done|]. unfold steps_left. cbn. rewrite Em, Ew. cbn. lia.
Qed.

(** Whatever a goroutine waits for arrives in the end: some event lets it go on. *)
Lemma phase_step_enabled wrk j ph : (∀ e, ph ≠ Gone e) → ∃ ev r, phase_step wrk j true ev ph = Some r.
Proof.
  intros Hg. destruct ph as [st|st|st|st runErr|st|st|st sleep| |e]; [..|by destruct (Hg e)].
  - exists Look. by eexists.
  - exists (Built None). by eexists.
  - exists (Returned None). by eexists.
  - exists Look. by eexists.
  - exists Look. by eexists.
  - exists (Decide 0 0 true). cbn [phase_step]. case_decide; case_decide; try destruct (backoffWithJitter _ _ _ _); by eexists.
  - exists Look. by eexists.
  - exists Look. by eexists.
Qed.

Lemma shutdown_progress s : s_done s = true → alive (s_main s) = true → ∃ s' l, sys_step NewPool s l = Some s'.
Proof.
  intros Hd Ha. unfold sys_step. rewrite Ha. cbn [negb].
  destruct (s_main s) as [[|[j g] rest]| | | | |] eqn:Em; try done.
  - by eexists _, Launched.
  - by eexists _, (Launch 0).
  - eexists _, CtxBranch. by rewrite Hd.
  - destruct (s_waited s) eqn:Ew; [by eexists _, ReceiveDone|].
    destruct (forallb gone (s_workers s)) eqn:Eg; [eexists _, WaitReturns; unfold Wait; by rewrite Em, Eg, Ew|].
    assert (HE : ∃ w, w ∈ s_workers s ∧ gone w = false).
    { clear -Eg. induction (s_workers s) as [|w ws IH]; [done|]. cbn in Eg. destruct (gone w) eqn:E; [|exists w; split; [by left|done]].
      destruct (IH Eg) as (w' & Hw & Hg). exists w'. split; [by right|done]. }
    destruct HE as (w & [i Hi]%list_elem_of_lookup & Hg).
    destruct (phase_step_enabled NewPool (w_job w) (w_phase w)) as (ev & r & E); [unfold gone in Hg; by destruct (w_phase w)|].
    assert (∃ s', worker_step NewPool i ev s = Some s') as [s' Hs].
    { unfold worker_step. rewrite Hi. cbn. rewrite Hd, E. cbn. destruct r; by eexists. }
    by exists s', (Worker i ev).
Qed.

Lemma steps_left_bound opts s : reachable opts s → (steps_left s ≤ 4 * length (Start NewPool opts) + 4)%nat.
Proof.
  intros HR%reachable_consistent. pose proof (c_jobs _ _ HR) as HJ.
  assert (HS : (sum_list_with (λ w, phase_left (w_phase w)) (s_workers s) ≤ 4 * length (s_workers s))%nat).
  { clear. induction (s_workers s) as [|w ws IH]; cbn; [lia|]. assert (phase_left (w_phase w) ≤ 4)%nat by (destruct (w_phase w); cbn; lia). lia. }
  assert (HL : (length (s_workers s) + match s_main s with Launching rest => length rest | _ => 0 end ≤ length (Start NewPool opts))%nat).
  { destruct (s_main s); try rewrite <- HJ, ?length_app, length_map; lia. }
  unfold steps_left. destruct (s_waited s), (s_main s); cbn in *; lia.
Qed.

(** C31. Once the context is done, by a signal or because a job failed too often, the process ends.
    Whatever its goroutines are doing, and also when it is still launching some, every run takes
    at most four more steps for each goroutine and four for main, and it cannot stop before main
    has returned or the process was killed, unless the code of a job panics: a second signal is
    swallowed before [stop] is called and kills after it. *)
Theorem shutdown_ends opts s ls s' :
  reachable opts s → s_done s = true → run s ls = Some s' →
  (length ls ≤ 4 * length (Start NewPool opts) + 4)%nat ∧
  ((∀ l, sys_step NewPool s' l = None) →
   s_main s' = Exited ∨ s_main s' = Killed ∨ s_main s' = Crashed ∧ (s_main s = Crashed ∨ Exists panicking ls)).
Proof.
  intros HR Hd Hn. assert (HB : (length ls + steps_left s' ≤ steps_left s)%nat ∧ s_done s' = true).
  { clear HR. revert s Hd Hn. induction ls as [|l ls IH]; intros s Hd; cbn [run]; [by intros [= ->]|].
    destruct (sys_step NewPool s l) as [s1|] eqn:E; [|done]. cbn. intros Hn.
    destruct (steps_left_falls _ _ _ Hd E) as [Hd1 Hl]. destruct (IH _ Hd1 Hn). split; [lia|done]. }
  destruct HB as [HB Hd']. pose proof (steps_left_bound _ _ HR). split; [lia|]. intros Hstuck.
  destruct (alive (s_main s')) eqn:Ha; [destruct (shutdown_progress s' Hd' Ha) as (s'' & l & Hs); by rewrite Hstuck in Hs|].
  destruct (s_main s') eqn:Em; try done; auto. right. right. split; [done|].
  destruct ls as [|l ls _] using rev_ind; [injection Hn as <-; by left|]. right. apply Exists_app. right. apply Exists_cons. left.
  apply rtc_run in HR as [ls0 HR]. destruct (run_ended opts (ls0 ++ ls ++ [l]) s') as [HC _]; [by rewrite run_app, HR|].
  destruct (HC Em) as (ls' & l' & E & Hp). rewrite app_assoc in E. by apply app_inj_tail in E as [_ ->].
Qed.

(** ** Witnesses *)

(** The operator of the brokers, whose one job fails until the pool gives up. *)
Definition brokers_cfg : Cfg :=
  mkCfg ":8082" ":8081" true "kafka" "netcracker.com" "" false None None false 60 "" "" "" false "" "kafka".

Definition failing_run : list event := [Look; Built None; Returned (Some (errorf "lost")); Look; Look; Decide 7 7 true].

Definition giving_up : list label :=
  Launch 0 :: Launched ::
  map (Worker 0) (failing_run ++ [Timer] ++ failing_run ++ [Timer] ++ failing_run ++ [Timer] ++ failing_run ++ [Timer] ++ failing_run ++ [Look]).

(** The operator of the services, told to end while it launches its jobs. *)
Definition told_to_end : list label := [Launch 0; Worker 0 Look; Worker 0 (Built None); Signal; Launch 0].

Lemma goroutines_refine_launchJob_witness :
  length (turns_of (seen 0 (main brokers_cfg) giving_up)) = 5%nat ∧
  ∃ now sleeps, launches giving_up !! 0%nat = Some now ∧
    launchJob NewPool KafkaJob (turns_of (seen 0 (main brokers_cfg) giving_up)) (mkJobState 0 now) = Ret (sleeps, Some TooManyFailures).
Proof.
  split; [vm_compute; reflexivity|].
  refine (proj2 (goroutines_refine_launchJob brokers_cfg giving_up (default (main brokers_cfg) (run (main brokers_cfg) giving_up)) 0
           (mkWorker KafkaJob "netcracker.com" (Gone TooManyFailures)) _ _)); vm_compute; reflexivity.
Defined.

Lemma operator_exits_witness :
  let s := default (main brokers_cfg) (run (main brokers_cfg) (giving_up ++ [WaitReturns; DoneBranch; ReceiveDone])) in
  s_main s = Exited ∧ map kind (s_workers s) = Start NewPool brokers_cfg.
Proof.
  intros s. assert (HX : s_main s = Exited) by (vm_compute; reflexivity). split; [exact HX|].
  destruct (operator_exits brokers_cfg (giving_up ++ [WaitReturns; DoneBranch; ReceiveDone]) s) as (_ & _ & HE);
    [vm_compute; reflexivity|exact (proj1 (HE HX))].
Defined.

Lemma shutdown_ends_witness :
  let s := default (main example_cfg) (run (main example_cfg) told_to_end) in
  is_Some (run s [Worker 0 (Returned None)]) ∧
  ∀ ls s', run s ls = Some s' → (length ls ≤ 4 * length (Start NewPool example_cfg) + 4)%nat.
Proof.
  intros s. assert (HR : reachable example_cfg s) by (apply (run_steps _ told_to_end); vm_compute; reflexivity). split.
  - eexists. vm_compute. reflexivity.
  - intros ls s' Hn. apply (shutdown_ends example_cfg s ls s' HR); [vm_compute; reflexivity|exact Hn].
Defined.
