(* ===== verification/Conditions.v ===== *)
(** * Status conditions of the Kafka and KafkaService resources

    Sources: operator/controllers/kafka/condition.go and status_update.go, and their twins in
    operator/controllers/kafkaservice.  Both packages have the same code over their own resource
    type; [Conditioned] is what that code needs of a resource, with an instance for each.

    [now] is the clock, read from the world. *)

From S2P Require Import Prelude GoStrings Util Transformation Kube Api External Cluster Reconciler KafkaClient.

Definition statusFalse : string := "False".
Definition statusTrue : string := "True".
Definition typeInProgress : string := "In progress".
Definition typeFailed : string := "Failed".
Definition typeReady : string := "Ready".
Definition typeSuccessful : string := "Successful".
Definition waitingInterval : Z := 10.

(** A resource with a status that has conditions. *)
Class Conditioned (k : kind) := {
  status_type : Type;
  condition_type : Type;
  NewCondition : string → string → string → string → condition_type;
  c_Type : condition_type → string;
  c_Status : condition_type → string;
  c_Reason : condition_type → string;
  c_Message : condition_type → string;
  set_LastTransitionTime : string → condition_type → condition_type;
  get_Status : obj k → status_type;
  set_Status : status_type → obj k → obj k;
  Conditions : status_type → list condition_type;
  set_Conditions : list condition_type → status_type → status_type;
  c_Reason_set : ∀ t c, c_Reason (set_LastTransitionTime t c) = c_Reason c;
  c_Type_set : ∀ t c, c_Type (set_LastTransitionTime t c) = c_Type c;
  c_Status_set : ∀ t c, c_Status (set_LastTransitionTime t c) = c_Status c;
  c_Message_set : ∀ t c, c_Message (set_LastTransitionTime t c) = c_Message c;
  get_set_Status : ∀ st o, get_Status (set_Status st o) = st;
  get_set_Conditions : ∀ cs st, Conditions (set_Conditions cs st) = cs;
}.

Arguments status_type k {_}.
Arguments condition_type k {_}.

Section conditions.
Context `{Conditioned k}.

Fixpoint addCondition (currentConditions : list (condition_type k)) (condition : condition_type k) : list (condition_type k) :=
  match currentConditions with
  | [] => [condition]
  | currentCondition :: rest =>
      if decide (c_Reason currentCondition = c_Reason condition) then
        (if decide (c_Type currentCondition ≠ c_Type condition ∨ c_Status currentCondition ≠ c_Status condition ∨
                    c_Message currentCondition ≠ c_Message condition)
         then condition else currentCondition) :: rest
      else currentCondition :: addCondition rest condition
  end.

Definition hasFailedConditions (status : status_type k) : bool :=
  existsb (λ condition, bool_decide (c_Type condition = typeFailed)) (Conditions status).

End conditions.

Section updater.
Context `{Env W} `{Retry} `{Conditioned k} {L : Type}.
Context (name namespace : string) (now : W → string).

Definition reloadCR : M (St W L) (obj k) := request (Get k name namespace).

Definition UpdateStatusWithRetry (statusUpdateFunc : obj k → M (St W L) (obj k)) : M (St W L) unit :=
  RetryOnConflict (
    instance ← reloadCR;
    instance ← statusUpdateFunc instance;
    _ ← request (StatusUpdate k instance);
    mret tt).

Definition GetStatus : M (St W L) (status_type k) :=
  instance ← reloadCR;
  mret (get_Status instance).

Definition updateConditions (condition : condition_type k) : M (St W L) unit :=
  UpdateStatusWithRetry (λ instance,
    time ← gets (now ∘ world);
    let currentConditions := addCondition (Conditions (get_Status instance)) (set_LastTransitionTime time condition) in
    mret (set_Status (set_Conditions currentConditions (get_Status instance)) instance)).

Definition clearAllConditions : M (St W L) unit :=
  UpdateStatusWithRetry (λ instance, mret (set_Status (set_Conditions [] (get_Status instance)) instance)).

End updater.

(** ** Conditions *)

Section condition_properties.
Context `{Conditioned k}.
Implicit Types c : condition_type k.

(** Two conditions say the same, at whatever time. *)
Definition says (c c' : condition_type k) : Prop :=
  c_Reason c = c_Reason c' ∧ c_Type c = c_Type c' ∧ c_Status c = c_Status c' ∧ c_Message c = c_Message c'.

Lemma addCondition_reasons cs c :
  c_Reason <$> addCondition cs c = if decide (c_Reason c ∈ c_Reason <$> cs) then c_Reason <$> cs else (c_Reason <$> cs) ++ [c_Reason c].
Proof.
  induction cs as [|x cs IH]; cbn [addCondition]; [rewrite decide_False; [done|apply not_elem_of_nil]|].
  destruct (decide (c_Reason x = c_Reason c)) as [E|E]; rewrite !fmap_cons.
  - rewrite (decide_True (P := c_Reason c ∈ _)) by (rewrite E; left). by destruct (decide (_ ∨ _)) as [?|?]; rewrite ?E.
  - rewrite IH. destruct (decide (c_Reason c ∈ c_Reason <$> cs)); [rewrite decide_True by (by right); done|].
    rewrite decide_False; [done|]. intros [?|?]%elem_of_cons; congruence.
Qed.

Lemma addCondition_says cs c : ∃ c', c' ∈ addCondition cs c ∧ says c' c ∧ (c' = c ∨ c' ∈ cs).
Proof.
  induction cs as [|x cs IH]; cbn [addCondition]; [exists c; split_and!; [set_solver|done|by left]|].
  destruct (decide (c_Reason x = c_Reason c)) as [E|E].
  - case_decide as D; [exists c; split_and!; [set_solver|done|by left]|].
    exists x. split_and!; [set_solver| |set_solver]. unfold says. split_and!; [done|..]; apply dec_stable; tauto.
  - destruct IH as (c' & Hc & Hs & Hd). exists c'. set_solver.
Qed.

Lemma addCondition_others cs c : filter (λ x, c_Reason x ≠ c_Reason c) (addCondition cs c) = filter (λ x, c_Reason x ≠ c_Reason c) cs.
Proof.
  induction cs as [|x cs IH]; cbn [addCondition]; [by rewrite filter_cons, decide_False by auto|].
  destruct (decide (c_Reason x = c_Reason c)) as [E|E].
  - rewrite !filter_cons. rewrite (decide_False (P := c_Reason x ≠ c_Reason c)) by auto.
    destruct (decide (c_Type x ≠ c_Type c ∨ _)); [by rewrite decide_False by auto|by rewrite decide_False by auto].
  - rewrite !filter_cons, !(decide_True (P := c_Reason x ≠ c_Reason c)) by done. by rewrite IH.
Qed.

(** Adding a condition keeps the reasons of a status unique, leaves the conditions of other reasons
    as they are and in their order, and makes the one of its reason say what is asked, with its
    time of transition kept when it already did. *)
Theorem addCondition_spec cs c :
  NoDup (c_Reason <$> cs) →
  NoDup (c_Reason <$> addCondition cs c) ∧
  filter (λ x, c_Reason x ≠ c_Reason c) (addCondition cs c) = filter (λ x, c_Reason x ≠ c_Reason c) cs ∧
  (∀ x, x ∈ addCondition cs c → c_Reason x = c_Reason c → says x c) ∧ (∃ x, x ∈ addCondition cs c ∧ says x c) ∧
  ((∃ x, x ∈ cs ∧ says x c) → addCondition cs c = cs).
Proof.
  intros Hn. assert (HN : NoDup (c_Reason <$> addCondition cs c)).
  { rewrite addCondition_reasons. case_decide; [done|]. apply NoDup_app. split_and!; [done|set_solver|apply NoDup_singleton]. }
  destruct (addCondition_says cs c) as (c' & Hc & Hs & _). split_and!; [done|apply addCondition_others| |by exists c'|].
  - intros x Hx Hr. assert (x = c') as ->; [|done].
    apply list_elem_of_lookup in Hx as [i Hi]. apply list_elem_of_lookup in Hc as [j Hj].
    assert (i = j) as ->; [|congruence].
    apply (NoDup_lookup (c_Reason <$> addCondition cs c) i j (c_Reason c)); [done|by rewrite list_lookup_fmap, Hi; cbn; congruence|].
    rewrite list_lookup_fmap, Hj. cbn. destruct Hs as [-> _]. done.
  - intros (x & Hx & Hsx). clear Hs Hc c' HN. induction cs as [|y cs IH]; [set_solver|]. cbn [addCondition].
    rewrite fmap_cons, NoDup_cons in Hn. destruct Hn as [Hy Hn]. destruct (decide (c_Reason y = c_Reason c)) as [E|E].
    + f_equal. assert (y = x) as ->.
      { apply elem_of_cons in Hx as [->|Hx]; [done|]. exfalso. apply Hy. apply list_elem_of_fmap. exists x.
        destruct Hsx as [Hr _]. split; [congruence|done]. }
      destruct Hsx as (_ & Ht & Hst & Hm). rewrite decide_False; [done|]. tauto.
    + f_equal. apply IH; [done|]. apply elem_of_cons in Hx as [->|Hx]; [|done]. by destruct Hsx as [Hr _].
Qed.

End condition_properties.

(** ** The update of a status *)

Section history.
Context `{Env W} `{Retry} `{Conditioned k} {L : Type}.
Context (name namespace : string) (now : W → string).

(** When an update of the conditions returns nil, its last two requests were a read of the
    resource and a successful write of exactly what was read, with the condition added, stamped
    with the time after the read; the attempts before them ended in conflicts.  So a status whose
    reasons are unique keeps them unique, and the condition holds in what was written. *)
Theorem updateConditions_writes condition (s s' : St W L) :
  updateConditions (k := k) name namespace now condition s = (Ret tt, s') →
  ∃ tr o t answer,
    let written := addCondition (Conditions (get_Status o)) (set_LastTransitionTime t condition) in
    trace s' = trace s ++ tr ++
      [Ev (Get k name namespace) (inl o);
       Ev (StatusUpdate k (set_Status (set_Conditions written (get_Status o)) o)) (inl answer)] ∧
    local s' = local s ∧
    (NoDup (c_Reason <$> Conditions (get_Status o)) → NoDup (c_Reason <$> written)) ∧ ∃ c, c ∈ written ∧ says c condition.
Proof.
  unfold updateConditions, UpdateStatusWithRetry, reloadCR. intros Hr%RetryOnConflict_spec.
  remember (Ret tt) as o' eqn:Eo. induction Hr as [n s o' s' Hb|n s e s1 o' s' Hb Hc Hr IH]; subst o'.
  - revert Hb. unfold mbind, M_bind, request, gets, mret, M_ret. cbn [world trace local].
    destruct (perform _ (Get k name namespace) (world s)) as [[o|e] w1] eqn:E1; [|done]. cbn [world trace local compose].
    match goal with |- context [perform ?R ?c w1] => destruct (perform R c w1) as [[a|e] w2] eqn:E2 end; [|done].
    intros [= <-]. exists [], o, (now w1), a. cbn [world trace local app]. rewrite <- app_assoc. split_and!; [done..| |].
    + intros HN. rewrite addCondition_reasons. case_decide; [done|]. apply NoDup_app. split_and!; [done|set_solver|apply NoDup_singleton].
    + destruct (addCondition_says (Conditions (get_Status o)) (set_LastTransitionTime (now w1) condition)) as (c & Hc & Hs & _).
      exists c. split; [done|]. unfold says in *. by rewrite c_Reason_set, c_Type_set, c_Status_set, c_Message_set in Hs.
  - specialize (IH eq_refl). destruct IH as (tr & o & t & a & Et & El & HN & HS).
    assert (HB : ∃ tr0, trace s1 = trace s ++ tr0 ∧ local s1 = local s).
    { revert Hb. unfold mbind, M_bind, request, gets, mret, M_ret. cbn [world trace local].
      destruct (perform _ (Get k name namespace) (world s)) as [[o0|e0] w1]; [|intros [= <- <-]; by eexists].
      cbn [world trace local compose].
      match goal with |- context [perform ?R ?c w1] => destruct (perform R c w1) as [[a0|e0] w2] end; [done|].
      intros [= <- <-]. cbn [world trace local]. rewrite <- app_assoc. by eexists. }
    destruct HB as (tr0 & E0 & L0). exists (tr0 ++ tr), o, t, a. rewrite Et, El, E0, <- !app_assoc. by split_and!.
Qed.

End history.

(** ** Updates of a status: rules *)

Section rules.
Context `{Env W} `{Retry} `{Conditioned k} {L : Type}.
Context (name namespace : string) (now : W → string).

(** An update reads the resource and writes what its function makes of what was read. *)
Lemma emits_UpdateStatusWithRetry (P : event → Prop) (f : obj k → M (St W L) (obj k)) :
  (∀ r, P (Ev (Get k name namespace) r)) → (∀ o, emits P (f o)) → (∀ o s o' s' r, f o s = (Ret o', s') → P (Ev (StatusUpdate k o') r)) →
  emits P (UpdateStatusWithRetry (k := k) name namespace f).
Proof.
  intros Hg Hf Hu. apply emits_RetryOnConflict. intros s. unfold reloadCR, mbind, M_bind, request.
  destruct (perform _ (Get k name namespace) (world s)) as [[o|e] w1]; cbn [world trace local]; [|by exists [Ev (Get k name namespace) (inr e)]; eauto].
  set (s1 := mkSt w1 _ _). destruct (Hf o s1) as (tr & E & F). destruct (f o s1) as [[o'|e|] s2] eqn:Ef; cbn [snd] in E.
  - destruct (perform _ (StatusUpdate k o') (world s2)) as [r w2].
    exists (Ev (Get k name namespace) (inl o) :: tr ++ [Ev (StatusUpdate k o') r]). split.
    + destruct r; cbn; rewrite E; cbn; by rewrite <- !app_assoc.
    + apply Forall_cons. split; [done|]. apply Forall_app_2; [done|]. apply Forall_cons. split; [by eapply Hu|apply Forall_nil_2].
  - exists (Ev (Get k name namespace) (inl o) :: tr). cbn. rewrite E. cbn. rewrite <- app_assoc. split; [done|]. apply Forall_cons. by split.
  - exists (Ev (Get k name namespace) (inl o) :: tr). cbn. rewrite E. cbn. rewrite <- app_assoc. split; [done|]. apply Forall_cons. by split.
Qed.

(** With a function that only computes, it keeps the in-memory state and does not panic. *)
Lemma UpdateStatusWithRetry_pure (f : obj k → obj k) (s s' : St W L) o :
  UpdateStatusWithRetry (k := k) name namespace (λ instance, mret (f instance)) s = (o, s') → local s' = local s ∧ o ≠ Panic.
Proof.
  unfold UpdateStatusWithRetry. intros Hr%RetryOnConflict_spec.
  assert (HB : ∀ s o s', (instance ← reloadCR (k := k) name namespace; instance ← mret (f instance); _ ← request (StatusUpdate k instance); mret tt : M (St W L) unit) s = (o, s') →
    local s' = local s ∧ o ≠ Panic).
  { clear. intros s o s'. unfold reloadCR, mbind, M_bind, request, mret, M_ret. cbn.
    destruct (perform _ (Get k name namespace) (world s)) as [[i|e] w1]; [|by intros [= <- <-]]. cbn.
    destruct (perform _ _ w1) as [[i'|e] w2]; by intros [= <- <-]. }
  induction Hr as [n s o s' Hb|n s e s1 o s' Hb Hc Hr IH]; [by apply HB in Hb|].
  destruct IH as [El Ho]. apply HB in Hb as [El' _]. split; [congruence|done].
Qed.

Lemma updateConditions_local condition (s s' : St W L) o :
  updateConditions (k := k) name namespace now condition s = (o, s') → local s' = local s ∧ o ≠ Panic.
Proof.
  unfold updateConditions, UpdateStatusWithRetry. intros Hr%RetryOnConflict_spec.
  match type of Hr with retried ?body _ _ _ _ => assert (HB : ∀ s o s', body s = (o, s') → local s' = local s ∧ o ≠ Panic) end.
  { clear. intros s o s'. unfold reloadCR, mbind, M_bind, request, mret, M_ret, gets. cbn.
    destruct (perform _ (Get k name namespace) (world s)) as [[i|e] w1]; [|by intros [= <- <-]]. cbn.
    match goal with |- context [perform ?R ?c w1] => destruct (perform R c w1) as [[i'|e] w2] end; by intros [= <- <-]. }
  induction Hr as [n s o s' Hb|n s e s1 o s' Hb Hc Hr IH]; [by apply HB in Hb|].
  destruct IH as [El Ho]. apply HB in Hb as [El' _]. split; [congruence|done].
Qed.

Lemma same_updateConditions condition : same_local (updateConditions (W := W) (L := L) (k := k) name namespace now condition).
Proof. intros s. destruct (updateConditions name namespace now condition s) as [o s'] eqn:E. by apply updateConditions_local in E as [El _]. Qed.

Lemma same_UpdateStatusWithRetry (f : obj k → obj k) :
  same_local (UpdateStatusWithRetry (W := W) (L := L) (k := k) name namespace (λ instance, mret (f instance))).
Proof. intros s. destruct (UpdateStatusWithRetry _ _ _ s) as [o s'] eqn:E. by apply UpdateStatusWithRetry_pure in E as [El _]. Qed.

Lemma same_GetStatus : same_local (GetStatus (W := W) (L := L) (k := k) name namespace).
Proof. unfold GetStatus, reloadCR. same_local_auto. Qed.

End rules.

#[export] Hint Resolve same_updateConditions same_UpdateStatusWithRetry same_GetStatus : operator.

(** ** The two resources *)

Global Instance kafka_conditioned : Conditioned KKafka := {|
  NewCondition := λ conditionStatus conditionType conditionReason conditionMessage,
    KafkaV1.mkStatusCondition conditionType conditionStatus conditionReason conditionMessage "";
  c_Type := KafkaV1.StatusCondition_Type;
  c_Status := KafkaV1.StatusCondition_Status;
  c_Reason := KafkaV1.StatusCondition_Reason;
  c_Message := KafkaV1.StatusCondition_Message;
  set_LastTransitionTime := λ t c,
    KafkaV1.mkStatusCondition (KafkaV1.StatusCondition_Type c) (KafkaV1.StatusCondition_Status c)
      (KafkaV1.StatusCondition_Reason c) (KafkaV1.StatusCondition_Message c) t;
  get_Status := KafkaV1.Kafka_Status : obj KKafka → KafkaV1.KafkaStatus;
  set_Status := KafkaV1.set_Kafka_Status;
  Conditions := KafkaV1.KafkaStatus_Conditions;
  set_Conditions := KafkaV1.set_KafkaStatus_Conditions;
  c_Reason_set := λ _ _, eq_refl;
  c_Type_set := λ _ _, eq_refl;
  c_Status_set := λ _ _, eq_refl;
  c_Message_set := λ _ _, eq_refl;
  get_set_Status := λ _ _, eq_refl;
  get_set_Conditions := λ _ _, eq_refl;
|}.

Global Instance kafkaservice_conditioned : Conditioned KKafkaService := {|
  NewCondition := λ conditionStatus conditionType conditionReason conditionMessage,
    ServiceV7.mkStatusCondition conditionType conditionStatus conditionReason conditionMessage "";
  c_Type := ServiceV7.StatusCondition_Type;
  c_Status := ServiceV7.StatusCondition_Status;
  c_Reason := ServiceV7.StatusCondition_Reason;
  c_Message := ServiceV7.StatusCondition_Message;
  set_LastTransitionTime := λ t c,
    ServiceV7.mkStatusCondition (ServiceV7.StatusCondition_Type c) (ServiceV7.StatusCondition_Status c)
      (ServiceV7.StatusCondition_Reason c) (ServiceV7.StatusCondition_Message c) t;
  get_Status := ServiceV7.KafkaService_Status : obj KKafkaService → ServiceV7.KafkaServiceStatus;
  set_Status := ServiceV7.set_KafkaService_Status;
  Conditions := ServiceV7.KafkaServiceStatus_Conditions;
  set_Conditions := ServiceV7.set_KafkaServiceStatus_Conditions;
  c_Reason_set := λ _ _, eq_refl;
  c_Type_set := λ _ _, eq_refl;
  c_Status_set := λ _ _, eq_refl;
  c_Message_set := λ _ _, eq_refl;
  get_set_Status := λ _ _, eq_refl;
  get_set_Conditions := λ _ _, eq_refl;
|}.

(** ** Witness *)

#[local] Existing Instance retry_default.

Definition example_service : ServiceV7.KafkaService :=
  ServiceV7.mkKafkaService "netcracker.com/v7" (newMeta "kafka" "ns" ∅ ∅)
    (ServiceV7.mkKafkaServiceSpec None None None None None None None None None None)
    (ServiceV7.mkKafkaServiceStatus (ServiceV7.mkKafkaStatus []) (ServiceV7.mkPartitionsReassignmentStatus "")
       (ServiceV7.mkAkhqStatus []) (ServiceV7.mkMonitoringStatus []) (ServiceV7.mkMirrorMakerStatus [])
       (ServiceV7.mkVaultSecretManagementStatus ∅) (ServiceV7.mkDisasterRecoveryStatus "" "" "" "")
       [ServiceV7.mkStatusCondition "Failed" "False" "ReconcileCycle" "broken" "yesterday"]).

Definition run_update : outcome unit * St Cluster unit :=
  updateConditions (k := KKafkaService) "kafka" "ns" (λ _, "today")
    (NewCondition (k := KKafkaService) statusTrue typeReady "ReconcileCycle" "done")
    (start (store KKafkaService example_service empty_cluster) ()).

Lemma updateConditions_writes_witness :
  ∃ tr o t answer,
    let written := addCondition (k := KKafkaService) (Conditions (get_Status o))
      (set_LastTransitionTime t (NewCondition (k := KKafkaService) statusTrue typeReady "ReconcileCycle" "done")) in
    trace run_update.2 = [] ++ tr ++
      [Ev (Get KKafkaService "kafka" "ns") (inl o);
       Ev (StatusUpdate KKafkaService (set_Status (set_Conditions written (get_Status o)) o)) (inl answer)] ∧
    local run_update.2 = tt ∧
    (NoDup (c_Reason <$> Conditions (get_Status o)) → NoDup (c_Reason <$> written)) ∧
    ∃ c, c ∈ written ∧ says c (NewCondition (k := KKafkaService) statusTrue typeReady "ReconcileCycle" "done").
Proof.
  apply (updateConditions_writes (k := KKafkaService) "kafka" "ns" (λ _, "today")
    (NewCondition (k := KKafkaService) statusTrue typeReady "ReconcileCycle" "done")
    (start (store KKafkaService example_service empty_cluster) ()) run_update.2).
  assert (HE : run_update.1 = Ret tt) by (vm_compute; reflexivity).
  rewrite <- HE. exact (surjective_pairing run_update).
Defined.
