(* ===== verification/KafkaBrokers.v ===== *)
(** * The reconciler of the brokers

    Source: operator/controllers/kafka/kafka_reconciler.go.  It brings the services, claims and
    deployments of the brokers in line with a Kafka resource: it creates them, rolls changes out
    broker by broker or all at once, restarts brokers whose volumes are resized, migrates a cluster
    from ZooKeeper to KRaft in steps that are recorded in the status, has partitions reassigned
    when the cluster grows, and keeps the users of the brokers in line with the secret.

    Two loops have no bound of their own in the code: the restarts of a broker until its volume has
    grown, and the description of topics in the Kafka client.  [turns] is how often each of them may
    go round; [None] is a run that has not ended by then. *)

From S2P Require Import Prelude GoStrings Util Transformation Kube Api Providers KafkaProvider.
From S2P Require Import External Cluster Reconciler KafkaClient Conditions.

Import KafkaV1 KafkaObjects.

(** The maps of the reconciler. *)
Record KafkaState := mkKafkaState { ResourceHashes : strmap; ResourceVersions : strmap }.

Definition set_hash (key hash : string) (l : KafkaState) : KafkaState :=
  mkKafkaState (<[key := hash]> (ResourceHashes l)) (ResourceVersions l).

Definition set_version (key version : string) (l : KafkaState) : KafkaState :=
  mkKafkaState (ResourceHashes l) (<[key := version]> (ResourceVersions l)).

Definition kafkaConditionReason : string := "KafkaReadinessStatus".
Definition kafkaHashName : string := "spec".
Definition kafkaAdminCredsHashName : string := "secret-admin-creds".
Definition kafkaClientCredsHashName : string := "secret-client-creds".
Definition autoRestartAnnotation : string := "kafkaservice.netcracker.com/auto-restart".
Definition resourceVersionAnnotation (name : string) : string := name +:+ "/resource-version".
Definition kraftMigrationControllerTroubleshootingURL : string :=
  "/docs/public/troubleshooting.md#kraft-migration-controller-is-not-ready".

Definition ErrNoKafkaPods : gerror := errorf "no Kafka pods found".

Definition kafka_owner (cr : Kafka) : OwnerObject := mkOwnerObject (Kafka_APIVersion cr) "Kafka" (cr_Name cr) (cr_Namespace cr).

(** Goes on with the result of code that has ended. *)
Definition ended {S A B} (m : M S (option A)) (f : A → M S (option B)) : M S (option B) :=
  r ← m;
  match r with Some a => f a | None => mret None end.

(** Code on a Kafka client of its own. *)
Definition with_client {W L A} (kc : KafkaClient) (m : M (St W KafkaClient) A) : M (St W L) A := λ s,
  let '(o, s1) := m (mkSt (world s) (trace s) kc) in (o, mkSt (world s1) (trace s1) (local s)).

(** ** Checks of the specification *)

Definition checkParamsForExternalAccess (cr : Kafka) (replicasCount : Z) : outcome unit :=
  let externalHostNamesCount := Z.of_nat (length (KafkaSpec_ExternalHostNames (Kafka_Spec cr))) in
  let externalPortsCount := Z.of_nat (length (KafkaSpec_ExternalPorts (Kafka_Spec cr))) in
  if decide (0 < externalHostNamesCount) then
    if decide (externalHostNamesCount ≠ replicasCount) then Error (errorf "the number of external host names must be equal to replicas")
    else if decide (0 < externalPortsCount ∧ externalPortsCount ≠ replicasCount) then
      Error (errorf "external ports must be empty or their number must be equal to replicas")
    else Ret tt
  else Ret tt.

Definition isGetRacksFromNodeLabelsEnabled (cr : Kafka) : bool := flag (KafkaSpec_GetRacksFromNodeLabels (Kafka_Spec cr)).

Definition checkRacksConfig (cr : Kafka) (replicasCount : Z) : outcome unit :=
  if isGetRacksFromNodeLabelsEnabled cr then
    let nodesCount := Z.of_nat (length (Storage_Nodes (storage cr))) in
    if decide (KafkaSpec_NodeLabelNameForRack (Kafka_Spec cr) = "" ∨ nodesCount ≠ replicasCount) then
      Error (errorf "when GetRacksFromNodeLabels=true, nodeLabelNameForRack and Storage.Nodes must be specified")
    else Ret tt
  else
    let racksCount := Z.of_nat (length (KafkaSpec_Racks (Kafka_Spec cr))) in
    if decide (0 < racksCount ∧ racksCount ≠ replicasCount) then Error (errorf "the number of Racks must be equal to replicas")
    else Ret tt.

(** ** Credentials *)

Definition nul : string := String "000"%char EmptyString.

Definition secretCredsHash `{Digest} (secret : Secret) (usernameKey passwordKey : string) : string :=
  let username := sget (secret_Data secret) usernameKey in
  let password := sget (secret_Data secret) passwordKey in
  StringHash (usernameKey +:+ nul +:+ username +:+ nul +:+ passwordKey +:+ nul +:+ password).

Definition adminHash `{Digest} (secret : Secret) : string := secretCredsHash secret "admin-username" "admin-password".
Definition clientHash `{Digest} (secret : Secret) : string := secretCredsHash secret "client-username" "client-password".

(** A hash is known, and it is another one. *)
Definition hash_changed (l : KafkaState) (key hash : string) : bool :=
  negb (bool_decide (sget (ResourceHashes l) key = "")) && negb (bool_decide (sget (ResourceHashes l) key = hash)).

Definition admin_changed `{Digest} (l : KafkaState) (secret : Secret) : bool := hash_changed l kafkaAdminCredsHashName (adminHash secret).
Definition client_changed `{Digest} (l : KafkaState) (secret : Secret) : bool := hash_changed l kafkaClientCredsHashName (clientHash secret).

(** The users to write into Kafka. *)
Definition scram_users `{Digest} (l : KafkaState) (secret : Secret) : list (string * string) :=
  let data := sget (secret_Data secret) in
  (if admin_changed l secret then [(data "admin-username", data "admin-password")] else [])
  ++ (if client_changed l secret && negb (bool_decide (data "client-username" = "")) then
        [(data "client-username", data "client-password")] else []).

Definition quote : string := String "039"%char EmptyString.
Definition dquote : string := String "034"%char EmptyString.

(** Within single quotes: a quote ends the quotation, stands between double quotes, and starts a new one. *)
Definition escape (s : string) : string := ReplaceAll s quote (quote +:+ dquote +:+ quote +:+ dquote +:+ quote).

(** The script around the two words that hold the credentials. *)
Definition scram_head : string :=
  nl +:+ "adminclient=" +:+ dquote +:+ "${KAFKA_HOME}/bin/adminclient.properties" +:+ dquote +:+ nl +:+
  "if [ -f /tmp/kafka/bin/adminclient.properties ]; then" +:+ nl +:+
  "  adminclient=/tmp/kafka/bin/adminclient.properties" +:+ nl +:+
  "fi" +:+ nl +:+
  "${KAFKA_HOME}/bin/kafka-configs.sh --bootstrap-server localhost:9092 \" +:+ nl +:+
  "  --command-config " +:+ dquote +:+ "$adminclient" +:+ dquote +:+ " \" +:+ nl +:+
  "  --alter --entity-type users --entity-name ".

Definition scram_middle : string := " \" +:+ nl +:+ "  --add-config ".

Definition scram_setting (password : string) : string := "SCRAM-SHA-512=[password=" +:+ password +:+ "]".

Definition scram_script (username password : string) : string :=
  scram_head +:+ (quote +:+ escape username +:+ quote) +:+ scram_middle +:+ (quote +:+ scram_setting (escape password) +:+ quote) +:+ nl.

(** strconv.ParseBool *)
Definition ParseBool (str : string) : outcome bool :=
  if decide (str ∈ ["1"; "t"; "T"; "true"; "TRUE"; "True"]) then Ret true
  else if decide (str ∈ ["0"; "f"; "F"; "false"; "FALSE"; "False"]) then Ret false
  else Error (errorf ("strconv.ParseBool: parsing " +:+ dquote +:+ str +:+ dquote +:+ ": invalid syntax")).

(** ** Volumes *)

Definition resizing : list string := ["Resizing"; "FileSystemResizePending"].

Definition pvcResizePending (pvc : PersistentVolumeClaim) : bool :=
  existsb (λ condition, bool_decide (condition ∈ resizing)) (pvc_Conditions pvc).

Definition capacity (pvc : PersistentVolumeClaim) : Z := default 0 (pvc_Capacity pvc !! "storage").

(** The seconds between scaling down and up, doubled each time, computed in nanoseconds. *)
Definition resize_delay (attempt : Z) : Z := int64_wrap (10 * 10 ^ 9 * int64_wrap (Z.shiftl 1 (attempt - 1))) / 10 ^ 9.

(** ** The migration to KRaft *)

Definition initial_step : string := "Initial step".
Definition created_controller : string := "Created Kraft controller with connection to ZooKeeper".
Definition migrated_metadata : string := "Migrated metadata from ZooKeeper to Kraft in controller".
Definition removed_zookeeper : string := "Removed ZooKeeper connection and created Kraft cluster".
Definition migration_finished : string := "Migration finished succesfully".

Definition migration_status (o : Kafka) : string :=
  KraftMigrationStatus_Status (KafkaStatus_KraftMigrationStatus (Kafka_Status o)).

(** How many steps a status says are done. *)
Definition migration_step (status : string) : Z :=
  if decide (status = created_controller) then 1
  else if decide (status = migrated_metadata) then 2
  else if decide (status = removed_zookeeper) then 3
  else if decide (status = migration_finished) then 4
  else 0.

Definition set_migration_status (status : string) (o : Kafka) : Kafka :=
  set_Kafka_Status (set_KafkaStatus_KraftMigrationStatus (mkKraftMigrationStatus status) (Kafka_Status o)) o.

Definition set_reassignment_status (status : string) (o : Kafka) : Kafka :=
  set_Kafka_Status (set_KafkaStatus_PartitionsReassignmentStatus (mkPartitionsReassignmentStatus status) (Kafka_Status o)) o.

Definition set_brokers (podNames : list string) (o : Kafka) : Kafka :=
  set_Kafka_Status (set_KafkaStatus_KafkaBrokerStatus (mkKafkaBrokerStatus podNames) (Kafka_Status o)) o.

Definition reassignment_status (o : Kafka) : string :=
  PartitionsReassignmentStatus_Status (KafkaStatus_PartitionsReassignmentStatus (Kafka_Status o)).

(** Variables after those of the container. *)
Definition add_envs (envs : list EnvVar) (c : Container) : Container :=
  mkContainer (container_Name c) (container_Image c) (container_Command c) (container_Args c) (container_Ports c)
    (container_Env c ++ envs) (container_Resources c) (container_VolumeMounts c) (container_LivenessProbe c)
    (container_ReadinessProbe c) (container_ImagePullPolicy c) (container_SecurityContext c).

Definition set_ps_Containers (v : list Container) (r : PodSpec) : PodSpec :=
  mkPodSpec (ps_Volumes r) (ps_InitContainers r) v (ps_SecurityContext r) (ps_ServiceAccountName r)
    (ps_TerminationGracePeriodSeconds r) (ps_Hostname r) (ps_Subdomain r) (ps_Affinity r) (ps_Tolerations r) (ps_PriorityClassName r).

(** [deployment.Spec.Template.Spec.Containers[0].Env = append(…)] *)
Definition add_deployment_envs (envs : list EnvVar) (d : Deployment) : outcome Deployment :=
  match dep_Containers d with
  | [] => Panic
  | c :: cs =>
      let tmpl := dep_Template d in
      Ret (set_dep_Template (mkTemplate (tmpl_Labels tmpl) (tmpl_Annotations tmpl) (set_ps_Containers (add_envs envs c :: cs) (tmpl_Spec tmpl))) d)
  end.

Definition addDeploymentAnnotation (name value : string) (d : Deployment) : Deployment :=
  set_dep_Template (set_tmpl_Annotations (<[name := value]> (tmpl_Annotations (dep_Template d))) (dep_Template d)) d.

(** The deployment of a broker during the migration: before the metadata is migrated it connects to
    ZooKeeper and has the controller as its only voter; after that it is a voter itself. *)
Definition migration_deployment (range : strmap → list (string * string)) (cr : Kafka) (brokerId replicas : Z) (rack zkClusterID : string)
    (migrated : bool) : outcome Deployment :=
  d ← NewKafkaBrokerDeploymentForCR range cr brokerId rack migrated zkClusterID;
  add_deployment_envs
    (if migrated then [mkEnv "VOTERS" (Join (broker_voters cr replicas ++ [controller_voter cr]) ",")]
     else [mkEnv "MIGRATION_BROKER" "true"; mkEnv "VOTERS" (controller_voter cr)]) d.

(** ** Operations *)

Section reconciler.
Context `{Env W} `{Retry} `{Polling} `{Library} `{Quantities} `{Digest} `{Marshaler KafkaSpec} `{Sorter}.
Context (now : W → string) (range : strmap → list (string * string)) (X509KeyPair : string → string → option gerror).
Context (turns : nat) (cr : Kafka).

Abbreviation run := (M (St W KafkaState)).

Definition update_status (f : Kafka → Kafka) : run unit :=
  UpdateStatusWithRetry (k := KKafka) (cr_Name cr) (cr_Namespace cr) (λ instance, mret (f instance)).

Definition condition (status type message : string) : run unit :=
  updateConditions (k := KKafka) (cr_Name cr) (cr_Namespace cr) now
    (NewCondition (k := KKafka) status type kafkaConditionReason message).

(** *** Commands in pods *)

Definition runCommandInPod (podName container namespace : string) (command : list string) : run string :=
  request NewForConfig;;
  r ← try (request (NewSPDYExecutor podName container namespace command));
  match r with
  | inr err => throw (errorf ("unable execute command via SPDY: " +:+ err_msg err))
  | inl _ =>
      r ← try (request (ExecStream podName container namespace command));
      match r with
      | inr err =>
          if Contains_str (err_msg err) "command terminated with exit code 127" then
            throw (errorf ("the command [" +:+ Join command " " +:+ "] is not found in '" +:+ podName +:+ "' pod"))
          else throw (errorf ("there is a problem during command execution: " +:+ err_msg err))
      | inl (execOut, execErr) =>
          if negb (bool_decide (execErr = "")) && negb (Contains_str execErr "zookeeper.ssl.keyStore.location not specified") then
            throw (errorf ("there is a problem during command execution: " +:+ execErr))
          else mret execOut
      end
  end.

Definition shell (script : string) : list string := ["/bin/sh"; "-c"; script].

(** [None] is the error [ErrNoKafkaPods]. *)
Definition getZooKeeperClusterID : run (option string) :=
  foundPodList ← FindPodList (cr_Namespace cr) (GetSelectorLabels cr);
  match GetActualPodNames foundPodList with
  | [] => mret None
  | podName :: _ =>
      zkClusterID ← runCommandInPod podName "kafka" (cr_Namespace cr) (shell "${KAFKA_HOME}/bin/get-cluster-id.sh");
      mret (Some (TrimSpace zkClusterID))
  end.

Definition env_cluster_id (pod : Pod) : option string :=
  match pod_Containers pod with
  | [] => None
  | c :: _ => env_Value <$> head (filter (λ e, env_Name e = "KRAFT_CLUSTER_ID" ∧ env_Value e ≠ "") (container_Env c))
  end.

Definition resolveClusterID : run (option string) :=
  podList ← FindPodList (cr_Namespace cr) (GetSelectorLabels cr);
  match podList with
  | [] => mret None
  | pod :: _ => match env_cluster_id pod with Some id => mret (Some id) | None => getZooKeeperClusterID end
  end.

Definition getMigrationStatus : run bool :=
  r ← try (FindPodList (cr_Namespace cr) (controller_selector cr));
  match r with
  | inr _ => mret false
  | inl foundPodList =>
      podName ← lift (index (GetActualPodNames foundPodList) 0);
      r ← try (runCommandInPod podName "kafka" (cr_Namespace cr) (shell "${KAFKA_HOME}/bin/get-kraft-migration-status.sh"));
      match r with
      | inr _ => mret false
      | inl status => mret (bool_decide (TrimSpace status = "true"))
      end
  end.

Definition updateScramUserInPod (podName username password : string) : run unit :=
  _ ← runCommandInPod podName "kafka" (cr_Namespace cr) (shell (scram_script username password));
  mret tt.

Definition syncScramCredentials (kafkaSecret : Secret) : run unit :=
  if decide (sget (secret_Data kafkaSecret) "admin-username" = "" ∨ sget (secret_Data kafkaSecret) "admin-password" = "") then mret tt
  else
    pods ← FindPodList (cr_Namespace cr) (GetSelectorLabels cr);
    match GetFirstAvailablePod pods with
    | None => mret tt
    | Some pod =>
        l ← get_local;
        for_each (λ '(name, password),
          r ← try (updateScramUserInPod (Name (pod_meta pod)) name password);
          match r with
          | inr err => throw (mkErr (err_reason err) ("failed to update SCRAM credentials in pod " +:+ Name (pod_meta pod) +:+ ": " +:+ err_msg err))
          | inl _ => mret tt
          end) (scram_users l kafkaSecret)
    end.

(** *** Waiting *)

(** A pause, then the check of the deployments of some labels at each interval. *)
Definition wait_ready (labels : strmap) (maxWaitingInterval : Z) : run unit :=
  _ ← try (request (Sleep waitingInterval));
  PollImmediate waitingInterval maxWaitingInterval (AreDeploymentsReady labels (cr_Namespace cr)).

Definition broker_labels (brokerId : Z) : strmap := <["name" := broker_name cr brokerId]> (GetSelectorLabels cr).

Definition waitUntilBrokerIsReady (brokerId maxWaitingInterval : Z) : run unit := wait_ready (broker_labels brokerId) maxWaitingInterval.

Definition waitUntilAllBrokersReady (maxWaitingInterval : Z) : run unit := wait_ready (GetSelectorLabels cr) maxWaitingInterval.

Definition waitUntilControllerIsReady (maxWaitingInterval : Z) : run unit :=
  r ← try (wait_ready (controller_selector cr) maxWaitingInterval);
  match r with
  | inr err => throw (mkErr (err_reason err)
      ("kraft migration controller is not ready. See troubleshooting: " +:+ kraftMigrationControllerTroubleshootingURL +:+ ": " +:+ err_msg err))
  | inl _ => mret tt
  end.

Definition waitUntilMigrationCompleted (maxWaitingInterval : Z) : run unit :=
  _ ← try (request (Sleep waitingInterval));
  PollImmediate waitingInterval maxWaitingInterval getMigrationStatus.

(** *** Volumes that grow *)

Definition brokerPVC {L} (brokerID : Z) : M (St W L) PersistentVolumeClaim :=
  GetPersistentVolumeClaim (persistentVolumeClaimName (cr_Name cr) brokerID) (cr_Namespace cr).

(** A turn of the wait for the state of a claim, with the variable [restartRequired]. *)
Definition resize_state_turn (brokerID desired : Z) : M (St W (KafkaState * bool)) bool :=
  r ← try (brokerPVC brokerID);
  match r with
  | inr err => if IsNotFound err then mret false else throw err
  | inl pvc =>
      if decide (desired ≤ capacity pvc) then mret true
      else if pvcResizePending pvc then set_var true;; mret true
      else mret false
  end.

Definition waitForBrokerPVCResizeState (brokerID desired : Z) : run bool :=
  '(_, restartRequired) ← with_var false (PollImmediate 1 120 (resize_state_turn brokerID desired));
  mret restartRequired.

(** A turn of the wait for the capacity, with the variable [resized]. *)
Definition capacity_turn (brokerID desired : Z) : M (St W (KafkaState * bool)) bool :=
  r ← try (brokerPVC brokerID);
  match r with
  | inr err => if IsNotFound err then mret false else throw err
  | inl pvc => if decide (desired ≤ capacity pvc) then set_var true;; mret true else mret false
  end.

Definition waitForBrokerPVCCapacity (brokerID desired timeout : Z) : run bool :=
  r ← try (with_var false (PollImmediate 1 timeout (capacity_turn brokerID desired)));
  match r with
  | inl (_, resized) => mret resized
  | inr err => if decide (err_reason err = ReasonDeadline) then mret false else throw err
  end.

Definition waitUntilBrokerPodsDeleted (brokerID : Z) : run unit :=
  PollImmediate 1 120 (
    pods ← FindPodList (cr_Namespace cr) (broker_labels brokerID);
    mret (bool_decide (pods = []))).

Definition resize_timeout (brokerID : Z) : gerror := errorf ("timeout waiting for broker " +:+ itoa brokerID +:+ " PVC resize").

(** [select] with the end of the context: an error when the context ends first. *)
Definition await (brokerID seconds : Z) : run unit :=
  r ← try (request (AwaitContext seconds));
  match r with inl true => mret tt | _ => throw (resize_timeout brokerID) end.

Fixpoint resize_loop (fuel : nat) (brokerID desired attempt : Z) : run (option unit) :=
  match fuel with
  | O => mret None
  | S fuel =>
      await brokerID 0;;
      ScaleDeployment (broker_name cr brokerID) 0 (cr_Namespace cr);;
      waitUntilBrokerPodsDeleted brokerID;;
      await brokerID (resize_delay attempt);;
      ScaleDeployment (broker_name cr brokerID) 1 (cr_Namespace cr);;
      resized ← waitForBrokerPVCCapacity brokerID desired 30;
      if (resized : bool) then waitUntilBrokerIsReady brokerID 300;; mret (Some tt)
      else resize_loop fuel brokerID desired (attempt + 1)
  end.

Definition scaleBrokerForPVCResize (brokerID desired : Z) : run (option unit) := resize_loop turns brokerID desired 1.

Definition restartBrokerAfterPVCResize (brokerID : Z) : run (option unit) :=
  if decide (Storage_Size (storage cr) = "") then mret (Some tt)
  else
    desired ← lift (match ParseQuantity (Storage_Size (storage cr)) with inl q => Ret q | inr err => Error err end);
    r ← try (brokerPVC brokerID);
    match r with
    | inr err => if IsNotFound err then mret (Some tt) else throw err
    | inl pvc =>
        if decide (desired ≤ capacity pvc) then mret (Some tt)
        else
          restartRequired ← waitForBrokerPVCResizeState brokerID desired;
          if (restartRequired : bool) then scaleBrokerForPVCResize brokerID desired else mret (Some tt)
    end.

(** *** The deployment of a broker *)

Definition getRack (brokerId : Z) : run string :=
  if isGetRacksFromNodeLabelsEnabled cr then
    node ← lift (broker_item (Storage_Nodes (storage cr)) brokerId);
    GetNodeLabel node (KafkaSpec_NodeLabelNameForRack (Kafka_Spec cr))
  else if decide (KafkaSpec_Racks (Kafka_Spec cr) = []) then mret ""
  else lift (broker_item (KafkaSpec_Racks (Kafka_Spec cr)) brokerId).

(** The controller reference is set on a copy of a typed object. *)
Definition apply_service (service : Service) : run unit :=
  _ ← lift (SetControllerReference (kafka_owner cr) (Typed (svc_meta service)));
  CreateOrUpdateService service.

Definition apply_deployment (deployment : Deployment) : run unit :=
  _ ← lift (SetControllerReference (kafka_owner cr) (Typed (dep_meta deployment)));
  CreateOrUpdateDeployment deployment.

Definition apply_claim (claim : option PersistentVolumeClaim) : run unit :=
  match claim with
  | None => mret tt
  | Some pvc => CreatePersistentVolumeClaim pvc (PVCStatus_Annotations (KafkaStatus_PVCStatus (Kafka_Status cr)))
  end.

Definition restart_on_secret (l : KafkaState) (kafkaSecret : Secret) : bool :=
  admin_changed l kafkaSecret || client_changed l kafkaSecret
  || bool_decide (sget (Annotations (secret_meta kafkaSecret)) autoRestartAnnotation = "true").

Definition rolloutBroker (brokerId : Z) (kraft : bool) (kafkaSecret : Secret) : run unit :=
  apply_service (NewKafkaBrokerServiceForCR cr brokerId);;
  persistentVolumeClaim ← lift (NewKafkaPersistentVolumeClaimForCR cr brokerId);
  apply_claim persistentVolumeClaim;;
  rack ← getRack brokerId;
  clusterID ← (if kraft then id ← resolveClusterID; mret (default "" id) else mret "");
  brokerDeployment ← lift (NewKafkaBrokerDeploymentForCR range cr brokerId rack kraft clusterID);
  _ ← lift (SetControllerReference (kafka_owner cr) (Typed (dep_meta brokerDeployment)));
  l ← get_local;
  let brokerDeployment :=
    if restart_on_secret l kafkaSecret then
      addDeploymentAnnotation (resourceVersionAnnotation (Name (secret_meta kafkaSecret))) (ResourceVersion (secret_meta kafkaSecret)) brokerDeployment
    else brokerDeployment in
  CreateOrUpdateDeployment brokerDeployment.

Fixpoint rollout_each (kraft waitForEachBroker : bool) (kafkaSecret : Secret) (brokers : list Z) : run (option unit) :=
  match brokers with
  | [] => mret (Some tt)
  | brokerId :: brokers =>
      rolloutBroker brokerId kraft kafkaSecret;;
      ended (restartBrokerAfterPVCResize brokerId) (λ _,
        (if waitForEachBroker then waitUntilBrokerIsReady brokerId 300 else mret tt);;
        rollout_each kraft waitForEachBroker kafkaSecret brokers)
  end.

(** [rollingUpdate] is the flag of the specification, which the caller may have turned off. *)
Definition rolloutBrokers (rollingUpdate : bool) (replicas : Z) (kraft : bool) (kafkaSecret : Secret) : run (option unit) :=
  l ← get_local;
  let adminChanged := admin_changed l kafkaSecret in
  ended (rollout_each kraft (rollingUpdate && negb adminChanged) kafkaSecret (range_incl 1 replicas)) (λ _,
    (if adminChanged then waitUntilAllBrokersReady (KafkaSpec_PodsReadyTimeout (Kafka_Spec cr)) else mret tt);;
    mret (Some tt)).

Fixpoint count_running (deployments : list Deployment) : outcome Z :=
  match deployments with
  | [] => Ret 0
  | d :: deployments =>
      replicas ← deref (dep_Replicas d);
      n ← count_running deployments;
      Ret (if decide (0 < replicas) then n + 1 else n)
  end.

Definition getCurrentDeploymentsCount : run Z :=
  deployments ← FindKafkaDeployments (Kafka_meta cr);
  lift (count_running deployments).

Definition isRollingUpdateApplicable (currentReplicas : Z) : run bool :=
  if decide (currentReplicas < 3) then mret false
  else
    deployments ← FindKafkaDeployments (Kafka_meta cr);
    first ← lift (index deployments 0);
    previousTLSEnabledValue ← lift (GetDeploymentParameterWithDefault first "ENABLE_SSL" "false");
    previousTLSEnabled ← lift (ParseBool previousTLSEnabledValue);
    mret (bool_decide (previousTLSEnabled = Ssl_Enabled (KafkaSpec_Ssl (Kafka_Spec cr)))).

Definition performBrokerScalingIn (currentReplicas requiredReplicas : Z) : run unit :=
  for_each (λ i, ScaleDeployment (broker_name cr i) 0 (cr_Namespace cr)) (range_incl (requiredReplicas + 1) currentReplicas).

(** *** The steps of the migration *)

Definition migration_timeout : Z := Kraft_MigrationTimeout (KafkaSpec_Kraft (Kafka_Spec cr)).

Definition updateBrokerDeploymentForMigration (brokerId replicas : Z) (zkClusterID : string) (migrated : bool) : run unit :=
  rack ← getRack brokerId;
  brokerDeployment ← lift (migration_deployment range cr brokerId replicas rack zkClusterID migrated);
  apply_deployment brokerDeployment.

Definition createMigrationControllerEntities (zkClusterID : string) : run unit :=
  apply_service (NewKafkaControllerServiceForCR cr);;
  persistentVolumeClaim ← lift (NewKafkaControllerPersistentVolumeClaimForCR cr);
  apply_claim persistentVolumeClaim;;
  controllerDeployment ← lift (NewKafkaKraftControllerDeploymentForCR range cr zkClusterID false true);
  apply_deployment controllerDeployment;;
  waitUntilControllerIsReady migration_timeout.

Definition removeMigrationControllerEntities (zkClusterID : string) : run unit :=
  DeleteService (NewKafkaControllerServiceForCR cr);;
  persistentVolumeClaim ← lift (NewKafkaControllerPersistentVolumeClaimForCR cr);
  match persistentVolumeClaim with Some pvc => DeletePersistentVolumeClaim pvc | None => mret tt end;;
  controllerDeployment ← lift (NewKafkaKraftControllerDeploymentForCR range cr zkClusterID false true);
  DeleteDeployment controllerDeployment.

Definition updateMigrationControllerWithoutZooKeeper (zkClusterID : string) : run unit :=
  controllerDeployment ← lift (NewKafkaKraftControllerDeploymentForCR range cr zkClusterID true false);
  apply_deployment controllerDeployment;;
  waitUntilControllerIsReady migration_timeout.

Definition not_found_message : string :=
  "kraft migration controller deployment " +:+ dquote +:+ controller_name cr +:+ dquote +:+ " was not found. See troubleshooting: "
  +:+ kraftMigrationControllerTroubleshootingURL.

Definition not_ready_message : string :=
  "kraft migration controller deployment " +:+ dquote +:+ controller_name cr +:+ dquote +:+
  " is not ready yet. Wait until its readiness probe succeeds before continuing migration. See troubleshooting: "
  +:+ kraftMigrationControllerTroubleshootingURL.

Definition ensureMigrationControllerIsReady : run unit :=
  r ← try (FindDeployment (controller_name cr) (cr_Namespace cr));
  match r with
  | inr err => if IsNotFound err then throw (errorf not_found_message) else throw err
  | inl _ =>
      ready ← AreDeploymentsReady (controller_selector cr) (cr_Namespace cr);
      if (ready : bool) then mret tt else throw (errorf not_ready_message)
  end.

Definition updateBrokersAndWaitMigrationResult (zkClusterID : string) (currentReplicas : Z) : run unit :=
  for_each (λ brokerId,
    updateBrokerDeploymentForMigration brokerId currentReplicas zkClusterID false;;
    waitUntilBrokerIsReady brokerId migration_timeout) (range_incl 1 currentReplicas);;
  waitUntilMigrationCompleted migration_timeout.

Definition wait_each (currentReplicas : Z) : run unit :=
  for_each (λ brokerId, waitUntilBrokerIsReady brokerId migration_timeout) (range_incl 1 currentReplicas).

Definition updateBrokersWithoutZooKeeper (zkClusterID : string) (currentReplicas : Z) : run unit :=
  for_each (λ brokerId, updateBrokerDeploymentForMigration brokerId currentReplicas zkClusterID true) (range_incl 1 currentReplicas);;
  wait_each currentReplicas.

Definition updateBrokersWithoutKraftMigrationController (zkClusterID : string) (currentReplicas : Z) : run unit :=
  for_each (λ brokerId,
    rack ← getRack brokerId;
    brokerDeployment ← lift (NewKafkaBrokerDeploymentForCR range cr brokerId rack true zkClusterID);
    apply_deployment brokerDeployment) (range_incl 1 currentReplicas);;
  wait_each currentReplicas.

Definition step_below {A} (step n : Z) (m : run A) (otherwise : A) : run A := if decide (step < n) then m else mret otherwise.

(** The identifier of the cluster is needed until the migration is finished. *)
Definition migration_cluster_id (step : Z) : run string :=
  step_below step 4 (
    id ← getZooKeeperClusterID;
    match id with Some id => mret id | None => throw ErrNoKafkaPods end) "".

Definition first_step (step : Z) (zkClusterID : string) : run unit :=
  step_below step 1 (
    createMigrationControllerEntities zkClusterID;;
    update_status (set_migration_status created_controller)) tt.

Definition second_step (step : Z) (zkClusterID : string) (currentReplicas : Z) : run unit :=
  step_below step 2 (
    ensureMigrationControllerIsReady;;
    updateBrokersAndWaitMigrationResult zkClusterID currentReplicas;;
    update_status (set_migration_status migrated_metadata)) tt.

Definition third_step (step : Z) (zkClusterID : string) (currentReplicas : Z) : run unit :=
  step_below step 3 (
    updateBrokersWithoutZooKeeper zkClusterID currentReplicas;;
    updateMigrationControllerWithoutZooKeeper zkClusterID;;
    update_status (set_migration_status removed_zookeeper)) tt.

Definition fourth_step (step : Z) (zkClusterID : string) (currentReplicas : Z) : run unit :=
  step_below step 4 (
    updateBrokersWithoutKraftMigrationController zkClusterID currentReplicas;;
    removeMigrationControllerEntities zkClusterID;;
    update_status (set_migration_status migration_finished)) tt.

Definition migrate_from (step currentReplicas : Z) : run unit :=
  zkClusterID ← migration_cluster_id step;
  first_step step zkClusterID;;
  second_step step zkClusterID currentReplicas;;
  third_step step zkClusterID currentReplicas;;
  fourth_step step zkClusterID currentReplicas.

(** From the step the status records; a status that cannot be read is a nil pointer. *)
Definition migrate (currentReplicas : Z) : run unit :=
  r ← try (GetStatus (k := KKafka) (cr_Name cr) (cr_Namespace cr));
  status ← lift (match r with inl status => Ret status | inr _ => Panic end);
  migrate_from (migration_step (KraftMigrationStatus_Status (KafkaStatus_KraftMigrationStatus status))) currentReplicas.

(** *** The reassignment of partitions *)

Definition getKafkaCredentials : run (string * string) :=
  foundSecret ← FindSecret (KafkaSpec_SecretName (Kafka_Spec cr)) (cr_Namespace cr);
  mret (sget (secret_Data foundSecret) "client-username", sget (secret_Data foundSecret) "client-password").

Definition getKafkaCertificates : run SslCertificates :=
  let ssl := KafkaSpec_Ssl (Kafka_Spec cr) in
  if Ssl_Enabled ssl && negb (bool_decide (Ssl_SecretName ssl = "")) then GetSslCertificates (Ssl_SecretName ssl) (cr_Namespace cr)
  else mret (Reconciler.mkSsl "" "" "").

Definition reassignPartitions (newBrokersCount : Z) (clusterScaling : bool) : run (option unit) :=
  if negb (IsReassignPartitionsEnabled cr clusterScaling) then
    update_status (set_reassignment_status "Disabled");; mret (Some tt)
  else if clusterScaling || negb (bool_decide (reassignment_status cr = "Finished")) then
    update_status (set_reassignment_status "In Progress");;
    '(username, password) ← getKafkaCredentials;
    sslCertificates ← getKafkaCertificates;
    kafkaClient ← NewKafkaClient X509KeyPair (GetServiceName cr) username password (Ssl_Enabled (KafkaSpec_Ssl (Kafka_Spec cr)))
      sslCertificates newBrokersCount (GetAllBrokersStartTimeoutSeconds cr) (GetTopicReassignmentTimeoutSeconds cr);
    ended (with_client kafkaClient (ReassignPartitions turns)) (λ _,
      update_status (set_reassignment_status "Finished");; mret (Some tt))
  else mret (Some tt).

(** An error is written into the status before it is returned. *)
Definition reassignPartitionsWithStatusUpdate (replicas : Z) (clusterScaling : bool) : run (option unit) :=
  r ← try (reassignPartitions replicas clusterScaling);
  match r with
  | inl o => mret o
  | inr err => update_status (set_reassignment_status "Failed");; throw err
  end.

(** *** All of it *)

Definition create_common : run unit :=
  apply_service (NewKafkaClientServiceForCR cr);;
  apply_service (NewKafkaDomainClientServiceForCR cr);;
  CreateSecret (NewEmptySecret cr (cr_Name cr +:+ "-trusted-certs"));;
  CreateSecret (NewEmptySecret cr (cr_Name cr +:+ "-public-certs"));;
  CreateOrUpdateServiceAccount (NewServiceAccount (GetServiceAccountName cr) (cr_Namespace cr) (KafkaSpec_DefaultLabels (Kafka_Spec cr))).

Definition scale_and_reassign (currentReplicas replicas : Z) : run (option unit) :=
  if decide (0 < currentReplicas < replicas) then reassignPartitionsWithStatusUpdate (int32_wrap replicas) true
  else
    ended (reassignPartitionsWithStatusUpdate (int32_wrap replicas) false) (λ _,
      (if decide (replicas < currentReplicas ∧ IsBrokerScalingInEnabled cr = true) then performBrokerScalingIn currentReplicas replicas
       else mret tt);;
      mret (Some tt)).

Definition processKafkaReplicas (kafkaSecret : Secret) : run (option unit) :=
  let kafkaSpec := Kafka_Spec cr in
  let replicas := KafkaSpec_Replicas kafkaSpec in
  lift (checkParamsForExternalAccess cr replicas);;
  lift (checkRacksConfig cr replicas);;
  create_common;;
  currentReplicas ← getCurrentDeploymentsCount;
  rollingUpdate ← (if KafkaSpec_RollingUpdate kafkaSpec then isRollingUpdateApplicable currentReplicas else mret false);
  (if Kraft_Migration (KafkaSpec_Kraft kafkaSpec) then migrate currentReplicas else mret tt);;
  ended (rolloutBrokers rollingUpdate replicas (kraft_enabled cr) kafkaSecret) (λ _, scale_and_reassign currentReplicas replicas).

Definition updateKafkaStatus : run unit :=
  foundPodList ← FindPodList (cr_Namespace cr) (GetSelectorLabels cr);
  update_status (set_brokers (sort_Strings (GetPodNames foundPodList))).

(** The services get the credentials of the client, also as those of their administrator; writing
    into data that is nil panics. *)
Definition services_data (kafkaSecret : Secret) (data : strmap) : strmap :=
  let get := sget (secret_Data kafkaSecret) in
  <["client-password" := get "client-password"]> (<["client-username" := get "client-username"]>
    (<["admin-password" := get "client-password"]> (<["admin-username" := get "client-username"]> data))).

Definition updateServicesSecret (kafkaSecret : Secret) : run unit :=
  r ← try (FindSecret (cr_Name cr +:+ "-services-secret") (cr_Namespace cr));
  match r with
  | inr err => if IsNotFound err then mret tt else throw err
  | inl kafkaServicesSecret =>
      if decide (secret_Data kafkaServicesSecret = ∅) then panic
      else UpdateSecret (set_secret_Data (services_data kafkaSecret (secret_Data kafkaServicesSecret)) kafkaServicesSecret)
  end.

Definition secret_version_known (l : KafkaState) (kafkaSecret : Secret) : bool :=
  bool_decide (sget (ResourceVersions l) (Name (secret_meta kafkaSecret)) = ResourceVersion (secret_meta kafkaSecret)).

Definition configuration_changed (l : KafkaState) (kafkaSecret : Secret) (kafkaSpecHash : string) : bool :=
  negb (bool_decide (sget (ResourceHashes l) kafkaHashName = kafkaSpecHash))
  || negb (bool_decide (Name (secret_meta kafkaSecret) = "")) && negb (secret_version_known l kafkaSecret).

Definition apply_configuration (l : KafkaState) (kafkaSecret : Secret) : run (option unit) :=
  (if negb (IsSecurityDisabled cr) && (client_changed l kafkaSecret || admin_changed l kafkaSecret) then syncScramCredentials kafkaSecret
   else mret tt);;
  ended (if decide (0 < KafkaSpec_Replicas (Kafka_Spec cr)) then processKafkaReplicas kafkaSecret else mret (Some tt)) (λ _,
    updateKafkaStatus;; mret (Some tt)).

Definition remember (kafkaSecret : Secret) (kafkaSpecHash : string) (l : KafkaState) : KafkaState :=
  set_hash kafkaClientCredsHashName (clientHash kafkaSecret) (set_hash kafkaAdminCredsHashName (adminHash kafkaSecret)
    (set_hash kafkaHashName kafkaSpecHash (set_version (Name (secret_meta kafkaSecret)) (ResourceVersion (secret_meta kafkaSecret)) l))).

Definition Reconcile : run (option unit) :=
  kafkaSecret ← WatchSecret (KafkaSpec_SecretName (Kafka_Spec cr)) (kafka_owner cr);
  kafkaSpecHash ← lift (Hash (Kafka_Spec cr));
  l ← get_local;
  ended (if configuration_changed l kafkaSecret kafkaSpecHash then apply_configuration l kafkaSecret else mret (Some tt)) (λ _,
    l ← get_local;
    (if secret_version_known l kafkaSecret then mret tt else updateServicesSecret kafkaSecret);;
    modify_local (remember kafkaSecret kafkaSpecHash);;
    mret (Some tt)).

Definition Status : run unit :=
  condition statusFalse typeInProgress "Kafka health check";;
  r ← try (PollImmediate waitingInterval (KafkaSpec_PodsReadyTimeout (Kafka_Spec cr)) (AreDeploymentsReady (GetSelectorLabels cr) (cr_Namespace cr)));
  match r with
  | inr _ => condition statusFalse typeFailed "Kafka pods are not ready"
  | inl _ => condition statusTrue typeReady "Kafka pods are ready"
  end.

End reconciler.
