(* ===== verification/KafkaMigration.v ===== *)
(** * The migration from ZooKeeper to KRaft: properties

    Of the migration in KafkaBrokers.v: a cluster keeps its connection to ZooKeeper until the
    controller of the migration reports that the metadata has been migrated. *)

From S2P Require Import Prelude GoStrings Util Transformation Kube Api Providers KafkaProvider.
From S2P Require Import External Cluster Reconciler KafkaClient Conditions KafkaBrokers.

Import KafkaV1 KafkaObjects KafkaObjectsProperties.

(** ** Writes of deployments *)

Definition as_deployment (k : kind) : obj k → option Deployment :=
  match k with KDeployment => Some | _ => λ _, None end.

(** The deployment an event creates or updates. *)
Definition written (e : event) : option Deployment :=
  match e with
  | Ev c _ => match c with Create k o | Update k o => as_deployment k o | _ => None end
  end.

(** The first container of a deployment connects to ZooKeeper. *)
Definition connects (d : Deployment) : Prop :=
  match dep_Containers d with c :: _ => "ZOOKEEPER_CONNECT" ∈ env_Name <$> container_Env c | [] => False end.

Definition disconnects (e : event) : Prop := ∃ d, written e = Some d ∧ ¬ connects d.

(** Code that writes no deployments emits [P] when everything but such writes satisfies it. *)
Section plain.
Context `{Env W} `{Retry} `{Polling} `{Library} `{Quantities} `{Digest} `{Marshaler KafkaSpec} `{Sorter}.
Context (now : W → string) (range : strmap → list (string * string)) (cr : Kafka) (P : event → Prop).
Context (HP : ∀ e, written e = None → P e).

Ltac plain_auto := emits_auto; try (by apply HP).

Lemma plain_update_status f : emits P (update_status (W := W) cr f).
Proof. apply emits_UpdateStatusWithRetry; intros; try (by apply HP); auto with operator. Qed.

Lemma plain_runCommandInPod pod container namespace command : emits P (runCommandInPod (W := W) pod container namespace command).
Proof. unfold runCommandInPod. plain_auto. Qed.

Lemma plain_getZooKeeperClusterID : emits P (getZooKeeperClusterID (W := W) cr).
Proof. unfold getZooKeeperClusterID, FindPodList. plain_auto. apply plain_runCommandInPod. Qed.

Lemma plain_resolveClusterID : emits P (resolveClusterID (W := W) cr).
Proof. unfold resolveClusterID, FindPodList. plain_auto; apply plain_getZooKeeperClusterID. Qed.

Lemma plain_getMigrationStatus : emits P (getMigrationStatus (W := W) cr).
Proof. unfold getMigrationStatus, FindPodList. plain_auto; apply plain_runCommandInPod. Qed.

Lemma plain_AreDeploymentsReady {L} labels namespace : emits P (AreDeploymentsReady (W := W) (L := L) labels namespace).
Proof. unfold AreDeploymentsReady, FindDeploymentList. plain_auto. Qed.

Lemma plain_wait_ready labels n : emits P (wait_ready (W := W) cr labels n).
Proof.
  unfold wait_ready. plain_auto. apply emits_PollImmediate; [apply plain_AreDeploymentsReady|]. intros r. by apply HP.
Qed.

Lemma plain_wait_broker brokerId n : emits P (waitUntilBrokerIsReady (W := W) cr brokerId n).
Proof. apply plain_wait_ready. Qed.

Lemma plain_wait_controller n : emits P (waitUntilControllerIsReady (W := W) cr n).
Proof. unfold waitUntilControllerIsReady. emits_auto. apply plain_wait_ready. Qed.

Lemma plain_getRack brokerId : emits P (getRack (W := W) cr brokerId).
Proof. unfold getRack, GetNodeLabel. plain_auto. Qed.

Lemma plain_apply_service service : emits P (apply_service (W := W) cr service).
Proof. unfold apply_service, CreateOrUpdateService. plain_auto. Qed.

Lemma plain_apply_claim claim : emits P (apply_claim (W := W) cr claim).
Proof. unfold apply_claim, CreatePersistentVolumeClaim, GetPersistentVolumeClaim, updatePersistentVolumeClaim. plain_auto. Qed.

Lemma plain_ensure : emits P (ensureMigrationControllerIsReady (W := W) cr).
Proof. unfold ensureMigrationControllerIsReady, FindDeployment. plain_auto; apply plain_AreDeploymentsReady. Qed.

Lemma plain_remove zkClusterID : emits P (removeMigrationControllerEntities (W := W) range cr zkClusterID).
Proof.
  unfold removeMigrationControllerEntities, DeleteService, DeletePersistentVolumeClaim, GetPersistentVolumeClaim, DeleteDeployment, FindDeployment.
  plain_auto.
Qed.

Lemma plain_brokerPVC {L} brokerID : emits P (brokerPVC (W := W) (L := L) cr brokerID).
Proof. unfold brokerPVC, GetPersistentVolumeClaim. plain_auto. Qed.

Lemma plain_resize_state brokerID desired : emits P (waitForBrokerPVCResizeState (W := W) cr brokerID desired).
Proof.
  unfold waitForBrokerPVCResizeState. emits_auto. apply emits_with_var, emits_PollImmediate; [|intros r; by apply HP].
  unfold resize_state_turn, set_var. emits_auto. apply plain_brokerPVC.
Qed.

Lemma plain_capacity brokerID desired timeout : emits P (waitForBrokerPVCCapacity (W := W) cr brokerID desired timeout).
Proof.
  unfold waitForBrokerPVCCapacity. emits_auto. apply emits_with_var, emits_PollImmediate; [|intros r; by apply HP].
  unfold capacity_turn, set_var. emits_auto. apply plain_brokerPVC.
Qed.

Lemma plain_pods_deleted brokerID : emits P (waitUntilBrokerPodsDeleted (W := W) cr brokerID).
Proof. apply emits_PollImmediate; [unfold FindPodList; plain_auto|intros r; by apply HP]. Qed.

Lemma plain_await brokerID n : emits P (await (W := W) brokerID n).
Proof. unfold await. plain_auto. Qed.

(** A deployment is written with the template it was built with. *)
Lemma emits_CreateOrUpdateDeployment {L} d :
  (∀ e d', written e = Some d' → dep_Template d' = dep_Template d → Name (dep_meta d') = Name (dep_meta d) → P e) →
  emits P (CreateOrUpdateDeployment (W := W) (L := L) d).
Proof.
  intros Hd. unfold CreateOrUpdateDeployment, update_deployment, FindDeployment.
  plain_auto; [|by eapply Hd]. apply emits_RetryOnConflict. plain_auto. by eapply Hd.
Qed.

Lemma emits_apply_deployment d :
  (∀ e d', written e = Some d' → dep_Template d' = dep_Template d → Name (dep_meta d') = Name (dep_meta d) → P e) →
  emits P (apply_deployment (W := W) cr d).
Proof. intros Hd. unfold apply_deployment. emits_auto. by apply emits_CreateOrUpdateDeployment. Qed.

End plain.

(** ** The deployments of the migration *)

Section deployments.
Context (range : strmap → list (string * string)) (cr : Kafka).

Lemma container_envs_base envVars e : e ∈ envVars → e ∈ container_envs range cr envVars.
Proof. intros He. unfold container_envs, buildEnvs. set_solver. Qed.

Lemma connects_intro d c cs e :
  dep_Containers d = c :: cs → e ∈ container_Env c → env_Name e = "ZOOKEEPER_CONNECT" → connects d.
Proof. intros Hc He Hn. unfold connects. rewrite Hc, <- Hn. apply list_elem_of_fmap. by exists e. Qed.

Lemma zookeeper_broker_connects brokerId rack zkClusterID d :
  NewKafkaBrokerDeploymentForCR range cr brokerId rack false zkClusterID = Ret d →
  ∃ c cs, dep_Containers d = c :: cs ∧ mkEnv "ZOOKEEPER_CONNECT" (KafkaSpec_ZookeeperConnect (Kafka_Spec cr)) ∈ container_Env c.
Proof.
  intros (h & p & aff & _ & _ & ->)%broker_deployment_made.
  eexists _, _. split; [done|]. cbn [container_Env]. apply container_envs_base. unfold broker_envs, zookeeper_envs. cbv zeta.
  rewrite !elem_of_app. right. right. left. by left.
Qed.

(** The deployments of the first steps, of brokers and of the controller, connect to ZooKeeper. *)
Lemma migrating_broker_connects brokerId replicas rack zkClusterID d d' :
  migration_deployment range cr brokerId replicas rack zkClusterID false = Ret d → dep_Template d' = dep_Template d → connects d'.
Proof.
  unfold migration_deployment. destruct (NewKafkaBrokerDeploymentForCR _ _ _ _ _ _) as [d0|e|] eqn:E; [|done..]. cbn [mbind outcome_bind].
  apply zookeeper_broker_connects in E as (c & cs & Hc & He). unfold add_deployment_envs. rewrite Hc. intros [= <-] Ht.
  eapply connects_intro with (c := add_envs _ c); [unfold dep_Containers; rewrite Ht; reflexivity|cbn; apply elem_of_app; left; exact He|done].
Qed.

Lemma migrating_controller_connects zkClusterID d d' :
  NewKafkaKraftControllerDeploymentForCR range cr zkClusterID false true = Ret d → dep_Template d' = dep_Template d → connects d'.
Proof.
  intros (aff & _ & ->)%controller_deployment_made Ht. unfold controllerDeployment, connects, dep_Containers. rewrite Ht. cbn [dep_Template tmpl_Spec ps_Containers createDeploymentContainers container_Env].
  apply list_elem_of_fmap. exists (mkEnv "ZOOKEEPER_CONNECT" (KafkaSpec_ZookeeperConnect (Kafka_Spec cr))). split; [done|].
  apply container_envs_base. unfold controller_envs, zookeeper_envs. cbv zeta. rewrite !elem_of_app. right. right. left. by left.
Qed.

End deployments.

(** ** Evidence of the migration *)

Section migration.
Context `{Env W} `{Retry} `{Polling} `{Library} `{Quantities} `{Digest} `{Marshaler KafkaSpec} `{Sorter}.
Context (range : strmap → list (string * string)) (cr : Kafka).

Definition status_script : list string := shell "${KAFKA_HOME}/bin/get-kraft-migration-status.sh".

(** The controller says so, in the output of a command in its pod. *)
Definition reported_migrated (e : event) : Prop :=
  ∃ pod out err, e = Ev (ExecStream pod "kafka" (cr_Namespace cr) status_script) (inl (out, err)) ∧ TrimSpace out = "true".

(** The status of the resource says so. *)
Definition recorded_migrated (e : event) : Prop :=
  ∃ o, e = Ev (Get KKafka (cr_Name cr) (cr_Namespace cr)) (inl o) ∧ 2 ≤ migration_step (migration_status o).

Definition evidence (e : event) : Prop := reported_migrated e ∨ recorded_migrated e.

Lemma plain_keeps t0 {A} (m : M (St W KafkaState) A) :
  emits (λ e, ¬ disconnects e) m → keeps (since t0 (preceded evidence disconnects)) m.
Proof. apply keeps_preceded. Qed.

Lemma not_written e : written e = None → ¬ disconnects e.
Proof. intros Hw (d & Hd & _). congruence. Qed.

Lemma getMigrationStatus_true s s' :
  getMigrationStatus cr s = (Ret true, s') → ∃ e tr, trace s' = trace s ++ tr ++ [e] ∧ evidence e.
Proof.
  unfold getMigrationStatus, runCommandInPod, FindPodList. unfold mbind, M_bind, try, lift, request.
  destruct (perform _ (ListObjs KPod _ _) _) as [[pods|e] w1]; [|done]. cbn [world trace local].
  destruct (index _ 0) as [pod|e|]; [|done..].
  destruct (perform _ NewForConfig _) as [[u|e] w2]; [|done]. cbn [world trace local].
  destruct (perform _ (NewSPDYExecutor _ _ _ _) _) as [[u'|e] w3]; [|done]. cbn [world trace local].
  destruct (perform _ (ExecStream _ _ _ _) _) as [[[out err]|e] w4]; cbn [world trace local]; [|by destruct (Contains_str _ _)].
  destruct (negb _ && _); [done|]. intros [= Ht <-]. cbn [trace]. rewrite <- !app_assoc.
  eexists _, [_; _; _]. split; [done|]. left. exists pod, out, err. split; [done|]. by apply bool_decide_eq_true in Ht.
Qed.

Lemma wait_migration_evidence n t0 s s' :
  waitUntilMigrationCompleted cr n s = (Ret tt, s') → since t0 (preceded evidence disconnects) (trace s) →
  since t0 (λ tr, preceded evidence disconnects tr ∧ Exists evidence tr) (trace s').
Proof.
  intros Hw Hs. assert (HK : since t0 (preceded evidence disconnects) (trace s')).
  { rewrite <- (f_equal snd Hw : _ = s'). apply plain_keeps; [|done]. unfold waitUntilMigrationCompleted. emits_auto; [by intros (d & [=] & _)|].
    apply emits_PollImmediate; [apply plain_getMigrationStatus, not_written|]. by intros r (d & [=] & _). }
  revert Hw. unfold waitUntilMigrationCompleted. intros (u & s1 & Ht & Hp)%bind_inv.
  assert (Hp1 : trace s `prefix_of` trace s1).
  { rewrite <- (f_equal snd Ht : _ = s1). apply (emits_prefix (λ _, True)). by emits_auto. }
  apply PollImmediate_true in Hp as (s2 & Hp2 & Hg); [|intros x; apply (emits_prefix (λ _, True)); by apply plain_getMigrationStatus].
  apply getMigrationStatus_true in Hg as (e & tr & Et & He). destruct HK as (tr' & E' & Hpr). exists tr'. split; [done|]. split; [done|].
  assert (He' : e ∈ drop (length t0) (trace s')).
  { destruct Hs as (tr0 & E0 & _). assert (Hl : t0 `prefix_of` trace s2) by (etrans; [|exact Hp2]; etrans; [|exact Hp1]; by exists tr0).
    destruct Hl as [tr2 E2]. rewrite Et, E2, <- app_assoc, drop_app_length. set_solver. }
  rewrite E', drop_app_length in He'. apply Exists_exists. by exists e.
Qed.

(** The steps may do anything once there is evidence. *)
Lemma any_update_brokers zkClusterID n : emits (λ _, True) (updateBrokersWithoutZooKeeper (W := W) range cr zkClusterID n).
Proof.
  unfold updateBrokersWithoutZooKeeper, updateBrokerDeploymentForMigration, wait_each. emits_auto;
    first [by apply plain_getRack | by apply emits_apply_deployment | by apply plain_wait_broker].
Qed.

Lemma any_update_controller zkClusterID : emits (λ _, True) (updateMigrationControllerWithoutZooKeeper (W := W) range cr zkClusterID).
Proof. unfold updateMigrationControllerWithoutZooKeeper. emits_auto; first [by apply emits_apply_deployment | by apply plain_wait_controller]. Qed.

Lemma any_forget_controller zkClusterID n : emits (λ _, True) (updateBrokersWithoutKraftMigrationController (W := W) range cr zkClusterID n).
Proof.
  unfold updateBrokersWithoutKraftMigrationController, wait_each. emits_auto;
    first [by apply plain_getRack | by apply emits_apply_deployment | by apply plain_wait_broker].
Qed.

Lemma any_cluster_id step : emits (λ _, True) (migration_cluster_id (W := W) cr step).
Proof. unfold migration_cluster_id, step_below. emits_auto. by apply plain_getZooKeeperClusterID. Qed.

Lemma any_last_steps step zkClusterID n :
  emits (λ _, True) (third_step (W := W) range cr step zkClusterID n;; fourth_step range cr step zkClusterID n).
Proof.
  unfold third_step, fourth_step, step_below. emits_auto; first [by apply plain_update_status | apply any_update_brokers
    | apply any_update_controller | apply any_forget_controller | by apply plain_remove].
Qed.

Lemma silent_cluster_id step : emits (λ e, ¬ disconnects e) (migration_cluster_id (W := W) cr step).
Proof. unfold migration_cluster_id, step_below. emits_auto. apply plain_getZooKeeperClusterID, not_written. Qed.

Lemma connected_apply d :
  (∀ d', dep_Template d' = dep_Template d → connects d') → emits (λ e, ¬ disconnects e) (apply_deployment (W := W) cr d).
Proof. intros Hd. apply emits_apply_deployment; [apply not_written|]. intros e d' Hw Ht _ (d'' & Hw' & Hc). apply Hc, Hd. congruence. Qed.

Lemma connected_first_step step zkClusterID : emits (λ e, ¬ disconnects e) (first_step (W := W) range cr step zkClusterID).
Proof.
  unfold first_step, createMigrationControllerEntities, step_below. emits_auto.
  - apply plain_apply_service, not_written.
  - apply plain_apply_claim, not_written.
  - apply connected_apply. intros d' Ht. by eapply migrating_controller_connects.
  - apply plain_wait_controller, not_written.
  - apply plain_update_status, not_written.
Qed.

(** The brokers of the second step connect to ZooKeeper, and it ends with evidence. *)
Lemma connected_brokers zkClusterID n :
  emits (λ e, ¬ disconnects e) (for_each (λ brokerId,
    updateBrokerDeploymentForMigration (W := W) range cr brokerId n zkClusterID false;;
    waitUntilBrokerIsReady cr brokerId (migration_timeout cr)) (range_incl 1 n)).
Proof.
  unfold updateBrokerDeploymentForMigration. emits_auto.
  - apply plain_getRack, not_written.
  - apply connected_apply. intros d' Ht. by eapply migrating_broker_connects.
  - apply plain_wait_broker, not_written.
Qed.

Section run.
Context (t0 : list event).
Let I := since t0 (preceded evidence disconnects).
Let J := since t0 (λ tr, preceded evidence disconnects tr ∧ Exists evidence tr).

Lemma since_evidence t : J t → I t.
Proof. intros (tr & -> & Hp & _). by exists tr. Qed.

Lemma second_step_guarded step zkClusterID n s :
  step < 2 → I (trace s) →
  match second_step range cr step zkClusterID n s with (Ret _, s') => J (trace s') | (_, s') => I (trace s') end.
Proof.
  intros Hstep Hs. unfold second_step, step_below. rewrite decide_True by done.
  assert (K1 : keeps I (ensureMigrationControllerIsReady (W := W) cr)) by (apply plain_keeps, plain_ensure, not_written).
  specialize (K1 s Hs). unfold mbind at 1, M_bind at 1. destruct (ensureMigrationControllerIsReady cr s) as [[u|e|] s1]; [|done..]. cbn in K1.
  unfold mbind at 1, M_bind at 1. unfold updateBrokersAndWaitMigrationResult. unfold mbind at 1, M_bind at 1.
  pose proof (plain_keeps t0 _ (connected_brokers zkClusterID n) s1 K1) as K2.
  destruct (for_each _ _ s1) as [[u1|e|] s2]; [|done..]. cbn in K2.
  destruct (waitUntilMigrationCompleted cr (migration_timeout cr) s2) as [o s3] eqn:E3.
  assert (K3 : I (trace s3)).
  { rewrite <- (f_equal snd E3 : _ = s3). apply plain_keeps; [|done]. unfold waitUntilMigrationCompleted. emits_auto; [by intros (d & [=] & _)|].
    apply emits_PollImmediate; [apply plain_getMigrationStatus, not_written|]. by intros r (d & [=] & _). }
  destruct o as [[]|e|]; [|done..]. apply wait_migration_evidence with (t0 := t0) in E3; [|done].
  assert (K4 : keeps J (update_status (W := W) cr (set_migration_status migrated_metadata))) by (apply keeps_preceded_after; by apply plain_update_status).
  specialize (K4 s3 E3). destruct (update_status cr _ s3) as [[u3|e|] s4]; [done|by apply since_evidence..].
Qed.

Lemma migrate_from_guarded step n s :
  I (trace s) → (2 ≤ step → J (trace s)) → I (trace (migrate_from range cr step n s).2).
Proof.
  intros Hs HJ. destruct (decide (2 ≤ step)) as [Hstep|Hstep].
  - apply since_evidence. apply keeps_preceded_after; [|by apply HJ]. unfold migrate_from.
    apply emits_bind; [apply any_cluster_id|]. intros zkClusterID. unfold first_step, second_step. unfold step_below.
    rewrite (decide_False (P := step < 1)), (decide_False (P := step < 2)) by lia.
    apply emits_bind; [apply emits_ret|intros _]. apply emits_bind; [apply emits_ret|intros _]. apply any_last_steps.
  - unfold migrate_from. unfold mbind at 1, M_bind at 1. pose proof (plain_keeps t0 _ (silent_cluster_id step) s Hs) as K1.
    destruct (migration_cluster_id cr step s) as [[zkClusterID|e|] s1]; [|done..]. cbn in K1.
    unfold mbind at 1, M_bind at 1. pose proof (plain_keeps t0 _ (connected_first_step step zkClusterID) s1 K1) as K2.
    destruct (first_step range cr step zkClusterID s1) as [[u|e|] s2]; [|done..]. cbn in K2.
    unfold mbind at 1, M_bind at 1. pose proof (second_step_guarded step zkClusterID n s2 ltac:(lia) K2) as K3.
    destruct (second_step range cr step zkClusterID n s2) as [[u1|e|] s3]; [|done..].
    apply since_evidence. apply keeps_preceded_after; [|done]. apply any_last_steps.
Qed.

End run.

(** C8. Until the metadata is migrated, everything stays on ZooKeeper.  In a run of the migration,
    wherever it resumes and however it ends, a deployment without the address of ZooKeeper (of a
    broker or of the controller) is only written after the status of the resource was read to say
    that the metadata is migrated, or the controller has reported so in this run. *)
Theorem migration_needs_evidence currentReplicas s o s' :
  migrate range cr currentReplicas s = (o, s') →
  ∃ tr, trace s' = trace s ++ tr ∧ preceded evidence disconnects tr.
Proof.
  intros Hm. rewrite <- (f_equal snd Hm : _ = s'). clear Hm o s'. change (since (trace s) (preceded evidence disconnects) (trace (migrate range cr currentReplicas s).2)).
  assert (HG : ∀ r, since (trace s) (preceded evidence disconnects) (trace s ++ [Ev (Get KKafka (cr_Name cr) (cr_Namespace cr)) r])).
  { intros r. eexists. split; [done|]. apply (preceded_snoc _ _ []); [apply preceded_nil|]. by intros (d & [=] & _). }
  unfold migrate, GetStatus, reloadCR. unfold mbind, M_bind, try, request, lift, mret, M_ret. cbv beta.
  destruct (perform _ (Get KKafka _ _) (world s)) as [[o|e] w1] eqn:Eg; [|apply HG].
  apply migrate_from_guarded; [apply HG|]. intros Hstep. cbn [trace].
  destruct (HG (inl o)) as (tr & E & Hp). exists tr. split; [done|]. split; [done|].
  apply app_inv_head in E as <-. apply Exists_cons_hd. right. by exists o.
Qed.

(** The migration resumes where the status says it stopped: of a resource that has finished it, it
    only reads the status; after the third step it only asks for the identifier of the cluster and
    does the fourth; without a known status it starts with the controller.  When the status cannot
    be read, the code writes through a nil pointer and panics, where its message says that it
    starts from the beginning. *)
Theorem migration_resumes currentReplicas (s : St W KafkaState) r w :
  let read := Get KKafka (cr_Name cr) (cr_Namespace cr) in
  perform _ read (world s) = (r, w) →
  let s1 := mkSt w (trace s ++ [Ev read r]) (local s) in
  migrate range cr currentReplicas s =
    match r with
    | inr _ => (Panic, s1)
    | inl o => migrate_from range cr (migration_step (migration_status o)) currentReplicas s1
    end ∧
  (∀ o, r = inl o → migration_status o = migration_finished → migrate range cr currentReplicas s = (Ret tt, s1)) ∧
  (∀ o, r = inl o → migration_status o = removed_zookeeper → migrate range cr currentReplicas s =
     (zkClusterID ← migration_cluster_id cr 3; fourth_step range cr 3 zkClusterID currentReplicas) s1).
Proof.
  intros read Hp s1. assert (HM : migrate range cr currentReplicas s =
    match r with inr _ => (Panic, s1) | inl o => migrate_from range cr (migration_step (migration_status o)) currentReplicas s1 end).
  { unfold migrate, GetStatus, reloadCR. unfold mbind, M_bind, try, request, lift, mret, M_ret. fold read. rewrite Hp. by destruct r. }
  split; [done|]. rewrite HM. split; intros o -> Hs; unfold migration_status in Hs |- *; rewrite Hs; [done|].
  change (migration_step removed_zookeeper) with 3. unfold migrate_from, first_step, second_step, third_step, step_below. done.
Qed.

End migration.
