(* ===== verification/KafkaProgress.v ===== *)
(** * The progress of the migration

    Of KafkaBrokers.v: what a run of the migration to KRaft records of its progress in the status of
    the resource.  A reconciliation that fails in the middle is followed by another one, which
    resumes from the status it reads. *)

From S2P Require Import Prelude GoStrings Util Transformation Kube Api Providers KafkaProvider.
From S2P Require Import External Cluster Reconciler KafkaClient Conditions KafkaBrokers KafkaMigration.

Import KafkaV1 KafkaObjects.

(** ** Intervals *)

Lemma range_incl_empty a b : b < a → range_incl a b = [].
Proof. intros Hb. unfold range_incl. by replace (Z.to_nat (b - a + 1)) with 0%nat by lia. Qed.

Lemma range_incl_one a : range_incl a a = [a].
Proof. unfold range_incl. replace (Z.to_nat (a - a + 1)) with 1%nat by lia. cbn. f_equal. lia. Qed.

Lemma range_incl_app a b c : a ≤ b + 1 → b ≤ c → range_incl a b ++ range_incl (b + 1) c = range_incl a c.
Proof.
  intros Ha Hb. unfold range_incl. replace (Z.to_nat (c - a + 1)) with (Z.to_nat (b - a + 1) + Z.to_nat (c - (b + 1) + 1))%nat by lia.
  rewrite seq_app, fmap_app. f_equal. rewrite Nat.add_comm, <- fmap_add_seq, <- list_fmap_compose.
  apply list_fmap_ext. intros i k _. cbn. lia.
Qed.

(** ** What is recorded *)

Definition as_kafka (k : kind) : obj k → option Kafka := match k with KKafka => Some | _ => λ _, None end.

(** The step an accepted update of the status of a Kafka resource records. *)
Definition recorded (e : event) : option Z :=
  match e with
  | Ev c _ =>
      match c with
      | StatusUpdate k o => if succeeded e then (λ o, migration_step (migration_status o)) <$> as_kafka k o else None
      | _ => None
      end
  end.

(** The step a read of a Kafka resource finds recorded. *)
Definition step_read (e : event) : option Z :=
  match e with
  | Ev c r =>
      match c in call R return (R + gerror) → option Z with
      | Get k _ _ => λ r, if r is inl o then (λ o, migration_step (migration_status o)) <$> as_kafka k o else None
      | _ => λ _, None
      end r
  end.

Definition silent (e : event) : Prop := recorded e = None.

Section progress.
Context `{Env W} `{Retry} `{Polling} `{Library} `{Quantities} `{Digest} `{Marshaler KafkaSpec} `{Sorter}.
Context (range : strmap → list (string * string)) (cr : Kafka).

(** Code that starts with [a] steps recorded and ends, when it returns, with [b]; when it fails it
    has recorded some of them, in order, and not the last. *)
Definition advances {A} (a b : Z) (m : M (St W KafkaState) A) : Prop :=
  ∀ s, ∃ c tr, trace (m s).2 = trace s ++ tr ∧ a ≤ c ≤ b ∧ omap recorded tr = range_incl (a + 1) c ∧
    (is_ret (m s).1 → c = b) ∧ (c = b → a < b → is_ret (m s).1).

Lemma silent_trace tr : Forall silent tr → omap recorded tr = [].
Proof. induction 1 as [|e tr He HF IH]; [done|]. cbn. by rewrite He. Qed.

Lemma advances_silent {A} a (m : M (St W KafkaState) A) : emits silent m → advances a a m.
Proof.
  intros Hm s. destruct (Hm s) as (tr & E & F). exists a, tr. split; [done|]. split; [lia|].
  rewrite (silent_trace _ F), range_incl_empty by lia. split; [done|]. split; [done|lia].
Qed.

Lemma advances_bind {A B} a b c (m : M (St W KafkaState) A) (f : A → M (St W KafkaState) B) :
  a ≤ b ≤ c → b < c ∨ a = c → advances a b m → (∀ x, advances b c (f x)) → advances a c (m ≫= f).
Proof.
  intros Hbc Hac Hm Hf s. destruct (Hm s) as (x & tr & E & Hx & Er & Hr & Hl). unfold mbind, M_bind.
  destruct (m s) as [[r|e|] s1]; cbn [fst snd] in *; [|exists x, tr; split_and!; [done|lia|lia|done|by intros [? [=]]|lia]..].
  specialize (Hr (ex_intro _ r eq_refl)) as ->. destruct (Hf r s1) as (y & tr' & E' & Hy & Er' & Hr' & Hl').
  exists y, (tr ++ tr'). rewrite E', E, app_assoc, omap_app, Er, Er', range_incl_app by lia. split_and!; [done|lia|lia|done|done|].
  intros Hyc Hl0. apply Hl'; lia.
Qed.

(** A body, then the record of its step. *)
Lemma advances_record a status :
  migration_step status = a + 1 → advances a (a + 1) (update_status (W := W) cr (set_migration_status status)).
Proof.
  intros Hs s. unfold update_status, Conditions.UpdateStatusWithRetry, reloadCR. set (body := (instance ← _; _) : M (St W KafkaState) unit).
  destruct (RetryOnConflict body s) as [o s'] eqn:Er. apply RetryOnConflict_spec in Er.
  assert (HB : ∀ s, ∃ tr, trace (body s).2 = trace s ++ tr ∧ omap recorded tr = (if (body s).1 is Ret _ then [a + 1] else []) ∧ (body s).1 ≠ Panic).
  { clear -Hs. intros s. unfold body, mbind, M_bind, request, mret, M_ret. destruct (perform _ (Get KKafka _ _) (world s)) as [[o|e] w1].
    - cbn [world trace local]. set (o' := set_migration_status status o). destruct (perform _ (StatusUpdate KKafka o') w1) as [[o2|e] w2]; cbn.
      + eexists [_; _]. rewrite <- app_assoc. split; [done|]. cbn. rewrite <- Hs. done.
      + eexists [_; _]. rewrite <- app_assoc. done.
    - by eexists [_]. }
  cbn [fst snd]. induction Er as [n s o s' E|n s e s1 o s' E Hc Hr IH].
  - destruct (HB s) as (tr & Et & Eo & Hp). rewrite E in Et, Eo, Hp. cbn in Et, Eo, Hp. destruct o as [[]|e|]; [|..|done].
    + exists (a + 1), tr. rewrite range_incl_one. split_and!; [done|lia|lia|done|done|by eexists].
    + exists a, tr. rewrite range_incl_empty by lia. split_and!; [done|lia|lia|done|by intros [? [=]]|lia].
  - destruct (HB s) as (tr & Et & Eo & _). rewrite E in Et, Eo. cbn in Et, Eo. destruct IH as (c & tr' & Et' & IH).
    exists c, (tr ++ tr'). rewrite Et', Et, app_assoc, omap_app, Eo. by split.
Qed.

(** ** What the steps do besides is silent *)

Ltac silent_auto := emits_auto; try done.

Lemma silent_runCommandInPod pod container namespace command : emits silent (runCommandInPod (W := W) pod container namespace command).
Proof. unfold runCommandInPod. silent_auto. Qed.

Lemma silent_wait_ready labels n : emits silent (wait_ready (W := W) cr labels n).
Proof.
  unfold wait_ready. silent_auto. apply emits_PollImmediate; [|done]. unfold AreDeploymentsReady, FindDeploymentList. silent_auto.
Qed.

Lemma silent_wait_controller n : emits silent (waitUntilControllerIsReady (W := W) cr n).
Proof. unfold waitUntilControllerIsReady. silent_auto. apply silent_wait_ready. Qed.

Lemma silent_apply_deployment d : emits silent (apply_deployment (W := W) cr d).
Proof.
  unfold apply_deployment, CreateOrUpdateDeployment, FindDeployment. silent_auto. apply emits_RetryOnConflict.
  unfold update_deployment, FindDeployment. silent_auto.
Qed.

Lemma silent_getRack brokerId : emits silent (getRack (W := W) cr brokerId).
Proof. unfold getRack, GetNodeLabel. silent_auto. Qed.

Lemma silent_apply_service service : emits silent (apply_service (W := W) cr service).
Proof. unfold apply_service, CreateOrUpdateService. silent_auto. Qed.

Lemma silent_apply_claim claim : emits silent (apply_claim (W := W) cr claim).
Proof. unfold apply_claim, CreatePersistentVolumeClaim, GetPersistentVolumeClaim, updatePersistentVolumeClaim. silent_auto. Qed.

#[local] Hint Resolve silent_runCommandInPod silent_wait_ready silent_wait_controller silent_apply_deployment silent_getRack
  silent_apply_service silent_apply_claim : operator.

Lemma silent_step_id step : emits silent (migration_cluster_id (W := W) cr step).
Proof. unfold migration_cluster_id, step_below, getZooKeeperClusterID, FindPodList. silent_auto. Qed.

Lemma silent_create zkClusterID : emits silent (createMigrationControllerEntities (W := W) range cr zkClusterID).
Proof. unfold createMigrationControllerEntities. silent_auto. Qed.

Lemma silent_ensure : emits silent (ensureMigrationControllerIsReady (W := W) cr).
Proof. unfold ensureMigrationControllerIsReady, FindDeployment, AreDeploymentsReady, FindDeploymentList. silent_auto. Qed.

Lemma silent_migrate_metadata zkClusterID n : emits silent (updateBrokersAndWaitMigrationResult (W := W) range cr zkClusterID n).
Proof.
  unfold updateBrokersAndWaitMigrationResult, updateBrokerDeploymentForMigration, waitUntilBrokerIsReady, waitUntilMigrationCompleted.
  silent_auto. apply emits_PollImmediate; [|done]. unfold getMigrationStatus, FindPodList. silent_auto.
Qed.

Lemma silent_brokers_without_zookeeper zkClusterID n : emits silent (updateBrokersWithoutZooKeeper (W := W) range cr zkClusterID n).
Proof. unfold updateBrokersWithoutZooKeeper, updateBrokerDeploymentForMigration, wait_each, waitUntilBrokerIsReady. silent_auto. Qed.

Lemma silent_controller_without_zookeeper zkClusterID : emits silent (updateMigrationControllerWithoutZooKeeper (W := W) range cr zkClusterID).
Proof. unfold updateMigrationControllerWithoutZooKeeper. silent_auto. Qed.

Lemma silent_brokers_without_controller zkClusterID n :
  emits silent (updateBrokersWithoutKraftMigrationController (W := W) range cr zkClusterID n).
Proof. unfold updateBrokersWithoutKraftMigrationController, wait_each, waitUntilBrokerIsReady. silent_auto. Qed.

Lemma silent_remove zkClusterID : emits silent (removeMigrationControllerEntities (W := W) range cr zkClusterID).
Proof.
  unfold removeMigrationControllerEntities, DeleteService, DeletePersistentVolumeClaim, GetPersistentVolumeClaim, DeleteDeployment, FindDeployment.
  silent_auto.
Qed.

(** ** The steps *)

Lemma advances_after {A B} a b (m : M (St W KafkaState) A) (f : A → M (St W KafkaState) B) :
  a < b → emits silent m → (∀ x, advances a b (f x)) → advances a b (m ≫= f).
Proof. intros Hab Hm Hf. apply advances_bind with (b := a); [lia|lia|by apply advances_silent|done]. Qed.

Lemma advances_below (m : M (St W KafkaState) unit) n step :
  advances (n - 1) n m → advances (Z.max step (n - 1)) (Z.max step n) (step_below step n m tt).
Proof.
  intros Hm. unfold step_below. case_decide as D.
  - by replace (Z.max step (n - 1)) with (n - 1) by lia; replace (Z.max step n) with n by lia.
  - replace (Z.max step (n - 1)) with step by lia. replace (Z.max step n) with step by lia. apply advances_silent, emits_ret.
Qed.

Lemma first_step_advances step zkClusterID : advances (Z.max step 0) (Z.max step 1) (first_step (W := W) range cr step zkClusterID).
Proof. apply (advances_below _ 1), advances_after; [lia|apply silent_create|intros _]. by apply (advances_record 0). Qed.

Lemma second_step_advances step zkClusterID n : advances (Z.max step 1) (Z.max step 2) (second_step (W := W) range cr step zkClusterID n).
Proof.
  apply (advances_below _ 2), advances_after; [lia|apply silent_ensure|intros _]. apply advances_after; [lia|apply silent_migrate_metadata|intros _].
  by apply (advances_record 1).
Qed.

Lemma third_step_advances step zkClusterID n : advances (Z.max step 2) (Z.max step 3) (third_step (W := W) range cr step zkClusterID n).
Proof.
  apply (advances_below _ 3), advances_after; [lia|apply silent_brokers_without_zookeeper|intros _].
  apply advances_after; [lia|apply silent_controller_without_zookeeper|intros _]. by apply (advances_record 2).
Qed.

Lemma fourth_step_advances step zkClusterID n : advances (Z.max step 3) (Z.max step 4) (fourth_step (W := W) range cr step zkClusterID n).
Proof.
  apply (advances_below _ 4), advances_after; [lia|apply silent_brokers_without_controller|intros _].
  apply advances_after; [lia|apply silent_remove|intros _]. by apply (advances_record 3).
Qed.

Lemma migrate_from_advances step n : 0 ≤ step < 4 → advances step 4 (migrate_from (W := W) range cr step n).
Proof.
  intros Hs. unfold migrate_from. apply advances_after; [lia|apply silent_step_id|intros zkClusterID].
  assert (HM : advances (Z.max step 0) (Z.max step 4) (first_step (W := W) range cr step zkClusterID;; second_step range cr step zkClusterID n;;
    third_step range cr step zkClusterID n;; fourth_step range cr step zkClusterID n)).
  { apply advances_bind with (b := Z.max step 1); [lia|lia|apply first_step_advances|intros _].
    apply advances_bind with (b := Z.max step 2); [lia|lia|apply second_step_advances|intros _].
    apply advances_bind with (b := Z.max step 3); [lia|lia|apply third_step_advances|intros _]. apply fourth_step_advances. }
  by replace (Z.max step 0) with step in HM by lia; replace (Z.max step 4) with 4 in HM by lia.
Qed.

Lemma migration_step_bounds status : 0 ≤ migration_step status ≤ 4.
Proof. unfold migration_step. repeat case_decide; lia. Qed.

(** A run of the migration reads the status and records what follows the step it says. *)
Lemma migrate_records n (s : St W KafkaState) o s' :
  migrate range cr n s = (o, s') →
  ∃ r tr, trace s' = trace s ++ Ev (Get KKafka (cr_Name cr) (cr_Namespace cr)) r :: tr ∧
    match r with
    | inl obj => let k := migration_step (migration_status obj) in
        ∃ m, k ≤ m ≤ 4 ∧ omap recorded tr = range_incl (k + 1) m ∧ (o = Ret tt ↔ m = 4)
    | inr _ => tr = [] ∧ o = Panic
    end.
Proof.
  unfold migrate, GetStatus, reloadCR, mbind, M_bind, try, request, lift, mret, M_ret. cbv beta.
  destruct (perform _ (Get KKafka _ _) (world s)) as [[obj|e] w1]; [|intros [= <- <-]; by eexists (inr e), []].
  cbn. fold (migration_status obj).
  set (s1 := mkSt w1 _ _). intros Hr. exists (inl obj). set (k := migration_step (migration_status obj)) in *.
  pose proof (migration_step_bounds (migration_status obj)) as Hk. fold k in Hk. destruct (decide (k = 4)) as [E4|E4].
  - rewrite E4 in Hr. injection Hr as <- <-. exists []. split; [done|]. exists 4. rewrite E4, range_incl_empty by lia. split_and!; [lia|lia|done..].
  - destruct (migrate_from_advances k n ltac:(lia) s1) as (m & tr & E & Hm & Er & Hret & Hlast). rewrite Hr in E, Hret, Hlast. cbn in E, Hret, Hlast.
    exists tr. rewrite <- app_assoc in E. split; [done|]. exists m. split_and!; [lia|lia|done|]. split; [intros ->; apply Hret; by eexists|].
    intros Em. destruct (Hlast Em ltac:(lia)) as [[] ->]. done.
Qed.

(** C9. A run of the migration starts from the step the status records, records the steps after it in
    their order, each once, and returns nil exactly when the last one is recorded; when the status
    cannot be read it panics and records nothing. *)
Theorem migration_recorded_in_order n (s : St W KafkaState) o s' :
  migrate range cr n s = (o, s') →
  ∃ r tr, trace s' = trace s ++ Ev (Get KKafka (cr_Name cr) (cr_Namespace cr)) r :: tr ∧
    match r with
    | inl obj => let k := migration_step (migration_status obj) in
        ∃ m, k ≤ m ≤ 4 ∧ omap recorded tr = range_incl (k + 1) m ∧ (o = Ret tt ↔ m = 4)
    | inr _ => tr = [] ∧ o = Panic
    end.
Proof. apply migrate_records. Qed.

End progress.
