(* ===== verification/Shell.v ===== *)
(** * How sh reads the arguments of a command

    The operator runs scripts in the pods of the brokers with [/bin/sh -c].  [Shell] states what it
    relies on when it puts texts into such a script: the rules of POSIX for the arguments of a
    simple command (sections 2.2 and 2.3), as far as they concern words made of plain characters and
    quoted pieces.  [posix_shell] is an instance, on which the witnesses run. *)

From S2P Require Import Prelude GoStrings.

Definition newline_char : ascii := "010"%char.
Definition blank (a : ascii) : bool := bool_decide (a = " "%char ∨ a = "009"%char).

(** Characters that mean themselves wherever they stand in an argument. *)
Definition plain (a : ascii) : bool :=
  let n := nat_of_ascii a in
  ((48 <=? n) && (n <=? 57) || (65 <=? n) && (n <=? 90) || (97 <=? n) && (n <=? 122) || bool_decide (a = "-"%char))%nat.

(** Where a word ends. *)
Definition ends_word (s : string) : Prop :=
  match s with EmptyString => True | String a _ => blank a = true ∨ a = newline_char end.

(** A text that can be an argument of a command. *)
Definition no_nul (s : string) : Prop := has_char "000"%char s = false.

(** [sh_word] reads the rest of a word and gives what comes after it; [sh_arguments] reads the
    arguments of a command up to the end of the command. *)
Class Shell := {
  sh_word : string → option (string * string);
  sh_arguments : string → option (list string);
  sh_word_end : ∀ s, ends_word s → sh_word s = Some ("", s);
  sh_word_plain : ∀ a s, plain a = true → sh_word (String a s) = prod_map (String a) id <$> sh_word s;
  sh_word_single : ∀ s rest, no_nul s → has_char "039"%char s = false →
    sh_word (String "039" (s +:+ String "039" rest)) = prod_map (String.append s) id <$> sh_word rest;
  sh_word_double : ∀ s rest, no_nul s → Forall (λ a, has_char a s = false) ["034"%char; "$"%char; "`"%char; "\"%char] →
    sh_word (String "034" (s +:+ String "034" rest)) = prod_map (String.append s) id <$> sh_word rest;
  sh_arguments_end : ∀ s, sh_arguments (String newline_char s) = Some [];
  sh_arguments_blank : ∀ a s, blank a = true → sh_arguments (String a s) = sh_arguments s;
  sh_arguments_continued : ∀ s, sh_arguments (String "\" (String newline_char s)) = sh_arguments s;
  sh_arguments_word : ∀ a s w rest, plain a = true ∨ a ∈ ["039"%char; "034"%char] →
    sh_word (String a s) = Some (w, rest) → sh_arguments (String a s) = cons w <$> sh_arguments rest;
}.

(** ** What follows from the rules *)

Section shell.
Context `{Shell}.

Lemma sh_word_all_plain w s : forallb plain (String.list_ascii_of_string w) = true → ends_word s → sh_word (w +:+ s) = Some (w, s).
Proof.
  induction w as [|a w IH]; intros Hw Hs; [by apply sh_word_end|]. cbn in Hw. apply andb_prop in Hw as [Ha Hw].
  rewrite app_cons, sh_word_plain by done. by rewrite IH.
Qed.

Lemma sh_arguments_plain w s :
  w ≠ "" → forallb plain (String.list_ascii_of_string w) = true → ends_word s → sh_arguments (w +:+ s) = cons w <$> sh_arguments s.
Proof.
  intros Hn Hw Hs. pose proof (sh_word_all_plain w s Hw Hs) as HW. destruct w as [|a w]; [done|]. rewrite app_cons in *.
  apply sh_arguments_word; [|done]. left. cbn in Hw. by apply andb_prop in Hw as [].
Qed.

End shell.

(** ** An instance *)

Inductive quoting := Unquoted | Single | Double.

Fixpoint read_word (q : quoting) (s : string) : option (string * string) :=
  match s with
  | EmptyString => match q with Unquoted => Some ("", "") | _ => None end
  | String a s' =>
      let literal := prod_map (String a) id <$> read_word q s' in
      match q with
      | Unquoted =>
          if decide (a = "039"%char) then read_word Single s'
          else if decide (a = "034"%char) then read_word Double s'
          else if blank a || bool_decide (a = newline_char) then Some ("", s)
          else if plain a then literal
          else None
      | Single => if decide (a = "039"%char) then read_word Unquoted s' else literal
      | Double =>
          if decide (a = "034"%char) then read_word Unquoted s'
          else if decide (a = "$"%char ∨ a = "`"%char ∨ a = "\"%char) then None
          else literal
      end
  end.

(** Between words ([None]), or in one: what is left of it, and the words after it. *)
Fixpoint read_arguments (q : option quoting) (s : string) : option (string * list string) :=
  match s with
  | EmptyString => match q with None | Some Unquoted => Some ("", []) | _ => None end
  | String a s' =>
      let first q := (λ '(w, ws), ("", w :: ws)) <$> read_arguments (Some q) s' in
      let literal q := prod_map (String a) id <$> read_arguments (Some q) s' in
      match q with
      | None =>
          if decide (a = newline_char) then Some ("", [])
          else if blank a then read_arguments None s'
          else if decide (a = "\"%char) then
            match s' with String b s'' => if decide (b = newline_char) then read_arguments None s'' else None | _ => None end
          else if decide (a = "039"%char) then first Single
          else if decide (a = "034"%char) then first Double
          else if plain a then (λ '(w, ws), ("", String a w :: ws)) <$> read_arguments (Some Unquoted) s'
          else None
      | Some Unquoted =>
          if decide (a = "039"%char) then read_arguments (Some Single) s'
          else if decide (a = "034"%char) then read_arguments (Some Double) s'
          else if decide (a = newline_char) then Some ("", [])
          else if blank a then (λ '(_, ws), ("", ws)) <$> read_arguments None s'
          else if plain a then literal Unquoted
          else None
      | Some Single => if decide (a = "039"%char) then read_arguments (Some Unquoted) s' else literal Single
      | Some Double =>
          if decide (a = "034"%char) then read_arguments (Some Unquoted) s'
          else if decide (a = "$"%char ∨ a = "`"%char ∨ a = "\"%char) then None
          else literal Double
      end
  end.

Lemma plain_not a : plain a = true → a ≠ "039"%char ∧ a ≠ "034"%char ∧ a ≠ newline_char ∧ blank a = false ∧ a ≠ "\"%char.
Proof. intros Ha. destruct (decide (blank a = true)) as [Hb|Hb]; [|apply not_true_is_false in Hb]; split_and!; try done; try (by intros ->).
  exfalso. unfold blank in Hb. apply bool_decide_eq_true in Hb as [-> | ->]; done. Qed.

Lemma blank_not a : blank a = true → a ≠ "039"%char ∧ a ≠ "034"%char ∧ a ≠ newline_char.
Proof. unfold blank. intros [-> | ->]%bool_decide_eq_true; done. Qed.

(** Reading all arguments reads a word, and then the others. *)
Lemma read_arguments_word q s :
  read_arguments (Some q) s =
    match read_word q s with
    | Some (w, rest) => (λ '(_, ws), (w, ws)) <$> read_arguments None rest
    | None => None
    end.
Proof.
  revert q. induction s as [|a s IH]; intros q; [by destruct q|].
  assert (HL : ∀ q, prod_map (String a) id <$> read_arguments (Some q) s =
    match prod_map (String a) id <$> read_word q s with Some (w, rest) => (λ '(_, ws), (w, ws)) <$> read_arguments None rest | None => None end).
  { intros q0. rewrite IH. destruct (read_word q0 s) as [[w rest]|]; [|done]. cbn. by destruct (read_arguments None rest) as [[]|]. }
  destruct q; cbn [read_arguments read_word].
  - case_decide; [apply IH|]. case_decide; [apply IH|]. destruct (decide (a = newline_char)) as [->|Hn].
    + rewrite orb_true_r. cbn [read_arguments]. by rewrite decide_True.
    + rewrite bool_decide_eq_false_2, orb_false_r by done. destruct (blank a) eqn:Hb.
      * cbn [read_arguments]. by rewrite decide_False, Hb by done.
      * destruct (plain a); [apply HL|done].
  - case_decide; [apply IH|apply HL].
  - case_decide; [apply IH|]. case_decide; [done|apply HL].
Qed.

Lemma read_word_single s rest :
  has_char "039"%char s = false → read_word Single (s +:+ String "039" rest) = prod_map (String.append s) id <$> read_word Unquoted rest.
Proof.
  induction s as [|a s IH]; intros Hs; cbn in Hs.
  - rewrite app_empty_l. cbn [read_word]. rewrite decide_True by done. by destruct (read_word Unquoted rest) as [[]|].
  - apply orb_false_elim in Hs as [Ha Hs]. rewrite app_cons. cbn [read_word]. rewrite decide_False by (intros ->; by rewrite bool_decide_eq_true_2 in Ha).
    rewrite IH by done. by destruct (read_word Unquoted rest) as [[]|].
Qed.

Lemma read_word_double s rest :
  Forall (λ a, has_char a s = false) ["034"%char; "$"%char; "`"%char; "\"%char] →
  read_word Double (s +:+ String "034" rest) = prod_map (String.append s) id <$> read_word Unquoted rest.
Proof.
  rewrite !Forall_cons, Forall_nil. intros (H1 & H2 & H3 & H4 & _). induction s as [|a s IH].
  - rewrite app_empty_l. cbn [read_word]. rewrite decide_True by done. by destruct (read_word Unquoted rest) as [[]|].
  - cbn in H1, H2, H3, H4. apply orb_false_elim in H1 as [E1 H1]. apply orb_false_elim in H2 as [E2 H2].
    apply orb_false_elim in H3 as [E3 H3]. apply orb_false_elim in H4 as [E4 H4].
    apply bool_decide_eq_false in E1, E2, E3, E4. rewrite app_cons. cbn [read_word].
    rewrite decide_False by congruence. rewrite decide_False by (intros [|[|]]; congruence). rewrite IH by done.
    by destruct (read_word Unquoted rest) as [[]|].
Qed.

Program Definition posix_shell : Shell := {|
  sh_word := read_word Unquoted;
  sh_arguments s := snd <$> read_arguments None s;
|}.
Next Obligation.
  intros [|a s]; [done|]. cbn. intros Hs. destruct Hs as [Hb| ->]; [|done]. destruct (blank_not a Hb) as (H1 & H2 & H3).
  by rewrite !decide_False, Hb by done.
Qed.
Next Obligation. intros a s Ha. cbn [read_word]. destruct (plain_not a Ha) as (H1 & H2 & H3 & -> & H5). by rewrite !decide_False, bool_decide_eq_false_2, Ha by done. Qed.
Next Obligation. intros s rest _ Hs. cbn [read_word]. rewrite decide_True by done. by apply read_word_single. Qed.
Next Obligation. intros s rest _ Hs. cbn [read_word]. rewrite decide_False, decide_True by done. by apply read_word_double. Qed.
Next Obligation. done. Qed.
Next Obligation. intros a s Ha. cbn [read_arguments]. destruct (blank_not a Ha) as (H1 & H2 & H3). by rewrite decide_False, Ha by done. Qed.
Next Obligation. done. Qed.
Next Obligation.
  intros a s w rest Ha HW. cbn [read_arguments]. destruct Ha as [Ha|Ha].
  - destruct (plain_not a Ha) as (H1 & H2 & H3 & Hb & H5). rewrite !decide_False, Hb, Ha by done.
    cbn [read_word] in HW. rewrite !decide_False, Hb, bool_decide_eq_false_2, Ha in HW by done. rewrite read_arguments_word.
    destruct (read_word Unquoted s) as [[w' rest']|]; [|done]. cbn in HW. injection HW as <- <-.
    by destruct (read_arguments None rest') as [[]|].
  - repeat (apply elem_of_cons in Ha as [->|Ha]); [..|by apply not_elem_of_nil in Ha].
    + change (read_word Single s = Some (w, rest)) in HW.
      transitivity (snd <$> ((λ '(w, ws), ("", w :: ws)) <$> read_arguments (Some Single) s)); [reflexivity|].
      rewrite read_arguments_word, HW. by destruct (read_arguments None rest) as [[]|].
    + change (read_word Double s = Some (w, rest)) in HW.
      transitivity (snd <$> ((λ '(w, ws), ("", w :: ws)) <$> read_arguments (Some Double) s)); [reflexivity|].
      rewrite read_arguments_word, HW. by destruct (read_arguments None rest) as [[]|].
Qed.

Example posix_shell_reads : sh_arguments (Shell := posix_shell) "--entity-name 'it'" = Some ["--entity-name"; "it"].
Proof. vm_compute. reflexivity. Qed.
