(* ===== verification/KafkaRollout.v ===== *)
(** * The rollout of the brokers: properties

    Of KafkaBrokers.v: the checks of the specification, the order of a rolling update, the restarts
    of a broker whose volume grows, the users written into Kafka, and what is remembered. *)

From S2P Require Import Prelude GoStrings Util Transformation Kube Api Providers KafkaProvider.
From S2P Require Import External Cluster Reconciler KafkaClient Conditions KafkaBrokers KafkaMigration Shell.

Import KafkaV1 KafkaObjects KafkaObjectsProperties.

(** ** The checks of the specification *)

Lemma reaches_full {A} (l : list A) replicas brokerId :
  ¬ (0 < Z.of_nat (length l) ∧ Z.of_nat (length l) ≠ replicas) → 1 ≤ brokerId ≤ replicas → reaches l brokerId.
Proof. intros Hl Hb. unfold reaches. destruct l as [|x l]; [by left|right]. cbn [length] in *. lia. Qed.

Lemma external_access_reaches cr replicas brokerId :
  checkParamsForExternalAccess cr replicas = Ret tt → 1 ≤ brokerId ≤ replicas →
  KafkaSpec_ExternalHostNames (Kafka_Spec cr) = [] ∨
  reaches (KafkaSpec_ExternalHostNames (Kafka_Spec cr)) brokerId ∧ reaches (KafkaSpec_ExternalPorts (Kafka_Spec cr)) brokerId.
Proof.
  unfold checkParamsForExternalAccess. cbv zeta. intros Hc Hb. destruct (KafkaSpec_ExternalHostNames (Kafka_Spec cr)) as [|h hs] eqn:Eh; [by left|right].
  rewrite decide_True in Hc by (cbn; lia). case_decide as Hn; [done|]. case_decide as Hp; [done|].
  split; [right; lia|by apply reaches_full with replicas].
Qed.

(** C19. The checks of a specification are enough for the brokers it asks for, and for no other.  When
    they pass, the rack and the deployment of each broker up to the number of replicas are found
    without a panic, provided there are no nodes in the specification or one for each broker,
    which the checks leave open.  A broker beyond that number, which the migration and its waits
    go through when more deployments run, makes the code panic when external host names are set. *)
Theorem checks_guard_brokers `{Env W} range cr replicas rack kraftEnabled zkClusterID :
  checkParamsForExternalAccess cr replicas = Ret tt → checkRacksConfig cr replicas = Ret tt →
  (∀ brokerId, 1 ≤ brokerId ≤ replicas →
    (∀ s, (getRack (W := W) cr brokerId s).1 ≠ Panic) ∧
    (Storage_Nodes (storage cr) = [] ∨ Z.of_nat (length (Storage_Nodes (storage cr))) = replicas →
     is_ret (NewKafkaBrokerDeploymentForCR range cr brokerId rack kraftEnabled zkClusterID))) ∧
  (∀ brokerId, replicas < brokerId → KafkaSpec_ExternalHostNames (Kafka_Spec cr) ≠ [] →
    NewKafkaBrokerDeploymentForCR range cr brokerId rack kraftEnabled zkClusterID = Panic).
Proof.
  intros He Hr. split.
  - intros b Hb. split.
    + unfold checkRacksConfig in Hr. unfold getRack, GetNodeLabel. intros s. destruct (isGetRacksFromNodeLabelsEnabled cr).
      * case_decide as Hn; [done|].
        assert (Hl : Z.of_nat (length (Storage_Nodes (storage cr))) = replicas) by (apply dec_stable; tauto).
        destruct (reaches_index (Storage_Nodes (storage cr)) b) as [node Hnode]; [right; lia|by intros E; rewrite E in Hl; cbn in Hl; lia|].
        rewrite Hnode. unfold mbind, M_bind, lift. destruct (request _ s) as [[ls|e|] s1] eqn:Eq; [case_decide; done|done|].
        revert Eq. unfold request. by destruct (perform _ _ _) as [[]].
      * case_decide as Hn; [done|]. case_decide as Hk; [done|].
        destruct (reaches_index (KafkaSpec_Racks (Kafka_Spec cr)) b) as [rk Hrk]; [|done|by rewrite Hrk].
        by apply reaches_full with replicas.
    + intros Hn. apply broker_deployment_reaches. split; [by eapply external_access_reaches|].
      unfold reaches. destruct Hn as [?|Hn]; [by left|right; lia].
  - intros b Hb Hh. destruct (broker_deployment_panics range cr b rack kraftEnabled zkClusterID) as [[d Hd]|Hp]; [|done].
    exfalso. assert (is_ret (NewKafkaBrokerDeploymentForCR range cr b rack kraftEnabled zkClusterID)) as Hi%broker_deployment_reaches by (by eexists).
    destruct Hi as [[?|[[?|Hl] _]] _]; [done..|]. unfold checkParamsForExternalAccess in He. revert He. cbv zeta.
    rewrite decide_True; [|destruct (KafkaSpec_ExternalHostNames (Kafka_Spec cr)); [done|cbn; lia]]. case_decide as Hne; [done|]. lia.
Qed.

(** ** The brokers one after the other *)

Lemma broker_name_inj cr b b' : broker_name cr b = broker_name cr b' → b = b'.
Proof. unfold broker_name. intros E%app_inj_l%app_inj_l. by apply (inj pretty). Qed.

Lemma broker_deployment_name range cr brokerId rack kraftEnabled zkClusterID d :
  NewKafkaBrokerDeploymentForCR range cr brokerId rack kraftEnabled zkClusterID = Ret d → Name (dep_meta d) = broker_name cr brokerId.
Proof.
  by intros (h & p & affinity & _ & _ & ->)%broker_deployment_made.
Qed.

Section rolling.
Context `{Env W} `{Retry} `{Polling} `{Library} `{Quantities} `{Digest} `{Marshaler KafkaSpec} `{Sorter}.
Context (range : strmap → list (string * string)) (turns : nat) (cr : Kafka).

Lemma any_resize_loop fuel brokerId desired attempt : emits (λ _, True) (resize_loop (W := W) cr fuel brokerId desired attempt).
Proof.
  revert attempt. induction fuel as [|fuel IH]; intros attempt; cbn [resize_loop]; [apply emits_ret|].
  unfold ScaleDeployment, FindDeployment. emits_auto; first [done | by apply plain_await | by apply plain_pods_deleted | by apply plain_capacity
    | by apply plain_wait_broker | apply IH].
Qed.

Lemma any_rollout_each kraft wait kafkaSecret brokers : emits (λ _, True) (rollout_each (W := W) range turns cr kraft wait kafkaSecret brokers).
Proof.
  induction brokers as [|k brokers IH]; cbn [rollout_each]; [apply emits_ret|]. unfold rolloutBroker, restartBrokerAfterPVCResize, ended, scaleBrokerForPVCResize.
  emits_auto; first [done | by apply plain_apply_service | by apply plain_apply_claim | by apply plain_getRack | by apply plain_resolveClusterID
    | by apply emits_CreateOrUpdateDeployment | by apply plain_brokerPVC | by apply plain_resize_state | apply any_resize_loop
    | by apply plain_wait_broker | apply IH].
Qed.

Lemma AreDeploymentsReady_true {L} labels namespace (s s' : St W L) :
  AreDeploymentsReady labels namespace s = (Ret true, s') →
  ∃ ds, trace s' = trace s ++ [Ev (ListObjs KDeployment namespace labels) (inl ds)] ∧ all_ready ds = Ret true.
Proof.
  unfold AreDeploymentsReady, FindDeploymentList, mbind, M_bind, try, request, lift.
  destruct (perform _ (ListObjs _ _ _) _) as [[ds|e] w1]; [|done]. cbn. intros [= Hr <-]. by exists ds.
Qed.

End rolling.

(** ** A broker whose volume grows *)

(** The seconds a timer ran before the context it was raced against ended. *)
Definition awaited (e : event) : Z := match e with Ev (AwaitContext n) (inl true) => n | _ => 0 end.

Section resize.
Context `{Env W} `{Retry} `{Polling} `{Library} `{Quantities} `{Digest} `{Marshaler KafkaSpec} `{Sorter}.
Context (cr : Kafka).

Lemma awaited_emits {A L} (m : M (St W L) A) s : emits (λ e, awaited e = 0) m → zsum awaited (trace (m s).2) = zsum awaited (trace s).
Proof.
  intros Hm. destruct (Hm s) as (tr & -> & HF). rewrite zsum_app.
  assert (zsum awaited tr = 0) as ->; [|lia]. induction HF as [|e tr He HF IH]; [done|]. cbn in *. lia.
Qed.

Lemma await_spec brokerID n (s s' : St W KafkaState) :
  await brokerID n s = (Ret tt, s') → zsum awaited (trace s') = zsum awaited (trace s) + n.
Proof.
  unfold await, mbind, M_bind, try, request. destruct (perform _ (AwaitContext n) (world s)) as [[[]|e] w1]; [|done..].
  cbn. intros [= <-]. cbn. rewrite zsum_app. cbn. lia.
Qed.

Lemma resize_delay_pow attempt : 1 ≤ attempt ≤ 30 → resize_delay attempt = 10 * 2 ^ (attempt - 1).
Proof.
  intros Ha. unfold resize_delay. rewrite Z.shiftl_1_l.
  assert (Hp : 1 ≤ 2 ^ (attempt - 1) ≤ 2 ^ 29) by (split; [pose proof (Z.pow_pos_nonneg 2 (attempt - 1)); lia|apply Z.pow_le_mono_r; lia]).
  revert Hp. generalize (2 ^ (attempt - 1)) as p. change (2 ^ 29) with 536870912. change (10 ^ 9) with 1000000000. intros p Hp.
  assert (∀ z, 0 ≤ z < 9223372036854775808 → int64_wrap z = z) as HW by (intros z Hz; apply int64_wrap_id; unfold in_int64; lia).
  rewrite (HW p), HW by lia. replace (10 * 1000000000 * p) with (10 * p * 1000000000) by lia. apply Z.div_mul. lia.
Qed.

Lemma quiet_plain e : written e = None → (∀ n r, e ≠ Ev (AwaitContext n) r) → awaited e = 0.
Proof. destruct e as [R [] r]; try done. intros _ Hn. by destruct (Hn seconds r). Qed.

Lemma quiet_scale name n namespace : emits (λ e, awaited e = 0) (ScaleDeployment (W := W) (L := KafkaState) name n namespace).
Proof. unfold ScaleDeployment, FindDeployment. by emits_auto. Qed.

Lemma quiet_poll {L} interval timeout (cond : M (St W L) bool) :
  emits (λ e, awaited e = 0) cond → emits (λ e, awaited e = 0) (PollImmediate interval timeout cond).
Proof. intros Hc. by apply emits_PollImmediate. Qed.

Lemma quiet_pods_deleted brokerID : emits (λ e, awaited e = 0) (waitUntilBrokerPodsDeleted (W := W) cr brokerID).
Proof. apply quiet_poll. unfold FindPodList. by emits_auto. Qed.

Lemma quiet_capacity brokerID desired timeout : emits (λ e, awaited e = 0) (waitForBrokerPVCCapacity (W := W) cr brokerID desired timeout).
Proof.
  unfold waitForBrokerPVCCapacity. emits_auto. apply emits_with_var, quiet_poll. unfold capacity_turn, set_var, brokerPVC, GetPersistentVolumeClaim.
  by emits_auto.
Qed.

(** Turns that go round wait twice as long each time. *)
Lemma resize_loop_waits fuel brokerID desired attempt (s s' : St W KafkaState) :
  1 ≤ attempt → attempt + Z.of_nat fuel ≤ 31 → resize_loop cr fuel brokerID desired attempt s = (Ret None, s') →
  zsum awaited (trace s') = zsum awaited (trace s) + 10 * 2 ^ (attempt - 1) * (2 ^ Z.of_nat fuel - 1).
Proof.
  revert attempt s. induction fuel as [|fuel IH]; intros attempt s Ha Hf; cbn [resize_loop]; [intros [= <-]; cbn; lia|].
  intros ([] & s1 & E1%await_spec & Hr)%bind_inv. apply bind_inv in Hr as ([] & s2 & E2 & Hr). apply bind_inv in Hr as ([] & s3 & E3 & Hr).
  apply bind_inv in Hr as ([] & s4 & E4%await_spec & Hr). apply bind_inv in Hr as ([] & s5 & E5 & Hr).
  apply bind_inv in Hr as (resized & s6 & E6 & Hr).
  pose proof (awaited_emits _ s1 (quiet_scale (broker_name cr brokerID) 0 (cr_Namespace cr))) as Q2. rewrite E2 in Q2.
  pose proof (awaited_emits _ s2 (quiet_pods_deleted brokerID)) as Q3. rewrite E3 in Q3.
  pose proof (awaited_emits _ s4 (quiet_scale (broker_name cr brokerID) 1 (cr_Namespace cr))) as Q5. rewrite E5 in Q5.
  pose proof (awaited_emits _ s5 (quiet_capacity brokerID desired 30)) as Q6. rewrite E6 in Q6. cbn [snd] in *.
  destruct resized; [apply bind_inv in Hr as (u & s7 & _ & Hr); discriminate Hr|].
  apply IH in Hr; [|lia..]. rewrite resize_delay_pow in E4 by lia.
  replace (attempt + 1 - 1) with (Z.succ (attempt - 1)) in Hr by lia. rewrite Z.pow_succ_r in Hr by lia.
  replace (Z.of_nat (S fuel)) with (Z.succ (Z.of_nat fuel)) by lia. rewrite Z.pow_succ_r by lia.
  rewrite Hr, Q6, Q5, E4, Q3, Q2, E1. ring.
Qed.

(** C13. The restarts of a broker whose volume grows end: a run in which the loop has gone round
    [turns] times without an end has waited ten seconds, then twenty, and so on, within a context
    of ten minutes, so there are at most five such turns; the shift and the product of the delay
    do not overflow in any turn up to the thirtieth. *)
Theorem resize_turns_bounded turns brokerID desired (s : St W KafkaState) o s' :
  (turns ≤ 30)%nat → scaleBrokerForPVCResize turns cr brokerID desired s = (o, s') →
  (o = Ret None → zsum awaited (trace s') - zsum awaited (trace s) = 10 * (2 ^ Z.of_nat turns - 1)) ∧
  ((6 ≤ turns)%nat → zsum awaited (trace s') - zsum awaited (trace s) ≤ 600 → o ≠ Ret None).
Proof.
  intros Ht Hr. assert (HN : o = Ret None → zsum awaited (trace s') - zsum awaited (trace s) = 10 * (2 ^ Z.of_nat turns - 1)).
  { intros ->. apply resize_loop_waits in Hr; [|lia..]. rewrite Hr. change (2 ^ (1 - 1)) with 1. lia. }
  split; [done|]. intros Hge Hw Ho. specialize (HN Ho). assert (2 ^ 6 ≤ 2 ^ Z.of_nat turns) by (apply Z.pow_le_mono_r; lia). lia.
Qed.

End resize.

(** ** The script that writes a user *)

Lemma escape_cons a s :
  escape (String a s) = if decide (a = "039"%char) then quote +:+ dquote +:+ quote +:+ dquote +:+ quote +:+ escape s else String a (escape s).
Proof.
  unfold escape, ReplaceAll. cbn [replace_go]. unfold HasPrefix, quote. cbn [String.prefix].
  destruct (ascii_dec "039" a) as [<-|Hn]; [rewrite decide_True by done; destruct s; cbn [String.prefix]; by rewrite !app_assoc_s|].
  by rewrite decide_False by congruence.
Qed.

Lemma escape_app s t : escape (s +:+ t) = escape s +:+ escape t.
Proof.
  induction s as [|a s IH]; [done|]. change (String a s +:+ t) with (String a (s +:+ t)). rewrite !escape_cons, IH.
  case_decide; [by rewrite !app_assoc_s|done].
Qed.

Section script.
Context `{Shell}.

(** A quotation that was escaped is read back, after a piece [p] of it that needs no escape. *)
Lemma sh_word_escape p s rest :
  no_nul p → has_char "039"%char p = false → no_nul s → ends_word rest →
  sh_word (String "039" (p +:+ escape s +:+ quote +:+ rest)) = Some (p +:+ s, rest).
Proof.
  intros Hp Hq Hs Hr. revert p Hp Hq. induction s as [|a s IH]; intros p Hp Hq.
  - change (escape "" +:+ quote +:+ rest) with (String "039" rest). rewrite sh_word_single, sh_word_end by done. done.
  - unfold no_nul in Hs. cbn in Hs. apply orb_false_elim in Hs as [Ha Hs]. rewrite escape_cons.
    destruct (decide (a = "039"%char)) as [->|Hd].
    + transitivity (sh_word (String "039" (p +:+ String "039" (String "034" ("'" +:+ String "034"
        (String "039" ("" +:+ escape s +:+ quote +:+ rest))))))); [reflexivity|].
      rewrite sh_word_single by done. rewrite sh_word_double by (done || by repeat constructor). by rewrite IH.
    + replace (p +:+ String a (escape s) +:+ quote +:+ rest) with ((p +:+ String a "") +:+ escape s +:+ quote +:+ rest) by (by rewrite !app_assoc_s).
      rewrite IH; [by rewrite app_assoc_s|done|unfold no_nul in *; rewrite has_char_app, Hp; cbn; by rewrite Ha|].
      rewrite has_char_app, Hq. cbn. by rewrite bool_decide_eq_false_2.
Qed.

Lemma sh_arguments_escape s rest :
  no_nul s → ends_word rest → sh_arguments (quote +:+ escape s +:+ quote +:+ rest) = cons s <$> sh_arguments rest.
Proof.
  intros Hs Hr. apply sh_arguments_word; [right; by left|]. change (sh_word (String "039" ("" +:+ escape s +:+ quote +:+ rest)) = Some (s, rest)).
  by apply sh_word_escape.
Qed.

Lemma sh_arguments_next w s :
  w ≠ "" → forallb plain (String.list_ascii_of_string w) = true → sh_arguments (w +:+ String " " s) = cons w <$> sh_arguments s.
Proof. intros Hw Hp. rewrite sh_arguments_plain by (done || by left). by rewrite sh_arguments_blank. Qed.

(** C11. Whatever characters the credentials are made of, NUL apart, which no argument can hold, the
    script that writes a user is a fixed text, up to the arguments at the end of its last command,
    and of these sh reads the name of the user and the setting with the password back as one
    argument each. *)
Theorem scram_script_read_back username password :
  no_nul username → no_nul password →
  ∃ arguments,
    scram_script username password =
      nl +:+ "adminclient=" +:+ dquote +:+ "${KAFKA_HOME}/bin/adminclient.properties" +:+ dquote +:+ nl +:+
      "if [ -f /tmp/kafka/bin/adminclient.properties ]; then" +:+ nl +:+
      "  adminclient=/tmp/kafka/bin/adminclient.properties" +:+ nl +:+ "fi" +:+ nl +:+
      "${KAFKA_HOME}/bin/kafka-configs.sh --bootstrap-server localhost:9092 \" +:+ nl +:+
      "  --command-config " +:+ dquote +:+ "$adminclient" +:+ dquote +:+ " \" +:+ nl +:+ "  " +:+ arguments ∧
    sh_arguments arguments =
      Some ["--alter"; "--entity-type"; "users"; "--entity-name"; username; "--add-config"; "SCRAM-SHA-512=[password=" +:+ password +:+ "]"].
Proof.
  intros Hu Hp. set (setting := "SCRAM-SHA-512=[password=" +:+ password +:+ "]").
  assert (HS : scram_setting (escape password) = escape setting) by (unfold setting, scram_setting; by rewrite !escape_app).
  assert (HN : no_nul setting) by (unfold no_nul, setting in *; by rewrite !has_char_app, Hp).
  exists ("--alter" +:+ String " " ("--entity-type" +:+ String " " ("users" +:+ String " " ("--entity-name" +:+ String " "
    (quote +:+ escape username +:+ quote +:+ String " " (String "\" (String newline_char (String " " (String " " ("--add-config" +:+ String " "
      (quote +:+ escape setting +:+ quote +:+ String newline_char ""))))))))))).
  split.
  - unfold scram_script. rewrite HS. unfold scram_head, scram_middle. by rewrite !app_assoc_s.
  - rewrite !sh_arguments_next by done. rewrite sh_arguments_escape by (done || by left).
    rewrite sh_arguments_blank, sh_arguments_continued, !sh_arguments_blank by done. rewrite sh_arguments_next by done.
    rewrite sh_arguments_escape by (done || by right). by rewrite sh_arguments_end.
Qed.

End script.

(** ** The users of the brokers *)

Section credentials.
Context `{Env W} `{Retry} `{Polling} `{Library} `{Quantities} `{Digest} `{Marshaler KafkaSpec} `{Sorter}.
Context (cr : Kafka).

(** The script that writes a user ran in the pod, without an error: nothing came on its error output,
    but for the complaint about ZooKeeper that is let through. *)
Definition user_written (pod : Pod) (user : string * string) (e : event) : Prop :=
  ∃ out err, e = Ev (ExecStream (Name (pod_meta pod)) "kafka" (cr_Namespace cr) (shell (scram_script user.1 user.2))) (inl (out, err)) ∧
    (err = "" ∨ Contains_str err "zookeeper.ssl.keyStore.location not specified" = true).

(** A command in a pod is the script that writes one of these users. *)
Definition only_writes (users : list (string * string)) (e : event) : Prop :=
  ∀ pod container namespace command r, e = Ev (ExecStream pod container namespace command) r →
    ∃ user, user ∈ users ∧ command = shell (scram_script user.1 user.2).

Lemma only_writes_user name password users podName :
  (name, password) ∈ users → emits (only_writes users) (updateScramUserInPod (W := W) cr podName name password).
Proof.
  intros Hu. unfold updateScramUserInPod, runCommandInPod. emits_auto; try by intros ? ? ? ? ?.
  intros pod container namespace command r' Hx. inversion Hx; subst. by exists (name, password).
Qed.

Lemma updateScramUser_written pod name password (s s' : St W KafkaState) :
  updateScramUserInPod cr (Name (pod_meta pod)) name password s = (Ret tt, s') →
  ∃ tr, trace s' = trace s ++ tr ∧ Exists (user_written pod (name, password)) tr.
Proof.
  unfold updateScramUserInPod, runCommandInPod. unfold mbind, M_bind, try, request.
  destruct (perform _ NewForConfig _) as [[u|e] w2]; [|done]. cbn [world trace local].
  destruct (perform _ (NewSPDYExecutor _ _ _ _) _) as [[u'|e] w3]; [|done]. cbn [world trace local].
  destruct (perform _ (ExecStream _ _ _ _) _) as [[[out err]|e] w4]; cbn [world trace local]; [|by destruct (Contains_str _ _)].
  destruct (negb (bool_decide (err = "")) && negb (Contains_str err _)) eqn:Ee; [done|]. intros [= <-].
  cbn [trace]. rewrite <- !app_assoc. eexists. split; [done|].
  apply Exists_exists. eexists. split; [|exists out, err; split; [done|]; apply andb_false_iff in Ee as [Ee|Ee]; apply negb_false_iff in Ee];
    [set_solver|left; by apply bool_decide_eq_true in Ee|by right].
Qed.

Definition sync_user (pod : Pod) : string * string → M (St W KafkaState) unit := λ '(name, password),
  r ← try (updateScramUserInPod cr (Name (pod_meta pod)) name password);
  match r with
  | inr err => throw (mkErr (err_reason err) ("failed to update SCRAM credentials in pod " +:+ Name (pod_meta pod) +:+ ": " +:+ err_msg err))
  | inl _ => mret tt
  end.

Lemma sync_each_written pod users (s s' : St W KafkaState) :
  for_each (sync_user pod) users s = (Ret tt, s') →
  ∃ tr, trace s' = trace s ++ tr ∧ ∀ user, user ∈ users → Exists (user_written pod user) tr.
Proof.
  revert s. induction users as [|[name password] users IH]; intros s; cbn [for_each].
  - intros [= <-]. exists []. rewrite app_nil_r. split; [done|]. set_solver.
  - intros ([] & s1 & Hu & Hr)%bind_inv. apply IH in Hr as (tr2 & E2 & F2).
    assert (Hw : updateScramUserInPod cr (Name (pod_meta pod)) name password s = (Ret tt, s1)).
    { revert Hu. unfold sync_user, mbind, M_bind, try. destruct (updateScramUserInPod _ _ _ _ s) as [[[]|e|] s2]; [|done..]. by intros [= <-]. }
    apply updateScramUser_written in Hw as (tr1 & E1 & F1). exists (tr1 ++ tr2). rewrite E2, E1, app_assoc. split; [done|].
    intros user [->|Hin]%elem_of_cons; apply Exists_app; [by left|right; by apply F2].
Qed.

Lemma sync_each_only pod users : emits (only_writes users) (for_each (sync_user pod) users).
Proof.
  apply emits_for_each. intros [name password] Hu. unfold sync_user. emits_auto. by apply only_writes_user.
Qed.

(** The recorded hash of some credentials is known and is not that of the secret. *)
Definition outdated (l : KafkaState) (hashName : string) (hash : string) : Prop :=
  ∃ known, ResourceHashes l !! hashName = Some known ∧ known ≠ "" ∧ known ≠ hash.

Lemma hash_changed_outdated l key hash : hash_changed l key hash = true ↔ outdated l key hash.
Proof.
  unfold hash_changed, outdated, sget, map_get. rewrite andb_true_iff, !negb_true_iff, !bool_decide_eq_false.
  destruct (ResourceHashes l !! key) as [known|]; cbn; split.
  - intros [? ?]. by exists known.
  - by intros (k & [= <-] & ? & ?).
  - by intros [? _].
  - by intros (k & ? & _).
Qed.

(** C20. When the synchronisation of the users returns nil, either the secret has no administrator or the
    list of pods had none that is ready, and then nothing was done; or there was a ready pod, and in
    it the script that writes the administrator, if the recorded hash of its credentials is another
    one, and the script that writes the client, if it has a name and the recorded hash of its
    credentials is another one, were run without an error, each with the name and the password of
    the secret; no other command was run in a pod. *)
Theorem syncScramCredentials_written kafkaSecret (s s' : St W KafkaState) :
  let data := sget (secret_Data kafkaSecret) in
  let admin_outdated := outdated (local s) "secret-admin-creds" (secretCredsHash kafkaSecret "admin-username" "admin-password") in
  let client_outdated := outdated (local s) "secret-client-creds" (secretCredsHash kafkaSecret "client-username" "client-password") in
  syncScramCredentials cr kafkaSecret s = (Ret tt, s') →
  (data "admin-username" = "" ∨ data "admin-password" = "") ∧ s' = s ∨
  ∃ pods, let listing := Ev (ListObjs KPod (cr_Namespace cr) (GetSelectorLabels cr)) (inl pods) in
    (Forall (λ pod, pod_ready pod = false) pods ∧ trace s' = trace s ++ [listing]) ∨
    ∃ pod tr, pod ∈ pods ∧ pod_ready pod = true ∧ trace s' = trace s ++ listing :: tr ∧
      (admin_outdated → Exists (user_written pod (data "admin-username", data "admin-password")) tr) ∧
      (client_outdated → data "client-username" ≠ "" → Exists (user_written pod (data "client-username", data "client-password")) tr) ∧
      Forall (λ e, ∀ name container namespace command r, e = Ev (ExecStream name container namespace command) r →
        admin_outdated ∧ command = shell (scram_script (data "admin-username") (data "admin-password")) ∨
        client_outdated ∧ data "client-username" ≠ "" ∧ command = shell (scram_script (data "client-username") (data "client-password"))) tr.
Proof.
  intros data ao co. assert (HU : ∀ user, user ∈ scram_users (local s) kafkaSecret ↔
    ao ∧ user = (data "admin-username", data "admin-password") ∨ co ∧ data "client-username" ≠ "" ∧ user = (data "client-username", data "client-password")).
  { intros user. unfold scram_users, admin_changed, client_changed. fold data. rewrite elem_of_app.
    assert (HA : hash_changed (local s) kafkaAdminCredsHashName (adminHash kafkaSecret) = true ↔ ao) by apply hash_changed_outdated.
    assert (HC : hash_changed (local s) kafkaClientCredsHashName (clientHash kafkaSecret) = true ↔ co) by apply hash_changed_outdated.
    destruct (hash_changed (local s) kafkaAdminCredsHashName _), (hash_changed (local s) kafkaClientCredsHashName _),
      (bool_decide_reflect (data "client-username" = "")); cbn; rewrite ?list_elem_of_singleton, ?elem_of_nil; naive_solver. }
  unfold syncScramCredentials. fold data. case_decide as Ha; [by intros [= <-]; left|]. intros (pods & s1 & Hl & Hr)%bind_inv. right. exists pods.
  unfold FindPodList, request in Hl. destruct (perform _ _ (world s)) as [[ps|e] w1]; [|done]. injection Hl as -> <-.
  assert (HP : match GetFirstAvailablePod pods with Some pod => pod ∈ pods ∧ pod_ready pod = true | None => Forall (λ pod, pod_ready pod = false) pods end).
  { clear. induction pods as [|p pods IH]; cbn; [by apply Forall_nil|]. destruct (pod_ready p) eqn:E; [split; [by left|done]|].
    destruct (GetFirstAvailablePod pods); [split; [right; tauto|tauto]|by apply Forall_cons]. }
  destruct (GetFirstAvailablePod pods) as [pod|]; [right|left; injection Hr as <-; done].
  apply bind_inv in Hr as (l & s2 & [= <- <-] & Hr). destruct (sync_each_only pod (scram_users (local s) kafkaSecret)
    (mkSt w1 (trace s ++ [Ev (ListObjs KPod (cr_Namespace cr) (GetSelectorLabels cr)) (inl pods)]) (local s))) as (tr1 & E1 & F1).
  pose proof Hr as Hr'. apply sync_each_written in Hr' as (tr & E & F). change (for_each _ _ _) with
    (for_each (sync_user pod) (scram_users (local s) kafkaSecret) (mkSt w1 (trace s ++ [Ev (ListObjs KPod (cr_Namespace cr) (GetSelectorLabels cr)) (inl pods)]) (local s))) in Hr.
  rewrite Hr in E1. cbn [snd] in E1. rewrite E in E1. apply app_inv_head in E1 as <-. exists pod, tr.
  destruct HP as [Hin Hrdy]. split_and!; [done|done|by rewrite E; cbn; rewrite <- app_assoc|..].
  - intros Hx. apply F, HU. by left.
  - intros Hx Hn. apply F, HU. by right.
  - eapply Forall_impl; [exact F1|]. cbn. intros e He n c ns cmd r Hx. destruct (He n c ns cmd r Hx) as (user & [[? ->]|(? & ? & ->)]%HU & ->); auto.
Qed.

End credentials.

(** ** What is remembered *)

Section memory.
Context `{Env W} `{Retry} `{Polling} `{Library} `{Quantities} `{Digest} `{Marshaler KafkaSpec} `{Sorter}.
Context (range : strmap → list (string * string)) (X509KeyPair : string → string → option gerror) (turns : nat) (cr : Kafka).

Lemma same_update_status f : same_local (update_status (W := W) cr f).
Proof. apply same_UpdateStatusWithRetry. Qed.

Lemma same_runCommandInPod pod container namespace command : same_local (runCommandInPod (W := W) pod container namespace command).
Proof. unfold runCommandInPod. same_local_auto. Qed.

#[local] Hint Resolve same_update_status same_runCommandInPod : operator.

Lemma same_getZooKeeperClusterID : same_local (getZooKeeperClusterID (W := W) cr).
Proof. unfold getZooKeeperClusterID. same_local_auto. Qed.

Lemma same_wait_ready labels n : same_local (wait_ready (W := W) cr labels n).
Proof. unfold wait_ready. same_local_auto. Qed.

Lemma same_wait_broker brokerId n : same_local (waitUntilBrokerIsReady (W := W) cr brokerId n).
Proof. apply same_wait_ready. Qed.

Lemma same_getRack brokerId : same_local (getRack (W := W) cr brokerId).
Proof. unfold getRack. same_local_auto. Qed.

Lemma same_apply_service_of service : same_local (KafkaBrokers.apply_service (W := W) cr service).
Proof. unfold KafkaBrokers.apply_service. same_local_auto. Qed.

Lemma same_apply_deployment_of d : same_local (KafkaBrokers.apply_deployment (W := W) cr d).
Proof. unfold KafkaBrokers.apply_deployment. same_local_auto. Qed.

Lemma same_apply_claim claim : same_local (apply_claim (W := W) cr claim).
Proof. unfold apply_claim. same_local_auto. Qed.

#[local] Hint Resolve same_getZooKeeperClusterID same_wait_ready same_wait_broker same_getRack same_apply_service_of
  same_apply_deployment_of same_apply_claim : operator.

Lemma same_getMigrationStatus : same_local (getMigrationStatus (W := W) cr).
Proof. unfold getMigrationStatus. same_local_auto. Qed.

Lemma same_captured_poll {V} (v : V) interval timeout (cond : M (St W (KafkaState * V)) bool) :
  relates outer_kept cond → same_local (with_var v (PollImmediate interval timeout cond)).
Proof. intros Hc. apply with_var_same_local. by apply (relates_PollImmediate outer_kept). Qed.

Lemma same_resize_state brokerID desired : same_local (waitForBrokerPVCResizeState (W := W) cr brokerID desired).
Proof.
  unfold waitForBrokerPVCResizeState. apply same_local_bind; [|intros [u r]; by intros ?]. apply same_captured_poll.
  unfold resize_state_turn, set_var, brokerPVC, GetPersistentVolumeClaim. relates_auto.
Qed.

Lemma same_capacity brokerID desired timeout : same_local (waitForBrokerPVCCapacity (W := W) cr brokerID desired timeout).
Proof.
  unfold waitForBrokerPVCCapacity. apply same_local_bind; [|intros [[u r]|e]; same_local_auto]. apply same_local_try, same_captured_poll.
  unfold capacity_turn, set_var, brokerPVC, GetPersistentVolumeClaim. relates_auto.
Qed.

Lemma same_resize_loop fuel brokerID desired attempt : same_local (resize_loop (W := W) cr fuel brokerID desired attempt).
Proof.
  revert attempt. induction fuel as [|fuel IH]; intros attempt; cbn [resize_loop]; [done|].
  unfold await, waitUntilBrokerPodsDeleted, FindPodList. same_local_auto. apply same_capacity.
Qed.

Lemma same_rolloutBroker brokerId kraft kafkaSecret : same_local (rolloutBroker (W := W) range cr brokerId kraft kafkaSecret).
Proof. unfold rolloutBroker, resolveClusterID, FindPodList. same_local_auto. Qed.

Lemma same_restart brokerId : same_local (restartBrokerAfterPVCResize (W := W) turns cr brokerId).
Proof.
  unfold restartBrokerAfterPVCResize, scaleBrokerForPVCResize, brokerPVC, GetPersistentVolumeClaim.
  same_local_auto; first [apply same_resize_state | apply same_resize_loop].
Qed.

Lemma same_rollout_each kraft wait kafkaSecret brokers : same_local (rollout_each (W := W) range turns cr kraft wait kafkaSecret brokers).
Proof.
  induction brokers as [|k brokers IH]; cbn [rollout_each]; [done|].
  apply same_local_bind; [apply same_rolloutBroker|intros _]. unfold ended. apply same_local_bind; [apply same_restart|intros [u|]; [|done]].
  same_local_auto.
Qed.

Lemma same_migrate currentReplicas : same_local (migrate (W := W) range cr currentReplicas).
Proof.
  unfold migrate, migrate_from, migration_cluster_id, first_step, second_step, third_step, fourth_step, step_below,
    createMigrationControllerEntities, ensureMigrationControllerIsReady, updateBrokersAndWaitMigrationResult, updateBrokersWithoutZooKeeper,
    updateMigrationControllerWithoutZooKeeper, updateBrokersWithoutKraftMigrationController, removeMigrationControllerEntities, wait_each,
    updateBrokerDeploymentForMigration, waitUntilControllerIsReady, waitUntilMigrationCompleted, FindDeployment.
  same_local_auto; [exact (same_GetStatus (k := KKafka) _ _)|apply same_getMigrationStatus].
Qed.

Lemma same_with_client {A} kc (m : M (St W KafkaClient) A) : same_local (with_client (L := KafkaState) kc m).
Proof. intros s. unfold with_client. by destruct (m _). Qed.

Lemma same_reassign n scaling : same_local (reassignPartitionsWithStatusUpdate (W := W) X509KeyPair turns cr n scaling).
Proof.
  unfold reassignPartitionsWithStatusUpdate, reassignPartitions, getKafkaCredentials, getKafkaCertificates, NewKafkaClient, NewKafkaAdminClient, ended.
  same_local_auto. apply same_with_client.
Qed.

Lemma same_processKafkaReplicas kafkaSecret : same_local (processKafkaReplicas (W := W) range X509KeyPair turns cr kafkaSecret).
Proof.
  unfold processKafkaReplicas, create_common, getCurrentDeploymentsCount, isRollingUpdateApplicable, FindKafkaDeployments, FindDeploymentList, rolloutBrokers, scale_and_reassign, performBrokerScalingIn, ended.
  same_local_auto; first [apply same_migrate | apply same_rollout_each | apply same_reassign].
Qed.

Lemma same_apply_configuration l kafkaSecret : same_local (apply_configuration (W := W) range X509KeyPair turns cr l kafkaSecret).
Proof.
  unfold apply_configuration, syncScramCredentials, updateScramUserInPod, updateKafkaStatus, FindPodList, ended.
  same_local_auto. apply same_processKafkaReplicas.
Qed.

Lemma same_updateServicesSecret kafkaSecret : same_local (updateServicesSecret (W := W) cr kafkaSecret).
Proof. unfold updateServicesSecret. same_local_auto. Qed.

(** What a reconciliation leaves in the maps. *)
Lemma reconcile_memory (s : St W KafkaState) o s' :
  KafkaBrokers.Reconcile range X509KeyPair turns cr s = (o, s') →
  match o with
  | Ret (Some _) => ∃ kafkaSecret specHash s1,
      WatchSecret (KafkaSpec_SecretName (Kafka_Spec cr)) (kafka_owner cr) s = (Ret kafkaSecret, s1) ∧ Hash (Kafka_Spec cr) = Ret specHash ∧
      local s' = remember kafkaSecret specHash (local s)
  | _ => local s' = local s
  end.
Proof.
  unfold KafkaBrokers.Reconcile. unfold mbind at 1, M_bind at 1. pose proof (same_WatchSecret (KafkaSpec_SecretName (Kafka_Spec cr)) (kafka_owner cr) s) as E1.
  destruct (WatchSecret _ _ s) as [[kafkaSecret|e|] s1] eqn:Ew; [|by intros [= <- <-]..]. cbn in E1.
  unfold mbind at 1, M_bind at 1, lift at 1. destruct (Hash (Kafka_Spec cr)) as [specHash|e|] eqn:Eh; [|by intros [= <- <-]..].
  unfold mbind at 1, M_bind at 1, get_local at 1, gets at 1. unfold ended at 1, mbind at 1, M_bind at 1.
  set (m := if configuration_changed _ _ _ then _ else _).
  assert (E2 : local (m s1).2 = local s1) by (unfold m; destruct (configuration_changed _ _ _); [apply same_apply_configuration|done]).
  destruct (m s1) as [[[[]|]|e|] s2]; [|by intros [= <- <-]; cbn in E2; congruence..]. cbn in E2.
  unfold mbind at 1, M_bind at 1, get_local, gets. set (m2 := if secret_version_known _ _ then _ else _).
  assert (E3 : local (m2 s2).2 = local s2) by (unfold m2; destruct (secret_version_known _ _); [done|apply same_updateServicesSecret]).
  unfold mbind at 1, M_bind at 1. destruct (m2 s2) as [[[]|e|] s3]; [|by intros [= <- <-]; cbn in E3; congruence..]. cbn in E3.
  intros [= <- <-]. exists kafkaSecret, specHash, s1. split; [done|]. split; [done|]. cbn. congruence.
Qed.

(** C12. The reconciler of the brokers remembers a secret and a specification only at its end: when it
    returns nil, what is remembered is the version and the hashes of the credentials of the secret
    it read first, and the hash of the specification; when it fails or panics, on whatever branch,
    and while it has not ended, nothing is remembered, so the next reconciliation goes through
    the same changes again. *)
Theorem brokers_remembered_when_nil (s : St W KafkaState) o s' :
  KafkaBrokers.Reconcile range X509KeyPair turns cr s = (o, s') →
  match o with
  | Ret (Some _) => ∃ kafkaSecret specHash s1,
      WatchSecret (KafkaSpec_SecretName (Kafka_Spec cr)) (kafka_owner cr) s = (Ret kafkaSecret, s1) ∧ Hash (Kafka_Spec cr) = Ret specHash ∧
      local s' = remember kafkaSecret specHash (local s)
  | _ => local s' = local s
  end.
Proof. apply reconcile_memory. Qed.

End memory.
