(* ===== verification/KafkaApplied.v ===== *)
(** * What a reconciliation of the brokers has applied when it returns nil

    Of KafkaBrokers.v.  The other properties of the brokers say what is not written too early or
    not remembered too early; this one says that nothing is left out: when the reconciler reports
    success, the API server accepted the service and the deployment of every broker asked for. *)

From S2P Require Import Prelude GoStrings Util Transformation Kube Api Providers KafkaProvider.
From S2P Require Import External Cluster Reconciler KafkaClient Conditions KafkaBrokers KafkaMigration KafkaRollout.

Import KafkaV1 KafkaObjects KafkaObjectsProperties.

(** ** Code that leaves an event behind *)

Section leads.
Context `{Env W} {L : Type}.

(** Started with [l] in memory, code that returns a value that is [ok] leaves an event that
    satisfies [Q]. *)
Definition leads {A} (ok : A → Prop) (l : L) (Q : event → Prop) (m : M (St W L) A) : Prop :=
  ∀ s a s', local s = l → m s = (Ret a, s') → ok a → ∃ tr, trace s' = trace s ++ tr ∧ Exists Q tr.

Lemma leads_request {R} ok l (Q : event → Prop) (c : call R) : (∀ r, Q (Ev c (inl r))) → leads ok l Q (request c).
Proof.
  intros HQ s a s' _. unfold request. destruct (perform R c (world s)) as [[r|e] w]; intros [= <- <-] _.
  eexists. split; [done|]. by left.
Qed.

Lemma leads_throw {A} (ok : A → Prop) l (Q : event → Prop) e : leads ok l Q (throw e).
Proof. by intros s a s' _ [=]. Qed.

Lemma leads_none {A} l (Q : event → Prop) : leads (A := option A) is_Some l Q (mret None).
Proof. intros s a s' _ [= <- <-] [x [=]]. Qed.

(** The event comes from the first part, or from the second. *)
Lemma leads_first {A B} (ok : B → Prop) l Q (m : M (St W L) A) (f : A → M (St W L) B) :
  leads (λ _, True) l Q m → (∀ a, emits (λ _, True) (f a)) → leads ok l Q (m ≫= f).
Proof.
  intros Hm Hf s b s' Hl (a & s1 & H1 & H2)%bind_inv _. destruct (Hm _ _ _ Hl H1 I) as (tr & E & F).
  destruct (Hf a s1) as (tr' & E' & _). rewrite H2 in E'. exists (tr ++ tr'). rewrite app_assoc, <- E. split; [done|]. apply Exists_app. by left.
Qed.

Lemma leads_second {A B} (ok : B → Prop) l Q (m : M (St W L) A) (f : A → M (St W L) B) :
  emits (λ _, True) m → same_local m → (∀ a, leads ok l Q (f a)) → leads ok l Q (m ≫= f).
Proof.
  intros Hm Hs Hf s b s' Hl (a & s1 & H1 & H2)%bind_inv Hb. destruct (Hm s) as (tr & E & _). specialize (Hs s).
  rewrite H1 in E, Hs. cbn in E, Hs. destruct (Hf a s1 b s') as (tr' & E' & F); [congruence|done..|].
  exists (tr ++ tr'). rewrite app_assoc, <- E. split; [done|]. apply Exists_app. by right.
Qed.

(** A part with fuel, then the rest when it has ended. *)
Lemma leads_ended {B} l Q (m : M (St W L) (option unit)) (f : unit → M (St W L) (option B)) :
  leads is_Some l Q m → (∀ u, emits (λ _, True) (f u)) → leads is_Some l Q (ended m f).
Proof.
  intros Hm Hf s b s' Hl (a & s1 & H1 & H2)%bind_inv Hb. destruct a as [u|]; [|injection H2 as <- <-; by destruct Hb].
  destruct (Hm _ _ _ Hl H1) as (tr & E & F); [done|].
  destruct (Hf u s1) as (tr' & E' & _). rewrite H2 in E'. exists (tr ++ tr'). rewrite app_assoc, <- E. split; [done|]. apply Exists_app. by left.
Qed.

Lemma leads_lift {A B} (ok : B → Prop) l Q (o : outcome A) (f : A → M (St W L) B) :
  (∀ a, o = Ret a → leads ok l Q (f a)) → leads ok l Q (lift o ≫= f).
Proof. intros Hf s b s' Hl (a & s1 & [= Ho <-] & H2)%bind_inv. by eapply Hf. Qed.

Lemma leads_local {B} (ok : B → Prop) l Q (f : L → M (St W L) B) : leads ok l Q (f l) → leads ok l Q (get_local ≫= f).
Proof. intros Hf s b s' Hl (a & s1 & [= <- <-] & H2)%bind_inv. rewrite Hl in H2. by eapply Hf. Qed.

Lemma leads_retry `{Retry} ok l Q (fn : M (St W L) unit) :
  leads ok l Q fn → emits (λ _, True) fn → same_local fn → leads ok l Q (RetryOnConflict fn).
Proof.
  intros Hfn He Hs s a s' Hl Hr%RetryOnConflict_spec Ha. remember (Ret a) as o eqn:Eo.
  induction Hr as [n s o s' H1|n s e s1 o s' H1 Hc Hr IH]; subst o; [by eapply Hfn|].
  destruct (He s) as (tr & E & _). specialize (Hs s). rewrite H1 in E, Hs. cbn in E, Hs.
  destruct IH as (tr' & E' & F); [congruence|done|]. exists (tr ++ tr'). rewrite app_assoc, <- E. split; [done|]. apply Exists_app. by right.
Qed.

End leads.

(** ** The objects of a broker *)

(** The deployment as it is written: with the annotation when the secret asks for restarts. *)
Definition restarted `{Digest} (l : KafkaState) (kafkaSecret : Secret) (d : Deployment) : Deployment :=
  if restart_on_secret l kafkaSecret then
    addDeploymentAnnotation (resourceVersionAnnotation (Name (secret_meta kafkaSecret))) (ResourceVersion (secret_meta kafkaSecret)) d
  else d.

Section applied.
Context `{Env W} `{Retry} `{Polling} `{Library} `{Quantities} `{Digest} `{Marshaler KafkaSpec} `{Sorter}.
Context (range : strmap → list (string * string)) (X509KeyPair : string → string → option gerror) (turns : nat) (cr : Kafka).

(** The API server accepted the deployment of a broker: the one the provider builds, which runs one
    pod, under the name of the broker. *)
Definition deployment_applied (kraft : bool) (l : KafkaState) (kafkaSecret : Secret) (b : Z) (e : event) : Prop :=
  ∃ rack clusterID d0 d r,
    NewKafkaBrokerDeploymentForCR range cr b rack kraft clusterID = Ret d0 ∧
    (e = Ev (Create KDeployment d) (inl r) ∨ e = Ev (Update KDeployment d) (inl r)) ∧
    d = set_dep_meta (dep_meta d) (restarted l kafkaSecret d0) ∧
    Name (dep_meta d) = broker_name cr b ∧ Namespace (dep_meta d) = cr_Namespace cr ∧ dep_Replicas d = Some 1.

(** It accepted the service of a broker, new or with the version and the address of the found one. *)
Definition service_applied (b : Z) (e : event) : Prop :=
  let service := NewKafkaBrokerServiceForCR cr b in
  (∃ r, e = Ev (Create KService service) (inl r)) ∨ ∃ found r, e = Ev (Update KService (merge_service service found)) (inl r).

Lemma leads_CreateOrUpdateDeployment (l : KafkaState) Q d :
  (∀ d' r, d' = set_dep_meta (dep_meta d') d → Name (dep_meta d') = Name (dep_meta d) → Namespace (dep_meta d') = Namespace (dep_meta d) →
     Q (Ev (Create KDeployment d') (inl r)) ∧ Q (Ev (Update KDeployment d') (inl r))) →
  leads (λ _, True) l Q (CreateOrUpdateDeployment (W := W) d).
Proof.
  intros HQ. unfold CreateOrUpdateDeployment, FindDeployment. apply leads_second; [by emits_auto|same_local_auto|intros [found|e]].
  - apply leads_retry; [|unfold update_deployment, FindDeployment; by emits_auto|unfold update_deployment, FindDeployment; same_local_auto].
    unfold update_deployment, FindDeployment. apply leads_second; [by emits_auto|same_local_auto|intros f]. cbv zeta.
    apply leads_first; [|intros ?; apply emits_ret]. apply leads_request. intros r. by apply HQ.
  - destruct (IsNotFound e); [|apply leads_throw]. apply leads_first; [|intros ?; apply emits_ret]. apply leads_request. intros r.
    apply HQ; [by destruct d|done..].
Qed.

Lemma broker_deployment_shape b rack kraft clusterID d :
  NewKafkaBrokerDeploymentForCR range cr b rack kraft clusterID = Ret d →
  Name (dep_meta d) = broker_name cr b ∧ Namespace (dep_meta d) = cr_Namespace cr ∧ dep_Replicas d = Some 1.
Proof.
  by intros (h & p & affinity & _ & _ & ->)%broker_deployment_made.
Qed.

Lemma restarted_shape l kafkaSecret d :
  dep_meta (restarted l kafkaSecret d) = dep_meta d ∧ dep_Replicas (restarted l kafkaSecret d) = dep_Replicas d.
Proof. unfold restarted. by destruct (restart_on_secret l kafkaSecret). Qed.

Lemma rolloutBroker_deployment kraft l kafkaSecret b :
  leads (λ _, True) l (deployment_applied kraft l kafkaSecret b) (rolloutBroker (W := W) range cr b kraft kafkaSecret).
Proof.
  unfold rolloutBroker.
  apply leads_second; [by apply plain_apply_service|apply same_apply_service_of|intros _]. apply leads_lift. intros claim _.
  apply leads_second; [by apply plain_apply_claim|apply same_apply_claim|intros _].
  apply leads_second; [by apply plain_getRack|apply same_getRack|intros rack].
  apply leads_second; [emits_auto; by apply plain_resolveClusterID| |intros clusterID].
  { unfold resolveClusterID, FindPodList. same_local_auto; apply same_getZooKeeperClusterID. }
  apply leads_lift. intros d0 Hd. apply leads_lift. intros owned _. apply leads_local. fold (restarted l kafkaSecret d0).
  destruct (broker_deployment_shape _ _ _ _ _ Hd) as (Hn & Hns & Hr). destruct (restarted_shape l kafkaSecret d0) as [Em Er].
  apply leads_CreateOrUpdateDeployment. intros d r Ed En Ens. rewrite Em in En, Ens.
  split; exists rack, clusterID, d0, d, r; (split_and!; [done|by auto|done|congruence|congruence|]); rewrite Ed; cbn; by rewrite Er.
Qed.

Lemma rolloutBroker_service l kafkaSecret kraft b :
  leads (λ _, True) l (service_applied b) (rolloutBroker (W := W) range cr b kraft kafkaSecret).
Proof.
  unfold rolloutBroker. apply leads_first.
  - unfold KafkaBrokers.apply_service. apply leads_lift. intros owned _. unfold CreateOrUpdateService.
    apply leads_second; [by emits_auto|same_local_auto|intros [found|e]]; cbv zeta.
    + apply leads_first; [|intros ?; apply emits_ret]. apply leads_request. intros r. right. by exists found, r.
    + destruct (IsNotFound e); [|apply leads_throw]. apply leads_first; [|intros ?; apply emits_ret]. apply leads_request. intros r. left. by exists r.
  - intros _. emits_auto; first [done | by apply plain_apply_claim | by apply plain_getRack | by apply plain_resolveClusterID
      | by apply emits_CreateOrUpdateDeployment].
Qed.

(** ** Everything else only adds to the history *)

Notation any m := (emits (λ _, True) m).

Lemma any_restart b : any (restartBrokerAfterPVCResize (W := W) turns cr b).
Proof.
  unfold restartBrokerAfterPVCResize, scaleBrokerForPVCResize. emits_auto; first [done | by apply plain_brokerPVC | by apply plain_resize_state | apply any_resize_loop].
Qed.

Lemma any_migrate n : any (migrate (W := W) range cr n).
Proof.
  unfold migrate, migrate_from, first_step, second_step, third_step, fourth_step, step_below, createMigrationControllerEntities, updateBrokersAndWaitMigrationResult,
    updateBrokerDeploymentForMigration, waitUntilMigrationCompleted, GetStatus, reloadCR.
  emits_auto; try first [done | apply any_cluster_id | apply any_update_brokers | apply any_update_controller | apply any_forget_controller | by apply plain_remove | by apply plain_apply_service | by apply plain_apply_claim
    | by apply emits_apply_deployment | by apply plain_wait_controller | by apply plain_update_status | by apply plain_ensure
    | by apply plain_getRack | by apply plain_wait_broker].
  apply emits_PollImmediate; [by apply plain_getMigrationStatus|done].
Qed.

Lemma any_wait_brokers fuel remaining : any (wait_brokers (W := W) fuel remaining).
Proof.
  revert remaining. induction fuel as [|fuel IH]; intros remaining; cbn [wait_brokers]; [apply emits_panic|].
  unfold GetActiveBrokers. emits_auto; first [done | apply IH].
Qed.

Lemma any_describe_topics fuel titles : any (describe_topics (W := W) fuel titles).
Proof. induction fuel as [|fuel IH]; cbn [describe_topics]; [apply emits_ret|]. emits_auto; first [done | apply IH]. Qed.

Lemma any_wait_reassignment fuel topic partitions remaining : any (wait_reassignment (W := W) fuel topic partitions remaining).
Proof.
  revert remaining. induction fuel as [|fuel IH]; intros remaining; cbn [wait_reassignment]; [apply emits_panic|].
  emits_auto; first [done | apply IH].
Qed.

Lemma any_reassign_topics fuel all topics : any (reassign_topics (W := W) fuel all topics).
Proof.
  induction topics as [|[topic config] topics IH]; cbn [reassign_topics]; [apply emits_ret|].
  unfold calculatePartitionsCount, ReassignPartitionsForTopic, WaitUntilPartitionsReassignmentFinished.
  emits_auto; first [done | apply any_describe_topics | apply any_wait_reassignment | apply IH].
Qed.

Lemma any_with_client {A} kc (m : M (St W KafkaClient) A) : any m → any (with_client (L := KafkaState) kc m).
Proof.
  intros Hm s. destruct (Hm (mkSt (world s) (trace s) kc)) as (tr & E & F). exists tr. unfold with_client. by destruct (m _).
Qed.

Lemma any_reassign n scaling : any (reassignPartitionsWithStatusUpdate (W := W) X509KeyPair turns cr n scaling).
Proof.
  unfold reassignPartitionsWithStatusUpdate, reassignPartitions, getKafkaCredentials, getKafkaCertificates, GetSslCertificates, FindSecret,
    NewKafkaClient, NewKafkaAdminClient, ended.
  emits_auto; try first [done | by apply plain_update_status]. apply any_with_client. unfold ReassignPartitions, WaitUntilAllBrokersAreUp.
  emits_auto; first [done | apply any_wait_brokers | apply any_reassign_topics].
Qed.

Lemma any_scale_and_reassign m n : any (scale_and_reassign (W := W) X509KeyPair turns cr m n).
Proof.
  unfold scale_and_reassign, performBrokerScalingIn, ScaleDeployment, FindDeployment, ended.
  emits_auto; first [done | apply any_reassign].
Qed.

(** ** The reconciliation *)

(** What is said of the rollout of one broker holds of all that runs it. *)
Section broker.
Context (b : Z) (kafkaSecret : Secret) (l : KafkaState) (Q : event → Prop).
Context (HQ : leads (λ _, True) l Q (rolloutBroker (W := W) range cr b (kraft_enabled cr) kafkaSecret)).

Lemma rollout_each_leads wait brokers :
  b ∈ brokers → leads is_Some l Q (rollout_each (W := W) range turns cr (kraft_enabled cr) wait kafkaSecret brokers).
Proof.
  assert (HA : ∀ k brokers, any (ended (restartBrokerAfterPVCResize (W := W) turns cr k) (λ _,
    (if wait : bool then waitUntilBrokerIsReady cr k 300 else mret tt);; rollout_each range turns cr (kraft_enabled cr) wait kafkaSecret brokers))).
  { intros k ks. unfold ended. emits_auto; first [apply any_restart | by apply plain_wait_broker | apply any_rollout_each]. }
  induction brokers as [|k brokers IH]; [set_solver|]. intros [->|Hin]%elem_of_cons; cbn [rollout_each].
  - apply leads_first; [exact HQ|]. intros _. apply HA.
  - specialize (IH Hin). apply leads_second; [|apply same_rolloutBroker|intros _].
    { unfold rolloutBroker. emits_auto; first [done | by apply plain_apply_service | by apply plain_apply_claim | by apply plain_getRack
        | by apply plain_resolveClusterID | by apply emits_CreateOrUpdateDeployment]. }
    unfold ended. apply leads_second; [apply any_restart|apply same_restart|intros [u|]; [|apply leads_none]].
    apply leads_second; [destruct wait; [by apply plain_wait_broker|apply emits_ret]| |intros _; exact IH].
    destruct wait; [apply same_wait_broker|done].
Qed.

Lemma rolloutBrokers_leads rollingUpdate replicas :
  1 ≤ b ≤ replicas → leads is_Some l Q (rolloutBrokers (W := W) range turns cr rollingUpdate replicas (kraft_enabled cr) kafkaSecret).
Proof.
  intros Hb. unfold rolloutBrokers. apply leads_local. cbv zeta. apply leads_ended; [by apply rollout_each_leads, range_incl_spec|].
  intros _. emits_auto. unfold waitUntilAllBrokersReady. by apply plain_wait_ready.
Qed.

Lemma processKafkaReplicas_leads :
  1 ≤ b ≤ KafkaSpec_Replicas (Kafka_Spec cr) → leads is_Some l Q (processKafkaReplicas (W := W) range X509KeyPair turns cr kafkaSecret).
Proof.
  intros Hb. unfold processKafkaReplicas. cbv zeta. apply leads_lift. intros [] _. apply leads_lift. intros [] _.
  apply leads_second; [| |intros _].
  { unfold create_common, CreateSecret, CreateOrUpdateServiceAccount, FindSecret. emits_auto; first [done | by apply plain_apply_service]. }
  { unfold create_common. same_local_auto; apply same_apply_service_of. }
  apply leads_second; [| |intros n].
  { unfold getCurrentDeploymentsCount, FindKafkaDeployments, FindDeploymentList. by emits_auto. }
  { unfold getCurrentDeploymentsCount, FindKafkaDeployments, FindDeploymentList. same_local_auto. }
  apply leads_second; [| |intros rolling].
  { unfold isRollingUpdateApplicable, FindKafkaDeployments, FindDeploymentList. by emits_auto. }
  { unfold isRollingUpdateApplicable, FindKafkaDeployments, FindDeploymentList. same_local_auto. }
  apply leads_second; [| |intros _].
  { emits_auto. apply any_migrate. }
  { destruct (Kraft_Migration _); [apply same_migrate|done]. }
  apply leads_ended; [by apply rolloutBrokers_leads|]. intros _. apply any_scale_and_reassign.
Qed.

Lemma apply_configuration_leads :
  1 ≤ b ≤ KafkaSpec_Replicas (Kafka_Spec cr) → leads is_Some l Q (apply_configuration (W := W) range X509KeyPair turns cr l kafkaSecret).
Proof.
  intros Hb. unfold apply_configuration. rewrite decide_True by lia. apply leads_second; [| |intros _].
  { unfold syncScramCredentials, updateScramUserInPod, FindPodList. emits_auto; first [done | by apply plain_runCommandInPod]. }
  { unfold syncScramCredentials, updateScramUserInPod, FindPodList. same_local_auto; apply same_runCommandInPod. }
  apply leads_ended; [by apply processKafkaReplicas_leads|]. intros _. unfold updateKafkaStatus, FindPodList.
  emits_auto; first [done | by apply plain_update_status].
Qed.

End broker.

(** All of it at once: an event for every broker. *)
Lemma any_apply_configuration l kafkaSecret : any (apply_configuration (W := W) range X509KeyPair turns cr l kafkaSecret).
Proof.
  unfold apply_configuration, syncScramCredentials, updateScramUserInPod, processKafkaReplicas, create_common, CreateSecret,
    CreateOrUpdateServiceAccount, FindSecret, getCurrentDeploymentsCount, isRollingUpdateApplicable, FindKafkaDeployments, FindDeploymentList,
    rolloutBrokers, waitUntilAllBrokersReady, updateKafkaStatus, FindPodList, ended.
  emits_auto; first [done | by apply plain_runCommandInPod | by apply plain_apply_service | apply any_migrate | apply any_rollout_each
    | by apply plain_wait_ready | apply any_scale_and_reassign | by apply plain_update_status].
Qed.

Lemma apply_configuration_applies l kafkaSecret (s s' : St W KafkaState) :
  local s = l → apply_configuration range X509KeyPair turns cr l kafkaSecret s = (Ret (Some tt), s') →
  ∃ tr, trace s' = trace s ++ tr ∧ ∀ b, 1 ≤ b ≤ KafkaSpec_Replicas (Kafka_Spec cr) →
    Exists (deployment_applied (kraft_enabled cr) l kafkaSecret b) tr ∧ Exists (service_applied b) tr.
Proof.
  intros Hl Hr. destruct (any_apply_configuration l kafkaSecret s) as (tr & E & _). rewrite Hr in E. cbn in E. exists tr. split; [done|].
  assert (HQ : ∀ b Q, 1 ≤ b ≤ KafkaSpec_Replicas (Kafka_Spec cr) →
    leads (λ _, True) l Q (rolloutBroker (W := W) range cr b (kraft_enabled cr) kafkaSecret) → Exists Q tr).
  { intros b Q Hb HQ. destruct (apply_configuration_leads b kafkaSecret l Q HQ Hb s (Some tt) s' Hl Hr) as (tr' & E' & F); [done|].
    rewrite E in E'. by apply app_inv_head in E' as ->. }
  intros b Hb. split; (eapply HQ; [done|]); [apply rolloutBroker_deployment|apply rolloutBroker_service].
Qed.

Lemma plain_WatchSecret (P : event → Prop) name owner :
  (∀ e, written e = None → P e) → emits P (WatchSecret (W := W) (L := KafkaState) name owner).
Proof.
  intros HP. unfold WatchSecret, UpdateSecret, FindSecret. emits_auto; try (by apply HP).
  apply emits_RetryOnConflict. unfold update_secret, FindSecret. emits_auto; by apply HP.
Qed.

Lemma plain_updateServicesSecret (P : event → Prop) kafkaSecret :
  (∀ e, written e = None → P e) → emits P (updateServicesSecret (W := W) cr kafkaSecret).
Proof.
  intros HP. unfold updateServicesSecret, UpdateSecret, FindSecret. emits_auto; try (by apply HP).
  apply emits_RetryOnConflict. unfold update_secret, FindSecret. emits_auto; by apply HP.
Qed.

(** Nothing is left out: when the reconciler of the brokers returns nil, it remembers a secret
    and a specification, and if they differ from those it remembered before, then for every broker
    asked for the API server accepted, in this reconciliation, the service of that broker and its
    deployment, as the provider builds it, with one pod and, when the secret asks for a restart,
    with the version of the secret; if they do not differ, no deployment is written. *)
Theorem reconcile_applies_every_broker (s s' : St W KafkaState) :
  KafkaBrokers.Reconcile range X509KeyPair turns cr s = (Ret (Some tt), s') →
  ∃ kafkaSecret specHash tr,
    Hash (Kafka_Spec cr) = Ret specHash ∧ local s' = remember kafkaSecret specHash (local s) ∧ trace s' = trace s ++ tr ∧
    (configuration_changed (local s) kafkaSecret specHash = true → ∀ b, 1 ≤ b ≤ KafkaSpec_Replicas (Kafka_Spec cr) →
       Exists (deployment_applied (kraft_enabled cr) (local s) kafkaSecret b) tr ∧ Exists (service_applied b) tr) ∧
    (configuration_changed (local s) kafkaSecret specHash = false → Forall (λ e, written e = None) tr).
Proof.
  unfold KafkaBrokers.Reconcile. intros (kafkaSecret & s1 & Hw & HR)%bind_inv.
  pose proof (same_WatchSecret (KafkaSpec_SecretName (Kafka_Spec cr)) (kafka_owner cr) s) as L1. rewrite Hw in L1. cbn in L1.
  destruct (plain_WatchSecret (λ e, written e = None) (KafkaSpec_SecretName (Kafka_Spec cr)) (kafka_owner cr) (λ _ E, E) s) as (tr1 & E1 & F1).
  rewrite Hw in E1. cbn in E1. apply bind_inv in HR as (specHash & s1' & [= HH <-] & HR). apply bind_inv in HR as (l & s1' & [= <- <-] & HR).
  rewrite L1 in HR. apply bind_inv in HR as ([u|] & s2 & Hc & HR); [|done].
  assert (L2 : local s2 = local s).
  { destruct (configuration_changed (local s) kafkaSecret specHash); [|injection Hc as _ <-; done].
    rewrite <- L1, <- (same_apply_configuration range X509KeyPair turns cr (local s) kafkaSecret s1), Hc. done. }
  apply bind_inv in HR as (l & s2' & [= <- <-] & HR). apply bind_inv in HR as ([] & s3 & Hu & HR). injection HR as <-. cbn.
  set (m := if secret_version_known (local s2) kafkaSecret then mret tt else updateServicesSecret cr kafkaSecret) in Hu.
  assert (Hm : emits (λ e, written e = None) m ∧ same_local m).
  { unfold m. destruct (secret_version_known _ _); [split; [apply emits_ret|done]|]. split; [by apply plain_updateServicesSecret|apply same_updateServicesSecret]. }
  destruct Hm as [He Hl]. destruct (He s2) as (tr3 & E3 & F3). specialize (Hl s2). rewrite Hu in E3, Hl. cbn in E3, Hl.
  assert (HX : ∃ tr2, trace s2 = trace s1 ++ tr2 ∧
    (configuration_changed (local s) kafkaSecret specHash = true → ∀ b, 1 ≤ b ≤ KafkaSpec_Replicas (Kafka_Spec cr) →
       Exists (deployment_applied (kraft_enabled cr) (local s) kafkaSecret b) tr2 ∧ Exists (service_applied b) tr2) ∧
    (configuration_changed (local s) kafkaSecret specHash = false → tr2 = [])).
  { destruct (configuration_changed (local s) kafkaSecret specHash); [|injection Hc as _ <-; exists []; by rewrite app_nil_r].
    destruct u. destruct (apply_configuration_applies _ _ _ _ L1 Hc) as (tr2 & E2 & F2). by exists tr2. }
  destruct HX as (tr2 & E2 & F2 & G2). exists kafkaSecret, specHash, (tr1 ++ tr2 ++ tr3). split; [done|]. split; [congruence|].
  split; [by rewrite E3, E2, E1, !app_assoc|]. split.
  - intros HC b Hb. destruct (F2 HC b Hb). rewrite !Exists_app. tauto.
  - intros HC. rewrite (G2 HC). by apply Forall_app_2.
Qed.

End applied.
