(* ===== verification/KafkaOrder.v ===== *)
(** * The order of a rolling update

    Of KafkaBrokers.v: the deployments of the later brokers are left alone until the deployment of a
    broker was written and then found ready. *)

From S2P Require Import Prelude GoStrings Util Transformation Kube Api Providers KafkaProvider.
From S2P Require Import External Cluster Reconciler KafkaClient Conditions KafkaBrokers KafkaMigration KafkaRollout KafkaApplied.

Import KafkaV1 KafkaObjects KafkaObjectsProperties.

Lemma range_incl_split b a n : a ≤ b ≤ n → range_incl a n = range_incl a (b - 1) ++ b :: range_incl (b + 1) n.
Proof.
  intros Hb. unfold range_incl. replace (Z.to_nat (n - a + 1)) with (Z.to_nat (b - 1 - a + 1) + S (Z.to_nat (n - (b + 1) + 1)))%nat by lia.
  rewrite seq_app, fmap_app. f_equal. cbn [seq]. rewrite fmap_cons. f_equal; [lia|].
  apply list_eq. intros i. rewrite !list_lookup_fmap. destruct (decide (i < Z.to_nat (n - (b + 1) + 1))%nat).
  - rewrite !lookup_seq_lt by lia. cbn. f_equal. lia.
  - by rewrite !lookup_seq_ge by lia.
Qed.

(** The API server answers with the deployment it is asked for. *)
Definition named (e : event) : Prop :=
  match e with
  | @Ev R c r =>
      match c in call R return R + gerror → Prop with
      | Get k name _ => λ r, match r with inl o => Name (meta_of k o) = name | inr _ => True end
      | _ => λ _, True
      end r
  end.

Section rolling.
Context `{Env W} `{Retry} `{Polling} `{Library} `{Quantities} `{Digest} `{Marshaler KafkaSpec} `{Sorter}.
Context (range : strmap → list (string * string)) (turns : nat) (cr : Kafka) (kraft : bool) (kafkaSecret : Secret) (l : KafkaState) (b : Z).

(** All the deployments with the labels of the broker are ready; the code takes none at all for ready. *)
Definition ready_seen (e : event) : Prop :=
  ∃ ds, e = Ev (ListObjs KDeployment (cr_Namespace cr) (broker_labels cr b)) (inl ds) ∧ all_ready ds = Ret true.

Definition later_written (e : event) : Prop := ∃ b' d, b < b' ∧ written e = Some d ∧ Name (dep_meta d) = broker_name cr b'.

Abbreviation applied := (deployment_applied range cr kraft l kafkaSecret b).

(** The API server accepted the deployment of the broker, and after that it was found ready. *)
Definition settled (tr : list event) : Prop := ∃ tr1 tr2, tr = tr1 ++ tr2 ∧ Exists applied tr1 ∧ Exists ready_seen tr2.

Definition in_order (tr : list event) : Prop := Forall named tr → once settled later_written tr.

Context (t0 : list event).

Abbreviation I := (since t0 in_order).
Abbreviation written_too := (since t0 (λ tr, in_order tr ∧ Exists applied tr)).
Abbreviation J := (since t0 (λ tr, in_order tr ∧ settled tr)).

Lemma settled_more tr tr' : settled tr → settled (tr ++ tr').
Proof. intros (tr1 & tr2 & -> & Ha & Hr). exists tr1, (tr2 ++ tr'). rewrite app_assoc, Exists_app. tauto. Qed.

Lemma in_order_snoc tr e : in_order tr → (later_written e → settled tr) → in_order (tr ++ [e]).
Proof. intros Hp He [Hn _]%Forall_app. by apply once_snoc; [apply Hp|]. Qed.

Lemma ordered {A L} (m : M (St W L) A) : emits (λ e, ¬ later_written e) m → keeps I m.
Proof.
  intros Hm. eapply keeps_emits; [exact Hm|]. intros t e (tr & -> & Hp) He. exists (tr ++ [e]). split; [by rewrite app_assoc|].
  by apply in_order_snoc.
Qed.

Lemma ordered_after {A L} (m : M (St W L) A) : emits (λ _, True) m → keeps J m.
Proof.
  intros Hm. eapply keeps_emits; [exact Hm|]. intros t e (tr & -> & Hp & HE) _. exists (tr ++ [e]). split; [by rewrite app_assoc|].
  split; [by apply in_order_snoc|]. by apply settled_more.
Qed.

(** What has been added to the history. *)
Lemma since_more (X Y : list event → Prop) {A L} (m : M (St W L) A) s tr :
  since t0 X (trace s) → since t0 Y (trace (m s).2) → trace (m s).2 = trace s ++ tr →
  ∃ tr0, trace s = t0 ++ tr0 ∧ trace (m s).2 = t0 ++ tr0 ++ tr ∧ X tr0 ∧ Y (tr0 ++ tr).
Proof.
  intros (tr0 & E0 & HX) (tr1 & E1 & HY) E. exists tr0. rewrite E, E0, <- app_assoc. split; [done|].
  rewrite E, E0, <- app_assoc in E1. by apply app_inv_head in E1 as <-.
Qed.

Lemma ordered_written {A L} (m : M (St W L) A) : keeps I m → emits (λ _, True) m → keeps written_too m.
Proof.
  intros HI Hm s Hs. destruct (Hm s) as (tr & E & _). assert (HI0 : I (trace s)) by (destruct Hs as (tr0 & E0 & Hp & _); by exists tr0).
  destruct (since_more _ _ m s tr Hs (HI s HI0) E) as (tr0 & _ & E1 & [_ HE] & Hp). exists (tr0 ++ tr). split; [done|]. split; [done|].
  apply Exists_app. by left.
Qed.

Lemma not_later e : written e = None → ¬ later_written e.
Proof. intros Hw (b' & d & _ & Hd & _). congruence. Qed.

Lemma scale_in_order brokerId n : brokerId ≤ b → keeps I (ScaleDeployment (W := W) (L := KafkaState) (broker_name cr brokerId) n (cr_Namespace cr)).
Proof.
  intros Hb s Hs. unfold ScaleDeployment, FindDeployment. unfold mbind, M_bind, request. set (c := Get KDeployment _ _).
  destruct (perform _ c (world s)) as [[d|e] w1]; cbn [world trace local].
  - destruct (perform _ (Update KDeployment _) w1) as [r w2]. assert (HI : I ((trace s ++ [Ev c (inl d)]) ++ [Ev (Update KDeployment (set_dep_Replicas (Some n) d)) r])).
    { destruct Hs as (tr & -> & Hp). exists ((tr ++ [Ev c (inl d)]) ++ [Ev (Update KDeployment (set_dep_Replicas (Some n) d)) r]).
      split; [by rewrite !app_assoc|]. intros [[Hn [Hd _]%Forall_cons]%Forall_app _]%Forall_app. apply once_snoc.
      - apply once_snoc; [by apply Hp|]. intros Hl. by eapply not_later in Hl.
      - intros (b' & d' & Hb' & [= <-] & Hn'). cbn in Hd, Hn'. rewrite Hd in Hn'. apply broker_name_inj in Hn'. lia. }
    by destruct r.
  - cbn. destruct Hs as (tr & -> & Hp). exists (tr ++ [Ev c (inr e)]). split; [by rewrite app_assoc|]. apply in_order_snoc; [done|].
    intros Hl. by eapply not_later in Hl.
Qed.

(** Brokers up to [b] write nothing of later ones. *)
Lemma rollout_broker_in_order brokerId : brokerId ≤ b → keeps I (rolloutBroker (W := W) range cr brokerId kraft kafkaSecret).
Proof.
  intros Hb. apply ordered. unfold rolloutBroker. emits_auto.
  - apply plain_apply_service, not_later.
  - apply plain_apply_claim, not_later.
  - apply plain_getRack, not_later.
  - apply plain_resolveClusterID, not_later.
  - apply emits_CreateOrUpdateDeployment; [apply not_later|]. intros e d Hw _ Hn (b' & d' & Hb' & Hw' & Hn'). simplify_eq.
    assert (Name (dep_meta d) = broker_name cr brokerId) as Hd.
    { rewrite Hn. destruct (restart_on_secret _ _); [cbn|]; by eapply broker_deployment_name. }
    rewrite Hd in Hn'. apply broker_name_inj in Hn'. lia.
Qed.

Lemma resize_loop_in_order fuel brokerId desired attempt :
  brokerId ≤ b → keeps I (resize_loop (W := W) cr fuel brokerId desired attempt).
Proof.
  intros Hb. revert attempt. induction fuel as [|fuel IH]; intros attempt; cbn [resize_loop]; [by apply keeps_trace|].
  apply keeps_bind; [apply ordered, plain_await, not_later|intros _]. apply keeps_bind; [by apply scale_in_order|intros _].
  apply keeps_bind; [apply ordered, plain_pods_deleted, not_later|intros _]. apply keeps_bind; [apply ordered, plain_await, not_later|intros _].
  apply keeps_bind; [by apply scale_in_order|intros _]. apply keeps_bind; [apply ordered, plain_capacity, not_later|intros resized].
  destruct resized; [|apply IH]. apply ordered. emits_auto. apply plain_wait_broker, not_later.
Qed.

Lemma restart_in_order brokerId : brokerId ≤ b → keeps I (restartBrokerAfterPVCResize (W := W) turns cr brokerId).
Proof.
  intros Hb. unfold restartBrokerAfterPVCResize, scaleBrokerForPVCResize. keeps_auto.
  - apply ordered, plain_brokerPVC, not_later.
  - apply ordered, plain_resize_state, not_later.
  - by apply resize_loop_in_order.
Qed.

(** ** The turn of the broker itself *)

Lemma broker_written (s s' : St W KafkaState) :
  local s = l → I (trace s) → rolloutBroker range cr b kraft kafkaSecret s = (Ret tt, s') → written_too (trace s').
Proof.
  intros Hl Hs Hr. destruct (rolloutBroker_deployment range cr kraft l kafkaSecret b s tt s' Hl Hr Logic.I) as (tr & E & F).
  pose proof (rollout_broker_in_order b ltac:(lia) s Hs) as HI. rewrite <- (f_equal snd Hr : _ = s') in E |- *.
  destruct (since_more _ _ _ s tr Hs HI E) as (tr0 & _ & E1 & _ & Hp). exists (tr0 ++ tr). split; [done|]. split; [done|].
  apply Exists_app. by right.
Qed.

Lemma wait_settles n (s s' : St W KafkaState) :
  written_too (trace s) → waitUntilBrokerIsReady cr b n s = (Ret tt, s') → J (trace s').
Proof.
  intros Hs Hw. assert (HI0 : I (trace s)) by (destruct Hs as (tr0 & E0 & Hp & _); by exists tr0).
  pose proof (ordered _ (plain_wait_broker cr _ not_later b n) s HI0) as HI.
  assert (HE : ∃ tr, trace (waitUntilBrokerIsReady cr b n s).2 = trace s ++ tr ∧ Exists ready_seen tr).
  { rewrite Hw. cbn [snd]. revert Hw. unfold waitUntilBrokerIsReady, wait_ready. intros (u & s1 & Ht & Hp)%bind_inv.
    assert (Hp1 : trace s `prefix_of` trace s1).
    { rewrite <- (f_equal snd Ht : _ = s1). apply (emits_prefix (λ _, True)). by emits_auto. }
    apply PollImmediate_true in Hp as (s2 & Hp2 & Hg); [|intros x; apply (emits_prefix (λ _, True)); by apply plain_AreDeploymentsReady].
    apply AreDeploymentsReady_true in Hg as (ds & Et & Hr). destruct (transitivity Hp1 Hp2) as [tr E].
    exists (tr ++ [Ev (ListObjs KDeployment (cr_Namespace cr) (broker_labels cr b)) (inl ds)]). rewrite Et, E, app_assoc. split; [done|].
    apply Exists_app. right. left. by exists ds. }
  destruct HE as (tr & E & F). rewrite <- (f_equal snd Hw : _ = s').
  destruct (since_more _ _ _ s tr Hs HI E) as (tr0 & _ & E1 & [_ Ha] & Hp). exists (tr0 ++ tr). split; [done|]. split; [done|]. by exists tr0, tr.
Qed.

Lemma in_order_after t : J t → I t.
Proof. intros (tr & -> & Hp & _). by exists tr. Qed.

Lemma in_order_written t : written_too t → I t.
Proof. intros (tr & -> & Hp & _). by exists tr. Qed.

(** What the order is kept by, and the memory of the reconciler. *)
Definition orderly {A} (m : M (St W KafkaState) A) : Prop :=
  ∀ s, local s = l ∧ I (trace s) → local (m s).2 = l ∧ I (trace (m s).2).

Lemma orderly_of {A} (m : M (St W KafkaState) A) : keeps I m → same_local m → orderly m.
Proof. intros HI Hm s [Hl Hs]. by rewrite Hm, Hl; auto. Qed.

Lemma orderly_bind {A B} (m : M (St W KafkaState) A) (f : A → M (St W KafkaState) B) : orderly m → (∀ a, orderly (f a)) → orderly (m ≫= f).
Proof.
  intros Hm Hf s Hs. specialize (Hm s Hs). unfold mbind, M_bind. destruct (m s) as [[a|e|] s1]; [by apply Hf|done..].
Qed.

(** The brokers before [b], then [b], then others. *)
Lemma rollout_each_early before after :
  (∀ k, k ∈ before → k ≤ b) → orderly (rollout_each range turns cr kraft true kafkaSecret after) →
  orderly (rollout_each range turns cr kraft true kafkaSecret (before ++ after)).
Proof.
  intros Hk Hafter. induction before as [|k before IH]; [done|]. cbn [app rollout_each]. assert (k ≤ b) by (apply Hk; left).
  unfold ended. apply orderly_bind; [apply orderly_of; [by apply rollout_broker_in_order|apply same_rolloutBroker]|intros _].
  apply orderly_bind; [apply orderly_of; [by apply restart_in_order|apply same_restart]|intros [u|]; [|by apply orderly_of; [apply keeps_trace|]]].
  apply orderly_bind; [apply orderly_of; [apply ordered, plain_wait_broker, not_later|apply same_wait_broker]|intros _].
  apply IH. intros x Hx. apply Hk. by right.
Qed.

Lemma rollout_each_from after : orderly (rollout_each range turns cr kraft true kafkaSecret (b :: after)).
Proof.
  intros s [Hl Hs]. split; [by rewrite same_rollout_each|]. cbn [rollout_each]. unfold ended, mbind, M_bind.
  pose proof (rollout_broker_in_order b ltac:(lia) s Hs) as K1.
  destruct (rolloutBroker range cr b kraft kafkaSecret s) as [[[]|e|] s1] eqn:E1; [|done..]. apply broker_written in E1 as W1; [|done..].
  pose proof (ordered_written _ (restart_in_order b ltac:(lia)) (any_restart turns cr b) s1 W1) as W2.
  destruct (restartBrokerAfterPVCResize turns cr b s1) as [[[u1|]|e|] s2]; cbn [snd] in W2; [|by apply in_order_written..].
  pose proof (ordered _ (plain_wait_broker cr _ not_later b 300) s2 (in_order_written _ W2)) as K3.
  destruct (waitUntilBrokerIsReady cr b 300 s2) as [[[]|e|] s3] eqn:E; [|done..].
  apply in_order_after. apply ordered_after; [apply any_rollout_each|]. exact (wait_settles 300 s2 s3 W2 E).
Qed.

End rolling.

(** C10. A rolling update goes broker by broker. In a rollout with the flag set, when the remembered
    credentials of the administrator are those of the secret (otherwise the code does not wait),
    and provided that the API server answers with the deployment it is asked for: however the
    rollout ends, the deployment of a later broker is only written after the API server accepted the
    deployment of each broker before it, as the provider builds it, and after that, in this order,
    the deployments with the labels of that broker were all found ready. *)
Theorem rolling_update_order `{Env W} `{Retry} `{Polling} `{Library} `{Quantities} `{Digest} `{Marshaler KafkaSpec} `{Sorter}
    range turns cr replicas kraft kafkaSecret (s : St W KafkaState) o s' :
  rolloutBrokers range turns cr true replicas kraft kafkaSecret s = (o, s') → admin_changed (local s) kafkaSecret = false →
  ∃ tr, trace s' = trace s ++ tr ∧
    (Forall named tr → ∀ b tr1 e tr2, 1 ≤ b → tr = tr1 ++ e :: tr2 → later_written cr b e →
       ∃ before after, tr1 = before ++ after ∧ Exists (deployment_applied range cr kraft (local s) kafkaSecret b) before ∧ Exists (ready_seen cr b) after).
Proof.
  intros Hr Ha. unfold rolloutBrokers, ended in Hr. unfold mbind at 1, M_bind at 1, get_local, gets in Hr. rewrite Ha in Hr. cbn [negb andb] in Hr.
  assert (Ht : trace s' = trace (rollout_each range turns cr kraft true kafkaSecret (range_incl 1 replicas) s).2).
  { rewrite <- (f_equal snd Hr : _ = s'). unfold mbind, M_bind. by destruct (rollout_each _ _ _ _ _ _ _ s) as [[[u|]|e|] s1]. }
  destruct (any_rollout_each range turns cr kraft true kafkaSecret (range_incl 1 replicas) s) as (tr & E & _). rewrite Ht. exists tr. split; [done|].
  intros Hn b tr1 e tr2 Hb Etr Hl. set (in_order := in_order range cr kraft kafkaSecret (local s) b).
  assert (Hs : local s = local s ∧ since (trace s) in_order (trace s)).
  { split; [done|]. exists []. split; [by rewrite app_nil_r|]. intros _. apply once_nil. }
  assert (HI : since (trace s) in_order (trace (rollout_each range turns cr kraft true kafkaSecret (range_incl 1 replicas) s).2)).
  { destruct (decide (b ≤ replicas)) as [Hbr|Hbr].
    - rewrite (range_incl_split b) by lia. apply rollout_each_early; [|apply rollout_each_from|done]. intros k Hk%range_incl_spec. lia.
    - rewrite <- (app_nil_r (range_incl 1 replicas)). apply rollout_each_early; [|by intros s1|done]. intros k Hk%range_incl_spec. lia. }
  destruct HI as (tr' & E' & Hp). rewrite E in E'. apply app_inv_head in E' as <-. by apply (Hp Hn tr1 e tr2).
Qed.
