(* ===== verification/KafkaController.v ===== *)
(** * The Kafka controller

    Source: operator/controllers/kafka/kafka_controller.go.  A reconciliation of a Kafka resource:
    when its specification or annotations differ from those remembered, the conditions of its status
    are cleared and written anew; the reconciler of the brokers runs in any case (KafkaBrokers.v).
    The controller and that reconciler keep their hashes in the same map. *)

From S2P Require Import Prelude GoStrings Util Transformation Kube Api Providers KafkaProvider.
From S2P Require Import External Cluster Reconciler KafkaClient Conditions KafkaBrokers KafkaMigration KafkaRollout.

Import KafkaV1 KafkaObjects.

Definition kafkaServiceConditionReason : string := "ReconcileCycleStatus".

(** The text [%T] gives. *)
Definition reconciler_type : string := "kafka.ReconcileKafka".

Definition annotationsHashName : string := "annotations".

Section controller.
Context `{Env W} `{Retry} `{Polling} `{Library} `{Quantities} `{Digest} `{Marshaler KafkaSpec} `{Marshaler strmap} `{Sorter}.
Context (now : W → string) (range : strmap → list (string * string)) (X509KeyPair : string → string → option gerror).
Context (turns : nat) (apiGroup : string).

Abbreviation run := (M (St W KafkaState)).

Definition update_condition (cr : Kafka) (status type message : string) : run unit :=
  updateConditions (k := KKafka) (cr_Name cr) (cr_Namespace cr) now
    (NewCondition (k := KKafka) status type kafkaServiceConditionReason message).

Definition writeFailedStatus (cr : Kafka) (errorMessage : string) : run unit :=
  _ ← try (update_condition cr statusFalse typeFailed errorMessage);
  mret tt.

(** An error of the reconciler is written into the status before it is returned. *)
Definition reporting {A} (cr : Kafka) (prefix : string) (m : run A) : run A :=
  r ← try m;
  match r with
  | inl a => mret a
  | inr err => writeFailedStatus cr (prefix +:+ reconciler_type +:+ " due to: " +:+ err_msg err);; throw err
  end.

Definition set_pvc_status (annotations : strmap) (instance : Kafka) : Kafka :=
  set_Kafka_Status (set_KafkaStatus_PVCStatus (mkPVCStatus annotations) (Kafka_Status instance)) instance.

Definition updatePvcStatus (cr : Kafka) : run unit :=
  if decide (PVCStatus_Annotations (KafkaStatus_PVCStatus (Kafka_Status cr)) = pvc_annotations cr) then mret tt
  else update_status cr (set_pvc_status (pvc_annotations cr)).

Definition is_changed (l : KafkaState) (specHash annotationsHash : string) : bool :=
  negb (bool_decide (sget (ResourceHashes l) kafkaHashName = specHash))
  || negb (bool_decide (sget (ResourceHashes l) annotationsHashName = annotationsHash)).

Definition start_cycle (cr : Kafka) : run unit :=
  clearAllConditions (k := KKafka) (cr_Name cr) (cr_Namespace cr);;
  update_condition cr statusFalse typeInProgress "Reconciliation cycle started".

Definition wait_for_pods (cr : Kafka) : run unit :=
  update_condition cr statusFalse typeInProgress "Checking deployment readiness status";;
  reporting cr "The status reconciliation cycle failed for " (KafkaBrokers.Status now cr).

Definition conclude (cr : Kafka) : run unit :=
  (if KafkaSpec_WaitForPodsReady (Kafka_Spec cr) then wait_for_pods cr else mret tt);;
  r ← try (GetStatus (k := KKafka) (cr_Name cr) (cr_Namespace cr));
  match r with
  | inr err => writeFailedStatus cr ("Cannot obtain status for Kafka custom resource: " +:+ err_msg err);; throw err
  | inl status =>
      if hasFailedConditions (k := KKafka) status then
        update_condition cr statusFalse typeFailed "The deployment readiness status check failed"
      else update_condition cr statusTrue typeSuccessful "The deployment readiness status check is successful"
  end.

Definition reconcile_brokers (cr : Kafka) : run (option unit) :=
  reporting cr "Reconciliation cycle failed for " (KafkaBrokers.Reconcile range X509KeyPair turns cr).

Definition reconcile_kafka (cr : Kafka) : run (option unit) :=
  specHash ← lift (Hash (Kafka_Spec cr));
  annotationsHash ← lift (Hash (Annotations (Kafka_meta cr)));
  l ← get_local;
  let changed := is_changed l specHash annotationsHash in
  let cr := if changed then set_Kafka_Status (set_KafkaStatus_Conditions [] (Kafka_Status cr)) cr else cr in
  (if changed then start_cycle cr else mret tt);;
  ended (reconcile_brokers cr) (λ _,
    updatePvcStatus cr;;
    (if changed then conclude cr else mret tt);;
    modify_local (λ l, set_hash kafkaHashName specHash (set_hash annotationsHashName annotationsHash l));;
    mret (Some tt)).

Definition Reconcile (namespace name : string) : run (option Result) :=
  r ← try (request (Get KKafka name namespace));
  match r with
  | inr err => if IsNotFound err then mret (Some (mkResult 0)) else throw err
  | inl instance =>
      matches ← lift (ApiGroupMatches (Kafka_APIVersion instance) apiGroup);
      if (matches : bool) then ended (reconcile_kafka instance) (λ _, mret (Some (mkResult 0)))
      else mret (Some (mkResult 0))
  end.

(** ** Which events reach the controller *)

Definition in_namespace (operatorNamespace : string) (o : ObjectMeta) : bool := bool_decide (Namespace o = operatorNamespace).

Definition owned_update (old new : ObjectMeta) : bool := negb (bool_decide (ResourceVersion new = ResourceVersion old)).

(** The resources that a change of a secret concerns, by name and namespace. *)
Definition mapSecretToKafka (secret : Secret) : run (list (string * string)) :=
  r ← try (request (ListObjs KKafka (Namespace (secret_meta secret)) ∅));
  mret (match r with
        | inr _ => []
        | inl items =>
            (λ item, (cr_Name item, cr_Namespace item)) <$>
              filter (λ item, KafkaSpec_SecretName (Kafka_Spec item) = Name (secret_meta secret)) items
        end).

End controller.

(** ** What the controller remembers *)

Section properties.
Context `{Env W} `{Retry} `{Polling} `{Library} `{Quantities} `{Digest} `{Marshaler KafkaSpec} `{Marshaler strmap} `{Sorter}.
Context (now : W → string) (range : strmap → list (string * string)) (X509KeyPair : string → string → option gerror).
Context (turns : nat).

Lemma same_update_condition_of cr status type message : same_local (KafkaController.update_condition (W := W) now cr status type message).
Proof. apply same_updateConditions. Qed.

Lemma same_reporting {A} cr prefix (m : M (St W KafkaState) A) : same_local m → same_local (KafkaController.reporting now cr prefix m).
Proof.
  intros Hm. unfold KafkaController.reporting, KafkaController.writeFailedStatus. same_local_auto.
Qed.

Lemma same_Status cr : same_local (KafkaBrokers.Status (W := W) now cr).
Proof. unfold KafkaBrokers.Status, KafkaBrokers.condition. same_local_auto. Qed.

Lemma same_conclude cr : same_local (KafkaController.conclude (W := W) now cr).
Proof.
  unfold KafkaController.conclude, KafkaController.wait_for_pods, KafkaController.writeFailedStatus.
  same_local_auto; first [apply same_update_condition_of | apply same_reporting, same_Status | exact (same_GetStatus (k := KKafka) _ _)].
Qed.

Lemma same_updatePvcStatus cr : same_local (updatePvcStatus (W := W) cr).
Proof. unfold updatePvcStatus, update_status. same_local_auto. Qed.

Lemma same_start_cycle cr : same_local (KafkaController.start_cycle (W := W) now cr).
Proof.
  unfold KafkaController.start_cycle, clearAllConditions. same_local_auto.
Qed.

(** The resource a reconciliation goes on with. *)
Definition started (changed : bool) (cr : Kafka) : Kafka :=
  if changed then set_Kafka_Status (set_KafkaStatus_Conditions [] (Kafka_Status cr)) cr else cr.

(** A failure after the brokers were reconciled is not made up for.  The reconciler of the brokers
    records the hash of the specification under the key the controller compares it with, so when
    the controller fails later in the same run (the annotations of the claims, the wait for the
    pods, the conditions), and the annotations are the remembered ones, the resource counts as
    unchanged from then on: a later reconciliation neither clears nor concludes the conditions,
    and the status keeps saying that the reconciliation is in progress. *)
Theorem failed_status_not_retried cr specHash annotationsHash (s s1 s2 s' : St W KafkaState) e :
  Hash (Kafka_Spec cr) = Ret specHash → Hash (Annotations (Kafka_meta cr)) = Ret annotationsHash →
  sget (ResourceHashes (local s)) annotationsHashName = annotationsHash →
  let changed := is_changed (local s) specHash annotationsHash in
  (if changed then KafkaController.start_cycle now (started changed cr) else mret tt) s = (Ret tt, s1) →
  reconcile_brokers now range X509KeyPair turns (started changed cr) s1 = (Ret (Some tt), s2) →
  reconcile_kafka now range X509KeyPair turns cr s = (Error e, s') →
  is_changed (local s') specHash annotationsHash = false ∧
  ∀ s3, local s3 = local s' → reconcile_kafka now range X509KeyPair turns cr s3 =
    ended (reconcile_brokers now range X509KeyPair turns cr) (λ _,
      updatePvcStatus cr;;
      modify_local (λ l, set_hash kafkaHashName specHash (set_hash annotationsHashName annotationsHash l));;
      mret (Some tt)) s3.
Proof.
  intros Hs Ha Hann changed Hst Hb Hr.
  assert (E1 : local s1 = local s).
  { rewrite <- (f_equal snd Hst : _ = s1). destruct changed; [apply same_start_cycle|done]. }
  assert (E2 : ∃ secret, local s2 = remember secret specHash (local s1)).
  { revert Hb. unfold reconcile_brokers, KafkaController.reporting. unfold mbind, M_bind, try.
    destruct (KafkaBrokers.Reconcile _ _ _ _ s1) as [o sb] eqn:Er. pose proof Er as Er'. apply reconcile_memory in Er.
    destruct o as [[[]|]|e'|]; [|done| |done].
    - intros [= <-]. destruct Er as (secret & h & sw & _ & Hh & ->). exists secret.
      assert (h = specHash) as -> by (revert Hh; unfold started; destruct changed; cbn; congruence). done.
    - destruct (KafkaController.writeFailedStatus _ _ _ sb) as [[u|e2|] sx]; done. }
  destruct E2 as [secret E2].
  assert (E3 : local s' = local s2).
  { revert Hr. unfold reconcile_kafka. unfold mbind at 1, M_bind at 1, lift. rewrite Hs. unfold mbind at 1, M_bind at 1. rewrite Ha.
    unfold mbind at 1, M_bind at 1, get_local, gets. cbv zeta. fold changed. fold (started changed cr).
    unfold mbind at 1, M_bind at 1. rewrite Hst. unfold ended at 1, mbind at 1, M_bind at 1. rewrite Hb.
    unfold mbind at 1, M_bind at 1. pose proof (same_updatePvcStatus (started changed cr) s2) as Q1.
    destruct (updatePvcStatus _ s2) as [[[]|e1|] s4]; [|intros [= <- <-]; done|done]. cbn in Q1.
    unfold mbind at 1, M_bind at 1. pose proof (same_conclude (started changed cr) s4) as Q2.
    destruct changed; [|done]. destruct (KafkaController.conclude _ _ s4) as [[[]|e1|] s5]; [done|intros [= <- <-]; cbn in Q2; congruence|done]. }
  assert (HC : is_changed (local s') specHash annotationsHash = false).
  { rewrite E3, E2, E1. unfold is_changed, remember, set_hash, set_version. cbn. unfold sget, map_get in *.
    rewrite !(lookup_insert_ne _ kafkaClientCredsHashName), !(lookup_insert_ne _ kafkaAdminCredsHashName), lookup_insert_eq by done.
    rewrite lookup_insert_ne by done. rewrite Hann. cbn. by rewrite !bool_decide_eq_true_2. }
  split; [done|]. intros s3 E. unfold reconcile_kafka. unfold mbind at 1, M_bind at 1, lift. rewrite Hs. unfold mbind at 1, M_bind at 1. rewrite Ha.
  unfold mbind at 1, M_bind at 1, get_local, gets. cbv zeta. rewrite E, HC. done.
Qed.

End properties.
