(* ===== verification/KafkaCycle.v ===== *)
(** * A reconciliation cycle of a Kafka resource, from end to end

    Of KafkaController.v, with the reconciler of the brokers it calls: what has happened when a
    cycle after a change of the specification returns nil, and what its status then says. *)

From S2P Require Import Prelude GoStrings Util Transformation Kube Api Providers KafkaProvider.
From S2P Require Import External Cluster Reconciler KafkaClient Conditions KafkaBrokers KafkaMigration KafkaRollout KafkaApplied KafkaController.

Import KafkaV1 KafkaObjects.

Section cycle.
Context `{Env W} `{Retry} `{Polling} `{Library} `{Quantities} `{Digest} `{Marshaler KafkaSpec} `{Marshaler strmap} `{Sorter}.
Context (now : W → string) (range : strmap → list (string * string)) (X509KeyPair : string → string → option gerror).
Context (turns : nat) (cr : Kafka).

(** ** Conditions that were accepted *)

(** The API server accepted a status of the resource with this condition. *)
Definition accepted (condition : condition_type KKafka) (e : event) : Prop :=
  ∃ o r c, e = Ev (StatusUpdate KKafka o) (inl r) ∧ c ∈ Conditions (get_Status o) ∧ says c condition.

(** The deployments of the brokers were listed, and all of them were ready. *)
Definition brokers_ready (e : event) : Prop :=
  ∃ ds, e = Ev (ListObjs KDeployment (cr_Namespace cr) (GetSelectorLabels cr)) (inl ds) ∧ all_ready ds = Ret true.

Lemma updateConditions_accepted condition (s s' : St W KafkaState) :
  updateConditions (k := KKafka) (cr_Name cr) (cr_Namespace cr) now condition s = (Ret tt, s') →
  ∃ tr, trace s' = trace s ++ tr ∧ Exists (accepted condition) tr.
Proof.
  intros (tr & o & t & a & Et & _ & _ & c & Hc & Hs)%updateConditions_writes. eexists. split; [exact Et|].
  apply Exists_app. right. apply Exists_cons. right. apply Exists_cons. left. eexists _, a, c. split; [done|]. by rewrite get_set_Status, get_set_Conditions.
Qed.

Lemma any_updateConditions condition : emits (λ _, True) (updateConditions (W := W) (L := KafkaState) (k := KKafka) (cr_Name cr) (cr_Namespace cr) now condition).
Proof. apply emits_UpdateStatusWithRetry; [done| |done]. intros o. by apply emits_nil. Qed.

(** ** The wait for the pods *)

Definition ready_condition : condition_type KKafka := NewCondition (k := KKafka) statusTrue typeReady kafkaConditionReason "Kafka pods are ready".
Definition not_ready_condition : condition_type KKafka := NewCondition (k := KKafka) statusFalse typeFailed kafkaConditionReason "Kafka pods are not ready".

Definition pods_outcome (tr : list event) : Prop :=
  Exists brokers_ready tr ∧ Exists (accepted ready_condition) tr ∨ Exists (accepted not_ready_condition) tr.

Lemma pods_outcome_app tr tr' : pods_outcome tr' → pods_outcome (tr ++ tr').
Proof. unfold pods_outcome. rewrite !Exists_app. tauto. Qed.

Lemma Status_outcome (s s' : St W KafkaState) :
  KafkaBrokers.Status now cr s = (Ret tt, s') → ∃ tr, trace s' = trace s ++ tr ∧ pods_outcome tr.
Proof.
  unfold KafkaBrokers.Status, KafkaBrokers.condition. intros ([] & s1 & HC & Hr)%bind_inv.
  apply updateConditions_accepted in HC as (tr1 & E1 & _). apply bind_inv in Hr as (r & s2 & Hp & Hr).
  revert Hp. unfold try. destruct (PollImmediate _ _ _ s1) as [[[]|e|] s3] eqn:Ep; [| |done]; intros [= <- <-].
  - apply PollImmediate_true in Ep as (s4 & [tr4 E4] & Ha); [|intros x; apply (emits_prefix (λ _, True)); by apply plain_AreDeploymentsReady].
    apply AreDeploymentsReady_true in Ha as (ds & E5 & Hds). apply updateConditions_accepted in Hr as (tr6 & E6 & F6).
    eexists. rewrite E6, E5, E4, E1, <- !app_assoc. split; [done|]. left. rewrite !Exists_app. split; [right; right; left; left; by exists ds|auto].
  - assert (Hx : trace s1 `prefix_of` trace s3).
    { rewrite <- (f_equal snd Ep : _ = s3). apply (emits_prefix (λ _, True)). apply emits_PollImmediate; [by apply plain_AreDeploymentsReady|done]. }
    destruct Hx as [tr3 E3]. apply updateConditions_accepted in Hr as (tr6 & E6 & F6). eexists. rewrite E6, E3, E1, <- !app_assoc.
    split; [done|]. right. rewrite !Exists_app. auto.
Qed.

Lemma wait_for_pods_outcome (s s' : St W KafkaState) :
  wait_for_pods now cr s = (Ret tt, s') → ∃ tr, trace s' = trace s ++ tr ∧ pods_outcome tr.
Proof.
  unfold wait_for_pods, update_condition. intros ([] & s1 & (tr1 & E1 & _)%updateConditions_accepted & Hr)%bind_inv.
  unfold reporting in Hr. apply bind_inv in Hr as (r & s2 & Hp & Hr). revert Hp. unfold try.
  destruct (KafkaBrokers.Status now cr s1) as [[[]|e|] s3] eqn:Es; [| |done]; intros [= <- <-].
  - injection Hr as <-. apply Status_outcome in Es as (tr & E & F). exists (tr1 ++ tr). rewrite E, E1, app_assoc. split; [done|]. by apply pods_outcome_app.
  - apply bind_inv in Hr as (u & s4 & _ & [=]).
Qed.

(** ** The conclusion *)

Definition concluding (o : Kafka) : condition_type KKafka :=
  if hasFailedConditions (k := KKafka) (get_Status (k := KKafka) o)
  then NewCondition (k := KKafka) statusFalse typeFailed kafkaServiceConditionReason "The deployment readiness status check failed"
  else NewCondition (k := KKafka) statusTrue typeSuccessful kafkaServiceConditionReason "The deployment readiness status check is successful".

Lemma conclude_outcome (s s' : St W KafkaState) :
  conclude now cr s = (Ret tt, s') →
  ∃ tr o tr', trace s' = trace s ++ tr ++ Ev (Get KKafka (cr_Name cr) (cr_Namespace cr)) (inl o) :: tr' ∧
    (KafkaSpec_WaitForPodsReady (Kafka_Spec cr) = true → pods_outcome tr) ∧ Exists (accepted (concluding o)) tr'.
Proof.
  unfold conclude. intros ([] & s1 & Hw & Hr)%bind_inv.
  assert (HW : ∃ tr, trace s1 = trace s ++ tr ∧ (KafkaSpec_WaitForPodsReady (Kafka_Spec cr) = true → pods_outcome tr)).
  { destruct (KafkaSpec_WaitForPodsReady (Kafka_Spec cr)); [|injection Hw as <-; exists []; by rewrite app_nil_r].
    apply wait_for_pods_outcome in Hw as (tr & E & F). by exists tr. }
  destruct HW as (tr & E & F). apply bind_inv in Hr as (r & s2 & Hg & Hr). revert Hg. unfold try, GetStatus, reloadCR, mbind, M_bind, request, mret, M_ret.
  destruct (perform _ (Get KKafka _ _) (world s1)) as [[o|e] w1]; intros [= <- <-]; [|by apply bind_inv in Hr as (u & s3 & _ & [=])].
  assert (HU : updateConditions (k := KKafka) (cr_Name cr) (cr_Namespace cr) now (concluding o)
    (mkSt w1 (trace s1 ++ [Ev (Get KKafka (cr_Name cr) (cr_Namespace cr)) (inl o)]) (local s1)) = (Ret tt, s')).
  { rewrite <- Hr. unfold concluding. by destruct (hasFailedConditions _). }
  apply updateConditions_accepted in HU as (tr' & E' & F'). exists tr, o, tr'. cbn in E'. rewrite E', E, <- !app_assoc. by split.
Qed.

Lemma any_updatePvcStatus : emits (λ _, True) (updatePvcStatus (W := W) cr).
Proof. unfold updatePvcStatus. emits_auto. by apply plain_update_status. Qed.

Lemma any_start_cycle : emits (λ _, True) (start_cycle (W := W) now cr).
Proof.
  unfold start_cycle, clearAllConditions. apply emits_bind; [by apply plain_update_status|intros _]. apply any_updateConditions.
Qed.

Lemma reporting_nil {A} prefix (m : M (St W KafkaState) A) a (s s' : St W KafkaState) :
  reporting now cr prefix m s = (Ret a, s') → m s = (Ret a, s').
Proof.
  unfold reporting. intros (r & s1 & Hm & Hr)%bind_inv. revert Hm. unfold try.
  destruct (m s) as [[b|e|] s2]; [intros [= <- <-]; by injection Hr as -> ->|intros [= <- <-]|done].
  by apply bind_inv in Hr as (u & s3 & _ & [=]).
Qed.

End cycle.

(** ** The cycle *)

Section end_to_end.
Context `{Env W} `{Retry} `{Polling} `{Library} `{Quantities} `{Digest} `{Marshaler KafkaSpec} `{Marshaler strmap} `{Sorter}.
Context (now : W → string) (range : strmap → list (string * string)) (X509KeyPair : string → string → option gerror).
Context (turns : nat) (cr : Kafka).

(** C7. A cycle after a change of the specification, from end to end.  When it returns nil, it has, in
    this order: had the service and the deployment of every broker accepted; if the specification
    waits for the pods, seen the deployments of the brokers all ready and had that condition
    accepted, or had the condition accepted that they are not; read the status back; and had the
    condition accepted that the cycle succeeded if what it read has no failed condition, that it
    failed otherwise.  At that return the secret, the specification and the annotations are
    remembered, and nothing else was changed in the memory; of a cycle that ends otherwise, which
    may have remembered the specification before it waited for the pods, nothing is said here. *)
Theorem cycle_concluded specHash annotationsHash (s s' : St W KafkaState) :
  Hash (Kafka_Spec cr) = Ret specHash → Hash (Annotations (Kafka_meta cr)) = Ret annotationsHash →
  sget (ResourceHashes (local s)) kafkaHashName ≠ specHash →
  reconcile_kafka now range X509KeyPair turns cr s = (Ret (Some tt), s') →
  ∃ kafkaSecret tr1 tr2 o tr3,
    trace s' = trace s ++ tr1 ++ tr2 ++ Ev (Get KKafka (cr_Name cr) (cr_Namespace cr)) (inl o) :: tr3 ∧
    (∀ b, 1 ≤ b ≤ KafkaSpec_Replicas (Kafka_Spec cr) →
       Exists (deployment_applied range (started true cr) (kraft_enabled cr) (local s) kafkaSecret b) tr1 ∧ Exists (service_applied (started true cr) b) tr1) ∧
    (KafkaSpec_WaitForPodsReady (Kafka_Spec cr) = true → pods_outcome cr tr2) ∧
    Exists (accepted (concluding o)) tr3 ∧
    local s' = set_hash kafkaHashName specHash (set_hash annotationsHashName annotationsHash (remember kafkaSecret specHash (local s))).
Proof.
  intros Hs Ha Hn. unfold reconcile_kafka. intros (h & s0 & [= Eh <-] & Hr)%bind_inv. assert (h = specHash) as -> by congruence.
  apply bind_inv in Hr as (a & s0 & [= Ea <-] & Hr). assert (a = annotationsHash) as -> by congruence.
  apply bind_inv in Hr as (l & s0 & [= <- <-] & Hr). cbv zeta in Hr.
  assert (HC : is_changed (local s) specHash annotationsHash = true) by (unfold is_changed; by rewrite bool_decide_eq_false_2).
  rewrite HC in Hr. change (set_Kafka_Status (set_KafkaStatus_Conditions [] (Kafka_Status cr)) cr) with (started true cr) in Hr.
  set (cr1 := started true cr) in *. apply bind_inv in Hr as ([] & s1 & H1' & Hr).
  destruct (any_start_cycle now cr1 s) as (t1 & E1 & _). pose proof (same_start_cycle now cr1 s) as L1. rewrite H1' in E1, L1. cbn in E1, L1.
  apply bind_inv in Hr as ([u|] & s2 & Hb & Hr); [|done]. destruct u. apply reporting_nil in Hb.
  apply reconcile_applies_every_broker in Hb as (kafkaSecret & h & t2 & Hh & L2 & E2 & HA & _). change (Kafka_Spec cr1) with (Kafka_Spec cr) in Hh, HA.
  assert (h = specHash) as -> by congruence. rewrite L1 in L2, HA.
  assert (HCC : configuration_changed (local s) kafkaSecret specHash = true) by (unfold configuration_changed; by rewrite bool_decide_eq_false_2).
  apply bind_inv in Hr as ([] & s3 & Hp & Hr). destruct (any_updatePvcStatus cr1 s2) as (t3 & E3 & _).
  pose proof (same_updatePvcStatus cr1 s2) as L3. rewrite Hp in E3, L3. cbn in E3, L3.
  apply bind_inv in Hr as ([] & s4 & Hc & Hr). pose proof (same_conclude now cr1 s3) as L4. rewrite Hc in L4. cbn in L4.
  apply conclude_outcome in Hc as (t4 & o & t5 & E4 & F4 & F5). injection Hr as <-. cbn.
  exists kafkaSecret, (t1 ++ t2 ++ t3), t4, o, t5. split; [by rewrite E4, E3, E2, E1, <- !app_assoc|]. split_and!; [|done|done|congruence].
  intros b Hb. destruct (HA HCC b Hb). rewrite !Exists_app. tauto.
Qed.

End end_to_end.
