(* ===== verification/KafkaExamples.v ===== *)
(** * A Kafka cluster

    The theorems on the brokers and their controller, applied to runs of the code on a cluster in
    memory. *)

From S2P Require Import Prelude GoStrings Util Transformation Kube Api Providers KafkaProvider.
From S2P Require Import External Cluster Reconciler KafkaClient Conditions KafkaBrokers KafkaMigration KafkaProgress Shell KafkaRollout KafkaApplied KafkaOrder.
From S2P Require Import KafkaController KafkaCycle.

Import KafkaV1 KafkaObjects KafkaObjectsProperties.

#[local] Existing Instances retry_default poll_default merge_sorter.

Definition example_library : Library := {|
  ParseGroupVersion := λ g, Ret g;
  controllerutil_SetControllerReference := λ owner m, Ret m;
  quantity_String := itoa;
|}.

Definition example_quantities : Quantities := {| ParseQuantity := λ str, if decide (str = "") then inr (errorf "empty") else inl 20 |}.

Definition example_digest : Digest := {| sha256_hex := λ str, str |}.
Definition example_spec_marshaler : Marshaler KafkaSpec := {| Marshal := λ spec, inl (KafkaSpec_DockerImage spec) |}.
Definition example_map_marshaler : Marshaler strmap := {| Marshal := λ _, inl "{}" |}.

#[local] Existing Instances example_library example_quantities example_digest example_spec_marshaler example_map_marshaler.

(** ** Resources *)

Definition no_affinity : Affinity := mkAffinity None (mkRaw "").
Definition no_storage : Storage := mkStorage [] "" [] [] [].

Definition spec_that_waits (wait : bool) (storage : Storage) (replicas : Z) (hosts : list string) : KafkaSpec :=
  mkKafkaSpec wait 60 no_affinity [] "" None "kafka:3" 256 (mkOAuth None None None None None) (mkSsl false "" [] false false)
    replicas (mkScaling None None None None) (mkResources ∅ ∅) "kafka-secret" (mkRaw "") storage None "" [] None
    "zookeeper:2181" false "" None hosts [] [] ∅ None None None "" None false "" ∅ [] false "" true ∅ ∅ false false
    (mkKraft false true 60) (mkMigrationController no_affinity [] "" 256 (mkResources ∅ ∅) no_storage) None None (mkPVC (mkPVCMetadata ∅)).

Definition example_spec : Storage → Z → list string → KafkaSpec := spec_that_waits false.

Definition example_status (migration : string) : KafkaStatus :=
  mkKafkaStatus (mkKafkaBrokerStatus []) (mkPartitionsReassignmentStatus "") [] (mkKraftMigrationStatus migration) (mkPVCStatus ∅).

Definition example_kafka (storage : Storage) (replicas : Z) (hosts : list string) (migration : string) : Kafka :=
  mkKafka "qubership.org/v1" (newMeta "kafka" "ns" ∅ ∅) (example_spec storage replicas hosts) (example_status migration).

Definition plain_kafka : Kafka := example_kafka no_storage 2 [] "".

Definition example_secret (password : string) : Secret :=
  mkSecret (newMeta "kafka-secret" "ns" ∅ ∅) {["admin-username" := "admin"; "admin-password" := password; "client-username" := "client"; "client-password" := "it's"]} ∅.

Definition ready_pod (name : string) (labels : strmap) : Pod := mkPod (newMeta name "ns" labels ∅) [("Ready", "True")] [].

(** A cluster with a pod of the brokers and one of the controller, which answer the scripts they are asked to run. *)
Definition set_web (answers : gmap (string * string) (Z * string)) (c : Cluster) : Cluster :=
  mkCluster (objs c) (brokers c) (topics c) (leaders c) (users c) (acls c) (offsets c) (clock c) answers (files c).

Definition script (pod text : string) : string * string := (pod, Join (shell text) " ").

Definition example_cluster (cr : Kafka) (answers : gmap (string * string) (Z * string)) : Cluster :=
  set_web answers (store KKafka cr (store KSecret (example_secret "admin")
    (store KPod (ready_pod "kafka-1-0" (GetSelectorLabels cr))
      (store KPod (ready_pod "kafka-kraft-controller-0" (controller_selector cr)) empty_cluster)))).

Definition no_memory : KafkaState := mkKafkaState ∅ ∅.

(** ** The objects of the brokers *)

Definition two_classes : Kafka := example_kafka (mkStorage ["fast"; "slow"] "20Gi" [] [] []) 2 [] "".

Definition broker_of (cr : Kafka) : outcome Deployment := NewKafkaBrokerDeploymentForCR map_to_list cr 1 "" false "".

Definition dummy_deployment : Deployment :=
  mkDeployment (newMeta "" "" ∅ ∅) "" None None ∅ (mkTemplate ∅ ∅ (mkPodSpec [] [] [] None "" None "" "" None [] "")) 0 0.

Definition broker_deployment (cr : Kafka) : Deployment := match broker_of cr with Ret d => d | _ => dummy_deployment end.

(** With two classes and no volumes there is no claim, and the pod mounts it all the same. *)
Lemma claim_and_mount_witness :
  NewKafkaPersistentVolumeClaimForCR two_classes 1 = Ret None ∧ mounts_claim (broker_deployment two_classes) "pvc-kafka-1".
Proof.
  split; [vm_compute; reflexivity|].
  assert (H1 : NewKafkaPersistentVolumeClaimForCR two_classes 1 = Ret None) by (vm_compute; reflexivity).
  assert (H2 : NewKafkaBrokerDeploymentForCR map_to_list two_classes 1 "" false "" = Ret (broker_deployment two_classes)) by (vm_compute; reflexivity).
  destruct (claim_and_mount map_to_list two_classes 1 "" false "" None _ H1 H2) as (_ & HM & _).
  apply HM. split; [eexists; vm_compute; reflexivity|right; vm_compute; discriminate].
Defined.

Lemma broker_selectors_match_witness :
  svc_Selector (NewKafkaBrokerServiceForCR plain_kafka 1) ⊆ tmpl_Labels (dep_Template (broker_deployment plain_kafka)) ∧
  ¬ svc_Selector (NewKafkaBrokerServiceForCR plain_kafka 2) ⊆ tmpl_Labels (dep_Template (broker_deployment plain_kafka)).
Proof.
  assert (H1 : NewKafkaBrokerDeploymentForCR map_to_list plain_kafka 1 "" false "" = Ret (broker_deployment plain_kafka)) by (vm_compute; reflexivity).
  destruct (broker_selectors_match map_to_list plain_kafka 1 "" false "" _ H1) as (_ & HS & HO).
  split; [apply HS; split; left; reflexivity|apply HO; discriminate].
Defined.

(** ** The checks and the rollout *)

Definition hosted_kafka : Kafka := example_kafka no_storage 2 ["a"; "b"] "".

Lemma checks_guard_brokers_witness :
  is_ret (NewKafkaBrokerDeploymentForCR map_to_list hosted_kafka 2 "" false "") ∧
  NewKafkaBrokerDeploymentForCR map_to_list hosted_kafka 3 "" false "" = Panic.
Proof.
  destruct (checks_guard_brokers (W := Cluster) map_to_list hosted_kafka 2 "" false "" eq_refl eq_refl) as [HI HO].
  split; [apply (HI 2 ltac:(lia)); left; reflexivity|apply (HO 3); [lia|discriminate]].
Defined.

Definition migration_answers : gmap (string * string) (Z * string) := {[
  script "kafka-1-0" "${KAFKA_HOME}/bin/get-cluster-id.sh" := (0, "cluster-1");
  script "kafka-kraft-controller-0" "${KAFKA_HOME}/bin/get-kraft-migration-status.sh" := (0, "true") ]}.

Definition run_migration (status : string) : outcome unit * St Cluster KafkaState :=
  let cr := example_kafka no_storage 2 [] status in
  migrate map_to_list cr 2 (start (example_cluster cr migration_answers) no_memory).

Definition status_of (w : Cluster) : string :=
  match objs w KKafka !! ("ns", "kafka") with Some o => migration_status o | None => "" end.

Lemma migration_needs_evidence_witness :
  status_of (world (run_migration "").2) = migration_finished ∧
  ∃ tr, trace (run_migration "").2 = [] ++ tr ∧
    preceded (evidence (example_kafka no_storage 2 [] "")) disconnects tr.
Proof.
  split; [vm_compute; reflexivity|].
  exact (migration_needs_evidence map_to_list (example_kafka no_storage 2 [] "") 2
    (start (example_cluster (example_kafka no_storage 2 [] "") migration_answers) no_memory) _ _ (surjective_pairing (run_migration ""))).
Defined.

Lemma migration_resumes_witness :
  let cr := example_kafka no_storage 2 [] migration_finished in
  (run_migration migration_finished).1 = Ret tt ∧
  trace (run_migration migration_finished).2 = [Ev (Get KKafka "kafka" "ns") (inl cr)].
Proof.
  set (cr := example_kafka no_storage 2 [] migration_finished).
  assert (HP : perform _ (Get KKafka "kafka" "ns") (example_cluster cr migration_answers) = (inl cr, example_cluster cr migration_answers)).
  { assert (HL : objs (example_cluster cr migration_answers) KKafka !! ("ns", "kafka") = (Some cr : option (obj KKafka))) by (vm_compute; reflexivity).
    cbn [perform cluster_env cluster_perform]. rewrite HL. reflexivity. }
  destruct (migration_resumes map_to_list cr 2 (start (example_cluster cr migration_answers) no_memory) (inl cr) _ HP) as (_ & HF & _).
  unfold run_migration. fold cr. rewrite (HF cr eq_refl eq_refl). split; reflexivity.
Defined.

(** An attempt in which the controller does not report the migration before the timeout. *)
Definition waiting_answers : gmap (string * string) (Z * string) :=
  <[script "kafka-kraft-controller-0" "${KAFKA_HOME}/bin/get-kraft-migration-status.sh" := (0, "false")]> migration_answers.

Definition migrating_kafka : Kafka := example_kafka no_storage 2 [] "".

Definition first_start : St Cluster KafkaState := start (example_cluster migrating_kafka waiting_answers) no_memory.
Definition first_attempt : outcome unit * St Cluster KafkaState := migrate map_to_list migrating_kafka 2 first_start.

Lemma migration_recorded_in_order_witness :
  first_attempt.1 ≠ Ret tt ∧ ∃ r tr, trace first_attempt.2 = [] ++ Ev (Get KKafka "kafka" "ns") r :: tr.
Proof.
  split; [vm_compute; discriminate|].
  destruct (migration_recorded_in_order map_to_list migrating_kafka 2 first_start _ _ (surjective_pairing first_attempt)) as (r & tr & E & _).
  exists r, tr. exact E.
Defined.

(** Deciding what a history says. *)
Definition namedb (e : event) : bool :=
  match e with
  | @Ev R c r =>
      match c in call R return R + gerror → bool with
      | Get k name _ => λ r, match r with inl o => bool_decide (Name (meta_of k o) = name) | inr _ => true end
      | _ => λ _, true
      end r
  end.

Definition writesb (name : string) (e : event) : bool :=
  match written e with Some d => bool_decide (Name (dep_meta d) = name) | None => false end.

Lemma namedb_spec tr : forallb namedb tr = true → Forall named tr.
Proof.
  induction tr as [|e tr IH]; cbn; [by constructor|]. intros [He Ht]%andb_prop. constructor; [|by apply IH]. clear -He.
  destruct e as [R c r]. destruct c; cbn in *; try done. destruct r; [by apply bool_decide_eq_true in He|done].
Qed.

Lemma writesb_later cr b b' tr : b < b' → existsb (writesb (broker_name cr b')) tr = true → Exists (later_written cr b) tr.
Proof.
  intros Hb. induction tr as [|e tr IH]; cbn; [done|]. intros [He|Ht]%orb_prop; [left|right; by apply IH].
  unfold writesb in He. destruct (written e) as [d|] eqn:E; [|done]. apply bool_decide_eq_true in He. by exists b', d.
Qed.

(** A rollout of two brokers, where each is found ready. *)
Definition run_rollout : outcome (option unit) * St Cluster KafkaState :=
  rolloutBrokers map_to_list 3 plain_kafka true 2 false (example_secret "admin") (start (example_cluster plain_kafka ∅) no_memory).

Lemma rolling_update_order_witness :
  run_rollout.1 = Ret (Some tt) ∧
  ∃ tr, trace run_rollout.2 = [] ++ tr ∧
    Exists (later_written plain_kafka 1) tr ∧ Forall named tr ∧
    ∀ tr1 e tr2, tr = tr1 ++ e :: tr2 → later_written plain_kafka 1 e → ∃ before after, tr1 = before ++ after ∧
      Exists (deployment_applied map_to_list plain_kafka false no_memory (example_secret "admin") 1) before ∧ Exists (ready_seen plain_kafka 1) after.
Proof.
  split; [vm_compute; reflexivity|].
  destruct (rolling_update_order map_to_list 3 plain_kafka 2 false (example_secret "admin") (start (example_cluster plain_kafka ∅) no_memory)
    _ _ (surjective_pairing run_rollout) eq_refl) as (tr & E & HO).
  assert (HN : forallb namedb (trace run_rollout.2) && existsb (writesb (broker_name plain_kafka 2)) (trace run_rollout.2) = true) by (vm_compute; reflexivity).
  change (trace run_rollout.2 = tr) in E. rewrite E in HN. apply andb_prop in HN as [HN HW]. exists tr. split; [exact E|].
  assert (HN' : Forall named tr) by (apply namedb_spec; exact HN).
  split; [apply (writesb_later plain_kafka 1 2); [lia|exact HW]|]. split; [exact HN'|].
  intros tr1 e tr2 Etr He. exact (HO HN' 1 tr1 e tr2 ltac:(lia) Etr He).
Defined.

(** ** A volume that never grows *)

Definition small_claim : PersistentVolumeClaim := mkPvc (newMeta "pvc-kafka-1" "ns" ∅ ∅) "" None None [] None {["storage" := 10]} ["Resizing"].

Definition growing_cluster : Cluster :=
  store KPersistentVolumeClaim small_claim (store KDeployment (broker_deployment plain_kafka) (example_cluster plain_kafka ∅)).

Definition run_resize : outcome (option unit) * St Cluster KafkaState :=
  scaleBrokerForPVCResize 2 plain_kafka 1 20 (start growing_cluster no_memory).

Lemma resize_turns_bounded_witness : zsum awaited (trace run_resize.2) = 30.
Proof.
  assert (HR : run_resize.1 = Ret None) by (vm_compute; reflexivity).
  assert (HS : scaleBrokerForPVCResize 2 plain_kafka 1 20 (start growing_cluster no_memory) = (run_resize.1, run_resize.2)).
  { unfold run_resize. apply surjective_pairing. }
  destruct (resize_turns_bounded plain_kafka 2 1 20 (start growing_cluster no_memory) _ _ ltac:(lia) HS) as [HN _].
  specialize (HN HR). change (zsum awaited (trace (start growing_cluster no_memory))) with 0 in HN.
  change (10 * (2 ^ Z.of_nat 2 - 1)) with 30 in HN. lia.
Defined.

(** ** Credentials that changed *)

Definition old_memory : KafkaState := mkKafkaState {[kafkaAdminCredsHashName := "old"; kafkaClientCredsHashName := "old"]} ∅.

Definition scram_answers : gmap (string * string) (Z * string) := {[
  script "kafka-1-0" (scram_script "admin" "new") := (0, ""); script "kafka-1-0" (scram_script "client" "it's") := (0, "") ]}.

Definition run_sync : outcome unit * St Cluster KafkaState :=
  syncScramCredentials plain_kafka (example_secret "new") (start (example_cluster plain_kafka scram_answers) old_memory).

Lemma syncScramCredentials_written_witness :
  run_sync.1 = Ret tt ∧ ∃ pods, let listing := Ev (ListObjs KPod "ns" (GetSelectorLabels plain_kafka)) (inl pods) in
    (Forall (λ pod, pod_ready pod = false) pods ∧ trace run_sync.2 = [] ++ [listing]) ∨
    ∃ pod tr, pod ∈ pods ∧ pod_ready pod = true ∧ trace run_sync.2 = [] ++ listing :: tr ∧
      Exists (user_written plain_kafka pod ("admin", "new")) tr ∧ Exists (user_written plain_kafka pod ("client", "it's")) tr.
Proof.
  assert (HR : run_sync.1 = Ret tt) by (vm_compute; reflexivity). split; [exact HR|].
  assert (HS : syncScramCredentials plain_kafka (example_secret "new") (start (example_cluster plain_kafka scram_answers) old_memory) = (Ret tt, run_sync.2))
    by (rewrite <- HR; unfold run_sync; apply surjective_pairing).
  destruct (syncScramCredentials_written plain_kafka (example_secret "new") _ _ HS) as [[[Ha|Ha] _]|(pods & [HW|(pod & tr & Hp & Hr & Et & HA & HC & _)])];
    [vm_compute in Ha; discriminate Ha|vm_compute in Ha; discriminate Ha|exists pods; left; exact HW|].
  exists pods. right. exists pod, tr. split; [exact Hp|]. split; [exact Hr|]. split; [exact Et|].
  assert (HO : ∀ hash, hash ≠ "old" → outdated old_memory "secret-admin-creds" hash ∧ outdated old_memory "secret-client-creds" hash).
  { intros hash Hh. split; exists "old"; (split; [vm_compute; reflexivity|split; [discriminate|congruence]]). }
  split; [apply HA, HO; vm_compute; discriminate|apply HC; [apply HO; vm_compute; discriminate|vm_compute; discriminate]].
Defined.

(** *** A shell that reads the script back *)

#[local] Existing Instance posix_shell.

Lemma scram_script_read_back_witness :
  ∃ arguments, sh_arguments arguments =
    Some ["--alter"; "--entity-type"; "users"; "--entity-name"; "o'brien $x"; "--add-config"; "SCRAM-SHA-512=[password=it's]"].
Proof.
  destruct (scram_script_read_back "o'brien $x" "it's" eq_refl eq_refl) as (arguments & _ & HA). exists arguments. exact HA.
Defined.

(** ** A whole reconciliation *)

Definition run_brokers : outcome (option unit) * St Cluster KafkaState :=
  KafkaBrokers.Reconcile map_to_list (λ _ _, None) 5 plain_kafka (start (example_cluster plain_kafka migration_answers) no_memory).


Lemma brokers_remembered_when_nil_witness :
  ∃ kafkaSecret specHash, sget (secret_Data kafkaSecret) "admin-password" = "admin" ∧ Hash (Kafka_Spec plain_kafka) = Ret specHash ∧
    local run_brokers.2 = remember kafkaSecret specHash no_memory.
Proof.
  assert (HR : run_brokers.1 = Ret (Some tt)) by (vm_compute; reflexivity).
  assert (HS : KafkaBrokers.Reconcile map_to_list (λ _ _, None) 5 plain_kafka (start (example_cluster plain_kafka migration_answers) no_memory)
    = (run_brokers.1, run_brokers.2)) by (unfold run_brokers; apply surjective_pairing).
  rewrite HR in HS. pose proof (brokers_remembered_when_nil _ _ _ _ _ _ _ HS) as (secret & h & s1 & HW & Hh & HL).
  exists secret, h. split; [|split; [exact Hh|exact HL]].
  assert (HE : match WatchSecret "kafka-secret" (kafka_owner plain_kafka) (start (example_cluster plain_kafka migration_answers) no_memory) with
    (Ret secret, _) => sget (secret_Data secret) "admin-password" | _ => "" end = "admin") by (vm_compute; reflexivity).
  change (KafkaSpec_SecretName (Kafka_Spec plain_kafka)) with "kafka-secret" in HW. rewrite HW in HE. exact HE.
Defined.

Lemma reconcile_applies_every_broker_witness :
  ∃ kafkaSecret, Exists (deployment_applied map_to_list plain_kafka false no_memory kafkaSecret 2) (trace run_brokers.2) ∧
    Exists (service_applied plain_kafka 2) (trace run_brokers.2).
Proof.
  assert (HR : run_brokers.1 = Ret (Some tt)) by (vm_compute; reflexivity).
  assert (HS : KafkaBrokers.Reconcile map_to_list (λ _ _, None) 5 plain_kafka (start (example_cluster plain_kafka migration_answers) no_memory)
    = (run_brokers.1, run_brokers.2)) by (unfold run_brokers; apply surjective_pairing).
  rewrite HR in HS. destruct (reconcile_applies_every_broker _ _ _ _ _ _ HS) as (secret & h & tr & Hh & _ & Et & HA & _).
  exists secret. change (trace run_brokers.2 = tr) in Et. rewrite Et. apply HA; [|cbn; lia].
  assert (Hh' : Hash (Kafka_Spec plain_kafka) = Ret "kafka:3") by (vm_compute; reflexivity). rewrite Hh' in Hh. injection Hh as <-. reflexivity.
Defined.

(** The controller around it, which waits for the pods. *)
Definition waiting_kafka : Kafka :=
  mkKafka "qubership.org/v1" (newMeta "kafka" "ns" ∅ ∅) (spec_that_waits true no_storage 2 []) (example_status "").

Definition whole_cycle : outcome (option unit) * St Cluster KafkaState :=
  reconcile_kafka (λ _, "now") map_to_list (λ _ _, None) 5 waiting_kafka (start (example_cluster waiting_kafka migration_answers) no_memory).

Lemma cycle_concluded_witness :
  ∃ tr2 o, pods_outcome waiting_kafka tr2 ∧ Exists (accepted (concluding o)) (trace whole_cycle.2).
Proof.
  assert (HR : whole_cycle.1 = Ret (Some tt)) by (vm_compute; reflexivity).
  assert (HS : reconcile_kafka (λ _, "now") map_to_list (λ _ _, None) 5 waiting_kafka (start (example_cluster waiting_kafka migration_answers) no_memory)
    = (whole_cycle.1, whole_cycle.2)) by (unfold whole_cycle; apply surjective_pairing).
  assert (H1 : Hash (Kafka_Spec waiting_kafka) = Ret "kafka:3") by (vm_compute; reflexivity).
  assert (H2 : Hash (Annotations (Kafka_meta waiting_kafka)) = Ret "{}") by (vm_compute; reflexivity).
  assert (H3 : sget (ResourceHashes no_memory) kafkaHashName ≠ "kafka:3") by (vm_compute; discriminate).
  rewrite HR in HS. destruct (cycle_concluded (λ _, "now") map_to_list (λ _ _, None) 5 waiting_kafka "kafka:3" "{}"
    (start (example_cluster waiting_kafka migration_answers) no_memory) _ H1 H2 H3 HS) as (secret & tr1 & tr2 & o & tr3 & Et & _ & HP & HC & _).
  exists tr2, o. split; [exact (HP eq_refl)|]. rewrite Et. cbn [start trace app]. rewrite !Exists_app, Exists_cons. tauto.
Defined.

(** ** A failure of the controller *)

Definition concludes (o : Kafka) : bool :=
  existsb (λ c, bool_decide (StatusCondition_Type c = typeSuccessful)) (KafkaStatus_Conditions (Kafka_Status o)).

(** The cluster in memory, where the status cannot be written when it says that the cycle is over. *)
Definition unconcluded : Env Cluster := {|
  perform := λ R c w,
    match c in call R return (R + gerror) * Cluster with
    | StatusUpdate KKafka o => if concludes o then (inr (errorf "timeout"), w) else cluster_perform _ (StatusUpdate KKafka o) w
    | c => cluster_perform _ c w
    end
|}.

Definition known_annotations : KafkaState := mkKafkaState {[annotationsHashName := "{}"]} ∅.

Definition cycle_start : St Cluster KafkaState := start (example_cluster plain_kafka migration_answers) known_annotations.
Definition started_run : outcome unit * St Cluster KafkaState :=
  KafkaController.start_cycle (H := unconcluded) (λ _, "now") (started true plain_kafka) cycle_start.
Definition brokers_run : outcome (option unit) * St Cluster KafkaState :=
  reconcile_brokers (H := unconcluded) (λ _, "now") map_to_list (λ _ _, None) 5 (started true plain_kafka) started_run.2.
Definition failed_run : outcome (option unit) * St Cluster KafkaState :=
  reconcile_kafka (H := unconcluded) (λ _, "now") map_to_list (λ _ _, None) 5 plain_kafka cycle_start.

Lemma failed_status_not_retried_witness :
  is_changed (local failed_run.2) "kafka:3" "{}" = false ∧
  (KafkaStatus_Conditions ∘ Kafka_Status <$> objs (world failed_run.2) KKafka !! ("ns", "kafka"))
    = Some [mkStatusCondition "In progress" "False" kafkaServiceConditionReason "Reconciliation cycle started" "now"].
Proof.
  split; [|vm_compute; reflexivity].
  assert (H1 : started_run.1 = Ret tt) by (vm_compute; reflexivity).
  assert (H2 : brokers_run.1 = Ret (Some tt)) by (vm_compute; reflexivity).
  assert (H3 : failed_run.1 = Error (errorf "timeout")) by (vm_compute; reflexivity).
  assert (S1 : KafkaController.start_cycle (H := unconcluded) (λ _, "now") (started true plain_kafka) cycle_start = (started_run.1, started_run.2))
    by (unfold started_run; apply surjective_pairing).
  assert (S2 : reconcile_brokers (H := unconcluded) (λ _, "now") map_to_list (λ _ _, None) 5 (started true plain_kafka) started_run.2
    = (brokers_run.1, brokers_run.2)) by (unfold brokers_run; apply surjective_pairing).
  assert (S3 : reconcile_kafka (H := unconcluded) (λ _, "now") map_to_list (λ _ _, None) 5 plain_kafka cycle_start
    = (failed_run.1, failed_run.2)) by (unfold failed_run; apply surjective_pairing).
  rewrite H1 in S1. rewrite H2 in S2. rewrite H3 in S3.
  exact (proj1 (failed_status_not_retried (H := unconcluded) (λ _, "now") map_to_list (λ _ _, None) 5 plain_kafka "kafka:3" "{}"
    cycle_start _ _ _ _ eq_refl eq_refl eq_refl S1 S2 S3)).
Defined.
