(* ===== verification/KafkaServices.v ===== *)
(** * The KafkaService controller and the switch-over of disaster recovery

    Source: operator/controllers/kafkaservice/kafkaservice_controller.go.  The controller brings the
    components of a KafkaService in line with it, one reconciler after the other, keeps the
    conditions of its status, and conducts the switch-over between the sides of a
    disaster-recovery pair: when the mode asked for differs from the one reached, it writes that the
    switch-over runs, waits until the replication has caught up where that is needed, reconciles
    the components, and writes the outcome in a deferred function.

    The reconcilers of the components are an interface, [Components]: ServiceReconcilers.v and
    BackupDaemon.v model them, and ServiceComponents.v is the instance. *)

From S2P Require Import Prelude GoStrings Util Transformation Kube Api Providers MonitoringProviders.
From S2P Require Import MirrorMakerProvider External Cluster Reconciler KmmDr KafkaClient MirrorMakerConfig.
From S2P Require Import Auditor Conditions.

Import ServiceV7.

(** ** State *)

(** The maps of the reconciler, and the variables of the package. *)
Record ServiceState := mkServiceState {
  ResourceHashes : strmap;
  ResourceVersions : strmap;
  globalSpecHash : string;
  controllerReferenceSet : bool;
}.

Definition set_ResourceHash (key hash : string) (l : ServiceState) : ServiceState :=
  mkServiceState (<[key := hash]> (ResourceHashes l)) (ResourceVersions l) (globalSpecHash l) (controllerReferenceSet l).

Definition set_ResourceVersionOf (key version : string) (l : ServiceState) : ServiceState :=
  mkServiceState (ResourceHashes l) (<[key := version]> (ResourceVersions l)) (globalSpecHash l) (controllerReferenceSet l).

Definition set_globalSpecHash (hash : string) (l : ServiceState) : ServiceState :=
  mkServiceState (ResourceHashes l) (ResourceVersions l) hash (controllerReferenceSet l).

Definition set_controllerReferenceSet (b : bool) (l : ServiceState) : ServiceState :=
  mkServiceState (ResourceHashes l) (ResourceVersions l) (globalSpecHash l) b.

Definition kafkaServiceConditionReason : string := "ReconcileCycleStatus".
Definition globalHashName : string := "spec.global".

Definition service_owner (cr : KafkaService) : OwnerObject :=
  mkOwnerObject (KafkaService_APIVersion cr) "KafkaService" (cr_Name cr) (cr_Namespace cr).

(** The components, with what their reconcilers are told of the switch-over. *)
Inductive component :=
  | Monitoring_ | Akhq_ | MirrorMaker_ (drChecked : bool) | MirrorMakerMonitoring_ (drChecked : bool)
  | IntegrationTests_ | BackupDaemon_.

(** The text [%T] gives. *)
Definition type_name (c : component) : string :=
  match c with
  | Monitoring_ => "kafkaservice.ReconcileMonitoring"
  | Akhq_ => "kafkaservice.ReconcileAkhq"
  | MirrorMaker_ _ => "kafkaservice.ReconcileMirrorMaker"
  | MirrorMakerMonitoring_ _ => "kafkaservice.ReconcileMirrorMakerMonitoring"
  | IntegrationTests_ => "kafkaservice.ReconcileIntegrationTests"
  | BackupDaemon_ => "kafkaservice.ReconcileBackupDaemon"
  end.

(** The interface ReconcileService. *)
Class Components (W : Type) := {
  component_Reconcile : component → KafkaService → M (St W ServiceState) unit;
  component_Status : component → KafkaService → M (St W ServiceState) unit;
}.

(** ** Decisions *)

Definition cr_dr (cr : KafkaService) : option DisasterRecovery := KafkaServiceSpec_DisasterRecovery (KafkaService_Spec cr).
Definition dr_status (cr : KafkaService) : DisasterRecoveryStatus := KafkaServiceStatus_DisasterRecoveryStatus (KafkaService_Status cr).

(** The reconcilers of the sections a resource has. *)
Definition buildReconcilers (cr : KafkaService) (drChecked : bool) : list component :=
  let spec := KafkaService_Spec cr in
  let when {A} (section : option A) (c : component) := match section with Some _ => [c] | None => [] end in
  when (KafkaServiceSpec_Monitoring spec) Monitoring_ ++ when (KafkaServiceSpec_Akhq spec) Akhq_
  ++ when (KafkaServiceSpec_MirrorMaker spec) (MirrorMaker_ drChecked)
  ++ when (KafkaServiceSpec_MirrorMakerMonitoring spec) (MirrorMakerMonitoring_ drChecked)
  ++ when (KafkaServiceSpec_IntegrationTests spec) IntegrationTests_
  ++ when (KafkaServiceSpec_BackupDaemon spec) BackupDaemon_.

Definition isCheckNeeded (dr : DisasterRecovery) (status : DisasterRecoveryStatus) : bool :=
  if DisasterRecovery_NoWait dr then false
  else if negb (MirrorMakerReplication_Enabled (DisasterRecovery_MirrorMakerReplication dr)) then false
  else
    let specMode := ToLower (DisasterRecovery_Mode dr) in
    let statusMode := ToLower (DisasterRecoveryStatus_Mode status) in
    let switchoverStatus := ToLower (DisasterRecoveryStatus_Status status) in
    bool_decide (specMode = "active") &&
      (negb (bool_decide (statusMode = "active")) || bool_decide (statusMode = "active") && bool_decide (switchoverStatus = "failed")).

(** A switch-over is due, or has not ended well. *)
Definition switchover_due (dr : DisasterRecovery) (status : DisasterRecoveryStatus) : bool :=
  negb (bool_decide (DisasterRecoveryStatus_Mode status = DisasterRecovery_Mode dr)) ||
  bool_decide (DisasterRecoveryStatus_Status status = "running") || bool_decide (DisasterRecoveryStatus_Status status = "failed").

(** ** Deferred calls

    [err] is the variable the deferred function reads: the value returned, which a normal return
    may leave set while nil is returned, or nil when a panic unwinds. *)
Definition deferred {S} (final : option gerror → M S unit) (m : M S (option gerror)) : M S unit := λ s,
  match m s with
  | (Ret err, s1) => match final err s1 with (Panic, s2) => (Panic, s2) | (_, s2) => (Ret tt, s2) end
  | (Error e, s1) => match final (Some e) s1 with (Panic, s2) => (Panic, s2) | (_, s2) => (Error e, s2) end
  | (Panic, s1) => (Panic, (final None s1).2)
  end.

(** ** The controller *)

Section controller.
Context `{Env W} `{Retry} `{Digest} `{Marshaler KafkaServiceSpec} `{Marshaler (option Global)} `{Marshaler strmap} `{Components W}.
Context (now : W → string).
Context (MatchString : string → string → option bool) (range : counts → list (string * Z)).
Context (X509KeyPair : string → string → option gerror) (operatorName operatorNamespace : string).
(** How often the auditor finds its channel open, and whether the ticker comes first. *)
Context (rounds : nat) (timeout : bool).

Abbreviation run := (M (St W ServiceState)).

Definition set_DisasterRecoveryStatus (dr : DisasterRecovery) (status message : string) (instance : KafkaService) : KafkaService :=
  let old := dr_status instance in
  set_KafkaService_Status
    (set_KafkaServiceStatus_DisasterRecoveryStatus
       (mkDisasterRecoveryStatus (DisasterRecovery_Mode dr) status (DisasterRecoveryStatus_Comment old) message)
       (KafkaService_Status instance)) instance.

Definition updateDisasterRecoveryStatus (cr : KafkaService) (dr : DisasterRecovery) (status message : string) : run unit :=
  UpdateStatusWithRetry (k := KKafkaService) (cr_Name cr) (cr_Namespace cr)
    (λ instance, mret (set_DisasterRecoveryStatus dr status message instance)).

Definition update_condition (cr : KafkaService) (status type message : string) : run unit :=
  updateConditions (k := KKafkaService) (cr_Name cr) (cr_Namespace cr) now
    (NewCondition (k := KKafkaService) status type kafkaServiceConditionReason message).

Definition writeFailedStatus (cr : KafkaService) (errorMessage : string) : run unit :=
  _ ← try (update_condition cr statusFalse typeFailed errorMessage);
  mret tt.

(** The switch-over up to the reconcilers: the status and the message to write at the end, and
    whether the components may follow. *)
Definition begin_switchover (cr : KafkaService) (dr : DisasterRecovery) : run (string * string * bool) :=
  let checkNeeded := isCheckNeeded dr (dr_status cr) in
  updateDisasterRecoveryStatus cr dr "running" "The switchover process for Kafka has been started";;
  if checkNeeded then
    '(checkCompleted, errSwitchover) ← CheckFullReplication MatchString range X509KeyPair operatorName operatorNamespace rounds timeout cr;
    mret (if (checkCompleted : bool) then
            match errSwitchover with
            | Some err => ("failed", "Error is occurred during switching: " +:+ err_msg err, false)
            | None => ("done", "replication has finished successfully", true)
            end
          else ("failed", "timeout occurred during replication check", false))
  else mret ("done", "Switchover mode has been changed without replication check", true).

Definition end_switchover (cr : KafkaService) (dr : DisasterRecovery) (status message : string) (err : option gerror) : run unit :=
  if decide (status = "failed") then updateDisasterRecoveryStatus cr dr status message
  else
    match err with
    | Some err => updateDisasterRecoveryStatus cr dr "failed" ("Error is occurred during Kafka switching: " +:+ err_msg err)
    | None => updateDisasterRecoveryStatus cr dr status message
    end.

(** An error of a reconciler is written into the status before it is returned. *)
Definition reporting (cr : KafkaService) (prefix : string) (c : component) (m : run unit) : run unit :=
  r ← try m;
  match r with
  | inl _ => mret tt
  | inr err => writeFailedStatus cr (prefix +:+ type_name c +:+ " due to: " +:+ err_msg err);; throw err
  end.

Definition reconcile_all (cr : KafkaService) (reconcilers : list component) : run unit :=
  for_each (λ c, reporting cr "Reconciliation cycle failed for " c (component_Reconcile c cr)) reconcilers.

Definition wait_for_pods (cr : KafkaService) (reconcilers : list component) : run unit :=
  update_condition cr statusFalse typeInProgress "Checking deployment readiness status";;
  for_each (λ c, reporting cr "The status reconciliation cycle failed for " c (component_Status c cr)) reconcilers;;
  _ ← try (request (Sleep 5));
  mret tt.

(** Returns the error variable: set, and nil returned, when a condition failed. *)
Definition conclude (cr : KafkaService) (reconcilers : list component) : run (option gerror) :=
  match KafkaServiceSpec_Global (KafkaService_Spec cr) with
  | Some global => if Global_WaitForPodsReady global then wait_for_pods cr reconcilers else mret tt
  | None => mret tt
  end;;
  r ← try (GetStatus (k := KKafkaService) (cr_Name cr) (cr_Namespace cr));
  match r with
  | inr err => writeFailedStatus cr ("Cannot obtain status for Kafka custom resource: " +:+ err_msg err);; throw err
  | inl status =>
      if hasFailedConditions (k := KKafkaService) status then
        update_condition cr statusFalse typeFailed "The deployment readiness status check failed";;
        mret (Some (errorf "status for Kafka service contains failed conditions"))
      else
        update_condition cr statusTrue typeSuccessful "The deployment readiness status check is successful";;
        mret None
  end.

Definition remember (specHash annotationsHash globalHash : string) (l : ServiceState) : ServiceState :=
  set_ResourceHash globalHashName globalHash (set_ResourceHash "spec" specHash (set_ResourceHash "annotations" annotationsHash l)).

(** From the reconcilers to the end of the function. *)
Definition reconcile_components (cr : KafkaService) (changed drChecked : bool) (specHash annotationsHash : string) : run (option gerror) :=
  let reconcilers := buildReconcilers cr drChecked in
  reconcile_all cr reconcilers;;
  err ← (if changed then conclude cr reconcilers else mret None);
  l ← get_local;
  modify_local (remember specHash annotationsHash (globalSpecHash l));;
  mret err.

(** The hashes of the specification and of the annotations; the one of the global section is kept
    in the variable of the package, which an error sets to the empty text. *)
Definition compute_hashes (cr : KafkaService) : run (string * string) :=
  specHash ← lift (Hash (KafkaService_Spec cr));
  r ← try (lift (Hash (KafkaServiceSpec_Global (KafkaService_Spec cr))));
  match r with
  | inr err => modify_local (set_globalSpecHash "");; throw err
  | inl globalHash =>
      modify_local (set_globalSpecHash globalHash);;
      annotationsHash ← lift (Hash (Annotations (KafkaService_meta cr)));
      mret (specHash, annotationsHash)
  end.

Definition is_changed (l : ServiceState) (specHash annotationsHash : string) : bool :=
  negb (bool_decide (sget (ResourceHashes l) "spec" = specHash)) || negb (bool_decide (sget (ResourceHashes l) "annotations" = annotationsHash)).

Definition start_cycle (cr : KafkaService) : run unit :=
  clearAllConditions (k := KKafkaService) (cr_Name cr) (cr_Namespace cr);;
  update_condition cr statusFalse typeInProgress "Reconciliation cycle started".

Definition reconcile_service (cr : KafkaService) : run unit :=
  '(specHash, annotationsHash) ← compute_hashes cr;
  l ← get_local;
  let changed := is_changed l specHash annotationsHash in
  let cr := if changed then set_KafkaService_Status (set_KafkaServiceStatus_Conditions [] (KafkaService_Status cr)) cr else cr in
  (if changed then start_cycle cr else mret tt);;
  match cr_dr cr with
  | Some dr =>
      if switchover_due dr (dr_status cr) then
        '(status, message, drChecked) ← begin_switchover cr dr;
        deferred (end_switchover cr dr status message) (reconcile_components cr changed drChecked specHash annotationsHash)
      else _ ← reconcile_components cr changed false specHash annotationsHash; mret tt
  | None => _ ← reconcile_components cr changed false specHash annotationsHash; mret tt
  end.

Definition Reconcile (namespace name : string) : run Result :=
  r ← try (request (Get KKafkaService name namespace));
  match r with
  | inr err => if IsNotFound err then mret (mkResult 0) else throw err
  | inl instance => reconcile_service instance;; mret (mkResult 0)
  end.

End controller.

(** ** Which events reach the controller *)

Definition status_update (old new : ObjectMeta) : bool :=
  negb (bool_decide (Generation old = Generation new)) || negb (EqualPlainMaps (Annotations old) (Annotations new)).

Definition status_delete (deleteStateUnknown : bool) : bool := negb deleteStateUnknown.

Definition in_namespace (operatorNamespace : string) (o : ObjectMeta) : bool := bool_decide (Namespace o = operatorNamespace).

Definition owned_update (old new : ObjectMeta) : bool := negb (bool_decide (ResourceVersion new = ResourceVersion old)).

(** ** What the components promise

    A reconciler leaves alone what the controller itself remembers, and writes no status of the
    switch-over of its own making except the known ones. *)

Definition dr_known (o : KafkaService) : Prop :=
  DisasterRecoveryStatus_Status (dr_status o) ∈ [""; "running"; "done"; "failed"].

Definition service_known (k : kind) : obj k → Prop :=
  match k with KKafkaService => dr_known | _ => λ _, True end.

(** An answer that reads a resource with a known status; a write of one. *)
Definition reads_known (e : event) : Prop :=
  match e with
  | @Ev R c r =>
      match c in call R return R + gerror → Prop with
      | Get k _ _ => λ r, match r with inl o => service_known k o | inr _ => True end
      | _ => λ _, True
      end r
  end.

Definition writes_known (e : event) : Prop :=
  match e with Ev (StatusUpdate k o) _ => service_known k o | _ => True end.

(** As long as the resource is read with known statuses, it is written with known statuses. *)
Definition status_typed (tr : list event) : Prop := Forall reads_known tr → Forall writes_known tr.

Lemma status_typed_snoc tr e : status_typed tr → (Forall reads_known tr → writes_known e) → status_typed (tr ++ [e]).
Proof.
  intros Ht He. unfold status_typed. rewrite !Forall_app. intros [Hr _]. split; [by apply Ht|]. apply Forall_cons. split; [by apply He|done].
Qed.

(** What the controller remembers for itself. *)
Definition hashes_kept (l l' : ServiceState) : Prop :=
  globalSpecHash l' = globalSpecHash l ∧
  ∀ key, key ∈ ["spec"; "annotations"; globalHashName] → ResourceHashes l' !! key = ResourceHashes l !! key.

Global Instance hashes_kept_preorder : PreOrder hashes_kept.
Proof. split; [done|]. intros l1 l2 l3 [E1 H1] [E2 H2]. split; [congruence|]. intros key Hk. by rewrite H2, H1. Qed.

Class LawfulComponents (W : Type) `{Env W} `{Components W} := {
  component_Reconcile_hashes : ∀ c cr, relates hashes_kept (component_Reconcile c cr);
  component_Status_hashes : ∀ c cr, relates hashes_kept (component_Status c cr);
  component_Reconcile_typed : ∀ c cr, keeps status_typed (component_Reconcile c cr);
  component_Status_typed : ∀ c cr, keeps status_typed (component_Status c cr);
}.

(** ** Statuses *)

Section typed.
Context `{Env W} `{Retry} {L : Type}.

Lemma typed_request {R} (c : call R) : (∀ r, writes_known (Ev c r)) → keeps status_typed (request (W := W) (L := L) c).
Proof. intros Hc. apply keeps_request. intros tr r Ht. by apply status_typed_snoc. Qed.

Lemma typed_reads_only {A} (m : M (St W L) A) : emits reads_only m → keeps status_typed m.
Proof.
  intros Hm. eapply keeps_emits; [exact Hm|]. intros tr [R c r] Ht He. apply status_typed_snoc; [done|]. intros _. by destruct c.
Qed.

(** An update whose function keeps the status known. *)
Lemma typed_UpdateStatusWithRetry name namespace (f : KafkaService → M (St W L) KafkaService) :
  (∀ o s, trace (f o s).2 = trace s) → (∀ o s o' s', f o s = (Ret o', s') → dr_known o → dr_known o') →
  keeps status_typed (UpdateStatusWithRetry (k := KKafkaService) name namespace f).
Proof.
  intros Hn Hf. apply keeps_RetryOnConflict. intros s Hs. unfold reloadCR, mbind, M_bind, request.
  destruct (perform _ (Get KKafkaService name namespace) (world s)) as [[o|e] w1]; cbn [snd trace]; [|by apply status_typed_snoc].
  set (s1 := mkSt w1 _ _). assert (H1 : status_typed (trace s1)) by by apply status_typed_snoc.
  specialize (Hn o s1). destruct (f o s1) as [[o'|e|] s2] eqn:E; cbn [snd] in *; [|by rewrite Hn..].
  destruct (perform _ (StatusUpdate KKafkaService o') (world s2)) as [r w2].
  assert (H2 : status_typed (trace s2 ++ [Ev (StatusUpdate KKafkaService o') r])).
  { rewrite Hn. apply status_typed_snoc; [done|]. cbn. rewrite Forall_app, Forall_singleton. intros [_ Ho]. by eapply Hf. }
  by destruct r.
Qed.

Lemma typed_updateConditions name namespace now condition :
  keeps status_typed (updateConditions (W := W) (L := L) (k := KKafkaService) name namespace now condition).
Proof. apply typed_UpdateStatusWithRetry; [done|]. unfold mbind, M_bind, gets. cbn. intros o s o' s' [= <- _]. done. Qed.

Lemma typed_clearAllConditions name namespace :
  keeps status_typed (clearAllConditions (W := W) (L := L) (k := KKafkaService) name namespace).
Proof. apply typed_UpdateStatusWithRetry; [done|]. intros o s o' s' [= <- _]. done. Qed.

End typed.

#[export] Hint Resolve typed_updateConditions typed_clearAllConditions component_Reconcile_hashes component_Status_hashes
  component_Reconcile_typed component_Status_typed : operator.
#[export] Hint Extern 1 (keeps status_typed (request _)) => by apply typed_request : operator.

Section controller_properties.
Context `{Env W} `{Retry} `{Digest} `{Marshaler KafkaServiceSpec} `{Marshaler (option Global)} `{Marshaler strmap} `{Components W}
  `{!LawfulComponents W}.
Context (now : W → string).
Context (MatchString : string → string → option bool) (range : counts → list (string * Z)).
Context (X509KeyPair : string → string → option gerror) (operatorName operatorNamespace : string).
Context (rounds : nat) (timeout : bool).

Abbreviation reconcile_service := (reconcile_service now MatchString range X509KeyPair operatorName operatorNamespace rounds timeout).
Abbreviation Reconcile := (Reconcile now MatchString range X509KeyPair operatorName operatorNamespace rounds timeout).
Abbreviation begin_switchover := (begin_switchover MatchString range X509KeyPair operatorName operatorNamespace rounds timeout).
Abbreviation reconcile_components := (reconcile_components now).

Lemma typed_updateDisasterRecoveryStatus cr dr status message :
  status ∈ ["running"; "done"; "failed"] →
  keeps status_typed (updateDisasterRecoveryStatus (W := W) cr dr status message).
Proof.
  intros Hs. apply typed_UpdateStatusWithRetry; [done|]. intros o s o' s' [= <- _] _. unfold dr_known. cbn. set_solver.
Qed.

(** The outcome of a switch-over up to the reconcilers. *)
Lemma begin_switchover_outcome cr dr s status message checked s' :
  begin_switchover cr dr s = (Ret (status, message, checked), s') →
  (checked = true ∧ status = "done") ∨ (checked = false ∧ status = "failed").
Proof.
  unfold KafkaServices.begin_switchover. intros (u & s1 & _ & Hr)%bind_inv. destruct (isCheckNeeded dr (dr_status cr)).
  - apply bind_inv in Hr as ([completed err] & s2 & _ & Hr). destruct completed; [destruct err|]; injection Hr as <- <- <- <-; auto.
  - injection Hr as <- <- <- <-. auto.
Qed.

Lemma typed_begin_switchover cr dr : keeps status_typed (begin_switchover cr dr).
Proof.
  unfold KafkaServices.begin_switchover. cbv zeta. apply keeps_bind; [apply typed_updateDisasterRecoveryStatus; set_solver|]. intros _.
  case_match; [|by apply keeps_trace]. apply keeps_bind; [apply typed_reads_only, emits_CheckFullReplication|].
  intros [completed err]. by apply keeps_trace.
Qed.

Lemma typed_end_switchover cr dr status message err :
  status ∈ ["running"; "done"; "failed"] → keeps status_typed (end_switchover (W := W) cr dr status message err).
Proof.
  intros Hs. unfold end_switchover. case_decide; [by apply typed_updateDisasterRecoveryStatus|].
  destruct err; apply typed_updateDisasterRecoveryStatus; set_solver.
Qed.

Lemma keeps_deferred (I : list event → Prop) (final : option gerror → M (St W ServiceState) unit) m :
  keeps I m → (∀ err, keeps I (final err)) → keeps I (deferred final m).
Proof.
  intros Hm Hf s Hs. specialize (Hm s Hs). unfold deferred. destruct (m s) as [[err|e|] s1]; cbn in Hm.
  - specialize (Hf err s1 Hm). by destruct (final err s1) as [[]].
  - specialize (Hf (Some e) s1 Hm). by destruct (final (Some e) s1) as [[]].
  - by apply (Hf None).
Qed.

Lemma typed_reconcile_components cr changed drChecked specHash annotationsHash :
  keeps status_typed (reconcile_components cr changed drChecked specHash annotationsHash).
Proof.
  unfold KafkaServices.reconcile_components, reconcile_all, conclude, wait_for_pods, reporting, writeFailedStatus, update_condition, GetStatus, reloadCR.
  keeps_auto.
Qed.

(** C3. The status of the switch-over takes four values only: while every read of the KafkaService
    finds one of them, whatever other clients write elsewhere, a reconciliation writes none but
    these, on every branch, with errors and panics of any component. *)
Theorem switchover_status_typed namespace name : keeps status_typed (Reconcile namespace name).
Proof.
  unfold KafkaServices.Reconcile. apply keeps_bind; [apply keeps_try; by apply typed_request|]. intros [cr|e]; [|keeps_auto].
  apply keeps_bind; [|by intros ?; apply keeps_trace]. unfold KafkaServices.reconcile_service, compute_hashes, start_cycle, update_condition.
  apply keeps_bind; [keeps_auto|]. intros [specHash annotationsHash]. apply keeps_bind; [keeps_auto|]. intros l. cbv zeta.
  apply keeps_bind; [keeps_auto|]. intros _. destruct (cr_dr _) as [dr|]; [|apply keeps_bind; [apply typed_reconcile_components|intros ?; keeps_auto]].
  case_match; [|apply keeps_bind; [apply typed_reconcile_components|intros ?; keeps_auto]].
  intros s Hs. unfold mbind, M_bind. destruct (begin_switchover _ dr s) as [[[[status message] checked]|e|] s1] eqn:Eb.
  - assert (HT : status_typed (trace s1)) by (rewrite <- (f_equal snd Eb : _ = s1); by apply typed_begin_switchover).
    apply begin_switchover_outcome in Eb as Ho. apply keeps_deferred; [apply typed_reconcile_components| |done].
    intros err. apply typed_end_switchover. destruct Ho as [[_ ->]|[_ ->]]; set_solver.
  - rewrite <- (f_equal snd Eb : _ = s1). by apply typed_begin_switchover.
  - rewrite <- (f_equal snd Eb : _ = s1). by apply typed_begin_switchover.
Qed.

(** *** The check of the replication *)

Lemma check_returns cr s completed err s' :
  CheckFullReplication MatchString range X509KeyPair operatorName operatorNamespace rounds timeout cr s = (Ret (completed, err), s' : St W ServiceState) →
  (timeout = true ∧ completed = false) ∨
  (timeout = false ∧ completed = true ∧
   (checkFullReplication MatchString range X509KeyPair operatorName operatorNamespace rounds cr s = (Ret true, s') ∧ err = None ∨ ∃ e, err = Some e)) ∨
  completed = false.
Proof.
  unfold CheckFullReplication, try, mbind, M_bind. destruct (checkFullReplication _ _ _ _ _ _ _ s) as [[u|e|] s1] eqn:E; [destruct u| |done];
    intros [= Hp Hs]; destruct timeout; simplify_eq; eauto 7.
Qed.

Lemma getKafkaClients_connects cr handler standby active (s s' : St W ServiceState) :
  getKafkaClients X509KeyPair operatorNamespace cr handler s = (Ret (standby, active), s') →
  ∃ targetBrokers sourceBrokers targetConfig sourceConfig tr,
    GetBrokers handler = Ret (targetBrokers, sourceBrokers) ∧
    trace s' = trace s ++ tr ++ [Ev (NewClient targetBrokers targetConfig) (inl standby); Ev (NewClient sourceBrokers sourceConfig) (inl active)].
Proof.
  unfold getKafkaClients. intros ([tb sb] & s1 & [= Hb <-] & Hr)%bind_inv.
  apply bind_inv in Hr as (tn & s1 & [= _ <-] & Hr). apply bind_inv in Hr as (tc & s1 & [= _ <-] & Hr).
  apply bind_inv in Hr as (sn & s1 & [= _ <-] & Hr). apply bind_inv in Hr as (sc & s1 & [= _ <-] & Hr).
  destruct (GetKafkaUsernamePasswords handler) as [tcr scr].
  apply bind_inv in Hr as (ts & s1 & [= _ <-] & Hr). apply bind_inv in Hr as (ss & s1 & [= _ <-] & Hr).
  apply bind_inv in Hr as (tce & s2 & Hc2 & Hr). apply bind_inv in Hr as (sce & s3 & Hc3 & Hr).
  apply bind_inv in Hr as (tcf & s4 & [= _ <-] & Hr). apply bind_inv in Hr as (scf & s4 & [= _ <-] & Hr).
  assert (HC : ∀ cluster, emits (L := ServiceState) (λ _, True) (cluster_certificates operatorNamespace cluster)).
  { intros cluster. unfold cluster_certificates, GetSslCertificates, FindSecret. by emits_auto. }
  destruct (HC tc s) as (t2 & E2 & _). rewrite Hc2 in E2. destruct (HC sc s2) as (t3 & E3 & _). rewrite Hc3 in E3. cbn [snd] in E2, E3.
  apply bind_inv in Hr as (n1 & s5 & Hc5 & Hr). apply bind_inv in Hr as (n2 & s6 & Hc6 & [= -> -> <-]).
  unfold request in Hc5, Hc6. destruct (perform _ _ (world s3)) as [[|] w5]; [|done]. injection Hc5 as -> <-. cbn [world trace local] in Hc6.
  destruct (perform _ _ w5) as [[|] w6]; [|done]. injection Hc6 as -> <-. cbn [trace].
  exists tb, sb, tcf, scf, (t2 ++ t3). split; [done|]. by rewrite E3, E2, <- !app_assoc.
Qed.

(** C1. A side becomes active, where a check is needed, only after the replication was checked: if the
    components may follow, the check did not run into its timeout, and within this very run the
    configuration of mirror maker said that replication is off, or the operator connected to the
    brokers of its target cluster (the standby side) and then of its source cluster (the active
    side), and the audit came to its end with these two clients.  It then has seen, of every
    partition it counted on the active side, as many messages on the standby side (the brokers
    number partitions from zero); and it counted every partition of every topic that is to be
    replicated, unless a question of this counting was answered with an error, which the code
    drops. *)
Theorem switchover_needs_replication cr dr s status message s' :
  isCheckNeeded dr (dr_status cr) = true → begin_switchover cr dr s = (Ret (status, message, true), s') →
  status = "done" ∧ timeout = false ∧
  ∃ (s1 s2 : St W ServiceState) handler,
    trace s `prefix_of` trace s1 ∧ NewKmmConfigHandler operatorName operatorNamespace s1 = (Ret handler, s2) ∧ trace s2 `prefix_of` trace s' ∧
    (IsReplicationEnabled handler = Ret false ∨
     ∃ allow block targetBrokers sourceBrokers targetConfig sourceConfig standby active tr0 tr,
       handler_GetRegularExpressions handler = Ret (allow, block) ∧ GetBrokers handler = Ret (targetBrokers, sourceBrokers) ∧
       trace s' = trace s2 ++ tr0 ++
         [Ev (NewClient targetBrokers targetConfig) (inl standby); Ev (NewClient sourceBrokers sourceConfig) (inl active)] ++ tr ∧
       caught_up MatchString allow block standby active tr).
Proof.
  intros Hn Hb. destruct (begin_switchover_outcome _ _ _ _ _ _ _ Hb) as [[_ ->]|[? _]]; [|done]. split; [done|].
  revert Hb. unfold KafkaServices.begin_switchover. rewrite Hn. intros ([] & s1 & Hu & Hr)%bind_inv.
  apply bind_inv in Hr as ([completed err] & s2 & Hc & Hr).
  assert (Hp1 : trace s `prefix_of` trace s1).
  { rewrite <- (f_equal snd Hu : _ = s1). apply (emits_prefix (λ _, True)).
    unfold updateDisasterRecoveryStatus. apply emits_UpdateStatusWithRetry; [done|intros ?; apply emits_ret|done]. }
  apply check_returns in Hc as [[_ ->]|[(-> & -> & [[Hc ->]|[e ->]])| ->]]; [done| |done|done]. injection Hr as _ <-. split; [done|].
  unfold checkFullReplication in Hc. apply bind_inv in Hc as (handler & s3 & Hh & Hc). exists s1, s3, handler. split; [done|]. split; [done|].
  apply bind_inv in Hc as (enabled & s4 & [= He <-] & Hc). destruct enabled; cbn [negb] in Hc.
  - apply bind_inv in Hc as ([standby active] & s5 & Hk & Hc). apply bind_inv in Hc as ([allow block] & s6 & [= Hg <-] & Ha).
    apply audit_catches_up in Ha as (tr & E & Ha). apply getKafkaClients_connects in Hk as (tb & sb & tc & sc & tr0 & Hb & E5).
    rewrite E5, <- !app_assoc in E. split; [by eexists|]. right. by exists allow, block, tb, sb, tc, sc, standby, active, tr0, tr.
  - injection Hc as <-. split; [done|]. by left.
Qed.

(** *** Interrupted switch-overs *)

(** The first thing a switch-over writes makes the operator forget that it has to check: of a
    resource as that write leaves it, a switch-over is still due, but no check is needed, so
    when the operator restarts before the end, the side becomes active without one, and the
    outcome is "done". *)
Theorem interrupted_switchover_skips_check cr dr message :
  let interrupted := set_DisasterRecoveryStatus dr "running" message cr in
  switchover_due dr (dr_status interrupted) = true ∧ isCheckNeeded dr (dr_status interrupted) = false ∧
  ∀ s r s', begin_switchover interrupted dr s = (Ret r, s') →
    r = ("done", "Switchover mode has been changed without replication check", true).
Proof.
  intros interrupted.
  assert (Hn : isCheckNeeded dr (dr_status interrupted) = false).
  { unfold isCheckNeeded. cbn. destruct (DisasterRecovery_NoWait dr); [done|]. destruct (negb _); [done|].
    destruct (bool_decide (ToLower (DisasterRecovery_Mode dr) = "active")); done. }
  split_and!; [|done|].
  - unfold switchover_due. cbn. by rewrite orb_true_r.
  - unfold KafkaServices.begin_switchover. rewrite Hn. intros s r s' (u & s1 & _ & Hr)%bind_inv. by injection Hr as <- _.
Qed.

(** *** What the controller remembers *)

Lemma updateDisasterRecoveryStatus_safe cr dr status message (s : St W ServiceState) :
  (updateDisasterRecoveryStatus cr dr status message s).1 ≠ Panic ∧ local (updateDisasterRecoveryStatus cr dr status message s).2 = local s.
Proof.
  destruct (updateDisasterRecoveryStatus cr dr status message s) as [o s'] eqn:E. apply UpdateStatusWithRetry_pure in E as [El Ho]. done.
Qed.

Lemma end_switchover_safe cr dr status message err (s : St W ServiceState) :
  (end_switchover cr dr status message err s).1 ≠ Panic ∧ local (end_switchover cr dr status message err s).2 = local s.
Proof. unfold end_switchover. case_decide; [|destruct err]; apply updateDisasterRecoveryStatus_safe. Qed.

(** The deferred update changes neither the outcome nor the memory. *)
Lemma deferred_outcome cr dr status message m (s s1 : St W ServiceState) o :
  m s = (o, s1) →
  (deferred (end_switchover cr dr status message) m s).1 = match o with Ret _ => Ret tt | Error e => Error e | Panic => Panic end ∧
  local (deferred (end_switchover cr dr status message) m s).2 = local s1.
Proof.
  intros Hm. unfold deferred. rewrite Hm. destruct o as [err|e|].
  - destruct (end_switchover_safe cr dr status message err s1) as [Hp Hl]. by destruct (end_switchover cr dr status message err s1) as [[[]|e|] s2].
  - destruct (end_switchover_safe cr dr status message (Some e) s1) as [Hp Hl]. by destruct (end_switchover cr dr status message (Some e) s1) as [[[]|e'|] s2].
  - destruct (end_switchover_safe cr dr status message None s1) as [Hp Hl]. done.
Qed.

Lemma same_local_update_condition cr status type message : same_local (update_condition (W := W) now cr status type message).
Proof.
  intros s. destruct (update_condition now cr status type message s) as [o s'] eqn:E. by apply updateConditions_local in E as [El _].
Qed.

Lemma relates_reporting cr prefix c m : relates hashes_kept m → relates hashes_kept (reporting (W := W) now cr prefix c m).
Proof.
  intros Hm. unfold reporting, writeFailedStatus. apply relates_bind; [apply _|by apply relates_try|]. intros [u|e]; [by intros s|].
  apply relates_bind; [apply _| |intros ?; by intros s]. apply relates_bind; [apply _| |intros ?; by intros s].
  apply relates_same, same_local_try, same_local_update_condition. apply _.
Qed.

Lemma relates_conclude cr reconcilers : relates hashes_kept (conclude (W := W) now cr reconcilers).
Proof.
  assert (HU : ∀ st ty msg, relates hashes_kept (update_condition (W := W) now cr st ty msg)).
  { intros. apply relates_same; [apply _|apply same_local_update_condition]. }
  unfold conclude, wait_for_pods, writeFailedStatus. apply relates_bind; [apply _| |intros ?].
  - case_match; [case_match|]; try by intros s. apply relates_bind; [apply _|apply HU|intros ?]. apply relates_bind; [apply _| |intros ?].
    + apply relates_for_each; [apply _|]. intros c. apply relates_reporting, component_Status_hashes.
    + apply relates_same; [apply _|]. same_local_auto.
  - apply relates_bind; [apply _|apply relates_same; [apply _|unfold GetStatus, reloadCR; same_local_auto]|]. intros [st|e].
    + case_match; (apply relates_bind; [apply _|apply HU|intros ?; by intros s]).
    + apply relates_bind; [apply _| |intros ?; by intros s]. apply relates_bind; [apply _|apply relates_try, HU|intros ?; by intros s].
Qed.

Lemma reconcile_components_hashes cr changed drChecked specHash annotationsHash s o s' :
  reconcile_components cr changed drChecked specHash annotationsHash s = (o, s') →
  match o with
  | Ret _ => ResourceHashes (local s') !! "spec" = Some specHash ∧ ResourceHashes (local s') !! "annotations" = Some annotationsHash ∧
             ResourceHashes (local s') !! globalHashName = Some (globalSpecHash (local s))
  | _ => hashes_kept (local s) (local s')
  end.
Proof.
  unfold KafkaServices.reconcile_components. set (m1 := reconcile_all now cr _). set (m2 := if changed then _ else _).
  assert (R1 : relates hashes_kept m1) by (apply relates_for_each; [apply _|]; intros c; apply relates_reporting, component_Reconcile_hashes).
  assert (R2 : relates hashes_kept m2) by (unfold m2; destruct changed; [apply relates_conclude|by intros ?]).
  unfold mbind, M_bind. specialize (R1 s). destruct (m1 s) as [[[]|e|] s1]; [|by intros [= <- <-]..].
  specialize (R2 s1). destruct (m2 s1) as [[err|e|] s2]; [|intros [= <- <-]; by etrans..]. intros [= <- <-]. cbn in *.
  destruct R1 as [E1 _], R2 as [E2 _]. rewrite E2, E1. unfold remember, set_ResourceHash. cbn.
  split_and!; [rewrite lookup_insert_ne by done; by rewrite lookup_insert_eq|
               rewrite !lookup_insert_ne by done; by rewrite lookup_insert_eq|by rewrite lookup_insert_eq].
Qed.

(** The entries of the controller itself. *)
Definition entries_kept (l l' : ServiceState) : Prop :=
  ∀ key, key ∈ ["spec"; "annotations"; globalHashName] → ResourceHashes l' !! key = ResourceHashes l !! key.

Lemma same_local_begin_switchover cr dr : same_local (begin_switchover cr dr).
Proof.
  unfold KafkaServices.begin_switchover. apply same_local_bind; [intros s; apply updateDisasterRecoveryStatus_safe|]. intros _. case_match; [|by intros s].
  apply same_local_bind; [|intros [[] [e|]]; by intros s]. apply same_local_CheckFullReplication.
Qed.

(** C2. The controller remembers a resource exactly when the reconciliation returns nil: then the
    hashes of its specification and annotations are the ones recorded, so the next
    reconciliation of the unchanged resource applies no status cycle, also where this one found
    the readiness of a component failed; after an error or a panic what was remembered before
    stays, and the resource is reconciled as changed again. *)
Theorem resource_remembered_when_nil cr s o s' :
  reconcile_service cr s = (o, s') →
  match o with
  | Ret _ => ∃ specHash annotationsHash, Hash (KafkaService_Spec cr) = Ret specHash ∧ Hash (Annotations (KafkaService_meta cr)) = Ret annotationsHash ∧
               is_changed (local s') specHash annotationsHash = false
  | _ => entries_kept (local s) (local s')
  end.
Proof.
  unfold KafkaServices.reconcile_service. intros Hr.
  destruct (compute_hashes cr s) as [r1 s1] eqn:Eh. assert (K1 : entries_kept (local s) (local s1)).
  { rewrite <- (f_equal snd Eh : _ = s1). unfold compute_hashes, mbind, M_bind, lift, try.
    destruct (Hash (KafkaService_Spec cr)), (Hash (KafkaServiceSpec_Global (KafkaService_Spec cr))), (Hash (Annotations (KafkaService_meta cr))); done. }
  unfold mbind at 1, M_bind at 1 in Hr. rewrite Eh in Hr.
  destruct r1 as [[specHash annotationsHash]|e|]; [|by injection Hr as <- <-..].
  assert (Hs : Hash (KafkaService_Spec cr) = Ret specHash ∧ Hash (Annotations (KafkaService_meta cr)) = Ret annotationsHash).
  { revert Eh. unfold compute_hashes, mbind, M_bind, lift, try. destruct (Hash (KafkaService_Spec cr)); [|done..].
    destruct (Hash (KafkaServiceSpec_Global (KafkaService_Spec cr))); [|done..]. destruct (Hash (Annotations (KafkaService_meta cr))); [|done..]. by intros [= -> -> _]. }
  destruct Hs as [Hs Ha]. unfold mbind at 1, M_bind at 1, get_local at 1, gets at 1 in Hr. set (changed := is_changed _ _ _) in Hr.
  set (cr' := if changed then _ else _) in Hr. cbv zeta in Hr.
  set (m2 := if changed then _ else _) in Hr.
  assert (L2 : same_local m2).
  { unfold m2, start_cycle. destruct changed; [|by intros ?]. apply same_local_bind; [|intros _; apply same_local_update_condition].
    intros st. unfold clearAllConditions. destruct (UpdateStatusWithRetry _ _ _ st) as [o2 s2] eqn:E2. by apply UpdateStatusWithRetry_pure in E2 as [El _]. }
  unfold mbind at 1, M_bind at 1 in Hr. specialize (L2 s1). destruct (m2 s1) as [[[]|e|] s2]; cbn in L2;
    [|injection Hr as <- <-; by rewrite L2..].
  assert (HC : ∀ drChecked s3 o3 s4, local s3 = local s1 → reconcile_components cr' changed drChecked specHash annotationsHash s3 = (o3, s4) →
    match o3 with
    | Ret _ => is_changed (local s4) specHash annotationsHash = false
    | _ => entries_kept (local s) (local s4)
    end).
  { intros drChecked s3 o3 s4 E3 Hc. apply reconcile_components_hashes in Hc. destruct o3 as [err|e|].
    - destruct Hc as (E & F & _). unfold is_changed, sget, map_get. rewrite E, F. cbn. by rewrite !bool_decide_eq_true_2.
    - intros key Hk. destruct Hc as [_ Hc]. rewrite Hc by done. rewrite E3. by apply K1.
    - intros key Hk. destruct Hc as [_ Hc]. rewrite Hc by done. rewrite E3. by apply K1. }
  assert (HN : (_ ← reconcile_components cr' changed false specHash annotationsHash; mret tt) s2 = (o, s') →
    match o with Ret _ => ∃ specHash annotationsHash, Hash (KafkaService_Spec cr) = Ret specHash ∧ Hash (Annotations (KafkaService_meta cr)) = Ret annotationsHash ∧
       is_changed (local s') specHash annotationsHash = false | _ => entries_kept (local s) (local s') end).
  { unfold mbind, M_bind. specialize (HC false s2). destruct (reconcile_components _ _ _ _ _ s2) as [o3 s4].
    specialize (HC _ _ L2 eq_refl). destruct o3; intros [= <- <-]; eauto. }
  destruct (cr_dr cr') as [dr|]; [|by apply HN]. destruct (switchover_due _ _); [|by apply HN]. clear HN.
  unfold mbind at 1, M_bind at 1 in Hr. destruct (begin_switchover cr' dr s2) as [rb s3] eqn:Eb.
  pose proof (same_local_begin_switchover cr' dr s2) as L3. rewrite Eb in L3. cbn in L3.
  destruct rb as [[[status message] checked]|e|]; [|injection Hr as <- <-; rewrite L3, L2; done..].
  destruct (reconcile_components cr' changed checked specHash annotationsHash s3) as [o3 s4] eqn:Ec.
  destruct (deferred_outcome cr' dr status message _ s3 s4 o3 Ec) as [Ho Hl]. rewrite Hr in Ho, Hl. cbn in Ho, Hl.
  apply HC in Ec; [|congruence]. subst o. rewrite Hl. destruct o3; eauto.
Qed.

(** A panic of a component during a switch-over leaves "done" in the status: the deferred update
    sees no error. *)
Lemma panic_reports_done cr dr message changed drChecked specHash annotationsHash s s1 :
  reconcile_components cr changed drChecked specHash annotationsHash s = (Panic, s1) →
  deferred (end_switchover cr dr "done" message) (reconcile_components cr changed drChecked specHash annotationsHash) s =
    (Panic, (updateDisasterRecoveryStatus cr dr "done" message s1).2).
Proof. intros E. unfold deferred. by rewrite E. Qed.

End controller_properties.

(** ** Witnesses *)

#[local] Existing Instance retry_default.

(** Components that do nothing. *)
Definition idle_components : Components Cluster.Cluster := {|
  component_Reconcile := λ c cr, mret tt;
  component_Status := λ c cr, mret tt;
|}.

#[local] Existing Instance idle_components.

#[local] Instance idle_lawful : LawfulComponents Cluster.Cluster.
Proof. split; intros; [by intros s|by intros s|by apply keeps_trace|by apply keeps_trace]. Qed.

Definition literal_match (pattern topic : string) : option bool := Some (bool_decide (pattern = "^" +:+ topic +:+ "$")).

(** The resource of the side dc1, to become active; the configuration of mirror maker is the one
    the operator writes for it. *)
Definition standby_service : KafkaService := example_cr (example_spec "dc1") "active" (example_status "standby" "done").

Definition pair_cluster : Cluster.Cluster :=
  store KConfigMap (mkConfigMap (newMeta "kafka-mirror-maker-configuration" "ns" ∅ ∅)
    {["config" := GetMirrorMakerProperties (example_mm "dc1")]} ∅)
  (store KSecret (mkSecret (newMeta "kafka-mirror-maker-secret" "ns" ∅ ∅)
    (<["dc1-kafka-username" := "u1"]> (<["dc2-kafka-username" := "u2"]>
      (<["dc1-kafka-password" := "p1"]> (<["dc2-kafka-password" := "p2"]> ∅)))) ∅)
  (store KKafkaService standby_service orders_cluster)).

Definition run_switchover : outcome (string * string * bool) * St Cluster.Cluster ServiceState :=
  begin_switchover literal_match map_to_list (λ _ _, None) "kafka-service-operator" "ns" 3 false standby_service (example_dr "active")
    (start pair_cluster (mkServiceState ∅ ∅ "" false)).

Lemma switchover_needs_replication_witness :
  "done" = "done" ∧ false = false ∧
  ∃ (s1 s2 : St Cluster.Cluster ServiceState) handler,
    [] `prefix_of` trace s1 ∧ NewKmmConfigHandler "kafka-service-operator" "ns" s1 = (Ret handler, s2) ∧ trace s2 `prefix_of` trace run_switchover.2 ∧
    (IsReplicationEnabled handler = Ret false ∨
     ∃ allow block targetBrokers sourceBrokers targetConfig sourceConfig standby active tr0 tr,
       handler_GetRegularExpressions handler = Ret (allow, block) ∧ GetBrokers handler = Ret (targetBrokers, sourceBrokers) ∧
       trace run_switchover.2 = trace s2 ++ tr0 ++
         [Ev (NewClient targetBrokers targetConfig) (inl standby); Ev (NewClient sourceBrokers sourceConfig) (inl active)] ++ tr ∧
       caught_up literal_match allow block standby active tr).
Proof.
  apply (switchover_needs_replication literal_match map_to_list (λ _ _, None) "kafka-service-operator" "ns" 3 false standby_service
           (example_dr "active") (start pair_cluster (mkServiceState ∅ ∅ "" false)) "done" "replication has finished successfully").
  - reflexivity.
  - assert (HR : run_switchover.1 = Ret ("done", "replication has finished successfully", true)) by (vm_compute; reflexivity).
    exact (eq_trans (surjective_pairing run_switchover) (f_equal (λ o, (o, run_switchover.2)) HR)).
Defined.

(** Marshalers good enough for the examples. *)
Definition example_digest : Digest := {| sha256_hex := λ s, s |}.
Definition example_spec_marshaler : Marshaler KafkaServiceSpec := {| Marshal := λ _, inl "spec" |}.
Definition example_global_marshaler : Marshaler (option Global) := {| Marshal := λ _, inl "global" |}.
Definition example_map_marshaler : Marshaler strmap := {| Marshal := λ _, inl "annotations" |}.

#[local] Existing Instances example_digest example_spec_marshaler example_global_marshaler example_map_marshaler.

Lemma switchover_status_typed_witness :
  keeps status_typed (Reconcile (W := Cluster.Cluster) (λ _, "now") literal_match map_to_list (λ _ _, None) "kafka-service-operator" "ns" 3 false "ns" "kafka").
Proof. apply switchover_status_typed. Defined.

Definition run_service : outcome unit * St Cluster.Cluster ServiceState :=
  reconcile_service (λ _, "now") literal_match map_to_list (λ _ _, None) "kafka-service-operator" "ns" 3 false standby_service
    (start pair_cluster (mkServiceState ∅ ∅ "" false)).

Lemma resource_remembered_when_nil_witness :
  ∃ specHash annotationsHash, Hash (KafkaService_Spec standby_service) = Ret specHash ∧
    Hash (Annotations (KafkaService_meta standby_service)) = Ret annotationsHash ∧ is_changed (local run_service.2) specHash annotationsHash = false.
Proof.
  assert (HR : run_service.1 = Ret tt) by (vm_compute; reflexivity).
  exact (resource_remembered_when_nil (λ _, "now") literal_match map_to_list (λ _ _, None) "kafka-service-operator" "ns" 3 false standby_service
    (start pair_cluster (mkServiceState ∅ ∅ "" false)) (Ret tt) run_service.2
    (eq_trans (surjective_pairing run_service) (f_equal (λ o, (o, run_service.2)) HR))).
Defined.

Definition interrupted_service : KafkaService :=
  set_DisasterRecoveryStatus (example_dr "active") "running" "The switchover process for Kafka has been started" standby_service.

Definition run_interrupted : outcome (string * string * bool) * St Cluster.Cluster ServiceState :=
  begin_switchover literal_match map_to_list (λ _ _, None) "kafka-service-operator" "ns" 3 false interrupted_service (example_dr "active")
    (start pair_cluster (mkServiceState ∅ ∅ "" false)).

Lemma interrupted_switchover_skips_check_witness :
  switchover_due (example_dr "active") (dr_status interrupted_service) = true ∧
  isCheckNeeded (example_dr "active") (dr_status interrupted_service) = false ∧
  ∀ r, run_interrupted.1 = Ret r → r = ("done", "Switchover mode has been changed without replication check", true).
Proof.
  destruct (interrupted_switchover_skips_check literal_match map_to_list (λ _ _, None) "kafka-service-operator" "ns" 3 false standby_service
    (example_dr "active") "The switchover process for Kafka has been started") as (HD & HN & HR).
  split; [exact HD|]. split; [exact HN|]. intros r HE.
  exact (HR (start pair_cluster (mkServiceState ∅ ∅ "" false)) r run_interrupted.2
    (eq_trans (surjective_pairing run_interrupted) (f_equal (λ o, (o, run_interrupted.2)) HE))).
Defined.
