(* ===== verification/ServiceReconcilers.v ===== *)
(** * The reconcilers of the services around Kafka

    Sources, in operator/controllers/kafkaservice: deployment_secret_restart.go,
    monitoring_reconciler.go, akhq_reconciler.go, mirror_maker_reconciler.go,
    mirror_maker_monitoring_reconciler.go and integration_tests_reconciler.go.  Each reconciler
    compares hashes and versions of what it depends on with those it remembers, and when one
    changed applies the objects its provider builds; then it remembers them.

    [range] and [range_certs] are orders of ranging over maps. *)

From S2P Require Import Prelude GoStrings Util Transformation Kube Api Providers MonitoringProviders.
From S2P Require Import MirrorMakerProvider External Cluster Reconciler KmmDr KafkaClient MirrorMakerConfig.
From S2P Require Import Auditor KafkaUsers AkhqConfigs AkhqProvider Conditions KafkaServices.

Import ServiceV7.

(** ** Restarts on changes of secrets *)

Definition autoRestartAnnotation : string := "kafkaservice.netcracker.com/auto-restart".
Definition resourceVersionAnnotation (name : string) : string := name +:+ "/resource-version".

(** The annotations of the pod template after one secret, and whether they changed. *)
Definition restart_annotation (acc : strmap * bool) (secret : option Secret) : strmap * bool :=
  match secret with
  | None => acc
  | Some secret =>
      if decide (Name (secret_meta secret) = "") then acc
      else if negb (bool_decide (sget (Annotations (secret_meta secret)) autoRestartAnnotation = "true")) then acc
      else
        let annotationName := resourceVersionAnnotation (Name (secret_meta secret)) in
        if decide (sget acc.1 annotationName = ResourceVersion (secret_meta secret)) then acc
        else (<[annotationName := ResourceVersion (secret_meta secret)]> acc.1, true)
  end.

(** The deployment after the call, and what it returns. *)
Definition applyAutoRestartSecretAnnotations (deployment : Deployment) (secrets : list (option Secret)) : Deployment * bool :=
  let '(annotations, modified) := foldl restart_annotation (tmpl_Annotations (dep_Template deployment), false) secrets in
  (set_dep_Template (set_tmpl_Annotations annotations (dep_Template deployment)) deployment, modified).

Definition updateDeploymentSecretRestartAnnotations `{Env W} `{Retry} {L} (namespace deploymentName : string)
    (secrets : list (option Secret)) : M (St W L) unit :=
  RetryOnConflict (
    r ← try (request (Get KDeployment deploymentName namespace));
    match r with
    | inr err => if IsNotFound err then mret tt else throw err
    | inl deployment =>
        let '(deployment, modified) := applyAutoRestartSecretAnnotations deployment secrets in
        if (modified : bool) then _ ← request (Update KDeployment deployment); mret tt else mret tt
    end).

(** ** What the reconcilers share *)

Definition emptySecret : Secret := mkSecret (newMeta "" "" ∅ ∅) ∅ ∅.

(** A version other than the one remembered. *)
Definition version_changed (l : ServiceState) (key version : string) : bool :=
  negb (bool_decide (sget (ResourceVersions l) key = version)).

Definition hash_changed (l : ServiceState) (key hash : string) : bool :=
  negb (bool_decide (sget (ResourceHashes l) key = hash)).

Definition named (name : string) : bool := negb (bool_decide (name = "")).

(** [secret.Name != "" && ResourceVersions[secret.Name] != secret.ResourceVersion] *)
Definition object_changed (l : ServiceState) (m : ObjectMeta) : bool :=
  named (Name m) && version_changed l (Name m) (ResourceVersion m).

Section reconcilers.
Context `{Env W} `{Retry} `{Polling} `{Library} `{Digest}.
Context `{Marshaler Monitoring} `{Marshaler Akhq} `{Marshaler MirrorMaker} `{Marshaler MirrorMakerMonitoring}
  `{Marshaler DisasterRecovery} `{Marshaler (option (list string))}.
Context (now : W → string) (range : strmap → list (string * string)).

Abbreviation run := (M (St W ServiceState)).

Definition remember_version (key version : string) : run unit := modify_local (set_ResourceVersionOf key version).
Definition remember_hash (key hash : string) : run unit := modify_local (set_ResourceHash key hash).
Definition remember_object (m : ObjectMeta) : run unit := remember_version (Name m) (ResourceVersion m).

Definition watch (secretName : string) (cr : KafkaService) : run Secret := WatchSecret secretName (service_owner cr).

(** The error of setting the owner of a typed object; the object stays as it is. *)
Definition own (cr : KafkaService) (m : ObjectMeta) : run unit :=
  _ ← lift (SetControllerReference (service_owner cr) (Typed m));
  mret tt.

Definition condition (cr : KafkaService) (status type reason message : string) : run unit :=
  updateConditions (k := KKafkaService) (cr_Name cr) (cr_Namespace cr) now
    (NewCondition (k := KKafkaService) status type reason message).

(** The Status methods: they differ in the labels, the timeout and the texts. *)
Definition check_readiness (cr : KafkaService) (reason starting failed ready : string) (labels : strmap) (timeout : outcome Z) : run unit :=
  condition cr statusFalse typeInProgress reason starting;;
  timeout ← lift timeout;
  r ← try (PollImmediate waitingInterval timeout (AreDeploymentsReady labels (cr_Namespace cr)));
  match r with
  | inr _ => condition cr statusFalse typeFailed reason failed
  | inl _ => condition cr statusTrue typeReady reason ready
  end.

Definition pods_timeout (cr : KafkaService) : outcome Z :=
  global ← cr_Global cr;
  Ret (Global_PodsReadyTimeout global).

(** The names of the pods go into the section of the status [set] writes. *)
Definition update_nodes (cr : KafkaService) (labels : strmap) (set : list string → KafkaServiceStatus → KafkaServiceStatus) : run unit :=
  pods ← FindPodList (cr_Namespace cr) labels;
  UpdateStatusWithRetry (k := KKafkaService) (cr_Name cr) (cr_Namespace cr)
    (λ instance, mret (set_KafkaService_Status (set (GetPodNames pods) (KafkaService_Status instance)) instance)).

Definition apply_service_account (cr : KafkaService) (name : string) : run unit :=
  global ← lift (cr_Global cr);
  CreateOrUpdateServiceAccount (NewServiceAccount name (cr_Namespace cr) (Global_DefaultLabels global)).

Definition apply_service (cr : KafkaService) (service : outcome Service) : run unit :=
  service ← lift service;
  own cr (svc_meta service);;
  CreateOrUpdateService service.

Definition apply_deployment (cr : KafkaService) (deployment : outcome Deployment) (secrets : list (option Secret)) : run unit :=
  deployment ← lift deployment;
  own cr (dep_meta deployment);;
  CreateOrUpdateDeployment (applyAutoRestartSecretAnnotations deployment secrets).1.

End reconcilers.

(** ** Kafka monitoring *)

Module MonitoringReconciler.

Definition monitoringConditionReason : string := "KafkaMonitoringReadinessStatus".
Definition monitoringHashName : string := "spec.monitoring".
Definition lagExporterConfigMapNameSuffix : string := "lag-exporter-configmap".
Definition lagExporterConfigMapKey : string := "kafka-lag-exporter-cm".

Definition lagExporterConfigMapName (cr : KafkaService) : string := cr_Name cr +:+ "-" +:+ lagExporterConfigMapNameSuffix.

Definition services_secret (cr : KafkaService) : string := cr_Name cr +:+ "-services-secret".

Section reconciler.
Context `{Env W} `{Retry} `{Polling} `{Library} `{Digest} `{Marshaler Monitoring}.
Context (now : W → string) (cr : KafkaService) (spec : Monitoring).

Abbreviation run := (M (St W ServiceState)).

Definition monitoringProvider : KafkaMonitoring.MonitoringResourceProvider := KafkaMonitoring.NewMonitoringResourceProvider cr spec.

Definition isDeploymentUpdateNeededForKafkaLagExporter (l : ServiceState) (currentCMResourceVersion : string) : bool :=
  match Monitoring_LagExporter spec with
  | None => false
  | Some _ =>
      if decide (sget (ResourceVersions l) lagExporterConfigMapKey = "" ∨ currentCMResourceVersion = "") then false
      else version_changed l lagExporterConfigMapKey currentCMResourceVersion
  end.

Definition updateMonitoringStatus (labels : strmap) : run unit :=
  update_nodes cr labels (λ nodes, set_KafkaServiceStatus_MonitoringStatus (mkMonitoringStatus nodes)).

(** A secret that is not there is not watched. *)
Definition monitoring_secret : run Secret :=
  if decide (Monitoring_SecretName spec = "") then mret emptySecret
  else
    r ← try (watch (Monitoring_SecretName spec) cr);
    match r with
    | inl secret => mret secret
    | inr err => if IsNotFound err then mret emptySecret else throw err
    end.

(** A config map that is not found is an empty one. *)
Definition exporter_config : run string :=
  match Monitoring_LagExporter spec with
  | None => mret ""
  | Some _ =>
      r ← try (FindConfigMap (lagExporterConfigMapName cr) (cr_Namespace cr));
      let configMap := match r with inl cm => cm | inr _ => mkConfigMap (newMeta "" "" ∅ ∅) ∅ ∅ end in
      own cr (cm_meta configMap);;
      configMap ← StoreConfigMap configMap;
      mret (ResourceVersion (cm_meta configMap))
  end.

Definition apply (monitoringSecret kafkaServicesSecret : Secret) (currentCMResourceVersion : string) : run unit :=
  apply_service cr (KafkaMonitoring.NewMonitoringClientService monitoringProvider);;
  apply_service_account cr (KafkaMonitoring.GetServiceAccountName monitoringProvider);;
  apply_deployment cr (KafkaMonitoring.NewMonitoringDeployment monitoringProvider currentCMResourceVersion)
    [Some monitoringSecret; Some kafkaServicesSecret];;
  updateMonitoringStatus (KafkaMonitoring.GetMonitoringSelectorLabels monitoringProvider).

Definition needs_update (l : ServiceState) (monitoringHash currentCMResourceVersion : string) (monitoringSecret kafkaServicesSecret : Secret) : bool :=
  hash_changed l monitoringHashName monitoringHash || hash_changed l globalHashName (globalSpecHash l) ||
  object_changed l (secret_meta monitoringSecret) || object_changed l (secret_meta kafkaServicesSecret) ||
  isDeploymentUpdateNeededForKafkaLagExporter l currentCMResourceVersion.

Definition Reconcile : run unit :=
  monitoringSecret ← monitoring_secret;
  kafkaServicesSecret ← watch (services_secret cr) cr;
  currentCMResourceVersion ← exporter_config;
  monitoringHash ← lift (Hash spec);
  l ← get_local;
  (if needs_update l monitoringHash currentCMResourceVersion monitoringSecret kafkaServicesSecret
   then apply monitoringSecret kafkaServicesSecret currentCMResourceVersion else mret tt);;
  (if named (Name (secret_meta monitoringSecret)) then remember_object (secret_meta monitoringSecret) else mret tt);;
  remember_object (secret_meta kafkaServicesSecret);;
  remember_hash monitoringHashName monitoringHash;;
  match Monitoring_LagExporter spec with
  | Some _ => remember_version lagExporterConfigMapKey currentCMResourceVersion
  | None => mret tt
  end.

Definition Status : run unit :=
  check_readiness now cr monitoringConditionReason "Kafka Monitoring health check" "Kafka Monitoring pod is not ready"
    "Kafka Monitoring pod is ready" (KafkaMonitoring.GetMonitoringSelectorLabels monitoringProvider) (pods_timeout cr).

End reconciler.

End MonitoringReconciler.

(** ** Mirror maker *)

Module MirrorMakerReconciler.

Definition mirrorMakerConditionReason : string := "KafkaMirrorMakerReadinessStatus".
Definition mirrorMakerHashName : string := "spec.mirrorMaker".
Definition disasterRecoveryHashName : string := "spec.disasterRecovery".

Section reconciler.
Context `{Env W} `{Retry} `{Polling} `{Library} `{Digest} `{Marshaler MirrorMaker} `{Marshaler DisasterRecovery}.
Context (now : W → string) (range : strmap → list (string * string)) (cr : KafkaService) (spec : MirrorMaker) (drChecked : bool).

Abbreviation run := (M (St W ServiceState)).

Definition mirrorMakerProvider : MirrorMakerResourceProvider := NewMirrorMakerResourceProvider cr spec.

Definition createDeployment (secret : Secret) (configurationVersion : string) (cluster : Cluster) : run unit :=
  let currentClusterName := ToLower (Cluster_Name cluster) in
  let deploymentName := currentClusterName +:+ "-" +:+ MirrorMakerProvider.GetServiceName mirrorMakerProvider in
  deployment ← lift (NewMirrorMakerDeploymentForCR range mirrorMakerProvider cluster (MirrorMaker_Clusters spec)
                       (ResourceVersion (secret_meta secret)) configurationVersion currentClusterName deploymentName);
  own cr (dep_meta deployment);;
  let deployment := (applyAutoRestartSecretAnnotations deployment [Some secret]).1 in
  apply_service cr (GetService mirrorMakerProvider deploymentName);;
  CreateOrUpdateDeployment deployment.

(** The loop that stops at the cluster of the region. *)
Fixpoint region_deployment (secret : Secret) (configurationVersion : string) (clusters : list Cluster) : run unit :=
  match clusters with
  | [] => mret tt
  | cluster :: clusters =>
      if decide (Cluster_Name cluster = MirrorMaker_RegionName spec) then createDeployment secret configurationVersion cluster
      else region_deployment secret configurationVersion clusters
  end.

Definition updateMirrorMakerStatus : run unit :=
  update_nodes cr (GetMirrorMakerSelectorLabels mirrorMakerProvider)
    (λ nodes, set_KafkaServiceStatus_MirrorMakerStatus (mkMirrorMakerStatus nodes)).

(** The config map of mirror maker: created when it is not there, rewritten unless a configurator
    owns its text.  Writing into the nil map of a config map without data panics. *)
Definition mirror_maker_config : run ConfigMap :=
  r ← try (FindConfigMap (MirrorMaker_ConfigurationName spec) (cr_Namespace cr));
  match r with
  | inr err =>
      if IsNotFound err then
        configMap ← lift (NewConfigurationMapForCR mirrorMakerProvider);
        own cr (cm_meta configMap);;
        StoreConfigMap configMap
      else throw err
  | inl configMap =>
      if negb (MirrorMaker_ConfiguratorEnabled spec) then
        if decide (cm_Data configMap = ∅) then panic
        else
          StoreConfigMap (mkConfigMap (cm_meta configMap)
            (<["config" := GetMirrorMakerProperties mirrorMakerProvider]> (cm_Data configMap)) (cm_BinaryData configMap))
      else mret configMap
  end.

Definition disaster_recovery_hash : outcome string :=
  match cr_dr cr with Some dr => Hash dr | None => Ret "" end.

Definition apply (secret : Secret) (configurationVersion : string) : run unit :=
  apply_service_account cr (MirrorMakerProvider.GetServiceAccountName mirrorMakerProvider);;
  (if decide (MirrorMaker_RegionName spec = "") then
     for_each (createDeployment secret configurationVersion) (MirrorMaker_Clusters spec)
   else region_deployment secret configurationVersion (MirrorMaker_Clusters spec));;
  updateMirrorMakerStatus.

Definition secret_key : string := MirrorMaker_SecretName spec +:+ "." +:+ cr_Namespace cr.
Definition configuration_key : string := MirrorMaker_ConfigurationName spec +:+ "." +:+ cr_Namespace cr.

Definition needs_update (l : ServiceState) (mirrorMakerHash : string) (secret : Secret) (configurationVersion : string) : bool :=
  hash_changed l mirrorMakerHashName mirrorMakerHash || drChecked ||
  named (Name (secret_meta secret)) && version_changed l secret_key (ResourceVersion (secret_meta secret)) ||
  version_changed l configuration_key configurationVersion.

Definition Reconcile : run unit :=
  if decide (1 < Z.of_nat (length (MirrorMaker_Clusters spec))) then
    secret ← watch (MirrorMaker_SecretName spec) cr;
    configMap ← mirror_maker_config;
    let configurationVersion := ResourceVersion (cm_meta configMap) in
    mirrorMakerHash ← lift (Hash spec);
    disasterRecoveryHash ← lift disaster_recovery_hash;
    l ← get_local;
    (if needs_update l mirrorMakerHash secret configurationVersion then apply secret configurationVersion else mret tt);;
    remember_version secret_key (ResourceVersion (secret_meta secret));;
    remember_version configuration_key configurationVersion;;
    remember_hash mirrorMakerHashName mirrorMakerHash;;
    remember_hash disasterRecoveryHashName disasterRecoveryHash
  else mret tt.

Definition Status : run unit :=
  check_readiness now cr mirrorMakerConditionReason "Kafka Mirror Maker health check" "Kafka Mirror Maker pods are not ready"
    "Kafka Mirror Maker pods are ready" (GetMirrorMakerSelectorLabels mirrorMakerProvider) (pods_timeout cr).

End reconciler.

End MirrorMakerReconciler.

(** ** Mirror maker monitoring *)

Module MirrorMakerMonitoringReconciler.

Import MirrorMakerMonitor.

Definition mirrorMakerMonitoringConditionReason : string := "KafkaMirrorMakerMonitoringReadinessStatus".
Definition mirrorMakerMonitoringHashName : string := "spec.mirrorMakerMonitoring".

Section reconciler.
Context `{Env W} `{Retry} `{Polling} `{Library} `{Digest} `{Marshaler MirrorMakerMonitoring} `{Marshaler DisasterRecovery}
  `{Marshaler (option (list string))}.
Context (now : W → string) (ks : KafkaService) (section : MirrorMakerMonitoring) (drChecked : bool).

Abbreviation run := (M (St W ServiceState)).

Definition mirrorMakerMonitoringProvider : MirrorMakerMonitoringResourceProvider :=
  NewMirrorMakerMonitoringResourceProvider ks section.

Definition apply (secret : Secret) : run unit :=
  apply_service ks (NewMonitoringClientService mirrorMakerMonitoringProvider);;
  apply_service_account ks (GetServiceAccountName mirrorMakerMonitoringProvider);;
  apply_deployment ks (NewMirrorMakerMonitoringDeployment mirrorMakerMonitoringProvider) [Some secret].

Definition needs_update (l : ServiceState) (hash : string) (secret : Secret) : bool :=
  hash_changed l mirrorMakerMonitoringHashName hash || drChecked || object_changed l (secret_meta secret).

(** An error of the hash of the disaster recovery section ends the function with nil. *)
Definition Reconcile : run unit :=
  secret ← watch (MirrorMakerMonitoring_SecretName section) ks;
  hash ← lift (Hash section);
  r ← try (lift (MirrorMakerReconciler.disaster_recovery_hash ks));
  match r with
  | inr _ => mret tt
  | inl disasterRecoveryHash =>
      l ← get_local;
      (if needs_update l hash secret then apply secret else mret tt);;
      remember_object (secret_meta secret);;
      remember_hash mirrorMakerMonitoringHashName hash;;
      remember_hash MirrorMakerReconciler.disasterRecoveryHashName disasterRecoveryHash
  end.

Definition Status : run unit :=
  check_readiness now ks mirrorMakerMonitoringConditionReason "Kafka Mirror Maker Monitoring health check"
    "Kafka Mirror Maker Monitoring pod is not ready" "Kafka Mirror Maker Monitoring pod is ready"
    (GetMirrorMakerMonitoringSelectorLabels mirrorMakerMonitoringProvider) (pods_timeout ks).

End reconciler.

End MirrorMakerMonitoringReconciler.

(** ** Integration tests *)

Module IntegrationTestsReconciler.

Definition integrationTestsConditionReason : string := "KafkaIntegrationTestsStatus".

Section reconciler.
Context `{Env W} `{Retry} `{Polling}.
Context (now : W → string) (cr : KafkaService) (spec : IntegrationTests).

Abbreviation run := (M (St W ServiceState)).

Definition Reconcile : run unit := mret tt.

Definition getKafkaIntegrationTestsLabels : strmap := {["name" := IntegrationTests_ServiceName spec]}.

Definition Status : run unit :=
  if negb (IntegrationTests_WaitForResult spec) then mret tt
  else
    check_readiness now cr integrationTestsConditionReason "Start checking Kafka Integration Tests"
      "Kafka Integration Tests failed. See more details in integration test logs" "Kafka Integration Tests performed successfully"
      getKafkaIntegrationTestsLabels (Ret (IntegrationTests_Timeout spec)).

End reconciler.

End IntegrationTestsReconciler.

(** ** AKHQ *)

Module AkhqReconciler.

Definition akhqConditionReason : string := "AkhqReadinessStatus".
Definition akhqHashName : string := "spec.akhq".
Definition ldapConfigurationCMName : string := "akhq-security-configuration".
Definition legacyDeserializationConfigMapName : string := "akhq-deserialization-keys".

(** The regular expression of the names that start with akhqdcm-; its dot does not match a line break. *)
Definition deserialization_name (name : string) : bool := HasPrefix name "akhqdcm-" && negb (has_char newline name).

Section reconciler.
Context `{Env W} `{Retry} `{Polling} `{Library} `{Digest} `{Marshaler Akhq}.
Context (now : W → string) (range : strmap → list (string * string)) (cr : KafkaService) (spec : Akhq).

Abbreviation run := (M (St W ServiceState)).

Definition akhqProvider : AkhqObjects.AkhqResourceProvider := AkhqObjects.NewAkhqResourceProvider cr spec.

Definition deleteLegacyConfigMap : run unit := DeleteConfigMapByName legacyDeserializationConfigMapName (cr_Namespace cr).

(** The first time the config map gets its owner. *)
Definition getProtobufConfigMap : run ConfigMap :=
  l ← get_local;
  labels ← lift (AkhqObjects.GetAkhqLabels akhqProvider);
  if negb (controllerReferenceSet l) then
    cm ← CreateProtobufConfigMapIfNotExist (cr_Namespace cr) labels (Some (service_owner cr));
    modify_local (set_controllerReferenceSet true);;
    mret cm
  else CreateProtobufConfigMapIfNotExist (cr_Namespace cr) labels None.

Definition getLdapConfigMap (configMapName : string) : run ConfigMap :=
  ldapConfigMap ← lift (AkhqObjects.NewConfigurationMapForLdap akhqProvider configMapName);
  StoreConfigMap ldapConfigMap.

Definition findDeserializationConfigMaps : run (list ConfigMap) :=
  cms ← GetAllConfigMapsFromNamespace (cr_Namespace cr);
  mret (filter (λ cm, deserialization_name (Name (cm_meta cm)) = true) cms).

Definition updateAkhqStatus (labels : strmap) : run unit :=
  update_nodes cr labels (λ nodes, set_KafkaServiceStatus_AkhqStatus (mkAkhqStatus nodes)).

(** The secret and the config map of LDAP, which stay nil without it. *)
Definition ldap_objects : run (option (Secret * ConfigMap)) :=
  ldap ← lift (deref (Akhq_Ldap spec));
  if LdapConfig_Enabled ldap then
    ldapSecret ← watch "akhq-ldap-secret" cr;
    ldapConfigMap ← getLdapConfigMap ldapConfigurationCMName;
    mret (Some (ldapSecret, ldapConfigMap))
  else mret None.

(** Whether the function goes on: an error of [RestoreSpecFields] makes it return [err], nil here. *)
Definition apply (akhqSecret kafkaServicesSecret : Secret) (protobufConfigMap : ConfigMap) (ldap : option (Secret * ConfigMap))
    (deserealizationSourceConfigMaps : list ConfigMap) : run bool :=
  trustCertsSecret ← lift (AkhqObjects.NewLdapTrustedSecret range akhqProvider "akhq-trusted-certs");
  trustCertsSecret ← lift (deref trustCertsSecret);
  CreateOrUpdateSecret trustCertsSecret;;
  apply_service cr (AkhqObjects.NewAkhqClientService akhqProvider);;
  apply_service_account cr (AkhqObjects.GetServiceAccountName akhqProvider);;
  securityConfiguration ← lift (AkhqObjects.NewSecurityConfiguration akhqProvider);
  r ← try (RestoreSpecFields securityConfiguration (AkhqObjects.ProtectedSecretsFields akhqProvider));
  match r with
  | inr _ => mret false
  | inl securityConfiguration =>
      CreateOrUpdateSecret securityConfiguration;;
      apply_deployment cr
        (AkhqObjects.NewAkhqDeployment range akhqProvider (ResourceVersion (cm_meta protobufConfigMap)) deserealizationSourceConfigMaps)
        [Some akhqSecret; Some kafkaServicesSecret; fst <$> ldap];;
      updateAkhqStatus (AkhqObjects.GetAkhqSelectorLabels akhqProvider);;
      mret true
  end.

Definition needs_update (l : ServiceState) (akhqSpecHash : string) (akhqSecret kafkaServicesSecret : Secret)
    (protobufConfigMap : ConfigMap) (ldap : option (Secret * ConfigMap)) : bool :=
  hash_changed l akhqHashName akhqSpecHash || hash_changed l globalHashName (globalSpecHash l) ||
  object_changed l (secret_meta akhqSecret) ||
  match ldap with Some (ldapSecret, _) => object_changed l (secret_meta ldapSecret) | None => false end ||
  object_changed l (secret_meta kafkaServicesSecret) || object_changed l (cm_meta protobufConfigMap) ||
  match ldap with Some (_, ldapConfigMap) => object_changed l (cm_meta ldapConfigMap) | None => false end.

Definition Reconcile : run unit :=
  akhqSecret ← watch "akhq-secret" cr;
  kafkaServicesSecret ← watch (MonitoringReconciler.services_secret cr) cr;
  deleteLegacyConfigMap;;
  protobufConfigMap ← getProtobufConfigMap;
  ldap ← ldap_objects;
  deserealizationSourceConfigMaps ← findDeserializationConfigMaps;
  akhqSpecHash ← lift (Hash spec);
  l ← get_local;
  continues ← (if needs_update l akhqSpecHash akhqSecret kafkaServicesSecret protobufConfigMap ldap
               then apply akhqSecret kafkaServicesSecret protobufConfigMap ldap deserealizationSourceConfigMaps else mret true);
  if (continues : bool) then
    remember_object (secret_meta akhqSecret);;
    remember_object (secret_meta kafkaServicesSecret);;
    remember_object (cm_meta protobufConfigMap);;
    remember_hash akhqHashName akhqSpecHash;;
    match ldap with
    | Some (ldapSecret, ldapConfigMap) => remember_object (secret_meta ldapSecret);; remember_object (cm_meta ldapConfigMap)
    | None => mret tt
    end
  else mret tt.

Definition Status : run unit :=
  check_readiness now cr akhqConditionReason "AKHQ health check" "AKHQ pod is not ready" "AKHQ pod is ready"
    (AkhqObjects.GetAkhqSelectorLabels akhqProvider) (pods_timeout cr).

End reconciler.

End AkhqReconciler.

(** ** Restarts: properties *)

(** The annotation a secret asks for, if it asks for restarts. *)
Definition watched (secret : option Secret) : option (string * string) :=
  match secret with
  | Some secret =>
      if named (Name (secret_meta secret)) && bool_decide (sget (Annotations (secret_meta secret)) autoRestartAnnotation = "true")
      then Some (resourceVersionAnnotation (Name (secret_meta secret)), ResourceVersion (secret_meta secret)) else None
  | None => None
  end.

Lemma restart_annotation_watched acc secret :
  restart_annotation acc secret =
    match watched secret with
    | Some (key, version) => if decide (sget acc.1 key = version) then acc else (<[key := version]> acc.1, true)
    | None => acc
    end.
Proof.
  unfold restart_annotation, watched, named. destruct secret as [secret|]; [|done].
  destruct (decide (Name (secret_meta secret) = "")) as [E|E]; [by rewrite (bool_decide_eq_true_2 (Name (secret_meta secret) = ""))|].
  rewrite (bool_decide_eq_false_2 (Name (secret_meta secret) = "")) by done.
  by destruct (bool_decide _).
Qed.

Lemma restart_annotations_cons secret secrets :
  NoDup (omap watched (secret :: secrets)).*1 →
  NoDup (omap watched secrets).*1 ∧
  ∀ key version, watched secret = Some (key, version) →
    (list_to_map (omap watched secrets) : strmap) !! key = None ∧ list_to_map (omap watched (secret :: secrets)) = <[key := version]> (list_to_map (omap watched secrets) : strmap).
Proof.
  cbn. destruct (watched secret) as [[key version]|]; cbn; [|by intros HN]. intros [Hk HN]%NoDup_cons. split; [done|]. intros ? ? [= <- <-].
  split; [by apply not_elem_of_list_to_map_1|done].
Qed.

Lemma restart_annotations_value secrets acc key :
  NoDup (omap watched secrets).*1 →
  sget (foldl restart_annotation acc secrets).1 key = default (sget acc.1 key) ((list_to_map (omap watched secrets) : strmap) !! key).
Proof.
  revert acc. induction secrets as [|secret secrets IH]; intros acc HN; [done|].
  destruct (restart_annotations_cons secret secrets HN) as [HN' HW]. cbn [foldl]. rewrite IH by done.
  rewrite restart_annotation_watched. destruct (watched secret) as [[k v]|] eqn:Ew.
  - destruct (HW k v eq_refl) as [Hno ->]. destruct (decide (key = k)) as [->|Hk].
    + rewrite Hno, lookup_insert_eq. cbn. case_decide; [done|]. cbn. rewrite sget_insert. by rewrite decide_True.
    + rewrite lookup_insert_ne by done. f_equal. case_decide; [done|]. cbn. rewrite sget_insert. by rewrite decide_False.
  - cbn. by rewrite Ew.
Qed.

Lemma restart_annotations_flag secrets acc :
  NoDup (omap watched secrets).*1 →
  if (foldl restart_annotation acc secrets).2 then
    acc.2 = true ∨ ∃ k v, (list_to_map (omap watched secrets) : strmap) !! k = Some v ∧ sget acc.1 k ≠ v
  else acc.2 = false ∧ foldl restart_annotation acc secrets = acc ∧
       ∀ k v, (list_to_map (omap watched secrets) : strmap) !! k = Some v → sget acc.1 k = v.
Proof.
  revert acc. induction secrets as [|secret secrets IH]; intros acc HN; [destruct acc as [m []]; [by left|split; [done|split; [done|intros k v Hk; cbn in Hk; by rewrite lookup_empty in Hk]]]|].
  destruct (restart_annotations_cons secret secrets HN) as [HN' HW]. cbn [foldl]. specialize (IH (restart_annotation acc secret) HN').
  rewrite restart_annotation_watched in *. destruct (watched secret) as [[k v]|] eqn:Ew; [|by cbn; rewrite Ew].
  destruct (HW k v eq_refl) as [Hno ->]. destruct (decide (sget acc.1 k = v)) as [D|D].
  - destruct (foldl restart_annotation acc secrets).2.
    + destruct IH as [?|(k' & v' & Hk & Hv)]; [by left|right]. exists k', v'. split; [|done]. rewrite lookup_insert_ne; [done|]. intros ->. by rewrite Hno in Hk.
    + destruct IH as (? & ? & IH). split_and!; [done..|]. intros k' v'. rewrite lookup_insert_Some. intros [[<- <-]|[_ Hk]]; [done|by apply IH].
  - destruct (foldl restart_annotation _ secrets).2; [|by destruct IH].
    right. exists k, v. by rewrite lookup_insert_eq.
Qed.

(** C37. The pods of a deployment restart exactly when a secret they use has changed, where the secret
    asks for it: of distinct secrets, each that is annotated for restarts gets its version
    recorded in the pod template, nothing else of the deployment changes, the call reports a
    change exactly when it made one, and doing it again changes nothing. *)
Theorem applyAutoRestartSecretAnnotations_spec deployment secrets d modified :
  NoDup (omap watched secrets).*1 → applyAutoRestartSecretAnnotations deployment secrets = (d, modified) →
  d = set_dep_Template (set_tmpl_Annotations (tmpl_Annotations (dep_Template d)) (dep_Template deployment)) deployment ∧
  (∀ key, sget (tmpl_Annotations (dep_Template d)) key =
     default (sget (tmpl_Annotations (dep_Template deployment)) key) ((list_to_map (omap watched secrets) : strmap) !! key)) ∧
  (modified = false ↔ tmpl_Annotations (dep_Template d) = tmpl_Annotations (dep_Template deployment)) ∧
  applyAutoRestartSecretAnnotations d secrets = (d, false).
Proof.
  intros HN. unfold applyAutoRestartSecretAnnotations. set (A := tmpl_Annotations (dep_Template deployment)).
  assert (HV := λ key, restart_annotations_value secrets (A, false) key HN). assert (HF := restart_annotations_flag secrets (A, false) HN).
  destruct (foldl restart_annotation (A, false) secrets) as [B b] eqn:E. cbn [fst snd] in *. intros [= <- <-].
  cbn [dep_Template tmpl_Annotations set_dep_Template set_tmpl_Annotations]. split_and!; [done|done| |].
  - split; [intros ->; by destruct HF as (_ & [= ->] & _)|]. intros ->. destruct b; [|done]. destruct HF as [?|(k & v & Hk & Hv)]; [done|].
    specialize (HV k). rewrite Hk in HV. by cbn in HV.
  - assert (HG := restart_annotations_flag secrets (B, false) HN). destruct (foldl restart_annotation (B, false) secrets) as [C c] eqn:E2. cbn in HG.
    destruct c.
    + destruct HG as [?|(k & v & Hk & Hv)]; [done|]. specialize (HV k). rewrite Hk in HV. by cbn in HV.
    + by destruct HG as (_ & [= ->] & _).
Qed.

Definition example_watched_secret (version : string) : Secret :=
  mkSecret (set_ResourceVersion version (newMeta "akhq-secret" "ns" ∅ {[autoRestartAnnotation := "true"]})) ∅ ∅.

Definition example_deployment : Deployment :=
  mkDeployment (newMeta "akhq" "ns" ∅ ∅) "Recreate" (Some 1) None ∅ (mkTemplate ∅ ∅ (mkPodSpec [] [] [] None "" None "" "" None [] "")) 0 0.

Lemma applyAutoRestartSecretAnnotations_spec_witness :
  let d := (applyAutoRestartSecretAnnotations example_deployment [Some (example_watched_secret "7"); None]).1 in
  sget (tmpl_Annotations (dep_Template d)) "akhq-secret/resource-version" = "7" ∧
  tmpl_Annotations (dep_Template d) ≠ tmpl_Annotations (dep_Template example_deployment) ∧
  applyAutoRestartSecretAnnotations d [Some (example_watched_secret "7"); None] = (d, false).
Proof.
  set (r := applyAutoRestartSecretAnnotations example_deployment [Some (example_watched_secret "7"); None]).
  destruct (applyAutoRestartSecretAnnotations_spec example_deployment [Some (example_watched_secret "7"); None] r.1 r.2) as (_ & HV & HM & HI).
  - apply (NoDup_singleton "akhq-secret/resource-version").
  - reflexivity.
  - split; [exact (HV "akhq-secret/resource-version")|]. split; [|exact HI]. intros HE. apply HM in HE. discriminate HE.
Defined.

(** ** Mirror maker of a region *)

(** The mirror maker of a region is deployed for the first cluster whose name is the region to the
    letter, and for none when only the letter case differs: then the loop asks nothing of the
    API server, although the configuration is written for the region. *)
Theorem region_deployment_first `{Env W} `{Retry} `{Library} range cr spec secret version clusters (s : St W ServiceState) :
  MirrorMakerReconciler.region_deployment range cr spec secret version clusters s =
    match list_find (λ cluster, Cluster_Name cluster = MirrorMaker_RegionName spec) clusters with
    | Some (_, cluster) => MirrorMakerReconciler.createDeployment range cr spec secret version cluster s
    | None => (Ret tt, s)
    end.
Proof.
  induction clusters as [|c cs IH]; [done|]. cbn. destruct (decide (Cluster_Name c = MirrorMaker_RegionName spec)) as [D|D]; [done|].
  rewrite IH. by destruct (list_find _ cs) as [[i x]|].
Qed.

(** ** AKHQ: a swallowed error *)

Section akhq.
Context `{Env W} `{Retry} `{Polling} `{Library} `{Digest} `{Marshaler Akhq}.
Context (range : strmap → list (string * string)) (cr : KafkaService) (spec : Akhq).

(** When applying AKHQ stops without an error, the stored security configuration could not be
    read for a reason other than its absence: the deployment was not applied after that, and yet
    the caller, which returns nil then, reports success. *)
Theorem akhq_restore_error_is_swallowed akhqSecret kafkaServicesSecret cm ldap cms (s s' : St W ServiceState) :
  AkhqReconciler.apply range cr spec akhqSecret kafkaServicesSecret cm ldap cms s = (Ret false, s') →
  ∃ tr secret e, trace s' = tr ++ [Ev (Get KSecret (Name (secret_meta secret)) (Namespace (secret_meta secret))) (inr e)] ∧
    AkhqObjects.NewSecurityConfiguration (AkhqReconciler.akhqProvider cr spec) = Ret secret ∧ IsNotFound e = false.
Proof.
  unfold AkhqReconciler.apply. intros (o1 & s1 & _ & Hr)%bind_inv. apply bind_inv in Hr as (trust & s2 & _ & Hr).
  apply bind_inv in Hr as (u3 & s3 & _ & Hr). apply bind_inv in Hr as (u4 & s4 & _ & Hr). apply bind_inv in Hr as (u5 & s5 & _ & Hr).
  apply bind_inv in Hr as (security & s6 & [= Hs <-] & Hr). apply bind_inv in Hr as (r & s7 & Hx & Hr).
  destruct r as [restored|e].
  - apply bind_inv in Hr as (u8 & s8 & _ & Hr). apply bind_inv in Hr as (u9 & s9 & _ & Hr). by apply bind_inv in Hr as (u10 & s10 & _ & Hr).
  - injection Hr as <-. revert Hx. unfold RestoreSpecFields, FindSecret, try, mbind, M_bind, request.
    destruct (perform _ (Get KSecret (Name (secret_meta security)) (Namespace (secret_meta security))) (world s5)) as [[old|e'] w] eqn:Ep; [done|].
    destruct (IsNotFound e') eqn:En; [done|]. intros [= <- <-]. exists (trace s5), security, e'. by split_and!.
Qed.

End akhq.

(** *** Witness *)

#[local] Existing Instance retry_default.

Definition example_library : Library := {|
  ParseGroupVersion := λ g, Ret g;
  controllerutil_SetControllerReference := λ owner m, Ret m;
  quantity_String := itoa;
|}.

#[local] Existing Instance example_library.

(** The cluster in memory, where the security configuration of AKHQ cannot be read. *)
Definition unreadable_security : Env Cluster.Cluster := {|
  perform := λ R c w,
    match c in call R return (R + gerror) * Cluster.Cluster with
    | Get k name namespace =>
        if decide (name = "akhq-security-configuration") then (inr (errorf "timeout"), w) else cluster_perform _ (Get k name namespace) w
    | c => cluster_perform _ c w
    end
|}.

Definition example_akhq : Akhq :=
  mkAkhq "image" example_affinity [] "" (mkResources ∅ ∅) (mkRaw "") None None "kafka:9092" false ∅ [] None "" ""
    (Some (mkLdapConfig false false ∅ (mkLdapServer (mkLdapServerContext "" "" "") (mkLdapServerSearch "" "") (mkLdapServerGroups false))
             (mkLdapUsersConfig [] []))).

Definition run_akhq : outcome bool * St Cluster.Cluster ServiceState :=
  AkhqReconciler.apply (H := unreadable_security) map_to_list standby_service example_akhq emptySecret emptySecret
    (mkConfigMap (newMeta "akhq-protobuf-configuration" "ns" ∅ ∅) ∅ ∅) None [] (start empty_cluster (mkServiceState ∅ ∅ "" false)).

Lemma akhq_restore_error_is_swallowed_witness :
  ∃ tr secret e, trace run_akhq.2 = tr ++ [Ev (Get KSecret (Name (secret_meta secret)) (Namespace (secret_meta secret))) (inr e)] ∧
    AkhqObjects.NewSecurityConfiguration (AkhqReconciler.akhqProvider standby_service example_akhq) = Ret secret ∧ IsNotFound e = false.
Proof.
  assert (HR : run_akhq.1 = Ret false) by (vm_compute; reflexivity).
  exact (akhq_restore_error_is_swallowed (H := unreadable_security) map_to_list standby_service example_akhq emptySecret emptySecret
    (mkConfigMap (newMeta "akhq-protobuf-configuration" "ns" ∅ ∅) ∅ ∅) None [] (start empty_cluster (mkServiceState ∅ ∅ "" false)) run_akhq.2
    (eq_trans (surjective_pairing run_akhq) (f_equal (λ o, (o, run_akhq.2)) HR))).
Defined.
