(* ===== verification/BackupDaemon.v ===== *)
(** * The backup daemon and the switch-over with backups

    Source: operator/controllers/kafkaservice/backup_daemon_reconciler.go.  During a switch-over
    with backups of topics, the side that becomes active starts its backup daemon and restores the
    last full backup of the other region; the side that becomes standby makes a backup and stops
    its daemon.

    [Unmarshaler] is encoding/json's reader, [url_Parse] the error net/url gives of an address. *)

From S2P Require Import Prelude GoStrings Util Transformation Kube Api Providers MonitoringProviders.
From S2P Require Import MirrorMakerProvider External Cluster Reconciler KmmDr KafkaClient MirrorMakerConfig.
From S2P Require Import Auditor KafkaUsers AkhqConfigs AkhqProvider Conditions KafkaServices ServiceReconcilers.

Import ServiceV7.

Class Unmarshaler (A : Type) := { Unmarshal : string → A + gerror }.

Definition unmarshal `{Unmarshaler A} (response : string) : outcome A :=
  match Unmarshal response with inl a => Ret a | inr err => Error err end.

Module BackupDaemonReconciler.

Definition backupDaemonConditionReason : string := "KafkaBackupDaemonReadinessStatus".
Definition scaleTimeout : Z := 120.
Definition backupRestoreTimeout : Z := 60.
Definition certificateFilePath : string := "/backupTLS/ca.crt".

Record StatusResponse := mkStatusResponse {
  sr_Status : string;
  sr_Vault : string;
  sr_Type : string;
  sr_Err : string;
  sr_TaskId : string;
}.

Record BackupInfoResponse := mkBackupInfo {
  bi_IsGranular : bool;
  bi_DBList : string;
  bi_Id : string;
  bi_Failed : bool;
  bi_Locked : bool;
  bi_TS : Z;
  bi_SpentTime : string;
  bi_Valid : bool;
  bi_Evictable : bool;
  bi_CustomVars : strmap;
}.

(** What the reconciler knows of the daemon. *)
Record Daemon := mkDaemon {
  username : string;
  password : string;
  backupDaemonUrl : string;
}.

Definition GetBackupDaemonLabels (cr : KafkaService) : strmap :=
  <["component" := "kafka-backup-daemon"]> (<["name" := cr_Name cr +:+ "-backup-daemon"]> ∅).

(** [sort.Reverse(sort.StringSlice(backups))] *)
Definition latest_first (backups : list string) : list string := merge_sort (λ a b, String.le b a) backups.

(** A full backup made in another region. *)
Definition foreign_full_backup (region : string) (info : BackupInfoResponse) : bool :=
  bool_decide (bi_DBList info = "full backup") && negb (bool_decide (bi_CustomVars info = ∅)) &&
  negb (bool_decide (sget (bi_CustomVars info) "region" = region)).

Section requests.
Context `{Env W} `{Polling} `{Marshaler strmap} `{Unmarshaler StatusResponse} `{Unmarshaler (list string)}
  `{Unmarshaler BackupInfoResponse}.
Context (url_Parse : string → option gerror).

(** The status of the response is not looked at. *)
Definition processRequest {L} (r : Daemon) (method url : string) (body : option string) : M (St W L) string :=
  match url_Parse url with
  | Some err => throw err
  | None =>
      caCert ← try (request (ReadFile certificateFilePath));
      let ca := match caCert with inl caCert => Some caCert | inr _ => None end in
      let auth := if named (username r) && named (password r) then Some (username r, password r) else None in
      '(_, responseData) ← request (HttpDo method url body auth ca);
      mret responseData
  end.

Definition getBackupStatus (response : string) : outcome string :=
  backupStatusResponse ← unmarshal response;
  Ret (sr_Status backupStatusResponse).

Definition getBackupList (response : string) : outcome (list string) := unmarshal response.

Fixpoint first_foreign_backup {L} (r : Daemon) (region : string) (backups : list string) : M (St W L) string :=
  match backups with
  | [] => mret ""
  | backup :: backups =>
      response ← processRequest r "GET" (backupDaemonUrl r +:+ "/listbackups/" +:+ backup) None;
      backupInfoResponse ← lift (unmarshal response);
      if foreign_full_backup region backupInfoResponse then mret backup else first_foreign_backup r region backups
  end.

Definition getLastFullBackup {L} (r : Daemon) (region : string) (backups : list string) : M (St W L) string :=
  first_foreign_backup r region (latest_first backups).

(** A turn of the wait of [restoreLastBackup], with the variables [lastFullBackup] and [jobId]. *)
Definition restore_turn {L} (r : Daemon) (dr : DisasterRecovery) : M (St W (L * (string * string))) bool :=
  r1 ← try (processRequest r "GET" (backupDaemonUrl r +:+ "/listbackups") None);
  match r1 with
  | inr _ => mret false
  | inl response =>
      match getBackupList response with
      | Ret backupList =>
          r2 ← try (getLastFullBackup r (DisasterRecovery_Region dr) backupList);
          match r2 with
          | inr _ => '(_, (_, jobId)) ← get_local; set_var ("", jobId);; mret false
          | inl lastFullBackup =>
              '(_, (_, jobId)) ← get_local;
              set_var (lastFullBackup, jobId);;
              if decide (lastFullBackup = "") then mret (DisasterRecovery_NoWait dr)
              else
                match Marshal ({["vault" := lastFullBackup]} : strmap) with
                | inr _ => mret false
                | inl byteData =>
                    r3 ← try (processRequest r "POST" (backupDaemonUrl r +:+ "/restore") (Some byteData));
                    match r3 with
                    | inr _ => mret false
                    | inl response => set_var (lastFullBackup, response);; mret true
                    end
                end
          end
      | _ => mret false
      end
  end.

Definition restoreLastBackup {L} (r : Daemon) (dr : DisasterRecovery) (interval timeout : Z) : M (St W L) (string * string) :=
  '(_, (lastFullBackup, jobId)) ← with_var ("", "") (PollImmediate interval timeout (restore_turn r dr));
  mret (lastFullBackup, jobId).

(** A turn of the waits for a job. *)
Definition job_turn {L} (r : Daemon) (id : string) : M (St W L) bool :=
  r1 ← try (processRequest r "GET" (backupDaemonUrl r +:+ "/jobstatus/" +:+ id) None);
  match r1 with
  | inr _ => mret false
  | inl response =>
      match getBackupStatus response with
      | Ret status => mret (bool_decide (status = "Successful"))
      | _ => mret false
      end
  end.

Definition checkRestoreStatus {L} (r : Daemon) (jobId : string) (interval timeout : Z) : M (St W L) unit :=
  PollImmediate interval timeout (job_turn r jobId).

(** A turn of the wait of [performBackup], with the variable [vaultId]. *)
Definition backup_turn {L} (r : Daemon) : M (St W (L * string)) bool :=
  r1 ← try (processRequest r "POST" (backupDaemonUrl r +:+ "/backup") None);
  match r1 with
  | inr _ => mret false
  | inl response => set_var response;; mret true
  end.

Definition performBackup {L} (r : Daemon) (interval timeout : Z) : M (St W L) string :=
  '(_, vaultId) ← with_var "" (PollImmediate interval timeout (backup_turn r));
  mret vaultId.

Definition checkBackupStatus {L} (r : Daemon) (vaultId : string) (interval timeout : Z) : M (St W L) unit :=
  PollImmediate interval timeout (job_turn r vaultId).

End requests.

Section reconciler.
Context `{Env W} `{Retry} `{Polling} `{Library} `{Marshaler strmap} `{Unmarshaler StatusResponse} `{Unmarshaler (list string)}
  `{Unmarshaler BackupInfoResponse}.
Context (url_Parse : string → option gerror) (now : W → string) (cr : KafkaService).

Abbreviation run := (M (St W ServiceState)).

Definition backupDaemonName : string := cr_Name cr +:+ "-backup-daemon".

Definition scaleDeployment (replicas : Z) : run unit :=
  backupDaemonDeployment ← FindDeployment backupDaemonName (cr_Namespace cr);
  _ ← request (Update KDeployment (set_dep_Replicas (Some replicas) backupDaemonDeployment));
  mret tt.

Definition scaleDeploymentWithCheck (replicas interval timeout : Z) : run unit :=
  scaleDeployment replicas;;
  PollImmediate interval timeout (AreDeploymentsReady (GetBackupDaemonLabels cr) (cr_Namespace cr)).

Definition getBackupDaemonCredentials : run (string * string) :=
  r ← try (FindSecret (cr_Name cr +:+ "-backup-daemon-secret") (cr_Namespace cr));
  match r with
  | inr _ => mret ("", "")
  | inl foundSecret => mret (sget (secret_Data foundSecret) "username", sget (secret_Data foundSecret) "password")
  end.

(** The daemon listens with TLS when the operator has its certificate. *)
Definition daemon : run Daemon :=
  '(username, password) ← getBackupDaemonCredentials;
  r ← try (request (ReadFile certificateFilePath));
  let url := match r with
             | inl _ => "https://" +:+ cr_Name cr +:+ "-backup-daemon." +:+ cr_Namespace cr +:+ ":8443"
             | inr _ => "http://" +:+ cr_Name cr +:+ "-backup-daemon." +:+ cr_Namespace cr +:+ ":8080"
             end in
  mret (mkDaemon username password url).

(** A switch-over with backups is due. *)
Definition backup_switchover_due (dr : DisasterRecovery) : bool :=
  negb (bool_decide (DisasterRecoveryStatus_Mode (dr_status cr) = "")) &&
  negb (bool_decide (DisasterRecoveryStatus_Mode (dr_status cr) = DisasterRecovery_Mode dr)) ||
  bool_decide (DisasterRecoveryStatus_Status (dr_status cr) = "failed").

Definition become_active (r : Daemon) (dr : DisasterRecovery) : run unit :=
  scaleDeploymentWithCheck 1 waitingInterval scaleTimeout;;
  '(lastFullBackup, jobId) ← restoreLastBackup url_Parse r dr waitingInterval backupRestoreTimeout;
  if decide (lastFullBackup = "") then mret tt
  else checkRestoreStatus url_Parse r jobId waitingInterval backupRestoreTimeout.

Definition become_standby (r : Daemon) : run unit :=
  vaultId ← performBackup url_Parse r waitingInterval backupRestoreTimeout;
  checkBackupStatus url_Parse r vaultId waitingInterval backupRestoreTimeout;;
  scaleDeploymentWithCheck 0 waitingInterval backupRestoreTimeout.

Definition switch (r : Daemon) (dr : DisasterRecovery) : run unit :=
  let mode := ToLower (DisasterRecovery_Mode dr) in
  if decide (mode = "active") then become_active r dr
  else if decide (mode = "standby" ∧ ToLower (DisasterRecoveryStatus_Mode (dr_status cr)) ≠ "disable") then become_standby r
  else if decide (mode = "disable") then scaleDeploymentWithCheck 0 waitingInterval backupRestoreTimeout
  else mret tt.

Definition set_done (instance : KafkaService) : KafkaService :=
  let old := dr_status instance in
  set_KafkaService_Status
    (set_KafkaServiceStatus_DisasterRecoveryStatus
       (mkDisasterRecoveryStatus (DisasterRecoveryStatus_Mode old) "done" (DisasterRecoveryStatus_Comment old) "")
       (KafkaService_Status instance)) instance.

Definition Reconcile : run unit :=
  kafkaServicesSecret ← watch (MonitoringReconciler.services_secret cr) cr;
  _ ← FindDeployment backupDaemonName (cr_Namespace cr);
  updateDeploymentSecretRestartAnnotations (cr_Namespace cr) backupDaemonName [Some kafkaServicesSecret];;
  match cr_dr cr with
  | None => mret tt
  | Some dr =>
      if negb (TopicsBackup_Enabled (DisasterRecovery_TopicsBackup dr)) then mret tt
      else if backup_switchover_due dr then
        r ← daemon;
        switch r dr;;
        UpdateStatusWithRetry (k := KKafkaService) (cr_Name cr) (cr_Namespace cr) (λ instance, mret (set_done instance))
      else mret tt
  end.

Definition Status : run unit :=
  let skipped := match cr_dr cr with
                 | Some dr => bool_decide (DisasterRecovery_Mode dr = "standby") && TopicsBackup_Enabled (DisasterRecovery_TopicsBackup dr)
                 | None => false
                 end in
  if skipped then mret tt
  else
    check_readiness now cr backupDaemonConditionReason "Kafka Backup Daemon health check"
      "Kafka backupDaemonConditionReason pod is not ready" "Kafka backupDaemonConditionReason pod is ready"
      (GetBackupDaemonLabels cr) (pods_timeout cr).

End reconciler.

(** ** What the daemon reported *)

(** The daemon answered a request with this body, whatever the status. *)
Definition reported (method url response : string) (e : event) : Prop :=
  ∃ body auth ca code, e = Ev (HttpDo method url body auth ca) (inl (code, response)).

(** Between two states of a run. *)
Definition answered {W L L'} (s : St W L) (s' : St W L') (method url response : string) : Prop :=
  ∃ tr, trace s' = trace s ++ tr ∧ Exists (reported method url response) tr.

Definition any (e : event) : Prop := True.

Lemma any_prefix `{Env W} {L A} (m : M (St W L) A) s a s' : emits any m → m s = (a, s') → trace s `prefix_of` trace s'.
Proof. intros Hm E. rewrite <- (f_equal snd E : _ = s'). by eapply emits_prefix. Qed.

Lemma answered_weaken {W L1 L2 L3 L4} (s0 : St W L1) (s : St W L2) (s' : St W L3) (s1 : St W L4) method url response :
  trace s0 `prefix_of` trace s → answered s s' method url response → trace s' `prefix_of` trace s1 → answered s0 s1 method url response.
Proof.
  intros [t0 E0] (tr & E & HE) [t1 E1]. exists (t0 ++ tr ++ t1). split; [by rewrite E1, E, E0, <- !app_assoc|].
  rewrite !Exists_app. by right; left.
Qed.

Section reports.
Context `{Env W} `{Polling} `{Marshaler strmap} `{Unmarshaler StatusResponse} `{Unmarshaler (list string)} `{Unmarshaler BackupInfoResponse}.
Context (url_Parse : string → option gerror) {L : Type}.

Abbreviation processRequest := (processRequest url_Parse).

Lemma any_processRequest {L'} r method url body : emits (L := L') any (processRequest r method url body).
Proof. unfold BackupDaemonReconciler.processRequest. by emits_auto. Qed.

Lemma processRequest_answered {L'} r method url body (s s' : St W L') response :
  processRequest r method url body s = (Ret response, s') → answered s s' method url response.
Proof.
  unfold BackupDaemonReconciler.processRequest. destruct (url_Parse url); [done|]. rewrite try_request_bind. set (ca := match _ with inl _ => _ | inr _ => _ end).
  unfold mbind, M_bind, request. cbn [world trace local].
  match goal with |- context [perform ?R ?c ?w] => destruct (perform R c w) as [[[code body']|e] w2] end; [|done]. intros [= <- <-].
  eexists. split; [cbn; by rewrite <- app_assoc|]. apply Exists_cons_tl, Exists_cons_hd. by eexists _, _, _, _.
Qed.

Lemma any_job_turn {L'} r id : emits any (job_turn (W := W) (L := L') url_Parse r id).
Proof. unfold job_turn. emits_auto; try done. apply any_processRequest. Qed.

(** A job that succeeded, as the daemon reported. *)
Definition job_successful {L' L''} (r : Daemon) (id : string) (s : St W L') (s' : St W L'') : Prop :=
  ∃ response, answered s s' "GET" (backupDaemonUrl r +:+ "/jobstatus/" +:+ id) response ∧ getBackupStatus response = Ret "Successful".

Lemma job_awaited r id interval timeout (s s' : St W L) :
  PollImmediate interval timeout (job_turn url_Parse r id) s = (Ret tt, s') → job_successful r id s s'.
Proof.
  intros (s1 & Hp & Ht)%PollImmediate_true; [|intros s1; eapply emits_prefix, any_job_turn]. revert Ht. unfold job_turn, mbind, M_bind, try.
  destruct (processRequest r "GET" _ None s1) as [[response|e|] s2] eqn:E; [|done..]. apply processRequest_answered in E.
  destruct (getBackupStatus response) as [status|e|] eqn:Es; [|done..]. intros [= Hb <-]. apply bool_decide_eq_true in Hb as ->.
  exists response. split; [|done]. by eapply answered_weaken.
Qed.

Lemma performBackup_answered r interval timeout (s s' : St W L) vaultId :
  performBackup url_Parse r interval timeout s = (Ret vaultId, s') → answered s s' "POST" (backupDaemonUrl r +:+ "/backup") vaultId.
Proof.
  unfold performBackup. intros ([[] v] & s1 & Hw & [= <- <-])%bind_inv. apply with_var_inv in Hw as (s2 & Hp & <- & Et).
  apply PollImmediate_true in Hp as (s3 & Hp & Ht).
  - revert Ht. unfold backup_turn, mbind, M_bind, try. destruct (processRequest r "POST" _ None s3) as [[response|e|] s4] eqn:E; [|done..].
    apply processRequest_answered in E. intros [= <-]. cbn. eapply answered_weaken; [exact Hp|exact E|]. by rewrite Et.
  - intros s3. eapply (emits_prefix any). unfold backup_turn, set_var. emits_auto; try done. apply any_processRequest.
Qed.

End reports.

(** ** The switch-over: properties *)

Section switchover.
Context `{Env W} `{Retry} `{Polling} `{Library} `{Marshaler strmap} `{Unmarshaler StatusResponse} `{Unmarshaler (list string)}
  `{Unmarshaler BackupInfoResponse}.
Context (url_Parse : string → option gerror) (now : W → string) (cr : KafkaService).

Lemma reads_processRequest {L'} r method url body : emits (L := L') reads_only (processRequest url_Parse r method url body).
Proof. unfold processRequest. by emits_auto. Qed.

Lemma reads_job_turn {L'} r id : emits (L := L') reads_only (job_turn url_Parse r id).
Proof. unfold job_turn. emits_auto; try done. apply reads_processRequest. Qed.

Lemma reads_performBackup {L'} r interval timeout : emits (L := L') reads_only (performBackup url_Parse r interval timeout).
Proof.
  unfold performBackup. apply emits_bind; [|intros [[] v]; apply emits_ret]. apply emits_with_var, emits_PollImmediate; [|done].
  unfold backup_turn, set_var. emits_auto; try done. apply reads_processRequest.
Qed.

(** C5. The side that becomes standby stops its backup daemon only after a backup: until the daemon
    has accepted a backup and reported the job with the accepted identifier successful, the run
    writes nothing to the API server, whatever fails on the way. *)
Theorem daemon_stopped_after_backup r s o s' :
  become_standby url_Parse cr r s = (o, s') →
  ∃ s1 tr, trace s1 = trace s ++ tr ∧ Forall reads_only tr ∧
    (trace s' = trace s1 ∨
     trace s1 `prefix_of` trace s' ∧
     ∃ vaultId, answered s s1 "POST" (backupDaemonUrl r +:+ "/backup") vaultId ∧ job_successful r vaultId s (s1 : St W ServiceState)).
Proof.
  unfold become_standby. intros Hr. unfold mbind, M_bind in Hr.
  destruct (reads_performBackup r waitingInterval backupRestoreTimeout s) as (tr1 & E1 & F1).
  destruct (performBackup url_Parse r waitingInterval backupRestoreTimeout s) as [[vaultId|e|] s1] eqn:Eb; cbn [snd] in E1;
    [|injection Hr as <- <-; exists s1, tr1; eauto..].
  apply performBackup_answered in Eb.
  destruct (emits_PollImmediate reads_only waitingInterval backupRestoreTimeout _ (reads_job_turn r vaultId) (λ _, eq_refl) s1) as (tr2 & E2 & F2).
  unfold checkBackupStatus in Hr.
  assert (HF : Forall reads_only (tr1 ++ tr2)) by by apply Forall_app_2.
  destruct (PollImmediate waitingInterval backupRestoreTimeout _ s1) as [[[]|e|] s2] eqn:Ec; cbn [snd] in E2;
    [|injection Hr as <- <-; exists s2, (tr1 ++ tr2); rewrite E2, E1, app_assoc; by eauto..].
  apply job_awaited in Ec. exists s2, (tr1 ++ tr2). split; [by rewrite E2, E1, app_assoc|]. split; [done|]. right. split.
  - eapply (any_prefix (scaleDeploymentWithCheck cr 0 waitingInterval backupRestoreTimeout)); [|exact Hr].
    unfold scaleDeploymentWithCheck, scaleDeployment, FindDeployment. emits_auto; try done. apply emits_PollImmediate; [|done].
    unfold AreDeploymentsReady, FindDeploymentList. by emits_auto.
  - exists vaultId. split.
    + eapply answered_weaken; [done|exact Eb|]. by exists tr2.
    + destruct Ec as (response & Ha & Hs). exists response. split; [|done]. eapply answered_weaken; [by exists tr1|exact Ha|done].
Qed.

(** *** The backup to restore *)

Lemma latest_first_permutation backups : latest_first backups ≡ₚ backups.
Proof. apply merge_sort_Permutation. Qed.

Lemma latest_first_sorted backups : StronglySorted (λ a b, String.le b a) (latest_first backups).
Proof.
  unfold latest_first. apply StronglySorted_merge_sort.
  - intros a b c Hab Hbc. by etrans.
  - intros a b. destruct (total String.le a b); auto.
Qed.

(** What the daemon said of a backup. *)
Definition described {L' L''} (r : Daemon) (s : St W L') (s' : St W L'') (backup : string) (info : BackupInfoResponse) : Prop :=
  ∃ response, answered s s' "GET" (backupDaemonUrl r +:+ "/listbackups/" +:+ backup) response ∧ unmarshal response = Ret info.

Lemma described_weaken {L1 L2 L3 L4} r (s0 : St W L1) (s : St W L2) (s' : St W L3) (s1 : St W L4) backup info :
  trace s0 `prefix_of` trace s → described r s s' backup info → trace s' `prefix_of` trace s1 → described r s0 s1 backup info.
Proof. intros H0' (response & Ha & Hu) H1'. exists response. split; [|done]. by eapply answered_weaken. Qed.

Lemma any_first_foreign_backup {L'} r region backups : emits (L := L') any (first_foreign_backup url_Parse r region backups).
Proof. induction backups as [|b bs IH]; cbn [first_foreign_backup]; emits_auto; try done; apply any_processRequest. Qed.

Lemma first_foreign_backup_spec {L'} r region backups (s s' : St W L') backup :
  first_foreign_backup url_Parse r region backups s = (Ret backup, s') →
  ∃ newer older, backups = newer ++ older ∧
    (∀ b, b ∈ newer → ∃ info, described r s s' b info ∧ foreign_full_backup region info = false) ∧
    (older = [] ∧ backup = "" ∨ ∃ rest info, older = backup :: rest ∧ described r s s' backup info ∧ foreign_full_backup region info = true).
Proof.
  revert s. induction backups as [|b bs IH]; intros s; cbn [first_foreign_backup].
  { intros [= <- <-]. exists [], []. split_and!; [done|set_solver|by left]. }
  intros (response & s1 & Hp & Hr)%bind_inv. pose proof (any_prefix _ _ _ _ (any_processRequest url_Parse _ _ _ _) Hp) as Hx.
  apply processRequest_answered in Hp. apply bind_inv in Hr as (info & s2 & [= Hu <-] & Hr).
  destruct (foreign_full_backup region info) eqn:Ef.
  - injection Hr as <- <-. exists [], (b :: bs). split_and!; [done|set_solver|]. right. exists bs, info. split_and!; [done| |done]. by exists response.
  - pose proof (any_prefix _ _ _ _ (any_first_foreign_backup _ _ _) Hr) as Hy. apply IH in Hr as (newer & older & -> & HN & HO).
    exists (b :: newer), older. split_and!; [done| |].
    + intros x [->|Hin]%elem_of_cons.
      * exists info. split; [|done]. exists response. split; [|done]. eapply answered_weaken; [|exact Hp|exact Hy]; done.
      * destruct (HN x Hin) as (i & Hd & Hf). exists i. split; [|done]. eapply described_weaken; [exact Hx|exact Hd|done].
    + destruct HO as [HO|(rest & i & -> & Hd & Hf)]; [by left|right]. exists rest, i. split; [done|]. split; [eapply described_weaken; [exact Hx|exact Hd|done]|done].
Qed.

(** The backup to restore is the latest full backup of another region: the identifiers are taken
    from the greatest to the smallest, every one before the chosen one is not such a backup, as
    the daemon described it, the chosen one is, and without a chosen one none of them is. *)
Theorem getLastFullBackup_latest {L'} r region backups (s s' : St W L') backup :
  getLastFullBackup url_Parse r region backups s = (Ret backup, s') →
  ∃ newer older, newer ++ older ≡ₚ backups ∧ StronglySorted (λ a b, String.le b a) (newer ++ older) ∧
    (∀ b, b ∈ newer → ∃ info, described r s s' b info ∧ foreign_full_backup region info = false) ∧
    (older = [] ∧ backup = "" ∨
     ∃ rest info, older = backup :: rest ∧ described r s s' backup info ∧ foreign_full_backup region info = true).
Proof.
  intros (newer & older & E & HN & HO)%first_foreign_backup_spec. exists newer, older. rewrite <- E.
  split_and!; [apply latest_first_permutation|apply latest_first_sorted|done..].
Qed.

(** *** Becoming active *)

Lemma processRequest_event {L'} r method url body (s s' : St W L') response :
  processRequest url_Parse r method url body s = (Ret response, s') →
  ∃ auth ca code, Ev (HttpDo method url body auth ca) (inl (code, response)) ∈ trace s'.
Proof.
  unfold processRequest. destruct (url_Parse url); [done|]. rewrite try_request_bind. set (ca := match _ with inl _ => _ | inr _ => _ end).
  unfold mbind, M_bind, request. cbn [world trace local].
  match goal with |- context [perform ?R ?c ?w] => destruct (perform R c w) as [[[code body']|e] w2] end; [|done]. intros [= <- <-].
  eexists _, ca, code. cbn. apply elem_of_app. right. by left.
Qed.

(** A list of backups of which this one, or none with the empty text, is the one to restore. *)
Definition chosen {L'} (r : Daemon) (dr : DisasterRecovery) (s : St W ServiceState) (s' : St W L') (backup : string) : Prop :=
  ∃ (s1 s2 : St W (ServiceState * (string * string))) response backups,
    answered s s1 "GET" (backupDaemonUrl r +:+ "/listbackups") response ∧ getBackupList response = Ret backups ∧
    getLastFullBackup url_Parse r (DisasterRecovery_Region dr) backups s1 = (Ret backup, s2) ∧ trace s2 `prefix_of` trace s'.

(** The restore was accepted as this job. *)
Definition restore_accepted {L'} (r : Daemon) (s' : St W L') (backup jobId : string) : Prop :=
  ∃ body auth ca code, Marshal ({["vault" := backup]} : strmap) = inl body ∧
    Ev (HttpDo "POST" (backupDaemonUrl r +:+ "/restore") (Some body) auth ca) (inl (code, jobId)) ∈ trace s'.

Lemma any_restore_turn {L'} r dr : emits (L := L' * (string * string)) any (restore_turn url_Parse r dr).
Proof. unfold restore_turn, set_var, getLastFullBackup. emits_auto; try done; first [apply any_processRequest|apply any_first_foreign_backup]. Qed.

Lemma restore_turn_true r dr (s : St W ServiceState) (s1 s2 : St W (ServiceState * (string * string))) :
  trace s `prefix_of` trace s1 → restore_turn url_Parse r dr s1 = (Ret true, s2) →
  chosen r dr s s2 (local s2).2.1 ∧
  ((local s2).2.1 = "" ∧ DisasterRecovery_NoWait dr = true ∨ (local s2).2.1 ≠ "" ∧ restore_accepted r s2 (local s2).2.1 (local s2).2.2).
Proof.
  intros Hp. unfold restore_turn, mbind, M_bind, try.
  destruct (processRequest url_Parse r "GET" _ None s1) as [[response|e|] s3] eqn:E1; [|done..].
  apply processRequest_answered in E1. destruct (getBackupList response) as [backups|e|] eqn:E2; [|done..].
  destruct (getLastFullBackup url_Parse r (DisasterRecovery_Region dr) backups s3) as [[backup|e|] s4] eqn:E3; [| |done].
  2: { unfold get_local, gets. cbn. by destruct (local s4) as [l [v j]]. }
  assert (HC : ∀ s5 : St W (ServiceState * (string * string)), trace s4 `prefix_of` trace s5 → chosen r dr s s5 backup).
  { intros s5 Hs5. exists s3, s4, response, backups. split_and!; [|done..]. by eapply answered_weaken. }
  unfold get_local, gets. cbn. destruct (local s4) as [l [v j]] eqn:El. unfold set_var, modify_local, modify. cbn. rewrite El. cbn.
  case_decide as D; [subst backup; intros [= Hn <-]; cbn; split; [by apply HC|by left]|].
  destruct (Marshal {["vault" := backup]}) as [body|e] eqn:Em; [|done].
  match goal with |- context [processRequest url_Parse r "POST" ?u ?b ?st] => destruct (processRequest url_Parse r "POST" u b st) as [[jobId|e|] s5] eqn:E5 end;
    [|done..].
  intros [= <-]. cbn. pose proof (any_prefix _ _ _ _ (any_processRequest url_Parse _ _ _ _) E5) as Hp5. cbn in Hp5.
  split; [by apply HC|]. right. split; [done|]. apply processRequest_event in E5 as (auth & ca & code & Hin). by exists body, auth, ca, code.
Qed.

(** C6. When becoming active returns nil, a backup was chosen from the list the daemon gave; either
    there was none and the resource says not to wait, or the daemon accepted the restore of that
    very backup as a job and reported this job successful. *)
Theorem activation_restores_backup r dr (s s' : St W ServiceState) :
  become_active url_Parse cr r dr s = (Ret tt, s') →
  ∃ backup, chosen r dr s s' backup ∧
    (backup = "" ∧ DisasterRecovery_NoWait dr = true ∨
     ∃ jobId, backup ≠ "" ∧ restore_accepted r s' backup jobId ∧ job_successful r jobId s s').
Proof.
  unfold become_active. intros ([] & s1 & Hs & Hr)%bind_inv.
  assert (Hp : trace s `prefix_of` trace s1).
  { eapply (any_prefix (scaleDeploymentWithCheck cr 1 waitingInterval scaleTimeout)); [|exact Hs].
    unfold scaleDeploymentWithCheck, scaleDeployment, FindDeployment. emits_auto; try done. apply emits_PollImmediate; [|done].
    unfold AreDeploymentsReady, FindDeploymentList. by emits_auto. }
  apply bind_inv in Hr as ([backup jobId] & s2 & Hb & Hr). unfold restoreLastBackup in Hb.
  apply bind_inv in Hb as ([[] [backup' jobId']] & s2' & Hw & [= -> -> ->]). apply with_var_inv in Hw as (s3 & Hw & Ev3 & Et).
  apply PollImmediate_true in Hw as (s4 & Hp4 & Ht); [|intros s4; eapply emits_prefix, any_restore_turn].
  cbn in Hp4. assert (Hp' : trace s `prefix_of` trace s4) by by etrans.
  pose proof (any_prefix _ _ _ _ (any_restore_turn r dr) Ht) as Hp43. apply (restore_turn_true _ _ _ _ _ Hp') in Ht as [HC HD]. rewrite Ev3 in HC, HD. cbn in HC, HD. exists backup.
  assert (HX : ∀ s5 : St W ServiceState, trace s3 `prefix_of` trace s5 → chosen r dr s s5 backup).
  { intros s5 Hp5. destruct HC as (a & b & c & d & H1' & H2' & H3' & H4'). exists a, b, c, d. split_and!; [done..|]. by etrans. }
  destruct HD as [[-> Hn]|[Hne HA]].
  - rewrite decide_True in Hr by done. injection Hr as <-. split; [apply HX; by rewrite Et|by left].
  - rewrite decide_False in Hr by done. pose proof Hr as Hj. unfold checkRestoreStatus in Hr. apply job_awaited in Hr.
    pose proof (any_prefix _ _ _ _ (emits_PollImmediate any waitingInterval backupRestoreTimeout _ (any_job_turn url_Parse r jobId) (λ _, I)) Hj) as Hp5.
    split; [apply HX; by rewrite <- Et|]. right. exists jobId. split; [done|]. split.
    + destruct HA as (body & auth & ca & code & Hm & Hin). exists body, auth, ca, code. split; [done|].
      eapply elem_of_prefix; [exact Hin|]. by rewrite <- Et.
    + destruct Hr as (response & Ha & Hs'). exists response. split; [|done]. eapply answered_weaken; [|exact Ha|done].
      rewrite Et. by etrans.
Qed.

End switchover.

(** ** Witnesses *)

#[local] Existing Instances retry_default poll_default.

(** A daemon that answers in plain words. *)
Definition example_status_reader : Unmarshaler StatusResponse := {| Unmarshal := λ body, inl (mkStatusResponse body "" "" "" "") |}.
Definition example_list_reader : Unmarshaler (list string) := {| Unmarshal := λ body, inl (Split body ",") |}.
Definition example_info_reader : Unmarshaler BackupInfoResponse :=
  {| Unmarshal := λ region, inl (mkBackupInfo false "full backup" "" false false 0 "" true true {["region" := region]}) |}.
Definition example_vault_writer : Marshaler strmap := {| Marshal := λ m, inl (sget m "vault") |}.

#[local] Existing Instances example_status_reader example_list_reader example_info_reader example_vault_writer.

Definition example_daemon : Daemon := mkDaemon "user" "secret" "http://kafka-backup-daemon.ns:8080".

Definition daemon_deployment (replicas : Z) : Deployment :=
  mkDeployment (newMeta "kafka-backup-daemon" "ns" {["component" := "kafka-backup-daemon"; "name" := "kafka-backup-daemon"]} ∅)
    "Recreate" (Some replicas) None ∅ (mkTemplate ∅ ∅ (mkPodSpec [] [] [] None "" None "" "" None [] "")) replicas replicas.

(** The daemon of the side dc1 knows two backups, the later of them made in its own region. *)
Definition daemon_web : gmap (string * string) (Z * string) :=
  {[("POST", "http://kafka-backup-daemon.ns:8080/backup") := (200, "job-1");
    ("GET", "http://kafka-backup-daemon.ns:8080/jobstatus/job-1") := (200, "Successful");
    ("GET", "http://kafka-backup-daemon.ns:8080/listbackups") := (200, "20240101,20240102");
    ("GET", "http://kafka-backup-daemon.ns:8080/listbackups/20240101") := (200, "dc2");
    ("GET", "http://kafka-backup-daemon.ns:8080/listbackups/20240102") := (200, "dc1");
    ("POST", "http://kafka-backup-daemon.ns:8080/restore") := (200, "job-2");
    ("GET", "http://kafka-backup-daemon.ns:8080/jobstatus/job-2") := (200, "Successful")]}.

Definition daemon_cluster (replicas : Z) : Cluster.Cluster :=
  store KDeployment (daemon_deployment replicas) (Cluster.mkCluster (λ _, ∅) [] [] [] [] [] ∅ 0 daemon_web ∅).

Definition empty_state : ServiceState := mkServiceState ∅ ∅ "" false.

Definition run_standby : outcome unit * St Cluster.Cluster ServiceState :=
  become_standby (λ _, None) standby_service example_daemon (start (daemon_cluster 0) empty_state).

Lemma daemon_stopped_after_backup_witness :
  ∃ s1 tr, trace s1 = [] ++ tr ∧ Forall reads_only tr ∧
    (trace run_standby.2 = trace s1 ∨
     trace s1 `prefix_of` trace run_standby.2 ∧
     ∃ vaultId, answered (start (daemon_cluster 0) empty_state) s1 "POST" (backupDaemonUrl example_daemon +:+ "/backup") vaultId ∧
       job_successful example_daemon vaultId (start (daemon_cluster 0) empty_state) (s1 : St Cluster.Cluster ServiceState)).
Proof.
  exact (daemon_stopped_after_backup (λ _, None) standby_service example_daemon (start (daemon_cluster 0) empty_state) run_standby.1 run_standby.2
    (surjective_pairing run_standby)).
Defined.

Definition run_choice : outcome string * St Cluster.Cluster unit :=
  getLastFullBackup (λ _, None) example_daemon "dc1" ["20240101"; "20240102"] (start (daemon_cluster 0) ()).

Lemma getLastFullBackup_latest_witness :
  ∃ newer older, newer ++ older ≡ₚ ["20240101"; "20240102"] ∧ StronglySorted (λ a b, String.le b a) (newer ++ older) ∧
    (∀ b, b ∈ newer → ∃ info, described example_daemon (start (daemon_cluster 0) ()) run_choice.2 b info ∧ foreign_full_backup "dc1" info = false) ∧
    (older = [] ∧ "20240101" = "" ∨
     ∃ rest info, older = "20240101" :: rest ∧ described example_daemon (start (daemon_cluster 0) ()) run_choice.2 "20240101" info ∧
       foreign_full_backup "dc1" info = true).
Proof.
  assert (HR : run_choice.1 = Ret "20240101") by (vm_compute; reflexivity).
  exact (getLastFullBackup_latest (λ _, None) example_daemon "dc1" ["20240101"; "20240102"] (start (daemon_cluster 0) ()) run_choice.2 "20240101"
    (eq_trans (surjective_pairing run_choice) (f_equal (λ o, (o, run_choice.2)) HR))).
Defined.

Definition run_active : outcome unit * St Cluster.Cluster ServiceState :=
  become_active (λ _, None) standby_service example_daemon (example_dr "active") (start (daemon_cluster 1) empty_state).

Lemma activation_restores_backup_witness :
  ∃ backup, chosen (λ _, None) example_daemon (example_dr "active") (start (daemon_cluster 1) empty_state) run_active.2 backup ∧
    (backup = "" ∧ DisasterRecovery_NoWait (example_dr "active") = true ∨
     ∃ jobId, backup ≠ "" ∧ restore_accepted example_daemon run_active.2 backup jobId ∧
       job_successful example_daemon jobId (start (daemon_cluster 1) empty_state) run_active.2).
Proof.
  assert (HR : run_active.1 = Ret tt) by (vm_compute; reflexivity).
  exact (activation_restores_backup (λ _, None) standby_service example_daemon (example_dr "active") (start (daemon_cluster 1) empty_state) run_active.2
    (eq_trans (surjective_pairing run_active) (f_equal (λ o, (o, run_active.2)) HR))).
Defined.

End BackupDaemonReconciler.
