(* ===== verification/ServiceComponents.v ===== *)
(** * The components of a KafkaService

    The reconcilers of ServiceReconcilers.v and BackupDaemon.v implement the interface of the
    KafkaService controller, and keep its promises: they leave the hashes of the controller alone
    and write no unknown status of the switch-over. *)

From S2P Require Import Prelude GoStrings Util Transformation Kube Api Providers MonitoringProviders.
From S2P Require Import MirrorMakerProvider External Cluster Reconciler KmmDr KafkaClient MirrorMakerConfig.
From S2P Require Import Auditor KafkaUsers AkhqConfigs AkhqProvider Conditions KafkaServices ServiceReconcilers.
From S2P Require Import BackupDaemon.

Import ServiceV7.

(** ** The operations of the shared reconciler *)

Section operations.
Context `{Env W} `{Retry} `{Polling} `{Library} {L : Type}.

Abbreviation typed := (keeps (W := W) (L := L) status_typed).
Abbreviation same := (same_local (W := W) (L := L)).

Lemma typed_WatchSecret name owner : typed (WatchSecret name owner).
Proof. unfold WatchSecret, UpdateSecret, FindSecret. keeps_auto. apply keeps_RetryOnConflict. unfold update_secret, FindSecret. keeps_auto. Qed.


Lemma typed_CreateOrUpdateService service : typed (CreateOrUpdateService service).
Proof. unfold CreateOrUpdateService. keeps_auto. Qed.


Lemma typed_CreateOrUpdateServiceAccount account : typed (CreateOrUpdateServiceAccount account).
Proof. unfold CreateOrUpdateServiceAccount. keeps_auto. Qed.


Lemma typed_CreateOrUpdateDeployment deployment : typed (CreateOrUpdateDeployment deployment).
Proof.
  unfold CreateOrUpdateDeployment, FindDeployment. keeps_auto. apply keeps_RetryOnConflict. unfold update_deployment, FindDeployment. keeps_auto.
Qed.


Lemma typed_StoreConfigMap cm : typed (StoreConfigMap cm).
Proof. unfold StoreConfigMap, FindConfigMap. keeps_auto. Qed.


Lemma typed_CreateOrUpdateSecret secret : typed (CreateOrUpdateSecret secret).
Proof. unfold CreateOrUpdateSecret, FindSecret. keeps_auto. Qed.


Lemma typed_CreateProtobufConfigMapIfNotExist namespace labels controller :
  typed (CreateProtobufConfigMapIfNotExist namespace labels controller).
Proof. unfold CreateProtobufConfigMapIfNotExist, getConfigMap. keeps_auto. Qed.

Lemma same_CreateProtobufConfigMapIfNotExist namespace labels controller :
  same (CreateProtobufConfigMapIfNotExist namespace labels controller).
Proof. unfold CreateProtobufConfigMapIfNotExist, getConfigMap. same_local_auto. Qed.

Lemma typed_AreDeploymentsReady labels namespace : typed (AreDeploymentsReady labels namespace).
Proof. unfold AreDeploymentsReady, FindDeploymentList. keeps_auto. Qed.


Lemma typed_PollImmediate interval timeout (cond : M (St W L) bool) : typed cond → typed (PollImmediate interval timeout cond).
Proof. intros Hc. apply keeps_PollImmediate; [done|]. intros tr r Ht. by apply status_typed_snoc. Qed.

Lemma typed_update_restart namespace name secrets : typed (updateDeploymentSecretRestartAnnotations namespace name secrets).
Proof. apply keeps_RetryOnConflict. keeps_auto. Qed.

Lemma same_update_restart namespace name secrets : same (updateDeploymentSecretRestartAnnotations namespace name secrets).
Proof. unfold updateDeploymentSecretRestartAnnotations. same_local_auto. Qed.

End operations.

#[local] Hint Resolve typed_WatchSecret typed_CreateOrUpdateService typed_CreateOrUpdateServiceAccount typed_CreateOrUpdateDeployment
  typed_StoreConfigMap typed_CreateOrUpdateSecret typed_CreateProtobufConfigMapIfNotExist same_CreateProtobufConfigMapIfNotExist
  typed_AreDeploymentsReady typed_PollImmediate typed_update_restart same_update_restart : operator.

(** Keys the components remember under are not the controller's. *)
Lemma set_ResourceHash_kept key hash l : key ∉ ["spec"; "annotations"; globalHashName] → hashes_kept l (set_ResourceHash key hash l).
Proof. intros Hk. split; [done|]. intros k Hin. cbn. apply lookup_insert_ne. by intros ->. Qed.

Lemma set_ResourceVersionOf_kept key version l : hashes_kept l (set_ResourceVersionOf key version l).
Proof. done. Qed.

Lemma set_controllerReferenceSet_kept b l : hashes_kept l (set_controllerReferenceSet b l).
Proof. done. Qed.

#[local] Hint Resolve set_ResourceVersionOf_kept set_controllerReferenceSet_kept : operator.
#[local] Hint Extern 1 (hashes_kept _ (set_ResourceHash _ _ _)) => apply set_ResourceHash_kept; by apply (bool_decide_unpack _) : operator.

(** ** The components *)

Section components.
Context `{Env W} `{Retry} `{Polling} `{Library} `{Digest}.
Context `{Marshaler Monitoring} `{Marshaler Akhq} `{Marshaler MirrorMaker} `{Marshaler MirrorMakerMonitoring}
  `{Marshaler DisasterRecovery} `{Marshaler (option (list string))} `{Marshaler strmap}.
Context `{Unmarshaler BackupDaemonReconciler.StatusResponse} `{Unmarshaler (list string)}
  `{Unmarshaler BackupDaemonReconciler.BackupInfoResponse}.
Context (now : W → string) (range : strmap → list (string * string)) (url_Parse : string → option gerror).

Lemma typed_check_readiness cr reason starting failed ready labels timeout :
  keeps status_typed (check_readiness (W := W) now cr reason starting failed ready labels timeout).
Proof. unfold check_readiness, condition. keeps_auto. Qed.

Lemma same_check_readiness cr reason starting failed ready labels timeout :
  same_local (check_readiness (W := W) now cr reason starting failed ready labels timeout).
Proof. unfold check_readiness, condition. same_local_auto. Qed.

Lemma typed_update_nodes cr labels set :
  (∀ nodes o, dr_known o → dr_known (set_KafkaService_Status (set nodes (KafkaService_Status o)) o)) →
  keeps status_typed (update_nodes (W := W) cr labels set).
Proof.
  intros Hs. unfold update_nodes, FindPodList. keeps_auto. apply typed_UpdateStatusWithRetry; [done|]. intros o s o' s' [= <- _]. apply Hs.
Qed.

Lemma same_update_nodes cr labels set : same_local (update_nodes (W := W) cr labels set).
Proof. unfold update_nodes, FindPodList. same_local_auto. Qed.

Lemma typed_apply_deployment cr deployment secrets : keeps status_typed (apply_deployment (W := W) cr deployment secrets).
Proof. unfold apply_deployment, own. keeps_auto. Qed.

Lemma same_apply_deployment cr deployment secrets : same_local (apply_deployment (W := W) cr deployment secrets).
Proof. unfold apply_deployment, own. same_local_auto. Qed.

Lemma typed_apply_service cr service : keeps status_typed (apply_service (W := W) cr service).
Proof. unfold apply_service, own. keeps_auto. Qed.

Lemma same_apply_service cr service : same_local (apply_service (W := W) cr service).
Proof. unfold apply_service, own. same_local_auto. Qed.

Lemma typed_apply_service_account cr name : keeps status_typed (apply_service_account (W := W) cr name).
Proof. unfold apply_service_account. keeps_auto. Qed.

Lemma same_apply_service_account cr name : same_local (apply_service_account (W := W) cr name).
Proof. unfold apply_service_account. same_local_auto. Qed.

End components.

#[local] Hint Resolve typed_check_readiness same_check_readiness same_update_nodes typed_apply_deployment same_apply_deployment
  typed_apply_service same_apply_service typed_apply_service_account same_apply_service_account : operator.

Section instance.
Context `{Env W} `{Retry} `{Polling} `{Library} `{Digest}.
Context `{Marshaler Monitoring} `{Marshaler Akhq} `{Marshaler MirrorMaker} `{Marshaler MirrorMakerMonitoring}
  `{Marshaler DisasterRecovery} `{Marshaler (option (list string))} `{Marshaler strmap}.
Context `{Unmarshaler BackupDaemonReconciler.StatusResponse} `{Unmarshaler (list string)}
  `{Unmarshaler BackupDaemonReconciler.BackupInfoResponse}.
Context (now : W → string) (range : strmap → list (string * string)) (url_Parse : string → option gerror).

(** Each component with its section of the resource. *)
Definition service_components : Components W := {|
  component_Reconcile := λ c cr,
    let spec := KafkaService_Spec cr in
    match c with
    | Monitoring_ => section ← lift (deref (KafkaServiceSpec_Monitoring spec)); MonitoringReconciler.Reconcile cr section
    | Akhq_ => section ← lift (deref (KafkaServiceSpec_Akhq spec)); AkhqReconciler.Reconcile range cr section
    | MirrorMaker_ drChecked =>
        section ← lift (deref (KafkaServiceSpec_MirrorMaker spec)); MirrorMakerReconciler.Reconcile range cr section drChecked
    | MirrorMakerMonitoring_ drChecked =>
        section ← lift (deref (KafkaServiceSpec_MirrorMakerMonitoring spec));
        MirrorMakerMonitoringReconciler.Reconcile cr section drChecked
    | IntegrationTests_ => IntegrationTestsReconciler.Reconcile
    | BackupDaemon_ => BackupDaemonReconciler.Reconcile url_Parse cr
    end;
  component_Status := λ c cr,
    let spec := KafkaService_Spec cr in
    match c with
    | Monitoring_ => section ← lift (deref (KafkaServiceSpec_Monitoring spec)); MonitoringReconciler.Status now cr section
    | Akhq_ => section ← lift (deref (KafkaServiceSpec_Akhq spec)); AkhqReconciler.Status now cr section
    | MirrorMaker_ drChecked => section ← lift (deref (KafkaServiceSpec_MirrorMaker spec)); MirrorMakerReconciler.Status now cr section
    | MirrorMakerMonitoring_ drChecked =>
        section ← lift (deref (KafkaServiceSpec_MirrorMakerMonitoring spec)); MirrorMakerMonitoringReconciler.Status now cr section
    | IntegrationTests_ =>
        section ← lift (deref (KafkaServiceSpec_IntegrationTests spec)); IntegrationTestsReconciler.Status now cr section
    | BackupDaemon_ => BackupDaemonReconciler.Status now cr
    end;
|}.

(** *** What they write *)

Lemma typed_monitoring cr spec : keeps status_typed (MonitoringReconciler.Reconcile (W := W) cr spec).
Proof.
  unfold MonitoringReconciler.Reconcile, MonitoringReconciler.monitoring_secret, MonitoringReconciler.exporter_config,
    MonitoringReconciler.apply, MonitoringReconciler.updateMonitoringStatus, watch, own, FindConfigMap, remember_object, remember_version, remember_hash.
  keeps_auto. by apply typed_update_nodes.
Qed.

Lemma typed_mirror_maker cr spec drChecked : keeps status_typed (MirrorMakerReconciler.Reconcile (W := W) range cr spec drChecked).
Proof.
  assert (HD : ∀ secret version cluster, keeps status_typed (MirrorMakerReconciler.createDeployment (W := W) range cr spec secret version cluster)).
  { intros. unfold MirrorMakerReconciler.createDeployment, own. keeps_auto. }
  assert (HR : ∀ secret version clusters, keeps status_typed (MirrorMakerReconciler.region_deployment (W := W) range cr spec secret version clusters)).
  { intros secret version clusters. induction clusters as [|c cs IH]; cbn; keeps_auto. }
  unfold MirrorMakerReconciler.Reconcile, MirrorMakerReconciler.mirror_maker_config, MirrorMakerReconciler.apply,
    MirrorMakerReconciler.updateMirrorMakerStatus, watch, own, FindConfigMap, remember_version, remember_hash.
  keeps_auto. by apply typed_update_nodes.
Qed.

Lemma typed_mirror_maker_monitoring cr spec drChecked : keeps status_typed (MirrorMakerMonitoringReconciler.Reconcile (W := W) cr spec drChecked).
Proof.
  unfold MirrorMakerMonitoringReconciler.Reconcile, MirrorMakerMonitoringReconciler.apply, watch, remember_object, remember_version, remember_hash.
  keeps_auto.
Qed.

Lemma typed_akhq cr spec : keeps status_typed (AkhqReconciler.Reconcile (W := W) range cr spec).
Proof.
  unfold AkhqReconciler.Reconcile, AkhqReconciler.deleteLegacyConfigMap, DeleteConfigMapByName, AkhqReconciler.getProtobufConfigMap,
    AkhqReconciler.ldap_objects, AkhqReconciler.getLdapConfigMap, AkhqReconciler.findDeserializationConfigMaps, GetAllConfigMapsFromNamespace,
    AkhqReconciler.apply, RestoreSpecFields, FindSecret, FindConfigMap, AkhqReconciler.updateAkhqStatus, watch, remember_object, remember_version, remember_hash.
  keeps_auto; by apply typed_update_nodes.
Qed.

Lemma typed_processRequest {L} daemon method url body :
  keeps status_typed (BackupDaemonReconciler.processRequest (W := W) (L := L) url_Parse daemon method url body).
Proof. unfold BackupDaemonReconciler.processRequest. keeps_auto. Qed.

Lemma same_processRequest {L} daemon method url body :
  same_local (BackupDaemonReconciler.processRequest (W := W) (L := L) url_Parse daemon method url body).
Proof. unfold BackupDaemonReconciler.processRequest. same_local_auto. Qed.

#[local] Hint Resolve @typed_processRequest @same_processRequest : operator.

Lemma typed_getLastFullBackup {L} daemon region backups :
  keeps status_typed (BackupDaemonReconciler.getLastFullBackup (W := W) (L := L) url_Parse daemon region backups).
Proof. unfold BackupDaemonReconciler.getLastFullBackup. generalize (BackupDaemonReconciler.latest_first backups) as bs. intros bs. induction bs; cbn; keeps_auto. Qed.

Lemma same_getLastFullBackup {L} daemon region backups :
  same_local (BackupDaemonReconciler.getLastFullBackup (W := W) (L := L) url_Parse daemon region backups).
Proof. unfold BackupDaemonReconciler.getLastFullBackup. generalize (BackupDaemonReconciler.latest_first backups) as bs. intros bs. induction bs; cbn; same_local_auto. Qed.

#[local] Hint Resolve @typed_getLastFullBackup @same_getLastFullBackup : operator.

Lemma typed_job_turn {L} daemon id : keeps status_typed (BackupDaemonReconciler.job_turn (W := W) (L := L) url_Parse daemon id).
Proof. unfold BackupDaemonReconciler.job_turn. keeps_auto. Qed.

Lemma same_job_turn {L} daemon id : same_local (BackupDaemonReconciler.job_turn (W := W) (L := L) url_Parse daemon id).
Proof. unfold BackupDaemonReconciler.job_turn. same_local_auto. Qed.

#[local] Hint Resolve @typed_job_turn @same_job_turn : operator.

Lemma typed_backup_daemon cr : keeps status_typed (BackupDaemonReconciler.Reconcile (W := W) url_Parse cr).
Proof.
  unfold BackupDaemonReconciler.Reconcile, BackupDaemonReconciler.daemon, BackupDaemonReconciler.getBackupDaemonCredentials,
    BackupDaemonReconciler.switch, BackupDaemonReconciler.become_active, BackupDaemonReconciler.become_standby,
    BackupDaemonReconciler.scaleDeploymentWithCheck, BackupDaemonReconciler.scaleDeployment, BackupDaemonReconciler.restoreLastBackup,
    BackupDaemonReconciler.performBackup, BackupDaemonReconciler.checkRestoreStatus, BackupDaemonReconciler.checkBackupStatus, FindDeployment, FindSecret, watch.
  keeps_auto; try (apply with_var_keeps, typed_PollImmediate; unfold BackupDaemonReconciler.restore_turn, BackupDaemonReconciler.backup_turn, set_var; keeps_auto).
  apply typed_UpdateStatusWithRetry; [done|]. intros o s o' s' [= <- _] _. unfold dr_known, BackupDaemonReconciler.set_done. cbn. set_solver.
Qed.

(** *** What they remember *)

Lemma kept_monitoring cr spec : relates hashes_kept (MonitoringReconciler.Reconcile (W := W) cr spec).
Proof.
  unfold MonitoringReconciler.Reconcile, MonitoringReconciler.monitoring_secret, MonitoringReconciler.exporter_config,
    MonitoringReconciler.apply, MonitoringReconciler.updateMonitoringStatus, watch, own, FindConfigMap, remember_object, remember_version, remember_hash.
  relates_auto.
Qed.

Lemma kept_mirror_maker cr spec drChecked : relates hashes_kept (MirrorMakerReconciler.Reconcile (W := W) range cr spec drChecked).
Proof.
  assert (HD : ∀ secret version cluster, same_local (MirrorMakerReconciler.createDeployment (W := W) range cr spec secret version cluster)).
  { intros. unfold MirrorMakerReconciler.createDeployment, own. same_local_auto. }
  assert (HR : ∀ secret version clusters, same_local (MirrorMakerReconciler.region_deployment (W := W) range cr spec secret version clusters)).
  { intros secret version clusters. induction clusters as [|c cs IH]; cbn; same_local_auto. }
  unfold MirrorMakerReconciler.Reconcile, MirrorMakerReconciler.mirror_maker_config, MirrorMakerReconciler.apply,
    MirrorMakerReconciler.updateMirrorMakerStatus, watch, own, FindConfigMap, remember_version, remember_hash.
  relates_auto.
Qed.

Lemma kept_mirror_maker_monitoring cr spec drChecked : relates hashes_kept (MirrorMakerMonitoringReconciler.Reconcile (W := W) cr spec drChecked).
Proof.
  unfold MirrorMakerMonitoringReconciler.Reconcile, MirrorMakerMonitoringReconciler.apply, watch, remember_object, remember_version, remember_hash.
  relates_auto.
Qed.

Lemma kept_akhq cr spec : relates hashes_kept (AkhqReconciler.Reconcile (W := W) range cr spec).
Proof.
  unfold AkhqReconciler.Reconcile, AkhqReconciler.deleteLegacyConfigMap, DeleteConfigMapByName, AkhqReconciler.getProtobufConfigMap,
    AkhqReconciler.ldap_objects, AkhqReconciler.getLdapConfigMap, AkhqReconciler.findDeserializationConfigMaps, GetAllConfigMapsFromNamespace,
    AkhqReconciler.apply, RestoreSpecFields, FindSecret, FindConfigMap, AkhqReconciler.updateAkhqStatus, watch, remember_object, remember_version, remember_hash.
  relates_auto.
Qed.

Lemma kept_backup_daemon cr : relates hashes_kept (BackupDaemonReconciler.Reconcile (W := W) url_Parse cr).
Proof.
  apply (relates_same hashes_kept).
  unfold BackupDaemonReconciler.Reconcile, BackupDaemonReconciler.daemon, BackupDaemonReconciler.getBackupDaemonCredentials,
    BackupDaemonReconciler.switch, BackupDaemonReconciler.become_active, BackupDaemonReconciler.become_standby,
    BackupDaemonReconciler.scaleDeploymentWithCheck, BackupDaemonReconciler.scaleDeployment, BackupDaemonReconciler.restoreLastBackup,
    BackupDaemonReconciler.performBackup, BackupDaemonReconciler.checkRestoreStatus, BackupDaemonReconciler.checkBackupStatus, FindDeployment, FindSecret, watch.
  same_local_auto; apply with_var_same_local; unfold BackupDaemonReconciler.restore_turn, BackupDaemonReconciler.backup_turn, set_var; relates_auto.
Qed.

(** *** The promises *)

#[local] Existing Instance service_components.

#[local] Hint Resolve typed_monitoring typed_mirror_maker typed_mirror_maker_monitoring typed_akhq typed_backup_daemon
  kept_monitoring kept_mirror_maker kept_mirror_maker_monitoring kept_akhq kept_backup_daemon : operator.

(** C4. The reconcilers of the services implement the interface of the controller: whatever the API
    server, the daemons and the clock answer, on every branch, errors and panics included, none
    of them touches the hashes the controller records for the resource itself, and none writes a
    status of the switch-over other than the known ones. *)
Theorem service_components_lawful : @LawfulComponents W _ service_components.
Proof.
  split; intros c cr; destruct c; cbn [component_Reconcile component_Status service_components].
  all: unfold IntegrationTestsReconciler.Reconcile, IntegrationTestsReconciler.Status, MonitoringReconciler.Status, MirrorMakerReconciler.Status,
    MirrorMakerMonitoringReconciler.Status, AkhqReconciler.Status, BackupDaemonReconciler.Status; solve [relates_auto|keeps_auto].
Qed.

End instance.
