(* ===== verification/Exporter.v ===== *)
(** * The monitoring exporter

    Source: monitoring/main.go, a program of its own.  It reads its settings from the environment
    and from files, asks the Kafka cluster for its topics, brokers and their configuration, and
    prints lines in the format of Telegraf: the topics with unclean leader election, those with a
    partition without a leader, and for each broker two settings and how its share of replicas and
    of leaders deviates from the mean, in percent.

    The environment, the files and the certificates are parameters, and so is the client of
    kafka-go, which answers from a world it may change.  [log.Fatalf] ends the program: an error.
    The result of [main] is the text it prints.  [range] and [ranges] are the order of ranging over
    maps. *)

From S2P Require Import Prelude Floats GoStrings.

Module Exporter.

(** ** Data of kafka-go *)

Record Broker := mkBroker { Host : string; Port : Z; ID : Z; Rack : string }.
Record Partition := mkPartition { Leader : Broker; Replicas : list Broker }.
Record Topic := mkTopic { topic_Name : string; Partitions : list Partition }.
Record MetadataResponse := mkMetadata { Brokers : list Broker; Topics : list Topic }.
Record ConfigEntry := mkConfigEntry { ConfigName : string; ConfigValue : string }.
Record ConfigResource := mkConfigResource { ResourceName : string; ConfigEntries : list ConfigEntry }.

Inductive resource_type := ResourceTypeTopic | ResourceTypeBroker.

Global Instance Broker_eq_dec : EqDecision Broker.
Proof. solve_decision. Defined.

Global Instance Broker_countable : Countable Broker.
Proof.
  refine (inj_countable' (λ b, (Host b, Port b, ID b, Rack b)) (λ '(h, p, i, r), mkBroker h p i r) _).
  by intros [].
Defined.

Abbreviation counts := (gmap Broker Z).

(** ** Settings *)

Definition monitoringSecretsBaseDir : string := "/etc/secrets/monitoring-pod-secrets".
Definition caCertPath : string := "/tls/ca.crt".
Definition tlsCertPath : string := "/tls/tls.crt".
Definition tlsKeyPath : string := "/tls/tls.key".

Section settings.
Context (LookupEnv : string → option string) (ReadFile : string → string + gerror).

Definition getEnv (key defaultValue : string) : string := default defaultValue (LookupEnv key).

Definition getBoolEnv (key defaultValue : string) : bool := bool_decide (ToLower (getEnv key defaultValue) = "true").

Definition getSecretFromFileOrEnv (filePath envKey : string) : string :=
  match ReadFile filePath with
  | inl secretBytes => TrimSpace secretBytes
  | inr _ => getEnv envKey ""
  end.

(** The variables of the package. *)
Record Settings := mkSettings {
  broker : string;
  saslUsername : string;
  saslPassword : string;
  serviceName : string;
  sslMechanism : string;
  isDebugEnabled : bool;
  sslEnabled : bool;
  monitoringLogs : string;
}.

Definition settings : Settings := {|
  broker := getEnv "KAFKA_ADDRESSES" "";
  saslUsername := getSecretFromFileOrEnv (monitoringSecretsBaseDir +:+ "/" +:+ "client_username") "KAFKA_USER";
  saslPassword := getSecretFromFileOrEnv (monitoringSecretsBaseDir +:+ "/" +:+ "client_password") "KAFKA_PASSWORD";
  serviceName := getEnv "KAFKA_SERVICE_NAME" "kafka";
  sslMechanism := getEnv "KAFKA_SASL_MECHANISM" "SCRAM-SHA-512";
  isDebugEnabled := getBoolEnv "KAFKA_MONITORING_SCRIPT_DEBUG" "false";
  sslEnabled := getBoolEnv "KAFKA_ENABLE_SSL" "false";
  monitoringLogs := getEnv "MONITORING_LOGS" "/tmp/monitoring/logs";
|}.

(** A logger with its debug flag; nil when the file in the directory cannot be opened, which the
    caller ignores. *)
Definition initLogger (OpenFile : string → string → option gerror) (debug : bool) (dir logFile : string) : option bool :=
  match OpenFile dir logFile with Some _ => None | None => Some debug end.

(** The flag is read through the pointer; the text goes to the file. *)
Definition Debug (logger : option bool) : outcome unit := _ ← deref logger; Ret tt.

(** ** Certificates *)

Context (Stat : string → bool + gerror) (LoadX509KeyPair : string → string → option gerror) (AppendCertsFromPEM : string → bool).

(** Whether a path is a file: [Stat] says whether it is a directory, and an error other than the
    absence of the file leaves a nil pointer. *)
Definition fileExists (filename : string) : outcome bool :=
  match Stat filename with
  | inl isDir => Ret (negb isDir)
  | inr err => if IsNotFound err then Ret false else Panic
  end.

(** The key pair that was loaded, if any, and the certificates of the pool. *)
Record TlsConfig := mkTlsConfig { Certificates : option (string * string); RootCAs : list string }.

Definition createTLSConfig (caFile certFile keyFile : string) : outcome TlsConfig :=
  certFound ← fileExists certFile;
  keyFound ← (if (certFound : bool) then fileExists keyFile else Ret false);
  cert ← (if (keyFound : bool) then
            match LoadX509KeyPair certFile keyFile with
            | Some err => Error (mkErr (err_reason err) ("could not load client key pair: " +:+ err_msg err))
            | None => Ret (Some (certFile, keyFile))
            end
          else Ret None);
  caFound ← fileExists caFile;
  caCertPool ← (if (caFound : bool) then
                  match ReadFile caFile with
                  | inr err => Error (mkErr (err_reason err) ("could not read ca certificate: " +:+ err_msg err))
                  | inl caCert => if AppendCertsFromPEM caCert then Ret [caCert] else Error (errorf "failed to append ca cert to pool")
                  end
                else Ret []);
  Ret (mkTlsConfig cert caCertPool).

End settings.

(** ** Topics *)

Definition unclean (entry : ConfigEntry) : bool :=
  bool_decide (ConfigName entry = "unclean.leader.election.enable" ∧ ConfigValue entry = "true").

Definition calcUncleanElectionLeaderTopics (configs : list ConfigResource) : list string :=
  omap (λ res,
    if existsb unclean (ConfigEntries res) then Some ("kafka_cluster,topic=" +:+ ResourceName res +:+ " unclean_election_topics=1") else None) configs.

Definition CalcTopicsWithoutLeader (topics : list Topic) : list string :=
  omap (λ topic,
    if existsb (λ partition, bool_decide (ID (Leader partition) = 0)) (Partitions topic) then
      Some ("kafka_cluster,topic=" +:+ topic_Name topic +:+ " topics_without_leader=1")
    else None) topics.

(** ** Brokers *)

Section brokers.
Context (serviceName : string).

Definition signature (id : string) : string := serviceName +:+ "-" +:+ id.

Definition brokerSignature (b : Broker) : string := signature (itoa (ID b)).

Definition increment (m : counts) (b : Broker) : counts := <[b := default 0 (m !! b) + 1]> m.

Definition brokerLeaders (topics : list Topic) : counts :=
  foldl (λ m topic, foldl (λ m partition, increment m (Leader partition)) m (Partitions topic)) ∅ topics.

Definition brokerPartitions (topics : list Topic) : counts :=
  foldl (λ m topic, foldl (λ m partition, foldl increment m (Replicas partition)) m (Partitions topic)) ∅ topics.

(** [result[signature] += text] *)
Definition append_to (result : strmap) (key text : string) : strmap := <[key := sget result key +:+ text]> result.

Definition sum_counts (entries : list (Broker * Z)) : float64 :=
  foldl (λ sum '(_, count), f64_add sum (f64_of_Z count)) (S754_zero false) entries.

Definition deviation (count : Z) (mean : float64) : Z :=
  f64_to_int (f64_mul (f64_div (f64_sub (f64_of_Z count) mean) mean) (f64_of_Z 100)).

Definition skew_text (field : string) (mean : float64) (count : Z) : string := "," +:+ field +:+ "=" +:+ itoa (deviation count mean) +:+ "i".

Definition add_skews (field : string) (mean : float64) (entries : list (Broker * Z)) (result : strmap) : strmap :=
  foldl (λ result '(b, count), append_to result (brokerSignature b) (skew_text field mean count)) result entries.

Definition broker_prefix : string := "kafka,broker=".

Context (ranges : counts → list (Broker * Z)) (range : strmap → list (string * string)).

(** Both means are over the brokers that hold replicas. *)
Definition numBrokers (topics : list Topic) : float64 := f64_of_Z (Z.of_nat (size (brokerPartitions topics))).
Definition meanPartitions (topics : list Topic) : float64 := f64_div (sum_counts (ranges (brokerPartitions topics))) (numBrokers topics).
Definition meanLeaders (topics : list Topic) : float64 := f64_div (sum_counts (ranges (brokerLeaders topics))) (numBrokers topics).

Definition with_skews (topics : list Topic) (result : strmap) : strmap :=
  add_skews "broker_leader_skew" (meanLeaders topics) (ranges (brokerLeaders topics))
    (add_skews "broker_skew" (meanPartitions topics) (ranges (brokerPartitions topics)) result).

Definition broker_lines (topics : list Topic) (result : strmap) : list string :=
  filter (λ metricPerBroker, Contains_str metricPerBroker broker_prefix = true) (range (with_skews topics result)).*2.

Definition CalcSkewNFormMetric (topics : list Topic) (result : strmap) : string :=
  foldl (λ metrics line, metrics +:+ line +:+ nl) "" (broker_lines topics result).

(** The variables of the loop over the resources keep their values from one to the next. *)
Record Threads := mkThreads { cleanerVal : string; fetchersVal : string }.

Definition read_threads (vals : Threads) (config : ConfigEntry) : Threads :=
  mkThreads (if decide (ConfigName config = "log.cleaner.threads") then ConfigValue config else cleanerVal vals)
            (if decide (ConfigName config = "num.replica.fetchers") then ConfigValue config else fetchersVal vals).

Definition threads_text (vals : Threads) : string :=
  "log_cleaner_threads_count=" +:+ cleanerVal vals +:+ "i,replica_fetcher_threads_count=" +:+ fetchersVal vals +:+ "i".

Definition read_resource (acc : strmap * Threads) (resource : ConfigResource) : strmap * Threads :=
  let vals := foldl read_threads acc.2 (ConfigEntries resource) in
  (append_to acc.1 (signature (ResourceName resource)) (threads_text vals), vals).

Definition start_lines (brokers : list Broker) : strmap :=
  foldl (λ result b, <[brokerSignature b := broker_prefix +:+ brokerSignature b +:+ " "]> result) ∅ brokers.

Definition with_threads (brokers : list Broker) (resources : list ConfigResource) : strmap :=
  (foldl read_resource (start_lines brokers, mkThreads "" "") resources).1.

End brokers.

(** ** The program *)

Record Mechanism := mkMechanism { scram_algorithm : string; scram_user : string; scram_password : string }.
Record Client := mkClient { Addr : list string; SASL : option Mechanism; TLS : option TlsConfig }.

Section program.
Context {W : Type} (LookupEnv : string → option string) (ReadFile : string → string + gerror).
Context (OpenFile : string → string → option gerror) (Stat : string → bool + gerror).
Context (LoadX509KeyPair : string → string → option gerror) (AppendCertsFromPEM : string → bool).
Context (scram_Mechanism : string → string → string → option gerror).
Context (Metadata : Client → W → (MetadataResponse + gerror) * W).
Context (DescribeConfigs : Client → list (resource_type * string) → W → (list ConfigResource + gerror) * W).
Context (ranges : counts → list (Broker * Z)) (range : strmap → list (string * string)).

(** An answer of the client, or the end of the program. *)
Definition or_fatal {A} (message : string) (ask : W → (A + gerror) * W) : M W A := λ w,
  match ask w with
  | (inl a, w) => (Ret a, w)
  | (inr err, w) => (Error (mkErr (err_reason err) (message +:+ err_msg err)), w)
  end.

Definition CalcCleanerNReplicaThreads (serviceName : string) (metadata : MetadataResponse) (client : Client) : M W strmap :=
  resources ← or_fatal "Failed to describe configs: "
    (DescribeConfigs client ((λ b, (ResourceTypeBroker, itoa (ID b))) <$> Brokers metadata));
  mret (with_threads serviceName (Brokers metadata) resources).

Definition CollectMetrics (serviceName : string) (configs : list ConfigResource) (metadata : MetadataResponse) (client : Client) : M W string :=
  let uncleanTopics := Join (calcUncleanElectionLeaderTopics configs) nl in
  let topicsWithoutLeader := Join (CalcTopicsWithoutLeader (Topics metadata)) nl in
  result ← CalcCleanerNReplicaThreads serviceName metadata client;
  mret (CalcSkewNFormMetric serviceName ranges range (Topics metadata) result +:+ uncleanTopics +:+ nl +:+ topicsWithoutLeader).

(** An error of the mechanism is ignored, and leaves none. *)
Definition mechanism (s : Settings) : option Mechanism :=
  if decide (saslUsername s ≠ "" ∧ saslPassword s ≠ "") then
    let algorithm := if decide (sslMechanism s = "SCRAM-SHA-512") then "SHA512" else "SHA256" in
    match scram_Mechanism algorithm (saslUsername s) (saslPassword s) with
    | Some _ => None
    | None => Some (mkMechanism algorithm (saslUsername s) (saslPassword s))
    end
  else None.

Definition main : M W string :=
  let s := settings LookupEnv ReadFile in
  let debugLogger := initLogger OpenFile (isDebugEnabled s) (monitoringLogs s) "additional-metrics.log" in
  lift (Debug debugLogger);;
  tls ← (if sslEnabled s then
           match createTLSConfig ReadFile Stat LoadX509KeyPair AppendCertsFromPEM caCertPath tlsCertPath tlsKeyPath with
           | Ret tlsConfig => mret (Some tlsConfig)
           | Error err => throw (mkErr (err_reason err) ("Failed to create TLS config: " +:+ err_msg err))
           | Panic => panic
           end
         else mret None);
  let client := mkClient (Split (broker s) ",") (mechanism s) tls in
  metadata ← or_fatal "Failed to get metadata: " (Metadata client);
  configs ← or_fatal "Failed to describe configs: "
    (DescribeConfigs client ((λ topic, (ResourceTypeTopic, topic_Name topic)) <$> Topics metadata));
  output ← CollectMetrics (serviceName s) configs metadata client;
  lift (Debug debugLogger);;
  mret output.

End program.
End Exporter.

(** ** Properties *)

Module ExporterProperties.
Import Exporter.

(** *** Text appended to the entries of a map *)

(** What a list of keys with texts holds for a key. *)
Fixpoint texts_for (key : string) (l : list (string * string)) : string :=
  match l with
  | [] => ""
  | p :: l => if decide (p.1 = key) then p.2 +:+ texts_for key l else texts_for key l
  end.

Definition append_all (result : strmap) (l : list (string * string)) : strmap :=
  foldl (λ result p, append_to result p.1 p.2) result l.

Lemma append_all_get result l key : sget (append_all result l) key = sget result key +:+ texts_for key l.
Proof.
  revert result. induction l as [|[k t] l IH]; intros result; cbn; [by rewrite app_empty_r|].
  rewrite IH. unfold append_to. rewrite sget_insert. destruct (decide (k = key)) as [->|Hn]; [by rewrite decide_True, app_assoc_s|].
  by rewrite decide_False.
Qed.

Lemma append_all_dom result l key : is_Some (append_all result l !! key) ↔ is_Some (result !! key) ∨ key ∈ l.*1.
Proof.
  revert result. induction l as [|[k t] l IH]; intros result; cbn; [set_solver|].
  rewrite IH. unfold append_to. rewrite elem_of_cons. destruct (decide (k = key)) as [->|Hn].
  - rewrite lookup_insert_eq. naive_solver.
  - rewrite lookup_insert_ne by done. naive_solver.
Qed.

Lemma texts_for_app key l1 l2 : texts_for key (l1 ++ l2) = texts_for key l1 +:+ texts_for key l2.
Proof. induction l1 as [|[k t] l1 IH]; [done|]. cbn. rewrite IH. case_decide; [by rewrite app_assoc_s|done]. Qed.

Lemma texts_for_none key l : key ∉ l.*1 → texts_for key l = "".
Proof. induction l as [|[k t] l IH]; [done|]. cbn. rewrite not_elem_of_cons. intros [Hk Hl]. rewrite decide_False by done. auto. Qed.

(** A key that one element of the list has. *)
Lemma texts_for_unique {A} (key text : A → string) (l : list A) a :
  NoDup l → a ∈ l → (∀ x, x ∈ l → key x = key a → x = a) → texts_for (key a) ((λ x, (key x, text x)) <$> l) = text a.
Proof.
  intros HN (l1 & l2 & ->)%list_elem_of_split HU. apply NoDup_app in HN as (_ & H1 & [H2 _]%NoDup_cons).
  assert (HO : ∀ l', l' ⊆ l1 ++ a :: l2 → a ∉ l' → texts_for (key a) ((λ x, (key x, text x)) <$> l') = "").
  { intros l' Hl Ha. apply texts_for_none. rewrite <- list_fmap_compose. intros (x & E & Hx)%list_elem_of_fmap. cbn in E.
    apply Ha. by rewrite <- (HU x (Hl x Hx) (eq_sym E)). }
  rewrite fmap_app, texts_for_app, fmap_cons. cbn [texts_for fst snd]. rewrite decide_True by done.
  rewrite !HO by set_solver. cbn. by rewrite app_empty_r.
Qed.

(** The letter f occurs in no field of a deviation. *)
Lemma texts_for_no_char key l c : Forall (λ p, has_char c p.2 = false) l → has_char c (texts_for key l) = false.
Proof. induction 1 as [|[k t] l Ht _ IH]; [done|]. cbn in Ht |- *. case_decide; [|done]. by rewrite has_char_app, Ht, IH. Qed.

Lemma Contains_has_char s sub c : Contains_str s sub = true → has_char c sub = true → has_char c s = true.
Proof.
  intros Hs Hc. induction s as [|a s IH]; [by destruct sub|]. cbn [Contains_str] in Hs.
  apply orb_true_iff in Hs as [Hs|Hs]; [|cbn [has_char]; by rewrite IH, orb_true_r].
  apply HasPrefix_spec in Hs as [t E]. by rewrite E, has_char_app, Hc.
Qed.

Lemma Contains_prefix s sub : HasPrefix s sub = true → Contains_str s sub = true.
Proof. intros Hp. destruct s; cbn [Contains_str]; by rewrite Hp. Qed.

(** *** Occurrences *)

(** The brokers that hold a replica, and those that lead a partition, once for each. *)
Definition holders (topics : list Topic) : list Broker := topics ≫= λ topic, Partitions topic ≫= Replicas.
Definition heads (topics : list Topic) : list Broker := topics ≫= λ topic, Leader <$> Partitions topic.

Definition occurrences (b : Broker) (l : list Broker) : nat := length (filter (λ b', b' = b) l).

Lemma increments_get (l : list Broker) (m : counts) b :
  foldl increment m l !! b = match occurrences b l with O => m !! b | n => Some (default 0 (m !! b) + Z.of_nat n) end.
Proof.
  revert m. induction l as [|b' l IH]; intros m; [done|]. cbn [foldl]. rewrite IH. unfold occurrences, increment. rewrite filter_cons.
  destruct (decide (b' = b)) as [->|Hn].
  - rewrite lookup_insert_eq. cbn [length]. destruct (length _); f_equal; cbn; lia.
  - by rewrite lookup_insert_ne.
Qed.

Lemma foldl_nested {A B C} (f : C → B → C) (g : A → list B) (m : C) (l : list A) :
  foldl (λ m a, foldl f m (g a)) m l = foldl f m (l ≫= g).
Proof. revert m. induction l as [|a l IH]; intros m; [done|]. cbn. by rewrite foldl_app, IH. Qed.

Lemma brokerPartitions_holders topics : brokerPartitions topics = foldl increment ∅ (holders topics).
Proof.
  unfold brokerPartitions, holders. rewrite <- foldl_nested. generalize (∅ : counts). induction topics as [|t ts IH]; intros m; [done|]. cbn.
  rewrite IH. f_equal. apply (foldl_nested increment Replicas).
Qed.

Lemma brokerLeaders_heads topics : brokerLeaders topics = foldl increment ∅ (heads topics).
Proof.
  unfold brokerLeaders, heads. rewrite <- foldl_nested. generalize (∅ : counts). induction topics as [|t ts IH]; intros m; [done|]. cbn.
  rewrite IH. f_equal. by rewrite foldl_fmap.
Qed.

Lemma count_get l b : foldl increment (∅ : counts) l !! b = match occurrences b l with O => None | n => Some (Z.of_nat n) end.
Proof. rewrite increments_get. by rewrite lookup_empty. Qed.

(** C29. The counts behind the deviations are those of a reference definition: the map has exactly the
    brokers that occur among the replicas, and among the leaders, with how often they occur. *)
Theorem brokers_counted topics b :
  brokerPartitions topics !! b = match occurrences b (holders topics) with O => None | n => Some (Z.of_nat n) end ∧
  brokerLeaders topics !! b = match occurrences b (heads topics) with O => None | n => Some (Z.of_nat n) end.
Proof. rewrite brokerPartitions_holders, brokerLeaders_heads. split; apply count_get. Qed.

(** *** The lines *)

Section lines.
Context (serviceName : string) (ranges : counts → list (Broker * Z)) (range : strmap → list (string * string)).
Context (ranges_perm : ∀ m, ranges m ≡ₚ map_to_list m) (range_perm : ∀ m, range m ≡ₚ map_to_list m).

(** A field of the line of a broker: none when the broker does not occur in the counts. *)
Definition field_text (field : string) (mean : float64) (m : counts) (b : Broker) : string :=
  match m !! b with Some n => skew_text field mean n | None => "" end.

(** The entries of the resources up to the one with a name. *)
Fixpoint entries_upto (name : string) (resources : list ConfigResource) : list ConfigEntry :=
  match resources with
  | [] => []
  | r :: rs => ConfigEntries r ++ (if decide (ResourceName r = name) then [] else entries_upto name rs)
  end.

(** The last value of a setting, empty when there is none. *)
Definition last_value (key : string) (entries : list ConfigEntry) : string :=
  default "" (ConfigValue <$> last (filter (λ e, ConfigName e = key) entries)).

Definition line_of (topics : list Topic) (resources : list ConfigResource) (b : Broker) : string :=
  let entries := entries_upto (itoa (ID b)) resources in
  broker_prefix +:+ brokerSignature serviceName b +:+ " "
  +:+ threads_text (mkThreads (last_value "log.cleaner.threads" entries) (last_value "num.replica.fetchers" entries))
  +:+ field_text "broker_skew" (meanPartitions ranges topics) (brokerPartitions topics) b
  +:+ field_text "broker_leader_skew" (meanLeaders ranges topics) (brokerLeaders topics) b.

Lemma signature_inj id id' : signature serviceName id = signature serviceName id' → id = id'.
Proof. unfold signature. by intros E%app_inj_l%app_inj_l. Qed.

Lemma brokerSignature_inj b b' : brokerSignature serviceName b = brokerSignature serviceName b' → ID b = ID b'.
Proof. intros E%signature_inj. by apply (inj pretty). Qed.

Lemma add_skews_all field mean entries result :
  add_skews serviceName field mean entries result =
  append_all result ((λ p, (brokerSignature serviceName p.1, skew_text field mean p.2)) <$> entries).
Proof. unfold add_skews, append_all. rewrite foldl_fmap. revert result. induction entries as [|[b n] es IH]; intros result; [done|]. apply IH. Qed.

Lemma skews_text field mean m b :
  (∀ b', is_Some (m !! b') → ID b' = ID b → b' = b) →
  texts_for (brokerSignature serviceName b) ((λ p, (brokerSignature serviceName p.1, skew_text field mean p.2)) <$> ranges m)
  = field_text field mean m b.
Proof.
  intros Hm. unfold field_text. assert (HE : ∀ p, p ∈ ranges m ↔ m !! p.1 = Some p.2).
  { intros [b' n]. rewrite ranges_perm. apply elem_of_map_to_list. }
  destruct (m !! b) as [n|] eqn:En.
  - apply (texts_for_unique (λ p, brokerSignature serviceName p.1) (λ p, skew_text field mean p.2) (ranges m) (b, n)).
    + rewrite ranges_perm. apply NoDup_map_to_list.
    + by apply HE.
    + intros [b' n'] Hp%HE E%brokerSignature_inj. cbn in *. pose proof (Hm b' (ex_intro _ _ Hp) E) as ->. congruence.
  - apply texts_for_none. rewrite <- list_fmap_compose. intros ([b' n'] & E & Hp%HE)%list_elem_of_fmap. cbn in *.
    pose proof (Hm b' (ex_intro _ _ Hp) (eq_sym (brokerSignature_inj _ _ E))) as ->. congruence.
Qed.

(** The texts of the resources, with the values the loop starts with. *)
Fixpoint thread_texts (vals : Threads) (resources : list ConfigResource) : list (string * string) :=
  match resources with
  | [] => []
  | r :: rs =>
      let vals := foldl read_threads vals (ConfigEntries r) in
      (signature serviceName (ResourceName r), threads_text vals) :: thread_texts vals rs
  end.

Lemma read_resources result vals resources :
  (foldl (read_resource serviceName) (result, vals) resources).1 = append_all result (thread_texts vals resources).
Proof. revert result vals. induction resources as [|r rs IH]; intros result vals; [done|]. cbn. apply IH. Qed.

Lemma thread_texts_keys vals resources : (thread_texts vals resources).*1 = signature serviceName ∘ ResourceName <$> resources.
Proof. revert vals. induction resources as [|r rs IH]; intros vals; [done|]. cbn. f_equal. apply IH. Qed.

Lemma thread_texts_for vals resources id :
  NoDup (ResourceName <$> resources) → id ∈ ResourceName <$> resources →
  texts_for (signature serviceName id) (thread_texts vals resources) = threads_text (foldl read_threads vals (entries_upto id resources)).
Proof.
  revert vals. induction resources as [|r rs IH]; intros vals; [by intros _ ?%elem_of_nil|]. cbn [fmap list_fmap]. intros [Hr HN]%NoDup_cons Hid.
  cbn [thread_texts texts_for fst snd entries_upto]. rewrite foldl_app. destruct (decide (ResourceName r = id)) as [<-|Hn].
  - rewrite decide_True by done. rewrite texts_for_none; [by rewrite app_empty_r|]. rewrite thread_texts_keys.
    intros (r' & E & Hr')%list_elem_of_fmap. cbn in E. apply signature_inj in E. apply Hr. apply list_elem_of_fmap. by exists r'.
  - rewrite decide_False by (intros E%signature_inj; done). apply IH; [done|]. set_solver.
Qed.

Lemma read_threads_last vals entries :
  foldl read_threads vals entries =
  mkThreads (default (cleanerVal vals) (ConfigValue <$> last (filter (λ e, ConfigName e = "log.cleaner.threads") entries)))
            (default (fetchersVal vals) (ConfigValue <$> last (filter (λ e, ConfigName e = "num.replica.fetchers") entries))).
Proof.
  induction entries as [|e es IH] using rev_ind; [by destruct vals|]. rewrite foldl_app. cbn [foldl]. rewrite IH. unfold read_threads at 1.
  rewrite !filter_app, !filter_cons, !filter_nil. cbn [cleanerVal fetchersVal].
  f_equal; case_decide; (rewrite ?app_nil_r; try done); by rewrite last_snoc.
Qed.

Lemma start_lines_get brokers key :
  start_lines serviceName brokers !! key =
  if decide (key ∈ brokerSignature serviceName <$> brokers) then Some (broker_prefix +:+ key +:+ " ") else None.
Proof.
  unfold start_lines. induction brokers as [|b bs IH] using rev_ind; [done|]. rewrite foldl_app, fmap_app. cbn [foldl].
  destruct (decide (key = brokerSignature serviceName b)) as [->|Hn].
  - rewrite lookup_insert_eq, decide_True; [done|]. set_solver.
  - rewrite lookup_insert_ne, IH by done. apply decide_ext. set_solver.
Qed.

Lemma counted_occurs l b : is_Some (foldl increment (∅ : counts) l !! b) → b ∈ l.
Proof.
  rewrite count_get. unfold occurrences. intros Hs. destruct (filter (λ b', b' = b) l) as [|x xs] eqn:E; [by destruct Hs|].
  assert (Hx : x ∈ filter (λ b', b' = b) l) by (rewrite E; left). apply list_elem_of_filter in Hx as [-> Hx]. done.
Qed.

Lemma skew_text_no_f field mean n : has_char "f" field = false → has_char "f" (skew_text field mean n) = false.
Proof. intros Hf. unfold skew_text. rewrite !has_char_app, Hf, itoa_has_char; [done|done|by left]. Qed.

Definition skew_entries (field : string) (mean : float64) (m : counts) : list (string * string) :=
  (λ p, (brokerSignature serviceName p.1, skew_text field mean p.2)) <$> ranges m.

(** What the loops leave in the map, and for which keys. *)
Lemma with_skews_get brokers topics resources key :
  sget (with_skews serviceName ranges topics (with_threads serviceName brokers resources)) key =
  sget (start_lines serviceName brokers) key +:+ texts_for key (thread_texts (mkThreads "" "") resources)
  +:+ texts_for key (skew_entries "broker_skew" (meanPartitions ranges topics) (brokerPartitions topics))
  +:+ texts_for key (skew_entries "broker_leader_skew" (meanLeaders ranges topics) (brokerLeaders topics)).
Proof. unfold with_skews, with_threads. by rewrite !add_skews_all, read_resources, !append_all_get, !app_assoc_s. Qed.

Lemma with_skews_started brokers topics resources key :
  is_Some (start_lines serviceName brokers !! key) →
  is_Some (with_skews serviceName ranges topics (with_threads serviceName brokers resources) !! key).
Proof. intros Hk. unfold with_skews, with_threads. rewrite !add_skews_all, read_resources, !append_all_dom. tauto. Qed.

Section cluster.
Context (brokers : list Broker) (topics : list Topic) (resources : list ConfigResource).
Context (names : ResourceName <$> resources ≡ₚ itoa ∘ ID <$> brokers) (ids : NoDup (ID <$> brokers)).
Context (known : ∀ b b', b ∈ brokers → b' ∈ holders topics ++ heads topics → ID b' = ID b → b' = b).

Abbreviation result := (with_skews serviceName ranges topics (with_threads serviceName brokers resources)).

Lemma broker_value b : b ∈ brokers → sget result (brokerSignature serviceName b) = line_of topics resources b.
Proof.
  intros Hb. rewrite with_skews_get. unfold sget at 1, map_get. rewrite start_lines_get, decide_True by set_solver.
  unfold skew_entries. rewrite !skews_text.
  - unfold brokerSignature. rewrite thread_texts_for, read_threads_last.
    + unfold line_of, brokerSignature, last_value. cbn [default from_option cleanerVal fetchersVal]. unfold id. by rewrite !app_assoc_s.
    + rewrite names, list_fmap_compose. by apply NoDup_fmap_2; [apply _|].
    + rewrite names. apply list_elem_of_fmap. by exists b.
  - intros b' Hs E. rewrite brokerLeaders_heads in Hs. apply counted_occurs in Hs. apply known; [done|set_solver|done].
  - intros b' Hs E. rewrite brokerPartitions_holders in Hs. apply counted_occurs in Hs. apply known; [done|set_solver|done].
Qed.

Lemma other_value key :
  key ∉ brokerSignature serviceName <$> brokers → Contains_str (sget result key) broker_prefix = false.
Proof.
  intros Hk. apply not_true_iff_false. intros Hc. apply (Contains_has_char _ _ "f") in Hc; [|done]. revert Hc. apply not_true_iff_false.
  rewrite with_skews_get. unfold sget, map_get. rewrite start_lines_get, decide_False by done.
  rewrite (texts_for_none key (thread_texts _ _)).
  - rewrite !has_char_app, !texts_for_no_char; [done|..]; apply Forall_fmap, Forall_true; intros p; by apply skew_text_no_f.
  - rewrite thread_texts_keys, list_fmap_compose, names, <- list_fmap_compose. exact Hk.
Qed.

Lemma kept_entries key v :
  result !! key = Some v ∧ Contains_str v broker_prefix = true ↔
  (key, v) ∈ (λ b, (brokerSignature serviceName b, line_of topics resources b)) <$> brokers.
Proof.
  assert (HG : ∀ v, result !! key = Some v → sget result key = v) by (intros v' E; unfold sget, map_get; by rewrite E).
  split.
  - intros [E Hc]. specialize (HG v E). destruct (decide (key ∈ brokerSignature serviceName <$> brokers)) as [Hk|Hk].
    + apply list_elem_of_fmap in Hk as (b & -> & Hb). rewrite (broker_value b Hb) in HG. subst v. apply list_elem_of_fmap. by exists b.
    + apply other_value in Hk. rewrite HG in Hk. congruence.
  - intros (b & [= -> ->] & Hb)%list_elem_of_fmap. split.
    + destruct (with_skews_started brokers topics resources (brokerSignature serviceName b)) as [v' E].
      { rewrite start_lines_get, decide_True by set_solver. by eexists. }
      rewrite E. f_equal. rewrite <- (HG v' E). by apply broker_value.
    + apply Contains_prefix. unfold line_of. apply HasPrefix_app.
Qed.

End cluster.

Lemma filter_snd {A B} (P : B → Prop) `{∀ x, Decision (P x)} (l : list (A * B)) : filter P l.*2 = (filter (λ p, P p.2) l).*2.
Proof. induction l as [|[a b] l IH]; [done|]. rewrite fmap_cons, !filter_cons. cbn [snd]. rewrite IH. by case_decide. Qed.

(** C28. The lines about brokers, whatever order the maps are ranged over in: one for each broker of the
    cluster and no other, with the two settings, the deviation of its share of replicas when it
    holds any, and that of its share of leaders when it leads a partition.  The value of a setting
    is the last one among the resources up to the broker's own: a broker whose answer lacks a
    setting is given the value of one before it.  The answer is to have a resource for each
    broker, and the brokers of the partitions are those of the cluster or have other numbers. *)
Theorem broker_lines_spec brokers topics resources :
  ResourceName <$> resources ≡ₚ itoa ∘ ID <$> brokers → NoDup (ID <$> brokers) →
  (∀ b b', b ∈ brokers → b' ∈ holders topics ++ heads topics → ID b' = ID b → b' = b) →
  broker_lines serviceName ranges range topics (with_threads serviceName brokers resources) ≡ₚ line_of topics resources <$> brokers.
Proof.
  intros Hn Hi Hk. unfold broker_lines. rewrite filter_snd.
  assert (HP : filter (λ p, Contains_str p.2 broker_prefix = true) (range (with_skews serviceName ranges topics (with_threads serviceName brokers resources)))
    ≡ₚ (λ b, (brokerSignature serviceName b, line_of topics resources b)) <$> brokers).
  { apply NoDup_Permutation.
    - apply NoDup_filter. rewrite range_perm. apply NoDup_map_to_list.
    - apply NoDup_fmap_2_strong; [|by eapply NoDup_fmap_1]. intros b b' Hb Hb' [= E%brokerSignature_inj _].
      apply list_elem_of_lookup in Hb as [i Ei], Hb' as [j Ej].
      assert (i = j) as ->; [|congruence]. apply (NoDup_lookup _ i j (ID b) Hi); rewrite list_lookup_fmap; [by rewrite Ei|rewrite Ej; cbn; congruence].
    - intros [key v]. rewrite list_elem_of_filter, range_perm, elem_of_map_to_list, <- (kept_entries brokers topics resources Hn Hi Hk). cbn. tauto. }
  rewrite HP, <- list_fmap_compose. done.
Qed.

End lines.

(** *** Example

    Two brokers; a partition has lost its leader; the second broker does not name its cleaner threads. *)

Definition broker1 : Broker := mkBroker "kafka-1" 9092 1 "".
Definition broker2 : Broker := mkBroker "kafka-2" 9092 2 "".
Definition no_broker : Broker := mkBroker "" 0 0 "".

Definition example_topics : list Topic :=
  [mkTopic "orders" [mkPartition broker1 [broker1; broker2]; mkPartition no_broker [broker2]]].

Definition example_resources : list ConfigResource :=
  [mkConfigResource "1" [mkConfigEntry "log.cleaner.threads" "4"; mkConfigEntry "num.replica.fetchers" "1"];
   mkConfigResource "2" [mkConfigEntry "num.replica.fetchers" "3"]].

Example example_leaderless : CalcTopicsWithoutLeader example_topics = ["kafka_cluster,topic=orders topics_without_leader=1"].
Proof. reflexivity. Qed.

Lemma broker_lines_spec_witness :
  broker_lines "kafka" map_to_list map_to_list example_topics (with_threads "kafka" [broker1; broker2] example_resources) ≡ₚ
  ["kafka,broker=kafka-1 log_cleaner_threads_count=4i,replica_fetcher_threads_count=1i,broker_skew=-33i,broker_leader_skew=0i";
   "kafka,broker=kafka-2 log_cleaner_threads_count=4i,replica_fetcher_threads_count=3i,broker_skew=33i"].
Proof.
  rewrite (broker_lines_spec "kafka" map_to_list map_to_list (λ m, reflexivity _) (λ m, reflexivity _) [broker1; broker2] example_topics example_resources).
  - vm_compute. reflexivity.
  - reflexivity.
  - vm_compute. apply (bool_decide_unpack (NoDup [1; 2])). vm_compute. exact I.
  - intros b b' Hb Hb'. set_unfold in Hb. set_unfold in Hb'. naive_solver.
Defined.

End ExporterProperties.
