(* ===== verification/Credentials.v ===== *)
(** * Adapters of the libraries for credentials

    Sources: operator/controllers/scram_client.go, operator/util/password.go.  Both are thin: the
    SCRAM exchange and the generation of passwords are libraries, here parameters; what is modelled
    is the state the SCRAM adapter keeps between the calls sarama makes of it, and the settings
    the password generator is made with. *)

From S2P Require Import Prelude.

(** ** SCRAM *)

Section scram.

(** The library: a client of a hash function, its conversations, which a step moves on, and which
    may be nil where the adapter passes one it has not made. *)
Context {HashGeneratorFcn Client ClientConversation : Type}.
Context (NewClient : HashGeneratorFcn → string → string → string → Client + gerror).
Context (NewConversation : Client → ClientConversation).
Context (conversation_Step : option ClientConversation → string → outcome ((string * option gerror) * option ClientConversation)).
Context (conversation_Done : option ClientConversation → outcome bool).

Record XDGSCRAMClient := mkScram {
  scram_Client : option Client;
  scram_Conversation : option ClientConversation;
  scram_Hash : HashGeneratorFcn;
}.

(** A client that cannot be made leaves nil in its place, and the conversation as it was. *)
Definition Begin (userName password authzID : string) (x : XDGSCRAMClient) : option gerror * XDGSCRAMClient :=
  match NewClient (scram_Hash x) userName password authzID with
  | inr err => (Some err, mkScram None (scram_Conversation x) (scram_Hash x))
  | inl client => (None, mkScram (Some client) (Some (NewConversation client)) (scram_Hash x))
  end.

Definition Step (challenge : string) (x : XDGSCRAMClient) : outcome ((string * option gerror) * XDGSCRAMClient) :=
  '(answer, conversation) ← conversation_Step (scram_Conversation x) challenge;
  Ret (answer, mkScram (scram_Client x) conversation (scram_Hash x)).

Definition Done (x : XDGSCRAMClient) : outcome bool := conversation_Done (scram_Conversation x).

(** The steps of an exchange, as sarama makes them: the answers, up to the first error. *)
Fixpoint exchange (challenges : list string) (x : XDGSCRAMClient) : outcome (list string * XDGSCRAMClient) :=
  match challenges with
  | [] => Ret ([], x)
  | challenge :: challenges =>
      '((response, err), x) ← Step challenge x;
      match err with
      | Some err => Error err
      | None => '(responses, x) ← exchange challenges x; Ret (response :: responses, x)
      end
  end.

(** An adapter that begins an exchange speaks as a new one: nothing of an exchange before it, nor
    of one that failed in the middle, is left.  A [Begin] that fails leaves the old conversation
    behind, so the adapter must not be used after it. *)
Theorem exchange_independent userName password authzID challenges x y :
  scram_Hash x = scram_Hash y →
  (Begin userName password authzID x).1 = (Begin userName password authzID y).1 ∧
  ((Begin userName password authzID x).1 = None →
   exchange challenges (Begin userName password authzID x).2 = exchange challenges (Begin userName password authzID y).2) ∧
  (is_Some (Begin userName password authzID x).1 →
   exchange challenges (Begin userName password authzID x).2 =
     exchange challenges (mkScram None (scram_Conversation x) (scram_Hash x))).
Proof.
  intros HE. unfold Begin. rewrite HE. destruct (NewClient _ _ _ _) as [client|err]; cbn.
  - split; [done|]. split; [done|]. by intros [? [=]].
  - split; [done|]. split; [done|]. done.
Qed.

End scram.

(** ** Passwords *)

Section passwords.

(** The library: a generator for an alphabet of symbols; the length of a password, its digits and
    symbols, whether there is no upper case, and whether characters may repeat. *)
Context {Generator : Type} (NewGenerator : string → Generator + gerror).
Context (generator_Generate : Generator → Z → Z → Z → bool → bool → string + gerror).

Definition NewOperatorPasswordGenerator : Generator + gerror := NewGenerator "_!".

(** Ten characters, one digit and one symbol, with upper case, none twice. *)
Definition Generate (operatorGenerator : Generator) : string + gerror := generator_Generate operatorGenerator 10 1 1 false false.

End passwords.
